(* ===== verification/_CoqProject ===== *)
-Q . S2P
Prelude.v
Lasts.v
Bitmap.v
StdString.v
BlockDevice.v
Ext2Layout.v
Ext2Dir.v
Ext2State.v
Ext2Inv.v
Ext2.v
Ext2Format.v
Ext2Files.v
Ext2Data.v
Ext2Write.v
Ext2Crud.v
Inserter.v
Ext2Any.v
Ext2Theorems.v
FileTree.v
Ext2View.v
Ext2Tree.v
Ext2Volume.v
InserterSpec.v
Ata.v
Keyboard.v
Console.v
Paging.v
BitFields.v
Gdt.v
Idt.v
Pic.v
Interrupt.v
Syscalls.v
KernelAny.v
Kernel.v
Boot.v
ShellStr.v
Shell.v
ShellCmd.v
ShellMain.v
ShellSpec.v
ShellLine.v
ShellKernel.v
ShellDir.v
Install.v
ShellPipe.v
ShellGrep.v
ShellFind.v
ShellTree.v
ShellAny.v
ShellEnds.v
