(* ===== verification/Prelude.v ===== *)
(** * x86-kernel-from-scratch: a verification development

    The repository is a 32-bit x86 kernel in C (directory src/src): drivers, an ext2-like
    file system on a 4 MiB disk, paging, interrupts and system calls; a shell that runs in
    user mode; and a host program that puts the shell on the disk image.  This library
    models these parts function by function and proves what they promise, from the single
    byte scan of a directory block up to the statement that a machine switched on with the disk the
    inserter wrote boots the shell, and that what is typed there ends up in a file.

    ** Conventions (this file)

    C code is a function in the monad [M S A] = [S -> res (A * S)] over the state it reaches.
    [res] has three outcomes: [Ok], [UB] (an access outside the object it is made through,
    a scan of more digits than the type holds, and so on) and [NoFuel] (a loop whose fuel
    ran out).  [wp m Q s] is total correctness: [m] ends with [Ok] in a state satisfying
    [Q]; a theorem stated with it excludes [UB] and [NoFuel].  Integers are [Z]; the
    conversions [u8], [u16], [u32], [s8], [s32] stand where the code wraps.  Memory is a
    function from addresses to bytes, of the width [PtrWidth]: 32 bits for the kernel and its
    programs, 32 or more for the inserter, which runs on the build machine; an object of its own (a buffer, a string) is a
    list of bytes, and an index outside it is [UB].  [Lasts.v] has the second logic:
    [ends] and [lasts] say that code does not run out of fuel and keeps the types of its
    state when nothing is assumed about the data; [UB] is allowed there.

    ** The parts, bottom up

    - [StdString], [Bitmap] (stdlib/string.c, header/stdlib/utils.h): the memory routines as
      loops, the bit operations with their abstract view.
    - [BlockDevice] (header/driver/disk.h): the interface between the file system and its
      drivers; class [BlockDevice] has the calls, [BlockDeviceLaws] their contract.
      Instances: [Ata] (driver/disk.c, port accesses against the laws [AtaLaws] of a
      drive and the assumption [IgnoresWhileBusy], with a concrete drive as an instance) and
      the image of [Inserter].
      [DeviceAnswers] is the weaker contract of the arbitrary-data theorems.
    - ext2 (filesystem/ext2.c, header/filesystem/ext2.h): [Ext2Layout] structures and
      geometry; [Ext2Dir] the scans of a directory block; [Ext2State] cached metadata,
      inodes, allocation; [Ext2] directories, format, mount and the calls.  The proofs are
      in layers: [Ext2Inv] (volume invariant, inodes, allocators), [Ext2Format],
      [Ext2Files] (directory and file as abstract values), [Ext2Data] and [Ext2Write]
      (copy and allocation loops), [Ext2Crud] (the calls, a directory that grows and a volume
      that fills up included), [Ext2View] (a directory as a map of names to contents, and
      the refinement).  [FileTree] is the specification of the whole file system, a finite
      tree with the calls as functions on it; [Ext2Tree] has the relation [volume] between
      disk and tree and what each call does to it, [Ext2Volume] the calls that keep it
      ([allowed]), the volumes they reach, and a call that does not keep it.
      [Ext2Theorems] collects the other properties, [Ext2Any] what holds on arbitrary disks.
    - [Keyboard], [Console], [Paging], [BitFields], [Gdt], [Idt], [Pic] (driver/keyboard.c,
      driver/framebuffer.c with the output part of cpu/interrupt.c, memory/paging.c,
      cpu/gdt.c, cpu/idt.c, the PIC part of cpu/interrupt.c): one file each with the state
      as a record, the functions, the specification (a queue fed by a scan code decoder, a
      terminal, the page walk, the processor's reading of descriptors and gates, the state
      machine of two 8259A) and the refinement.
    - [Interrupt], [Syscalls], [KernelAny] (cpu/interrupt.c): the handlers over file system,
      keyboard and console, requests decoded from the caller's memory; theorems that follow
      the bytes through a call; totality and types on arbitrary requests.
    - [Kernel], [Boot] (kernel.c): [kernel_setup] over the whole machine and what it reaches.
    - shell (user/shell.c): [ShellStr] strings and parser, [Shell] state, system call
      interface [Os], pipe and output, [ShellCmd] the commands, [ShellMain] the main loop.
      [ShellSpec], [ShellLine], [ShellDir], [ShellPipe], [ShellGrep], [ShellFind] and
      [ShellTree] prove the commands, the line, [ls] and [cd], the pipeline, [grep], [find],
      and [mkdir] and [rm] on the tree, against the contract [OsLaws]; [ShellKernel] discharges
      it: the calls go through [int 0x80] on the modelled kernel, with the request
      structures at the addresses of a [Frame] on the user's stack.  [ShellAny] and
      [ShellEnds] show that lines end on arbitrary data (interface [OsAnswers]).
    - [Inserter], [InserterSpec] (external/external-inserter.c): the whole host program with
      the host's files as a map, and its specification.
    - [Install]: the composition of all of it.

    ** What the theorems show

    - End to end ([Install]): the inserter leaves a disk from which the kernel boots into
      the inserted program; from power-on, a line typed at the keyboard becomes a file on
      the disk, through interrupts, shell, system calls, file system and driver.
    - File system: the five calls, on files and directories anywhere below the root, refine the
      calls on the tree, and as long as they are those that [Ext2Volume.allowed] lets through,
      a volume is described by exactly one tree, with bit
      maps that mark what is in use and nothing else; format and mount establish the
      invariant; within a directory, [write], [read], [delete] and [stat] refine a map from
      names to contents, errors and frame included; writing and deleting restore the
      counters.  The limits: what is stored of a file that is too large for its inode
      or for the free blocks, the inode and blocks lost when the directory cannot take the
      name, the directory [.] that deletes itself, the inode number that leaves the
      descriptor table.
    - Drivers and processor tables: the ATA driver reads back what it wrote, on a drive that
      ignores commands while it is busy; keyboard and
      console refine a queue and a terminal; paging keeps its frame accounting in every
      reachable state, allocates and releases exactly; start-up that ends has installed the
      tables, whatever the disk holds; ring 3 reaches ports 0x60 to 0x337 through the I/O bit map.
    - System calls and shell: write and read through requests in memory; [stat]; typed text
      arrives; [echo], [cat], [cp], [mv], [ls], [cd], [grep], [cat | grep] (the same as
      [grep]), [find], [mkdir] and [rm] on the kernel; the line editor; the parser with its overflow; [str_contains].
    - Arbitrary data: whatever disk, memory and registers hold, no interrupt, system call,
      start-up or line that does not run [find] goes on for ever: it ends with the types kept, or
      reaches undefined behaviour.

    Each property has a closed instance ([..._witness]) where it has hypotheses: on a
    formatted image, a reference ATA drive, a machine as the boot loader leaves it, or a
    volume of nonsense for the arbitrary-data theorems.

    ** Parameters

    The contents of uninitialised stack buffers are [StackJunk].  The two loads of
    [initialize_filesystem_ext2] that overrun their structures are [Overrun]: undefined
    behaviour, as C has it ([Ext2Format.mount_overrun_undefined]), or the state of the file
    system that a linked kernel is left with.  The theorems about mounting a disk that was
    formatted before ask for [overrun_harmless]: disk, memory of the programs, superblock and
    loaded table are as they were, and nothing outside the file system is hit.  The ATA
    driver flushes a drive that may still be busy; that such a command is ignored is the
    assumption [IgnoresWhileBusy], without which a written block can be lost
    ([Ata.early_flush_loses]).  Further
    parameters: addresses that the linker or [malloc] chooses ([Image_layout], [Frame], the
    arguments of the inserter's [main]), the assembly stubs' addresses, the interrupt mask
    that a port read delivers, and [cmd_wc] and [cmd_testuser], which the shell calls and
    no file defines.

    ** Fuel

    The scan of a directory block takes at most [scan_fuel] = 513 rounds: a round moves by a
    positive [rec_len] or stops.  The walks of the shell over its 4096-byte buffer take at
    most 4097, [grep] on a pipe of 4095 bytes at most 4097 lines; strings scan the bytes
    that are left in their object; the inserter's arguments have at most 131072 bytes, the
    limit of the host.  All of these are proved sufficient, by the [wp] theorems on
    well-formed data and by the [ends] theorems on any.  The shell's endless loops take the
    numbers of key polls and of lines to run as arguments; [find], which follows the
    directories of the disk and may be led in a circle by it, takes a fuel argument; on a
    tree of fewer than 32 directories below the root, of one block each, their number and two is enough
    ([find_searches_tree]).

    ** Not modelled, and why

    - process/process.c ends in the middle of a function and uses types and variables that
      no header declares; the build leaves it out.
    - cpu/portio.c, the assembly files: single instructions; the models start from port
      accesses and from the registers that the stubs push.
    - driver/driver.c, filesystem/test.c: earlier versions that the build does not compile;
      .kit: the templates of the course that src/src completes.
    - Concurrency: interrupts are handled between the steps of a program, not within a
      system call (the gates clear the interrupt flag while a handler runs).  The register
      loads of the shell's [syscall] wrapper are taken as intended.

    ** Limits of the theorems

    The refinement of the tree asks that a new file has at most 71680 bytes and the room it
    needs, or that there is no free inode for it; what [write] does otherwise
    is [write_stores_prefix] and [write_leaks]: these keep the invariant of the volume, not its
    relation to a tree.  It leaves out the deletion of [.] or [..] where it stands for an empty
    directory, which destroys the tree ([delete_dot_breaks]), and requests without a name or a
    directory in use.  [find] is specified on the trees named under Fuel.  The shell
    is one program: the commands are run one after another, as the code does, and [cmd_wc]
    has no specification to prove anything against. *)

From Stdlib Require Export ZArith Lia ssreflect.
From stdpp Require Export base numbers list sets gmap.

#[global] Open Scope Z_scope.

(** ** Outcomes of C code

    [Ok] is a normal result; [UB] is undefined behaviour of the C abstract
    machine (an access outside the object it is made through); [NoFuel] is the
    answer of a loop whose fuel ran out, and is always proved unreachable. *)
Inductive res (A : Type) : Type :=
| Ok (a : A)
| UB
| NoFuel.
Arguments Ok {A} _.
Arguments UB {A}.
Arguments NoFuel {A}.

#[global] Instance res_ret : MRet res := fun A a => Ok a.
#[global] Instance res_bind : MBind res := fun A B f r =>
  match r with Ok a => f a | UB => UB | NoFuel => NoFuel end.
#[global] Instance res_fmap : FMap res := fun A B f r =>
  match r with Ok a => Ok (f a) | UB => UB | NoFuel => NoFuel end.

Lemma res_bind_ok {A B} (a : A) (f : A -> res B) : Ok a ≫= f = f a.
Proof. done. Qed.

(** ** State-passing code with outcomes *)
Definition M (S A : Type) : Type := S -> res (A * S).

#[global] Instance M_ret S : MRet (M S) := fun A a s => Ok (a, s).
#[global] Instance M_bind S : MBind (M S) := fun A B f m s =>
  match m s with Ok (a, s') => f a s' | UB => UB | NoFuel => NoFuel end.

Definition lift {S A} (r : res A) : M S A := fun s =>
  match r with Ok a => Ok (a, s) | UB => UB | NoFuel => NoFuel end.
Definition gets {S A} (f : S -> A) : M S A := fun s => Ok (f s, s).
Definition modify {S} (f : S -> S) : M S unit := fun s => Ok (tt, f s).

(** Total-correctness predicate: [m] started in [s] has no undefined behaviour,
    does not run out of fuel, and its result satisfies [Q]. *)
Definition wp {S A} (m : M S A) (Q : A -> S -> Prop) (s : S) : Prop :=
  match m s with Ok (a, s') => Q a s' | _ => False end.

Section WP.
Context {S : Type}.
Implicit Types s : S.

Lemma wp_ret {A} (a : A) (Q : A -> S -> Prop) s : Q a s -> wp (mret a) Q s.
Proof. done. Qed.

Lemma wp_bind {A B} (m : M S A) (f : A -> M S B) (Q : B -> S -> Prop) s :
  wp m (fun a s' => wp (f a) Q s') s -> wp (m ≫= f) Q s.
Proof. rw /wp /mbind /M_bind. by destruct (m s) as [[a s']| |]. Qed.

(** the answer of a call passed on, and nested sequences *)
Lemma wp_answer {A B} (m : M S A) (f : A -> B) Q s : wp (a ← m; mret (f a)) Q s -> wp m (fun a s' => Q (f a) s') s.
Proof. rw /wp /mbind /M_bind. by destruct (m s) as [[a s']| |]. Qed.
Lemma wp_assoc {A B C} (m : M S A) (f : A -> M S B) (k : B -> M S C) Q s :
  wp ((m ≫= f) ≫= k) Q s -> wp (m ≫= fun a => f a ≫= k) Q s.
Proof. rw /wp /mbind /M_bind. by destruct (m s) as [[a s']| |]. Qed.

Lemma wp_mono {A} (m : M S A) (Q Q' : A -> S -> Prop) s :
  wp m Q s -> (forall a s', Q a s' -> Q' a s') -> wp m Q' s.
Proof. rw /wp. destruct (m s) as [[a s']| |]; eauto. Qed.

Lemma wp_lift {A} (r : res A) (a : A) (Q : A -> S -> Prop) s :
  r = Ok a -> Q a s -> wp (lift r) Q s.
Proof. by rw /wp /lift => ->. Qed.

Lemma wp_gets {A} (f : S -> A) (Q : A -> S -> Prop) s : Q (f s) s -> wp (gets f) Q s.
Proof. done. Qed.

Lemma wp_modify (f : S -> S) (Q : unit -> S -> Prop) s : Q tt (f s) -> wp (modify f) Q s.
Proof. done. Qed.

Lemma wp_elim {A} (m : M S A) (Q : A -> S -> Prop) s :
  wp m Q s -> exists a s', m s = Ok (a, s') /\ Q a s'.
Proof. rw /wp. destruct (m s) as [[a s']| |]; naive_solver. Qed.

Lemma bind_gets {A B} (f : S -> A) (k : A -> M S B) s : (gets f ≫= k) s = k (f s) s.
Proof. done. Qed.
Lemma bind_UB {A B} (m : M S A) (k : A -> M S B) s : m s = UB -> (m ≫= k) s = UB.
Proof. by rw /mbind /M_bind => ->. Qed.

Lemma wp_intro {A} (m : M S A) (Q : A -> S -> Prop) s a s' :
  m s = Ok (a, s') -> Q a s' -> wp m Q s.
Proof. by rw /wp => ->. Qed.
End WP.

(** ** Machine integers *)
Definition u8 (z : Z) : Z := z mod 2 ^ 8.
Definition u16 (z : Z) : Z := z mod 2 ^ 16.
Definition u32 (z : Z) : Z := z mod 2 ^ 32.
(** conversion to a signed 8-bit [char] *)
Definition s8 (z : Z) : Z := (z + 2 ^ 7) mod 2 ^ 8 - 2 ^ 7.

Lemma u8_range z : 0 <= u8 z < 256. Proof. rw /u8. apply Z.mod_pos_bound. lia. Qed.
Lemma u16_range z : 0 <= u16 z < 65536. Proof. rw /u16. apply Z.mod_pos_bound. lia. Qed.
Lemma u32_range z : 0 <= u32 z < 4294967296. Proof. rw /u32. apply Z.mod_pos_bound. lia. Qed.
Lemma u8_id z : 0 <= z < 256 -> u8 z = z. Proof. intros. by apply Z.mod_small. Qed.
Lemma u16_id z : 0 <= z < 65536 -> u16 z = z. Proof. intros. by apply Z.mod_small. Qed.
Lemma u32_id z : 0 <= z < 4294967296 -> u32 z = z. Proof. intros. by apply Z.mod_small. Qed.

(** ** Byte lists *)
Abbreviation len l := (Z.of_nat (length l)) (only parsing).
Definition bytes_ok (bs : list Z) : Prop := Forall (fun b => 0 <= b < 256) bs.

(** little-endian encoding of an [n]-byte integer, as the x86 stores it *)
Fixpoint le_bytes (n : nat) (v : Z) : list Z :=
  match n with
  | O => []
  | S n => v mod 256 :: le_bytes n (v / 256)
  end.
Fixpoint le_val (bs : list Z) : Z :=
  match bs with
  | [] => 0
  | b :: bs => b + 256 * le_val bs
  end.

(** ** Objects in memory: slices of a byte buffer with their bounds *)
Definition slice (off n : Z) (buf : list Z) : res (list Z) :=
  if bool_decide (0 <= off /\ 0 <= n /\ off + n <= len buf)
  then Ok (take (Z.to_nat n) (drop (Z.to_nat off) buf)) else UB.
Definition splice (off : Z) (bs buf : list Z) : res (list Z) :=
  if bool_decide (0 <= off /\ off + len bs <= len buf)
  then Ok (take (Z.to_nat off) buf ++ bs ++ drop (Z.to_nat off + length bs) buf) else UB.
(** load and store of an [n]-byte little-endian field at offset [off] *)
Definition ld (n : nat) (buf : list Z) (off : Z) : res Z :=
  le_val <$> slice off (Z.of_nat n) buf.
Definition st (n : nat) (buf : list Z) (off v : Z) : res (list Z) :=
  splice off (le_bytes n v) buf.

(** an element of an array, read and written with its bounds *)
Definition arr_get {A} (l : list A) (i : Z) : res A :=
  if i <? 0 then UB else match l !! Z.to_nat i with Some x => Ok x | None => UB end.
Definition arr_set {A} (l : list A) (i : Z) (x : A) : res (list A) :=
  if (0 <=? i) && (i <? len l) then Ok (<[Z.to_nat i := x]> l) else UB.

Definition zeros (n : nat) : list Z := replicate n 0.

Lemma le_bytes_length n v : length (le_bytes n v) = n.
Proof. revert v. induction n as [|n IH] => v //=. by rw IH. Qed.

Lemma le_bytes_ok n v : bytes_ok (le_bytes n v).
Proof.
  revert v. induction n as [|n IH] => v /=; constructor; [|apply IH].
  apply Z.mod_pos_bound. lia.
Qed.

Lemma le_val_bytes n v : le_val (le_bytes n v) = v mod 256 ^ Z.of_nat n.
Proof.
  revert v. induction n as [|n IH] => v; first by rw /= Z.mod_1_r.
  cbn [le_bytes le_val]. rewrite -> IH, Nat2Z.inj_succ, Z.pow_succ_r by lia.
  by rewrite -> Z.rem_mul_r by lia.
Qed.

Lemma le_val_bytes_id n v : 0 <= v < 256 ^ Z.of_nat n -> le_val (le_bytes n v) = v.
Proof. intros. rw le_val_bytes. by apply Z.mod_small. Qed.

Lemma le_val_range bs : bytes_ok bs -> 0 <= le_val bs < 256 ^ len bs.
Proof.
  induction 1 as [|b bs Hb Hbs IH]; first done.
  cbn [le_val length]. rewrite -> Nat2Z.inj_succ, Z.pow_succ_r by lia. nia.
Qed.

Lemma le_bytes_val bs : bytes_ok bs -> le_bytes (length bs) (le_val bs) = bs.
Proof.
  induction 1 as [|b bs Hb Hbs IH]; first done.
  cbn [le_val length le_bytes].
  have -> : (b + 256 * le_val bs) mod 256 = b.
  { rewrite -> Z.mul_comm, Z_mod_plus_full. by apply Z.mod_small. }
  have -> : (b + 256 * le_val bs) / 256 = le_val bs.
  { rewrite -> Z.mul_comm, Z.div_add, Z.div_small by lia. lia. }
  by rw IH.
Qed.

Lemma bytes_ok_app a b : bytes_ok (a ++ b) <-> bytes_ok a /\ bytes_ok b.
Proof. apply Forall_app. Qed.
Lemma bytes_ok_zeros n : bytes_ok (zeros n).
Proof. apply Forall_replicate. lia. Qed.
Lemma bytes_ok_take n bs : bytes_ok bs -> bytes_ok (take n bs).
Proof. apply Forall_take. Qed.
Lemma bytes_ok_drop n bs : bytes_ok bs -> bytes_ok (drop n bs).
Proof. apply Forall_drop. Qed.

(** Length arithmetic: [lens] rewrites the lengths of the list operations, [solve_len]
    closes the remaining linear goal. *)
Create Rewrite HintDb lens.
#[export] Hint Rewrite @length_app @length_take @length_drop @length_map @length_replicate
  @length_insert le_bytes_length : lens.
Ltac solve_len := autorewrite with lens in *; simpl; lia.

Lemma split_length {A} (n : nat) (l : list A) : (n <= length l)%nat ->
  exists a b, l = a ++ b /\ length a = n.
Proof. intros. exists (take n l), (drop n l). rw take_drop. split; [done|solve_len]. Qed.

(** A slice (a store) through the middle part of an explicitly split buffer. *)
Lemma slice_mid (pre mid post : list Z) off n :
  off = len pre -> n = len mid -> slice off n (pre ++ mid ++ post) = Ok mid.
Proof.
  intros -> ->. rw /slice. rewrite -> bool_decide_true by (rw !length_app; lia).
  by rw !Nat2Z.id drop_app_length take_app_length.
Qed.

Lemma splice_mid (pre mid post bs : list Z) off :
  off = len pre -> length bs = length mid ->
  splice off bs (pre ++ mid ++ post) = Ok (pre ++ bs ++ post).
Proof.
  intros -> Hl. rw /splice. rewrite -> bool_decide_true by (rw !length_app; lia).
  rw Nat2Z.id take_app_length Hl. do 3 f_equal.
  by rw app_assoc -length_app drop_app_length.
Qed.

Lemma ld_mid n (pre mid post : list Z) off :
  off = len pre -> length mid = n -> ld n (pre ++ mid ++ post) off = Ok (le_val mid).
Proof. intros. rw /ld (slice_mid pre mid post) //. lia. Qed.

Lemma st_mid n (pre mid post : list Z) off v :
  off = len pre -> length mid = n ->
  st n (pre ++ mid ++ post) off v = Ok (pre ++ le_bytes n v ++ post).
Proof. intros. rw /st (splice_mid pre mid post) //. by rw le_bytes_length. Qed.

Lemma slice_ok off n buf bs :
  slice off n buf = Ok bs ->
  0 <= off /\ 0 <= n /\ off + n <= len buf /\ len bs = n.
Proof.
  rw /slice. case_bool_decide; last done. intros [= <-].
  rw length_take length_drop. lia.
Qed.

Lemma splice_length off bs buf buf' : splice off bs buf = Ok buf' -> length buf' = length buf.
Proof.
  rw /splice. case_bool_decide; last done. intros [= <-].
  rw !length_app length_take length_drop. lia.
Qed.

Lemma splice_bytes_ok off bs buf buf' :
  splice off bs buf = Ok buf' -> bytes_ok bs -> bytes_ok buf -> bytes_ok buf'.
Proof.
  rw /splice. case_bool_decide; last done. intros [= <-] ??.
  apply bytes_ok_app; split; [by apply bytes_ok_take|].
  apply bytes_ok_app; split; [done|by apply bytes_ok_drop].
Qed.

(** reading back a slice after a store: the same slice, and a disjoint one *)
Lemma slice_splice_same off bs buf buf' :
  splice off bs buf = Ok buf' -> slice off (len bs) buf' = Ok bs.
Proof.
  rw /splice. case_bool_decide; last done. intros [= <-].
  apply slice_mid; last done. rw length_take. lia.
Qed.

Lemma slice_lookup off n buf bs (i : nat) :
  slice off n buf = Ok bs -> (i < length bs)%nat -> bs !! i = buf !! (Z.to_nat off + i)%nat.
Proof.
  rw /slice. case_bool_decide; last done. intros [= <-].
  rw length_take length_drop => Hi. rewrite -> lookup_take_lt by lia. by rw lookup_drop.
Qed.

Lemma splice_lookup_out off bs buf buf' (i : nat) :
  splice off bs buf = Ok buf' ->
  (Z.of_nat i < off \/ off + len bs <= Z.of_nat i) -> buf' !! i = buf !! i.
Proof.
  rw /splice. case_bool_decide as Hb; last done. intros [= <-] [Hi|Hi].
  - rewrite -> lookup_app_l by (rw length_take; lia). by rewrite -> lookup_take_lt by lia.
  - rewrite -> lookup_app_r by (rw length_take; lia).
    rewrite -> lookup_app_r by (rw length_take; lia).
    rw lookup_drop length_take. f_equal. lia.
Qed.

Lemma slice_splice_disjoint off bs buf buf' off' n :
  splice off bs buf = Ok buf' ->
  (off' + n <= off \/ off + len bs <= off') -> slice off' n buf' = slice off' n buf.
Proof.
  intros Hs Hd. have Hl := splice_length _ _ _ _ Hs.
  rw /slice Hl. case_bool_decide as Hb; last done. f_equal.
  apply list_eq => i. destruct (decide (i < Z.to_nat n)%nat).
  - rewrite -> !lookup_take_lt by done. rw !lookup_drop.
    eapply splice_lookup_out; [done|]. lia.
  - rw !lookup_take_ge //; lia.
Qed.

Lemma arr_get_ok {A} (l : list A) i x : 0 <= i -> l !! Z.to_nat i = Some x -> arr_get l i = Ok x.
Proof. intros Hi E. rw /arr_get. rewrite -> (proj2 (Z.ltb_ge i 0)) by lia. by rw E. Qed.
Lemma arr_get_nth {A} (l : list A) i d : 0 <= i < len l -> arr_get l i = Ok (nth (Z.to_nat i) l d).
Proof.
  intros Hi. apply arr_get_ok; [lia|]. destruct (nth_lookup_or_length l (Z.to_nat i) d); [done|lia].
Qed.
Lemma arr_set_ok {A} (l : list A) i x : 0 <= i < len l -> arr_set l i x = Ok (<[Z.to_nat i := x]> l).
Proof.
  intros Hi. rw /arr_set. by rewrite -> (proj2 (Z.leb_le 0 i)), (proj2 (Z.ltb_lt i (len l))) by lia.
Qed.

(** a decidable fact about finitely many integers, by evaluation *)
Lemma forall_range (P : Z -> bool) a n :
  forallb P (seqZ a n) = true -> forall x, a <= x < a + n -> P x = true.
Proof. rw forallb_forall => Hall x Hx. by apply Hall, list_elem_of_In, elem_of_seqZ. Qed.
