(* ===== verification/Lasts.v ===== *)
(** * Operations that end and keep an invariant, whatever the data

    [wp] states total correctness for data that is well formed.  This file is the logic
    for the other question: what holds when a disk, a request or a line of text holds
    arbitrary bytes.  [ends r R]: [r] does not run out of fuel, and a result satisfies
    [R]; [lasts I m R]: so does [m] from every state of the invariant [I], which it
    keeps.  Undefined behaviour is allowed in both: these are the statements about loops
    and types that remain when nothing is assumed about the data. *)

From S2P Require Import Prelude.

(** ** Results *)
Definition ends {A} (r : res A) (R : A -> Prop) : Prop :=
  match r with Ok a => R a | UB => True | NoFuel => False end.

Lemma ends_ok {A} (a : A) (R : A -> Prop) : R a -> ends (Ok a) R.
Proof. done. Qed.
Lemma ends_bind {A B} (r : res A) (f : A -> res B) (P : A -> Prop) R :
  ends r P -> (forall a, P a -> ends (f a) R) -> ends (r ≫= f) R.
Proof. destruct r as [a| |]; [|done|done]. intros Ha Hf. by apply Hf. Qed.
Lemma ends_mono {A} (r : res A) (P R : A -> Prop) : ends r P -> (forall a, P a -> R a) -> ends r R.
Proof. destruct r; [|done|done]. cbn. auto. Qed.
Lemma ends_elim {A} (r : res A) (R : A -> Prop) : r <> NoFuel -> (forall a, r = Ok a -> R a) -> ends r R.
Proof. destruct r as [a| |]; [|done|done]. cbn. auto. Qed.

(** ** State-passing code *)
Definition lasts {S A} (I : S -> Prop) (m : M S A) (R : A -> Prop) : Prop := forall s, I s ->
  match m s with Ok (a, s') => R a /\ I s' | UB => True | NoFuel => False end.

Section Lasts.
Context {S : Type} (I : S -> Prop).

Lemma lasts_ret {A} (a : A) (R : A -> Prop) : R a -> lasts I (mret a) R.
Proof. by intros Ha s Hs. Qed.
Lemma lasts_bind {A B} (m : M S A) (k : A -> M S B) (P : A -> Prop) R :
  lasts I m P -> (forall a, P a -> lasts I (k a) R) -> lasts I (m ≫= k) R.
Proof.
  intros Hm Hk s Hs. rw /mbind /M_bind. have := Hm s Hs. destruct (m s) as [[a s']| |]; [|done|done].
  intros [Ha Hs']. by apply Hk.
Qed.
Lemma lasts_mono {A} (m : M S A) (P R : A -> Prop) : lasts I m P -> (forall a, P a -> R a) -> lasts I m R.
Proof. intros Hm HR s Hs. have := Hm s Hs. destruct (m s) as [[a s']| |]; [|done|done]. intros [Ha Hs']. auto. Qed.
Lemma lasts_lift {A} (r : res A) (R : A -> Prop) : ends r R -> lasts I (lift r) R.
Proof. intros Hr s Hs. rw /lift. by destruct r. Qed.
Lemma lasts_gets {A} (f : S -> A) (R : A -> Prop) : (forall s, I s -> R (f s)) -> lasts I (gets f) R.
Proof. intros Hf s Hs. split; [by apply Hf|done]. Qed.
Lemma lasts_modify (f : S -> S) : (forall s, I s -> I (f s)) -> lasts I (modify f) (fun _ => True).
Proof. intros Hf s Hs. split; [done|by apply Hf]. Qed.
Lemma lasts_any {A} (m : M S A) (R : A -> Prop) : lasts I m R -> lasts I m (fun _ => True).
Proof. intros Hm. by eapply lasts_mono. Qed.
Lemma lasts_seq {A B} (m : M S A) (k : M S B) (P : A -> Prop) R : lasts I m P -> lasts I k R -> lasts I (m;; k) R.
Proof. intros Hm Hk. by eapply lasts_bind. Qed.
End Lasts.

(** an operation on a part of the state *)
Definition zoom {S T A} (get : S -> T) (put : T -> S -> S) (m : M T A) : M S A := fun s =>
  match m (get s) with Ok (a, t) => Ok (a, put t s) | UB => UB | NoFuel => NoFuel end.
Lemma lasts_zoom {S T A} (I : S -> Prop) (J : T -> Prop) get put (m : M T A) R :
  (forall s, I s -> J (get s)) -> (forall s t, I s -> J t -> I (put t s)) -> lasts J m R -> lasts I (zoom get put m) R.
Proof.
  intros Hg Hp Hm s Hs. rw /zoom. have := Hm (get s) (Hg s Hs). destruct (m (get s)) as [[a t]| |]; [|done|done].
  intros [Ha Ht]. split; [done|by apply Hp].
Qed.

(** the lemmas about the operations of a component; [lasts_auto] walks through the code
    with them and leaves the goals they do not solve *)
Create HintDb lasts.
#[export] Hint Resolve lasts_lift : lasts.
Ltac lasts_auto :=
  repeat first
    [ progress cbv zeta
    | lazymatch goal with |- lasts _ (mret _) _ => solve [by apply lasts_ret] end
    | progress cbn beta iota
    | solve [eauto 7 with lasts]
    | eapply lasts_seq; [solve [eauto 7 with lasts]|]
    | eapply lasts_bind; [solve [eauto 7 with lasts]|intros ? ?]
    | case_match ].

(** ** Byte arrays *)
Definition byte (c : Z) : Prop := 0 <= c < 256.
Definition array (n : nat) (b : list Z) : Prop := length b = n /\ bytes_ok b.

Lemma array_zeros n : array n (zeros n).
Proof. split; [by rw length_replicate|apply bytes_ok_zeros]. Qed.
Lemma array_slice off n b : bytes_ok b -> ends (slice off n b) (fun bs => array (Z.to_nat n) bs).
Proof.
  intros Hb. rw /slice. case_bool_decide as Hr; [|done]. cbn. split; [rw length_take length_drop; lia|].
  by apply bytes_ok_take, bytes_ok_drop.
Qed.
Lemma array_splice off bs n b : bytes_ok bs -> array n b -> ends (splice off bs b) (array n).
Proof.
  intros Hb [Hl Ho]. apply ends_elim; [rw /splice; by case_bool_decide|]. intros b' E.
  split; [by rewrite -> (splice_length _ _ _ _ E)|by eapply splice_bytes_ok].
Qed.
Lemma ends_ld n b off : bytes_ok b -> ends (ld n b off) (fun v => 0 <= v < 256 ^ Z.of_nat n).
Proof.
  intros Hb. rw /ld. have := array_slice off (Z.of_nat n) b Hb. destruct (slice _ _ b) as [bs| |]; [|done|done].
  cbn. rw Nat2Z.id. intros [<- Ho]. by apply le_val_range.
Qed.
Lemma array_st n k b off v : array k b -> ends (st n b off v) (array k).
Proof. intros Hb. apply array_splice; [apply le_bytes_ok|done]. Qed.
Lemma ends_arr_get {A} (P : A -> Prop) (l : list A) i : Forall P l ->
  ends (arr_get l i) (fun x => P x /\ 0 <= i < len l).
Proof.
  intros Hl. rw /arr_get. destruct (Z.ltb_spec i 0); [done|]. destruct (l !! Z.to_nat i) as [x|] eqn:E; [|done].
  split; [by eapply Forall_lookup_1|]. apply lookup_lt_Some in E. lia.
Qed.
Lemma ends_arr_set {A} (P : A -> Prop) (l : list A) i x : Forall P l -> P x ->
  ends (arr_set l i x) (fun l' => Forall P l' /\ length l' = length l).
Proof.
  intros Hl Hx. rw /arr_set. destruct (_ && _); [|done]. split; [by apply Forall_insert|apply length_insert].
Qed.
Lemma array_set n b i c : array n b -> byte c -> ends (arr_set b i c) (array n).
Proof. intros [Hl Hb] Hc. eapply ends_mono; [by apply (ends_arr_set byte)|]. intros b' [Ho E]. split; [congruence|done]. Qed.
Lemma array_get n b i : array n b -> ends (arr_get b i) (fun c => byte c /\ 0 <= i < Z.of_nat n).
Proof. intros [<- Hb]. by apply (ends_arr_get byte). Qed.
