(* ===== verification/Bitmap.v ===== *)
(** * Bitmaps ([src/header/stdlib/utils.h])

    [set_bit], [clear_bit] and [test_bit] on a byte buffer, with the access
    [buf[bit / 8]] undefined outside the buffer, and the abstract view [bit] of
    the buffer as a map from bit numbers to booleans. *)

From S2P Require Import Prelude.

Definition get_byte (buf : list Z) (i : Z) : res Z :=
  match buf !! Z.to_nat i with Some b => Ok b | None => UB end.

Definition set_bit (buf : list Z) (bit : Z) : res (list Z) :=
  b ← get_byte buf (bit / 8);
  Ok (<[Z.to_nat (bit / 8) := u8 (Z.lor b (Z.shiftl 1 (bit mod 8)))]> buf).

Definition clear_bit (buf : list Z) (bit : Z) : res (list Z) :=
  b ← get_byte buf (bit / 8);
  Ok (<[Z.to_nat (bit / 8) := u8 (Z.land b (Z.lnot (Z.shiftl 1 (bit mod 8))))]> buf).

Definition test_bit (buf : list Z) (bit : Z) : res Z :=
  b ← get_byte buf (bit / 8);
  Ok (u8 (Z.land b (Z.shiftl 1 (bit mod 8)))).

(** ** Abstract view *)
Definition bit (buf : list Z) (i : Z) : bool :=
  match buf !! Z.to_nat (i / 8) with Some b => Z.testbit b (i mod 8) | None => false end.

Lemma testbit_u8 z k : 0 <= k < 8 -> Z.testbit (u8 z) k = Z.testbit z k.
Proof. intros. rw /u8. rewrite -> Z.mod_pow2_bits_low by lia. done. Qed.

Lemma testbit_shiftl1 k j : 0 <= k -> 0 <= j -> Z.testbit (Z.shiftl 1 k) j = (j =? k).
Proof.
  intros. rewrite -> Z.shiftl_spec by lia. destruct (Z.eqb_spec j k) as [->|].
  - by rw Z.sub_diag.
  - destruct (Z.lt_ge_cases (j - k) 0); [by apply Z.testbit_neg_r|].
    have [m Hm] : exists m, j - k = Z.succ m /\ 0 <= m by exists (j - k - 1); lia.
    destruct Hm as [-> ?]. change 1 with (2 * 0 + 1). rewrite -> Z.testbit_odd_succ by lia.
    apply Z.testbit_0_l.
Qed.

Lemma bit_index_inj i j : 0 <= i -> 0 <= j -> i / 8 = j / 8 -> i mod 8 = j mod 8 -> i = j.
Proof. intros. rw (Z.div_mod i 8) // (Z.div_mod j 8) //. lia. Qed.

Lemma get_byte_ok buf i : 0 <= i < 8 * len buf ->
  exists b, get_byte buf (i / 8) = Ok b /\ buf !! Z.to_nat (i / 8) = Some b.
Proof.
  intros. have [b Hb] : is_Some (buf !! Z.to_nat (i / 8)).
  { apply lookup_lt_is_Some. have := Z.div_lt_upper_bound i 8 (len buf). lia. }
  exists b. by rw /get_byte Hb.
Qed.

(** the value tested is non-zero exactly when the bit is set *)
Lemma test_bit_spec buf i : 0 <= i < 8 * len buf ->
  exists v, test_bit buf i = Ok v /\ (v =? 0) = negb (bit buf i).
Proof.
  intros Hi. destruct (get_byte_ok buf i Hi) as (b & Hg & Hb).
  have Hm : 0 <= i mod 8 < 8 by apply Z.mod_pos_bound.
  rw /test_bit Hg /=. eexists; split; first done. rw /bit Hb.
  have Hbits : forall j, 0 <= j < 8 ->
    Z.testbit (u8 (Z.land b (Z.shiftl 1 (i mod 8)))) j = Z.testbit b j && (j =? i mod 8).
  { intros j Hj. rewrite -> testbit_u8 by done.
    by rewrite -> Z.land_spec, testbit_shiftl1 by lia. }
  destruct (Z.eqb_spec (u8 (Z.land b (Z.shiftl 1 (i mod 8)))) 0) as [E|E].
  - have := Hbits (i mod 8) Hm. rw E Z.testbit_0_l Z.eqb_refl. by destruct (Z.testbit b _).
  - destruct (Z.testbit b (i mod 8)) eqn:Et; first done. exfalso. apply E.
    apply Z.bits_inj_0 => j. destruct (Z.lt_ge_cases j 0); first by apply Z.testbit_neg_r.
    destruct (Z.lt_ge_cases j 8).
    + rewrite -> Hbits by lia. destruct (Z.eqb_spec j (i mod 8)) as [->|]; [by rw Et|].
      by rw andb_false_r.
    + rw /u8. by apply Z.mod_pow2_bits_high.
Qed.

Lemma bit_update buf i j b f :
  0 <= i -> 0 <= j -> buf !! Z.to_nat (i / 8) = Some b ->
  (forall k, 0 <= k < 8 -> k <> i mod 8 -> Z.testbit f k = Z.testbit b k) ->
  bit (<[Z.to_nat (i / 8) := f]> buf) j =
    if j =? i then Z.testbit f (i mod 8) else bit buf j.
Proof.
  intros Hi Hj Hb Hf. rw /bit.
  have Hl : (Z.to_nat (i / 8) < length buf)%nat by eapply lookup_lt_Some.
  have Hm := Z.mod_pos_bound j 8 ltac:(lia).
  destruct (Z.eqb_spec j i) as [->|Hne].
  - by rewrite -> list_lookup_insert_eq by done.
  - destruct (decide (i / 8 = j / 8)) as [E|E].
    + rewrite -> E, list_lookup_insert_eq by (rw -E; done).
      rw -E Hb. apply Hf; first done. intros ?. apply Hne. by apply bit_index_inj.
    + rewrite -> list_lookup_insert_ne; first done.
      have := Z.div_pos i 8. have := Z.div_pos j 8. lia.
Qed.

Lemma bytes_ok_insert buf i b : bytes_ok buf -> bytes_ok (<[i := u8 b]> buf).
Proof. intros. apply Forall_insert; [done|apply u8_range]. Qed.

Lemma set_bit_spec buf i : 0 <= i < 8 * len buf ->
  exists buf', set_bit buf i = Ok buf' /\ length buf' = length buf /\
    (bytes_ok buf -> bytes_ok buf') /\
    forall j, 0 <= j -> bit buf' j = (j =? i) || bit buf j.
Proof.
  intros Hi. destruct (get_byte_ok buf i Hi) as (b & Hg & Hb). rw /set_bit Hg /=.
  have Hm := Z.mod_pos_bound i 8 ltac:(lia).
  eexists; split_and!; [done|by rw length_insert|apply bytes_ok_insert|].
  intros j Hj. rewrite -> (bit_update _ _ _ b); [|lia|done|done|].
  - destruct (j =? i); last done.
    rewrite -> testbit_u8, Z.lor_spec, testbit_shiftl1, Z.eqb_refl, orb_true_r by lia. done.
  - intros k ??. rewrite -> testbit_u8, Z.lor_spec, testbit_shiftl1 by lia.
    destruct (Z.eqb_spec k (i mod 8)); [lia|]. apply orb_false_r.
Qed.

Lemma clear_bit_spec buf i : 0 <= i < 8 * len buf ->
  exists buf', clear_bit buf i = Ok buf' /\ length buf' = length buf /\
    (bytes_ok buf -> bytes_ok buf') /\
    forall j, 0 <= j -> bit buf' j = negb (j =? i) && bit buf j.
Proof.
  intros Hi. destruct (get_byte_ok buf i Hi) as (b & Hg & Hb). rw /clear_bit Hg /=.
  have Hm := Z.mod_pos_bound i 8 ltac:(lia).
  eexists; split_and!; [done|by rw length_insert|apply bytes_ok_insert|].
  intros j Hj. rewrite -> (bit_update _ _ _ b); [|lia|done|done|].
  - destruct (j =? i); last done.
    rewrite -> testbit_u8, Z.land_spec, Z.lnot_spec, testbit_shiftl1, Z.eqb_refl by lia.
    apply andb_false_r.
  - intros k ??. rewrite -> testbit_u8, Z.land_spec, Z.lnot_spec, testbit_shiftl1 by lia.
    destruct (Z.eqb_spec k (i mod 8)); [lia|]. apply andb_true_r.
Qed.

(** out-of-range bit numbers leave the buffer: undefined behaviour *)
Lemma bit_oob buf i : 8 * len buf <= i ->
  set_bit buf i = UB /\ clear_bit buf i = UB /\ test_bit buf i = UB.
Proof.
  intros. have Hn : get_byte buf (i / 8) = UB.
  { rw /get_byte. rewrite -> lookup_ge_None_2; first done.
    have := Z.div_le_lower_bound i 8 (len buf). lia. }
  by rw /set_bit /clear_bit /test_bit Hn.
Qed.

(** two byte buffers with the same bits are equal *)
Lemma bit_ext buf buf' : bytes_ok buf -> bytes_ok buf' -> length buf = length buf' ->
  (forall i, 0 <= i < 8 * len buf -> bit buf i = bit buf' i) -> buf = buf'.
Proof.
  intros Hb Hb' Hl Hbits. apply list_eq => n.
  destruct (decide (n < length buf)%nat) as [Hn|Hn].
  2: { by rewrite -> !lookup_ge_None_2 by lia. }
  destruct (lookup_lt_is_Some_2 buf n) as [b Eb]; first lia.
  destruct (lookup_lt_is_Some_2 buf' n) as [b' Eb']; first lia. rw Eb Eb'. f_equal.
  have Hr : 0 <= b < 2 ^ 8 by eapply (Forall_lookup_1 _ _ _ _ Hb).
  have Hr' : 0 <= b' < 2 ^ 8 by eapply (Forall_lookup_1 _ _ _ _ Hb').
  apply Z.bits_inj => k. destruct (Z.lt_ge_cases k 0); first by rewrite -> !Z.testbit_neg_r by done.
  destruct (Z.lt_ge_cases k 8).
  - have := Hbits (8 * Z.of_nat n + k) ltac:(lia). rw /bit.
    have -> : (8 * Z.of_nat n + k) / 8 = Z.of_nat n by (rewrite -> Z.mul_comm, Z.div_add_l, Z.div_small by lia; lia).
    have -> : (8 * Z.of_nat n + k) mod 8 = k by (rewrite -> Z.add_comm, Z.mul_comm, Z_mod_plus_full; apply Z.mod_small; lia).
    by rw Nat2Z.id Eb Eb'.
  - rw -(Z.mod_small b (2 ^ 8)) // -(Z.mod_small b' (2 ^ 8)) //.
    by rewrite -> !Z.mod_pow2_bits_high by lia.
Qed.

(** ** Counting clear bits below a bound *)
Definition count_clear (buf : list Z) (n : nat) : Z :=
  len (filter (fun i => bit buf i = false) (seqZ 0 (Z.of_nat n))).

Lemma count_clear_S buf n :
  count_clear buf (S n) = count_clear buf n + (if bit buf (Z.of_nat n) then 0 else 1).
Proof.
  rw /count_clear. have -> : Z.of_nat (S n) = Z.of_nat n + 1 by lia.
  rewrite -> seqZ_app by lia. rw filter_app length_app /=.
  have -> : seqZ (0 + Z.of_nat n) 1 = [Z.of_nat n] by done. rw filter_cons filter_nil.
  case_decide as Hd; destruct (bit buf (Z.of_nat n)); simpl; done || lia.
Qed.

Lemma count_clear_range buf n : 0 <= count_clear buf n <= Z.of_nat n.
Proof.
  induction n as [|n IH]; first done. rw count_clear_S. destruct (bit buf _); lia.
Qed.

Lemma count_clear_ext buf buf' n :
  (forall i, 0 <= i < Z.of_nat n -> bit buf i = bit buf' i) ->
  count_clear buf n = count_clear buf' n.
Proof.
  induction n as [|n IH] => H; first done. rw !count_clear_S.
  rewrite -> IH, H; [done|lia|]. intros. apply H. lia.
Qed.

(** setting a clear bit lowers the count by one *)
Lemma count_clear_set buf buf' n i :
  0 <= i < Z.of_nat n -> bit buf i = false ->
  (forall j, 0 <= j -> bit buf' j = (j =? i) || bit buf j) ->
  count_clear buf' n = count_clear buf n - 1.
Proof.
  intros Hi Hb H. induction n as [|n IH]; first lia. rw !count_clear_S.
  destruct (decide (i = Z.of_nat n)) as [->|Hne].
  - rw H; [lia|]. rw Z.eqb_refl Hb /=. rewrite -> (count_clear_ext buf' buf); first lia.
    intros j Hj. rw H; [lia|]. by rewrite -> (proj2 (Z.eqb_neq j (Z.of_nat n))) by lia.
  - rw IH; [lia|]. rw H; [lia|]. rewrite -> (proj2 (Z.eqb_neq (Z.of_nat n) i)) by lia. simpl. lia.
Qed.

Lemma count_clear_clear buf buf' n i :
  0 <= i < Z.of_nat n -> bit buf i = true ->
  (forall j, 0 <= j -> bit buf' j = negb (j =? i) && bit buf j) ->
  count_clear buf' n = count_clear buf n + 1.
Proof.
  intros Hi Hb H. enough (count_clear buf n = count_clear buf' n - 1) by lia.
  apply (count_clear_set buf' buf n i); [done|rw H; [lia|]; by rw Z.eqb_refl|].
  intros j Hj. rw H //. destruct (Z.eqb_spec j i) as [->|]; by rw ?Hb.
Qed.

(** the count is zero exactly when every bit is set *)
Lemma count_clear_none bm n : (forall k, 0 <= k < Z.of_nat n -> bit bm k = true) -> count_clear bm n = 0.
Proof.
  induction n as [|n IH] => Hb; [done|]. rw count_clear_S Hb ?IH //; [lia|]. intros. apply Hb. lia.
Qed.

Lemma count_clear_pos bm n k : 0 <= k < Z.of_nat n -> bit bm k = false -> 0 < count_clear bm n.
Proof.
  induction n as [|n IH] => Hk Hb; [lia|]. rw count_clear_S.
  destruct (decide (k = Z.of_nat n)) as [->|]; [rw Hb|].
  - have := count_clear_range bm n. lia.
  - have := IH ltac:(lia) Hb. destruct (bit bm (Z.of_nat n)); lia.
Qed.
