(* ===== verification/StdString.v ===== *)
(** * Memory routines ([src/stdlib/string.c])

    A flat byte memory with addresses of a pointer's width ([PtrWidth]), and the C loops of
    [memset], [memset16], [memcpy], [memcmp] and [memmove] over it, with the region view
    [mem_load]/[mem_store] the rest of the development uses. *)

From Stdlib Require Import ZifyClasses ZifyInst.
From S2P Require Import Prelude.

(** The width of a pointer.  The kernel and its programs have 32 bits; the inserter is a
    program of the machine the kernel is built on, which may have more. *)
Class PtrWidth := { ptr_size : Z; ptr_size_min : 2 ^ 32 <= ptr_size }.
Definition ptr `{PtrWidth} (z : Z) : Z := z mod ptr_size.
#[export] Instance kernel_ptr : PtrWidth | 10 := {| ptr_size := 2 ^ 32; ptr_size_min := Z.le_refl _ |}.
Definition host64_ptr : PtrWidth := {| ptr_size := 2 ^ 64; ptr_size_min := ltac:(by apply Z.pow_le_mono_r) |}.

(** [lia] computes with these bounds *)
#[export] Instance kernel_ptr_size : CstOp (@ptr_size kernel_ptr) := mkcst _ _ (@ptr_size kernel_ptr) _ (2 ^ 32) eq_refl.
Add Zify CstOp kernel_ptr_size.
#[export] Instance host64_ptr_size : CstOp (@ptr_size host64_ptr) := mkcst _ _ (@ptr_size host64_ptr) _ (2 ^ 64) eq_refl.
Add Zify CstOp host64_ptr_size.

Lemma u32_ptr z : ptr z = u32 z.
Proof. done. Qed.

(** A memory maps an address to the byte it holds. *)
Abbreviation mem := (Z -> Z) (only parsing).

Definition mem_upd (m : mem) (a v : Z) : mem := fun a' => if a' =? a then v else m a'.

Section Memory.
Context {PW : PtrWidth}.
Lemma ptr_range z : 0 <= ptr z < ptr_size.
Proof. apply Z.mod_pos_bound. pose proof ptr_size_min. lia. Qed.
Lemma ptr_id z : 0 <= z < ptr_size -> ptr z = z.
Proof. apply Z.mod_small. Qed.

(** ** The loops *)
Fixpoint memset_loop (k : nat) (i s c : Z) (m : mem) : mem :=
  match k with
  | O => m
  | S k => memset_loop k (i + 1) s c (mem_upd m (ptr (s + i)) (u8 c))
  end.
Definition memset (s c : Z) (n : nat) (m : mem) : mem := memset_loop n 0 s c m.

(** [while (num--) *p++ = value;] on 16-bit elements: two bytes, low first *)
Fixpoint memset16 (p value : Z) (num : nat) (m : mem) : mem :=
  match num with
  | O => m
  | S num => memset16 (ptr (p + 2)) value num
               (mem_upd (mem_upd m p (u16 value mod 256)) (ptr (p + 1)) (u16 value / 256))
  end.

Fixpoint memcpy_loop (k : nat) (i dest src : Z) (m : mem) : mem :=
  match k with
  | O => m
  | S k => memcpy_loop k (i + 1) dest src (mem_upd m (ptr (dest + i)) (m (ptr (src + i))))
  end.
Definition memcpy (dest src : Z) (n : nat) (m : mem) : mem := memcpy_loop n 0 dest src m.

(** the descending loop of [memmove]: [i] runs from [n] down to [1] *)
Fixpoint memmove_down (i : nat) (dest src : Z) (m : mem) : mem :=
  match i with
  | O => m
  | S i' => memmove_down i' dest src
              (mem_upd m (ptr (dest + Z.of_nat i')) (m (ptr (src + Z.of_nat i'))))
  end.
Definition memmove (dest src : Z) (n : nat) (m : mem) : mem :=
  if dest <? src then memcpy_loop n 0 dest src m else memmove_down n dest src m.

(** [memcmp] reads byte [i] of its operands through [a] and [b], which may be
    undefined past the end of an object; it stops at the first difference. *)
Fixpoint memcmp_loop (k : nat) (i : Z) (a b : Z -> res Z) : res Z :=
  match k with
  | O => Ok 0
  | S k => x ← a i; y ← b i;
           if x <? y then Ok (-1) else if y <? x then Ok 1 else memcmp_loop k (i + 1) a b
  end.
Definition memcmp (a b : Z -> res Z) (n : nat) : res Z := memcmp_loop n 0 a b.

(** ** Region view *)
Definition mem_load (m : mem) (a : Z) (n : nat) : list Z :=
  map (fun i => m (ptr (a + i))) (seqZ 0 (Z.of_nat n)).
Definition mem_store (m : mem) (a : Z) (bs : list Z) : mem := fun a' =>
  match bs !! Z.to_nat (ptr (a' - a)) with Some b => b | None => m a' end.
(** the accessors of a memory region and of a byte list *)
Definition mem_at (m : mem) (a : Z) : Z -> res Z := fun i => Ok (m (ptr (a + i))).
Definition list_at (l : list Z) : Z -> res Z := fun i =>
  match l !! Z.to_nat i with Some b => Ok b | None => UB end.

Lemma mem_load_length m a n : length (mem_load m a n) = n.
Proof. rw /mem_load length_map length_seqZ. lia. Qed.

Lemma mem_load_lookup m a n (i : nat) : (i < n)%nat ->
  mem_load m a n !! i = Some (m (ptr (a + Z.of_nat i))).
Proof.
  intros. rw /mem_load list_lookup_fmap. rewrite -> lookup_seqZ_lt by lia. done.
Qed.

Lemma mem_upd_same m a v : mem_upd m a v a = v. Proof. by rw /mem_upd Z.eqb_refl. Qed.
Lemma mem_upd_ne m a a' v : a' <> a -> mem_upd m a v a' = m a'.
Proof. rw /mem_upd. by destruct (Z.eqb_spec a' a). Qed.

(** every address holds a byte *)
Definition mem_ok (m : mem) : Prop := forall a, 0 <= a < ptr_size -> 0 <= m a < 256.

(** Ranges of addresses that do not wrap around. *)
Definition no_wrap (a : Z) (n : nat) : Prop := 0 <= a /\ a + Z.of_nat n <= ptr_size.

Lemma mem_load_store m a bs n : no_wrap a n -> length bs = n ->
  mem_load (mem_store m a bs) a n = bs.
Proof.
  intros [Ha Hw] Hl. apply list_eq => i. destruct (decide (i < n)%nat).
  - rw mem_load_lookup // /mem_store.
    rewrite -> (ptr_id (a + _)), Z.add_simpl_l, ptr_id, Nat2Z.id by lia.
    destruct (lookup_lt_is_Some_2 bs i) as [b ->]; [lia|done].
  - rewrite -> !lookup_ge_None_2 by (rw ?mem_load_length; lia). done.
Qed.

Lemma mem_load_store_ne m a bs a' n :
  no_wrap a (length bs) -> no_wrap a' n ->
  (a' + Z.of_nat n <= a \/ a + len bs <= a') ->
  mem_load (mem_store m a bs) a' n = mem_load m a' n.
Proof.
  intros [Ha Hw] [Ha' Hw'] Hd. apply list_eq => i. destruct (decide (i < n)%nat).
  - rw !mem_load_lookup // /mem_store. rewrite -> !(ptr_id (a' + _)) by lia.
    rewrite -> lookup_ge_None_2; first done. rw /ptr.
    destruct Hd.
    + rw -(Z_mod_plus_full _ 1) Z.mod_small; lia.
    + rw Z.mod_small; lia.
  - by rewrite -> !lookup_ge_None_2 by (rw mem_load_length; lia).
Qed.

Lemma mem_store_ok m a bs : mem_ok m -> bytes_ok bs -> mem_ok (mem_store m a bs).
Proof.
  intros Hm Hb x Hx. rw /mem_store. destruct (bs !! _) as [b|] eqn:E; [|by apply Hm].
  by apply (Forall_lookup_1 _ _ _ _ Hb E).
Qed.

Lemma memset_loop_spec k i s c m a : 0 <= s -> 0 <= i -> s + i + Z.of_nat k <= ptr_size ->
  memset_loop k i s c m a =
    if bool_decide (s + i <= a < s + i + Z.of_nat k) then u8 c else m a.
Proof.
  revert i m. induction k as [|k IH] => i m Hs Hi Hw /=.
  { rewrite -> bool_decide_false by lia. done. }
  rewrite -> IH by lia. rewrite -> ptr_id by lia.
  destruct (decide (a = s + i)) as [->|].
  - rewrite -> bool_decide_false, bool_decide_true, mem_upd_same by lia. done.
  - rw mem_upd_ne //. repeat case_bool_decide; lia || done.
Qed.

Lemma memcpy_loop_spec k i dest src m a :
  0 <= dest -> 0 <= src -> 0 <= i ->
  dest + i + Z.of_nat k <= ptr_size -> src + i + Z.of_nat k <= ptr_size ->
  (dest <= src \/ src + i + Z.of_nat k <= dest + i) ->
  memcpy_loop k i dest src m a =
    if bool_decide (dest + i <= a < dest + i + Z.of_nat k) then m (src + (a - dest)) else m a.
Proof.
  revert i m. induction k as [|k IH] => i m Hd Hs Hi Hwd Hws Ho; cbn [memcpy_loop].
  { rewrite -> bool_decide_false by lia. done. }
  rewrite -> !ptr_id by lia. rewrite -> IH by lia.
  destruct (decide (a = dest + i)) as [->|].
  - rewrite -> bool_decide_false, bool_decide_true, mem_upd_same by lia. f_equal. lia.
  - rw (mem_upd_ne m _ a) //. case_bool_decide.
    + rewrite -> bool_decide_true, mem_upd_ne by lia. done.
    + by rewrite -> bool_decide_false by lia.
Qed.

Lemma memmove_down_spec k dest src m a :
  0 <= dest -> 0 <= src -> dest + Z.of_nat k <= ptr_size -> src + Z.of_nat k <= ptr_size ->
  src <= dest ->
  memmove_down k dest src m a =
    if bool_decide (dest <= a < dest + Z.of_nat k) then m (src + (a - dest)) else m a.
Proof.
  revert m. induction k as [|k IH] => m Hd Hs Hwd Hws Ho; cbn [memmove_down].
  { rewrite -> bool_decide_false by lia. done. }
  rewrite -> !ptr_id by lia. rewrite -> IH by lia.
  destruct (decide (a = dest + Z.of_nat k)) as [->|].
  - rewrite -> bool_decide_false, bool_decide_true, mem_upd_same by lia. f_equal. lia.
  - rw (mem_upd_ne m _ a) //. case_bool_decide.
    + rewrite -> bool_decide_true, mem_upd_ne by lia. done.
    + by rewrite -> bool_decide_false by lia.
Qed.

(** the region view of a copied block is pointwise the copied bytes *)
Lemma mem_store_load m dest src n a : no_wrap dest n -> no_wrap src n -> 0 <= a < ptr_size ->
  mem_store m dest (mem_load m src n) a =
    if bool_decide (dest <= a < dest + Z.of_nat n) then m (src + (a - dest)) else m a.
Proof.
  intros [Hd Hwd] [Hs Hws] Ha. rw /mem_store. case_bool_decide.
  - rewrite -> (ptr_id (a - dest)) by lia. rewrite -> mem_load_lookup by lia.
    rewrite -> ptr_id by lia. do 2 f_equal. lia.
  - rewrite -> lookup_ge_None_2; first done. rw mem_load_length /ptr.
    destruct (Z.lt_ge_cases a dest).
    + rw -(Z_mod_plus_full _ 1) Z.mod_small; lia.
    + rw Z.mod_small; lia.
Qed.

(** [memmove] copies as if through a temporary, whatever the overlap; [memcpy]
    does so when the regions do not overlap or the destination comes first. *)
Lemma memmove_store dest src n m a : no_wrap dest n -> no_wrap src n -> 0 <= a < ptr_size ->
  memmove dest src n m a = mem_store m dest (mem_load m src n) a.
Proof.
  intros Hd Hs Ha. rw mem_store_load //. destruct Hd, Hs. rw /memmove.
  destruct (Z.ltb_spec dest src).
  - rewrite -> memcpy_loop_spec by lia. by rw Z.add_0_r.
  - by rewrite -> memmove_down_spec by lia.
Qed.

Lemma memcpy_store dest src n m a : no_wrap dest n -> no_wrap src n -> 0 <= a < ptr_size ->
  (dest <= src \/ src + Z.of_nat n <= dest) ->
  memcpy dest src n m a = mem_store m dest (mem_load m src n) a.
Proof.
  intros Hd Hs Ha Ho. rw mem_store_load //. destruct Hd, Hs.
  rw /memcpy. rewrite -> memcpy_loop_spec by lia. by rw Z.add_0_r.
Qed.

(** [memcmp] returns 0 exactly on equal byte strings, and otherwise the order
    of the first difference. *)
Lemma memcmp_loop_eq (k : nat) i a b xs ys : 0 <= i ->
  length xs = k -> length ys = k ->
  (forall j : nat, (j < k)%nat -> a (i + Z.of_nat j) = from_option Ok UB (xs !! j)) ->
  (forall j : nat, (j < k)%nat -> b (i + Z.of_nat j) = from_option Ok UB (ys !! j)) ->
  exists r, memcmp_loop k i a b = Ok r /\ (r =? 0) = bool_decide (xs = ys).
Proof.
  revert i xs ys. induction k as [|k IH] => i xs ys Hi Hx Hy Ha Hb.
  { destruct xs, ys; try done. by exists 0. }
  destruct xs as [|x xs], ys as [|y ys]; try done. simpl in Hx, Hy. cbn [memcmp_loop].
  have := Ha 0%nat ltac:(lia). have := Hb 0%nat ltac:(lia).
  change (Z.of_nat 0) with 0. rw Z.add_0_r => /= -> -> /=.
  destruct (Z.ltb_spec x y); [eexists; split; [done|]; rewrite -> bool_decide_false; [done|]; intros [=]; lia|].
  destruct (Z.ltb_spec y x); [eexists; split; [done|]; rewrite -> bool_decide_false; [done|]; intros [=]; lia|].
  have -> : x = y by lia.
  destruct (IH (i + 1) xs ys) as (r & -> & Hr); [lia|lia|lia| | |].
  - intros j Hj. rw -(Ha (S j)); [lia|]. f_equal. lia.
  - intros j Hj. rw -(Hb (S j)); [lia|]. f_equal. lia.
  - exists r. split; first done. rw Hr. apply bool_decide_ext. naive_solver.
Qed.
End Memory.
