(* ===== verification/BlockDevice.v ===== *)
(** * The block-device interface between the file system and its drivers

    [src/header/driver/disk.h] declares [read_blocks]/[write_blocks]; they are
    implemented twice, by the ATA PIO driver ([Ata.v]) for the kernel and by the
    in-memory image of the host-side inserter ([Inserter.v]).  The file system is
    verified against the laws below, which both implementations discharge. *)

From S2P Require Import Prelude.

Definition BLOCK_SIZE : Z := 512.
Definition HALF_BLOCK_SIZE : Z := BLOCK_SIZE / 2.
Definition DISK_SPACE : Z := 4194304.

(** the contents of a [struct BlockBuffer] *)
Definition BlockBuffer_ok (b : list Z) : Prop := len b = BLOCK_SIZE /\ bytes_ok b.

(** Operations: [dev_read l] is [read_blocks(&buf, l, 1)], [dev_write l b] is
    [write_blocks(&b, l, 1)]; [dev_block d l] observes block [l] of the medium. *)
Class BlockDevice (D : Type) := {
  nblocks : Z;
  dev_ok : D -> Prop;
  dev_block : D -> Z -> list Z;
  dev_read : Z -> M D (list Z);
  dev_write : Z -> list Z -> M D unit;
}.

Class BlockDeviceLaws (D : Type) `{BlockDevice D} := {
  nblocks_ge : DISK_SPACE / BLOCK_SIZE <= nblocks;
  dev_block_ok (d : D) l : dev_ok d -> 0 <= l < nblocks -> BlockBuffer_ok (dev_block d l);
  dev_read_spec (d : D) l : dev_ok d -> 0 <= l < nblocks ->
    wp (dev_read l) (fun b d' => b = dev_block d l /\ dev_ok d' /\
      forall l', dev_block d' l' = dev_block d l') d;
  dev_write_spec (d : D) l b : dev_ok d -> 0 <= l < nblocks -> BlockBuffer_ok b ->
    wp (dev_write l b) (fun _ d' => dev_ok d' /\
      forall l', dev_block d' l' = if l' =? l then b else dev_block d l') d;
}.

Lemma BlockBuffer_ok_zeros : BlockBuffer_ok (zeros 512).
Proof. split; [done|apply bytes_ok_zeros]. Qed.

Lemma BlockBuffer_ok_splice off bs buf buf' :
  splice off bs buf = Ok buf' -> bytes_ok bs -> BlockBuffer_ok buf -> BlockBuffer_ok buf'.
Proof.
  intros Hs ? [Hl ?]. split; [by rewrite -> (splice_length _ _ _ _ Hs)|].
  by eapply splice_bytes_ok.
Qed.
