(* ===== verification/Ext2Layout.v ===== *)
(** * EXT2 on-disk structures ([src/header/filesystem/ext2.h])

    The packed C structs as records, the constants of the volume geometry as the
    macros expand (including the precedence of the unparenthesised
    [GROUPS_COUNT]), and the little-endian byte images of the structs with
    their decoders. *)

From S2P Require Import Prelude BlockDevice.

(** ** Constants *)
Definition SUPERBLOCK_LBA : Z := 1.
Definition BGDT_LBA : Z := SUPERBLOCK_LBA + 1.
Definition BLOCK_BITMAP_LBA : Z := BGDT_LBA + 1.
Definition INODE_BITMAP_LBA : Z := BLOCK_BITMAP_LBA + 1.
Definition INODE_TABLE_LBA : Z := INODE_BITMAP_LBA + 1.
Definition ROOT_INODE_NO : Z := 2.
Definition EXT2_GOOD_OLD_FIRST_INO : Z := 11.
Definition BOOT_SECTOR : Z := 0.
Definition EXT2_SUPER_MAGIC : Z := 0xEF53.

(** [const uint8_t fs_signature[BLOCK_SIZE]] *)
Definition fs_signature : list Z :=
  [82; 69; 78; 68; 65; 78; 71; 79; 83; 32; 70; 83; 32; 118; 49; 46] ++ zeros 494 ++ [79; 107].

(** [sizeof] of the packed structs, derived from the member widths below *)
Definition sizeof_EXT2Superblock : Z := 204.
Definition sizeof_EXT2BlockGroupDescriptor : Z := 32.
Definition sizeof_EXT2Inode : Z := 128.
Definition sizeof_EXT2DirectoryEntry : Z := 8.

Definition INODES_PER_TABLE : Z := BLOCK_SIZE / sizeof_EXT2Inode.
(** [#define GROUPS_COUNT (BLOCK_SIZE / sizeof(...)) / 2u] *)
Definition GROUPS_COUNT : Z := (BLOCK_SIZE / sizeof_EXT2BlockGroupDescriptor) / 2.
(** [(DISK_SPACE / BLOCK_SIZE / GROUPS_COUNT)] expands to
    [DISK_SPACE / BLOCK_SIZE / (BLOCK_SIZE / sizeof(...)) / 2u]. *)
Definition BLOCKS_PER_GROUP : Z :=
  DISK_SPACE / BLOCK_SIZE / (BLOCK_SIZE / sizeof_EXT2BlockGroupDescriptor) / 2.
Definition INODES_TABLE_BLOCK_COUNT : Z := 16.
Definition INODES_PER_GROUP : Z := INODES_PER_TABLE * INODES_TABLE_BLOCK_COUNT.
(** [(BLOCKS_PER_GROUP * GROUPS_COUNT)] and [(INODES_PER_GROUP * GROUPS_COUNT)],
    again with the unparenthesised right operand *)
Definition TOTAL_BLOCKS : Z :=
  BLOCKS_PER_GROUP * (BLOCK_SIZE / sizeof_EXT2BlockGroupDescriptor) / 2.
Definition TOTAL_INODES : Z :=
  INODES_PER_GROUP * (BLOCK_SIZE / sizeof_EXT2BlockGroupDescriptor) / 2.
Definition ROOT_DIR_BLOCK_LBA : Z := INODE_TABLE_LBA + INODES_TABLE_BLOCK_COUNT.
Definition INITIAL_USED_BLOCKS : Z := 1 + 1 + 1 + 1 + 1 + INODES_TABLE_BLOCK_COUNT + 1.
Definition INITIAL_USED_INODES : Z := EXT2_GOOD_OLD_FIRST_INO.

Definition EXT2_S_IFREG : Z := 0x8000.
Definition EXT2_S_IFDIR : Z := 0x4000.
Definition EXT2_FT_REG_FILE : Z := 1.
Definition EXT2_FT_DIR : Z := 2.

(** ** Structs *)
(** [buf] and [name] are addresses in the flat memory of the caller. *)
Record EXT2DriverRequest := mkRequest {
  buf : Z; name : Z; name_len : Z; parent_inode : Z; buffer_size : Z; is_directory : bool;
}.

Record EXT2Superblock := mkSuperblock {
  s_inodes_count : Z; s_blocks_count : Z; s_r_blocks_count : Z;
  s_free_blocks_count : Z; s_free_inodes_count : Z; s_first_data_block : Z;
  s_log_block_size : Z; s_log_frag_size : Z; s_blocks_per_group : Z;
  s_frags_per_group : Z; s_inodes_per_group : Z; s_mtime : Z; s_wtime : Z;
  s_mnt_count : Z; s_max_mnt_count : Z; s_magic : Z; s_state : Z; s_errors : Z;
  s_minor_rev_level : Z; s_lastcheck : Z; s_checkinterval : Z; s_creator_os : Z;
  s_rev_level : Z; s_def_resuid : Z; s_def_resgid : Z; s_first_ino : Z;
  s_inode_size : Z; s_block_group_nr : Z; s_feature_compat : Z;
  s_feature_incompat : Z; s_feature_ro_compat : Z; s_uuid : list Z;
  s_volume_name : list Z; s_last_mounted : list Z; s_algo_bitmap : Z;
}.

Record EXT2BlockGroupDescriptor := mkBGD {
  bg_block_bitmap : Z; bg_inode_bitmap : Z; bg_inode_table : Z;
  bg_free_blocks_count : Z; bg_free_inodes_count : Z; bg_used_dirs_count : Z;
  bg_pad : Z; bg_reserved : list Z;
}.

Record EXT2Inode := mkInode {
  i_mode : Z; i_uid : Z; i_size : Z; i_atime : Z; i_ctime : Z; i_mtime : Z;
  i_dtime : Z; i_gid : Z; i_links_count : Z; i_blocks : Z; i_flags : Z; i_osd1 : Z;
  i_block : list Z; i_generation : Z; i_file_acl : Z; i_dir_acl : Z; i_faddr : Z;
  i_osd2 : list Z;
}.

(** ** Byte images *)
(** a sequence of integer members with their widths in bytes *)
Definition fields_bytes (fs : list (nat * Z)) : list Z :=
  concat (map (fun f => le_bytes f.1 f.2) fs).
Fixpoint fields_val (ws : list nat) (bs : list Z) : list Z :=
  match ws with
  | [] => []
  | w :: ws => le_val (take w bs) :: fields_val ws (drop w bs)
  end.
Definition in_width (f : nat * Z) : Prop := 0 <= f.2 < 256 ^ Z.of_nat f.1.

Definition EXT2Superblock_fields (sb : EXT2Superblock) : list (nat * Z) :=
  [ (4%nat, s_inodes_count sb); (4%nat, s_blocks_count sb); (4%nat, s_r_blocks_count sb);
    (4%nat, s_free_blocks_count sb); (4%nat, s_free_inodes_count sb);
    (4%nat, s_first_data_block sb); (4%nat, s_log_block_size sb);
    (4%nat, s_log_frag_size sb); (4%nat, s_blocks_per_group sb);
    (4%nat, s_frags_per_group sb); (4%nat, s_inodes_per_group sb); (4%nat, s_mtime sb);
    (4%nat, s_wtime sb); (2%nat, s_mnt_count sb); (2%nat, s_max_mnt_count sb);
    (2%nat, s_magic sb); (2%nat, s_state sb); (2%nat, s_errors sb);
    (2%nat, s_minor_rev_level sb); (4%nat, s_lastcheck sb); (4%nat, s_checkinterval sb);
    (4%nat, s_creator_os sb); (4%nat, s_rev_level sb); (2%nat, s_def_resuid sb);
    (2%nat, s_def_resgid sb); (4%nat, s_first_ino sb); (2%nat, s_inode_size sb);
    (2%nat, s_block_group_nr sb); (4%nat, s_feature_compat sb);
    (4%nat, s_feature_incompat sb); (4%nat, s_feature_ro_compat sb) ].
Definition EXT2Superblock_widths : list nat :=
  (replicate 13 4 ++ replicate 6 2 ++ replicate 4 4 ++ [2; 2; 4; 2; 2; 4; 4; 4])%nat.

Definition EXT2Superblock_bytes (sb : EXT2Superblock) : list Z :=
  fields_bytes (EXT2Superblock_fields sb) ++ s_uuid sb ++ s_volume_name sb ++
  s_last_mounted sb ++ le_bytes 4 (s_algo_bitmap sb).

Definition EXT2Superblock_of_bytes (bs : list Z) : EXT2Superblock :=
  let v i := nth i (fields_val EXT2Superblock_widths bs) 0 in
  {| s_inodes_count := v 0%nat; s_blocks_count := v 1%nat; s_r_blocks_count := v 2%nat;
     s_free_blocks_count := v 3%nat; s_free_inodes_count := v 4%nat;
     s_first_data_block := v 5%nat; s_log_block_size := v 6%nat;
     s_log_frag_size := v 7%nat; s_blocks_per_group := v 8%nat;
     s_frags_per_group := v 9%nat; s_inodes_per_group := v 10%nat; s_mtime := v 11%nat;
     s_wtime := v 12%nat; s_mnt_count := v 13%nat; s_max_mnt_count := v 14%nat;
     s_magic := v 15%nat; s_state := v 16%nat; s_errors := v 17%nat;
     s_minor_rev_level := v 18%nat; s_lastcheck := v 19%nat; s_checkinterval := v 20%nat;
     s_creator_os := v 21%nat; s_rev_level := v 22%nat; s_def_resuid := v 23%nat;
     s_def_resgid := v 24%nat; s_first_ino := v 25%nat; s_inode_size := v 26%nat;
     s_block_group_nr := v 27%nat; s_feature_compat := v 28%nat;
     s_feature_incompat := v 29%nat; s_feature_ro_compat := v 30%nat;
     s_uuid := take 16 (drop 104 bs); s_volume_name := take 16 (drop 120 bs);
     s_last_mounted := take 64 (drop 136 bs); s_algo_bitmap := le_val (take 4 (drop 200 bs)) |}.

Definition EXT2BlockGroupDescriptor_fields (g : EXT2BlockGroupDescriptor) : list (nat * Z) :=
  [ (4%nat, bg_block_bitmap g); (4%nat, bg_inode_bitmap g);
    (4%nat, bg_inode_table g); (2%nat, bg_free_blocks_count g);
    (2%nat, bg_free_inodes_count g); (2%nat, bg_used_dirs_count g); (2%nat, bg_pad g) ] ++
    map (pair 4%nat) (bg_reserved g).
Definition EXT2BlockGroupDescriptor_widths : list nat :=
  ([4; 4; 4; 2; 2; 2; 2] ++ replicate 3 4)%nat.
Definition EXT2BlockGroupDescriptor_bytes (g : EXT2BlockGroupDescriptor) : list Z :=
  fields_bytes (EXT2BlockGroupDescriptor_fields g).
Definition EXT2BlockGroupDescriptor_of_bytes (bs : list Z) : EXT2BlockGroupDescriptor :=
  let vs := fields_val EXT2BlockGroupDescriptor_widths bs in
  let v i := nth i vs 0 in
  {| bg_block_bitmap := v 0%nat; bg_inode_bitmap := v 1%nat; bg_inode_table := v 2%nat;
     bg_free_blocks_count := v 3%nat; bg_free_inodes_count := v 4%nat;
     bg_used_dirs_count := v 5%nat; bg_pad := v 6%nat; bg_reserved := drop 7 vs |}.

Definition EXT2Inode_fields (n : EXT2Inode) : list (nat * Z) :=
  [ (2%nat, i_mode n); (2%nat, i_uid n); (4%nat, i_size n);
    (4%nat, i_atime n); (4%nat, i_ctime n); (4%nat, i_mtime n); (4%nat, i_dtime n);
    (2%nat, i_gid n); (2%nat, i_links_count n); (4%nat, i_blocks n); (4%nat, i_flags n);
    (4%nat, i_osd1 n) ] ++ map (pair 4%nat) (i_block n) ++
    [ (4%nat, i_generation n); (4%nat, i_file_acl n); (4%nat, i_dir_acl n);
      (4%nat, i_faddr n) ].
Definition EXT2Inode_widths : list nat :=
  ([2; 2; 4; 4; 4; 4; 4; 2; 2; 4; 4; 4] ++ replicate 15 4 ++ [4; 4; 4; 4])%nat.
Definition EXT2Inode_bytes (n : EXT2Inode) : list Z :=
  fields_bytes (EXT2Inode_fields n) ++ i_osd2 n.
Definition EXT2Inode_of_bytes (bs : list Z) : EXT2Inode :=
  let vs := fields_val EXT2Inode_widths bs in
  let v i := nth i vs 0 in
  {| i_mode := v 0%nat; i_uid := v 1%nat; i_size := v 2%nat; i_atime := v 3%nat;
     i_ctime := v 4%nat; i_mtime := v 5%nat; i_dtime := v 6%nat; i_gid := v 7%nat;
     i_links_count := v 8%nat; i_blocks := v 9%nat; i_flags := v 10%nat;
     i_osd1 := v 11%nat; i_block := take 15 (drop 12 vs); i_generation := v 27%nat;
     i_file_acl := v 28%nat; i_dir_acl := v 29%nat; i_faddr := v 30%nat;
     i_osd2 := take 12 (drop 116 bs) |}.

(** the members hold values of their declared widths *)
Definition EXT2Superblock_ok (sb : EXT2Superblock) : Prop :=
  Forall in_width (EXT2Superblock_fields sb) /\ in_width (4%nat, s_algo_bitmap sb) /\
  (length (s_uuid sb) = 16%nat /\ length (s_volume_name sb) = 16%nat /\
   length (s_last_mounted sb) = 64%nat) /\
  bytes_ok (s_uuid sb ++ s_volume_name sb ++ s_last_mounted sb).
Definition EXT2BlockGroupDescriptor_ok (g : EXT2BlockGroupDescriptor) : Prop :=
  Forall in_width (EXT2BlockGroupDescriptor_fields g) /\ length (bg_reserved g) = 3%nat.
Definition EXT2Inode_ok (n : EXT2Inode) : Prop :=
  Forall in_width (EXT2Inode_fields n) /\
  length (i_block n) = 15%nat /\ length (i_osd2 n) = 12%nat /\ bytes_ok (i_osd2 n).

(** ** Lengths and round trips *)
Lemma fields_bytes_cons f fs : fields_bytes (f :: fs) = le_bytes f.1 f.2 ++ fields_bytes fs.
Proof. done. Qed.

Lemma fields_bytes_length fs : length (fields_bytes fs) = sum_list (map fst fs).
Proof.
  induction fs as [|f fs IH]; first done.
  by rw fields_bytes_cons length_app le_bytes_length IH.
Qed.

Lemma fields_bytes_ok fs : bytes_ok (fields_bytes fs).
Proof.
  induction fs as [|f fs IH]; first constructor.
  rw fields_bytes_cons. apply bytes_ok_app. split; [apply le_bytes_ok|done].
Qed.

Lemma fields_val_bytes fs rest : Forall in_width fs ->
  fields_val (map fst fs) (fields_bytes fs ++ rest) = map snd fs.
Proof.
  induction 1 as [|f fs Hf _ IH]; first done.
  rw fields_bytes_cons -app_assoc. cbn [map fields_val].
  rewrite -> take_app_length', drop_app_length' by by rw le_bytes_length.
  by rw le_val_bytes_id // IH.
Qed.

Lemma fields_val_length ws bs : length (fields_val ws bs) = length ws.
Proof. revert bs. induction ws => bs //=. by f_equal. Qed.

Lemma fields_val_in_width ws bs : (sum_list ws <= length bs)%nat -> bytes_ok bs ->
  Forall in_width (zip ws (fields_val ws bs)).
Proof.
  revert bs. induction ws as [|w ws IH] => bs; first constructor.
  intros Hl Hb. simpl in Hl. constructor.
  - have := le_val_range (take w bs) (bytes_ok_take _ _ Hb). rw length_take.
    by have -> : (w `min` length bs = w)%nat by lia.
  - apply IH; [rw length_drop; lia|by apply bytes_ok_drop].
Qed.

Lemma fields_bytes_val ws bs : (sum_list ws <= length bs)%nat -> bytes_ok bs ->
  fields_bytes (zip ws (fields_val ws bs)) = take (sum_list ws) bs.
Proof.
  revert bs. induction ws as [|w ws IH] => bs; first by rw take_0.
  intros Hl Hb. simpl in Hl. cbn [zip zip_with fields_val]. rw fields_bytes_cons. cbn [fst snd].
  have E : length (take w bs) = w by (rw length_take; lia).
  rw IH; [rw length_drop; lia|by apply bytes_ok_drop|].
  rewrite <-E at 1. rewrite -> le_bytes_val by by apply bytes_ok_take.
  by rw take_take_drop.
Qed.

Lemma map_fst_pair (w : nat) (l : list Z) : map fst (map (pair w) l) = replicate (length l) w.
Proof. induction l as [|x l IH]; first done. cbn. by rw IH. Qed.
Lemma map_snd_pair (w : nat) (l : list Z) : map snd (map (pair w) l) = l.
Proof. induction l as [|x l IH]; first done. cbn. by rw IH. Qed.

Lemma EXT2Superblock_bytes_length sb : EXT2Superblock_ok sb ->
  len (EXT2Superblock_bytes sb) = sizeof_EXT2Superblock.
Proof.
  intros (_ & _ & (H1 & H2 & H3) & _). rw /EXT2Superblock_bytes.
  have := fields_bytes_length (EXT2Superblock_fields sb).
  generalize (fields_bytes (EXT2Superblock_fields sb)) => fb Hfb.
  by rw !length_app Hfb le_bytes_length H1 H2 H3.
Qed.
Lemma EXT2Superblock_bytes_ok sb : EXT2Superblock_ok sb -> bytes_ok (EXT2Superblock_bytes sb).
Proof.
  intros (_ & _ & _ & Hb). rw /EXT2Superblock_bytes.
  apply bytes_ok_app; split; first apply fields_bytes_ok.
  rw !app_assoc. apply bytes_ok_app; split; [|apply le_bytes_ok]. by rw -app_assoc.
Qed.

Lemma EXT2BlockGroupDescriptor_fields_widths g : EXT2BlockGroupDescriptor_ok g ->
  map fst (EXT2BlockGroupDescriptor_fields g) = EXT2BlockGroupDescriptor_widths.
Proof. intros (_ & H). by rw /EXT2BlockGroupDescriptor_fields map_app map_fst_pair H. Qed.
Lemma EXT2Inode_fields_widths n : EXT2Inode_ok n ->
  map fst (EXT2Inode_fields n) = EXT2Inode_widths.
Proof. intros (_ & H & _). by rw /EXT2Inode_fields !map_app map_fst_pair H. Qed.

Lemma EXT2BlockGroupDescriptor_bytes_length g : EXT2BlockGroupDescriptor_ok g ->
  len (EXT2BlockGroupDescriptor_bytes g) = sizeof_EXT2BlockGroupDescriptor.
Proof.
  intros H. rw /EXT2BlockGroupDescriptor_bytes fields_bytes_length.
  by rw EXT2BlockGroupDescriptor_fields_widths.
Qed.
Lemma EXT2BlockGroupDescriptor_bytes_ok g : bytes_ok (EXT2BlockGroupDescriptor_bytes g).
Proof. apply fields_bytes_ok. Qed.

Lemma EXT2Inode_fields_bytes_length n : EXT2Inode_ok n ->
  length (fields_bytes (EXT2Inode_fields n)) = 116%nat.
Proof. intros H. by rw fields_bytes_length EXT2Inode_fields_widths. Qed.
Lemma EXT2Inode_bytes_length n : EXT2Inode_ok n -> len (EXT2Inode_bytes n) = sizeof_EXT2Inode.
Proof.
  intros H. rw /EXT2Inode_bytes. have := EXT2Inode_fields_bytes_length n H.
  generalize (fields_bytes (EXT2Inode_fields n)) => fb Hfb.
  destruct H as (_ & _ & Ho & _). by rw length_app Hfb Ho.
Qed.
Lemma EXT2Inode_bytes_ok n : EXT2Inode_ok n -> bytes_ok (EXT2Inode_bytes n).
Proof. intros (_ & _ & _ & Hb). apply bytes_ok_app. split; [apply fields_bytes_ok|done]. Qed.

Lemma EXT2Superblock_round_trip sb rest : EXT2Superblock_ok sb ->
  EXT2Superblock_of_bytes (EXT2Superblock_bytes sb ++ rest) = sb.
Proof.
  intros (Hf & Ha & (H1 & H2 & H3) & Hb).
  rw /EXT2Superblock_of_bytes /EXT2Superblock_bytes -app_assoc.
  set fb := fields_bytes _. have Hfl : length fb = 104%nat by rw fields_bytes_length.
  rw (fields_val_bytes (EXT2Superblock_fields sb)) //. clearbody fb. clear Hf Hb.
  rw -!app_assoc.
  set alg := le_bytes 4 _. have Halg : length alg = 4%nat by apply le_bytes_length.
  have Ealg : le_val alg = s_algo_bitmap sb by apply le_val_bytes_id.
  clearbody alg. clear Ha. set tl := alg ++ rest.
  have -> : take 16 (drop 104 (fb ++ s_uuid sb ++ s_volume_name sb ++ s_last_mounted sb ++ tl)) = s_uuid sb.
  { by rewrite -> drop_app_length', take_app_length' by done. }
  have -> : take 16 (drop 120 (fb ++ s_uuid sb ++ s_volume_name sb ++ s_last_mounted sb ++ tl)) = s_volume_name sb.
  { rw (app_assoc fb). by rewrite -> drop_app_length', take_app_length' by (rw ?length_app; lia). }
  have -> : take 64 (drop 136 (fb ++ s_uuid sb ++ s_volume_name sb ++ s_last_mounted sb ++ tl)) = s_last_mounted sb.
  { rw (app_assoc fb) (app_assoc (fb ++ _)).
    by rewrite -> drop_app_length', take_app_length' by (rw ?length_app; lia). }
  have -> : take 4 (drop 200 (fb ++ s_uuid sb ++ s_volume_name sb ++ s_last_mounted sb ++ tl)) = alg.
  { rw /tl (app_assoc fb) (app_assoc (fb ++ _)) (app_assoc ((fb ++ _) ++ _)).
    by rewrite -> drop_app_length', take_app_length' by (rw ?length_app; lia). }
  rw Ealg. by destruct sb.
Qed.

Lemma EXT2BlockGroupDescriptor_round_trip g rest : EXT2BlockGroupDescriptor_ok g ->
  EXT2BlockGroupDescriptor_of_bytes (EXT2BlockGroupDescriptor_bytes g ++ rest) = g.
Proof.
  intros H. rw /EXT2BlockGroupDescriptor_of_bytes /EXT2BlockGroupDescriptor_bytes.
  rw -(EXT2BlockGroupDescriptor_fields_widths g H).
  destruct H as (Hf & Hl). rw (fields_val_bytes _ _ Hf).
  rw /EXT2BlockGroupDescriptor_fields map_app map_snd_pair. by destruct g.
Qed.

Lemma EXT2Inode_round_trip n rest : EXT2Inode_ok n ->
  EXT2Inode_of_bytes (EXT2Inode_bytes n ++ rest) = n.
Proof.
  intros H. rw /EXT2Inode_of_bytes /EXT2Inode_bytes -app_assoc.
  have Hfl := EXT2Inode_fields_bytes_length n H.
  rw -(EXT2Inode_fields_widths n H). destruct H as (Hf & Hl & Ho & _).
  rw (fields_val_bytes _ _ Hf). clear Hf.
  have -> : take 12 (drop 116 (fields_bytes (EXT2Inode_fields n) ++ i_osd2 n ++ rest)) = i_osd2 n.
  { by rewrite -> drop_app_length', take_app_length' by done. }
  rw /EXT2Inode_fields !map_app map_snd_pair. clear Hfl.
  destruct n as [? ? ? ? ? ? ? ? ? ? ? ? blk ? ? ? ? ?]. simpl in *.
  by do 16 (destruct blk as [|? blk]; try discriminate Hl).
Qed.

(** every 128-byte image decodes to a well-formed inode and encodes back *)
Lemma EXT2Inode_fields_of_bytes bs :
  EXT2Inode_fields (EXT2Inode_of_bytes bs) = zip EXT2Inode_widths (fields_val EXT2Inode_widths bs).
Proof.
  rw /EXT2Inode_of_bytes. have := fields_val_length EXT2Inode_widths bs.
  generalize (fields_val EXT2Inode_widths bs) => vs Hl.
  by do 32 (destruct vs as [|? vs]; try discriminate Hl).
Qed.

Lemma EXT2Inode_of_bytes_ok bs : len bs = sizeof_EXT2Inode -> bytes_ok bs ->
  EXT2Inode_ok (EXT2Inode_of_bytes bs).
Proof.
  intros Hl Hb. have Hl' : length bs = 128%nat by rw /sizeof_EXT2Inode in Hl; lia.
  split_and!.
  - rw EXT2Inode_fields_of_bytes. apply fields_val_in_width; [|done].
    rw Hl'. by apply Nat.leb_le.
  - rw /EXT2Inode_of_bytes. cbv zeta. cbn [i_block].
    by rw length_take length_drop fields_val_length.
  - rw /EXT2Inode_of_bytes. cbv zeta. cbn [i_osd2]. by rw length_take length_drop Hl'.
  - rw /EXT2Inode_of_bytes. cbv zeta. cbn [i_osd2]. by apply bytes_ok_take, bytes_ok_drop.
Qed.

Lemma EXT2BlockGroupDescriptor_of_bytes_ok bs : (32 <= length bs)%nat -> bytes_ok bs ->
  EXT2BlockGroupDescriptor_ok (EXT2BlockGroupDescriptor_of_bytes bs).
Proof.
  intros Hl Hb. have Hz := fields_val_in_width EXT2BlockGroupDescriptor_widths bs Hl Hb. revert Hz. rw /EXT2BlockGroupDescriptor_of_bytes.
  have := fields_val_length EXT2BlockGroupDescriptor_widths bs. generalize (fields_val EXT2BlockGroupDescriptor_widths bs) => vs Hv.
  by do 10 (destruct vs as [|? vs]; try discriminate Hv); destruct vs; try discriminate Hv.
Qed.
Lemma EXT2Superblock_of_bytes_ok bs : (204 <= length bs)%nat -> bytes_ok bs -> EXT2Superblock_ok (EXT2Superblock_of_bytes bs).
Proof.
  intros Hl Hb. have Hz := fields_val_in_width EXT2Superblock_widths bs ltac:(cbn; lia) Hb.
  have Hbytes n k : bytes_ok (take n (drop k bs)) by apply bytes_ok_take, bytes_ok_drop.
  split; [|split; [|split; [|apply Forall_app; split; [apply Hbytes|apply Forall_app; split; apply Hbytes]]]].
  - revert Hz. rw /EXT2Superblock_of_bytes.
    have := fields_val_length EXT2Superblock_widths bs. generalize (fields_val EXT2Superblock_widths bs) => vs Hv.
    by do 31 (destruct vs as [|? vs]; try discriminate Hv); destruct vs; try discriminate Hv.
  - have := le_val_range (take 4 (drop 200 bs)) (Hbytes _ _). rewrite -> length_take, length_drop, Nat.min_l by lia. done.
  - cbn [s_uuid s_volume_name s_last_mounted EXT2Superblock_of_bytes]. rw !length_take !length_drop. lia.
Qed.

Lemma EXT2Inode_bytes_of_bytes bs : len bs = sizeof_EXT2Inode -> bytes_ok bs ->
  EXT2Inode_bytes (EXT2Inode_of_bytes bs) = bs.
Proof.
  intros Hl Hb. have Hl' : length bs = 128%nat by rw /sizeof_EXT2Inode in Hl; lia.
  rw /EXT2Inode_bytes EXT2Inode_fields_of_bytes fields_bytes_val //.
  { rw Hl'. by apply Nat.leb_le. }
  change (i_osd2 (EXT2Inode_of_bytes bs)) with (take 12 (drop 116 bs)).
  change (sum_list EXT2Inode_widths) with 116%nat.
  rewrite -> (take_ge (drop 116 bs)) by (rw length_drop; lia). apply take_drop.
Qed.
