(* ===== verification/Ext2Dir.v ===== *)
(** * Directory blocks ([src/filesystem/ext2.c], entry helpers and the scans)

    The byte-level scans of one 512-byte directory block that
    [find_entry_in_dir], [add_entry_to_dir], [remove_entry_from_dir] and
    [is_directory_empty] run, and their refinement of operations on the list of
    entries the block represents. *)

From S2P Require Import Prelude StdString BlockDevice Ext2Layout.

(** ** Entry fields at an offset of a block *)
Definition entry_inode (b : list Z) (off : Z) : res Z := ld 4 b off.
Definition entry_rec_len (b : list Z) (off : Z) : res Z := ld 2 b (off + 4).
Definition entry_name_len (b : list Z) (off : Z) : res Z := ld 1 b (off + 6).
Definition entry_file_type (b : list Z) (off : Z) : res Z := ld 1 b (off + 7).
(** [get_entry_name]: the name follows the 8-byte header *)
Definition get_entry_name (off : Z) : Z := off + sizeof_EXT2DirectoryEntry.

(** [uint16_t len = sizeof + name_len; return (len + 3) & ~3;] *)
Definition get_entry_record_len (name_len : Z) : Z :=
  let l := u16 (sizeof_EXT2DirectoryEntry + name_len) in
  u16 (Z.land (l + 3) (Z.lnot 3)).

(** the offset of the next entry, [None] for the null pointer *)
Definition get_next_directory_entry (b : list Z) (off : Z) : res (option Z) :=
  rl ← entry_rec_len b off;
  if rl =? 0 then Ok None else Ok (Some (off + rl)).

Definition get_dir_first_child_offset (b : list Z) : res Z :=
  rl ← entry_rec_len b 0;
  if rl =? 0 then Ok 0 else
  dd ← get_next_directory_entry b 0;
  match dd with
  | None => Ok 0
  | Some dotdot =>
    rl2 ← entry_rec_len b dotdot;
    if rl2 =? 0 then Ok 0 else Ok (u32 (dotdot + rl2))
  end.

(** ** The scans.  Every iteration advances by at least one byte, so
    [scan_fuel] iterations reach the end of the block. *)
Definition scan_fuel : nat := 513.

(** [ent->name_len == n && memcmp(name(ent), name, n) == 0] *)
Definition name_matches (b : list Z) (off : Z) (name : list Z) : res bool :=
  nl ← entry_name_len b off;
  if nl =? len name then
    c ← memcmp (fun i => list_at b (get_entry_name off + i)) (list_at name) (length name);
    Ok (c =? 0)
  else Ok false.

(** body of [find_entry_in_dir] on one block: the inode found, or 0 *)
Fixpoint find_scan (fuel : nat) (b : list Z) (off : Z) (name : list Z) : res Z :=
  match fuel with
  | O => NoFuel
  | S fuel =>
    if off <? BLOCK_SIZE then
      rl ← entry_rec_len b off;
      if rl =? 0 then Ok 0 else
      ino ← entry_inode b off;
      hit ← (if ino =? 0 then Ok false else name_matches b off name);
      if hit : bool then Ok ino else find_scan fuel b (off + rl) name
    else Ok 0
  end.

(** body of [add_entry_to_dir] on one block: the updated block when an entry had
    room for the new one behind it *)
Definition write_entry (b : list Z) (off ino rl : Z) (name : list Z) (ft : Z) : res (list Z) :=
  b ← st 4 b off ino;
  b ← st 1 b (off + 6) (len name);
  b ← st 1 b (off + 7) ft;
  b ← st 2 b (off + 4) rl;
  splice (get_entry_name off) name b.

Fixpoint add_scan (fuel : nat) (b : list Z) (off ino : Z) (name : list Z) (ft : Z)
    : res (option (list Z)) :=
  match fuel with
  | O => NoFuel
  | S fuel =>
    if off <? BLOCK_SIZE then
      nl ← entry_name_len b off;
      let actual_len := get_entry_record_len nl in
      rl ← entry_rec_len b off;
      if actual_len + get_entry_record_len (len name) <=? rl then
        let remaining := u16 (rl - actual_len) in
        b ← st 2 b (off + 4) actual_len;
        b ← write_entry b (off + actual_len) ino remaining name ft;
        Ok (Some b)
      else if rl =? 0 then Ok None
      else add_scan fuel b (off + rl) ino name ft
    else Ok None
  end.

(** body of [remove_entry_from_dir] on one block; [prev] is [prev_ent] *)
Fixpoint remove_scan (fuel : nat) (b : list Z) (prev : option Z) (off : Z) (name : list Z)
    : res (option (list Z)) :=
  match fuel with
  | O => NoFuel
  | S fuel =>
    if off <? BLOCK_SIZE then
      rl ← entry_rec_len b off;
      if rl =? 0 then Ok None else
      ino ← entry_inode b off;
      hit ← (if ino =? 0 then Ok false else name_matches b off name);
      if hit : bool then
        match prev with
        | Some p =>
          prl ← entry_rec_len b p;
          b ← st 2 b (p + 4) (u16 (prl + rl));
          Ok (Some b)
        | None => b ← st 4 b off 0; Ok (Some b)
        end
      else remove_scan fuel b (Some off) (off + rl) name
    else Ok None
  end.

(** body of [is_directory_empty] on one block: does a live entry follow? *)
Fixpoint live_scan (fuel : nat) (b : list Z) (off : Z) : res bool :=
  match fuel with
  | O => NoFuel
  | S fuel =>
    if off <? BLOCK_SIZE then
      rl ← entry_rec_len b off;
      if rl =? 0 then Ok false else
      ino ← entry_inode b off;
      if negb (ino =? 0) then Ok true else live_scan fuel b (off + rl)
    else Ok false
  end.

(** the block of a new directory: [.] and [..] *)
Definition dot_block (ino parent : Z) : res (list Z) :=
  let dot_len := get_entry_record_len 1 in
  b ← write_entry (zeros 512) 0 ino dot_len [46] EXT2_FT_DIR;
  write_entry b dot_len parent (u16 (BLOCK_SIZE - dot_len)) [46; 46] EXT2_FT_DIR.

(** ** Directory blocks as lists of entries *)
Record dentry := mkDentry { de_inode : Z; de_name : list Z; de_type : Z; de_pad : list Z }.

Definition de_rec_len (e : dentry) : Z := 8 + len (de_name e) + len (de_pad e).
Definition entry_header (ino rl nl ft : Z) : list Z :=
  le_bytes 4 ino ++ le_bytes 2 rl ++ le_bytes 1 nl ++ le_bytes 1 ft.
Definition dentry_bytes (e : dentry) : list Z :=
  entry_header (de_inode e) (de_rec_len e) (len (de_name e)) (de_type e) ++
  de_name e ++ de_pad e.

Definition align4 (n : Z) : Z := (n + 3) / 4 * 4.
(** an entry has room for its header and name, is 4-byte aligned, and its
    members fit their widths *)
Definition dentry_ok (e : dentry) : Prop :=
  0 <= de_inode e < 2 ^ 32 /\ len (de_name e) < 256 /\ 0 <= de_type e < 256 /\
  bytes_ok (de_name e) /\ bytes_ok (de_pad e) /\
  align4 (8 + len (de_name e)) <= de_rec_len e /\ (4 | de_rec_len e).

Definition dir_bytes (es : list dentry) : list Z := concat (map dentry_bytes es).
Definition dir_block (b : list Z) (es : list dentry) : Prop :=
  b = dir_bytes es /\ len b = BLOCK_SIZE /\ Forall dentry_ok es.

(** the specification of the scans *)
Definition de_match (name : list Z) (e : dentry) : bool :=
  negb (de_inode e =? 0) && bool_decide (de_name e = name).
Fixpoint dir_lookup (es : list dentry) (name : list Z) : Z :=
  match es with
  | [] => 0
  | e :: es => if de_match name e then de_inode e else dir_lookup es name
  end.

Definition de_actual (e : dentry) : Z := align4 (8 + len (de_name e)).
Definition de_split (e : dentry) (ino : Z) (name : list Z) (ft : Z) : list dentry :=
  let k := Z.to_nat (de_actual e - (8 + len (de_name e))) in
  [ mkDentry (de_inode e) (de_name e) (de_type e) (take k (de_pad e));
    mkDentry ino name ft (drop (k + 8 + length name) (de_pad e)) ].
Fixpoint dir_insert (es : list dentry) (ino : Z) (name : list Z) (ft : Z)
    : option (list dentry) :=
  match es with
  | [] => None
  | e :: es =>
    if de_actual e + align4 (8 + len name) <=? de_rec_len e
    then Some (de_split e ino name ft ++ es)
    else (e ::.) <$> dir_insert es ino name ft
  end.

Definition de_absorb (p e : dentry) : dentry :=
  mkDentry (de_inode p) (de_name p) (de_type p) (de_pad p ++ dentry_bytes e).
Definition de_clear (e : dentry) : dentry := mkDentry 0 (de_name e) (de_type e) (de_pad e).
(** removal behind a known previous entry, and from the start of a block *)
Fixpoint dir_remove_after (p : dentry) (es : list dentry) (name : list Z)
    : option (list dentry) :=
  match es with
  | [] => None
  | e :: es => if de_match name e then Some (de_absorb p e :: es)
               else (p ::.) <$> dir_remove_after e es name
  end.
Definition dir_remove (es : list dentry) (name : list Z) : option (list dentry) :=
  match es with
  | [] => None
  | e :: es => if de_match name e then Some (de_clear e :: es)
               else dir_remove_after e es name
  end.

(** ** Elementary facts *)
Lemma align4_bounds n : n <= align4 n < n + 4 /\ (4 | align4 n).
Proof.
  rw /align4. split; [|by exists ((n + 3) / 4)].
  have := Z.div_mod (n + 3) 4. have := Z.mod_pos_bound (n + 3) 4. lia.
Qed.

Lemma get_entry_record_len_spec nl : 0 <= nl < 256 ->
  get_entry_record_len nl = align4 (8 + nl).
Proof.
  intros. rw /get_entry_record_len /sizeof_EXT2DirectoryEntry.
  rewrite -> (u16_id (8 + nl)) by lia.
  have -> : Z.land (8 + nl + 3) (Z.lnot 3) = align4 (8 + nl).
  { change 3 with (Z.ones 2) at 2. rw -Z.ldiff_land Z.ldiff_ones_r //.
    rewrite -> Z.shiftl_mul_pow2, Z.shiftr_div_pow2 by lia. done. }
  have := align4_bounds (8 + nl). intros [? _]. by rewrite -> u16_id by lia.
Qed.

Lemma entry_header_length ino rl nl ft : length (entry_header ino rl nl ft) = 8%nat.
Proof. by rw /entry_header !length_app !le_bytes_length. Qed.

#[local] Hint Rewrite entry_header_length : lens.
Lemma dentry_bytes_length e : len (dentry_bytes e) = de_rec_len e.
Proof. rw /dentry_bytes /de_rec_len. solve_len. Qed.

Lemma dir_bytes_cons e es : dir_bytes (e :: es) = dentry_bytes e ++ dir_bytes es.
Proof. done. Qed.

Lemma dir_bytes_app es es' : dir_bytes (es ++ es') = dir_bytes es ++ dir_bytes es'.
Proof. by rw /dir_bytes map_app concat_app. Qed.

Lemma dentry_ok_rec_len e : dentry_ok e -> 8 <= de_actual e <= de_rec_len e.
Proof. intros (_ & _ & _ & _ & _ & H & _). rw /de_actual. have := align4_bounds (8 + len (de_name e)). lia. Qed.

Lemma entry_header_bytes_ok ino rl nl ft : bytes_ok (entry_header ino rl nl ft).
Proof. rw /entry_header. rewrite -> !bytes_ok_app. split_and!; apply le_bytes_ok. Qed.

Lemma dentry_bytes_ok e : dentry_ok e -> bytes_ok (dentry_bytes e).
Proof.
  intros (_ & _ & _ & ? & ? & _). rw /dentry_bytes. rewrite -> !bytes_ok_app.
  split_and!; [apply entry_header_bytes_ok|done|done].
Qed.

Lemma dir_bytes_ok es : Forall dentry_ok es -> bytes_ok (dir_bytes es).
Proof.
  induction 1; first constructor. rw dir_bytes_cons. apply bytes_ok_app.
  split; [by apply dentry_bytes_ok|done].
Qed.

Lemma dir_block_buffer_ok b es : dir_block b es -> BlockBuffer_ok b.
Proof. intros (-> & ? & ?). split; [done|by apply dir_bytes_ok]. Qed.

(** a field access at an offset that a split of the buffer exhibits *)
Lemma ld_at n b off pre x post v :
  b = pre ++ x ++ post -> off = len pre -> length x = n -> le_val x = v -> ld n b off = Ok v.
Proof. intros -> ? ? <-. by apply ld_mid. Qed.
Lemma st_at n b off v pre x post :
  b = pre ++ x ++ post -> off = len pre -> length x = n ->
  st n b off v = Ok (pre ++ le_bytes n v ++ post).
Proof. intros -> ? ?. by apply st_mid. Qed.
Lemma splice_at b off bs pre x post :
  b = pre ++ x ++ post -> off = len pre -> length x = length bs ->
  splice off bs b = Ok (pre ++ bs ++ post).
Proof. intros -> ? ?. by apply splice_mid. Qed.

(** reading the header fields of an entry *)
Lemma header_fields pre ino rl nl ft post off :
  off = len pre -> 0 <= ino < 2 ^ 32 -> 0 <= rl < 65536 -> 0 <= nl < 256 -> 0 <= ft < 256 ->
  let b := pre ++ entry_header ino rl nl ft ++ post in
  entry_inode b off = Ok ino /\ entry_rec_len b off = Ok rl /\
  entry_name_len b off = Ok nl /\ entry_file_type b off = Ok ft.
Proof.
  intros -> ? ? ? ? b. rw /b /entry_header.
  rw /entry_inode /entry_rec_len /entry_name_len /entry_file_type. split_and!.
  - apply (ld_at 4 _ _ pre (le_bytes 4 ino) (le_bytes 2 rl ++ le_bytes 1 nl ++ le_bytes 1 ft ++ post));
      [by rw -!app_assoc|lia|done|by apply le_val_bytes_id].
  - apply (ld_at 2 _ _ (pre ++ le_bytes 4 ino) (le_bytes 2 rl) (le_bytes 1 nl ++ le_bytes 1 ft ++ post));
      [by rw -!app_assoc|solve_len|done|by apply le_val_bytes_id].
  - apply (ld_at 1 _ _ (pre ++ le_bytes 4 ino ++ le_bytes 2 rl) (le_bytes 1 nl) (le_bytes 1 ft ++ post));
      [by rw -!app_assoc|solve_len|done|by apply le_val_bytes_id].
  - apply (ld_at 1 _ _ (pre ++ le_bytes 4 ino ++ le_bytes 2 rl ++ le_bytes 1 nl) (le_bytes 1 ft) post);
      [by rw -!app_assoc|solve_len|done|by apply le_val_bytes_id].
Qed.

Lemma dentry_fields pre e post off :
  off = len pre -> dentry_ok e -> de_rec_len e < 65536 ->
  let b := pre ++ dentry_bytes e ++ post in
  entry_inode b off = Ok (de_inode e) /\ entry_rec_len b off = Ok (de_rec_len e) /\
  entry_name_len b off = Ok (len (de_name e)).
Proof.
  intros Hoff He Hr b. have Hrl := dentry_ok_rec_len e He. destruct He as (? & ? & ? & _).
  rw /b /dentry_bytes. rewrite <- app_assoc.
  edestruct (header_fields pre (de_inode e) (de_rec_len e) (len (de_name e)) (de_type e)
    ((de_name e ++ de_pad e) ++ post) off) as (? & ? & ? & _); try lia. done.
Qed.

Lemma name_matches_spec pre e post off name :
  off = len pre -> dentry_ok e -> de_rec_len e < 65536 ->
  name_matches (pre ++ dentry_bytes e ++ post) off name = Ok (bool_decide (de_name e = name)).
Proof.
  intros Hoff He Hr. destruct (dentry_fields pre e post off Hoff He Hr) as (_ & _ & Hn).
  rw /name_matches Hn /=. destruct (Z.eqb_spec (len (de_name e)) (len name)) as [E|E].
  2: { rewrite -> bool_decide_false; [done|]. intros EE. apply E. by rw EE. }
  have El : length (de_name e) = length name by lia.
  edestruct (memcmp_loop_eq (length name) 0
    (fun i => list_at (pre ++ dentry_bytes e ++ post) (get_entry_name off + i))
    (list_at name) (de_name e) name) as (r & Hm & Hr0); [lia|done|done| | |].
  - intros j Hj. rw /list_at /get_entry_name /sizeof_EXT2DirectoryEntry /dentry_bytes.
    rewrite <- !app_assoc.
    have -> : Z.to_nat (off + 8 + (0 + Z.of_nat j)) = (length pre + (8 + j))%nat by lia.
    rewrite -> lookup_app_r by lia. have -> : (length pre + (8 + j) - length pre = 8 + j)%nat by lia.
    rewrite -> lookup_app_r by (rw entry_header_length; lia). rw entry_header_length.
    have -> : (8 + j - 8 = j)%nat by lia. rewrite -> lookup_app_l by lia.
    by destruct (de_name e !! j).
  - intros j Hj. rw /list_at. have -> : Z.to_nat (0 + Z.of_nat j) = j by lia.
    by destruct (name !! j).
  - rw /memcmp Hm /=. by rw Hr0.
Qed.

#[local] Opaque dentry_bytes entry_header.
Arguments dentry_bytes : simpl never.
Arguments dir_bytes : simpl never.

(** ** Refinement of the scans.  Each scan is stated on a block split as
    [pre ++ dir_bytes es] with the offset at the end of [pre]. *)
Definition scan_at (fuel : nat) (pre : list Z) (es : list dentry) : Prop :=
  len (pre ++ dir_bytes es) = BLOCK_SIZE /\ Forall dentry_ok es /\
  (512 - length pre < fuel)%nat.

Lemma scan_at_nil fuel pre : scan_at fuel pre [] -> (len pre <? BLOCK_SIZE) = false.
Proof. intros (Hl & _). rw app_nil_r in Hl. apply Z.ltb_ge. lia. Qed.

Lemma scan_at_cons fuel pre e es : scan_at (S fuel) pre (e :: es) ->
  (len pre <? BLOCK_SIZE) = true /\ dentry_ok e /\ 8 <= de_rec_len e <= 512 /\
  len (pre ++ dentry_bytes e) = len pre + de_rec_len e /\
  scan_at fuel (pre ++ dentry_bytes e) es.
Proof.
  intros (Hl & He & Hf). inversion He as [|? ? Hok Hes]; subst.
  have Hrl := dentry_ok_rec_len e Hok. have Hb := dentry_bytes_length e.
  rw dir_bytes_cons in Hl. rw /BLOCK_SIZE in Hl |- *. autorewrite with lens in Hl.
  split_and!; [apply Z.ltb_lt; lia|done|lia|lia|autorewrite with lens; lia|].
  split_and!; [|done|].
  { rw -app_assoc /BLOCK_SIZE; autorewrite with lens; lia. }
  autorewrite with lens. lia.
Qed.

Lemma find_scan_spec fuel pre es name : scan_at fuel pre es ->
  find_scan fuel (pre ++ dir_bytes es) (len pre) name = Ok (dir_lookup es name).
Proof.
  revert fuel pre. induction es as [|e es IH] => fuel pre Hs.
  { destruct fuel; [by destruct Hs as (_ & _ & ?); lia|]. cbn [find_scan].
    by rw (scan_at_nil _ _ Hs). }
  destruct fuel; [by destruct Hs as (_ & _ & ?); lia|].
  destruct (scan_at_cons _ _ _ _ Hs) as (Hlt & Hok & Hrl & Hlen & Hs'). cbn [find_scan].
  rw Hlt dir_bytes_cons. destruct (dentry_fields pre e (dir_bytes es) _ eq_refl Hok) as (-> & -> & _); [lia|].
  simpl. rewrite -> (proj2 (Z.eqb_neq (de_rec_len e) 0)) by lia.
  have Hhit : (if de_inode e =? 0 then Ok false
               else name_matches (pre ++ dentry_bytes e ++ dir_bytes es) (len pre) name)
              = Ok (de_match name e).
  { rw /de_match. destruct (de_inode e =? 0); first done. rewrite -> name_matches_spec by (done || lia). done. }
  rw Hhit /=. destruct (de_match name e); first done.
  rw -Hlen app_assoc. by apply IH.
Qed.

Lemma live_scan_spec fuel pre es : scan_at fuel pre es ->
  live_scan fuel (pre ++ dir_bytes es) (len pre) =
    Ok (existsb (fun e => negb (de_inode e =? 0)) es).
Proof.
  revert fuel pre. induction es as [|e es IH] => fuel pre Hs.
  { destruct fuel; [by destruct Hs as (_ & _ & ?); lia|]. cbn [live_scan].
    by rw (scan_at_nil _ _ Hs). }
  destruct fuel; [by destruct Hs as (_ & _ & ?); lia|].
  destruct (scan_at_cons _ _ _ _ Hs) as (Hlt & Hok & Hrl & Hlen & Hs'). cbn [live_scan].
  rw Hlt dir_bytes_cons. destruct (dentry_fields pre e (dir_bytes es) _ eq_refl Hok) as (-> & -> & _); [lia|].
  simpl. rewrite -> (proj2 (Z.eqb_neq (de_rec_len e) 0)) by lia.
  destruct (negb (de_inode e =? 0)); first done. rw -Hlen app_assoc. by apply IH.
Qed.

Lemma write_entry_at b pre old post off ino rl name ft :
  b = pre ++ old ++ post -> off = len pre -> (8 + length name <= length old)%nat ->
  write_entry b off ino rl name ft =
    Ok (pre ++ entry_header ino rl (len name) ft ++ name ++ drop (8 + length name) old ++ post).
Proof.
  intros -> -> Hl. rw /write_entry.
  destruct (split_length 4 old) as (o1 & t1 & -> & L1); [lia|]. autorewrite with lens in Hl.
  destruct (split_length 2 t1) as (o2 & t2 & -> & L2); [lia|]. autorewrite with lens in Hl.
  destruct (split_length 1 t2) as (o3 & t3 & -> & L3); [lia|]. autorewrite with lens in Hl.
  destruct (split_length 1 t3) as (o4 & t4 & -> & L4); [lia|]. autorewrite with lens in Hl.
  destruct (split_length (length name) t4) as (o5 & o6 & -> & L5); [lia|].
  have -> : drop (8 + length name) (o1 ++ o2 ++ o3 ++ o4 ++ o5 ++ o6) = o6.
  { rw !app_assoc. apply drop_app_length'. autorewrite with lens. lia. }
  rewrite <- !app_assoc.
  rewrite -> (st_at 4 _ _ _ pre o1 (o2 ++ o3 ++ o4 ++ o5 ++ o6 ++ post)) by done. rw res_bind_ok.
  rewrite -> (st_at 1 _ _ _ (pre ++ le_bytes 4 ino ++ o2) o3 (o4 ++ o5 ++ o6 ++ post));
    [|by rw -!app_assoc|solve_len|done]. rw res_bind_ok.
  rewrite -> (st_at 1 _ _ _ (pre ++ le_bytes 4 ino ++ o2 ++ le_bytes 1 (len name)) o4 (o5 ++ o6 ++ post));
    [|by rw -!app_assoc|solve_len|done]. rw res_bind_ok.
  rewrite -> (st_at 2 _ _ _ (pre ++ le_bytes 4 ino) o2
    (le_bytes 1 (len name) ++ le_bytes 1 ft ++ o5 ++ o6 ++ post));
    [|by rw -!app_assoc|solve_len|done]. rw res_bind_ok.
  rewrite -> (splice_at _ _ _
    (pre ++ le_bytes 4 ino ++ le_bytes 2 rl ++ le_bytes 1 (len name) ++ le_bytes 1 ft) o5 (o6 ++ post));
    [|by rw -!app_assoc|rw /get_entry_name /sizeof_EXT2DirectoryEntry; solve_len|done].
  with_strategy transparent [entry_header] (rw /entry_header). by rw -!app_assoc.
Qed.

Lemma set_header_rec_len b pre ino rl nl ft post off rl' :
  b = pre ++ entry_header ino rl nl ft ++ post -> off = len pre ->
  st 2 b (off + 4) rl' = Ok (pre ++ entry_header ino rl' nl ft ++ post).
Proof.
  intros -> ->. with_strategy transparent [entry_header] (rw /entry_header).
  rewrite -> (st_at 2 _ _ _ (pre ++ le_bytes 4 ino) (le_bytes 2 rl) (le_bytes 1 nl ++ le_bytes 1 ft ++ post));
    [by rw -!app_assoc|by rw -!app_assoc|solve_len|done].
Qed.

Lemma set_header_inode b pre ino rl nl ft post off ino' :
  b = pre ++ entry_header ino rl nl ft ++ post -> off = len pre ->
  st 4 b off ino' = Ok (pre ++ entry_header ino' rl nl ft ++ post).
Proof.
  intros -> ->. with_strategy transparent [entry_header] (rw /entry_header).
  rewrite -> (st_at 4 _ _ _ pre (le_bytes 4 ino) (le_bytes 2 rl ++ le_bytes 1 nl ++ le_bytes 1 ft ++ post));
    [by rw -!app_assoc|by rw -!app_assoc|done|done].
Qed.

Lemma dentry_bytes_eq e : dentry_bytes e =
  entry_header (de_inode e) (de_rec_len e) (len (de_name e)) (de_type e) ++ de_name e ++ de_pad e.
Proof. with_strategy transparent [dentry_bytes] done. Qed.

(** the bytes of a split entry, its slack replaced by the new entry *)
Lemma de_split_bytes e ino name ft post :
  dentry_ok e -> de_actual e + align4 (8 + len name) <= de_rec_len e ->
  let k := Z.to_nat (de_actual e - (8 + len (de_name e))) in
  dir_bytes (de_split e ino name ft) ++ post =
  entry_header (de_inode e) (de_actual e) (len (de_name e)) (de_type e) ++ de_name e ++
  take k (de_pad e) ++ entry_header ino (de_rec_len e - de_actual e) (len name) ft ++ name ++
  drop (8 + length name) (drop k (de_pad e)) ++ post.
Proof.
  intros Hok Hfit k. have Ha := align4_bounds (8 + len (de_name e)).
  have Hn := align4_bounds (8 + len name).
  rw /de_split /dir_bytes. cbn [map concat]. rw !dentry_bytes_eq. cbn [de_inode de_name de_type de_pad].
  rw -/k drop_drop app_nil_r -!app_assoc.
  have -> : de_rec_len (mkDentry (de_inode e) (de_name e) (de_type e) (take k (de_pad e))) = de_actual e.
  { rw /de_rec_len /= length_take. rw /de_rec_len in Hfit. rw /k /de_actual in Hfit |- *. lia. }
  have -> : de_rec_len (mkDentry ino name ft (drop (k + 8 + length name) (de_pad e))) =
            de_rec_len e - de_actual e.
  { rw /de_rec_len /= length_drop. rw /de_rec_len in Hfit. rw /k /de_actual in Hfit |- *. lia. }
  by have -> : (k + 8 + length name = k + (8 + length name))%nat by lia.
Qed.

Lemma add_scan_spec fuel pre es ino name ft :
  scan_at fuel pre es -> len name < 256 ->
  add_scan fuel (pre ++ dir_bytes es) (len pre) ino name ft =
    Ok ((fun es' => pre ++ dir_bytes es') <$> dir_insert es ino name ft).
Proof.
  intros Hs Hname. revert fuel pre Hs. induction es as [|e es IH] => fuel pre Hs.
  { destruct fuel; [by destruct Hs as (_ & _ & ?); lia|]. cbn [add_scan].
    by rw (scan_at_nil _ _ Hs). }
  destruct fuel; [by destruct Hs as (_ & _ & ?); lia|].
  destruct (scan_at_cons _ _ _ _ Hs) as (Hlt & Hok & Hrl & Hlen & Hs'). cbn [add_scan dir_insert].
  rw Hlt dir_bytes_cons. destruct (dentry_fields pre e (dir_bytes es) _ eq_refl Hok) as (_ & -> & ->); [lia|].
  rw !res_bind_ok. have Hnl : len (de_name e) < 256 by apply Hok.
  rewrite -> !get_entry_record_len_spec by lia. rw -/(de_actual e).
  destruct (Z.leb_spec (de_actual e + align4 (8 + len name)) (de_rec_len e)) as [Hfit|Hfit].
  - have Ha := align4_bounds (8 + len (de_name e)). have Hn := align4_bounds (8 + len name).
    set k := Z.to_nat (de_actual e - (8 + len (de_name e))).
    have Hk : 8 + len (de_name e) + Z.of_nat k = de_actual e by rw /k /de_actual; lia.
    rewrite -> (set_header_rec_len _ pre (de_inode e) (de_rec_len e) (len (de_name e)) (de_type e)
      (de_name e ++ de_pad e ++ dir_bytes es)); [|by rw dentry_bytes_eq -!app_assoc|done].
    rewrite -> res_bind_ok, u16_id by (rw /de_actual; lia).
    rewrite -> (write_entry_at _ (pre ++ entry_header (de_inode e) (de_actual e) (len (de_name e))
      (de_type e) ++ de_name e ++ take k (de_pad e)) (drop k (de_pad e)) (dir_bytes es)); cycle 1.
    { rw -!app_assoc. by rw (app_assoc (take k _)) take_drop. }
    { rw /de_rec_len in Hfit. autorewrite with lens. lia. }
    { rw /de_rec_len in Hfit. autorewrite with lens. lia. }
    rw res_bind_ok. cbn [fmap option_fmap option_map]. do 2 f_equal. rw dir_bytes_app.
    rewrite -> (de_split_bytes e ino name ft (dir_bytes es)) by done. by rw -!app_assoc.
  - rewrite -> (proj2 (Z.eqb_neq (de_rec_len e) 0)) by lia.
    rw -Hlen app_assoc. rewrite -> IH by done.
    destruct (dir_insert es ino name ft) as [es'|]; simpl; [|done]. by rw -app_assoc.
Qed.

Lemma de_absorb_rec_len p e : de_rec_len (de_absorb p e) = de_rec_len p + de_rec_len e.
Proof.
  have := dentry_bytes_length e. rw /de_absorb /de_rec_len. cbn [de_name de_pad].
  autorewrite with lens. lia.
Qed.

Lemma remove_scan_after_spec fuel pre p es name :
  scan_at fuel (pre ++ dentry_bytes p) es -> dentry_ok p ->
  remove_scan fuel ((pre ++ dentry_bytes p) ++ dir_bytes es) (Some (len pre))
    (len (pre ++ dentry_bytes p)) name =
    Ok ((fun es' => pre ++ dir_bytes es') <$> dir_remove_after p es name).
Proof.
  revert fuel pre p. induction es as [|e es IH] => fuel pre p Hs Hp.
  { destruct fuel; [by destruct Hs as (_ & _ & ?); lia|]. cbn [remove_scan].
    by rw (scan_at_nil _ _ Hs). }
  destruct fuel; [by destruct Hs as (_ & _ & ?); lia|].
  destruct (scan_at_cons _ _ _ _ Hs) as (Hlt & Hok & Hrl & Hlen & Hs').
  cbn [remove_scan dir_remove_after]. rw Hlt dir_bytes_cons.
  destruct (dentry_fields (pre ++ dentry_bytes p) e (dir_bytes es) _ eq_refl Hok) as (-> & -> & _); [lia|].
  rw !res_bind_ok. rewrite -> (proj2 (Z.eqb_neq (de_rec_len e) 0)) by lia.
  have -> : (if de_inode e =? 0 then Ok false
             else name_matches ((pre ++ dentry_bytes p) ++ dentry_bytes e ++ dir_bytes es)
                    (len (pre ++ dentry_bytes p)) name) = Ok (de_match name e).
  { rw /de_match. destruct (de_inode e =? 0); first done. by rewrite -> name_matches_spec by (done || lia). }
  rw res_bind_ok. destruct (de_match name e).
  - have Hpl := dentry_bytes_length p.
    have Hsum : de_rec_len p + de_rec_len e <= 512.
    { destruct Hs' as (Hl & _). rw /BLOCK_SIZE in Hl. autorewrite with lens in Hl, Hlen. lia. }
    have Hp8 := dentry_ok_rec_len p Hp.
    rewrite <- (app_assoc pre).
    destruct (dentry_fields pre p (dentry_bytes e ++ dir_bytes es) _ eq_refl Hp) as (_ & -> & _); [lia|].
    rw res_bind_ok. rewrite -> u16_id by lia.
    rewrite -> (set_header_rec_len _ pre (de_inode p) (de_rec_len p) (len (de_name p)) (de_type p)
      ((de_name p ++ de_pad p) ++ dentry_bytes e ++ dir_bytes es));
      [|by rw (dentry_bytes_eq p) -!app_assoc|done].
    rw res_bind_ok /=. do 2 f_equal. rw dir_bytes_cons (dentry_bytes_eq (de_absorb p e)).
    rw de_absorb_rec_len. cbn [de_absorb de_inode de_name de_type de_pad]. by rw -!app_assoc.
  - rw -Hlen (app_assoc (pre ++ dentry_bytes p)). rewrite -> IH by done.
    destruct (dir_remove_after e es name) as [es'|]; simpl; [|done]. by rw -app_assoc.
Qed.

Lemma remove_scan_spec fuel pre es name :
  scan_at fuel pre es ->
  remove_scan fuel (pre ++ dir_bytes es) None (len pre) name =
    Ok ((fun es' => pre ++ dir_bytes es') <$> dir_remove es name).
Proof.
  intros Hs. destruct es as [|e es].
  { destruct fuel; [by destruct Hs as (_ & _ & ?); lia|]. cbn [remove_scan].
    by rw (scan_at_nil _ _ Hs). }
  destruct fuel; [by destruct Hs as (_ & _ & ?); lia|].
  destruct (scan_at_cons _ _ _ _ Hs) as (Hlt & Hok & Hrl & Hlen & Hs').
  cbn [remove_scan dir_remove]. rw Hlt dir_bytes_cons.
  destruct (dentry_fields pre e (dir_bytes es) _ eq_refl Hok) as (-> & -> & _); [lia|].
  rw !res_bind_ok. rewrite -> (proj2 (Z.eqb_neq (de_rec_len e) 0)) by lia.
  have -> : (if de_inode e =? 0 then Ok false
             else name_matches (pre ++ dentry_bytes e ++ dir_bytes es) (len pre) name)
            = Ok (de_match name e).
  { rw /de_match. destruct (de_inode e =? 0); first done. by rewrite -> name_matches_spec by (done || lia). }
  rw res_bind_ok. destruct (de_match name e).
  - rewrite -> (set_header_inode _ pre (de_inode e) (de_rec_len e) (len (de_name e)) (de_type e)
      ((de_name e ++ de_pad e) ++ dir_bytes es));
      [|by rw (dentry_bytes_eq e) -!app_assoc|done].
    rw res_bind_ok. cbn [fmap option_fmap option_map].
    rw dir_bytes_cons (dentry_bytes_eq (de_clear e)).
    cbn [de_clear de_inode de_name de_type de_pad]. by rw -!app_assoc.
  - rw -Hlen app_assoc. by apply remove_scan_after_spec.
Qed.

(** ** The live entries of a block: the directory the block stands for *)
Definition entry_live (e : dentry) : list (list Z * (Z * Z)) :=
  if de_inode e =? 0 then [] else [(de_name e, (de_inode e, de_type e))].
Definition dir_live (es : list dentry) : list (list Z * (Z * Z)) := concat (map entry_live es).
Fixpoint live_lookup (l : list (list Z * (Z * Z))) (name : list Z) : Z :=
  match l with
  | [] => 0
  | (n, (ino, _)) :: l => if bool_decide (n = name) then ino else live_lookup l name
  end.

Lemma dir_live_cons e es : dir_live (e :: es) = entry_live e ++ dir_live es.
Proof. done. Qed.
Lemma dir_live_app es es' : dir_live (es ++ es') = dir_live es ++ dir_live es'.
Proof. by rw /dir_live map_app concat_app. Qed.

Lemma live_lookup_app l l' name : (forall n ino ft, (n, (ino, ft)) ∈ l -> ino <> 0) ->
  live_lookup (l ++ l') name =
    if live_lookup l name =? 0 then live_lookup l' name else live_lookup l name.
Proof.
  induction l as [|[n [ino ft]] l IH] => Hl //=. case_bool_decide.
  - rewrite -> (proj2 (Z.eqb_neq ino 0)); [done|]. apply (Hl n ino ft). by left.
  - apply IH. intros ????. eapply Hl. right. done.
Qed.

Lemma live_lookup_none l name : live_lookup l name = 0 ->
  (forall n ino ft, (n, (ino, ft)) ∈ l -> ino <> 0) -> name ∉ l.*1.
Proof.
  induction l as [|[n [ino ft]] l IH] => /=; [set_solver|]. case_bool_decide as Hn => Hz Hl.
  - exfalso. apply (Hl n ino ft); [by left|done].
  - rw not_elem_of_cons. split; [done|]. apply IH; [done|]. intros ????. eapply Hl. by right.
Qed.

Lemma live_lookup_not_in l name : name ∉ l.*1 -> live_lookup l name = 0.
Proof.
  induction l as [|[n [ino ft]] l IH] => //=. rw not_elem_of_cons. intros [? ?].
  rewrite -> bool_decide_false by done. by apply IH.
Qed.

Lemma dir_live_inode es n ino ft : (n, (ino, ft)) ∈ dir_live es -> ino <> 0.
Proof.
  induction es as [|e es IH]; [by intros ?%not_elem_of_nil|]. rw dir_live_cons elem_of_app.
  intros [H|H]; [|by apply IH]. rw /entry_live in H. destruct (Z.eqb_spec (de_inode e) 0); [by apply not_elem_of_nil in H|].
  apply list_elem_of_singleton in H. by injection H as -> -> ->.
Qed.

Lemma dir_lookup_live es name : dir_lookup es name = live_lookup (dir_live es) name.
Proof.
  induction es as [|e es IH]; first done. rw dir_live_cons /entry_live /=.
  rw /de_match. destruct (de_inode e =? 0) eqn:E; simpl; [done|].
  destruct (bool_decide _); [done|apply IH].
Qed.

Lemma dir_lookup_app es es' name :
  dir_lookup (es ++ es') name =
    if dir_lookup es name =? 0 then dir_lookup es' name else dir_lookup es name.
Proof. rw !dir_lookup_live dir_live_app. apply live_lookup_app, dir_live_inode. Qed.

(** insertion and removal on the live entries *)
Lemma dir_insert_live es ino name ft es' :
  ino <> 0 -> dir_insert es ino name ft = Some es' ->
  exists l1 l2, dir_live es = l1 ++ l2 /\ dir_live es' = l1 ++ (name, (ino, ft)) :: l2.
Proof.
  intros Hi. revert es'. induction es as [|e es IH] => es' //=.
  destruct (_ <=? _).
  - intros [= <-]. exists (entry_live e), (dir_live es). split; first done.
    rw !dir_live_cons /entry_live /=. rewrite -> (proj2 (Z.eqb_neq ino 0)) by done. done.
  - destruct (dir_insert es ino name ft) as [es0|]; simpl; [|done]. intros [= <-].
    destruct (IH es0 eq_refl) as (l1 & l2 & E1 & E2).
    exists (entry_live e ++ l1), l2. by rw !dir_live_cons E1 E2 !app_assoc.
Qed.

Lemma entry_live_absorb p e : entry_live (de_absorb p e) = entry_live p.
Proof. done. Qed.

Lemma de_match_live name e : de_match name e = true ->
  entry_live e = [(name, (de_inode e, de_type e))].
Proof.
  rw /de_match /entry_live. destruct (de_inode e =? 0); [done|]. by intros ->%bool_decide_eq_true.
Qed.
Lemma de_match_not_live name e : de_match name e = false -> name ∉ (entry_live e).*1.
Proof.
  rw /de_match /entry_live. destruct (de_inode e =? 0); [set_solver|].
  intros ?%bool_decide_eq_false. set_solver.
Qed.

Lemma dir_remove_after_live p es name es' :
  dir_remove_after p es name = Some es' ->
  exists l1 x l2, dir_live (p :: es) = entry_live p ++ l1 ++ (name, x) :: l2 /\
    (name ∉ l1.*1) /\ dir_live es' = entry_live p ++ l1 ++ l2.
Proof.
  revert p es'. induction es as [|e es IH] => p es' //=.
  destruct (de_match name e) eqn:E.
  - intros [= <-]. exists [], (de_inode e, de_type e), (dir_live es). rw !dir_live_cons.
    rewrite -> (de_match_live name e) by done. split; [done|]. split; [set_solver|done].
  - destruct (dir_remove_after e es name) as [es0|] eqn:Er; simpl; [|done]. intros [= <-].
    destruct (IH e es0 Er) as (l1 & x & l2 & E1 & Hn & E2).
    exists (entry_live e ++ l1), x, l2. rw !(dir_live_cons p) E1 E2 -!app_assoc.
    split; [done|]. split; [|done]. rw fmap_app not_elem_of_app. split; [|done].
    by apply de_match_not_live.
Qed.

Lemma dir_remove_live es name es' : dir_remove es name = Some es' ->
  exists l1 x l2, dir_live es = l1 ++ (name, x) :: l2 /\ (name ∉ l1.*1) /\
    dir_live es' = l1 ++ l2.
Proof.
  destruct es as [|e es]; [done|]. cbn [dir_remove]. destruct (de_match name e) eqn:E.
  - intros [= <-]. exists [], (de_inode e, de_type e), (dir_live es). rw !dir_live_cons.
    rewrite -> (de_match_live name e) by done. split; [done|]. split; [set_solver|done].
  - intros Hr. destruct (dir_remove_after_live e es name es' Hr) as (l1 & x & l2 & E1 & Hn & E2).
    exists (entry_live e ++ l1), x, l2. rw E1 E2 -!app_assoc. split; [done|]. split; [|done].
    rw fmap_app not_elem_of_app. split; [|done]. by apply de_match_not_live.
Qed.

Lemma dir_remove_none es name : dir_remove es name = None <-> dir_lookup es name = 0.
Proof.
  have Haft : forall es p, dir_remove_after p es name = None <-> dir_lookup es name = 0.
  { clear es. induction es as [|e es IH] => p /=; [done|]. destruct (de_match name e) eqn:E.
    - rw /de_match in E. destruct (Z.eqb_spec (de_inode e) 0); naive_solver.
    - rw fmap_None. apply IH. }
  destruct es as [|e es]; [done|]. cbn [dir_remove dir_lookup]. destruct (de_match name e) eqn:E.
  - rw /de_match in E. destruct (Z.eqb_spec (de_inode e) 0); naive_solver.
  - apply Haft.
Qed.

(** ** Preservation of well-formed entries *)
Lemma dir_bytes_nil : dir_bytes [] = []. Proof. done. Qed.
Lemma dir_bytes_cons_length e es : len (dir_bytes (e :: es)) = de_rec_len e + len (dir_bytes es).
Proof. rw dir_bytes_cons. have := dentry_bytes_length e. autorewrite with lens. lia. Qed.

Lemma dentry_ok_intro e : 0 <= de_inode e < 2 ^ 32 -> len (de_name e) < 256 ->
  0 <= de_type e < 256 -> bytes_ok (de_name e) -> bytes_ok (de_pad e) ->
  align4 (8 + len (de_name e)) <= de_rec_len e -> (4 | de_rec_len e) -> dentry_ok e.
Proof. done. Qed.

Lemma de_split_ok e ino name ft :
  dentry_ok e -> 0 <= ino < 2 ^ 32 -> len name < 256 -> bytes_ok name -> 0 <= ft < 256 ->
  de_actual e + align4 (8 + len name) <= de_rec_len e ->
  Forall dentry_ok (de_split e ino name ft) /\
  len (dir_bytes (de_split e ino name ft)) = de_rec_len e.
Proof.
  intros (H1 & H2 & H3 & H4 & H5 & H6 & H7) Hi Hn Hb Hft Hfit.
  have [Ha Hda] := align4_bounds (8 + len (de_name e)).
  have [Ha' Hda'] := align4_bounds (8 + len name).
  rw /de_split. set k := Z.to_nat (de_actual e - (8 + len (de_name e))).
  set e1 := mkDentry _ _ _ (take k _). set e2 := mkDentry ino _ _ _.
  have Hk : 8 + len (de_name e) + Z.of_nat k = de_actual e by rw /k /de_actual; lia.
  have E1 : de_rec_len e1 = de_actual e.
  { rw /e1 {1}/de_rec_len /= length_take. rw /de_rec_len in Hfit. lia. }
  have E2 : de_rec_len e2 = de_rec_len e - de_actual e.
  { rw /e2 {1}/de_rec_len /= length_drop. rw /de_rec_len in Hfit |- *. lia. }
  split.
  - apply Forall_cons_2; [|apply Forall_singleton]; apply dentry_ok_intro; try done.
    + by apply bytes_ok_take.
    + rw E1. rw /de_actual /=. lia.
    + by rw E1.
    + by apply bytes_ok_drop.
    + rw E2 /e2 /=. lia.
    + rw E2. by apply Z.divide_sub_r.
  - rw !dir_bytes_cons_length dir_bytes_nil E1 E2 /=. lia.
Qed.

Lemma dir_insert_ok es ino name ft es' :
  Forall dentry_ok es -> 0 <= ino < 2 ^ 32 -> len name < 256 -> bytes_ok name -> 0 <= ft < 256 ->
  dir_insert es ino name ft = Some es' ->
  Forall dentry_ok es' /\ len (dir_bytes es') = len (dir_bytes es).
Proof.
  intros Hok Hi Hn Hb Hft. revert es'. induction Hok as [|e es He Hes IH] => es'; cbn [dir_insert]; [done|].
  destruct (Z.leb_spec (de_actual e + align4 (8 + len name)) (de_rec_len e)) as [Hfit|].
  - intros Heq. have <- : de_split e ino name ft ++ es = es' by congruence.
    destruct (de_split_ok e ino name ft) as [H1 H2]; try done.
    split; [by apply Forall_app|].
    rw dir_bytes_app dir_bytes_cons_length -H2. rewrite -> length_app. lia.
  - destruct (dir_insert es ino name ft) as [es0|]; simpl; [|done]. intros [= <-].
    destruct (IH es0 eq_refl) as [? E]. split; [by constructor|].
    by rw !dir_bytes_cons_length E.
Qed.

Lemma de_absorb_ok p e : dentry_ok p -> dentry_ok e -> dentry_ok (de_absorb p e).
Proof.
  intros (H1 & H2 & H3 & H4 & H5 & H6 & H7) He. have ? := dentry_ok_rec_len e He.
  apply dentry_ok_intro; try done.
  - cbn [de_absorb de_pad]. apply bytes_ok_app. split; [done|by apply dentry_bytes_ok].
  - rw de_absorb_rec_len. simpl. lia.
  - rw de_absorb_rec_len. apply Z.divide_add_r; [done|by apply He].
Qed.

Lemma dir_remove_after_ok p es name es' :
  dentry_ok p -> Forall dentry_ok es -> dir_remove_after p es name = Some es' ->
  Forall dentry_ok es' /\ len (dir_bytes es') = de_rec_len p + len (dir_bytes es).
Proof.
  intros Hp Hes. revert p Hp es'. induction Hes as [|e es He Hes IH] => p Hp es' //=.
  destruct (de_match name e).
  - intros [= <-]. split; [constructor; [by apply de_absorb_ok|done]|].
    rw !dir_bytes_cons_length de_absorb_rec_len. lia.
  - destruct (dir_remove_after e es name) as [es0|] eqn:E; simpl; [|done]. intros [= <-].
    destruct (IH e He es0 E) as [? El]. split; [by constructor|].
    rw !dir_bytes_cons_length El. lia.
Qed.

Lemma dir_remove_ok es name es' : Forall dentry_ok es -> dir_remove es name = Some es' ->
  Forall dentry_ok es' /\ len (dir_bytes es') = len (dir_bytes es).
Proof.
  intros Hes. destruct Hes as [|e es He Hes]; [done|]. cbn [dir_remove].
  destruct (de_match name e).
  - intros [= <-]. split; [constructor; [|done]|].
    + destruct He as (H1 & H2 & H3 & H4 & H5 & H6 & H7). by apply dentry_ok_intro.
    + by rw !dir_bytes_cons_length.
  - intros H. rw dir_bytes_cons_length. by apply (dir_remove_after_ok e es name).
Qed.

(** ** Whole blocks *)
Lemma dir_block_scan b es : dir_block b es -> scan_at scan_fuel [] es.
Proof. intros (-> & Hl & Hok). split_and!; [done|done|]. rw /scan_fuel /=. lia. Qed.

Lemma find_block b es name : dir_block b es ->
  find_scan scan_fuel b 0 name = Ok (dir_lookup es name).
Proof.
  intros H. have Hs := dir_block_scan b es H. destruct H as (-> & _).
  apply (find_scan_spec _ [] es name Hs).
Qed.

Lemma live_block b es : dir_block b es ->
  live_scan scan_fuel b 0 = Ok (existsb (fun e => negb (de_inode e =? 0)) es).
Proof.
  intros H. have Hs := dir_block_scan b es H. destruct H as (-> & _).
  apply (live_scan_spec _ [] es Hs).
Qed.

Lemma add_block b es ino name ft :
  dir_block b es -> 0 <= ino < 2 ^ 32 -> len name < 256 -> bytes_ok name -> 0 <= ft < 256 ->
  match dir_insert es ino name ft with
  | None => add_scan scan_fuel b 0 ino name ft = Ok None
  | Some es' => exists b', add_scan scan_fuel b 0 ino name ft = Ok (Some b') /\ dir_block b' es'
  end.
Proof.
  intros H Hi Hn Hb Hft. have Hs := dir_block_scan b es H. destruct H as (-> & Hl & Hok).
  have := add_scan_spec _ [] es ino name ft Hs Hn. rw !app_nil_l. change (len (@nil Z)) with 0.
  destruct (dir_insert es ino name ft) as [es'|] eqn:E; intros ->; [|done].
  destruct (dir_insert_ok es ino name ft es') as [? El]; try done.
  eexists. split; [done|]. split_and!; [done|by rw El|done].
Qed.

Lemma remove_block b es name : dir_block b es ->
  match dir_remove es name with
  | None => remove_scan scan_fuel b None 0 name = Ok None
  | Some es' => exists b', remove_scan scan_fuel b None 0 name = Ok (Some b') /\ dir_block b' es'
  end.
Proof.
  intros H. have Hs := dir_block_scan b es H. destruct H as (-> & Hl & Hok).
  have := remove_scan_spec _ [] es name Hs. rw !app_nil_l. change (len (@nil Z)) with 0.
  destruct (dir_remove es name) as [es'|] eqn:E; intros ->; [|done].
  destruct (dir_remove_ok es name es') as [? El]; try done.
  eexists. split; [done|]. split_and!; [done|by rw El|done].
Qed.

(** ** The scans terminate on every block, well formed or not *)
Lemma ld_nonneg n b off v : bytes_ok b -> ld n b off = Ok v -> 0 <= v.
Proof.
  rw /ld /slice. case_bool_decide; [|done]. intros Hb [= <-].
  apply le_val_range. by apply bytes_ok_take, bytes_ok_drop.
Qed.

Lemma memcmp_loop_fuel k i a b : (forall j, a j <> NoFuel) -> (forall j, b j <> NoFuel) ->
  memcmp_loop k i a b <> NoFuel.
Proof.
  intros Ha Hb. revert i. induction k as [|k IH] => i; cbn [memcmp_loop]; [done|].
  destruct (a i) eqn:Ea; [rw res_bind_ok|done|by destruct (Ha i)].
  destruct (b i) eqn:Eb; [rw res_bind_ok|done|by destruct (Hb i)].
  by repeat (destruct (_ <? _); first done).
Qed.

Lemma list_at_fuel l j : list_at l j <> NoFuel.
Proof. rw /list_at. by destruct (l !! _). Qed.
Lemma ld_fuel n b off : ld n b off <> NoFuel.
Proof. rw /ld /slice. by case_bool_decide. Qed.

Lemma name_matches_fuel b off name : name_matches b off name <> NoFuel.
Proof.
  rw /name_matches /entry_name_len. destruct (ld 1 b _) eqn:E; [rw res_bind_ok|done|by apply ld_fuel in E].
  destruct (_ =? _); [|done]. rw /memcmp. destruct (memcmp_loop _ _ _ _) eqn:Em; [done|done|].
  exfalso. eapply memcmp_loop_fuel; [| |exact Em]; intros ?; apply list_at_fuel.
Qed.

(** one iteration of a scan: either it stops, or it continues strictly further *)
Lemma scan_advance fuel off rl : (512 - Z.to_nat off < S fuel)%nat -> 0 <= off ->
  (off <? BLOCK_SIZE) = true -> 0 <= rl -> (rl =? 0) = false ->
  (512 - Z.to_nat (off + rl) < fuel)%nat /\ 0 <= off + rl.
Proof. rw /BLOCK_SIZE. intros. lia. Qed.

Lemma find_scan_fuel fuel b off name : bytes_ok b -> 0 <= off ->
  (512 - Z.to_nat off < fuel)%nat -> find_scan fuel b off name <> NoFuel.
Proof.
  intros Hb. revert off. induction fuel as [|fuel IH] => off Hoff Hf; [lia|]. cbn [find_scan].
  destruct (off <? BLOCK_SIZE) eqn:Elt; [|done].
  rw /entry_rec_len. destruct (ld 2 b (off + 4)) eqn:E; [rw res_bind_ok|done|by apply ld_fuel in E].
  destruct (a =? 0) eqn:E0; [done|].
  rw /entry_inode. destruct (ld 4 b off) eqn:Ei; [rw res_bind_ok|done|by apply ld_fuel in Ei].
  have Hrec : find_scan fuel b (off + a) name <> NoFuel.
  { apply IH; eapply scan_advance; try done; by eapply ld_nonneg. }
  destruct (a0 =? 0); [done|]. destruct (name_matches b off name) as [[]| |] eqn:En; try done.
  by apply name_matches_fuel in En.
Qed.

Lemma live_scan_fuel fuel b off : bytes_ok b -> 0 <= off ->
  (512 - Z.to_nat off < fuel)%nat -> live_scan fuel b off <> NoFuel.
Proof.
  intros Hb. revert off. induction fuel as [|fuel IH] => off Hoff Hf; [lia|]. cbn [live_scan].
  destruct (off <? BLOCK_SIZE) eqn:Elt; [|done].
  rw /entry_rec_len. destruct (ld 2 b (off + 4)) eqn:E; [rw res_bind_ok|done|by apply ld_fuel in E].
  destruct (a =? 0) eqn:E0; [done|].
  rw /entry_inode. destruct (ld 4 b off) eqn:Ei; [rw res_bind_ok|done|by apply ld_fuel in Ei].
  destruct (negb _); [done|]. apply IH; eapply scan_advance; try done; by eapply ld_nonneg.
Qed.

(** ** The blocks of new directories and of new entries *)
Lemma align4_spec n d : 0 <= d < 4 -> (4 | n + d) -> align4 n = n + d.
Proof.
  intros Hd [q Hq]. rw /align4. have -> : n + 3 = (3 - d) + q * 4 by lia.
  rewrite -> Z.div_add, (Z.div_small (3 - d)) by lia. lia.
Qed.

Lemma new_entry_block ino name ft :
  0 <= ino < 2 ^ 32 -> len name < 256 -> bytes_ok name -> 0 <= ft < 256 ->
  exists b, write_entry (zeros 512) 0 ino BLOCK_SIZE name ft = Ok b /\
    dir_block b [mkDentry ino name ft (zeros (504 - length name))].
Proof.
  intros Hi Hn Hb Hft. set (e := mkDentry ino name ft (zeros (504 - length name))).
  have Hrl : de_rec_len e = 512 by rw /de_rec_len /e; cbn [de_name de_pad]; rw /zeros length_replicate; lia.
  exists (dentry_bytes e). split.
  - rewrite -> (write_entry_at _ [] (zeros 512) []); [|done|done|rw /zeros length_replicate; lia].
    rw {1}/zeros drop_replicate dentry_bytes_eq Hrl app_nil_l app_nil_r.
    by have -> : (512 - (8 + length name) = 504 - length name)%nat by lia.
  - split; [by rw dir_bytes_cons dir_bytes_nil app_nil_r|]. split; [by rw dentry_bytes_length Hrl|].
    constructor; [|done]. apply dentry_ok_intro; try done; [apply bytes_ok_zeros| |by rw Hrl; exists 128].
    rw Hrl /e. cbn [de_name]. have := align4_bounds (8 + len name). lia.
Qed.

Definition dot_entries (ino parent : Z) : list dentry :=
  [ mkDentry ino [46] EXT2_FT_DIR (zeros 3); mkDentry parent [46; 46] EXT2_FT_DIR (zeros 490) ].

Lemma dot_entries_ok ino parent : 0 <= ino < 2 ^ 32 -> 0 <= parent < 2 ^ 32 ->
  Forall dentry_ok (dot_entries ino parent).
Proof.
  intros. rw /dot_entries. constructor; [|constructor; [|done]]; apply dentry_ok_intro; try done;
    try apply bytes_ok_zeros; try (by repeat constructor); by apply Z.mod_divide.
Qed.

Lemma dot_block_spec ino parent : 0 <= ino < 2 ^ 32 -> 0 <= parent < 2 ^ 32 ->
  exists b, dot_block ino parent = Ok b /\ dir_block b (dot_entries ino parent).
Proof.
  intros Hi Hp. rw /dot_block. rewrite -> get_entry_record_len_spec by done.
  change (align4 (8 + 1)) with 12. change (u16 (BLOCK_SIZE - 12)) with 500.
  rewrite -> (write_entry_at _ [] (zeros 512) []); [|done|done|cbn; lia]. rw res_bind_ok app_nil_l app_nil_r.
  change (drop (8 + length [46]) (zeros 512)) with (zeros 3 ++ zeros 500). rw !app_assoc.
  rewrite -> (write_entry_at _ ((entry_header ino 12 (len [46]) EXT2_FT_DIR ++ [46]) ++ zeros 3) (zeros 500) []);
    [|by rw app_nil_r|by autorewrite with lens|cbn; lia].
  eexists. split; [done|].
  have E : dir_bytes (dot_entries ino parent) =
    ((entry_header ino 12 (len [46]) EXT2_FT_DIR ++ [46]) ++ zeros 3) ++
    entry_header parent 500 (len [46; 46]) EXT2_FT_DIR ++ [46; 46] ++ zeros 490 ++ [].
  { rw /dot_entries !dir_bytes_cons dir_bytes_nil !dentry_bytes_eq. cbn [de_name de_pad de_inode de_type].
    rw -!app_assoc. done. }
  split; [by rw E|]. split; [by autorewrite with lens|by apply dot_entries_ok].
Qed.

(** the scan of [is_directory_empty] starts behind the first two entries *)
Lemma first_child_block b e1 e2 es : dir_block b (e1 :: e2 :: es) ->
  exists off, get_dir_first_child_offset b = Ok off /\
    live_scan scan_fuel b off = Ok (existsb (fun e => negb (de_inode e =? 0)) es).
Proof.
  intros H. have Hs := dir_block_scan b _ H. destruct H as (-> & _).
  destruct (scan_at_cons _ _ _ _ Hs) as (_ & Hok1 & Hr1 & Hl1 & Hs1).
  destruct (scan_at_cons _ _ _ _ Hs1) as (_ & Hok2 & Hr2 & Hl2 & Hs2).
  rw app_nil_l in Hl1. rw app_nil_l in Hl2. rw !app_nil_l in Hs2. rw !app_nil_l in Hs1.
  change (len (@nil Z)) with 0 in Hl1. rw Z.add_0_l in Hl1.
  rw !dir_bytes_cons /get_dir_first_child_offset /get_next_directory_entry.
  destruct (dentry_fields [] e1 (dentry_bytes e2 ++ dir_bytes es) 0 eq_refl Hok1) as (_ & E1 & _); [lia|].
  rw app_nil_l in E1. rw E1 !res_bind_ok. rewrite -> (proj2 (Z.eqb_neq (de_rec_len e1) 0)) by lia. rw res_bind_ok.
  destruct (dentry_fields (dentry_bytes e1) e2 (dir_bytes es) (0 + de_rec_len e1)) as (_ & E2 & _);
    [lia|done|lia|].
  rw E2 res_bind_ok. rewrite -> (proj2 (Z.eqb_neq (de_rec_len e2) 0)) by lia.
  eexists. split; [done|]. rewrite -> u32_id by lia.
  have -> : 0 + de_rec_len e1 + de_rec_len e2 = len (dentry_bytes e1 ++ dentry_bytes e2) by lia.
  rw app_assoc. apply live_scan_spec. destruct Hs2 as (? & ? & Hf). split; [done|]. split; [done|].
  rw /scan_fuel. autorewrite with lens in Hf |- *. lia.
Qed.
