(* ===== verification/Ext2State.v ===== *)
(** * File-system state, inode table and allocation ([src/filesystem/ext2.c])

    The cached superblock and group descriptors, the access to inodes through
    [bg_inode_table], the block and inode allocators and their inverses. *)

From S2P Require Import Prelude Bitmap StdString BlockDevice Ext2Layout.

(** ** State.  [fs_mem] is the caller's memory ([request->buf], [request->name]),
    assumed disjoint from the driver's own statics; [fs_tick] counts the
    uninitialised stack buffers used so far (see [StackJunk]). *)
Record FS (D : Type) := mkFS {
  fs_dev : D;
  _ext2_superblock_state : EXT2Superblock;
  _ext2_bgdt_state : list EXT2BlockGroupDescriptor;
  g_filesystem_initialized : bool;
  fs_tick : nat;
  fs_mem : Z -> Z;
}.
Arguments mkFS {D}.
Arguments fs_dev {D}.
Arguments _ext2_superblock_state {D}.
Arguments _ext2_bgdt_state {D}.
Arguments g_filesystem_initialized {D}.
Arguments fs_tick {D}.
Arguments fs_mem {D}.

(** [struct BlockBuffer meta_buf;] is not initialised before part of it is
    overwritten and the whole of it written to disk.  [junk n] is the content of
    the [n]-th such buffer: any 512 bytes. *)
Class StackJunk := junk : nat -> list Z.
Class StackJunkLaws `{StackJunk} := junk_ok n : BlockBuffer_ok (junk n).

(** field updates *)
Definition set_free_blocks (v : Z) (sb : EXT2Superblock) : EXT2Superblock :=
  {| s_inodes_count := s_inodes_count sb; s_blocks_count := s_blocks_count sb;
     s_r_blocks_count := s_r_blocks_count sb; s_free_blocks_count := v;
     s_free_inodes_count := s_free_inodes_count sb; s_first_data_block := s_first_data_block sb;
     s_log_block_size := s_log_block_size sb; s_log_frag_size := s_log_frag_size sb;
     s_blocks_per_group := s_blocks_per_group sb; s_frags_per_group := s_frags_per_group sb;
     s_inodes_per_group := s_inodes_per_group sb; s_mtime := s_mtime sb; s_wtime := s_wtime sb;
     s_mnt_count := s_mnt_count sb; s_max_mnt_count := s_max_mnt_count sb; s_magic := s_magic sb;
     s_state := s_state sb; s_errors := s_errors sb; s_minor_rev_level := s_minor_rev_level sb;
     s_lastcheck := s_lastcheck sb; s_checkinterval := s_checkinterval sb;
     s_creator_os := s_creator_os sb; s_rev_level := s_rev_level sb;
     s_def_resuid := s_def_resuid sb; s_def_resgid := s_def_resgid sb;
     s_first_ino := s_first_ino sb; s_inode_size := s_inode_size sb;
     s_block_group_nr := s_block_group_nr sb; s_feature_compat := s_feature_compat sb;
     s_feature_incompat := s_feature_incompat sb; s_feature_ro_compat := s_feature_ro_compat sb;
     s_uuid := s_uuid sb; s_volume_name := s_volume_name sb;
     s_last_mounted := s_last_mounted sb; s_algo_bitmap := s_algo_bitmap sb |}.
Definition set_free_inodes (v : Z) (sb : EXT2Superblock) : EXT2Superblock :=
  {| s_inodes_count := s_inodes_count sb; s_blocks_count := s_blocks_count sb;
     s_r_blocks_count := s_r_blocks_count sb; s_free_blocks_count := s_free_blocks_count sb;
     s_free_inodes_count := v; s_first_data_block := s_first_data_block sb;
     s_log_block_size := s_log_block_size sb; s_log_frag_size := s_log_frag_size sb;
     s_blocks_per_group := s_blocks_per_group sb; s_frags_per_group := s_frags_per_group sb;
     s_inodes_per_group := s_inodes_per_group sb; s_mtime := s_mtime sb; s_wtime := s_wtime sb;
     s_mnt_count := s_mnt_count sb; s_max_mnt_count := s_max_mnt_count sb; s_magic := s_magic sb;
     s_state := s_state sb; s_errors := s_errors sb; s_minor_rev_level := s_minor_rev_level sb;
     s_lastcheck := s_lastcheck sb; s_checkinterval := s_checkinterval sb;
     s_creator_os := s_creator_os sb; s_rev_level := s_rev_level sb;
     s_def_resuid := s_def_resuid sb; s_def_resgid := s_def_resgid sb;
     s_first_ino := s_first_ino sb; s_inode_size := s_inode_size sb;
     s_block_group_nr := s_block_group_nr sb; s_feature_compat := s_feature_compat sb;
     s_feature_incompat := s_feature_incompat sb; s_feature_ro_compat := s_feature_ro_compat sb;
     s_uuid := s_uuid sb; s_volume_name := s_volume_name sb;
     s_last_mounted := s_last_mounted sb; s_algo_bitmap := s_algo_bitmap sb |}.
Definition set_bg_free_blocks (v : Z) (g : EXT2BlockGroupDescriptor) : EXT2BlockGroupDescriptor :=
  mkBGD (bg_block_bitmap g) (bg_inode_bitmap g) (bg_inode_table g) v
    (bg_free_inodes_count g) (bg_used_dirs_count g) (bg_pad g) (bg_reserved g).
Definition set_bg_free_inodes (v : Z) (g : EXT2BlockGroupDescriptor) : EXT2BlockGroupDescriptor :=
  mkBGD (bg_block_bitmap g) (bg_inode_bitmap g) (bg_inode_table g) (bg_free_blocks_count g)
    v (bg_used_dirs_count g) (bg_pad g) (bg_reserved g).

Section Ext2State.
Context {PW : PtrWidth} {D : Type} `{BlockDevice D} `{StackJunk}.
Abbreviation FSM := (M (FS D)).

(** ** Elementary effects *)
Definition set_dev (d : D) (s : FS D) : FS D :=
  mkFS d (_ext2_superblock_state s) (_ext2_bgdt_state s) (g_filesystem_initialized s)
    (fs_tick s) (fs_mem s).
Definition set_meta (sb : EXT2Superblock) (gs : list EXT2BlockGroupDescriptor) (s : FS D) : FS D :=
  mkFS (fs_dev s) sb gs (g_filesystem_initialized s) (fs_tick s) (fs_mem s).
Definition set_init (b : bool) (s : FS D) : FS D :=
  mkFS (fs_dev s) (_ext2_superblock_state s) (_ext2_bgdt_state s) b (fs_tick s) (fs_mem s).
Definition set_tick (n : nat) (s : FS D) : FS D :=
  mkFS (fs_dev s) (_ext2_superblock_state s) (_ext2_bgdt_state s) (g_filesystem_initialized s)
    n (fs_mem s).
Definition set_mem (m : Z -> Z) (s : FS D) : FS D :=
  mkFS (fs_dev s) (_ext2_superblock_state s) (_ext2_bgdt_state s) (g_filesystem_initialized s)
    (fs_tick s) m.

Definition on_dev {A} (m : M D A) : FSM A := fun s =>
  match m (fs_dev s) with Ok (a, d) => Ok (a, set_dev d s) | UB => UB | NoFuel => NoFuel end.

(** [read_blocks(&buf, lba, 1)] and [write_blocks(&buf, lba, 1)] *)
Definition read_block (lba : Z) : FSM (list Z) := on_dev (dev_read lba).
Definition write_block (b : list Z) (lba : Z) : FSM unit := on_dev (dev_write lba b).

(** [_ext2_bgdt_state.table[i]]: undefined outside the table *)
Definition bgdt_get (i : Z) : FSM EXT2BlockGroupDescriptor := fun s =>
  match _ext2_bgdt_state s !! Z.to_nat i with Some g => Ok (g, s) | None => UB end.

(** the uninitialised buffer [struct BlockBuffer meta_buf;] *)
Definition fresh_buffer : FSM (list Z) := fun s =>
  Ok (junk (fs_tick s), set_tick (S (fs_tick s)) s).

(** the sequence that writes the cached superblock and group descriptor 0 back,
    with one buffer for both *)
Definition write_meta : FSM unit :=
  meta_buf ← fresh_buffer;
  sb ← gets _ext2_superblock_state;
  meta_buf ← lift (splice 0 (EXT2Superblock_bytes sb) meta_buf);
  write_block meta_buf SUPERBLOCK_LBA;;
  g ← bgdt_get 0;
  meta_buf ← lift (splice 0 (EXT2BlockGroupDescriptor_bytes g) meta_buf);
  write_block meta_buf BGDT_LBA.

(** ** Inodes *)
Definition inode_to_bgd (inode : Z) : Z :=
  if inode =? 0 then 0 else (inode - 1) / INODES_PER_GROUP.
Definition inode_to_local (inode : Z) : Z :=
  if inode =? 0 then 0 else (inode - 1) mod INODES_PER_GROUP.

(** [None] is the [false] answer *)
Definition read_inode (inode_num : Z) : FSM (option EXT2Inode) :=
  if inode_num =? 0 then mret None else
  let bgd_idx := inode_to_bgd inode_num in
  let local_idx := inode_to_local inode_num in
  let inodes_per_block := BLOCK_SIZE / sizeof_EXT2Inode in
  let block_idx := local_idx / inodes_per_block in
  let offset := local_idx mod inodes_per_block * sizeof_EXT2Inode in
  g ← bgdt_get bgd_idx;
  b ← read_block (u32 (bg_inode_table g + block_idx));
  bs ← lift (slice offset sizeof_EXT2Inode b);
  mret (Some (EXT2Inode_of_bytes bs)).

Definition write_inode (inode_num : Z) (inode_in : EXT2Inode) : FSM unit :=
  if inode_num =? 0 then mret tt else
  let bgd_idx := inode_to_bgd inode_num in
  let local_idx := inode_to_local inode_num in
  let inodes_per_block := BLOCK_SIZE / sizeof_EXT2Inode in
  let block_idx := local_idx / inodes_per_block in
  let offset := local_idx mod inodes_per_block * sizeof_EXT2Inode in
  g ← bgdt_get bgd_idx;
  b ← read_block (u32 (bg_inode_table g + block_idx));
  b ← lift (splice offset (EXT2Inode_bytes inode_in) b);
  write_block b (u32 (bg_inode_table g + block_idx)).

Definition sync_node (node : EXT2Inode) (inode : Z) : FSM unit := write_inode inode node.

(** ** Allocation *)
(** [for (i = ...; i < n; i++) if (test_bit(bitmap, i) == 0) ...]: the first
    clear bit among the [n] bits from [i] *)
Fixpoint first_clear (n : nat) (i : Z) (bitmap : list Z) : res (option Z) :=
  match n with
  | O => Ok None
  | S n => v ← test_bit bitmap i;
           if v =? 0 then Ok (Some i) else first_clear n (i + 1) bitmap
  end.

(** decrements and increments of the cached counters, wrapping at their widths *)
Definition add_free_blocks (k : Z) : FSM unit :=
  g ← bgdt_get 0;
  modify (fun s =>
    set_meta (set_free_blocks (u32 (s_free_blocks_count (_ext2_superblock_state s) + k))
                (_ext2_superblock_state s))
      (<[0%nat := set_bg_free_blocks (u16 (bg_free_blocks_count g + k)) g]>
         (_ext2_bgdt_state s)) s).
Definition add_free_inodes (k : Z) : FSM unit :=
  g ← bgdt_get 0;
  modify (fun s =>
    set_meta (set_free_inodes (u32 (s_free_inodes_count (_ext2_superblock_state s) + k))
                (_ext2_superblock_state s))
      (<[0%nat := set_bg_free_inodes (u16 (bg_free_inodes_count g + k)) g]>
         (_ext2_bgdt_state s)) s).

(** the answer 0 stands for "no free block" *)
Definition allocate_block : FSM Z :=
  g ← bgdt_get 0;
  if bg_free_blocks_count g =? 0 then mret 0 else
  bitmap ← read_block BLOCK_BITMAP_LBA;
  r ← lift (first_clear (Z.to_nat BLOCKS_PER_GROUP) 0 bitmap);
  match r with
  | None => mret 0
  | Some i =>
    bitmap ← lift (set_bit bitmap i);
    write_block bitmap BLOCK_BITMAP_LBA;;
    add_free_blocks (-1);;
    write_meta;;
    mret i
  end.

Definition deallocate_single_block (block_num : Z) : FSM unit :=
  if block_num =? 0 then mret tt else
  bitmap ← read_block BLOCK_BITMAP_LBA;
  v ← lift (test_bit bitmap block_num);
  if v =? 0 then mret tt else
  bitmap ← lift (clear_bit bitmap block_num);
  write_block bitmap BLOCK_BITMAP_LBA;;
  add_free_blocks 1;;
  write_meta.

Definition allocate_node : FSM Z :=
  init ← gets g_filesystem_initialized;
  if negb init then mret 0 else
  g ← bgdt_get 0;
  if bg_free_inodes_count g =? 0 then mret 0 else
  bitmap ← read_block INODE_BITMAP_LBA;
  r ← lift (first_clear (Z.to_nat INODES_PER_GROUP) 0 bitmap);
  match r with
  | None => mret 0
  | Some i =>
    bitmap ← lift (set_bit bitmap i);
    write_block bitmap INODE_BITMAP_LBA;;
    add_free_inodes (-1);;
    write_meta;;
    mret (i + 1)
  end.

(** the loop over [i_block[0..11]] of [deallocate_node] *)
Fixpoint deallocate_list (bs : list Z) : FSM unit :=
  match bs with
  | [] => mret tt
  | b :: bs => (if b =? 0 then mret tt else deallocate_single_block b);; deallocate_list bs
  end.

(** an all-zero inode, as [memset] leaves it *)
Definition zero_inode : EXT2Inode :=
  mkInode 0 0 0 0 0 0 0 0 0 0 0 0 (replicate 15 0) 0 0 0 0 (replicate 12 0).

(** the 128 block pointers of an indirect block *)
Definition block_pointers (b : list Z) : list Z := fields_val (replicate 128 4%nat) b.

Definition deallocate_node (inode : Z) : FSM unit :=
  init ← gets g_filesystem_initialized;
  if negb init || (inode =? 0) then mret tt else
  on ← read_inode inode;
  match on with
  | None => mret tt
  | Some node_data =>
    deallocate_list (take 12 (i_block node_data));;
    (let ind := nth 12 (i_block node_data) 0 in
     if ind =? 0 then mret tt else
     indirect_table ← read_block ind;
     deallocate_list (block_pointers indirect_table);;
     deallocate_single_block ind);;
    write_inode inode zero_inode;;
    bitmap ← read_block INODE_BITMAP_LBA;
    bitmap ← lift (clear_bit bitmap (inode - 1));
    write_block bitmap INODE_BITMAP_LBA;;
    add_free_inodes 1;;
    write_meta
  end.
End Ext2State.
