(* ===== verification/Ext2Inv.v ===== *)
(** * Invariant and specifications of the inode table and the allocators

    What every operation of [Ext2State.v] guarantees, stated over the block
    device interface: which blocks may change, how the bitmaps, the cached
    counters and the synchronised copies on disk evolve. *)

From S2P Require Import Prelude Bitmap StdString BlockDevice Ext2Layout Ext2State.

(** the geometry constants as numbers, for [lia] *)
Ltac geometry := try change BLOCK_SIZE with 512 in *; try change BOOT_SECTOR with 0 in *; try change INODES_PER_GROUP with 64 in *;
  try change BLOCKS_PER_GROUP with 256 in *; try change ROOT_DIR_BLOCK_LBA with 21 in *;
  try change INODE_TABLE_LBA with 5 in *; try change INODES_PER_TABLE with 4 in *;
  try change sizeof_EXT2Inode with 128 in *; try change TOTAL_BLOCKS with 2048 in *;
  try change TOTAL_INODES with 512 in *; try change EXT2_GOOD_OLD_FIRST_INO with 11 in *;
  try change SUPERBLOCK_LBA with 1 in *; try change BGDT_LBA with 2 in *;
  try change BLOCK_BITMAP_LBA with 3 in *; try change INODE_BITMAP_LBA with 4 in *.

(** [l ∉ ws] for an explicit list of block numbers *)
Ltac notin := let H := fresh in intros H; cbn [app] in H;
  repeat (apply elem_of_cons in H; destruct H as [H|H]; [first [discriminate H | geometry; lia]|]);
  by apply elem_of_nil in H.

(** inclusions between explicit lists of block numbers *)
Ltac incl := let H := fresh in intros ? H; revert H;
  rw ?elem_of_app ?elem_of_cons ?elem_of_nil; tauto.

Section Ext2Inv.
Context {PW : PtrWidth} {D : Type} `{BlockDeviceLaws D} `{StackJunkLaws}.
Implicit Types s : FS D.

(** ** Views of a state *)
(** a block of the volume; what a larger medium holds beyond it does not count *)
Definition blk s (l : Z) : list Z := if (0 <=? l) && (l <? 8192) then dev_block (fs_dev s) l else zeros 512.
Arguments blk : simpl never.
Definition group0 s : EXT2BlockGroupDescriptor :=
  nth 0 (_ext2_bgdt_state s) (EXT2BlockGroupDescriptor_of_bytes []).
Definition block_bitmap s : list Z := blk s BLOCK_BITMAP_LBA.
Definition inode_bitmap s : list Z := blk s INODE_BITMAP_LBA.
Definition free_blocks s : Z := bg_free_blocks_count (group0 s).
Definition free_inodes s : Z := bg_free_inodes_count (group0 s).

(** what the caller may rely on across a call: blocks outside [ws] keep their
    contents *)
Record evolve (ws : list Z) s s' : Prop := {
  ev_dev : dev_ok (fs_dev s');
  ev_init : g_filesystem_initialized s' = g_filesystem_initialized s;
  ev_mem : fs_mem s' = fs_mem s;
  ev_blk l : l ∉ ws -> blk s' l = blk s l;
}.
Definition meta_same s s' : Prop :=
  _ext2_superblock_state s' = _ext2_superblock_state s /\
  _ext2_bgdt_state s' = _ext2_bgdt_state s.
(** states equal up to the device's internal registers *)
Definition feq s s' : Prop := evolve [] s s' /\ meta_same s s'.

(** everything but the agreement of the cached metadata with the disk *)
Record fs_core s : Prop := {
  inv_dev : dev_ok (fs_dev s);
  inv_init : g_filesystem_initialized s = true;
  inv_sb : EXT2Superblock_ok (_ext2_superblock_state s);
  inv_bgdt_len : length (_ext2_bgdt_state s) = Z.to_nat GROUPS_COUNT;
  inv_group0 : EXT2BlockGroupDescriptor_ok (group0 s);
  inv_table : bg_inode_table (group0 s) = INODE_TABLE_LBA;
  (** the cached counters are the numbers of clear bits *)
  inv_free_blocks : count_clear (block_bitmap s) (Z.to_nat BLOCKS_PER_GROUP) = free_blocks s;
  inv_free_inodes : count_clear (inode_bitmap s) (Z.to_nat INODES_PER_GROUP) = free_inodes s;
  inv_sb_blocks : s_free_blocks_count (_ext2_superblock_state s) =
                  free_blocks s + (TOTAL_BLOCKS - BLOCKS_PER_GROUP);
  inv_sb_inodes : s_free_inodes_count (_ext2_superblock_state s) =
                  free_inodes s + (TOTAL_INODES - INODES_PER_GROUP);
  (** the metadata blocks and the reserved inodes are never free *)
  inv_reserved_blocks i : 0 <= i <= ROOT_DIR_BLOCK_LBA -> bit (block_bitmap s) i = true;
  inv_reserved_inodes i : 0 <= i < EXT2_GOOD_OLD_FIRST_INO -> bit (inode_bitmap s) i = true;
  (** what the mount recognises *)
  inv_boot : blk s BOOT_SECTOR = fs_signature;
  inv_magic : s_magic (_ext2_superblock_state s) = EXT2_SUPER_MAGIC;
}.
Record fs_inv s : Prop := {
  inv_core : fs_core s;
  (** the copies on disk agree with the cached state *)
  inv_sync_sb : take 204 (blk s SUPERBLOCK_LBA) = EXT2Superblock_bytes (_ext2_superblock_state s);
  inv_sync_bgd : take 32 (blk s BGDT_LBA) = EXT2BlockGroupDescriptor_bytes (group0 s);
}.

(** ** Frames compose *)
Lemma evolve_refl ws s : dev_ok (fs_dev s) -> evolve ws s s.
Proof. by constructor. Qed.

Lemma evolve_trans ws1 ws2 ws s1 s2 s3 : evolve ws1 s1 s2 -> evolve ws2 s2 s3 ->
  (forall l, l ∈ ws1 ++ ws2 -> l ∈ ws) -> evolve ws s1 s3.
Proof.
  intros [? Hi1 Hm1 Hb1] [? Hi2 Hm2 Hb2] Hws. constructor; [done|by rw Hi2|by rw Hm2|].
  intros l Hl. rw Hb2; [|apply Hb1]; intros Hin; apply Hl, Hws, elem_of_app; by auto.
Qed.

Lemma evolve_mono ws ws' s s' : evolve ws s s' -> (forall l, l ∈ ws -> l ∈ ws') -> evolve ws' s s'.
Proof. intros [? ? ? Hb] Hi. constructor; [done..|]. intros l Hl. apply Hb. by eauto. Qed.

Lemma meta_same_trans s1 s2 s3 : meta_same s1 s2 -> meta_same s2 s3 -> meta_same s1 s3.
Proof. intros [E1 E2] [E3 E4]. split; congruence. Qed.

#[export] Instance feq_pre : PreOrder (fun s s' => dev_ok (fs_dev s) -> feq s s').
Proof.
  split.
  - intros s ?. split; [by apply evolve_refl|done].
  - intros s1 s2 s3 H12 H23 Hok. destruct (H12 Hok) as [E1 M1].
    destruct (H23 (ev_dev _ _ _ E1)) as [E2 M2].
    split; [by eapply evolve_trans|by eapply meta_same_trans].
Qed.

Lemma feq_blk s s' l : feq s s' -> blk s' l = blk s l.
Proof. intros [E _]. apply (ev_blk _ _ _ E). apply not_elem_of_nil. Qed.
Lemma feq_evolve ws s s' : feq s s' -> evolve ws s s'.
Proof. intros [E _]. eapply evolve_mono; [done|]. by intros ? ?%not_elem_of_nil. Qed.
Lemma meta_same_group0 s s' : meta_same s s' -> group0 s' = group0 s.
Proof. intros [_ E]. by rw /group0 E. Qed.

Lemma meta_same_free s s' : meta_same s s' ->
  free_blocks s' = free_blocks s /\ free_inodes s' = free_inodes s.
Proof. intros Hm. by rw /free_blocks /free_inodes (meta_same_group0 _ _ Hm). Qed.

(** ** Disk access *)
Lemma volume_blocks l : 0 <= l < 8192 -> 0 <= l < nblocks.
Proof. pose proof (nblocks_ge (D:=D)) as Hn. change (DISK_SPACE / BLOCK_SIZE) with 8192 in Hn. lia. Qed.

Lemma blk_in s l : 0 <= l < 8192 -> blk s l = dev_block (fs_dev s) l.
Proof. intros Hl. rw /blk. by rewrite -> (proj2 (Z.leb_le 0 l)), (proj2 (Z.ltb_lt l 8192)) by lia. Qed.
Lemma blk_same s s' l : dev_block (fs_dev s') l = dev_block (fs_dev s) l -> blk s' l = blk s l.
Proof. by rw /blk => ->. Qed.
Lemma blk_ok s l : dev_ok (fs_dev s) -> 0 <= l < 8192 -> BlockBuffer_ok (blk s l).
Proof. intros. rewrite -> blk_in by done. apply dev_block_ok; [done|by apply volume_blocks]. Qed.

Lemma read_block_spec s l : dev_ok (fs_dev s) -> 0 <= l < 8192 ->
  wp (read_block l) (fun b s' => b = blk s l /\ feq s s') s.
Proof.
  intros Hd Hl. generalize (dev_read_spec (fs_dev s) l Hd (volume_blocks l Hl)).
  rw /wp /read_block /on_dev. destruct (dev_read l (fs_dev s)) as [[b d]| |]; [|done|done].
  intros (-> & Hd' & Hb). split; [by rewrite -> blk_in by done|]. split; [|done]. constructor; [done..|]. intros l' _. apply blk_same, Hb.
Qed.

Lemma write_block_spec s l b : dev_ok (fs_dev s) -> 0 <= l < 8192 -> BlockBuffer_ok b ->
  wp (write_block b l) (fun _ s' => evolve [l] s s' /\ blk s' l = b /\ meta_same s s') s.
Proof.
  intros Hd Hl Hbok. generalize (dev_write_spec (fs_dev s) l b Hd (volume_blocks l Hl) Hbok).
  rw /wp /write_block /on_dev. destruct (dev_write l b (fs_dev s)) as [[[] d]| |]; [|done|done].
  intros (Hd' & Hb). split; [|split; [|done]].
  - constructor; [done..|]. intros l' Hl'. apply blk_same. rw Hb.
    destruct (Z.eqb_spec l' l) as [->|]; [by destruct Hl'; left|done].
  - rewrite -> blk_in by done. by rw Hb Z.eqb_refl.
Qed.

Lemma group0_cons s g gs : _ext2_bgdt_state s = g :: gs -> group0 s = g.
Proof. by rw /group0 => ->. Qed.

Lemma group0_insert s sb gs g : (0 < length gs)%nat -> group0 (set_meta sb (<[0%nat := g]> gs) s) = g.
Proof. by destruct gs; [simpl; lia|]. Qed.

Lemma bgdt_get_0 s Q : length (_ext2_bgdt_state s) = Z.to_nat GROUPS_COUNT ->
  Q (group0 s) s -> wp (bgdt_get 0) Q s.
Proof.
  rw /wp /bgdt_get /group0. by destruct (_ext2_bgdt_state s) as [|g gs].
Qed.

Lemma splice_prefix (bs b : list Z) : (length bs <= length b)%nat ->
  exists b', splice 0 bs b = Ok b' /\ take (length bs) b' = bs /\ length b' = length b.
Proof.
  intros Hl. rw /splice. rewrite -> bool_decide_true by lia. eexists. split; [done|].
  split; [|by autorewrite with lens; lia]. by rw take_0 take_app_length.
Qed.

Lemma write_meta_spec s :
  dev_ok (fs_dev s) -> EXT2Superblock_ok (_ext2_superblock_state s) ->
  length (_ext2_bgdt_state s) = Z.to_nat GROUPS_COUNT ->
  EXT2BlockGroupDescriptor_ok (group0 s) ->
  wp write_meta (fun _ s' => evolve [SUPERBLOCK_LBA; BGDT_LBA] s s' /\ meta_same s s' /\
    take 204 (blk s' SUPERBLOCK_LBA) = EXT2Superblock_bytes (_ext2_superblock_state s) /\
    take 32 (blk s' BGDT_LBA) = EXT2BlockGroupDescriptor_bytes (group0 s)) s.
Proof.
  intros Hd Hsb Hgs Hg. rw /write_meta.
  have [Hjl Hjb] : BlockBuffer_ok (junk (fs_tick s)) by apply junk_ok.
  have Hsl := EXT2Superblock_bytes_length _ Hsb. rw /sizeof_EXT2Superblock in Hsl.
  have Hgl := EXT2BlockGroupDescriptor_bytes_length _ Hg.
  rw /sizeof_EXT2BlockGroupDescriptor in Hgl. rw /BLOCK_SIZE in Hjl.
  apply wp_bind. apply (wp_intro _ _ _ (junk (fs_tick s)) (set_tick (S (fs_tick s)) s)); [done|].
  apply wp_bind, wp_gets, wp_bind.
  destruct (splice_prefix (EXT2Superblock_bytes (_ext2_superblock_state s)) (junk (fs_tick s)))
    as (b1 & E1 & T1 & L1); [lia|].
  eapply wp_lift; [exact E1|]. apply wp_bind.
  have Hb1 : BlockBuffer_ok b1 by eapply BlockBuffer_ok_splice; [done|by apply EXT2Superblock_bytes_ok|].
  eapply wp_mono; [apply write_block_spec; done|]. intros [] s1 (Ev1 & Eb1 & [Em1 Em1']). cbn in Em1, Em1'.
  apply wp_bind, bgdt_get_0; [by rw Em1'|].
  have Eg1 : group0 s1 = group0 s by rw /group0 Em1'. rw Eg1. apply wp_bind.
  destruct (splice_prefix (EXT2BlockGroupDescriptor_bytes (group0 s)) b1)
    as (b2 & E2 & T2 & L2); [lia|].
  eapply wp_lift; [exact E2|].
  have Hb2 : BlockBuffer_ok b2.
  { eapply BlockBuffer_ok_splice; [done|apply EXT2BlockGroupDescriptor_bytes_ok|done]. }
  have Hd1 : dev_ok (fs_dev s1) by destruct Ev1.
  eapply wp_mono; [apply write_block_spec; done|].
  intros [] s2 (Ev2 & Eb2 & [Em2 Em2']). split_and!.
  - apply (evolve_trans [SUPERBLOCK_LBA] [BGDT_LBA] _ _ s1); [|exact Ev2|done].
    destruct Ev1. by constructor.
  - split; congruence.
  - rewrite -> (ev_blk _ _ _ Ev2) by by rw list_elem_of_singleton. rw Eb1.
    have <- : length (EXT2Superblock_bytes (_ext2_superblock_state s)) = 204%nat by lia. done.
  - rw Eb2. have <- : length (EXT2BlockGroupDescriptor_bytes (group0 s)) = 32%nat by lia. done.
Qed.

(** ** The invariant survives what leaves the metadata blocks alone *)
Definition meta_blocks : list Z := [BOOT_SECTOR; SUPERBLOCK_LBA; BGDT_LBA; BLOCK_BITMAP_LBA; INODE_BITMAP_LBA].

Lemma fs_inv_frame ws s s' : fs_inv s -> evolve ws s s' -> meta_same s s' ->
  (forall l, l ∈ meta_blocks -> l ∉ ws) -> fs_inv s'.
Proof.
  intros [[] ? ?] Ev Hm Hws. have Hg := meta_same_group0 _ _ Hm. destruct Hm as [Hm1 Hm2].
  have Hb l : l ∈ meta_blocks -> blk s' l = blk s l by intros; apply (ev_blk _ _ _ Ev); auto.
  have Hbb : block_bitmap s' = block_bitmap s by apply Hb; rw /meta_blocks; set_solver+.
  have Hib : inode_bitmap s' = inode_bitmap s by apply Hb; rw /meta_blocks; set_solver+.
  have Hsb : blk s' SUPERBLOCK_LBA = blk s SUPERBLOCK_LBA by apply Hb; rw /meta_blocks; set_solver+.
  have Hbg : blk s' BGDT_LBA = blk s BGDT_LBA by apply Hb; rw /meta_blocks; set_solver+.
  have Hbo : blk s' BOOT_SECTOR = blk s BOOT_SECTOR by apply Hb; rw /meta_blocks; set_solver+.
  destruct Ev as [Hd Hi _ _].
  constructor; [constructor|..];
    rw /free_blocks /free_inodes ?Hbb ?Hib ?Hg ?Hm1 ?Hm2 ?Hsb ?Hbg ?Hbo; try done. by rw Hi.
Qed.

Lemma feq_fs_inv s s' : fs_inv s -> feq s s' -> fs_inv s'.
Proof.
  intros Hi [Ev Hm]. eapply fs_inv_frame; [done..|]. intros l _. apply not_elem_of_nil.
Qed.

(** ** The inode table *)
Definition inode_lba (n : Z) : Z := INODE_TABLE_LBA + (n - 1) / INODES_PER_TABLE.
Definition inode_off (n : Z) : Z := (n - 1) mod INODES_PER_TABLE * sizeof_EXT2Inode.
Definition inode_raw s n : list Z :=
  take 128 (drop (Z.to_nat (inode_off n)) (blk s (inode_lba n))).
Definition inode_at s n : EXT2Inode := EXT2Inode_of_bytes (inode_raw s n).

Lemma inode_lba_range n : 1 <= n <= INODES_PER_GROUP ->
  INODE_TABLE_LBA <= inode_lba n < ROOT_DIR_BLOCK_LBA.
Proof.
  rw /inode_lba. intros. geometry.
  have H' : 0 <= (n - 1) / 4 < 16 by split; [apply Z.div_pos; lia|apply Z.div_lt_upper_bound; lia].
  lia.
Qed.

Lemma inode_lba_not_meta n : 1 <= n <= INODES_PER_GROUP -> inode_lba n ∉ meta_blocks.
Proof. intros Hn. have := inode_lba_range n Hn. rw /meta_blocks => ?. notin. Qed.

Lemma fs_inv_inode s s' n : fs_inv s -> 1 <= n <= INODES_PER_GROUP ->
  evolve [inode_lba n] s s' -> meta_same s s' -> fs_inv s'.
Proof.
  intros Hi Hn Ev Hm. eapply fs_inv_frame; [done..|].
  intros l Hl ->%list_elem_of_singleton. by apply (inode_lba_not_meta n).
Qed.

Lemma inode_off_range n : 0 <= inode_off n <= 384.
Proof.
  rw /inode_off. geometry. have := Z.mod_pos_bound (n - 1) 4. lia.
Qed.

Lemma slice_take off n b : 0 <= off -> 0 <= n -> off + n <= len b ->
  slice off n b = Ok (take (Z.to_nat n) (drop (Z.to_nat off) b)).
Proof. intros. rw /slice. by rewrite -> bool_decide_true by lia. Qed.

Lemma splice_ok off bs b : 0 <= off -> off + len bs <= len b -> exists b', splice off bs b = Ok b'.
Proof. intros. rw /splice. rewrite -> bool_decide_true by lia. by eexists. Qed.

Lemma inode_address n : 1 <= n <= INODES_PER_GROUP ->
  inode_to_bgd n = 0 /\
  u32 (INODE_TABLE_LBA + inode_to_local n / (BLOCK_SIZE / sizeof_EXT2Inode)) = inode_lba n /\
  inode_to_local n mod (BLOCK_SIZE / sizeof_EXT2Inode) * sizeof_EXT2Inode = inode_off n.
Proof.
  intros Hn. have Hr := inode_lba_range n Hn. rw /inode_to_bgd /inode_to_local.
  rewrite -> (proj2 (Z.eqb_neq n 0)) by lia.
  have -> : (n - 1) mod INODES_PER_GROUP = n - 1 by apply Z.mod_small; lia.
  split; [apply Z.div_small; lia|]. split; [|done].
  apply u32_id. change (BLOCK_SIZE / sizeof_EXT2Inode) with INODES_PER_TABLE.
  fold (inode_lba n). geometry. lia.
Qed.

Lemma inode_raw_ok s n : dev_ok (fs_dev s) -> 1 <= n <= INODES_PER_GROUP ->
  len (inode_raw s n) = sizeof_EXT2Inode /\ bytes_ok (inode_raw s n).
Proof.
  intros Hd Hn. have Hr := inode_lba_range n Hn. have Ho := inode_off_range n.
  geometry. destruct (blk_ok s (inode_lba n)) as [Hl Hb]; [done|lia|]. geometry.
  rw /inode_raw. split; [|by apply bytes_ok_take, bytes_ok_drop].
  rw length_take length_drop. lia.
Qed.

Lemma inode_at_ok s n : dev_ok (fs_dev s) -> 1 <= n <= INODES_PER_GROUP ->
  EXT2Inode_ok (inode_at s n).
Proof. intros Hd Hn. destruct (inode_raw_ok s n Hd Hn). by apply EXT2Inode_of_bytes_ok. Qed.

Lemma inode_at_frame ws s s' n : evolve ws s s' -> inode_lba n ∉ ws -> inode_at s' n = inode_at s n.
Proof. intros Ev Hn. rw /inode_at /inode_raw. by rewrite -> (ev_blk _ _ _ Ev _ Hn). Qed.

Lemma inode_raw_slice s n : dev_ok (fs_dev s) -> 1 <= n <= INODES_PER_GROUP ->
  slice (inode_off n) sizeof_EXT2Inode (blk s (inode_lba n)) = Ok (inode_raw s n).
Proof.
  intros Hd Hn. have Ho := inode_off_range n. have Hr := inode_lba_range n Hn.
  geometry. destruct (blk_ok s (inode_lba n)) as [Hl _]; [done|lia|]. geometry.
  rewrite -> slice_take by lia. done.
Qed.

Lemma inode_same_block m n : m <> n -> inode_lba m = inode_lba n ->
  inode_off m + 128 <= inode_off n \/ inode_off n + 128 <= inode_off m.
Proof.
  rw /inode_lba /inode_off. geometry. intros Hne He.
  have Hm := Z.div_mod (m - 1) 4. have Hn := Z.div_mod (n - 1) 4. lia.
Qed.

(** what an inode access needs of the state *)
Definition table_ok s : Prop := dev_ok (fs_dev s) /\
  length (_ext2_bgdt_state s) = Z.to_nat GROUPS_COUNT /\ bg_inode_table (group0 s) = INODE_TABLE_LBA.

Lemma fs_inv_table_ok s : fs_inv s -> table_ok s.
Proof. by intros [[] _ _]. Qed.
Lemma table_ok_frame ws s s' : table_ok s -> evolve ws s s' -> meta_same s s' -> table_ok s'.
Proof.
  intros (_ & Hl & Ht) [Hd _ _ _] Hm. have Hg := meta_same_group0 _ _ Hm. destruct Hm as [_ E].
  by rw /table_ok Hg E.
Qed.

Lemma read_inode_spec s n : table_ok s -> 1 <= n <= INODES_PER_GROUP ->
  wp (read_inode n) (fun r s' => r = Some (inode_at s n) /\ feq s s') s.
Proof.
  intros (Hd & Hgs & Ht) Hn. destruct (inode_address n Hn) as (E1 & E2 & E3).
  have Hr := inode_lba_range n Hn.
  rw /read_inode. rewrite -> (proj2 (Z.eqb_neq n 0)) by lia. cbv zeta. rw E1.
  apply wp_bind, bgdt_get_0; [done|]. rw Ht E2. apply wp_bind.
  eapply wp_mono; [apply read_block_spec; [done|geometry; lia]|]. intros b s' [-> Hf].
  apply wp_bind. rw E3. eapply wp_lift; [by apply inode_raw_slice|]. by apply wp_ret.
Qed.

Lemma write_inode_spec s n node : table_ok s -> 1 <= n <= INODES_PER_GROUP -> EXT2Inode_ok node ->
  wp (write_inode n node) (fun _ s' => evolve [inode_lba n] s s' /\ meta_same s s' /\
    inode_at s' n = node /\ forall m, m <> n -> 1 <= m <= INODES_PER_GROUP -> inode_at s' m = inode_at s m) s.
Proof.
  intros (Hd & Hgs & Ht) Hn Hok. destruct (inode_address n Hn) as (E1 & E2 & E3).
  have Hr := inode_lba_range n Hn. have Hlen := EXT2Inode_bytes_length node Hok.
  rw /write_inode. rewrite -> (proj2 (Z.eqb_neq n 0)) by lia. cbv zeta. rw E1.
  apply wp_bind, bgdt_get_0; [done|]. rw Ht E2. apply wp_bind.
  eapply wp_mono; [apply read_block_spec; [done|geometry; lia]|]. intros b s1 [-> Hf].
  have Hd1 : dev_ok (fs_dev s1) by destruct Hf as [[]].
  have Hbl : BlockBuffer_ok (blk s (inode_lba n)) by apply blk_ok; [done|geometry; lia].
  apply wp_bind. rw E3.
  destruct (splice_ok (inode_off n) (EXT2Inode_bytes node) (blk s (inode_lba n))) as [b' Eb'].
  { have := inode_off_range n. lia. }
  { have := inode_off_range n. destruct Hbl. geometry. lia. }
  eapply wp_lift; [exact Eb'|].
  have Hb' : BlockBuffer_ok b' by eapply BlockBuffer_ok_splice; [done|by apply EXT2Inode_bytes_ok|].
  eapply wp_mono; [apply write_block_spec; [done|geometry; lia|done]|].
  intros [] s2 (Ev & Eb & Hm).
  have Ev' : evolve [inode_lba n] s s2 by eapply evolve_trans; [apply Hf|exact Ev|incl].
  have Hd2 : dev_ok (fs_dev s2) by destruct Ev.
  have Hm' : meta_same s s2 by eapply meta_same_trans; [apply Hf|].
  split; [done|]. split; [done|].
  have Hsame : inode_raw s2 n = EXT2Inode_bytes node.
  { have := slice_splice_same _ _ _ _ Eb'. rw Hlen -Eb. rewrite -> inode_raw_slice by done. congruence. }
  split.
  - rw /inode_at Hsame. have := EXT2Inode_round_trip node [] Hok. by rw app_nil_r.
  - intros m Hne Hmr. destruct (decide (inode_lba m = inode_lba n)) as [El|El].
    + rw /inode_at. f_equal. have Hsl := slice_splice_disjoint _ _ _ _ (inode_off m) 128 Eb'.
      have Hdis := inode_same_block _ _ Hne El. geometry. rw Hlen -Eb -El in Hsl.
      have R2 := inode_raw_slice s2 m Hd2 Hmr. have R1 := inode_raw_slice s m Hd Hmr. geometry.
      have := Hsl ltac:(lia). congruence.
    + apply (inode_at_frame _ _ _ _ Ev'). by rw list_elem_of_singleton.
Qed.

(** ** Bitmap search *)
Lemma first_clear_spec n i bm : 0 <= i -> i + Z.of_nat n <= 8 * len bm ->
  exists r, first_clear n i bm = Ok r /\
    match r with
    | Some j => i <= j < i + Z.of_nat n /\ bit bm j = false /\ forall k, i <= k < j -> bit bm k = true
    | None => forall k, i <= k < i + Z.of_nat n -> bit bm k = true
    end.
Proof.
  revert i. induction n as [|n IH] => i Hi Hn.
  { exists None. split; [done|lia]. }
  destruct (test_bit_spec bm i ltac:(lia)) as (v & Ev & Hv). cbn [first_clear]. rw Ev res_bind_ok Hv.
  destruct (bit bm i) eqn:Eb; cbn [negb].
  - destruct (IH (i + 1) ltac:(lia) ltac:(lia)) as ([j|] & -> & Hr); eexists; (split; [done|]).
    + destruct Hr as (Hj & Hbj & Hall). split; [lia|]. split; [done|]. intros k Hk.
      destruct (decide (k = i)) as [->|]; [done|apply Hall; lia].
    + intros k Hk. destruct (decide (k = i)) as [->|]; [done|apply Hr; lia].
  - eexists; split; [done|]. split; [lia|]. split; [done|lia].
Qed.

(** ** Counters *)
Lemma set_free_blocks_ok v sb : EXT2Superblock_ok sb -> 0 <= v < 2 ^ 32 ->
  EXT2Superblock_ok (set_free_blocks v sb).
Proof.
  intros (Hf & Hr) Hv. split; [|exact Hr].
  by apply (Forall_insert in_width (EXT2Superblock_fields sb) 3 (4%nat, v)).
Qed.
Lemma set_free_inodes_ok v sb : EXT2Superblock_ok sb -> 0 <= v < 2 ^ 32 ->
  EXT2Superblock_ok (set_free_inodes v sb).
Proof.
  intros (Hf & Hr) Hv. split; [|exact Hr].
  by apply (Forall_insert in_width (EXT2Superblock_fields sb) 4 (4%nat, v)).
Qed.
Lemma set_bg_free_blocks_ok v g : EXT2BlockGroupDescriptor_ok g -> 0 <= v < 2 ^ 16 ->
  EXT2BlockGroupDescriptor_ok (set_bg_free_blocks v g).
Proof.
  intros (Hf & Hr) Hv. split; [|exact Hr].
  by apply (Forall_insert in_width (EXT2BlockGroupDescriptor_fields g) 3 (2%nat, v)).
Qed.
Lemma set_bg_free_inodes_ok v g : EXT2BlockGroupDescriptor_ok g -> 0 <= v < 2 ^ 16 ->
  EXT2BlockGroupDescriptor_ok (set_bg_free_inodes v g).
Proof.
  intros (Hf & Hr) Hv. split; [|exact Hr].
  by apply (Forall_insert in_width (EXT2BlockGroupDescriptor_fields g) 4 (2%nat, v)).
Qed.

Lemma write_meta_inv s : fs_core s ->
  wp write_meta (fun _ s' => fs_inv s' /\ evolve [SUPERBLOCK_LBA; BGDT_LBA] s s' /\ meta_same s s') s.
Proof.
  intros Hc. eapply wp_mono; [apply write_meta_spec; by destruct Hc|].
  intros [] s' (Ev & Hm & Hs1 & Hs2). split; [|done].
  have Hg := meta_same_group0 _ _ Hm. destruct Hm as [Hm1 Hm2]. destruct Hc.
  have Hbb : block_bitmap s' = block_bitmap s by apply (ev_blk _ _ _ Ev); notin.
  have Hib : inode_bitmap s' = inode_bitmap s by apply (ev_blk _ _ _ Ev); notin.
  have Hbo : blk s' BOOT_SECTOR = blk s BOOT_SECTOR by apply (ev_blk _ _ _ Ev); notin.
  destruct Ev as [Hd Hi _ _].
  constructor; [constructor|..]; rw /free_blocks /free_inodes ?Hbb ?Hib ?Hg ?Hm1 ?Hm2 ?Hbo; try done.
  by rw Hi.
Qed.

Lemma blk_bits s l : dev_ok (fs_dev s) -> 0 <= l < 8192 -> 8 * len (blk s l) = 4096.
Proof. intros. destruct (blk_ok s l) as [Hl _]; [done..|]. geometry. lia. Qed.

Lemma fs_core_counts s : fs_core s -> 0 <= free_blocks s <= 256 /\ 0 <= free_inodes s <= 64.
Proof.
  intros []. rw -inv_free_blocks0 -inv_free_inodes0.
  have := count_clear_range (block_bitmap s) (Z.to_nat BLOCKS_PER_GROUP).
  have := count_clear_range (inode_bitmap s) (Z.to_nat INODES_PER_GROUP). geometry. lia.
Qed.

(** [s1] is [s] with a new block bitmap that has [k] more clear bits *)
Lemma add_free_blocks_core s s1 k : fs_core s ->
  evolve [BLOCK_BITMAP_LBA] s s1 -> meta_same s s1 ->
  count_clear (block_bitmap s1) (Z.to_nat BLOCKS_PER_GROUP) = free_blocks s + k ->
  (forall i, 0 <= i <= ROOT_DIR_BLOCK_LBA -> bit (block_bitmap s1) i = true) ->
  wp (add_free_blocks k) (fun _ s2 => fs_core s2 /\ evolve [] s1 s2 /\
    free_blocks s2 = free_blocks s + k /\ free_inodes s2 = free_inodes s) s1.
Proof.
  intros Hc Ev Hm Hk Hres. have Hg := meta_same_group0 _ _ Hm. destruct Hm as [Hm1 Hm2].
  destruct (fs_core_counts s Hc) as [Hfb _].
  have Hr : 0 <= free_blocks s + k <= 256.
  { rw -Hk. have := count_clear_range (block_bitmap s1) (Z.to_nat BLOCKS_PER_GROUP). geometry. lia. }
  have Hib : inode_bitmap s1 = inode_bitmap s by apply (ev_blk _ _ _ Ev); notin.
  have Hbo : blk s1 BOOT_SECTOR = blk s BOOT_SECTOR by apply (ev_blk _ _ _ Ev); notin.
  destruct Hc. destruct Ev as [Hd Hi _ _].
  rw /add_free_blocks. apply wp_bind, bgdt_get_0; [by rw Hm2|]. apply wp_modify.
  rw Hg Hm1 Hm2 -/(free_blocks s) inv_sb_blocks0.
  rewrite -> u16_id, u32_id by (geometry; lia).
  match goal with |- fs_core ?x /\ _ => set (s2 := x) end.
  have Hg2 : group0 s2 = set_bg_free_blocks (free_blocks s + k) (group0 s).
  { apply group0_insert. rw inv_bgdt_len0. change (Z.to_nat GROUPS_COUNT) with 8%nat. lia. }
  split; [|split; [by constructor|]]; last by rw /free_blocks /free_inodes Hg2.
  constructor; rw /free_blocks /free_inodes ?Hg2; cbn; try done.
  - by rw Hi.
  - apply set_free_blocks_ok; [done|]. geometry. lia.
  - by rw length_insert.
  - apply set_bg_free_blocks_ok; [done|lia].
  - by rw -[inode_bitmap s2]/(inode_bitmap s1) Hib.
  - geometry. lia.
  - intros i Hir. rw -[inode_bitmap s2]/(inode_bitmap s1) Hib. by auto.
  - by rw -[blk s2 BOOT_SECTOR]/(blk s1 BOOT_SECTOR) Hbo.
Qed.

Lemma add_free_inodes_core s s1 k : fs_core s ->
  evolve [INODE_BITMAP_LBA] s s1 -> meta_same s s1 ->
  count_clear (inode_bitmap s1) (Z.to_nat INODES_PER_GROUP) = free_inodes s + k ->
  (forall i, 0 <= i < EXT2_GOOD_OLD_FIRST_INO -> bit (inode_bitmap s1) i = true) ->
  wp (add_free_inodes k) (fun _ s2 => fs_core s2 /\ evolve [] s1 s2 /\
    free_inodes s2 = free_inodes s + k /\ free_blocks s2 = free_blocks s) s1.
Proof.
  intros Hc Ev Hm Hk Hres. have Hg := meta_same_group0 _ _ Hm. destruct Hm as [Hm1 Hm2].
  destruct (fs_core_counts s Hc) as [_ Hfb].
  have Hr : 0 <= free_inodes s + k <= 64.
  { rw -Hk. have := count_clear_range (inode_bitmap s1) (Z.to_nat INODES_PER_GROUP). geometry. lia. }
  have Hbb : block_bitmap s1 = block_bitmap s by apply (ev_blk _ _ _ Ev); notin.
  have Hbo : blk s1 BOOT_SECTOR = blk s BOOT_SECTOR by apply (ev_blk _ _ _ Ev); notin.
  destruct Hc. destruct Ev as [Hd Hi _ _].
  rw /add_free_inodes. apply wp_bind, bgdt_get_0; [by rw Hm2|]. apply wp_modify.
  rw Hg Hm1 Hm2 -/(free_inodes s) inv_sb_inodes0.
  rewrite -> u16_id, u32_id by (geometry; lia).
  match goal with |- fs_core ?x /\ _ => set (s2 := x) end.
  have Hg2 : group0 s2 = set_bg_free_inodes (free_inodes s + k) (group0 s).
  { apply group0_insert. rw inv_bgdt_len0. change (Z.to_nat GROUPS_COUNT) with 8%nat. lia. }
  split; [|split; [by constructor|]]; last by rw /free_blocks /free_inodes Hg2.
  constructor; rw /free_blocks /free_inodes ?Hg2; cbn; try done.
  - by rw Hi.
  - apply set_free_inodes_ok; [done|]. geometry. lia.
  - by rw length_insert.
  - apply set_bg_free_inodes_ok; [done|lia].
  - by rw -[block_bitmap s2]/(block_bitmap s1) Hbb.
  - geometry. lia.
  - intros i Hir. rw -[block_bitmap s2]/(block_bitmap s1) Hbb. by auto.
  - by rw -[blk s2 BOOT_SECTOR]/(blk s1 BOOT_SECTOR) Hbo.
Qed.

(** ** Allocation of a block *)
Lemma allocate_block_spec s : fs_inv s ->
  wp allocate_block (fun r s' =>
    (r = 0 /\ free_blocks s = 0 /\ feq s s') \/
    (ROOT_DIR_BLOCK_LBA < r < BLOCKS_PER_GROUP /\ bit (block_bitmap s) r = false /\ fs_inv s' /\
     evolve [SUPERBLOCK_LBA; BGDT_LBA; BLOCK_BITMAP_LBA] s s' /\
     free_blocks s' = free_blocks s - 1 /\ free_inodes s' = free_inodes s /\
     forall j, 0 <= j -> bit (block_bitmap s') j = (j =? r) || bit (block_bitmap s) j)) s.
Proof.
  intros [Hc Hs1 Hs2]. have Hcnt := fs_core_counts s Hc.
  have Hd : dev_ok (fs_dev s) by destruct Hc.
  have Hlen := blk_bits s BLOCK_BITMAP_LBA Hd ltac:(geometry; lia).
  rw /allocate_block. apply wp_bind, bgdt_get_0; [by destruct Hc|]. rw -/(free_blocks s).
  destruct (Z.eqb_spec (free_blocks s) 0) as [E0|E0].
  { apply wp_ret. left. split_and!; [done..|]. split; [by apply evolve_refl|done]. }
  apply wp_bind. eapply wp_mono; [apply read_block_spec; [done|geometry; lia]|].
  intros bm s1 [-> Hf1]. have Hc1 : fs_core s1 by apply (feq_fs_inv s).
  apply wp_bind.
  destruct (first_clear_spec (Z.to_nat BLOCKS_PER_GROUP) 0 (block_bitmap s)) as (r & Er & Hr);
    [lia|rw /block_bitmap Hlen; geometry; lia|].
  eapply wp_lift; [exact Er|]. destruct r as [i|]; last first.
  { exfalso. apply E0. destruct Hc. rw -inv_free_blocks0. apply count_clear_none. intros. apply Hr. lia. }
  destruct Hr as (Hi & Hbit & _). change (0 + Z.of_nat (Z.to_nat BLOCKS_PER_GROUP)) with 256 in Hi.
  have Hi21 : ROOT_DIR_BLOCK_LBA < i.
  { destruct (Z.lt_ge_cases ROOT_DIR_BLOCK_LBA i); [done|]. destruct Hc.
    by rewrite -> inv_reserved_blocks0 in Hbit by lia. }
  destruct (set_bit_spec (block_bitmap s) i) as (bm' & Ebm & Hl' & Hok' & Hbits);
    [rw /block_bitmap Hlen; geometry; lia|].
  apply wp_bind. eapply wp_lift; [exact Ebm|]. apply wp_bind.
  destruct (blk_ok s BLOCK_BITMAP_LBA) as [Hbl Hbo]; [done|geometry; lia|].
  eapply wp_mono; [apply write_block_spec; [by destruct Hc1|geometry; lia|]|].
  { split; [by rw Hl'|by apply Hok']. }
  intros [] s2 (Ev2 & Eb2 & Hm2). apply wp_bind.
  have Ev : evolve [BLOCK_BITMAP_LBA] s s2.
  { apply (evolve_trans [] [BLOCK_BITMAP_LBA] _ _ s1); [apply Hf1|done|done]. }
  eapply wp_mono; [apply (add_free_blocks_core s)|]; [done|done| | | |].
  { eapply meta_same_trans; [apply Hf1|done]. }
  { rw /block_bitmap Eb2. destruct Hc. rw -inv_free_blocks0.
    rewrite -> (count_clear_set (block_bitmap s) bm' _ i) by (done || (geometry; lia)). lia. }
  { intros j Hj. rw /block_bitmap Eb2 Hbits; [lia|]. destruct Hc. by rw inv_reserved_blocks0 ?orb_true_r. }
  intros [] s3 (Hc3 & Ev3 & Hfb & Hfi). apply wp_bind.
  eapply wp_mono; [by apply write_meta_inv|]. intros [] s4 (Hi4 & Ev4 & Hm4). apply wp_ret. right.
  destruct (meta_same_free _ _ Hm4) as [-> ->].
  split; [geometry; lia|]. split; [done|]. split; [done|]. split; [|split; [lia|split; [done|]]].
  - apply (evolve_trans [BLOCK_BITMAP_LBA] [SUPERBLOCK_LBA; BGDT_LBA] _ _ s3); [|done|incl].
    by apply (evolve_trans [BLOCK_BITMAP_LBA] [] _ _ s2).
  - intros j Hj. rw -Hbits // -Eb2. f_equal.
    rw /block_bitmap. rewrite -> (ev_blk _ _ _ Ev4) by notin. apply (ev_blk _ _ _ Ev3). notin.
Qed.

(** ** Release of a block *)
Lemma deallocate_single_block_spec s n : fs_inv s ->
  ROOT_DIR_BLOCK_LBA < n < BLOCKS_PER_GROUP -> bit (block_bitmap s) n = true ->
  wp (deallocate_single_block n) (fun _ s' => fs_inv s' /\
    evolve [SUPERBLOCK_LBA; BGDT_LBA; BLOCK_BITMAP_LBA] s s' /\
    free_blocks s' = free_blocks s + 1 /\ free_inodes s' = free_inodes s /\
    forall j, 0 <= j -> bit (block_bitmap s') j = negb (j =? n) && bit (block_bitmap s) j) s.
Proof.
  intros [Hc Hs1 Hs2] Hn Hbit. have Hd : dev_ok (fs_dev s) by destruct Hc.
  have Hlen := blk_bits s BLOCK_BITMAP_LBA Hd ltac:(geometry; lia).
  have Hnr : 0 <= n < 8 * len (block_bitmap s) by rw /block_bitmap Hlen; geometry; lia.
  rw /deallocate_single_block. rewrite -> (proj2 (Z.eqb_neq n 0)) by (geometry; lia).
  apply wp_bind. eapply wp_mono; [apply read_block_spec; [done|geometry; lia]|].
  intros bm s1 [-> Hf1]. have Hc1 : fs_core s1 by apply (feq_fs_inv s).
  destruct (test_bit_spec (block_bitmap s) n Hnr) as (v & Ev & Hv).
  apply wp_bind. eapply wp_lift; [exact Ev|]. rw Hv Hbit. cbn [negb].
  destruct (clear_bit_spec (block_bitmap s) n Hnr) as (bm' & Ebm & Hl' & Hok' & Hbits).
  apply wp_bind. eapply wp_lift; [exact Ebm|]. apply wp_bind.
  destruct (blk_ok s BLOCK_BITMAP_LBA) as [Hbl Hbo]; [done|geometry; lia|].
  eapply wp_mono; [apply write_block_spec; [by destruct Hc1|geometry; lia|]|].
  { split; [by rw Hl'|by apply Hok']. }
  intros [] s2 (Ev2 & Eb2 & Hm2). apply wp_bind.
  have Ev' : evolve [BLOCK_BITMAP_LBA] s s2.
  { apply (evolve_trans [] [BLOCK_BITMAP_LBA] _ _ s1); [apply Hf1|done|done]. }
  eapply wp_mono; [apply (add_free_blocks_core s)|]; [done|done| | | |].
  { eapply meta_same_trans; [apply Hf1|done]. }
  { rw /block_bitmap Eb2. destruct Hc. rw -inv_free_blocks0.
    rewrite -> (count_clear_clear (block_bitmap s) bm' _ n) by (done || (geometry; lia)). lia. }
  { intros j Hj. rw /block_bitmap Eb2 Hbits; [lia|]. destruct Hc.
    rewrite -> inv_reserved_blocks0, (proj2 (Z.eqb_neq j n)) by lia. done. }
  intros [] s3 (Hc3 & Ev3 & Hfb & Hfi).
  eapply wp_mono; [by apply write_meta_inv|]. intros [] s4 (Hi4 & Ev4 & Hm4).
  destruct (meta_same_free _ _ Hm4) as [-> ->].
  split; [done|]. split; [|split; [lia|split; [done|]]].
  - apply (evolve_trans [BLOCK_BITMAP_LBA] [SUPERBLOCK_LBA; BGDT_LBA] _ _ s3); [|done|incl].
    by apply (evolve_trans [BLOCK_BITMAP_LBA] [] _ _ s2).
  - intros j Hj. rw -Hbits // -Eb2. f_equal.
    rw /block_bitmap. rewrite -> (ev_blk _ _ _ Ev4) by notin. apply (ev_blk _ _ _ Ev3). notin.
Qed.

(** ** Allocation of an inode *)
Lemma allocate_node_spec s : fs_inv s ->
  wp allocate_node (fun r s' =>
    (r = 0 /\ free_inodes s = 0 /\ feq s s') \/
    (EXT2_GOOD_OLD_FIRST_INO < r <= INODES_PER_GROUP /\ bit (inode_bitmap s) (r - 1) = false /\ fs_inv s' /\
     evolve [SUPERBLOCK_LBA; BGDT_LBA; INODE_BITMAP_LBA] s s' /\
     free_inodes s' = free_inodes s - 1 /\ free_blocks s' = free_blocks s /\
     forall j, 0 <= j -> bit (inode_bitmap s') j = (j =? r - 1) || bit (inode_bitmap s) j)) s.
Proof.
  intros [Hc Hs1 Hs2]. have Hcnt := fs_core_counts s Hc.
  have Hd : dev_ok (fs_dev s) by destruct Hc.
  have Hlen := blk_bits s INODE_BITMAP_LBA Hd ltac:(geometry; lia).
  rw /allocate_node. apply wp_bind, wp_gets. have -> : g_filesystem_initialized s = true by destruct Hc.
  cbn [negb]. apply wp_bind, bgdt_get_0; [by destruct Hc|]. rw -/(free_inodes s).
  destruct (Z.eqb_spec (free_inodes s) 0) as [E0|E0].
  { apply wp_ret. left. split_and!; [done..|]. split; [by apply evolve_refl|done]. }
  apply wp_bind. eapply wp_mono; [apply read_block_spec; [done|geometry; lia]|].
  intros bm s1 [-> Hf1]. have Hc1 : fs_core s1 by apply (feq_fs_inv s).
  apply wp_bind.
  destruct (first_clear_spec (Z.to_nat INODES_PER_GROUP) 0 (inode_bitmap s)) as (r & Er & Hr);
    [lia|rw /inode_bitmap Hlen; geometry; lia|].
  eapply wp_lift; [exact Er|]. destruct r as [i|]; last first.
  { exfalso. apply E0. destruct Hc. rw -inv_free_inodes0. apply count_clear_none. intros. apply Hr. lia. }
  destruct Hr as (Hi & Hbit & _). change (0 + Z.of_nat (Z.to_nat INODES_PER_GROUP)) with 64 in Hi.
  have Hi11 : EXT2_GOOD_OLD_FIRST_INO <= i.
  { destruct (Z.le_gt_cases EXT2_GOOD_OLD_FIRST_INO i); [done|]. destruct Hc.
    by rewrite -> inv_reserved_inodes0 in Hbit by lia. }
  destruct (set_bit_spec (inode_bitmap s) i) as (bm' & Ebm & Hl' & Hok' & Hbits);
    [rw /inode_bitmap Hlen; geometry; lia|].
  apply wp_bind. eapply wp_lift; [exact Ebm|]. apply wp_bind.
  destruct (blk_ok s INODE_BITMAP_LBA) as [Hbl Hbo]; [done|geometry; lia|].
  eapply wp_mono; [apply write_block_spec; [by destruct Hc1|geometry; lia|]|].
  { split; [by rw Hl'|by apply Hok']. }
  intros [] s2 (Ev2 & Eb2 & Hm2). apply wp_bind.
  have Ev : evolve [INODE_BITMAP_LBA] s s2.
  { apply (evolve_trans [] [INODE_BITMAP_LBA] _ _ s1); [apply Hf1|done|done]. }
  eapply wp_mono; [apply (add_free_inodes_core s)|]; [done|done| | | |].
  { eapply meta_same_trans; [apply Hf1|done]. }
  { rw /inode_bitmap Eb2. destruct Hc. rw -inv_free_inodes0.
    rewrite -> (count_clear_set (inode_bitmap s) bm' _ i) by (done || (geometry; lia)). lia. }
  { intros j Hj. rw /inode_bitmap Eb2 Hbits; [lia|]. destruct Hc. by rw inv_reserved_inodes0 ?orb_true_r. }
  intros [] s3 (Hc3 & Ev3 & Hfb & Hfi). apply wp_bind.
  eapply wp_mono; [by apply write_meta_inv|]. intros [] s4 (Hi4 & Ev4 & Hm4). apply wp_ret. right.
  destruct (meta_same_free _ _ Hm4) as [-> ->]. have -> : i + 1 - 1 = i by lia.
  split; [geometry; lia|]. split; [done|]. split; [done|]. split; [|split; [lia|split; [done|]]].
  - apply (evolve_trans [INODE_BITMAP_LBA] [SUPERBLOCK_LBA; BGDT_LBA] _ _ s3); [|done|incl].
    by apply (evolve_trans [INODE_BITMAP_LBA] [] _ _ s2).
  - intros j Hj. rw -Hbits // -Eb2. f_equal.
    rw /inode_bitmap. rewrite -> (ev_blk _ _ _ Ev4) by notin. apply (ev_blk _ _ _ Ev3). notin.
Qed.

(** ** Release of a whole inode *)
Definition used (bs : list Z) : list Z := filter (fun b => b <> 0) bs.
Lemma elem_of_used bs b : b ∈ used bs <-> b <> 0 /\ b ∈ bs.
Proof. by rw /used list_elem_of_filter. Qed.
Lemma used_cons_0 bs : used (0 :: bs) = used bs.
Proof. done. Qed.
Lemma used_cons b bs : b <> 0 -> used (b :: bs) = b :: used bs.
Proof. intros. rw /used filter_cons. by case_decide. Qed.
Lemma used_app a b : used (a ++ b) = used a ++ used b.
Proof. apply filter_app. Qed.
Lemma used_nonzero bs : Forall (fun b => b <> 0) bs -> used bs = bs.
Proof. induction 1 as [|b bs Hb _ IH]; [done|]. by rw used_cons // IH. Qed.

(** the blocks [bs] (0 entries ignored) are distinct data blocks, marked in the bitmap *)
Definition allocated s (bs : list Z) : Prop := NoDup (used bs) /\
  forall b, b ∈ bs -> b <> 0 -> ROOT_DIR_BLOCK_LBA < b < BLOCKS_PER_GROUP /\ bit (block_bitmap s) b = true.
Definition meta3 : list Z := [SUPERBLOCK_LBA; BGDT_LBA; BLOCK_BITMAP_LBA].
(** the block bitmap after the release of [bs] *)
Definition released (bs : list Z) s s' : Prop := fs_inv s' /\ evolve meta3 s s' /\
  free_blocks s' = free_blocks s + len (used bs) /\ free_inodes s' = free_inodes s /\
  forall j, 0 <= j -> bit (block_bitmap s') j = negb (bool_decide (j ∈ used bs)) && bit (block_bitmap s) j.

Lemma released_trans bs1 bs2 s1 s2 s3 :
  released bs1 s1 s2 -> released bs2 s2 s3 -> released (bs1 ++ bs2) s1 s3.
Proof.
  intros (_ & Ev1 & Hb1 & Hi1 & Hj1) (Hinv & Ev2 & Hb2 & Hi2 & Hj2). rw /released used_app.
  split; [done|]. split; [by eapply evolve_trans; [done|done|incl]|].
  split; [rw length_app; lia|]. split; [lia|]. intros j Hj. rw Hj2 // Hj1 //.
  have -> : bool_decide (j ∈ used bs1 ++ used bs2) = bool_decide (j ∈ used bs1) || bool_decide (j ∈ used bs2).
  { rewrite -> (bool_decide_ext _ _ (elem_of_app _ _ _)). apply bool_decide_or. }
  destruct (bool_decide (j ∈ used bs1)), (bool_decide (j ∈ used bs2)); done.
Qed.

Lemma released_nil s s' : fs_inv s -> feq s s' -> released [] s s'.
Proof.
  intros Hi Hf. split; [by eapply feq_fs_inv|]. split; [by apply feq_evolve|].
  destruct (meta_same_free s s') as [-> ->]; [apply Hf|]. split; [cbn; lia|]. split; [done|].
  intros j _. by rw /block_bitmap (feq_blk _ _ _ Hf).
Qed.

Lemma deallocate_list_spec bs s : fs_inv s -> allocated s bs ->
  wp (deallocate_list bs) (fun _ s' => released bs s s') s.
Proof.
  revert s. induction bs as [|b bs IH] => s Hi [Hnd Hall].
  { apply wp_ret, released_nil; [done|]. split; [|done]. apply evolve_refl. by destruct Hi as [[]]. }
  cbn [deallocate_list]. apply wp_bind. destruct (Z.eqb_spec b 0) as [->|Hb].
  { apply wp_ret. rw /released used_cons_0. apply IH; [done|]. split; [done|].
    intros b' Hb'. apply Hall. by right. }
  rw used_cons // in Hnd. apply NoDup_cons in Hnd as [Hnin Hnd].
  destruct (Hall b) as [Hr Hbit]; [by left|done|].
  eapply wp_mono; [by apply deallocate_single_block_spec|].
  intros [] s1 (Hi1 & Ev1 & Hb1 & Hn1 & Hj1).
  have R1 : released [b] s s1.
  { have E1 : used [b] = [b] by rw used_cons. rw /released E1. split; [done|]. split; [done|].
    split; [done|]. split; [done|]. intros j Hj. rw Hj1 //. f_equal. f_equal.
    destruct (Z.eqb_spec j b) as [->|Hne]; [by rewrite -> bool_decide_true by set_solver+|].
    rewrite -> bool_decide_false by (rw list_elem_of_singleton; done). done. }
  eapply wp_mono; [apply IH; [done|]|].
  - split; [done|]. intros b' Hb' Hb0. destruct (Hall b') as [Hr' Hbit']; [by right|done|].
    split; [done|]. rw Hj1 ?Hbit' ?andb_true_r; [geometry; lia|].
    apply negb_true_iff, Z.eqb_neq. intros ->. apply Hnin. by apply elem_of_used.
  - intros [] s2 R2. apply (released_trans [b] bs _ _ _ R1 R2).
Qed.

Lemma allocated_app s a b : allocated s (a ++ b) -> allocated s a.
Proof.
  intros [Hnd Hall]. rw used_app in Hnd. apply NoDup_app in Hnd as (? & _ & _).
  split; [done|]. intros. apply Hall; [|done]. apply elem_of_app. by left.
Qed.

Lemma allocated_released s s' a b : allocated s (a ++ b) -> released a s s' -> allocated s' b.
Proof.
  intros [Hnd Hall] (_ & _ & _ & _ & Hj). rw used_app in Hnd. apply NoDup_app in Hnd as (_ & Hdis & Hnd).
  split; [done|]. intros c Hc Hc0. destruct (Hall c) as [Hr Hb]; [apply elem_of_app; by right|done|].
  split; [done|]. rw Hj ?Hb ?andb_true_r; [geometry; lia|]. apply negb_true_iff, bool_decide_eq_false.
  intros Hin. apply (Hdis c Hin). by apply elem_of_used.
Qed.

(** all the blocks an inode holds: the direct ones, those of the indirect block and
    the indirect block itself *)
Definition indirect_of (node : EXT2Inode) : Z := nth 12 (i_block node) 0.
Definition node_blocks s (node : EXT2Inode) : list Z :=
  take 12 (i_block node) ++
  (if indirect_of node =? 0 then [] else block_pointers (blk s (indirect_of node)) ++ [indirect_of node]).

Lemma deallocate_single_released s b : fs_inv s -> b <> 0 -> allocated s [b] ->
  wp (deallocate_single_block b) (fun _ s' => released [b] s s') s.
Proof.
  intros Hi Hb Ha. destruct (wp_elim _ _ _ (deallocate_list_spec [b] s Hi Ha)) as (u & s' & E & R).
  move: E. rw /deallocate_list (proj2 (Z.eqb_neq b 0) Hb) /mbind /M_bind.
  destruct (deallocate_single_block b s) as [[[] s1]| |] eqn:E1; [|done|done].
  intros [= _ <-]. by eapply wp_intro.
Qed.

Lemma zero_inode_ok : EXT2Inode_ok zero_inode.
Proof. by apply EXT2Inode_of_bytes_ok with (bs := zeros 128); [|apply bytes_ok_zeros]. Qed.

(** the effect of [deallocate_node] on the volume *)
Definition node_released n (bs : list Z) s s' : Prop := fs_inv s' /\
  evolve (meta_blocks ++ [inode_lba n]) s s' /\
  inode_at s' n = zero_inode /\
  (forall m, m <> n -> 1 <= m <= INODES_PER_GROUP -> inode_at s' m = inode_at s m) /\
  free_blocks s' = free_blocks s + len (used bs) /\ free_inodes s' = free_inodes s + 1 /\
  (forall j, 0 <= j -> bit (block_bitmap s') j = negb (bool_decide (j ∈ used bs)) && bit (block_bitmap s) j) /\
  (forall j, 0 <= j -> bit (inode_bitmap s') j = negb (j =? n - 1) && bit (inode_bitmap s) j).

(** the tail of [deallocate_node]: clear the inode, its bit, and the counters *)
Lemma release_inode_spec s n : fs_inv s -> EXT2_GOOD_OLD_FIRST_INO < n <= INODES_PER_GROUP ->
  bit (inode_bitmap s) (n - 1) = true ->
  wp (write_inode n zero_inode;;
      bitmap ← read_block INODE_BITMAP_LBA;
      bitmap ← lift (clear_bit bitmap (n - 1));
      write_block bitmap INODE_BITMAP_LBA;;
      add_free_inodes 1;;
      write_meta) (fun _ s' => node_released n [] s s') s.
Proof.
  intros Hi Hn Hbit. have Hn' : 1 <= n <= INODES_PER_GROUP by geometry; lia.
  have Hlb := inode_lba_range n Hn'. apply wp_bind.
  eapply wp_mono; [apply write_inode_spec; [by apply fs_inv_table_ok|done|apply zero_inode_ok]|].
  intros [] s1 (Ev1 & Hm1 & Hz & Hoth).
  have Hi1 : fs_inv s1 by apply (fs_inv_inode s s1 n).
  have Hib : inode_bitmap s1 = inode_bitmap s by apply (ev_blk _ _ _ Ev1); notin.
  have Hbb : block_bitmap s1 = block_bitmap s by apply (ev_blk _ _ _ Ev1); notin.
  destruct (meta_same_free _ _ Hm1) as [Hf1 Hf2].
  destruct (Hi1) as [Hc _ _]. have Hd : dev_ok (fs_dev s1) by destruct Hc.
  have Hlen := blk_bits s1 INODE_BITMAP_LBA Hd ltac:(geometry; lia).
  apply wp_bind. eapply wp_mono; [apply read_block_spec; [done|geometry; lia]|].
  intros bm s2 [-> Hf]. apply wp_bind.
  destruct (clear_bit_spec (inode_bitmap s1) (n - 1)) as (bm' & Ebm & Hl' & Hok' & Hbits);
    [rw /inode_bitmap Hlen; geometry; lia|].
  eapply wp_lift; [exact Ebm|]. apply wp_bind.
  destruct (blk_ok s1 INODE_BITMAP_LBA) as [Hbl Hbo]; [done|geometry; lia|].
  eapply wp_mono; [apply write_block_spec; [by destruct Hf as [[]]|geometry; lia|]|].
  { split; [by rw Hl'|by apply Hok']. }
  intros [] s3 (Ev3 & Eb3 & Hm3). apply wp_bind.
  have Ev : evolve [INODE_BITMAP_LBA] s1 s3 by eapply (evolve_trans [] [INODE_BITMAP_LBA]); [apply Hf|done|incl].
  eapply wp_mono; [apply (add_free_inodes_core s1)|]; [done|done| | | |].
  { eapply meta_same_trans; [apply Hf|done]. }
  { rw /inode_bitmap Eb3. destruct Hc. rw -inv_free_inodes0.
    apply (count_clear_clear (inode_bitmap s1) bm' _ (n - 1)); [geometry; lia|by rw Hib|done]. }
  { intros j Hj. rw /inode_bitmap Eb3 Hbits; [lia|]. destruct Hc.
    rewrite -> inv_reserved_inodes0, (proj2 (Z.eqb_neq j (n - 1))) by (geometry; lia). done. }
  intros [] s4 (Hc4 & Ev4 & Hfi & Hfb).
  eapply wp_mono; [by apply write_meta_inv|]. intros [] s5 (Hi5 & Ev5 & Hm5).
  destruct (meta_same_free _ _ Hm5) as [E1 E2].
  have Ev15 : evolve meta_blocks s1 s5.
  { eapply (evolve_trans [INODE_BITMAP_LBA]); [exact Ev| |]. 
    - eapply (evolve_trans []); [exact Ev4|exact Ev5|]. intros l Hl. exact Hl.
    - rw /meta_blocks. incl. }
  rw /node_released E1 E2. split; [done|]. split; [eapply evolve_trans; [exact Ev1|exact Ev15|incl]|].
  split; [by rw (inode_at_frame _ _ _ _ Ev15 (inode_lba_not_meta n Hn'))|].
  split; [intros m Hm Hmr; rw (inode_at_frame _ _ _ _ Ev15 (inode_lba_not_meta m Hmr)); by apply Hoth|].
  split; [cbn; lia|]. split; [lia|]. split.
  - intros j Hj. cbn. rewrite -> bool_decide_false by apply not_elem_of_nil. cbn. rw -Hbb. f_equal.
    rw /block_bitmap. rewrite -> (ev_blk _ _ _ Ev5), (ev_blk _ _ _ Ev4), (ev_blk _ _ _ Ev) by notin. done.
  - intros j Hj. rw -Hib -Hbits // -Eb3. f_equal.
    rw /inode_bitmap. rewrite -> (ev_blk _ _ _ Ev5), (ev_blk _ _ _ Ev4) by notin. done.
Qed.

Lemma released_blk bs s s' l : released bs s s' -> ROOT_DIR_BLOCK_LBA <= l -> blk s' l = blk s l.
Proof. intros (_ & Ev & _) Hl. apply (ev_blk _ _ _ Ev). rw /meta3. notin. Qed.
Lemma released_inode bs s s' n : released bs s s' -> 1 <= n <= INODES_PER_GROUP ->
  inode_at s' n = inode_at s n.
Proof.
  intros (_ & Ev & _) Hn. apply (inode_at_frame _ _ _ _ Ev).
  have := inode_lba_range n Hn. rw /meta3 => ?. notin.
Qed.
Lemma released_inode_bitmap bs s s' : released bs s s' -> inode_bitmap s' = inode_bitmap s.
Proof. intros (_ & Ev & _). apply (ev_blk _ _ _ Ev). rw /meta3. notin. Qed.

Lemma i_block_length s n : fs_inv s -> 1 <= n <= INODES_PER_GROUP ->
  length (i_block (inode_at s n)) = 15%nat.
Proof. intros [[] _ _] Hn. by destruct (inode_at_ok s n) as (_ & ? & _). Qed.

(** the branch on [i_block[12]] of [deallocate_node] *)
Lemma deallocate_indirect_spec s ind : fs_inv s ->
  let bs := if ind =? 0 then [] else block_pointers (blk s ind) ++ [ind] in
  allocated s bs ->
  wp (if ind =? 0 then mret tt else
      indirect_table ← read_block ind;
      deallocate_list (block_pointers indirect_table);;
      deallocate_single_block ind) (fun _ s' => released bs s s') s.
Proof.
  intros Hi. cbv zeta. have Hd : dev_ok (fs_dev s) by destruct Hi as [[]].
  destruct (Z.eqb_spec ind 0) as [E0|E0].
  { intros _. apply wp_ret, released_nil; [done|]. split; [by apply evolve_refl|done]. }
  intros Ha. have [Hr _] : ROOT_DIR_BLOCK_LBA < ind < BLOCKS_PER_GROUP /\ bit (block_bitmap s) ind = true.
  { apply Ha; [apply elem_of_app; right; by left|done]. }
  apply wp_bind. eapply wp_mono; [apply read_block_spec; [done|geometry; lia]|].
  intros _ s1 [-> Hf]. have R1 : released [] s s1 by apply released_nil.
  have Ha1 := allocated_released s s1 [] _ Ha R1.
  apply wp_bind. eapply wp_mono; [apply deallocate_list_spec; [apply R1|by eapply allocated_app]|].
  intros [] s2 R2.
  eapply wp_mono; [apply deallocate_single_released; [apply R2|done|by eapply allocated_released]|].
  intros [] s3 R3. have R13 := released_trans _ _ _ _ _ R2 R3. exact (released_trans _ _ _ _ _ R1 R13).
Qed.

Lemma node_released_after bs s s1 s2 n : 1 <= n <= INODES_PER_GROUP ->
  released bs s s1 -> node_released n [] s1 s2 -> node_released n bs s s2.
Proof.
  intros Hn R (Hi & Ev & Hz & Ho & Hfb & Hfi & Hbb & Hib).
  have Hri m := released_inode _ _ _ m R. have Hrb := released_inode_bitmap _ _ _ R.
  destruct R as (_ & Ev1 & Hfb1 & Hfi1 & Hbb1).
  split; [done|]. split; [eapply evolve_trans; [done|done|rw /meta3 /meta_blocks; incl]|].
  split; [done|]. split; [intros; by rw Ho // Hri|]. cbn in Hfb. split; [lia|]. split; [lia|].
  split; [|by rw -Hrb]. intros j Hj. rewrite -> Hbb by done.
  rewrite -> (bool_decide_false (j ∈ used [])) by apply not_elem_of_nil. by apply Hbb1.
Qed.

Lemma deallocate_node_spec s n : fs_inv s -> EXT2_GOOD_OLD_FIRST_INO < n <= INODES_PER_GROUP ->
  bit (inode_bitmap s) (n - 1) = true ->
  allocated s (node_blocks s (inode_at s n)) ->
  wp (deallocate_node n) (fun _ s' =>
    node_released n (node_blocks s (inode_at s n)) s s') s.
Proof.
  intros Hi Hn Hbit Ha. have Hn' : 1 <= n <= INODES_PER_GROUP by geometry; lia.
  rw /deallocate_node. apply wp_bind, wp_gets. have -> : g_filesystem_initialized s = true by destruct Hi as [[]].
  rewrite -> (proj2 (Z.eqb_neq n 0)) by (geometry; lia). cbn [negb orb].
  apply wp_bind. eapply wp_mono; [apply read_inode_spec; [by apply fs_inv_table_ok|done]|].
  intros _ s1 [-> Hf]. cbv beta iota zeta. rw -/(indirect_of (inode_at s n)).
  have R1 : released [] s s1 by apply released_nil.
  have Ha1 := allocated_released s s1 [] _ Ha R1. rw {1}/node_blocks in Ha1.
  apply wp_bind. eapply wp_mono; [apply deallocate_list_spec; [apply R1|by eapply allocated_app]|].
  intros [] s2 R2. have R12 := released_trans _ _ _ _ _ R1 R2.
  have Hrest := allocated_released _ _ _ _ Ha1 R2. apply wp_bind.
  (* the indirect block still has its contents *)
  have Eind : (if indirect_of (inode_at s n) =? 0 then [] else
      block_pointers (blk s (indirect_of (inode_at s n))) ++ [indirect_of (inode_at s n)]) =
    (if indirect_of (inode_at s n) =? 0 then [] else
      block_pointers (blk s2 (indirect_of (inode_at s n))) ++ [indirect_of (inode_at s n)]).
  { destruct (Z.eqb_spec (indirect_of (inode_at s n)) 0) as [|E0]; [done|].
    rewrite -> (released_blk _ _ _ _ R12); [done|].
    destruct Ha as [_ Ha]. apply (Ha (indirect_of (inode_at s n))) in E0; [lia|].
    rw /node_blocks (proj2 (Z.eqb_neq _ _) E0). apply elem_of_app; right; apply elem_of_app; right. by left. }
  rw Eind in Hrest. eapply wp_mono; [apply deallocate_indirect_spec; [apply R12|done]|].
  intros [] s3 R3. have R13 := released_trans _ _ _ _ _ R12 R3. rw -Eind in R13.
  eapply wp_mono; [apply release_inode_spec; [apply R13|done|by rw (released_inode_bitmap _ _ _ R13)]|].
  intros [] s4 R4. eapply node_released_after; done.
Qed.
End Ext2Inv.
#[global] Arguments blk : simpl never.
