(* ===== verification/Ext2.v ===== *)
(** * EXT2 operations ([src/filesystem/ext2.c])

    Directory look-up, insertion and removal across the blocks of a directory
    inode, formatting and mounting, and the calls of [ext2.h]: [read_directory],
    [read], [write], [is_directory_empty], [delete], [stat]. *)

From S2P Require Import Prelude Bitmap StdString BlockDevice Ext2Layout Ext2Dir Ext2State.

(** [for (i = ...; i < ...; ++i) set_bit(buf, i)]: [n] bits from [i] *)
Fixpoint set_bits (n : nat) (i : Z) (b : list Z) : res (list Z) :=
  match n with O => Ok b | S n => b ← set_bit b i; set_bits n (i + 1) b end.

(** the root directory's block, in the order [create_ext2] stores its members *)
Definition root_block : res (list Z) :=
  let b := zeros 512 in
  b ← st 4 b 0 ROOT_INODE_NO;
  b ← st 2 b 4 (get_entry_record_len 1);
  b ← st 1 b 6 1;
  b ← st 1 b 7 EXT2_FT_DIR;
  b ← splice (get_entry_name 0) [46] b;
  len_dot ← entry_rec_len b 0;
  next ← get_next_directory_entry b 0;
  match next with
  | None => UB
  | Some entry =>
    b ← st 4 b entry ROOT_INODE_NO;
    b ← st 1 b (entry + 6) 2;
    b ← st 1 b (entry + 7) EXT2_FT_DIR;
    b ← splice (get_entry_name entry) [46; 46] b;
    st 2 b (entry + 4) (u16 (BLOCK_SIZE - len_dot))
  end.

Definition is_dir_mode (node : EXT2Inode) : bool := negb (Z.land (i_mode node) EXT2_S_IFDIR =? 0).

(** [memset(&_ext2_superblock_state, 0, ...)] and the assignments of [create_ext2] *)
Definition new_superblock : EXT2Superblock :=
  {| s_inodes_count := TOTAL_INODES; s_blocks_count := TOTAL_BLOCKS; s_r_blocks_count := 0;
     s_free_blocks_count := TOTAL_BLOCKS - INITIAL_USED_BLOCKS;
     s_free_inodes_count := TOTAL_INODES - INITIAL_USED_INODES;
     s_first_data_block := BGDT_LBA + 1; s_log_block_size := 0; s_log_frag_size := 0;
     s_blocks_per_group := BLOCKS_PER_GROUP; s_frags_per_group := 0;
     s_inodes_per_group := INODES_PER_GROUP; s_mtime := 0; s_wtime := 0; s_mnt_count := 0;
     s_max_mnt_count := 0; s_magic := EXT2_SUPER_MAGIC; s_state := 0; s_errors := 0;
     s_minor_rev_level := 0; s_lastcheck := 0; s_checkinterval := 0; s_creator_os := 0;
     s_rev_level := 0; s_def_resuid := 0; s_def_resgid := 0;
     s_first_ino := EXT2_GOOD_OLD_FIRST_INO; s_inode_size := sizeof_EXT2Inode;
     s_block_group_nr := 0; s_feature_compat := 0; s_feature_incompat := 0;
     s_feature_ro_compat := 0; s_uuid := zeros 16; s_volume_name := zeros 16;
     s_last_mounted := zeros 64; s_algo_bitmap := 0 |}.

Definition zero_bgd : EXT2BlockGroupDescriptor := mkBGD 0 0 0 0 0 0 0 (replicate 3 0).
Definition new_bgd : EXT2BlockGroupDescriptor :=
  mkBGD BLOCK_BITMAP_LBA INODE_BITMAP_LBA INODE_TABLE_LBA
    (BLOCKS_PER_GROUP - INITIAL_USED_BLOCKS) (INODES_PER_GROUP - INITIAL_USED_INODES) 1 0
    (replicate 3 0).
Definition new_bgdt : list EXT2BlockGroupDescriptor :=
  new_bgd :: replicate (Z.to_nat GROUPS_COUNT - 1) zero_bgd.

Definition root_inode : EXT2Inode :=
  mkInode (Z.lor EXT2_S_IFDIR 493) 0 BLOCK_SIZE 0 0 0 0 0 2 (BLOCK_SIZE / 512) 0 0
    (ROOT_DIR_BLOCK_LBA :: replicate 14 0) 0 0 0 0 (replicate 12 0).

(** the table of descriptors behind a block buffer *)
Definition bgdt_of_bytes (b : list Z) : list EXT2BlockGroupDescriptor :=
  map (fun i => EXT2BlockGroupDescriptor_of_bytes (take 32 (drop (32 * i) b)))
    (seq 0 (Z.to_nat GROUPS_COUNT)).

(** the fresh inode of [write] and its updates; 0755 is 493, 0644 is 420 *)
Definition new_inode (is_dir : bool) (size : Z) : EXT2Inode :=
  mkInode (if is_dir then Z.lor EXT2_S_IFDIR 493 else Z.lor EXT2_S_IFREG 420) 0
    (if is_dir then 0 else size) 0 0 0 0 0 (if is_dir then 2 else 1) 0 0 0 (replicate 15 0)
    0 0 0 0 (replicate 12 0).
Definition set_block (i : nat) (b : Z) (node : EXT2Inode) : EXT2Inode :=
  mkInode (i_mode node) (i_uid node) (i_size node) (i_atime node) (i_ctime node) (i_mtime node)
    (i_dtime node) (i_gid node) (i_links_count node) (i_blocks node) (i_flags node) (i_osd1 node)
    (<[i := b]> (i_block node)) (i_generation node) (i_file_acl node) (i_dir_acl node)
    (i_faddr node) (i_osd2 node).
Definition set_blocks (n : Z) (node : EXT2Inode) : EXT2Inode :=
  mkInode (i_mode node) (i_uid node) (i_size node) (i_atime node) (i_ctime node) (i_mtime node)
    (i_dtime node) (i_gid node) (i_links_count node) n (i_flags node) (i_osd1 node)
    (i_block node) (i_generation node) (i_file_acl node) (i_dir_acl node)
    (i_faddr node) (i_osd2 node).
Definition set_size (n : Z) (node : EXT2Inode) : EXT2Inode :=
  mkInode (i_mode node) (i_uid node) n (i_atime node) (i_ctime node) (i_mtime node)
    (i_dtime node) (i_gid node) (i_links_count node) (i_blocks node) (i_flags node) (i_osd1 node)
    (i_block node) (i_generation node) (i_file_acl node) (i_dir_acl node)
    (i_faddr node) (i_osd2 node).
(** [i_blocks += BLOCK_SIZE / 512] *)
Definition count_block (node : EXT2Inode) : EXT2Inode :=
  set_blocks (u32 (i_blocks node + BLOCK_SIZE / 512)) node.

(** [read_blocks] stores 512 bytes through a pointer to a 204-byte and a 256-byte
    static, which C leaves undefined; in a linked kernel the rest of the bytes lands where
    the linker's choice puts it.  Either is a value of these parameters: undefined
    behaviour, or the state the stray bytes leave. *)
Class Overrun (D : Type) := {
  overrun_superblock : list Z -> FS D -> res (FS D);
  overrun_bgdt : list Z -> FS D -> res (FS D);
}.

Section Ext2.
Context {PW : PtrWidth} {D : Type} `{BlockDevice D} `{StackJunk} `{Overrun D}.
Abbreviation FSM := (M (FS D)).

(** ** Directories *)
(** [for (i = 0; i < 12; i++) { if (i_block[i] == 0) break; ... }] *)
Fixpoint find_blocks (bs : list Z) (name : list Z) : FSM Z :=
  match bs with
  | [] => mret 0
  | lba :: bs =>
    if lba =? 0 then mret 0 else
    buf ← read_block lba;
    r ← lift (find_scan scan_fuel buf 0 name);
    if r =? 0 then find_blocks bs name else mret r
  end.

Definition find_entry_in_dir (dir_inode_num : Z) (name : list Z) : FSM Z :=
  on ← read_inode dir_inode_num;
  match on with
  | None => mret 0
  | Some dir_inode =>
    if negb (is_dir_mode dir_inode) then mret 0 else
    find_blocks (take 12 (i_block dir_inode)) name
  end.

(** the loop of [add_entry_to_dir] from block index [i]; [bs] are the pointers that
    remain.  The answer [-1] is [false]. *)
Fixpoint add_blocks (parent_inode_num : Z) (parent : EXT2Inode) (i : nat) (bs : list Z)
    (new_inode_num : Z) (name : list Z) (file_type : Z) : FSM bool :=
  match bs with
  | [] => mret false
  | lba :: bs =>
    if lba =? 0 then
      new_blk ← allocate_block;
      if new_blk =? 0 then mret false else
      let parent := count_block (set_block i new_blk parent) in
      let parent := set_size (u32 (i_size parent + BLOCK_SIZE)) parent in
      write_inode parent_inode_num parent;;
      buf ← lift (write_entry (zeros 512) 0 new_inode_num BLOCK_SIZE name file_type);
      write_block buf new_blk;;
      mret true
    else
      buf ← read_block lba;
      r ← lift (add_scan scan_fuel buf 0 new_inode_num name file_type);
      match r with
      | Some buf => write_block buf lba;; mret true
      | None => add_blocks parent_inode_num parent (S i) bs new_inode_num name file_type
      end
  end.

Definition add_entry_to_dir (parent_inode_num new_inode_num : Z) (name : list Z)
    (file_type : Z) : FSM bool :=
  on ← read_inode parent_inode_num;
  match on with
  | None => mret false
  | Some parent =>
    add_blocks parent_inode_num parent 0 (take 12 (i_block parent)) new_inode_num name file_type
  end.

Fixpoint remove_blocks (bs : list Z) (name : list Z) : FSM bool :=
  match bs with
  | [] => mret false
  | lba :: bs =>
    if lba =? 0 then mret false else
    buf ← read_block lba;
    r ← lift (remove_scan scan_fuel buf None 0 name);
    match r with
    | Some buf => write_block buf lba;; mret true
    | None => remove_blocks bs name
    end
  end.

Definition remove_entry_from_dir (parent_inode_num : Z) (name : list Z) : FSM bool :=
  on ← read_inode parent_inode_num;
  match on with
  | None => mret false
  | Some parent_inode => remove_blocks (take 12 (i_block parent_inode)) name
  end.

(** ** Formatting and mounting *)
Definition is_empty_storage : FSM bool :=
  b ← read_block BOOT_SECTOR;
  c ← lift (memcmp (list_at b) (list_at fs_signature) (Z.to_nat BLOCK_SIZE));
  mret (negb (c =? 0)).

(** [for (i = 0; i < n; i++) write_blocks(&buffer, lba + i, 1)] *)
Fixpoint write_many (n : nat) (b : list Z) (lba : Z) : FSM unit :=
  match n with O => mret tt | S n => write_block b lba;; write_many n b (lba + 1) end.

Definition create_ext2 : FSM unit :=
  write_block fs_signature BOOT_SECTOR;;
  modify (fun s => set_meta new_superblock (_ext2_bgdt_state s) s);;
  buffer ← lift (splice 0 (EXT2Superblock_bytes new_superblock) (zeros 512));
  write_block buffer SUPERBLOCK_LBA;;
  modify (fun s => set_meta (_ext2_superblock_state s) new_bgdt s);;
  buffer ← lift (splice 0 (EXT2BlockGroupDescriptor_bytes new_bgd) (zeros 512));
  write_block buffer BGDT_LBA;;
  buffer ← lift (set_bits (Z.to_nat (ROOT_DIR_BLOCK_LBA + 1)) 0 (zeros 512));
  write_block buffer BLOCK_BITMAP_LBA;;
  buffer ← lift (set_bits (Z.to_nat INITIAL_USED_INODES) 0 (zeros 512));
  write_block buffer INODE_BITMAP_LBA;;
  write_many (Z.to_nat INODES_TABLE_BLOCK_COUNT) (zeros 512) INODE_TABLE_LBA;;
  write_inode ROOT_INODE_NO root_inode;;
  buffer ← lift root_block;
  write_block buffer ROOT_DIR_BLOCK_LBA;;
  modify (set_init true).

(** the bytes behind the end of the structure *)
Definition stray (f : FS D -> res (FS D)) : FSM unit := fun s =>
  match f s with Ok s' => Ok (tt, s') | UB => UB | NoFuel => NoFuel end.

Definition initialize_filesystem_ext2 : FSM unit :=
  empty ← is_empty_storage;
  if empty : bool then create_ext2;; modify (set_init true) else
  b ← read_block SUPERBLOCK_LBA;
  modify (fun s => set_meta (EXT2Superblock_of_bytes (take 204 b)) (_ext2_bgdt_state s) s);;
  stray (overrun_superblock (drop 204 b));;
  b ← read_block BGDT_LBA;
  modify (fun s => set_meta (_ext2_superblock_state s) (bgdt_of_bytes (take 256 b)) s);;
  stray (overrun_bgdt (drop 256 b));;
  sb ← gets _ext2_superblock_state;
  if s_magic sb =? EXT2_SUPER_MAGIC then modify (set_init true) else mret tt.

(** ** Reading *)
(** the copy loops of [read_directory] and [read]: blocks of [bs] up to the first 0,
    until [total] bytes have been stored at [out]; [pos] is what was copied so far *)
Fixpoint copy_out (bs : list Z) (out pos total : Z) : FSM Z :=
  match bs with
  | [] => mret pos
  | lba :: bs =>
    if pos <? total then
      if lba =? 0 then mret pos else
      b ← read_block lba;
      let chunk := if total - pos <? BLOCK_SIZE then total - pos else BLOCK_SIZE in
      modify (fun s => set_mem (mem_store (fs_mem s) (ptr (out + pos)) (take (Z.to_nat chunk) b)) s);;
      copy_out bs out (pos + chunk) total
    else mret pos
  end.

Definition read_directory (prequest : EXT2DriverRequest) : FSM Z :=
  init ← gets g_filesystem_initialized;
  if negb init then mret (-1) else
  on ← read_inode (parent_inode prequest);
  match on with
  | None => mret 3
  | Some dir_inode =>
    if negb (is_dir_mode dir_inode) then mret 1 else
    if nth 0 (i_block dir_inode) 0 =? 0 then mret 0 else
    copy_out (take 12 (i_block dir_inode)) (buf prequest) 0 (buffer_size prequest);;
    mret 0
  end.

(** [request.name], a string of [request.name_len] bytes in the caller's memory *)
Definition request_name (r : EXT2DriverRequest) : FSM (list Z) :=
  gets (fun s => mem_load (fs_mem s) (name r) (Z.to_nat (name_len r))).

Definition read (request : EXT2DriverRequest) : FSM Z :=
  init ← gets g_filesystem_initialized;
  if negb init then mret (-1) else
  if parent_inode request =? 0 then mret 4 else
  name ← request_name request;
  file_inode_num ← find_entry_in_dir (parent_inode request) name;
  if file_inode_num =? 0 then mret 3 else
  on ← read_inode file_inode_num;
  match on with
  | None => mret (-1)
  | Some file_inode =>
    if is_dir_mode file_inode then mret 1 else
    let bytes_to_read := if buffer_size request <? i_size file_inode
                         then buffer_size request else i_size file_inode in
    bytes_read ← copy_out (take 12 (i_block file_inode)) (buf request) 0 bytes_to_read;
    let ind := nth 12 (i_block file_inode) 0 in
    (if (bytes_read <? bytes_to_read) && negb (ind =? 0) then
       indirect_table ← read_block ind;
       copy_out (block_pointers indirect_table) (buf request) bytes_read bytes_to_read;;
       mret tt
     else mret tt);;
    mret 0
  end.

(** ** Writing *)
(** the data block for bytes [i * BLOCK_SIZE ...] of the source buffer: the last
    one is filled up with zeros *)
Definition data_block (m : mem) (src size blocks_needed i : Z) : res (list Z) :=
  let copy_sz := if i =? blocks_needed - 1 then size mod BLOCK_SIZE else BLOCK_SIZE in
  let copy_sz := if copy_sz =? 0 then BLOCK_SIZE else copy_sz in
  splice 0 (mem_load m (ptr (src + i * BLOCK_SIZE)) (Z.to_nat copy_sz)) (zeros 512).

Definition write_data (request : EXT2DriverRequest) (blocks_needed i blk : Z) : FSM unit :=
  m ← gets fs_mem;
  data ← lift (data_block m (buf request) (buffer_size request) blocks_needed i);
  write_block data blk.

(** [for (i = 0; i < blocks_needed && i < 12; i++)]; [k] counts [12 - i] *)
Fixpoint write_direct (k : nat) (request : EXT2DriverRequest) (blocks_needed i : Z)
    (node : EXT2Inode) : FSM EXT2Inode :=
  match k with
  | O => mret node
  | S k =>
    if i <? blocks_needed then
      blk ← allocate_block;
      if blk =? 0 then mret node else
      write_data request blocks_needed i blk;;
      write_direct k request blocks_needed (i + 1) (count_block (set_block (Z.to_nat i) blk node))
    else mret node
  end.

(** [for (i = 12; i < blocks_needed && i - 12 < 128; i++)]; [k] counts [140 - i] *)
Fixpoint write_indirect (k : nat) (request : EXT2DriverRequest) (blocks_needed i : Z)
    (indirect_table : list Z) (node : EXT2Inode) : FSM (list Z * EXT2Inode) :=
  match k with
  | O => mret (indirect_table, node)
  | S k =>
    if i <? blocks_needed then
      blk ← allocate_block;
      if blk =? 0 then mret (indirect_table, node) else
      indirect_table ← lift (st 4 indirect_table ((i - 12) * 4) blk);
      write_data request blocks_needed i blk;;
      write_indirect k request blocks_needed (i + 1) indirect_table (count_block node)
    else mret (indirect_table, node)
  end.

Definition write_file_blocks (request : EXT2DriverRequest) (node : EXT2Inode) : FSM EXT2Inode :=
  let blocks_needed := u32 (buffer_size request + BLOCK_SIZE - 1) / BLOCK_SIZE in
  node ← write_direct 12 request blocks_needed 0 node;
  if 12 <? blocks_needed then
    indirect_blk ← allocate_block;
    if indirect_blk =? 0 then mret node else
    let node := count_block (set_block 12 indirect_blk node) in
    r ← write_indirect 128 request blocks_needed 12 (zeros 512) node;
    write_block r.1 indirect_blk;;
    mret r.2
  else mret node.

Definition write_dir_block (request : EXT2DriverRequest) (new_inode_num : Z)
    (node : EXT2Inode) : FSM EXT2Inode :=
  blk ← allocate_block;
  if blk =? 0 then mret node else
  let node := set_size BLOCK_SIZE (set_blocks (BLOCK_SIZE / 512) (set_block 0 blk node)) in
  dirdata ← lift (dot_block new_inode_num (parent_inode request));
  write_block dirdata blk;;
  mret node.

Definition write (request : EXT2DriverRequest) : FSM Z :=
  init ← gets g_filesystem_initialized;
  if negb init then mret (-1) else
  if parent_inode request =? 0 then mret 2 else
  name ← request_name request;
  found ← find_entry_in_dir (parent_inode request) name;
  if negb (found =? 0) then mret 1 else
  new_inode_num ← allocate_node;
  if new_inode_num =? 0 then mret (-1) else
  let node := new_inode (is_directory request) (buffer_size request) in
  node ← (if negb (is_directory request) && (0 <? buffer_size request)
          then write_file_blocks request node
          else if is_directory request then write_dir_block request new_inode_num node
          else mret node);
  write_inode new_inode_num node;;
  let type := if is_directory request then EXT2_FT_DIR else EXT2_FT_REG_FILE in
  ok ← add_entry_to_dir (parent_inode request) new_inode_num name type;
  mret (if ok : bool then 0 else -1).

(** ** Deleting *)
Fixpoint empty_blocks (bs : list Z) (first : bool) : FSM bool :=
  match bs with
  | [] => mret true
  | lba :: bs =>
    if lba =? 0 then mret true else
    buf ← read_block lba;
    offset ← lift (if first then get_dir_first_child_offset buf else Ok 0);
    live ← lift (live_scan scan_fuel buf offset);
    if live : bool then mret false else empty_blocks bs false
  end.

Definition is_directory_empty (inode : Z) : FSM bool :=
  on ← read_inode inode;
  match on with
  | None => mret true
  | Some dir_inode =>
    if negb (is_dir_mode dir_inode) then mret true else
    empty_blocks (take 12 (i_block dir_inode)) true
  end.

Definition delete (request : EXT2DriverRequest) : FSM Z :=
  init ← gets g_filesystem_initialized;
  if negb init then mret (-1) else
  if parent_inode request =? 0 then mret 3 else
  if (name request =? 0) || (name_len request =? 0) then mret (-1) else
  name ← request_name request;
  target_inode_num ← find_entry_in_dir (parent_inode request) name;
  if target_inode_num =? 0 then mret 1 else
  on ← read_inode target_inode_num;
  match on with
  | None => mret (-1)
  | Some target_inode =>
    let is_dir := is_dir_mode target_inode in
    refused ← (if is_directory request then
                 if negb is_dir then mret 1 else
                 empty ← is_directory_empty target_inode_num;
                 mret (if empty : bool then 0 else 2)
               else mret (if is_dir then 1 else 0));
    if negb (refused =? 0) then mret refused else
    ok ← remove_entry_from_dir (parent_inode request) name;
    if negb ok then mret (-1) else
    deallocate_node target_inode_num;;
    mret 0
  end.

(** [stat(name, name_len, parent, size_out, is_dir_out)]: the answer and, for
    success, the two values stored through the non-null pointers *)
Definition stat (name_ptr name_len parent_inode : Z) : FSM (Z * option (Z * bool)) :=
  init ← gets g_filesystem_initialized;
  if negb init then mret (-1, None) else
  if (parent_inode =? 0) || (name_ptr =? 0) || (name_len =? 0) then mret (-1, None) else
  name ← gets (fun s => mem_load (fs_mem s) name_ptr (Z.to_nat name_len));
  inode_num ← find_entry_in_dir parent_inode name;
  if inode_num =? 0 then mret (1, None) else
  on ← read_inode inode_num;
  match on with
  | None => mret (-1, None)
  | Some inode => mret (0, Some (i_size inode, is_dir_mode inode))
  end.
End Ext2.
