(* ===== verification/Ext2Format.v ===== *)
(** * Formatting and mounting

    [create_ext2] turns any storage into a volume that satisfies the invariant,
    with an empty root directory; [initialize_filesystem_ext2] recognises such a
    volume and reloads its cached metadata. *)

From S2P Require Import Prelude Bitmap StdString BlockDevice Ext2Layout Ext2Dir Ext2State Ext2 Ext2Inv.

(** the two entries of the root directory *)
Definition root_entries : list dentry := dot_entries ROOT_INODE_NO ROOT_INODE_NO.

Definition fresh_block_bitmap : list Z := repeat 255 2 ++ [63] ++ zeros 509.
Definition fresh_inode_bitmap : list Z := [255; 7] ++ zeros 510.

Lemma fresh_block_bitmap_eq :
  set_bits (Z.to_nat (ROOT_DIR_BLOCK_LBA + 1)) 0 (zeros 512) = Ok fresh_block_bitmap.
Proof. by vm_compute. Qed.
Lemma fresh_inode_bitmap_eq :
  set_bits (Z.to_nat INITIAL_USED_INODES) 0 (zeros 512) = Ok fresh_inode_bitmap.
Proof. by vm_compute. Qed.

Lemma root_block_eq : root_block = Ok (dir_bytes root_entries).
Proof. by vm_compute. Qed.

(** decidable facts about concrete buffers *)
Lemma BlockBuffer_ok_compute b :
  (length b =? 512)%nat && forallb (fun x => (0 <=? x) && (x <? 256)) b = true -> BlockBuffer_ok b.
Proof.
  intros [Hl Hb]%andb_true_iff. apply Nat.eqb_eq in Hl. split; [rw Hl; done|].
  apply Forall_forall. intros x Hx. rw forallb_forall in Hb.
  specialize (Hb x (proj1 (list_elem_of_In _ _) Hx)). lia.
Qed.
Lemma bits_compute b n m : forallb (fun i => bit b i) (seqZ 0 n) = true -> 0 <= m < n -> bit b m = true.
Proof.
  intros Hb Hm. rw forallb_forall in Hb. apply Hb, list_elem_of_In, elem_of_seqZ. lia.
Qed.

Lemma root_dir_block : dir_block (dir_bytes root_entries) root_entries.
Proof.
  split; [done|]. split; [done|]. by apply dot_entries_ok.
Qed.

Lemma new_superblock_ok : EXT2Superblock_ok new_superblock.
Proof.
  split; [by repeat constructor|]. split; [done|]. split; [done|].
  apply bytes_ok_app; split; [|apply bytes_ok_app; split]; apply bytes_ok_zeros.
Qed.
Lemma new_bgd_ok : EXT2BlockGroupDescriptor_ok new_bgd.
Proof. split; [by repeat constructor|done]. Qed.
Lemma root_inode_ok : EXT2Inode_ok root_inode.
Proof.
  split; [by repeat constructor|]. split; [done|]. split; [done|].
  by repeat constructor.
Qed.

Section Ext2Format.
Context {PW : PtrWidth} {D : Type} `{BlockDeviceLaws D} `{StackJunkLaws} `{Overrun D}.
Implicit Types s : FS D.

Lemma write_many_spec n b l s : dev_ok (fs_dev s) -> BlockBuffer_ok b -> 0 <= l ->
  l + Z.of_nat n <= 8192 ->
  wp (write_many n b l) (fun _ s' => evolve (seqZ l (Z.of_nat n)) s s' /\ meta_same s s' /\
    forall k, l <= k < l + Z.of_nat n -> blk s' k = b) s.
Proof.
  revert l s. induction n as [|n IH] => l s Hd Hb Hl Hn.
  { apply wp_ret. split; [by apply evolve_refl|]. split; [done|lia]. }
  cbn [write_many]. apply wp_bind.
  eapply wp_mono; [apply write_block_spec; [done|lia|done]|]. intros [] s1 (Ev1 & E1 & M1).
  have Hd1 : dev_ok (fs_dev s1) by destruct Ev1.
  eapply wp_mono; [apply IH; [done|done|lia|lia]|]. intros [] s2 (Ev2 & M2 & E2).
  split; [|split; [by eapply meta_same_trans|]].
  - eapply evolve_trans; [exact Ev1|exact Ev2|]. intros k. rw elem_of_app list_elem_of_singleton !elem_of_seqZ. lia.
  - intros k Hk. destruct (decide (k = l)) as [->|].
    + rewrite -> (ev_blk _ _ _ Ev2); [done|]. rw elem_of_seqZ. lia.
    + apply E2. lia.
Qed.

(** the state after formatting *)
Record formatted s : Prop := {
  fm_inv : fs_inv s;
  fm_sb : _ext2_superblock_state s = new_superblock;
  fm_boot : blk s BOOT_SECTOR = fs_signature;
  fm_root : inode_at s ROOT_INODE_NO = root_inode;
  fm_others n : 1 <= n <= INODES_PER_GROUP -> n <> ROOT_INODE_NO -> inode_at s n = zero_inode;
  fm_dir : dir_block (blk s ROOT_DIR_BLOCK_LBA) root_entries;
  fm_block_bitmap : block_bitmap s = fresh_block_bitmap;
  fm_inode_bitmap : inode_bitmap s = fresh_inode_bitmap;
  fm_free_blocks : free_blocks s = BLOCKS_PER_GROUP - INITIAL_USED_BLOCKS;
  fm_free_inodes : free_inodes s = INODES_PER_GROUP - INITIAL_USED_INODES;
}.

(** one block write of the sequence, with everything it leaves alone *)
Lemma write_step s l b (Q : unit -> FS D -> Prop) :
  dev_ok (fs_dev s) -> 0 <= l < 8192 -> BlockBuffer_ok b ->
  (forall s', dev_ok (fs_dev s') -> blk s' l = b -> (forall l', l' <> l -> blk s' l' = blk s l') ->
    meta_same s s' -> fs_mem s' = fs_mem s -> Q tt s') -> wp (write_block b l) Q s.
Proof.
  intros Hd Hl Hb HQ. eapply wp_mono; [by apply write_block_spec|]. intros [] s' (Ev & E & M).
  destruct Ev as [Hd' _ Hm Hf]. apply HQ; try done. intros l' Hne. apply Hf. by rw list_elem_of_singleton.
Qed.

Lemma zero_table_inode s n : 1 <= n <= INODES_PER_GROUP -> blk s (inode_lba n) = zeros 512 ->
  inode_at s n = zero_inode.
Proof.
  intros Hn E. have Ho := inode_off_range n. rw /inode_at /inode_raw E.
  rw /zeros drop_replicate take_replicate.
  by have -> : (128 `min` (512 - Z.to_nat (inode_off n)) = 128)%nat by lia.
Qed.

Lemma fresh_meta_buffers :
  exists b1 b2, splice 0 (EXT2Superblock_bytes new_superblock) (zeros 512) = Ok b1 /\
    BlockBuffer_ok b1 /\ take 204 b1 = EXT2Superblock_bytes new_superblock /\
    splice 0 (EXT2BlockGroupDescriptor_bytes new_bgd) (zeros 512) = Ok b2 /\
    BlockBuffer_ok b2 /\ take 32 b2 = EXT2BlockGroupDescriptor_bytes new_bgd.
Proof.
  destruct (splice_prefix (EXT2Superblock_bytes new_superblock) (zeros 512)) as (b1 & E1 & T1 & L1);
    [vm_compute; lia|].
  destruct (splice_prefix (EXT2BlockGroupDescriptor_bytes new_bgd) (zeros 512)) as (b2 & E2 & T2 & L2);
    [vm_compute; lia|].
  exists b1, b2. split; [done|]. split.
  { eapply BlockBuffer_ok_splice; [done|apply EXT2Superblock_bytes_ok, new_superblock_ok|apply BlockBuffer_ok_zeros]. }
  split; [done|]. split; [done|]. split; [|done].
  eapply BlockBuffer_ok_splice; [done|apply EXT2BlockGroupDescriptor_bytes_ok|apply BlockBuffer_ok_zeros].
Qed.

Lemma formatted_intro s : dev_ok (fs_dev s) -> g_filesystem_initialized s = true ->
  _ext2_superblock_state s = new_superblock -> _ext2_bgdt_state s = new_bgdt ->
  blk s BOOT_SECTOR = fs_signature ->
  take 204 (blk s SUPERBLOCK_LBA) = EXT2Superblock_bytes new_superblock ->
  take 32 (blk s BGDT_LBA) = EXT2BlockGroupDescriptor_bytes new_bgd ->
  block_bitmap s = fresh_block_bitmap -> inode_bitmap s = fresh_inode_bitmap ->
  inode_at s ROOT_INODE_NO = root_inode ->
  (forall n, 1 <= n <= INODES_PER_GROUP -> n <> ROOT_INODE_NO -> inode_at s n = zero_inode) ->
  blk s ROOT_DIR_BLOCK_LBA = dir_bytes root_entries -> formatted s.
Proof.
  intros Hd Hi Esb Ebg Hboot Ht1 Ht2 Hbb Hib Hr Ho Hdir.
  have Eg : group0 s = new_bgd by rw /group0 Ebg.
  constructor; rw /free_blocks /free_inodes ?Eg; try done; [|by rw Hdir; apply root_dir_block].
  constructor; rw ?Esb ?Eg //. constructor; rw /free_blocks /free_inodes ?Esb ?Eg ?Ebg ?Hbb ?Hib; try done.
  - apply new_superblock_ok.
  - apply new_bgd_ok.
  - intros i Hi'. by apply (bits_compute fresh_block_bitmap (ROOT_DIR_BLOCK_LBA + 1)); [vm_compute|lia].
  - intros i Hi'. by apply (bits_compute fresh_inode_bitmap EXT2_GOOD_OLD_FIRST_INO); [vm_compute|].
Qed.

Lemma create_ext2_spec s : dev_ok (fs_dev s) ->
  wp create_ext2 (fun _ s' => formatted s' /\ fs_mem s' = fs_mem s) s.
Proof.
  intros Hd. destruct fresh_meta_buffers as (b1 & b2 & S1 & B1 & T1 & S2 & B2 & T2).
  rw /create_ext2. apply wp_bind, write_step; [done|done|by apply BlockBuffer_ok_compute|].
  intros s1 Hd1 Eb1 F1 M1 Hm1. apply wp_bind, wp_modify, wp_bind.
  eapply wp_lift; [exact S1|]. apply wp_bind, write_step; [done|done|done|].
  intros s2 Hd2 Eb2 F2 [M2 _] Hm2. cbn in M2.
  change (forall l, l <> SUPERBLOCK_LBA -> blk s2 l = blk s1 l) in F2. apply wp_bind, wp_modify, wp_bind.
  eapply wp_lift; [exact S2|]. apply wp_bind, write_step; [done|done|done|].
  intros s3 Hd3 Eb3 F3 [M3 M3'] Hm3. cbn in M3, M3'. apply wp_bind.
  change (forall l, l <> BGDT_LBA -> blk s3 l = blk s2 l) in F3.
  eapply wp_lift; [exact fresh_block_bitmap_eq|]. apply wp_bind, write_step; [done|done|by apply BlockBuffer_ok_compute|].
  intros s4 Hd4 Eb4 F4 [M4 M4'] Hm4. apply wp_bind.
  eapply wp_lift; [exact fresh_inode_bitmap_eq|]. apply wp_bind, write_step; [done|done|by apply BlockBuffer_ok_compute|].
  intros s5 Hd5 Eb5 F5 [M5 M5'] Hm5. apply wp_bind.
  eapply wp_mono; [apply write_many_spec; [done|apply BlockBuffer_ok_zeros|done|done]|].
  intros [] s6 (Ev6 & [M6 M6'] & Z6). apply wp_bind.
  have E6 : _ext2_bgdt_state s6 = new_bgdt by congruence.
  have Hd6 : dev_ok (fs_dev s6) by destruct Ev6.
  eapply wp_mono; [apply write_inode_spec; [|done|apply root_inode_ok]|].
  { split; [done|]. by rw /group0 E6. }
  intros [] s7 (Ev7 & [M7 M7'] & Hr & Ho). apply wp_bind.
  eapply wp_lift; [exact root_block_eq|]. apply wp_bind.
  have Hd7 : dev_ok (fs_dev s7) by destruct Ev7.
  apply write_step; [done|done|by apply (dir_block_buffer_ok _ _ root_dir_block)|].
  intros s8 Hd8 Eb8 F8 [M8 M8'] Hm8. apply wp_modify.
  (* every block the later writes leave alone *)
  have Hf l : l <= INODE_BITMAP_LBA -> blk s8 l = blk s5 l.
  { change (inode_lba ROOT_INODE_NO) with 5 in Ev7. geometry. intros Hl. rewrite -> F8, (ev_blk _ _ _ Ev7), (ev_blk _ _ _ Ev6); [done| |notin|geometry; lia].
    rw elem_of_seqZ. geometry. lia. }
  split; [|cbn; cbn in Hm2, Hm3; destruct Ev7, Ev6; congruence].
  have Hin n : 1 <= n <= INODES_PER_GROUP -> inode_at s8 n = inode_at s7 n.
  { intros Hn. have := inode_lba_range n Hn => Hl. rw /inode_at /inode_raw F8 //. lia. }
  have Hr8 : inode_at s8 ROOT_INODE_NO = root_inode by rw Hin.
  have Ho8 n : 1 <= n <= INODES_PER_GROUP -> n <> ROOT_INODE_NO -> inode_at s8 n = zero_inode.
  { intros Hn Hne. rw Hin // Ho //. apply zero_table_inode; [done|]. apply Z6.
    have := inode_lba_range n Hn. change INODES_TABLE_BLOCK_COUNT with 16. geometry. lia. }
  have E0 : blk s8 BOOT_SECTOR = fs_signature by rw Hf // F5 // F4 // F3 // F2.
  have E1 : blk s8 SUPERBLOCK_LBA = b1 by rw Hf // F5 // F4 // F3.
  have E2 : blk s8 BGDT_LBA = b2 by rw Hf // F5 // F4.
  have E3 : blk s8 BLOCK_BITMAP_LBA = fresh_block_bitmap by rw Hf // F5.
  have E4 : blk s8 INODE_BITMAP_LBA = fresh_inode_bitmap by rw Hf.
  have Es : _ext2_superblock_state s8 = new_superblock by congruence.
  have Eg : _ext2_bgdt_state s8 = new_bgdt by congruence.
  apply (formatted_intro (set_init true s8)); try done.
  - by rw -T1 -E1.
  - by rw -T2 -E2.
Qed.

Lemma is_empty_storage_spec s : dev_ok (fs_dev s) ->
  wp is_empty_storage (fun r s' => r = negb (bool_decide (blk s BOOT_SECTOR = fs_signature)) /\ feq s s') s.
Proof.
  intros Hd. rw /is_empty_storage. apply wp_bind.
  eapply wp_mono; [by apply read_block_spec|]. intros _ s1 [-> Hf]. apply wp_bind.
  destruct (blk_ok s BOOT_SECTOR) as [Hl _]; [done|done|]. change BLOCK_SIZE with 512 in *.
  destruct (memcmp_loop_eq 512 0 (list_at (blk s BOOT_SECTOR)) (list_at fs_signature)
    (blk s BOOT_SECTOR) fs_signature) as (r & Er & Hr); [done|lia|done| | |].
  1,2: intros j Hj; rw /list_at Z.add_0_l Nat2Z.id; by destruct (_ !! j).
  eapply wp_lift; [exact Er|]. apply wp_ret. by rw Hr.
Qed.

(** the loads that overrun their structures hit nothing the file system needs: neither the
    disk, nor the memory of the programs, nor the superblock, nor, the second, the table of
    descriptors, which it has just loaded *)
Definition overrun_harmless : Prop :=
  (forall b s, exists s', overrun_superblock b s = Ok s' /\ fs_dev s' = fs_dev s /\ fs_mem s' = fs_mem s /\
    _ext2_superblock_state s' = _ext2_superblock_state s) /\
  (forall b s, exists s', overrun_bgdt b s = Ok s' /\ fs_dev s' = fs_dev s /\ fs_mem s' = fs_mem s /\
    _ext2_superblock_state s' = _ext2_superblock_state s /\ _ext2_bgdt_state s' = _ext2_bgdt_state s).
Lemma wp_stray f s s' (Q : unit -> FS D -> Prop) : f s = Ok s' -> Q tt s' -> wp (stray f) Q s.
Proof. by rw /wp /stray => ->. Qed.

Lemma group0_bgdt_of_bytes b g : EXT2BlockGroupDescriptor_ok g ->
  take 32 b = EXT2BlockGroupDescriptor_bytes g ->
  nth 0 (bgdt_of_bytes (take 256 b)) (EXT2BlockGroupDescriptor_of_bytes []) = g.
Proof.
  intros Hg E. rw /bgdt_of_bytes. change (Z.to_nat GROUPS_COUNT) with 8%nat. cbn [seq map nth].
  rw drop_0 take_take. change (32 `min` 256)%nat with 32%nat. rw E.
  have := EXT2BlockGroupDescriptor_round_trip g [] Hg. by rw app_nil_r.
Qed.

(** mounting: the cached metadata is reloaded from a volume left by [t] *)
Lemma mount_existing s t : dev_ok (fs_dev s) -> overrun_harmless -> fs_inv t ->
  (forall l, blk s l = blk t l) ->
  wp initialize_filesystem_ext2 (fun _ s' => fs_inv s' /\
    _ext2_superblock_state s' = _ext2_superblock_state t /\ group0 s' = group0 t /\
    (forall l, blk s' l = blk t l) /\ fs_mem s' = fs_mem s) s.
Proof.
  intros Hd [Ho1 Ho2] [Hc Hs1 Hs2] Heq. have Hboot := inv_boot _ Hc. have Hmagic := inv_magic _ Hc. rw /initialize_filesystem_ext2. apply wp_bind.
  eapply wp_mono; [by apply is_empty_storage_spec|]. intros r s1 [-> Hf1].
  rewrite -> Heq, Hboot, bool_decide_true by done. cbn [negb].
  have Hd1 : dev_ok (fs_dev s1) by destruct Hf1 as [[]]. apply wp_bind.
  eapply wp_mono; [by apply read_block_spec|]. intros b1 s2 [-> Hf2].
  have Hd2 : dev_ok (fs_dev s2) by destruct Hf2 as [[]].
  have E12 l : blk s2 l = blk t l by rw (feq_blk _ _ _ Hf2) (feq_blk _ _ _ Hf1) Heq.
  have Em2 : fs_mem s2 = fs_mem s by destruct Hf2 as [[_ _ Hm2 _] _], Hf1 as [[_ _ Hm1 _] _]; congruence.
  apply wp_bind, wp_modify, wp_bind.
  match goal with |- wp _ _ ?x => destruct (Ho1 (drop 204 (blk s1 SUPERBLOCK_LBA)) x) as (s3 & Eo1 & Ed3 & Em3 & Es3) end.
  eapply wp_stray; [exact Eo1|]. cbn in Ed3, Em3, Es3. apply wp_bind.
  have E3 l : blk s3 l = blk t l by rw -E12 /blk Ed3.
  eapply wp_mono; [by apply read_block_spec; [rw Ed3|]|]. intros b2 s4 [-> Hf4].
  have E4 l : blk s4 l = blk t l by rw (feq_blk _ _ _ Hf4) E3.
  have Em4 : fs_mem s4 = fs_mem s by destruct Hf4 as [[_ _ Hm4 _] _]; congruence.
  apply wp_bind, wp_modify, wp_bind.
  match goal with |- wp _ _ ?x => destruct (Ho2 (drop 256 (blk s3 BGDT_LBA)) x) as (s5 & Eo2 & Ed5 & Em5 & Es5 & Eb5) end.
  eapply wp_stray; [exact Eo2|]. cbn in Ed5, Em5, Es5, Eb5. apply wp_bind, wp_gets.
  have Esb : _ext2_superblock_state s5 = _ext2_superblock_state t.
  { rw Es5. destruct Hf4 as [_ [-> _]]. rw Es3 (feq_blk _ _ _ Hf1) Heq Hs1.
    have := EXT2Superblock_round_trip _ [] (inv_sb _ Hc). by rw app_nil_r. }
  rw Esb Hmagic Z.eqb_refl. apply wp_modify.
  have Eg : group0 s5 = group0 t by rw /group0 Eb5 E3; apply group0_bgdt_of_bytes; [by destruct Hc|].
  have E5 l : blk s5 l = blk t l by rw -E4 /blk Ed5.
  match goal with |- fs_inv ?x /\ _ => set (s' := x) end.
  have Eg' : group0 s' = group0 t by exact Eg. have Eb l : blk s' l = blk t l by apply E5.
  have Es' : _ext2_superblock_state s' = _ext2_superblock_state t by exact Esb.
  have El : length (_ext2_bgdt_state s') = Z.to_nat GROUPS_COUNT by change (length (_ext2_bgdt_state s5) = Z.to_nat GROUPS_COUNT); rw Eb5.
  split; [|split; [done|split; [done|split; [done|]]]]; [|by rw /= Em5].
  destruct Hc. constructor; rw ?Eb ?Eg' ?Es' //. constructor;
    rw /free_blocks /free_inodes /block_bitmap /inode_bitmap ?Eb ?Eg' ?Es'; try done.
  change (dev_ok (fs_dev s5)). rw Ed5. by destruct Hf4 as [[]].
Qed.

(** in the strict reading of C the same mount is undefined *)
Lemma mount_overrun_undefined s : dev_ok (fs_dev s) -> blk s BOOT_SECTOR = fs_signature ->
  (forall b s', overrun_superblock b s' = UB) -> initialize_filesystem_ext2 s = UB.
Proof.
  intros Hd Hb Hub. rw /initialize_filesystem_ext2 /mbind /M_bind.
  destruct (wp_elim _ _ _ (is_empty_storage_spec s Hd)) as (e & s1 & -> & -> & Hf1).
  rewrite -> bool_decide_true by done. cbn [negb]. have Hd1 : dev_ok (fs_dev s1) by destruct Hf1 as [[]].
  destruct (wp_elim _ _ _ (read_block_spec s1 SUPERBLOCK_LBA Hd1 ltac:(done))) as (b & s2 & -> & _).
  by rw /modify /stray Hub.
Qed.

Lemma mount_fresh s : dev_ok (fs_dev s) -> blk s BOOT_SECTOR <> fs_signature ->
  wp initialize_filesystem_ext2 (fun _ s' => formatted s' /\ fs_mem s' = fs_mem s) s.
Proof.
  intros Hd Hne. rw /initialize_filesystem_ext2. apply wp_bind.
  eapply wp_mono; [by apply is_empty_storage_spec|]. intros r s1 [-> Hf].
  rewrite -> bool_decide_false by done. cbn [negb]. apply wp_bind.
  destruct Hf as [[Hd1 _ Hm _] _].
  eapply wp_mono; [by apply create_ext2_spec|]. intros [] s2 [Hfm Hm2]. apply wp_modify.
  cbn. split; [|congruence]. destruct Hfm as [[[] ? ?]]. by constructor.
Qed.
End Ext2Format.
