(* ===== verification/Ext2Files.v ===== *)
(** * Directories and files as abstract values

    [dir_at] views a directory inode as the lists of entries of its blocks,
    [file_at] a regular file as its bytes; the operations of [Ext2.v] refine
    look-up, insertion and removal of entries and the copying of bytes. *)

From S2P Require Import Prelude Bitmap StdString BlockDevice Ext2Layout Ext2Dir Ext2State Ext2 Ext2Inv.

(** [i_block[0..11]] is [bs] followed by zeros *)
Definition prefix12 (node : EXT2Inode) (bs : list Z) : Prop :=
  (length bs <= 12)%nat /\ take 12 (i_block node) = bs ++ replicate (12 - length bs) 0 /\
  Forall (fun b => ROOT_DIR_BLOCK_LBA <= b < BLOCKS_PER_GROUP) bs.

(** insertion into the first block with room, and removal, over several blocks *)
Fixpoint dirs_insert (ess : list (list dentry)) (ino : Z) (name : list Z) (ft : Z)
    : option (list (list dentry)) :=
  match ess with
  | [] => None
  | es :: ess =>
    match dir_insert es ino name ft with
    | Some es' => Some (es' :: ess)
    | None => (es ::.) <$> dirs_insert ess ino name ft
    end
  end.
Fixpoint dirs_remove (ess : list (list dentry)) (name : list Z) : option (list (list dentry)) :=
  match ess with
  | [] => None
  | es :: ess =>
    match dir_remove es name with
    | Some es' => Some (es' :: ess)
    | None => (es ::.) <$> dirs_remove ess name
    end
  end.

(** the arguments of a new entry fit its members *)
Definition entry_args (ino : Z) (name : list Z) (ft : Z) : Prop :=
  0 <= ino < 2 ^ 32 /\ len name < 256 /\ bytes_ok name /\ 0 <= ft < 256.

(** ** Inode updates keep the widths *)
Lemma set_block_ok i b node : EXT2Inode_ok node -> 0 <= b < 2 ^ 32 -> EXT2Inode_ok (set_block i b node).
Proof.
  intros (Hf & Hl & Hr) Hb. split; [|split; [cbn; by rw length_insert|done]].
  move: Hf. rw /EXT2Inode_fields. cbn [set_block i_mode i_uid i_size i_atime i_ctime i_mtime i_dtime
    i_gid i_links_count i_blocks i_flags i_osd1 i_block i_generation i_file_acl i_dir_acl i_faddr].
  rw !Forall_app. intros (? & Hm & ?). split; [done|]. split; [|done].
  rw Forall_map. apply Forall_insert; [by rw Forall_map in Hm|done].
Qed.
Lemma set_blocks_ok n node : EXT2Inode_ok node -> 0 <= n < 2 ^ 32 -> EXT2Inode_ok (set_blocks n node).
Proof.
  intros (Hf & Hr) Hn. split; [|exact Hr].
  by apply (Forall_insert in_width (EXT2Inode_fields node) 9 (4%nat, n)).
Qed.
Lemma set_size_ok n node : EXT2Inode_ok node -> 0 <= n < 2 ^ 32 -> EXT2Inode_ok (set_size n node).
Proof.
  intros (Hf & Hr) Hn. split; [|exact Hr].
  by apply (Forall_insert in_width (EXT2Inode_fields node) 2 (4%nat, n)).
Qed.
Lemma count_block_ok node : EXT2Inode_ok node -> EXT2Inode_ok (count_block node).
Proof. intros. apply set_blocks_ok; [done|apply u32_range]. Qed.
Lemma new_inode_ok d n : d = true \/ 0 <= n < 2 ^ 32 -> EXT2Inode_ok (new_inode d n).
Proof.
  intros Hn. have Hz : EXT2Inode_ok (new_inode d 0).
  { split; [destruct d; by repeat constructor|]. split; [done|]. split; [done|]. apply (bytes_ok_zeros 12). }
  destruct d; [done|]. destruct Hn as [|Hn]; [done|]. exact (set_size_ok n _ Hz ltac:(lia)).
Qed.

Lemma prefix12_blocks node node' bs : i_block node' = i_block node -> prefix12 node bs -> prefix12 node' bs.
Proof. by rw /prefix12 => ->. Qed.
Lemma prefix12_grow node bs b : length (i_block node) = 15%nat -> prefix12 node bs ->
  (length bs < 12)%nat -> ROOT_DIR_BLOCK_LBA <= b < BLOCKS_PER_GROUP ->
  prefix12 (set_block (length bs) b node) (bs ++ [b]).
Proof.
  intros Hl (Hb & Hp & Hr) Hlt Hbr. rw /prefix12 length_app. cbn [length].
  split; [lia|]. split; [|by apply Forall_app; split; [|constructor]].
  cbn [set_block i_block]. rewrite -> take_insert_lt by lia. rw Hp.
  have -> : (12 - length bs = S (12 - (length bs + 1)))%nat by lia. cbn [replicate].
  rw insert_app_r_alt // Nat.sub_diag -app_assoc. done.
Qed.

Section Ext2Files.
Context {PW : PtrWidth} {D : Type} `{BlockDeviceLaws D} `{StackJunkLaws}.
Implicit Types s : FS D.

Definition dir_blocks s (bs : list Z) (ess : list (list dentry)) : Prop :=
  Forall2 (fun b es => dir_block (blk s b) es) bs ess.

Record dir_at s (n : Z) (bs : list Z) (ess : list (list dentry)) : Prop := {
  da_num : 1 <= n <= INODES_PER_GROUP;
  da_mode : is_dir_mode (inode_at s n) = true;
  da_ptrs : prefix12 (inode_at s n) bs;
  da_nodup : NoDup bs;
  da_blocks : dir_blocks s bs ess;
}.

Lemma dir_blocks_frame ws s s' bs ess : dir_blocks s bs ess -> evolve ws s s' ->
  (forall b, b ∈ bs -> b ∉ ws) -> dir_blocks s' bs ess.
Proof.
  intros Hb Ev Hws. apply Forall2_same_length_lookup_2; [by eapply Forall2_length|].
  intros i b es Hbi Hesi. rewrite -> (ev_blk _ _ _ Ev) by (apply Hws; by eapply list_elem_of_lookup_2).
  eapply (Forall2_lookup_lr _ _ _ _ _ _ Hb); done.
Qed.

Lemma prefix12_range node bs b : prefix12 node bs -> b ∈ bs -> 21 <= b < 256.
Proof. intros (_ & _ & Hf) Hb. rewrite -> Forall_forall in Hf. apply Hf in Hb. geometry. lia. Qed.

Lemma dir_at_frame ws s s' n bs ess : dir_at s n bs ess -> evolve ws s s' ->
  inode_at s' n = inode_at s n -> (forall b, b ∈ bs -> b ∉ ws) -> dir_at s' n bs ess.
Proof. intros [] Ev Ei Hws. constructor; rw ?Ei; try done. by eapply dir_blocks_frame. Qed.

(** ** Look-up *)
Lemma find_blocks_spec s bs ess name k : dev_ok (fs_dev s) ->
  Forall (fun b => ROOT_DIR_BLOCK_LBA <= b < BLOCKS_PER_GROUP) bs -> dir_blocks s bs ess ->
  wp (find_blocks (bs ++ replicate k 0) name)
    (fun r s' => r = dir_lookup (concat ess) name /\ feq s s') s.
Proof.
  intros Hd Hbs Hes. revert ess s Hd Hes. induction Hbs as [|b bs Hb Hbs IH] => ess s Hd Hes.
  { apply Forall2_nil_inv_l in Hes as ->. destruct k; (apply wp_ret; split; [done|]);
      (split; [by apply evolve_refl|done]). }
  inversion Hes as [|? es ? ess' Hes1 Hes2]; subst. cbn [app find_blocks].
  rewrite -> (proj2 (Z.eqb_neq b 0)) by (geometry; lia). apply wp_bind.
  eapply wp_mono; [apply read_block_spec; [done|geometry; lia]|]. intros _ s1 [-> Hf].
  apply wp_bind. eapply wp_lift; [by apply find_block|].
  cbn [concat]. rw dir_lookup_app. destruct (Z.eqb_spec (dir_lookup es name) 0) as [E|E].
  - eapply wp_mono; [apply IH; [by destruct Hf as [[]]|]|].
    + eapply dir_blocks_frame; [done|apply Hf|]. intros ? _. apply not_elem_of_nil.
    + intros r s2 [-> Hf2]. split; [done|].
      destruct Hf as [Ev1 M1], Hf2 as [Ev2 M2]. split; [by eapply evolve_trans|by eapply meta_same_trans].
  - by apply wp_ret.
Qed.

Lemma feq_trans s1 s2 s3 : feq s1 s2 -> feq s2 s3 -> feq s1 s3.
Proof. intros [Ev1 M1] [Ev2 M2]. split; [by eapply evolve_trans|by eapply meta_same_trans]. Qed.
Lemma feq_inode s s' n : feq s s' -> inode_at s' n = inode_at s n.
Proof. intros [Ev _]. apply (inode_at_frame _ _ _ _ Ev), not_elem_of_nil. Qed.
Lemma feq_dir_at s s' n bs ess : feq s s' -> dir_at s n bs ess -> dir_at s' n bs ess.
Proof.
  intros Hf Hda. eapply dir_at_frame; [done|apply Hf|by apply feq_inode|]. intros ? _. apply not_elem_of_nil.
Qed.
Lemma feq_dev s s' : feq s s' -> dev_ok (fs_dev s').
Proof. by intros [[]]. Qed.

Lemma find_entry_in_dir_spec s n bs ess name : table_ok s -> dir_at s n bs ess ->
  wp (find_entry_in_dir n name) (fun r s' => r = dir_lookup (concat ess) name /\ feq s s') s.
Proof.
  intros Ht Hda. rw /find_entry_in_dir. apply wp_bind.
  eapply wp_mono; [apply read_inode_spec; [done|by destruct Hda]|]. intros _ s1 [-> Hf].
  destruct (feq_dir_at _ _ _ _ _ Hf Hda) as [Hn Hm (Hl & Hp & Hr) Hnd Hb]. cbv beta iota.
  rw -(feq_inode _ _ n Hf) Hm Hp. cbn [negb].
  eapply wp_mono; [apply find_blocks_spec; [by eapply feq_dev|done|done]|].
  intros r s2 [-> Hf2]. split; [done|by eapply feq_trans].
Qed.

(** ** Insertion *)
Lemma write_dir_entry_block s b buf es bs ess : dev_ok (fs_dev s) -> NoDup (b :: bs) ->
  ROOT_DIR_BLOCK_LBA <= b < BLOCKS_PER_GROUP -> dir_block buf es -> dir_blocks s bs ess ->
  wp (write_block buf b;; mret true)
    (fun ok s' => ok = true /\ evolve [b] s s' /\ meta_same s s' /\ dir_blocks s' (b :: bs) (es :: ess)) s.
Proof.
  intros Hd [Hnin _]%NoDup_cons Hb Hbuf Hbs. apply wp_bind.
  eapply wp_mono; [apply write_block_spec; [done|geometry; lia|by eapply dir_block_buffer_ok]|].
  intros [] s' (Ev & E & M). apply wp_ret. split; [done|]. split; [done|]. split; [done|].
  constructor; [by rw E|]. eapply dir_blocks_frame; [done..|]. intros b' Hb' ->%list_elem_of_singleton. done.
Qed.

Lemma add_blocks_insert s p node i bs ess ess' rest ino name ft :
  entry_args ino name ft -> dev_ok (fs_dev s) -> NoDup bs ->
  Forall (fun b => ROOT_DIR_BLOCK_LBA <= b < BLOCKS_PER_GROUP) bs -> dir_blocks s bs ess ->
  dirs_insert ess ino name ft = Some ess' ->
  wp (add_blocks p node i (bs ++ rest) ino name ft)
    (fun ok s' => ok = true /\ evolve bs s s' /\ meta_same s s' /\ dir_blocks s' bs ess') s.
Proof.
  intros (Hi & Hn & Hnb & Hft) Hd Hnd Hbs Hes. revert i ess ess' s Hd Hes.
  induction Hbs as [|b bs Hb Hbs IH] => i ess ess' s Hd Hes.
  { by apply Forall2_nil_inv_l in Hes as ->. }
  inversion Hes as [|? es ? ess1 Hes1 Hes2]; subst. cbn [app add_blocks dirs_insert].
  rewrite -> (proj2 (Z.eqb_neq b 0)) by (geometry; lia). intros Hins. apply wp_bind.
  eapply wp_mono; [apply read_block_spec; [done|geometry; lia]|]. intros _ s1 [-> Hf].
  have Hd1 := feq_dev _ _ Hf. apply wp_bind. have Hadd := add_block _ _ ino name ft Hes1 Hi Hn Hnb Hft.
  have Hbs1 : dir_blocks s1 bs ess1.
  { eapply dir_blocks_frame; [done|apply Hf|]. intros ? _. apply not_elem_of_nil. }
  destruct (dir_insert es ino name ft) as [es'|].
  - injection Hins as <-. destruct Hadd as (buf & Eb & Hbuf). eapply wp_lift; [exact Eb|]. cbv iota beta.
    eapply wp_mono; [by apply (write_dir_entry_block s1 b buf es' bs ess1)|].
    intros ok s2 (-> & Ev & M & Hb2). split; [done|].
    split; [eapply evolve_trans; [apply Hf|done|incl]|]. split; [|done]. eapply meta_same_trans; [apply Hf|done].
  - eapply wp_lift; [exact Hadd|]. cbv iota beta. destruct (dirs_insert ess1 ino name ft) as [ess1'|] eqn:E; [|done].
    injection Hins as <-. apply NoDup_cons in Hnd as [Hnin Hnd].
    eapply wp_mono; [by apply (IH Hnd (S i) ess1 ess1')|]. intros ok s2 (-> & Ev & M & Hb2).
    split; [done|]. split; [eapply evolve_trans; [apply Hf|done|incl]|].
    split; [eapply meta_same_trans; [apply Hf|done]|]. constructor; [|done].
    by rewrite -> (ev_blk _ _ _ Ev), (feq_blk _ _ _ Hf) by done.
Qed.

Lemma add_blocks_full s p node i bs ess rest ino name ft Q :
  entry_args ino name ft -> dev_ok (fs_dev s) ->
  Forall (fun b => ROOT_DIR_BLOCK_LBA <= b < BLOCKS_PER_GROUP) bs -> dir_blocks s bs ess ->
  dirs_insert ess ino name ft = None ->
  (forall s', feq s s' -> wp (add_blocks p node (i + length bs) rest ino name ft) Q s') ->
  wp (add_blocks p node i (bs ++ rest) ino name ft) Q s.
Proof.
  intros (Hi & Hn & Hnb & Hft) Hd Hbs Hes. revert i ess s Hd Hes.
  induction Hbs as [|b bs Hb Hbs IH] => i ess s Hd Hes.
  { intros _ HQ. cbn [app length] in HQ |- *. rw Nat.add_0_r in HQ. apply HQ. split; [by apply evolve_refl|done]. }
  inversion Hes as [|? es ? ess1 Hes1 Hes2]; subst. cbn [app add_blocks dirs_insert].
  rewrite -> (proj2 (Z.eqb_neq b 0)) by (geometry; lia). intros Hins HQ. apply wp_bind.
  eapply wp_mono; [apply read_block_spec; [done|geometry; lia]|]. intros _ s1 [-> Hf].
  apply wp_bind. have Hadd := add_block _ _ ino name ft Hes1 Hi Hn Hnb Hft.
  destruct (dir_insert es ino name ft) as [es'|]; [done|].
  eapply wp_lift; [exact Hadd|]. cbv iota beta. destruct (dirs_insert ess1 ino name ft) as [ess1'|] eqn:E; [done|].
  apply (IH (S i) ess1); [by eapply feq_dev| |done|].
  - eapply dir_blocks_frame; [done|apply Hf|]. intros ? _. apply not_elem_of_nil.
  - intros s2 Hf2. have -> : (S i + length bs = i + length (b :: bs))%nat by (cbn [length]; lia). apply HQ. by eapply feq_trans.
Qed.

(** [add_entry_to_dir] when some block has room *)
Lemma add_entry_insert_spec s n bs ess ess' ino name ft : fs_inv s -> dir_at s n bs ess ->
  entry_args ino name ft -> dirs_insert ess ino name ft = Some ess' ->
  wp (add_entry_to_dir n ino name ft) (fun ok s' => ok = true /\ evolve bs s s' /\ meta_same s s' /\
    fs_inv s' /\ dir_at s' n bs ess') s.
Proof.
  intros Hi Hda Ha Hins. rw /add_entry_to_dir. apply wp_bind.
  eapply wp_mono; [apply read_inode_spec; [by apply fs_inv_table_ok|by destruct Hda]|]. intros _ s1 [-> Hf].
  destruct (feq_dir_at _ _ _ _ _ Hf Hda) as [Hn Hm Hptrs Hnd Hb]. cbv beta iota.
  destruct (Hptrs) as (Hl & Hp & Hr). rw -(feq_inode _ _ n Hf) Hp.
  eapply wp_mono; [apply (add_blocks_insert s1 n _ 0 bs ess ess'); [done|by eapply feq_dev|done..]|].
  intros ok s2 (-> & Ev & M & Hb2).
  have Ev' : evolve bs s s2 by eapply evolve_trans; [apply Hf|done|incl].
  have M' : meta_same s s2 by eapply meta_same_trans; [apply Hf|done].
  have Hbs b : b ∈ bs -> 21 <= b < 256 by apply prefix12_range with (1 := Hptrs).
  split; [done|]. split; [done|]. split; [done|]. split.
  - eapply fs_inv_frame; [done..|]. rw /meta_blocks. intros l Hlm Hlb. apply Hbs in Hlb.
    rw !elem_of_cons in Hlm. geometry. destruct Hlm as [->|[->|[->|[->|[->|Hlm]]]]]; [lia..|by apply elem_of_nil in Hlm].
  - have Ei : inode_at s2 n = inode_at s1 n.
    { rw (feq_inode _ _ n Hf). apply (inode_at_frame _ _ _ _ Ev'). intros Hin. apply Hbs in Hin.
      have := inode_lba_range n Hn. geometry. lia. }
    by constructor; rw ?Ei.
Qed.

(** [add_entry_to_dir] when every block is full, up to the search for a new block *)
Lemma add_entry_full s n bs ess ino name ft Q : fs_inv s -> dir_at s n bs ess ->
  entry_args ino name ft -> dirs_insert ess ino name ft = None ->
  (forall s', feq s s' -> fs_inv s' -> dir_at s' n bs ess ->
    wp (add_blocks n (inode_at s' n) (length bs) (replicate (12 - length bs) 0) ino name ft) Q s') ->
  wp (add_entry_to_dir n ino name ft) Q s.
Proof.
  intros Hi Hda Ha Hins HQ. rw /add_entry_to_dir. apply wp_bind.
  eapply wp_mono; [apply read_inode_spec; [by apply fs_inv_table_ok|by destruct Hda]|]. intros _ s1 [-> Hf].
  have Hda1 := feq_dir_at _ _ _ _ _ Hf Hda. destruct (Hda1) as [Hn Hm Hptrs Hnd Hb]. cbv beta iota.
  destruct (Hptrs) as (Hl & Hp & Hr). rw -(feq_inode _ _ n Hf) Hp.
  apply (add_blocks_full s1 _ _ 0 bs ess); [done|by eapply feq_dev|done..|].
  intros s2 Hf2. rw Nat.add_0_l -(feq_inode _ _ n Hf2). have Hf12 := feq_trans _ _ _ Hf Hf2.
  apply HQ; [done|by eapply feq_fs_inv|by apply (feq_dir_at s)].
Qed.

(** a full directory of 12 blocks, or a full volume: the entry is refused *)
Lemma add_entry_refused_spec s n bs ess ino name ft : fs_inv s -> dir_at s n bs ess ->
  entry_args ino name ft -> dirs_insert ess ino name ft = None ->
  length bs = 12%nat \/ free_blocks s = 0 ->
  wp (add_entry_to_dir n ino name ft) (fun ok s' => ok = false /\ feq s s') s.
Proof.
  intros Hi Hda Ha Hins Hno. apply (add_entry_full s n bs ess); [done..|]. intros s1 Hf Hi1 Hda1.
  have Hl : (length bs <= 12)%nat by destruct Hda1 as [_ _ (? & _) _ _].
  destruct (decide (length bs = 12%nat)) as [->|Hne]; [by apply wp_ret|].
  have -> : (12 - length bs = S (11 - length bs))%nat by lia. cbn [replicate add_blocks].
  rw Z.eqb_refl. apply wp_bind. eapply wp_mono; [by apply allocate_block_spec|].
  destruct Hno as [|Hz]; [done|]. destruct (meta_same_free s s1) as [Efb _]; [apply Hf|].
  intros r s2 [(-> & _ & Hf2)|(Hr & Hbit & _)].
  - apply wp_ret. split; [done|by eapply feq_trans].
  - exfalso. destruct Hi1 as [[] _ _]. pose proof (count_clear_pos (block_bitmap s1) (Z.to_nat BLOCKS_PER_GROUP) r) as Hpos.
    geometry. have := Hpos ltac:(lia) Hbit. lia.
Qed.

(** ... and when a block can be added to the directory *)
Lemma add_entry_grow_spec s n bs ess ino name ft : fs_inv s -> dir_at s n bs ess ->
  entry_args ino name ft -> dirs_insert ess ino name ft = None ->
  (length bs < 12)%nat -> free_blocks s <> 0 ->
  Forall (fun b => bit (block_bitmap s) b = true) bs ->
  wp (add_entry_to_dir n ino name ft) (fun ok s' => ok = true /\ fs_inv s' /\
    exists b, ROOT_DIR_BLOCK_LBA < b < BLOCKS_PER_GROUP /\ bit (block_bitmap s) b = false /\
      evolve (meta3 ++ [inode_lba n; b]) s s' /\
      free_blocks s' = free_blocks s - 1 /\ free_inodes s' = free_inodes s /\
      (forall j, 0 <= j -> bit (block_bitmap s') j = (j =? b) || bit (block_bitmap s) j) /\
      (forall m, m <> n -> 1 <= m <= INODES_PER_GROUP -> inode_at s' m = inode_at s m) /\
      indirect_of (inode_at s' n) = indirect_of (inode_at s n) /\
      dir_at s' n (bs ++ [b]) (ess ++ [[mkDentry ino name ft (zeros (504 - length name))]])) s.
Proof.
  intros Hi Hda Ha Hins Hlt Hfree Hbits. apply (add_entry_full s n bs ess); [done..|].
  intros s1 Hf Hi1 Hda1. destruct (Hda1) as [Hn Hm Hptrs Hnd Hb].
  destruct (meta_same_free s s1) as [Efb Efi]; [apply Hf|].
  have Ebb : block_bitmap s1 = block_bitmap s by apply (feq_blk _ _ _ Hf).
  have -> : (12 - length bs = S (11 - length bs))%nat by lia. cbn [replicate add_blocks].
  rw Z.eqb_refl. apply wp_bind. eapply wp_mono; [by apply allocate_block_spec|].
  intros r s2 [(_ & Hz & _)|(Hr & Hbit & Hi2 & Ev2 & Hfb2 & Hfi2 & Hbb2)]; [lia|].
  rewrite -> (proj2 (Z.eqb_neq r 0)) by (geometry; lia). apply wp_bind.
  have Hib := i_block_length s1 n Hi1 Hn.
  have Hok1 : EXT2Inode_ok (inode_at s1 n) by apply inode_at_ok; [destruct Hi1 as [[]]|].
  eapply wp_mono; [apply write_inode_spec; [by apply fs_inv_table_ok|done|]|].
  { apply set_size_ok; [|apply u32_range]. apply count_block_ok, set_block_ok; [done|geometry; lia]. }
  intros [] s3 (Ev3 & M3 & Hnew & Hoth). have Hi3 := fs_inv_inode _ _ _ Hi2 Hn Ev3 M3.
  destruct Ha as (Hino & Hname & Hnb & Hft).
  destruct (new_entry_block ino name ft) as (buf & Eb & Hbuf); [done..|].
  apply wp_bind. eapply wp_lift; [exact Eb|]. apply wp_bind.
  eapply wp_mono; [apply write_block_spec; [by destruct Hi3 as [[]]|geometry; lia|by eapply dir_block_buffer_ok]|].
  intros [] s4 (Ev4 & E4 & M4). apply wp_ret. split; [done|].
  have Hlb m := inode_lba_range m.
  have Hi4 : fs_inv s4.
  { eapply fs_inv_frame; [exact Hi3|exact Ev4|done|]. intros l Hl ->%list_elem_of_singleton.
    revert Hl. rw /meta_blocks. geometry. notin. }
  split; [done|]. exists r. split; [done|]. split; [by rw -Ebb|].
  have Ev : evolve (meta3 ++ [inode_lba n; r]) s s4.
  { apply (evolve_trans [] (meta3 ++ [inode_lba n; r]) _ _ s1); [apply Hf| |done].
    apply (evolve_trans meta3 ([inode_lba n] ++ [r]) _ _ s2); [done| |done].
    by apply (evolve_trans [inode_lba n] [r] _ _ s3). }
  split; [done|]. destruct (meta_same_free _ _ M4) as [-> ->]. destruct (meta_same_free _ _ M3) as [-> ->].
  split; [lia|]. split; [lia|].
  have Hr4 m : 1 <= m <= INODES_PER_GROUP -> inode_at s4 m = inode_at s3 m.
  { intros Hmr. apply (inode_at_frame _ _ _ _ Ev4). have := Hlb m Hmr. geometry => ?. notin. }
  have Hr2 m : 1 <= m <= INODES_PER_GROUP -> inode_at s2 m = inode_at s1 m.
  { intros Hmr. apply (inode_at_frame _ _ _ _ Ev2). have := Hlb m Hmr. geometry => ?. notin. }
  split.
  { intros j Hj. rw -Ebb -Hbb2 //. f_equal. rw /block_bitmap.
    have := Hlb n Hn. geometry => ?. rewrite -> (ev_blk _ _ _ Ev4), (ev_blk _ _ _ Ev3) by notin. done. }
  split; [intros m Hne Hmr; rw Hr4 // Hoth // Hr2 //; by apply feq_inode|].
  split.
  { rw (Hr4 n Hn) Hnew -(feq_inode _ _ n Hf) /indirect_of.
    cbn [set_size count_block set_blocks set_block i_block]. by rewrite -> !nth_lookup, list_lookup_insert_ne by lia. }
  have Hrn : r ∉ bs.
  { intros Hin. rewrite -> Forall_forall in Hbits. rw Ebb in Hbit. by rewrite -> (Hbits r Hin) in Hbit. }
  have Hbr b : b ∈ bs -> 21 <= b < 256 by apply prefix12_range with (1 := Hptrs).
  constructor; rw ?(Hr4 n Hn) ?Hnew; [done|done| | |].
  - apply (prefix12_blocks (set_block (length bs) r (inode_at s1 n))); [reflexivity|].
    apply prefix12_grow; [done|exact Hptrs|exact Hlt|lia].
  - apply NoDup_app. split; [done|]. split; [by intros b Hbin ->%list_elem_of_singleton|apply NoDup_singleton].
  - apply Forall2_app; [|by constructor; [rw E4|]].
    apply (dir_blocks_frame (meta3 ++ [inode_lba n] ++ [r]) s1); [done| |].
    { apply (evolve_trans meta3 ([inode_lba n] ++ [r]) _ _ s2); [done| |done].
      by apply (evolve_trans [inode_lba n] [r] _ _ s3). }
    intros b Hbin. have := Hbr b Hbin. have := Hlb n Hn. rw /meta3. cbn [app]. geometry => ??.
    rw !not_elem_of_cons. repeat split; try lia; [by intros ->|apply not_elem_of_nil].
Qed.

(** ** Removal *)
Lemma remove_blocks_spec s bs ess name k : dev_ok (fs_dev s) -> NoDup bs ->
  Forall (fun b => ROOT_DIR_BLOCK_LBA <= b < BLOCKS_PER_GROUP) bs -> dir_blocks s bs ess ->
  wp (remove_blocks (bs ++ replicate k 0) name) (fun ok s' =>
    match dirs_remove ess name with
    | Some ess' => ok = true /\ evolve bs s s' /\ meta_same s s' /\ dir_blocks s' bs ess'
    | None => ok = false /\ feq s s'
    end) s.
Proof.
  intros Hd Hnd Hbs Hes. revert ess s Hd Hes.
  induction Hbs as [|b bs Hb Hbs IH] => ess s Hd Hes.
  { apply Forall2_nil_inv_l in Hes as ->. destruct k; (apply wp_ret; split; [done|]);
      (split; [by apply evolve_refl|done]). }
  inversion Hes as [|? es ? ess1 Hes1 Hes2]; subst. cbn [app remove_blocks dirs_remove].
  rewrite -> (proj2 (Z.eqb_neq b 0)) by (geometry; lia). apply wp_bind.
  eapply wp_mono; [apply read_block_spec; [done|geometry; lia]|]. intros _ s1 [-> Hf].
  have Hd1 := feq_dev _ _ Hf. apply wp_bind. have Hrem := remove_block _ _ name Hes1.
  have Hbs1 : dir_blocks s1 bs ess1.
  { eapply dir_blocks_frame; [done|apply Hf|]. intros ? _. apply not_elem_of_nil. }
  destruct (dir_remove es name) as [es'|].
  - destruct Hrem as (buf & Eb & Hbuf). eapply wp_lift; [exact Eb|]. cbv iota beta.
    eapply wp_mono; [by apply (write_dir_entry_block s1 b buf es' bs ess1)|].
    intros ok s2 (-> & Ev & M & Hb2). split; [done|].
    split; [eapply evolve_trans; [apply Hf|done|incl]|]. split; [|done]. eapply meta_same_trans; [apply Hf|done].
  - eapply wp_lift; [exact Hrem|]. cbv iota beta. apply NoDup_cons in Hnd as [Hnin Hnd].
    eapply wp_mono; [by apply (IH Hnd ess1)|]. intros ok s2.
    destruct (dirs_remove ess1 name) as [ess1'|]; cbn [fmap option_fmap option_map].
    + intros (-> & Ev & M & Hb2). split; [done|]. split; [eapply evolve_trans; [apply Hf|done|incl]|].
      split; [eapply meta_same_trans; [apply Hf|done]|]. constructor; [|done].
      by rewrite -> (ev_blk _ _ _ Ev), (feq_blk _ _ _ Hf) by done.
    + intros [-> Hf2]. split; [done|by eapply feq_trans].
Qed.

Lemma data_blocks_not_meta bs : Forall (fun b => ROOT_DIR_BLOCK_LBA <= b < BLOCKS_PER_GROUP) bs ->
  (forall l, l ∈ meta_blocks -> l ∉ bs) /\
  (forall m, 1 <= m <= INODES_PER_GROUP -> inode_lba m ∉ bs).
Proof.
  intros Hbs. rewrite -> Forall_forall in Hbs. split.
  - rw /meta_blocks. intros l Hl Hin. apply Hbs in Hin. rw !elem_of_cons in Hl. geometry.
    destruct Hl as [->|[->|[->|[->|[->|Hl]]]]]; [lia..|by apply elem_of_nil in Hl].
  - intros m Hm Hin. apply Hbs in Hin. have := inode_lba_range m Hm. geometry. lia.
Qed.

(** writes to directory blocks leave the bit maps alone *)
Lemma evolve_bitmaps s s' bs : evolve bs s s' -> Forall (fun b => ROOT_DIR_BLOCK_LBA <= b < BLOCKS_PER_GROUP) bs ->
  block_bitmap s' = block_bitmap s /\ inode_bitmap s' = inode_bitmap s.
Proof.
  intros Ev Hr. destruct (data_blocks_not_meta bs Hr) as [Hm _].
  split; apply (ev_blk _ _ _ Ev), Hm; rw /meta_blocks; set_solver+.
Qed.

Lemma remove_entry_spec s n bs ess name : fs_inv s -> dir_at s n bs ess ->
  wp (remove_entry_from_dir n name) (fun ok s' =>
    match dirs_remove ess name with
    | Some ess' => ok = true /\ evolve bs s s' /\ meta_same s s' /\ fs_inv s' /\ dir_at s' n bs ess'
    | None => ok = false /\ feq s s'
    end) s.
Proof.
  intros Hi Hda. rw /remove_entry_from_dir. apply wp_bind.
  eapply wp_mono; [apply read_inode_spec; [by apply fs_inv_table_ok|by destruct Hda]|]. intros _ s1 [-> Hf].
  destruct (feq_dir_at _ _ _ _ _ Hf Hda) as [Hn Hm Hptrs Hnd Hb]. cbv beta iota.
  destruct (Hptrs) as (Hl & Hp & Hr). rw -(feq_inode _ _ n Hf) Hp.
  eapply wp_mono; [apply (remove_blocks_spec s1 bs ess); [by eapply feq_dev|done..]|]. intros ok s2.
  destruct (dirs_remove ess name) as [ess'|]; last (intros [-> Hf2]; split; [done|by eapply feq_trans]).
  intros (-> & Ev & M & Hb2).
  have Ev' : evolve bs s s2 by eapply evolve_trans; [apply Hf|done|incl].
  have M' : meta_same s s2 by eapply meta_same_trans; [apply Hf|done].
  destruct (data_blocks_not_meta bs Hr) as [Hnm Hni].
  split; [done|]. split; [done|]. split; [done|]. split; [by eapply fs_inv_frame|].
  have Ei : inode_at s2 n = inode_at s1 n.
  { rw (feq_inode _ _ n Hf). apply (inode_at_frame _ _ _ _ Ev'). by apply Hni. }
  by constructor; rw ?Ei.
Qed.

(** ** An entry is placed: in a block with room, or in a new block *)
Definition entry_fits s (bs : list Z) (ess : list (list dentry)) (ino : Z) (name : list Z) (ft n : Z) : Prop :=
  match dirs_insert ess ino name ft with
  | Some _ => n <= free_blocks s
  | None => (length bs < 12)%nat /\ n + 1 <= free_blocks s
  end.
Record entry_placed s s' (n : Z) (bs : list Z) (ess : list (list dentry)) (ino : Z) (name : list Z) (ft : Z)
    (bs' : list Z) (ess' : list (list dentry)) : Prop := {
  ep_inv : fs_inv s';
  ep_mem : fs_mem s' = fs_mem s;
  ep_blocks : (bs' = bs /\ dirs_insert ess ino name ft = Some ess' /\ inode_at s' n = inode_at s n) \/
    (dirs_insert ess ino name ft = None /\ ess' = ess ++ [[mkDentry ino name ft (zeros (504 - length name))]] /\
     exists b, bs' = bs ++ [b] /\ ROOT_DIR_BLOCK_LBA < b < BLOCKS_PER_GROUP /\ bit (block_bitmap s) b = false);
  ep_dir : dir_at s' n bs' ess';
  ep_free_blocks : free_blocks s' = free_blocks s - (len bs' - len bs);
  ep_free_inodes : free_inodes s' = free_inodes s;
  ep_bits j : 0 <= j -> bit (block_bitmap s') j = bool_decide (j ∈ bs') || bit (block_bitmap s) j;
  ep_inodes : inode_bitmap s' = inode_bitmap s;
  ep_others m : m <> n -> 1 <= m <= INODES_PER_GROUP -> inode_at s' m = inode_at s m;
  ep_indirect : indirect_of (inode_at s' n) = indirect_of (inode_at s n);
  ep_blk b : ROOT_DIR_BLOCK_LBA <= b -> b ∉ bs' -> blk s' b = blk s b;
}.

Lemma add_entry_spec s n bs ess ino name ft : fs_inv s -> dir_at s n bs ess -> entry_args ino name ft ->
  entry_fits s bs ess ino name ft 0 -> Forall (fun b => bit (block_bitmap s) b = true) bs ->
  wp (add_entry_to_dir n ino name ft) (fun ok s' => ok = true /\
    exists bs' ess', entry_placed s s' n bs ess ino name ft bs' ess') s.
Proof.
  intros Hi Hda Ha Hfit Hbits. have Hn := da_num _ _ _ _ Hda. have Hlb := inode_lba_range n Hn.
  have Hr : Forall (fun b => ROOT_DIR_BLOCK_LBA <= b < BLOCKS_PER_GROUP) bs by destruct Hda as [_ _ (_ & _ & ?) _ _].
  rw /entry_fits in Hfit. destruct (dirs_insert ess ino name ft) as [ess'|] eqn:Hins.
  - eapply wp_mono; [by apply (add_entry_insert_spec s n bs ess ess')|].
    intros ok s' (-> & Ev & M & Hi' & Hda'). split; [done|]. exists bs, ess'.
    destruct (data_blocks_not_meta bs Hr) as [Hm Hni]. destruct (meta_same_free _ _ M) as [Eb Ei].
    have Ein m : 1 <= m <= INODES_PER_GROUP -> inode_at s' m = inode_at s m by intros; apply (inode_at_frame _ _ _ _ Ev), Hni.
    destruct (evolve_bitmaps _ _ _ Ev Hr) as [Ebb Eib].
    constructor; [done|apply Ev|by left; auto|done|lia|done| |done|auto|by rw Ein|].
    + intros j Hj. rw Ebb.
      rewrite -> Forall_forall in Hbits. case_bool_decide as E; [exact (Hbits j E)|done].
    + intros b _. apply (ev_blk _ _ _ Ev).
  - eapply wp_mono; [apply (add_entry_grow_spec s n bs ess); [done..|apply Hfit|lia|done]|].
    intros ok s' (-> & Hi' & b & Hb & Hbit & Ev & Eb & Ei & Ebb & Hoth & Hind & Hda'). split; [done|].
    exists (bs ++ [b]), (ess ++ [[mkDentry ino name ft (zeros (504 - length name))]]).
    constructor; [done|apply Ev|right; split; [done|split; [done|by exists b]]|done|rw length_app; cbn [length]; lia|done| | |done|done|].
    + intros j Hj. rw Ebb //. rewrite -> Forall_forall in Hbits. case_bool_decide as E.
      * apply elem_of_app in E as [E| ->%list_elem_of_singleton]; [by rewrite -> (Hbits j E), orb_true_r|by rw Z.eqb_refl].
      * rewrite -> (proj2 (Z.eqb_neq j b)); [done|]. intros ->. apply E, elem_of_app. right. by left.
    + apply (ev_blk _ _ _ Ev). rw /meta3. geometry. notin.
    + intros c Hc Hcn. apply (ev_blk _ _ _ Ev). rw not_elem_of_app in Hcn. destruct Hcn as [_ Hcn].
      rw /meta3. geometry. intros Hin. apply Hcn. cbn [app] in Hin. rw !elem_of_cons in Hin.
      destruct Hin as [?|[?|[?|[?|Hin]]]]; [lia..|]. apply elem_of_cons. by left; destruct Hin as [-> |Hin%elem_of_nil].
Qed.

(** ** Emptiness *)
Definition live (es : list dentry) : bool := existsb (fun e => negb (de_inode e =? 0)) es.

Lemma live_app es es' : live (es ++ es') = live es || live es'.
Proof. apply existsb_app. Qed.
Lemma live_concat ess : live (concat ess) = existsb live ess.
Proof. induction ess as [|es ess IH]; [done|]. cbn [concat existsb]. by rw live_app IH. Qed.

Lemma empty_blocks_spec s bs ess k : dev_ok (fs_dev s) ->
  Forall (fun b => ROOT_DIR_BLOCK_LBA <= b < BLOCKS_PER_GROUP) bs -> dir_blocks s bs ess ->
  wp (empty_blocks (bs ++ replicate k 0) false)
    (fun r s' => r = negb (existsb live ess) /\ feq s s') s.
Proof.
  intros Hd Hbs Hes. revert ess s Hd Hes. induction Hbs as [|b bs Hb Hbs IH] => ess s Hd Hes.
  { apply Forall2_nil_inv_l in Hes as ->. destruct k; (apply wp_ret; split; [done|]);
      (split; [by apply evolve_refl|done]). }
  inversion Hes as [|? es ? ess' Hes1 Hes2]; subst. cbn [app empty_blocks existsb].
  rewrite -> (proj2 (Z.eqb_neq b 0)) by (geometry; lia). apply wp_bind.
  eapply wp_mono; [apply read_block_spec; [done|geometry; lia]|]. intros _ s1 [-> Hf].
  apply wp_bind. eapply wp_lift; [done|]. apply wp_bind. eapply wp_lift; [by apply live_block|].
  fold (live es). destruct (live es); [by apply wp_ret|].
  eapply wp_mono; [apply IH; [by eapply feq_dev|]|].
  - eapply dir_blocks_frame; [done|apply Hf|]. intros ? _. apply not_elem_of_nil.
  - intros r s2 [-> Hf2]. split; [done|]. by eapply feq_trans.
Qed.

(** the directory is empty when nothing but the first two entries ([.] and [..])
    is live *)
Lemma is_directory_empty_spec s n bs e1 e2 es ess : fs_inv s -> dir_at s n bs ((e1 :: e2 :: es) :: ess) ->
  wp (is_directory_empty n) (fun r s' => r = negb (live (es ++ concat ess)) /\ feq s s') s.
Proof.
  intros Hi Hda. rw /is_directory_empty. apply wp_bind.
  eapply wp_mono; [apply read_inode_spec; [by apply fs_inv_table_ok|by destruct Hda]|]. intros _ s1 [-> Hf].
  destruct (feq_dir_at _ _ _ _ _ Hf Hda) as [Hn Hm (Hl & Hp & Hr) Hnd Hb]. cbv beta iota.
  rw -(feq_inode _ _ n Hf) Hm Hp. cbn [negb].
  inversion Hb as [|b ? bs' ? Hb1 Hb2]; subst. inversion Hr as [|? ? Hrb Hr']; subst.
  cbn [app empty_blocks]. rewrite -> (proj2 (Z.eqb_neq b 0)) by (geometry; lia). apply wp_bind.
  eapply wp_mono; [apply read_block_spec; [by eapply feq_dev|geometry; lia]|]. intros _ s2 [-> Hf2].
  destruct (first_child_block _ _ _ _ Hb1) as (off & E1 & E2).
  apply wp_bind. eapply wp_lift; [exact E1|]. apply wp_bind. eapply wp_lift; [exact E2|].
  rw -/(live es) live_app live_concat. destruct (live es); [apply wp_ret; split; [done|by eapply feq_trans]|].
  eapply wp_mono; [apply (empty_blocks_spec s2 bs' ess); [by eapply feq_dev|done|]|].
  - eapply dir_blocks_frame; [done|apply Hf2|]. intros ? _. apply not_elem_of_nil.
  - intros r s3 [-> Hf3]. split; [done|]. eapply feq_trans; [done|by eapply feq_trans].
Qed.
End Ext2Files.
