(* ===== verification/Ext2Data.v ===== *)
(** * File contents

    The copy loop of [read] and [read_directory], the block-writing loops of
    [write], and the view [file_at] of a regular file as a byte string. *)

From S2P Require Import Prelude Bitmap StdString BlockDevice Ext2Layout Ext2Dir Ext2State Ext2 Ext2Inv Ext2Files.

Section Memories.
Context {PW : PtrWidth}.

(** memories that agree on every address *)
Definition mem_eq (m m' : mem) : Prop := forall a, 0 <= a < ptr_size -> m a = m' a.

#[export] Instance mem_eq_equivalence : Equivalence mem_eq.
Proof.
  split; [done|by intros m m' E a Ha; rw E|]. intros m1 m2 m3 E1 E2 a Ha. by rw E1 ?E2.
Qed.

Lemma mem_store_nil m a : mem_store m a [] = m.
Proof. done. Qed.

Lemma mem_store_lookup m a bs x : 0 <= a -> a + len bs <= ptr_size -> 0 <= x < ptr_size ->
  mem_store m a bs x = if bool_decide (a <= x < a + len bs)
                       then nth (Z.to_nat (x - a)) bs 0 else m x.
Proof.
  intros Ha Hl Hx. rw /mem_store. case_bool_decide as Hin.
  - rewrite -> ptr_id by lia. destruct (lookup_lt_is_Some_2 bs (Z.to_nat (x - a))) as [v E]; [lia|].
    rw E. symmetry. by apply nth_lookup_Some.
  - destruct (decide (a <= x)) as [Hle|Hle].
    + rewrite -> ptr_id by lia. by rewrite -> lookup_ge_None_2 by lia.
    + have -> : ptr (x - a) = x - a + ptr_size.
      { rw /ptr. rewrite <- (Z_mod_plus_full _ 1). rw Z.mul_1_l. apply Z.mod_small. lia. }
      by rewrite -> lookup_ge_None_2 by lia.
Qed.

Lemma mem_store_app m a xs ys : 0 <= a -> a + len xs + len ys <= ptr_size ->
  mem_eq (mem_store (mem_store m a xs) (a + len xs) ys) (mem_store m a (xs ++ ys)).
Proof.
  intros Ha Hl x Hx. rewrite -> !mem_store_lookup by (autorewrite with lens; lia).
  rewrite -> length_app. repeat case_bool_decide; try lia; try done.
  - rewrite -> app_nth2 by lia. f_equal. lia.
  - rewrite -> app_nth1 by lia. done.
Qed.

Lemma mem_store_proper m m' a bs : mem_eq m m' -> mem_eq (mem_store m a bs) (mem_store m' a bs).
Proof. intros E x Hx. rw /mem_store. destruct (bs !! _); [done|by apply E]. Qed.

Lemma mem_load_eq m m' a n : mem_eq m m' -> mem_load m a n = mem_load m' a n.
Proof. intros E. rw /mem_load. apply map_ext_in. intros i _. apply E, ptr_range. Qed.

End Memories.

Section Ext2Data.
Context {PW : PtrWidth} {D : Type} `{BlockDeviceLaws D} `{StackJunkLaws}.
Implicit Types s : FS D.

(** ** States that differ in the caller's memory only *)
Record mem_only s s' : Prop := {
  mo_dev : dev_ok (fs_dev s');
  mo_init : g_filesystem_initialized s' = g_filesystem_initialized s;
  mo_blk l : blk s' l = blk s l;
  mo_meta : meta_same s s';
}.
Lemma mem_only_refl s : dev_ok (fs_dev s) -> mem_only s s.
Proof. by constructor. Qed.
Lemma mem_only_trans s1 s2 s3 : mem_only s1 s2 -> mem_only s2 s3 -> mem_only s1 s3.
Proof.
  intros [] []. constructor; [done|congruence|congruence|by eapply meta_same_trans].
Qed.
Lemma feq_mem_only s s' : feq s s' -> mem_only s s'.
Proof.
  intros Hf. constructor; [by eapply feq_dev|by destruct Hf as [[]]|by intros; apply feq_blk|apply Hf].
Qed.

Lemma mem_only_fs_inv s s' : fs_inv s -> mem_only s s' -> fs_inv s'.
Proof.
  intros [[] Hs1 Hs2] [Hd Hi Hb Hm]. have Hg := meta_same_group0 _ _ Hm. destruct Hm as [Hm1 Hm2].
  constructor; [constructor|..]; rw /free_blocks /free_inodes /block_bitmap /inode_bitmap ?Hb ?Hg ?Hm1 ?Hm2 //.
  by rw Hi.
Qed.

Definition data_of s (bs : list Z) : list Z := concat (map (blk s) bs).

Lemma data_of_length s bs : dev_ok (fs_dev s) ->
  Forall (fun b => ROOT_DIR_BLOCK_LBA <= b < BLOCKS_PER_GROUP) bs ->
  len (data_of s bs) = 512 * len bs.
Proof.
  intros Hd. induction 1 as [|b bs Hb Hbs IH]; [done|]. rw /data_of. cbn [map concat].
  rw length_app -/(data_of s bs). destruct (blk_ok s b) as [Hl _]; [done|geometry; lia|].
  geometry. cbn [length]. lia.
Qed.

Lemma data_of_ext s s' bs : (forall b, b ∈ bs -> blk s' b = blk s b) -> data_of s' bs = data_of s bs.
Proof.
  intros Hb. rw /data_of. f_equal. apply map_ext_in. intros b Hin. apply Hb. by apply list_elem_of_In.
Qed.

(** ** The copy loop *)
Lemma copy_out_spec s bs rest out pos total :
  dev_ok (fs_dev s) -> Forall (fun b => ROOT_DIR_BLOCK_LBA <= b < BLOCKS_PER_GROUP) bs ->
  (rest = [] \/ hd_error rest = Some 0) ->
  0 <= pos <= total -> 0 <= out -> out + total <= ptr_size ->
  let n := Z.min (total - pos) (512 * len bs) in
  wp (copy_out (bs ++ rest) out pos total) (fun p s' => p = pos + n /\ mem_only s s' /\
    mem_eq (fs_mem s') (mem_store (fs_mem s) (out + pos) (take (Z.to_nat n) (data_of s bs)))) s.
Proof.
  intros Hd Hbs Hrest. revert s pos Hd. induction Hbs as [|b bs Hb Hbs IH] => s pos Hd Hpos Hout Hw.
  { cbn [length app]. rewrite -> Z.min_r by lia. rw Z.add_0_r. change (data_of s []) with (@nil Z). rewrite -> take_nil, mem_store_nil.
    destruct rest as [|l rest]; [apply wp_ret; split; [done|]; split; [by apply mem_only_refl|done]|].
    destruct Hrest as [|[= ->]]; [done|]. cbn [copy_out].
    destruct (pos <? total); (apply wp_ret; split; [done|]; split; [by apply mem_only_refl|done]). }
  cbv zeta. cbn [app copy_out]. destruct (Z.ltb_spec pos total) as [Hlt|Hge].
  2: { have -> : pos = total by lia. rewrite -> Z.min_l by lia. rw Z.sub_diag Z.add_0_r take_0 mem_store_nil.
       apply wp_ret. split; [done|]. split; [by apply mem_only_refl|done]. }
  rewrite -> (proj2 (Z.eqb_neq b 0)) by (geometry; lia). apply wp_bind.
  eapply wp_mono; [apply read_block_spec; [done|geometry; lia]|]. intros _ s1 [-> Hf].
  set (chunk := if total - pos <? BLOCK_SIZE then total - pos else BLOCK_SIZE).
  have Hchunk : chunk = Z.min (total - pos) 512.
  { rw /chunk. geometry. destruct (Z.ltb_spec (total - pos) 512); lia. }
  destruct (blk_ok s b) as [Hbl _]; [done|geometry; lia|]. geometry.
  apply wp_bind, wp_modify. rewrite -> ptr_id by lia.
  match goal with |- wp _ _ ?x => set (s2 := x) end.
  have Hm2 : mem_only s s2.
  { destruct (feq_mem_only _ _ Hf) as [? ? ? [? ?]]. by constructor. }
  eapply wp_mono; [apply IH; [by destruct Hm2|lia|done|done]|]. intros p s3 (-> & Hm3 & Hmem).
  split; [cbn [length]; lia|]. split; [by eapply mem_only_trans|].
  etrans; [exact Hmem|]. have -> : data_of s2 bs = data_of s bs by apply data_of_ext; intros; apply Hm2.
  have Hdl := data_of_length s bs Hd Hbs.
  have Hx : length (take (Z.to_nat chunk) (blk s b)) = Z.to_nat chunk by rw length_take; lia.
  have -> : data_of s (b :: bs) = blk s b ++ data_of s bs by done.
  have -> : take (Z.to_nat (Z.min (total - pos) (512 * len (b :: bs)))) (blk s b ++ data_of s bs) =
    take (Z.to_nat chunk) (blk s b) ++
    take (Z.to_nat (Z.min (total - (pos + chunk)) (512 * len bs))) (data_of s bs).
  { rw take_app. cbn [length]. destruct (Z.lt_ge_cases (total - pos) 512).
    - f_equal; f_equal; lia.
    - f_equal; [rewrite -> !take_ge by lia; done|]. f_equal. lia. }
  have -> : out + (pos + chunk) = out + pos + len (take (Z.to_nat chunk) (blk s b)) by lia.
  have <- : fs_mem s1 = fs_mem s by destruct Hf as [[]].
  apply mem_store_app; [lia|]. rw Hx length_take. lia.
Qed.

(** ** Regular files *)
(** [ds] are the direct blocks, [ids] those of the indirect block *)
Record file_at s (n : Z) (ds ids : list Z) (size : Z) (content : list Z) : Prop := {
  fa_num : 1 <= n <= INODES_PER_GROUP;
  fa_mode : is_dir_mode (inode_at s n) = false;
  fa_size : i_size (inode_at s n) = size;
  fa_size_pos : 0 <= size;
  fa_direct : prefix12 (inode_at s n) ds;
  fa_indirect : (ids = [] /\ indirect_of (inode_at s n) = 0) \/
    (length ds = 12%nat /\ ROOT_DIR_BLOCK_LBA < indirect_of (inode_at s n) < BLOCKS_PER_GROUP /\
     Forall (fun b => ROOT_DIR_BLOCK_LBA <= b < BLOCKS_PER_GROUP) ids /\ (length ids <= 128)%nat /\
     block_pointers (blk s (indirect_of (inode_at s n))) = ids ++ replicate (128 - length ids) 0);
  (** the bytes that are there: [size] of them, if the blocks reach *)
  fa_data : content = take (Z.to_nat size) (data_of s (ds ++ ids));
}.

Lemma blk_dir_at s s' n bs ess : (forall l, blk s' l = blk s l) -> dir_at s n bs ess -> dir_at s' n bs ess.
Proof.
  intros Hb []. have Ei : inode_at s' n = inode_at s n by rw /inode_at /inode_raw Hb.
  constructor; rw ?Ei; try done. rw /dir_blocks. eapply Forall2_impl; [done|]. intros b es. by rw Hb.
Qed.
Lemma mem_only_dir_at s s' n bs ess : mem_only s s' -> dir_at s n bs ess -> dir_at s' n bs ess.
Proof. intros [_ _ Hb _]. by apply blk_dir_at. Qed.
Lemma mem_only_file_at s s' n ds ids sz c : mem_only s s' -> file_at s n ds ids sz c -> file_at s' n ds ids sz c.
Proof.
  intros [_ _ Hb _] []. have Ei : inode_at s' n = inode_at s n by rw /inode_at /inode_raw Hb.
  constructor; rw ?Ei; try done; [by rw Hb|]. by rewrite -> (data_of_ext s s') by auto.
Qed.

Lemma replicate_stop k : replicate k 0 = [] \/ hd_error (replicate k 0) = Some 0.
Proof. destruct k; auto. Qed.

(** the two copying phases of [read] deliver a prefix of the file *)
Lemma take_min (l : list Z) a L : L = len l -> 0 <= a -> take (Z.to_nat (Z.min a L)) l = take (Z.to_nat a) l.
Proof.
  intros -> Ha. destruct (Z.le_ge_cases a (len l)); [by rewrite -> Z.min_l by lia|].
  rewrite -> Z.min_r by lia. by rewrite -> !take_ge by lia.
Qed.

Lemma read_file_spec s n ds ids size content out total : dev_ok (fs_dev s) ->
  file_at s n ds ids size content -> 0 <= total <= size -> 0 <= out -> out + total <= ptr_size ->
  wp (bytes_read ← copy_out (take 12 (i_block (inode_at s n))) out 0 total;
      (if (bytes_read <? total) && negb (nth 12 (i_block (inode_at s n)) 0 =? 0) then
         indirect_table ← read_block (nth 12 (i_block (inode_at s n)) 0);
         copy_out (block_pointers indirect_table) out bytes_read total;;
         mret tt
       else mret tt);;
      mret 0) (fun r s' => r = 0 /\ mem_only s s' /\
        mem_eq (fs_mem s') (mem_store (fs_mem s) out (take (Z.to_nat total) content))) s.
Proof.
  intros Hd [Hn Hm Hsz Hsz0 (Hl & Hp & Hr) Hind Hdata] Ht Hout Hw.
  rw -/(indirect_of (inode_at s n)) Hp. apply wp_bind.
  have Hdl := data_of_length s ds Hd Hr.
  eapply wp_mono; [apply copy_out_spec; [done|done|apply replicate_stop|lia|done|done]|].
  rw Z.sub_0_r Z.add_0_l Z.add_0_r. intros p s1 (-> & M1 & E1).
  have Etake : take (Z.to_nat total) content = take (Z.to_nat total) (data_of s (ds ++ ids)).
  { rw Hdata take_take. f_equal. lia. }
  rw /data_of map_app concat_app -/(data_of s ds) -/(data_of s ids) in Etake.
  apply wp_bind.
  destruct Hind as [[-> Hi0]|(Hl12 & Hi0 & Hri & Hli & Hpi)].
  - rw Hi0 Z.eqb_refl andb_false_r. apply wp_ret, wp_ret. split; [done|]. split; [done|].
    etrans; [exact E1|]. rw Etake. change (data_of s []) with (@nil Z).
    by rewrite -> app_nil_r, take_min by lia.
  - rewrite -> (proj2 (Z.eqb_neq (indirect_of _) 0)) by (geometry; lia). cbn [negb]. rw andb_true_r Etake take_app.
    destruct (Z.ltb_spec (Z.min total (512 * len ds)) total) as [Hlt|Hge].
    + rewrite -> Z.min_r in E1, Hlt |- * by lia. rewrite -> (take_ge (data_of s ds)) in E1 |- * by lia.
      apply wp_bind. eapply wp_mono; [apply read_block_spec; [by destruct M1|geometry; lia]|].
      intros _ s2 [-> Hf]. destruct M1 as [Hd1 Hi1 Hb1 HM1]. rw Hb1 Hpi.
      apply wp_bind. eapply wp_mono; [apply copy_out_spec; [by eapply feq_dev|done|apply replicate_stop|lia|done|done]|].
      intros p s3 (_ & M3 & E3). apply wp_ret, wp_ret. split; [done|].
      have M2 : mem_only s s2 by eapply mem_only_trans; [by constructor|by apply feq_mem_only].
      split; [by eapply mem_only_trans|]. etrans; [exact E3|].
      have -> : fs_mem s2 = fs_mem s1 by destruct Hf as [[]].
      have -> : data_of s2 ids = data_of s ids by apply data_of_ext; intros; apply M2.
      have Hil := data_of_length s ids Hd Hri.
      etrans; [apply mem_store_proper, E1|]. rewrite -> take_min by lia. rw -Hdl.
      etrans; [apply mem_store_app; [done|]|].
      { rw length_take. lia. }
      by have -> : (Z.to_nat (total - len (data_of s ds)) = Z.to_nat total - length (data_of s ds))%nat by lia.
    + rewrite -> Z.min_l in E1 by lia. apply wp_ret, wp_ret. split; [done|]. split; [done|].
      etrans; [exact E1|]. have -> : (Z.to_nat total - length (data_of s ds) = 0)%nat by lia.
      by rw take_0 app_nil_r.
Qed.

Lemma read_spec s r p bs ess n ds ids size content :
  fs_inv s -> dir_at s p bs ess -> parent_inode r = p ->
  dir_lookup (concat ess) (mem_load (fs_mem s) (name r) (Z.to_nat (name_len r))) = n ->
  file_at s n ds ids size content -> 0 <= buffer_size r ->
  0 <= buf r -> buf r + Z.min (buffer_size r) size <= ptr_size ->
  wp (read r) (fun code s' => code = 0 /\ mem_only s s' /\
    mem_eq (fs_mem s') (mem_store (fs_mem s) (buf r) (take (Z.to_nat (buffer_size r)) content))) s.
Proof.
  intros Hi Hda Ep El Hfa Hsz Hb Hw. have Hp := da_num _ _ _ _ Hda. have Hn := fa_num _ _ _ _ _ _ Hfa. have Hsz0 := fa_size_pos _ _ _ _ _ _ Hfa.
  rw /read. apply wp_bind, wp_gets. have -> : g_filesystem_initialized s = true by destruct Hi as [[]].
  cbn [negb]. rewrite -> (proj2 (Z.eqb_neq (parent_inode r) 0)) by lia.
  apply wp_bind, wp_gets, wp_bind. rw Ep.
  eapply wp_mono; [by apply (find_entry_in_dir_spec s p bs ess); [apply fs_inv_table_ok|]|].
  rw El. intros _ s1 [-> Hf]. rewrite -> (proj2 (Z.eqb_neq n 0)) by lia. apply wp_bind.
  eapply wp_mono; [apply read_inode_spec; [by apply fs_inv_table_ok; eapply feq_fs_inv|done]|].
  intros _ s2 [-> Hf2]. have Hf12 := feq_trans _ _ _ Hf Hf2. have M2 := feq_mem_only _ _ Hf12.
  have Hfa2 := mem_only_file_at _ _ _ _ _ _ _ M2 Hfa. cbv beta iota. rw -(feq_inode _ _ n Hf2).
  rw (fa_mode _ _ _ _ _ _ Hfa2) (fa_size _ _ _ _ _ _ Hfa2).
  have -> : (if buffer_size r <? size then buffer_size r else size) = Z.min (buffer_size r) size
    by destruct (Z.ltb_spec (buffer_size r) size); lia.
  eapply wp_mono; [apply (read_file_spec s2 n ds ids size content); [by eapply feq_dev|done|lia|done|lia]|].
  intros c s3 (-> & M3 & E3). split; [done|]. split; [by eapply mem_only_trans|].
  etrans; [exact E3|]. have -> : fs_mem s2 = fs_mem s by destruct Hf12 as [[]].
  rw (fa_data _ _ _ _ _ _ Hfa) !take_take.
  by have -> : (Z.to_nat (Z.min (buffer_size r) size) `min` Z.to_nat size = Z.to_nat (buffer_size r) `min` Z.to_nat size)%nat by lia.
Qed.

Lemma read_missing_spec s r p bs ess : fs_inv s -> dir_at s p bs ess -> parent_inode r = p ->
  dir_lookup (concat ess) (mem_load (fs_mem s) (name r) (Z.to_nat (name_len r))) = 0 ->
  wp (read r) (fun code s' => code = 3 /\ feq s s') s.
Proof.
  intros Hi Hda Ep El. have Hp := da_num _ _ _ _ Hda. rw /read. apply wp_bind, wp_gets.
  have -> : g_filesystem_initialized s = true by destruct Hi as [[]]. cbn [negb].
  rewrite -> (proj2 (Z.eqb_neq (parent_inode r) 0)) by lia. apply wp_bind, wp_gets, wp_bind. rw Ep.
  eapply wp_mono; [by apply (find_entry_in_dir_spec s p bs ess); [apply fs_inv_table_ok|]|].
  rw El. intros _ s1 [-> Hf]. by apply wp_ret.
Qed.
End Ext2Data.
