(* ===== verification/Ext2Write.v ===== *)
(** * Writing files

    The allocation loops of [write]: the blocks they take are fresh and hold the
    bytes of the request, as far as the free blocks reach. *)

From S2P Require Import Prelude Bitmap StdString BlockDevice Ext2Layout Ext2Dir Ext2State Ext2 Ext2Inv Ext2Files Ext2Data.

(** ** The blocks of a byte string *)
Definition chunk (c : list Z) (i : nat) : list Z :=
  let x := take 512 (drop (512 * i) c) in x ++ zeros (512 - length x).
Definition chunks (c : list Z) (i n : nat) : list Z := concat (map (chunk c) (seq i n)).

Lemma chunk_ok c i : bytes_ok c -> BlockBuffer_ok (chunk c i).
Proof.
  intros Hc. rw /chunk. cbv zeta. split.
  - rw length_app /zeros length_replicate. geometry. rw length_take. lia.
  - apply bytes_ok_app. split; [by apply bytes_ok_take, bytes_ok_drop|apply bytes_ok_zeros].
Qed.

Lemma chunks_S c i n : chunks c i (S n) = chunk c i ++ chunks c (S i) n.
Proof. done. Qed.
Lemma chunks_app c i n m : chunks c i (n + m) = chunks c i n ++ chunks c (i + n) m.
Proof. by rw /chunks seq_app map_app concat_app. Qed.

Lemma chunks_take c n i : (length c <= 512 * (i + n))%nat ->
  take (length c - 512 * i) (chunks c i n) = drop (512 * i) c.
Proof.
  revert i. induction n as [|n IH] => i Hl.
  { rewrite -> (drop_ge c) by lia. by rw /chunks take_nil. }
  rw chunks_S. destruct (Nat.le_gt_cases (length c) (512 * i)).
  { have -> : (length c - 512 * i = 0)%nat by lia. by rewrite -> (drop_ge c) by lia. }
  rw /chunk. cbv zeta. rw -app_assoc. destruct (Nat.le_gt_cases (length c) (512 * i + 512)).
  - rewrite -> (take_ge (drop _ c)) by (rw length_drop; lia).
    rw -length_drop take_app_length. done.
  - have E : length (take 512 (drop (512 * i) c)) = 512%nat by (rw length_take length_drop; lia).
    rw E Nat.sub_diag app_nil_l take_app E. rewrite -> (take_ge (take 512 _)) by lia.
    have -> : (length c - 512 * i - 512 = length c - 512 * S i)%nat by lia.
    rewrite -> IH by lia. have -> : drop (512 * S i) c = drop 512 (drop (512 * i) c) by rw drop_drop; f_equal; lia.
    apply take_drop.
Qed.

Lemma chunks_full c n i : (512 * (i + n) <= length c)%nat ->
  chunks c i n = take (512 * n) (drop (512 * i) c).
Proof.
  revert i. induction n as [|n IH] => i Hl; [by rw Nat.mul_0_r take_0|].
  rw chunks_S. rewrite -> IH by lia. rw /chunk. cbv zeta.
  have E : length (take 512 (drop (512 * i) c)) = 512%nat by (rw length_take length_drop; lia).
  rw E Nat.sub_diag app_nil_r. have -> : drop (512 * S i) c = drop 512 (drop (512 * i) c) by rw drop_drop; f_equal; lia.
  have -> : (512 * S n = 512 + 512 * n)%nat by lia. by rw take_take_drop.
Qed.

(** the bytes behind the first [n] blocks *)
Lemma chunks_prefix c n : take (length c) (chunks c 0 n) = take (512 * n) c.
Proof.
  destruct (Nat.le_gt_cases (length c) (512 * n)).
  - have := chunks_take c n 0. rw Nat.mul_0_r Nat.sub_0_r drop_0. intros ->; [|lia].
    by rewrite -> take_ge by lia.
  - rewrite -> chunks_full by lia. rw Nat.mul_0_r drop_0 take_take. f_equal. lia.
Qed.

Section Memory.
Context {PW : PtrWidth}.
(** all bytes of the caller's memory are bytes *)
Lemma mem_load_ok m a n : mem_ok m -> bytes_ok (mem_load m a n).
Proof. intros Hm. apply Forall_map, Forall_true. intros i. apply Hm, ptr_range. Qed.

Lemma mem_load_sub m a n off k : 0 <= a -> a + Z.of_nat n <= ptr_size -> (off + k <= n)%nat ->
  mem_load m (ptr (a + Z.of_nat off)) k = take k (drop off (mem_load m a n)).
Proof.
  intros Ha Hn Hk. apply list_eq => i. destruct (decide (i < k)%nat) as [Hi|Hi].
  - rewrite -> mem_load_lookup, lookup_take_lt, lookup_drop, mem_load_lookup by lia.
    do 2 f_equal. destruct (decide (off = n)) as [->|]; [lia|]. rewrite -> (ptr_id (a + Z.of_nat off)) by lia. f_equal. lia.
  - rewrite -> !lookup_ge_None_2; [done| |rw mem_load_length; lia].
    rw length_take length_drop mem_load_length. lia.
Qed.

(** one data block of [write] *)
Lemma data_block_spec m src size i : 0 <= src -> 0 < size -> src + size <= ptr_size -> mem_ok m ->
  0 <= i < (size + 511) / 512 ->
  data_block m src size ((size + 511) / 512) i = Ok (chunk (mem_load m src (Z.to_nat size)) (Z.to_nat i)).
Proof.
  intros Hs Hsz Hw Hm Hi. rw /data_block. geometry.
  have Hq := Z.div_mod (size + 511) 512 ltac:(lia). have Hr := Z.mod_pos_bound (size + 511) 512 ltac:(lia).
  set (q := (size + 511) / 512) in *.
  set (sz := if (if i =? q - 1 then size mod 512 else 512) =? 0 then 512
             else (if i =? q - 1 then size mod 512 else 512)).
  have Hszv : sz = Z.min 512 (size - 512 * i).
  { rw /sz. have Hm1 := Z.div_mod size 512 ltac:(lia). have Hm2 := Z.mod_pos_bound size 512 ltac:(lia).
    destruct (Z.eqb_spec i (q - 1)) as [->|]; [|destruct (Z.eqb_spec 512 0); lia].
    have Hc : size / 512 = q - 1 \/ size / 512 = q by lia.
    destruct (Z.eqb_spec (size mod 512) 0); lia. }
  have -> : i * 512 = Z.of_nat (512 * Z.to_nat i) by lia.
  rewrite -> (mem_load_sub m src (Z.to_nat size)) by lia.
  pose proof (mem_load_length m src (Z.to_nat size)) as Hl. set (c := mem_load m src (Z.to_nat size)) in *.
  have -> : take (Z.to_nat sz) (drop (512 * Z.to_nat i) c) = take 512 (drop (512 * Z.to_nat i) c).
  { rw Hszv. destruct (Z.le_ge_cases 512 (size - 512 * i)); [by rewrite -> Z.min_l by lia|].
    rewrite -> Z.min_r by lia. rewrite -> !take_ge by (rw length_drop; lia). done. }
  rw /splice /chunk. rewrite -> bool_decide_true.
  - cbv zeta. rw take_0 app_nil_l. do 2 f_equal. by rw /zeros drop_replicate.
  - split; [done|]. rw /zeros length_replicate length_take. lia.
Qed.

End Memory.

(** the inode with the blocks [ds] entered from index [i] *)
Fixpoint put_blocks (i : nat) (ds : list Z) (node : EXT2Inode) : EXT2Inode :=
  match ds with
  | [] => node
  | d :: ds => put_blocks (S i) ds (count_block (set_block i d node))
  end.

Lemma put_blocks_spec i ds node : (i + length ds <= length (i_block node))%nat -> EXT2Inode_ok node ->
  Forall (fun b => 0 <= b < 2 ^ 32) ds ->
  i_block (put_blocks i ds node) = take i (i_block node) ++ ds ++ drop (i + length ds) (i_block node) /\
  i_mode (put_blocks i ds node) = i_mode node /\ i_size (put_blocks i ds node) = i_size node /\
  EXT2Inode_ok (put_blocks i ds node).
Proof.
  revert i node. induction ds as [|d ds IH] => i node Hl Hok Hds.
  { cbn [put_blocks length]. rw Nat.add_0_r app_nil_l take_drop. done. }
  inversion Hds; subst. cbn [put_blocks length] in Hl |- *.
  destruct (IH (S i) (count_block (set_block i d node))) as (E1 & E2 & E3 & E4).
  { cbn [count_block set_blocks set_block i_block]. rw length_insert. lia. }
  { by apply count_block_ok, set_block_ok. }
  { done. }
  rw E1 E2 E3. split; [|done]. cbn [count_block set_blocks set_block i_block].
  rewrite -> drop_insert_lt by lia. rewrite -> (take_S_r _ _ d) by (apply list_lookup_insert_eq; lia).
  rewrite -> take_insert_ge, <- app_assoc by lia. cbn [app].
  by have -> : (S i + length ds = i + S (length ds))%nat by lia.
Qed.

Lemma nth_repeat_0 n k : nth n (replicate k 0) 0 = 0.
Proof. revert n. induction k as [|k IH] => [] [|n] //=. Qed.

(** the indirect table with the pointers [l] *)
Definition ptr_table (l : list Z) : list Z :=
  fields_bytes (map (pair 4%nat) (l ++ replicate (128 - length l) 0)).

Lemma fields_bytes_app fs fs' : fields_bytes (fs ++ fs') = fields_bytes fs ++ fields_bytes fs'.
Proof. by rw /fields_bytes map_app concat_app. Qed.

Lemma ptrs_length (l : list Z) : length (fields_bytes (map (pair 4%nat) l)) = (4 * length l)%nat.
Proof. rw fields_bytes_length map_fst_pair sum_list_replicate. lia. Qed.

Lemma ptr_table_ok l : (length l <= 128)%nat -> BlockBuffer_ok (ptr_table l).
Proof.
  intros Hl. split; [|apply fields_bytes_ok]. rw /ptr_table ptrs_length length_app length_replicate. geometry. lia.
Qed.

Lemma ptr_table_set l b : (length l < 128)%nat ->
  st 4 (ptr_table l) (4 * len l) b = Ok (ptr_table (l ++ [b])).
Proof.
  intros Hl. rw /ptr_table length_app. cbn [length].
  have E : (128 - length l = S (128 - (length l + 1)))%nat by lia. rw E. cbn [replicate].
  have F1 (x : Z) : fields_bytes (map (pair 4%nat) [x]) = le_bytes 4 x by cbn [map]; rw fields_bytes_cons app_nil_r.
  change (0 :: replicate (128 - (length l + 1)) 0) with ([0] ++ replicate (128 - (length l + 1)) 0).
  rw !map_app !fields_bytes_app !F1 -app_assoc. eapply st_at; [done|rw ptrs_length; lia|by rw le_bytes_length].
Qed.

Lemma ptr_table_pointers l : (length l <= 128)%nat -> Forall (fun b => 0 <= b < 2 ^ 32) l ->
  block_pointers (ptr_table l) = l ++ replicate (128 - length l) 0.
Proof.
  intros Hl Hb. rw /block_pointers /ptr_table. set (ps := l ++ replicate _ 0).
  have Hw : Forall in_width (map (pair 4%nat) ps).
  { apply Forall_map, Forall_app. split; [done|]. by apply Forall_replicate. }
  have := fields_val_bytes _ [] Hw. rw app_nil_r map_fst_pair map_snd_pair.
  by have -> : length ps = 128%nat by rw /ps length_app length_replicate; lia.
Qed.

Section Ext2Write.
Context {PW : PtrWidth} {D : Type} `{BlockDeviceLaws D} `{StackJunkLaws}.
Implicit Types s : FS D.

(** ** Taking fresh blocks *)
Record grabbed (ds : list Z) s s' : Prop := {
  gr_inv : fs_inv s';
  gr_evolve : evolve (meta3 ++ ds) s s';
  gr_nodup : NoDup ds;
  gr_fresh b : b ∈ ds -> ROOT_DIR_BLOCK_LBA < b < BLOCKS_PER_GROUP /\ bit (block_bitmap s) b = false;
  gr_blocks : free_blocks s' = free_blocks s - len ds;
  gr_inodes : free_inodes s' = free_inodes s;
  gr_bits j : 0 <= j -> bit (block_bitmap s') j = bool_decide (j ∈ ds) || bit (block_bitmap s) j;
}.

Lemma grabbed_nil s s' : fs_inv s -> feq s s' -> grabbed [] s s'.
Proof.
  intros Hi Hf. destruct (meta_same_free s s') as [E1 E2]; [apply Hf|].
  constructor; [by eapply feq_fs_inv|by apply feq_evolve|apply NoDup_nil_2| |rw E1; cbn; lia|done|].
  - by intros b ?%not_elem_of_nil.
  - intros j _. by rw /block_bitmap (feq_blk _ _ _ Hf).
Qed.

Lemma grabbed_trans ds1 ds2 s1 s2 s3 : grabbed ds1 s1 s2 -> grabbed ds2 s2 s3 -> grabbed (ds1 ++ ds2) s1 s3.
Proof.
  intros [Hi1 Ev1 Hnd1 Hf1 Hb1 Hn1 Hj1] [Hi2 Ev2 Hnd2 Hf2 Hb2 Hn2 Hj2].
  have Hnot b : b ∈ ds2 -> (b ∉ ds1) /\ bit (block_bitmap s1) b = false.
  { intros Hb. destruct (Hf2 b Hb) as [Hr Hbit]. rw Hj1 in Hbit; [geometry; lia|].
    apply orb_false_iff in Hbit as [?%bool_decide_eq_false ?]. done. }
  constructor; [done| | | | |lia|].
  - eapply evolve_trans; [done|done|]. intros l. rw !elem_of_app. tauto.
  - apply NoDup_app. split; [done|]. split; [|done]. intros b Hb1' Hb2'. by destruct (Hnot b Hb2').
  - intros b [Hb|Hb]%elem_of_app; [by apply Hf1|]. split; [by apply Hf2|by apply Hnot].
  - rw length_app. lia.
  - intros j Hj. rewrite -> Hj2, Hj1 by done.
    rewrite -> (bool_decide_ext _ _ (elem_of_app ds1 ds2 j)), bool_decide_or.
    destruct (bool_decide (j ∈ ds1)), (bool_decide (j ∈ ds2)); done.
Qed.

(** a fresh block keeps what the earlier state holds in allocated blocks and inodes *)
Lemma grabbed_blk ds s s' b : grabbed ds s s' -> ROOT_DIR_BLOCK_LBA <= b -> b ∉ ds -> blk s' b = blk s b.
Proof.
  intros Hg Hb Hn. apply (ev_blk _ _ _ (gr_evolve _ _ _ Hg)). rw /meta3 !elem_of_app. geometry.
  intros [Hin|Hin]; [|done]. revert Hin. notin.
Qed.
Lemma grabbed_inode ds s s' n : grabbed ds s s' -> 1 <= n <= INODES_PER_GROUP -> inode_at s' n = inode_at s n.
Proof.
  intros Hg Hn. apply (inode_at_frame _ _ _ _ (gr_evolve _ _ _ Hg)). have := inode_lba_range n Hn.
  rw /meta3 !elem_of_app. geometry. intros Hr [Hin|Hin].
  - revert Hin. notin.
  - destruct (gr_fresh _ _ _ Hg _ Hin). geometry. lia.
Qed.
Lemma grabbed_inode_bitmap ds s s' : grabbed ds s s' -> inode_bitmap s' = inode_bitmap s.
Proof.
  intros Hg. apply (ev_blk _ _ _ (gr_evolve _ _ _ Hg)). rw /meta3 !elem_of_app. intros [Hin|Hin].
  - revert Hin. notin.
  - destruct (gr_fresh _ _ _ Hg _ Hin). geometry. lia.
Qed.

Lemma grab_spec s : fs_inv s ->
  wp allocate_block (fun r s' => (r = 0 /\ free_blocks s = 0 /\ feq s s') \/
    (r <> 0 /\ 0 < free_blocks s /\ grabbed [r] s s')) s.
Proof.
  intros Hi. eapply wp_mono; [by apply allocate_block_spec|].
  intros r s' [?|(Hr & Hbit & Hi' & Ev & Hfb & Hfi & Hj)]; [by left|right].
  split; [geometry; lia|]. destruct (Hi) as [Hc _ _].
  pose proof (count_clear_pos (block_bitmap s) (Z.to_nat BLOCKS_PER_GROUP) r) as Hpos.
  rw (inv_free_blocks _ Hc) in Hpos. split; [apply Hpos; [geometry; lia|done]|].
  constructor; [done|(eapply evolve_mono; [done|rw /meta3; incl])|apply NoDup_singleton| |cbn; lia|done|].
  - by intros b ->%list_elem_of_singleton.
  - intros j Hj0. rewrite -> Hj by done. f_equal. destruct (Z.eqb_spec j r) as [->|Hne].
    + rewrite -> bool_decide_true; [done|by left].
    + rewrite -> bool_decide_false; [done|by rw list_elem_of_singleton].
Qed.

(** writing one of the blocks taken *)
Lemma grab_write ds s s' r b : grabbed ds s s' -> r ∈ ds -> BlockBuffer_ok b ->
  wp (write_block b r) (fun _ s2 => grabbed ds s s2 /\ blk s2 r = b /\ evolve [r] s' s2) s'.
Proof.
  intros [Hi1 Ev1 Hnd1 Hf1 Hb1 Hn1 Hj1] Hin Hb. destruct (Hf1 r Hin) as [Hr _].
  eapply wp_mono; [apply write_block_spec; [by destruct Hi1 as [[]]|geometry; lia|done]|].
  intros [] s2 (Ev & E & M). split; [|done]. destruct (meta_same_free _ _ M) as [E1 E2].
  constructor; [| |done|done|lia|lia|].
  - eapply fs_inv_frame; [exact Hi1|exact Ev|done|]. intros l Hl ->%list_elem_of_singleton.
    revert Hl. rw /meta_blocks. geometry. notin.
  - eapply evolve_trans; [done|done|]. intros l. rw !elem_of_app list_elem_of_singleton. intros [?| ->]; tauto.
  - intros j Hj. rewrite <- Hj1 by done. f_equal. apply (ev_blk _ _ _ Ev). geometry. notin.
Qed.

(** ** The loops *)
Lemma data_of_grabbed ds ds' s s' : grabbed ds s s' -> (forall b, b ∈ ds' -> ROOT_DIR_BLOCK_LBA <= b /\ b ∉ ds) ->
  data_of s' ds' = data_of s ds'.
Proof. intros Hg Hb. apply data_of_ext. intros b Hin. destruct (Hb b Hin). by eapply grabbed_blk. Qed.

(** the content a request writes *)
Definition request_data s (r : EXT2DriverRequest) : list Z :=
  mem_load (fs_mem s) (buf r) (Z.to_nat (buffer_size r)).
Definition request_ok s (r : EXT2DriverRequest) : Prop :=
  0 <= buf r /\ 0 < buffer_size r /\ buf r + buffer_size r <= ptr_size /\ mem_ok (fs_mem s).
Definition blocks_needed (r : EXT2DriverRequest) : Z := (buffer_size r + 511) / 512.

(** allocate a block and fill it with chunk [i] *)
Lemma grab_data s s1 r i b : fs_inv s -> grabbed [b] s s1 -> request_ok s r -> 0 <= i < blocks_needed r ->
  wp (write_data r (blocks_needed r) i b) (fun _ s2 =>
    grabbed [b] s s2 /\ blk s2 b = chunk (request_data s r) (Z.to_nat i)) s1.
Proof.
  intros Hi Hg (Hb & Hsz & Hw & Hm) Hir. rw /write_data. apply wp_bind, wp_gets, wp_bind.
  rewrite -> (ev_mem _ _ _ (gr_evolve _ _ _ Hg)). eapply wp_lift; [by apply data_block_spec|].
  eapply wp_mono; [apply grab_write; [done|by left|]|].
  - apply chunk_ok, mem_load_ok, Hm.
  - intros [] s2 (? & ? & _). done.
Qed.

Lemma request_frame ws s s' r : evolve ws s s' -> request_ok s r ->
  request_ok s' r /\ request_data s' r = request_data s r.
Proof. intros [_ _ Hm _] H'. by rw /request_ok /request_data Hm. Qed.

Lemma write_direct_spec k s r i node : fs_inv s -> request_ok s r -> 0 <= i ->
  wp (write_direct k r (blocks_needed r) i node) (fun node' s' => exists ds,
    len ds = Z.min (Z.min (Z.of_nat k) (Z.max 0 (blocks_needed r - i))) (free_blocks s) /\
    node' = put_blocks (Z.to_nat i) ds node /\ grabbed ds s s' /\
    data_of s' ds = chunks (request_data s r) (Z.to_nat i) (length ds)) s.
Proof.
  revert s i node. induction k as [|k IH] => s i node Hinv Hreq Hi;
    have [Hfb _] := fs_core_counts s (inv_core _ Hinv); have Hd : dev_ok (fs_dev s) by destruct Hinv as [[]].
  { apply wp_ret. exists []. split; [cbn; lia|]. split; [done|]. split; [|done].
    apply grabbed_nil; [done|]. split; [by apply evolve_refl|done]. }
  cbn [write_direct]. destruct (Z.ltb_spec i (blocks_needed r)) as [Hlt|Hge]; last first.
  { apply wp_ret. exists []. split; [cbn; lia|]. split; [done|]. split; [|done].
    apply grabbed_nil; [done|]. split; [by apply evolve_refl|done]. }
  apply wp_bind. eapply wp_mono; [by apply grab_spec|]. intros b s1 [(-> & Hz & Hf)|(Hb0 & Hpos & Hg)].
  { apply wp_ret. exists []. split; [cbn; lia|]. split; [done|]. split; [by apply grabbed_nil|done]. }
  rewrite -> (proj2 (Z.eqb_neq b 0)) by done. apply wp_bind.
  eapply wp_mono; [by apply (grab_data s s1 r i b)|]. intros [] s2 (Hg2 & Hblk).
  destruct (request_frame _ _ _ _ (gr_evolve _ _ _ Hg2) Hreq) as [Hreq2 Edata].
  eapply wp_mono; [apply IH; [apply Hg2|done|lia]|]. intros node' s3 (ds & Hlen & -> & Hg3 & Hdata).
  exists (b :: ds). have Hfb2 := gr_blocks _ _ _ Hg2. cbn [length] in Hfb2 |- *. split; [lia|].
  have -> : Z.to_nat (i + 1) = S (Z.to_nat i) by lia. split; [done|].
  have Hg13 : grabbed ([b] ++ ds) s s3 by eapply grabbed_trans. split; [done|].
  rw chunks_S /data_of. cbn [map concat]. rw -/(data_of s3 ds) Hdata Edata -Hblk.
  have -> : Z.to_nat (i + 1) = S (Z.to_nat i) by lia. f_equal.
  destruct (gr_fresh _ _ _ Hg2 b) as [Hbr _]; [by left|].
  apply (grabbed_blk ds); [done|lia|]. have := gr_nodup _ _ _ Hg13. cbn [app]. by intros [? _]%NoDup_cons.
Qed.

Lemma write_indirect_spec k s r pre node : fs_inv s -> request_ok s r ->
  (k = 128 - length pre)%nat -> (length pre <= 128)%nat ->
  wp (write_indirect k r (blocks_needed r) (12 + len pre) (ptr_table pre) node) (fun res s' => exists ids,
    len ids = Z.min (Z.min (Z.of_nat k) (Z.max 0 (blocks_needed r - (12 + len pre)))) (free_blocks s) /\
    res = (ptr_table (pre ++ ids), Nat.iter (length ids) count_block node) /\ grabbed ids s s' /\
    data_of s' ids = chunks (request_data s r) (12 + length pre) (length ids)) s.
Proof.
  revert s pre node. induction k as [|k IH] => s pre node Hinv Hreq Hk Hpre;
    have [Hfb _] := fs_core_counts s (inv_core _ Hinv); have Hd : dev_ok (fs_dev s) by destruct Hinv as [[]].
  all: have Hstop s' m : feq s s' -> m = 0 -> exists ids, len ids = m /\
    (ptr_table pre, node) = (ptr_table (pre ++ ids), Nat.iter (length ids) count_block node) /\ grabbed ids s s' /\
    data_of s' ids = chunks (request_data s r) (12 + length pre) (length ids) by
      (intros Hf ->; exists []; split; [done|]; split; [by rw app_nil_r|]; split; [by apply grabbed_nil|done]).
  all: have Hrefl : feq s s by split; [by apply evolve_refl|].
  { apply wp_ret, Hstop; [done|lia]. }
  cbn [write_indirect]. destruct (Z.ltb_spec (12 + len pre) (blocks_needed r)) as [Hlt|Hge]; last first.
  { apply wp_ret, Hstop; [done|lia]. }
  apply wp_bind. eapply wp_mono; [by apply grab_spec|]. intros b s1 [(-> & Hz & Hf)|(Hb0 & Hpos & Hg)].
  { apply wp_ret, Hstop; [done|lia]. }
  rewrite -> (proj2 (Z.eqb_neq b 0)) by done. apply wp_bind.
  have -> : (12 + len pre - 12) * 4 = 4 * len pre by lia.
  eapply wp_lift; [apply ptr_table_set; lia|]. apply wp_bind.
  eapply wp_mono; [apply (grab_data s s1 r (12 + len pre) b); [done|done|done|lia]|]. intros [] s2 (Hg2 & Hblk).
  destruct (request_frame _ _ _ _ (gr_evolve _ _ _ Hg2) Hreq) as [Hreq2 Edata].
  have Hl1 : length (pre ++ [b]) = S (length pre) by rw length_app /=; lia.
  have -> : 12 + len pre + 1 = 12 + len (pre ++ [b]) by lia.
  eapply wp_mono; [apply (IH s2 (pre ++ [b])); [apply Hg2|done|lia|lia]|].
  intros res s3 (ids & Hlen & -> & Hg3 & Hdata). exists (b :: ids).
  have Hfb2 := gr_blocks _ _ _ Hg2. cbn [length] in Hfb2 |- *. split; [lia|].
  split; [by rw -app_assoc -Nat.iter_succ_r|].
  have Hg13 : grabbed ([b] ++ ids) s s3 by eapply grabbed_trans. split; [done|].
  rw chunks_S /data_of. cbn [map concat]. rw -/(data_of s3 ids) Hdata Edata.
  have -> : (12 + length (pre ++ [b]) = S (12 + length pre))%nat by lia. f_equal.
  have <- : (Z.to_nat (12 + len pre) = 12 + length pre)%nat by lia. rw -Hblk.
  destruct (gr_fresh _ _ _ Hg2 b) as [Hbr _]; [by left|].
  apply (grabbed_blk ids); [done|lia|]. have := gr_nodup _ _ _ Hg13. cbn [app]. by intros [? _]%NoDup_cons.
Qed.

(** ** All the blocks of a file *)
(** the pointers of [node]: [ds] direct, [ids] through the indirect block *)
Definition node_maps s (node : EXT2Inode) (ds ids : list Z) : Prop :=
  prefix12 node ds /\
  ((ids = [] /\ indirect_of node = 0) \/
   (length ds = 12%nat /\ ROOT_DIR_BLOCK_LBA < indirect_of node < BLOCKS_PER_GROUP /\
    Forall (fun b => ROOT_DIR_BLOCK_LBA <= b < BLOCKS_PER_GROUP) ids /\ (length ids <= 128)%nat /\
    block_pointers (blk s (indirect_of node)) = ids ++ replicate (128 - length ids) 0)).

Lemma grabbed_range ds s s' : grabbed ds s s' -> Forall (fun b => ROOT_DIR_BLOCK_LBA < b < BLOCKS_PER_GROUP) ds.
Proof. intros Hg. apply Forall_forall. intros b Hb. by destruct (gr_fresh _ _ _ Hg b Hb). Qed.
Lemma range_le ds : Forall (fun b => ROOT_DIR_BLOCK_LBA < b < BLOCKS_PER_GROUP) ds ->
  Forall (fun b => ROOT_DIR_BLOCK_LBA <= b < BLOCKS_PER_GROUP) ds /\ Forall (fun b => 0 <= b < 2 ^ 32) ds.
Proof. intros Hf. split; (eapply Forall_impl; [exact Hf|]); intros b Hb; cbv beta in *; geometry; lia. Qed.

Lemma put_blocks_prefix12 ds node : (length ds <= 12)%nat -> i_block node = replicate 15 0 ->
  EXT2Inode_ok node -> Forall (fun b => ROOT_DIR_BLOCK_LBA < b < BLOCKS_PER_GROUP) ds ->
  prefix12 (put_blocks 0 ds node) ds /\ i_block (put_blocks 0 ds node) = ds ++ replicate (15 - length ds) 0.
Proof.
  intros Hl Hz Hok Hds. destruct (range_le _ Hds) as [Hr Hr32].
  destruct (put_blocks_spec 0 ds node) as (E & _); [rw Hz length_replicate; lia|done|done|].
  rw take_0 app_nil_l Nat.add_0_l Hz drop_replicate in E. split; [|done]. split; [done|]. split; [|done].
  rw E take_app. rewrite -> (take_ge ds) by lia. f_equal. rw take_replicate. f_equal. lia.
Qed.

Lemma iter_count_block k node : EXT2Inode_ok node -> EXT2Inode_ok (Nat.iter k count_block node) /\
  i_block (Nat.iter k count_block node) = i_block node /\
  i_mode (Nat.iter k count_block node) = i_mode node /\ i_size (Nat.iter k count_block node) = i_size node.
Proof.
  intros Hok. induction k as [|k (IH1 & IH2 & IH3 & IH4)]; [done|]. cbn [Nat.iter nat_rect].
  split; [by apply count_block_ok|]. done.
Qed.

Lemma used_range ds : Forall (fun b => ROOT_DIR_BLOCK_LBA < b < BLOCKS_PER_GROUP) ds -> used ds = ds.
Proof. intros Hr. apply used_nonzero. eapply Forall_impl; [exact Hr|]. cbn. geometry. lia. Qed.
Lemma used_zeros k : used (replicate k 0) = [].
Proof. induction k as [|k IH]; [done|]. exact IH. Qed.

(** data blocks and the indirect block *)
Definition blocks_taken (r : EXT2DriverRequest) : Z :=
  Z.min (blocks_needed r) 140 + (if 12 <? blocks_needed r then 1 else 0).
(** what is stored of a request while [f] blocks are free, and the blocks that takes *)
Definition blocks_stored (f : Z) (r : EXT2DriverRequest) : Z := let n := blocks_needed r in
  if 12 <? n then if 12 <? f then 12 + Z.min (Z.min 128 (n - 12)) (f - 13) else f else Z.min n f.
Definition blocks_grabbed (f : Z) (r : EXT2DriverRequest) : Z :=
  blocks_stored f r + (if (12 <? blocks_needed r) && (12 <? f) then 1 else 0).
Lemma blocks_enough f r : blocks_taken r <= f -> blocks_stored f r = Z.min (blocks_needed r) 140 /\ blocks_grabbed f r = blocks_taken r.
Proof.
  rw /blocks_grabbed /blocks_stored /blocks_taken. cbv zeta. destruct (Z.ltb_spec 12 (blocks_needed r)); [|cbn [andb]; lia].
  intros Hf. rewrite -> (proj2 (Z.ltb_lt 12 f)) by lia. cbn [andb]. lia.
Qed.
Lemma blocks_grabbed_le f r : 0 <= f -> blocks_grabbed f r <= f.
Proof.
  rw /blocks_grabbed /blocks_stored. cbv zeta.
  destruct (Z.ltb_spec 12 (blocks_needed r)), (Z.ltb_spec 12 f); cbn [andb]; lia.
Qed.
(** the inode that [write_file_blocks] returns, and the blocks it has taken *)
Definition file_written s s' (r : EXT2DriverRequest) (node node' : EXT2Inode) (taken : list Z) : Prop :=
  exists ds ids, grabbed taken s s' /\ (forall b, b ∈ ds ++ ids -> b ∈ taken) /\
    (indirect_of node' <> 0 -> indirect_of node' ∈ taken) /\
    node_maps s' node' ds ids /\ EXT2Inode_ok node' /\
    i_mode node' = i_mode node /\ i_size node' = i_size node /\
    used (node_blocks s' node') ≡ₚ taken /\
    len (ds ++ ids) = blocks_stored (free_blocks s) r /\ len taken = blocks_grabbed (free_blocks s) r /\
    data_of s' (ds ++ ids) = chunks (request_data s r) 0 (length (ds ++ ids)).

Lemma write_file_blocks_spec s r node : fs_inv s -> request_ok s r -> EXT2Inode_ok node ->
  i_block node = replicate 15 0 -> buffer_size r + 511 < 2 ^ 32 ->
  wp (write_file_blocks r node) (fun node' s' => exists taken, file_written s s' r node node' taken) s.
Proof.
  intros Hinv Hreq Hok Hz Hnb. have [Hf0 _] := fs_core_counts s (inv_core _ Hinv). destruct (Hreq) as (Hb & Hsz & _).
  have Hpos : 0 < blocks_needed r.
  { apply Z.div_str_pos. lia. }
  rw /write_file_blocks. have -> : u32 (buffer_size r + BLOCK_SIZE - 1) / BLOCK_SIZE = blocks_needed r.
  { rewrite -> u32_id by (geometry; lia). rw /blocks_needed. geometry. f_equal. lia. }
  cbv zeta. apply wp_bind. eapply wp_mono; [by apply write_direct_spec|].
  intros node1 s1 (ds & Hlen & -> & Hg1 & Hdata1). rw Z.sub_0_r in Hlen. change (Z.to_nat 0) with 0%nat in Hdata1.
  have Hr1 := grabbed_range _ _ _ Hg1. destruct (range_le _ Hr1) as [Hrl1 Hr32].
  destruct (put_blocks_prefix12 ds node) as [Hpre Hib]; [lia|done|done|done|].
  destruct (put_blocks_spec 0 ds node) as (_ & Emode & Esize & Hok1); [rw Hz length_replicate; lia|done|done|].
  change (Z.to_nat 0) with 0%nat.
  have Hstop s2 : feq s1 s2 -> blocks_stored (free_blocks s) r = len ds -> blocks_grabbed (free_blocks s) r = len ds ->
    exists taken, file_written s s2 r node (put_blocks 0 ds node) taken.
  { intros Hf E1 E2. exists ds, ds, []. rw app_nil_r. have Hg2 := grabbed_trans _ _ _ _ _ Hg1 (grabbed_nil _ _ (gr_inv _ _ _ Hg1) Hf).
    rw app_nil_r in Hg2. split; [done|]. split; [done|].
    have Hi0 : indirect_of (put_blocks 0 ds node) = 0.
    { rw /indirect_of Hib. rewrite -> app_nth2 by lia. apply nth_repeat_0. }
    split; [done|]. split; [split; [done|by left]|]. split; [done|]. split; [done|]. split; [done|].
    split; [|split; [lia|split; [lia|]]].
    - rw /node_blocks Hi0 app_nil_r. destruct Hpre as (_ & -> & _).
      by rw used_app used_zeros app_nil_r used_range.
    - rw -Hdata1. apply data_of_ext. intros b _. apply (feq_blk _ _ _ Hf). }
  destruct (Z.ltb_spec 12 (blocks_needed r)) as [Hbig|Hsmall]; last first.
  { apply wp_ret, Hstop; [split; [by apply evolve_refl; destruct Hg1 as [[[]]]|done]|..];
      rw ?/blocks_grabbed /blocks_stored (proj2 (Z.ltb_ge _ _) Hsmall); cbn [andb]; lia. }
  have Hfb1 := gr_blocks _ _ _ Hg1.
  apply wp_bind. eapply wp_mono; [apply grab_spec, Hg1|].
  intros ind s2 [(-> & Hz2 & Hf2)|(Hind0 & Hpos2 & Hg2)].
  { apply wp_ret, Hstop; [done|..]; rw ?/blocks_grabbed /blocks_stored (proj2 (Z.ltb_lt _ _) Hbig);
      rewrite -> (proj2 (Z.ltb_ge 12 (free_blocks s))) by lia; cbn [andb]; lia. }
  have Hl12 : length ds = 12%nat by lia. have Hf12 : (12 <? free_blocks s) = true by apply Z.ltb_lt; lia.
  rewrite -> (proj2 (Z.eqb_neq ind 0)) by done. apply wp_bind.
  have Hfb2 := gr_blocks _ _ _ Hg2. cbn [length] in Hfb2.
  destruct (request_frame _ _ _ _ (gr_evolve _ _ _ Hg1) Hreq) as [Hreq1 Edata1].
  destruct (request_frame _ _ _ _ (gr_evolve _ _ _ Hg2) Hreq1) as [Hreq2 Edata2].
  destruct (gr_fresh _ _ _ Hg2 ind) as [Hindr _]; [by left|].
  eapply wp_mono; [apply (write_indirect_spec 128 s2 r []); [apply Hg2|done|done|cbn; lia]|].
  intros [tbl node3] s3 (ids & Hleni & [= -> ->] & Hg3 & Hdata3). cbn [app fst snd].
  change (12 + len []) with 12 in Hleni. change (12 + length [])%nat with 12%nat in Hdata3.
  have Hidl : (length ids <= 128)%nat by lia. apply wp_bind.
  have Hr3 := grabbed_range _ _ _ Hg3. destruct (range_le _ Hr3) as [Hrl3 Hr33].
  have Hg13 : grabbed (ds ++ [ind] ++ ids) s s3 by eapply grabbed_trans; [done|by eapply grabbed_trans].
  have Hnd := gr_nodup _ _ _ Hg13. apply NoDup_app in Hnd as (_ & Hdd & Hnd).
  cbn [app] in Hdd, Hnd. apply NoDup_cons in Hnd as [Hni _].
  have Hind_ds : ind ∉ ds by intros Hin; apply (Hdd ind Hin); left.
  eapply wp_mono; [apply (grab_write _ _ _ _ _ Hg13); [|by apply ptr_table_ok]|].
  { apply elem_of_app. right. by left. }
  intros [] s4 (Hg4 & E4 & Ev4). apply wp_ret.
  have Hb4 b : b <> ind -> blk s4 b = blk s3 b.
  { intros Hne. apply (ev_blk _ _ _ Ev4). by rw list_elem_of_singleton. }
  set (n2 := count_block (set_block 12 ind (put_blocks 0 ds node))).
  have Hok2 : EXT2Inode_ok n2 by apply count_block_ok, set_block_ok; [done|geometry; lia].
  destruct (iter_count_block (length ids) n2 Hok2) as (Hok3 & Eb3 & Em3 & Es3).
  have Hib2 : i_block n2 = ds ++ ind :: replicate 2 0.
  { rw /n2. cbn [count_block set_blocks set_block i_block]. rw Hib Hl12 -{1}Hl12 -{1}(Nat.add_0_r (length ds)).
    by rw insert_app_r. }
  have Hindir : indirect_of (Nat.iter (length ids) count_block n2) = ind.
  { rw /indirect_of Eb3 Hib2. rewrite -> app_nth2 by lia. by rw Hl12. }
  exists (ds ++ [ind] ++ ids), ds, ids. split; [done|].
  split; [intros b; rw !elem_of_app; tauto|].
  split; [intros _; rw Hindir !elem_of_app list_elem_of_singleton; tauto|].
  have Htbl : block_pointers (blk s4 ind) = ids ++ replicate (128 - length ids) 0 by rw E4; apply ptr_table_pointers.
  split; [|split; [done|split; [by rw Em3|split; [by rw Es3|split; [|split; [|split]]]]]].
  - split.
    + split; [lia|]. split; [|done]. rw Eb3 Hib2 Hl12. rewrite -> take_app_length' by done. by rw app_nil_r.
    + right. split; [done|]. rw Hindir. done.
  - rw /node_blocks Hindir (proj2 (Z.eqb_neq ind 0) Hind0) Eb3 Hib2. rewrite -> take_app_length' by done.
    have H21 : Forall (fun b => ROOT_DIR_BLOCK_LBA < b < BLOCKS_PER_GROUP) [ind] by constructor.
    rw Htbl !used_app used_zeros app_nil_r !used_range //. by rw (Permutation_app_comm ids).
  - rw /blocks_stored (proj2 (Z.ltb_lt _ _) Hbig) Hf12 length_app. lia.
  - rw /blocks_grabbed /blocks_stored (proj2 (Z.ltb_lt _ _) Hbig) Hf12 !length_app. cbn [length andb]. lia.
  - rw length_app chunks_app /data_of map_app concat_app -/(data_of s4 ds) -/(data_of s4 ids). f_equal.
    + rw -Hdata1. apply data_of_ext. intros b Hb'. rw Hb4; [by intros ->|].
      rewrite -> Forall_forall in Hr1. have := Hr1 b Hb' => Hbr.
      rewrite -> (grabbed_blk _ _ _ b Hg3); [apply (grabbed_blk _ _ _ b Hg2); [lia|]|lia|].
      * rw list_elem_of_singleton. by intros ->.
      * intros Hin. apply (Hdd b Hb'). by right.
    + rw Hl12 -Edata1 -Edata2 -Hdata3. apply data_of_ext. intros b Hb'. apply Hb4. by intros ->.
Qed.
End Ext2Write.
