(* ===== verification/Ext2Crud.v ===== *)
(** * The calls of the file system

    [write], [read], [delete] and [stat] on the abstract view: what a
    successful call does to the directory, the file and the volume, when it is refused, and
    what [write] does when the blocks or the directory do not suffice. *)

From S2P Require Import Prelude Bitmap StdString BlockDevice Ext2Layout Ext2Dir Ext2State Ext2 Ext2Inv Ext2Files Ext2Data Ext2Write.

(** some entry of some block has room for [name] *)
Definition dirs_room (ess : list (list dentry)) (name : list Z) : bool :=
  existsb (existsb (fun e => de_actual e + align4 (8 + len name) <=? de_rec_len e)) ess.

Lemma dir_insert_room es ino name ft :
  existsb (fun e => de_actual e + align4 (8 + len name) <=? de_rec_len e) es = true <->
  is_Some (dir_insert es ino name ft).
Proof.
  induction es as [|e es IH]; cbn [existsb dir_insert]; [split; [done|by intros []]|].
  destruct (_ <=? _); cbn [orb]; [split; [by eexists|done]|]. rw IH fmap_is_Some. done.
Qed.

Lemma dirs_insert_room ess ino name ft : dirs_room ess name = true <-> is_Some (dirs_insert ess ino name ft).
Proof.
  rw /dirs_room. induction ess as [|es ess IH]; cbn [existsb dirs_insert]; [split; [done|by intros []]|].
  have := dir_insert_room es ino name ft. destruct (existsb _ es); cbn [orb] => Hr.
  - destruct (proj1 Hr eq_refl) as [es' ->]. split; [by eexists|done].
  - destruct (dir_insert es ino name ft) as [es'|].
    + by have := proj2 Hr (mk_is_Some _ _ eq_refl).
    + rw IH fmap_is_Some. done.
Qed.

(** the live entries after an insertion and a removal *)
Lemma dirs_insert_live ess ino name ft ess' : ino <> 0 -> dirs_insert ess ino name ft = Some ess' ->
  exists l1 l2, dir_live (concat ess) = l1 ++ l2 /\ dir_live (concat ess') = l1 ++ (name, (ino, ft)) :: l2.
Proof.
  intros Hi. revert ess'. induction ess as [|es ess IH] => ess'; cbn [dirs_insert]; [done|].
  destruct (dir_insert es ino name ft) as [es'|] eqn:E.
  - intros [= <-]. destruct (dir_insert_live _ _ _ _ _ Hi E) as (l1 & l2 & E1 & E2).
    exists l1, (l2 ++ dir_live (concat ess)). cbn [concat]. by rw !dir_live_app E1 E2 -!app_assoc.
  - destruct (dirs_insert ess ino name ft) as [ess0|]; [|done]. intros [= <-].
    destruct (IH ess0 eq_refl) as (l1 & l2 & E1 & E2). cbn [concat].
    exists (dir_live es ++ l1), l2. by rw !dir_live_app E1 E2 -!app_assoc.
Qed.

Lemma dirs_remove_live ess name ess' : dirs_remove ess name = Some ess' ->
  exists l1 x l2, dir_live (concat ess) = l1 ++ (name, x) :: l2 /\ (name ∉ l1.*1) /\
    dir_live (concat ess') = l1 ++ l2.
Proof.
  revert ess'. induction ess as [|es ess IH] => ess'; cbn [dirs_remove]; [done|].
  destruct (dir_remove es name) as [es'|] eqn:E.
  - intros [= <-]. destruct (dir_remove_live _ _ _ E) as (l1 & x & l2 & E1 & Hn & E2).
    exists l1, x, (l2 ++ dir_live (concat ess)). cbn [concat]. by rw !dir_live_app E1 E2 -!app_assoc.
  - destruct (dirs_remove ess name) as [ess0|]; [|done]. intros [= <-].
    destruct (IH ess0 eq_refl) as (l1 & x & l2 & E1 & Hn & E2). cbn [concat].
    exists (dir_live es ++ l1), x, l2. rw !dir_live_app E1 E2 -!app_assoc. split; [done|]. split; [|done].
    rw fmap_app not_elem_of_app. split; [|done]. apply dir_remove_none in E. rw dir_lookup_live in E.
    apply (live_lookup_none _ _ E). intros ???. apply dir_live_inode.
Qed.

Lemma dirs_remove_none ess name : dirs_remove ess name = None <-> dir_lookup (concat ess) name = 0.
Proof.
  induction ess as [|es ess IH]; cbn [dirs_remove concat]; [done|]. rw dir_lookup_app.
  destruct (Z.eqb_spec (dir_lookup es name) 0) as [E|E].
  - apply dir_remove_none in E as ->. by rw fmap_None.
  - destruct (dir_remove es name) eqn:Er; [done|]. by apply dir_remove_none in Er.
Qed.

(** look-up after an insertion: the new name is found, the others are unchanged *)
Lemma dirs_insert_lookup ess ino name ft ess' nm : ino <> 0 ->
  dirs_insert ess ino name ft = Some ess' -> dir_lookup (concat ess) name = 0 ->
  dir_lookup (concat ess') nm = if bool_decide (nm = name) then ino else dir_lookup (concat ess) nm.
Proof.
  intros Hi Hins Habs. destruct (dirs_insert_live _ _ _ _ _ Hi Hins) as (l1 & l2 & E1 & E2).
  rw !dir_lookup_live E1 E2. rw dir_lookup_live in Habs.
  have Hne : forall n i f, (n, (i, f)) ∈ l1 -> i <> 0.
  { intros n i f Hin. apply (dir_live_inode (concat ess) n i f). rw E1 elem_of_app. by left. }
  have Hno := live_lookup_none _ _ Habs (dir_live_inode _). rw E1 fmap_app not_elem_of_app in Hno.
  rewrite -> !live_lookup_app by done. cbn [live_lookup]. rewrite -> (bool_decide_ext (name = nm) (nm = name)) by done.
  case_bool_decide as Hnm; [|done]. subst nm. by rewrite -> (live_lookup_not_in l1) by tauto.
Qed.

(** names occur once; removal then makes the name absent *)
Definition names_unique (ess : list (list dentry)) : Prop := NoDup (dir_live (concat ess)).*1.

Lemma dirs_insert_unique ess ino name ft ess' : ino <> 0 -> names_unique ess ->
  dir_lookup (concat ess) name = 0 -> dirs_insert ess ino name ft = Some ess' -> names_unique ess'.
Proof.
  intros Hi Hu Habs Hins. destruct (dirs_insert_live _ _ _ _ _ Hi Hins) as (l1 & l2 & E1 & E2).
  rw dir_lookup_live in Habs. have Hno := live_lookup_none _ _ Habs (dir_live_inode _).
  rw /names_unique E1 fmap_app in Hu. rw E1 fmap_app not_elem_of_app in Hno.
  rw /names_unique E2 fmap_app fmap_cons. cbn [fst]. apply NoDup_app in Hu as (? & Hd & ?).
  apply NoDup_app. split; [done|]. split.
  - intros x Hx [->|Hx2]%elem_of_cons; [tauto|]. by eapply Hd.
  - apply NoDup_cons. tauto.
Qed.

Lemma dirs_remove_lookup ess name ess' nm : names_unique ess -> dirs_remove ess name = Some ess' ->
  dir_lookup (concat ess') nm = if bool_decide (nm = name) then 0 else dir_lookup (concat ess) nm.
Proof.
  intros Hu Hr. destruct (dirs_remove_live _ _ _ Hr) as (l1 & [i f] & l2 & E1 & Hn & E2).
  rw !dir_lookup_live E1 E2. rw /names_unique E1 fmap_app fmap_cons in Hu. cbn [fst] in Hu.
  apply NoDup_app in Hu as (_ & _ & [Hn2 _]%NoDup_cons).
  have Hne : forall n' i' f', (n', (i', f')) ∈ l1 -> i' <> 0.
  { intros n' i' f' Hin. apply (dir_live_inode (concat ess) n' i' f'). rw E1 elem_of_app. by left. }
  rewrite -> !live_lookup_app by done. cbn [live_lookup]. rewrite -> (bool_decide_ext (name = nm) (nm = name)) by done.
  case_bool_decide as Hnm; [|done]. subst nm. by rewrite -> !live_lookup_not_in by done.
Qed.

Section Ext2Crud.
Context {PW : PtrWidth} {D : Type} `{BlockDeviceLaws D} `{StackJunkLaws} `{Overrun D}.
Implicit Types s : FS D.

(** the name of a request *)
Definition request_nm s (r : EXT2DriverRequest) : list Z :=
  mem_load (fs_mem s) (name r) (Z.to_nat (name_len r)).

(** a directory in use: its blocks and its inode are marked in the bitmaps *)
Definition dir_live_at s p bs ess : Prop := dir_at s p bs ess /\
  Forall (fun b => bit (block_bitmap s) b = true) bs /\ bit (inode_bitmap s) (p - 1) = true.

Lemma feq_live s s' p bs ess : feq s s' -> dir_live_at s p bs ess -> dir_live_at s' p bs ess.
Proof.
  intros Hf (Hda & Hb & Hp). split; [by eapply feq_dir_at|]. by rw /block_bitmap /inode_bitmap !(feq_blk _ _ _ Hf).
Qed.

(** the directory takes the name, in a block with room or in a new one, after [n] other blocks *)
Definition name_fits s (bs : list Z) (ess : list (list dentry)) (nm : list Z) (n : Z) : Prop :=
  if dirs_room ess nm then n <= free_blocks s else (length bs < 12)%nat /\ n + 1 <= free_blocks s.
Lemma name_fits_entry s s' bs ess nm n ino ft : name_fits s bs ess nm n -> free_blocks s - n <= free_blocks s' ->
  entry_fits s' bs ess ino nm ft 0.
Proof.
  rw /name_fits /entry_fits. have := dirs_insert_room ess ino nm ft.
  destruct (dirs_room ess nm), (dirs_insert ess ino nm ft) as [ess'|]; intros [A B].
  - lia.
  - by destruct (A eq_refl).
  - by have := B (mk_is_Some _ _ eq_refl).
  - lia.
Qed.

(** the last two steps of [write]: the new inode and its entry *)
Lemma write_finish_spec s p bs ess ino node nm ft : fs_inv s -> dir_at s p bs ess ->
  Forall (fun b => bit (block_bitmap s) b = true) bs ->
  1 <= ino <= INODES_PER_GROUP -> ino <> p -> EXT2Inode_ok node -> len nm < 256 -> bytes_ok nm ->
  0 <= ft < 256 -> entry_fits s bs ess ino nm ft 0 ->
  wp (write_inode ino node;;
      ok ← add_entry_to_dir p ino nm ft;
      mret (if ok : bool then 0 else -1)) (fun code s' => code = 0 /\ exists s1 bs' ess',
    evolve [inode_lba ino] s s1 /\ meta_same s s1 /\ inode_at s1 ino = node /\
    (forall m, m <> ino -> 1 <= m <= INODES_PER_GROUP -> inode_at s1 m = inode_at s m) /\
    entry_placed s1 s' p bs ess ino nm ft bs' ess') s.
Proof.
  intros Hi Hda Hbits Hino Hne Hok Hnm Hnb Hft Hfit. apply wp_bind.
  eapply wp_mono; [apply write_inode_spec; [by apply fs_inv_table_ok|done|done]|].
  intros [] s1 (Ev1 & M1 & Enode & Hoth).
  have Hi1 := fs_inv_inode _ _ _ Hi Hino Ev1 M1. destruct (Hda) as [Hp _ (Hl & Hpt & Hr) _ _].
  destruct (data_blocks_not_meta bs Hr) as [_ Hni]. have Hil := inode_lba_range ino Hino.
  have Hda1 : dir_at s1 p bs ess.
  { eapply dir_at_frame; [done|done|by apply Hoth|]. intros b Hb ->%list_elem_of_singleton. by apply (Hni ino). }
  apply wp_bind. eapply wp_mono; [apply (add_entry_spec s1 p bs ess ino nm ft); [done|done| | |]|].
  - split; [geometry; lia|done].
  - rw /entry_fits. by destruct (meta_same_free _ _ M1) as [-> _].
  - rw /block_bitmap (ev_blk _ _ _ Ev1); [notin|done].
  - intros ok s2 (-> & bs' & ess' & Hep). apply wp_ret. split; [done|]. by exists s1, bs', ess'.
Qed.

(** the first steps of [write] on a name that is not there yet *)
Lemma write_start_spec s r p bs ess (K : list Z -> Z -> M (FS D) Z) Q : fs_inv s -> dir_live_at s p bs ess ->
  parent_inode r = p -> dir_lookup (concat ess) (request_nm s r) = 0 -> free_inodes s <> 0 ->
  (forall ino s1, EXT2_GOOD_OLD_FIRST_INO < ino <= INODES_PER_GROUP -> ino <> p ->
    bit (inode_bitmap s) (ino - 1) = false -> fs_inv s1 ->
    evolve [SUPERBLOCK_LBA; BGDT_LBA; INODE_BITMAP_LBA] s s1 ->
    free_inodes s1 = free_inodes s - 1 -> free_blocks s1 = free_blocks s ->
    (forall j, 0 <= j -> bit (inode_bitmap s1) j = (j =? ino - 1) || bit (inode_bitmap s) j) ->
    wp (K (request_nm s r) ino) Q s1) ->
  wp (init ← gets g_filesystem_initialized;
      if negb init then mret (-1) else
      if parent_inode r =? 0 then mret 2 else
      name ← request_name r;
      found ← find_entry_in_dir (parent_inode r) name;
      if negb (found =? 0) then mret 1 else
      new_inode_num ← allocate_node;
      if new_inode_num =? 0 then mret (-1) else K name new_inode_num) Q s.
Proof.
  intros Hi (Hda & _ & Hpb) Ep Habs Hfree HK. have Hp := da_num _ _ _ _ Hda.
  apply wp_bind, wp_gets. have -> : g_filesystem_initialized s = true by destruct Hi as [[]].
  cbn [negb]. rewrite -> (proj2 (Z.eqb_neq (parent_inode r) 0)) by lia.
  apply wp_bind, wp_gets, wp_bind. rw Ep -/(request_nm s r).
  eapply wp_mono; [by apply (find_entry_in_dir_spec s p bs ess); [apply fs_inv_table_ok|]|].
  rw Habs. intros _ s1 [-> Hf]. cbn [Z.eqb negb]. apply wp_bind.
  have Hi1 := feq_fs_inv _ _ Hi Hf. destruct (meta_same_free s s1) as [Efb Efi]; [apply Hf|].
  have Eib : inode_bitmap s1 = inode_bitmap s by apply (feq_blk _ _ _ Hf).
  eapply wp_mono; [by apply allocate_node_spec|].
  intros ino s2 [(_ & Hz & _)|(Hr & Hbit & Hi2 & Ev2 & Hfi & Hfb & Hj)]; [lia|].
  rewrite -> (proj2 (Z.eqb_neq ino 0)) by (geometry; lia). rw Eib in Hbit.
  apply HK; [done| |done|done| |lia|lia|by rw -Eib].
  - intros ->. by rw Hpb in Hbit.
  - eapply evolve_trans; [apply Hf|done|incl].
Qed.

(** [write] without a free inode *)
Lemma write_no_inode s r p bs ess : fs_inv s -> dir_live_at s p bs ess -> parent_inode r = p ->
  dir_lookup (concat ess) (request_nm s r) = 0 -> free_inodes s = 0 ->
  wp (write r) (fun code s' => code = -1 /\ feq s s') s.
Proof.
  intros Hi (Hda & _) Ep Habs E0. have Hp := da_num _ _ _ _ Hda. rw /write.
  apply wp_bind, wp_gets. have -> : g_filesystem_initialized s = true by destruct Hi as [[]].
  cbn [negb]. rewrite -> (proj2 (Z.eqb_neq (parent_inode r) 0)) by lia.
  apply wp_bind, wp_gets, wp_bind. rw Ep -/(request_nm s r).
  eapply wp_mono; [by apply (find_entry_in_dir_spec s p bs ess); [apply fs_inv_table_ok|]|].
  rw Habs. intros _ s1 [-> Hf]. cbn [Z.eqb negb]. apply wp_bind.
  have Hi1 := feq_fs_inv _ _ Hi Hf. destruct (meta_same_free s s1) as [_ Efi]; [apply Hf|].
  eapply wp_mono; [by apply allocate_node_spec|].
  intros ino s2 [(-> & _ & Hf2)|(Hr & _ & Hi2 & _ & Hfi & _)].
  - apply wp_ret. split; [done|by eapply feq_trans].
  - have [_ Hc] := fs_core_counts s2 (inv_core _ Hi2). lia.
Qed.

(** a request for a regular file of any size, its buffer in the caller's memory *)
Definition file_request s (r : EXT2DriverRequest) : Prop :=
  is_directory r = false /\ 0 <= buf r /\ 0 <= buffer_size r /\ buf r + buffer_size r <= ptr_size /\
  buffer_size r + 511 < 2 ^ 32 /\
  0 <= name_len r < 256 /\ mem_ok (fs_mem s).
(** the largest file: 12 direct and 128 indirect blocks *)
Definition max_file_size : Z := 140 * BLOCK_SIZE.

(** the block phase of [write] for a file, the empty file included *)
Lemma file_phase_spec s r : fs_inv s -> file_request s r ->
  wp (if 0 <? buffer_size r then write_file_blocks r (new_inode false (buffer_size r))
      else mret (new_inode false (buffer_size r)))
    (fun node s' => exists tk, file_written s s' r (new_inode false (buffer_size r)) node tk) s.
Proof.
  intros Hi (Ed & Hb & Hsz & Hw & Hw' & _ & Hm). have [Hf0 _] := fs_core_counts s (inv_core _ Hi).
  have Hok : EXT2Inode_ok (new_inode false (buffer_size r)).
  { apply new_inode_ok. right. lia. }
  destruct (Z.ltb_spec 0 (buffer_size r)).
  - apply write_file_blocks_spec; try done.
  - have E0 : buffer_size r = 0 by lia.
    apply wp_ret. exists [], [], []. split; [apply grabbed_nil; [done|split; [|done]; apply evolve_refl; by destruct Hi as [[]]]|].
    split; [done|]. split; [done|]. split; [split; [split; [cbn; lia|done]|by left]|]. split; [done|].
    split; [done|]. split; [done|]. split; [done|]. have En : blocks_needed r = 0 by rw /blocks_needed E0.
    rw /blocks_grabbed /blocks_stored En. cbn [Z.ltb Z.compare andb length app]. split; [lia|]. split; [lia|done].
Qed.

Lemma request_nm_ok s r : mem_ok (fs_mem s) -> 0 <= name_len r < 256 ->
  len (request_nm s r) < 256 /\ bytes_ok (request_nm s r).
Proof. intros Hm Hl. split; [rw mem_load_length; lia|by apply mem_load_ok]. Qed.

(** what survives of a directory and of the allocated blocks while blocks are taken *)
Lemma grabbed_dir_at ds s s' p bs ess : grabbed ds s s' -> dir_at s p bs ess ->
  Forall (fun b => bit (block_bitmap s) b = true) bs -> dir_at s' p bs ess /\ (forall b, b ∈ bs -> b ∉ ds).
Proof.
  intros Hg Hda Hbits. have Hn b : b ∈ bs -> b ∉ ds.
  { intros Hb Hin. destruct (gr_fresh _ _ _ Hg b Hin) as [_ E]. rewrite -> Forall_forall in Hbits.
    by rewrite -> (Hbits b Hb) in E. }
  split; [|done]. destruct (Hda) as [Hp Hm Hptr Hnd Hbl].
  constructor; rw ?(grabbed_inode _ _ _ _ Hg Hp); try done.
  eapply dir_blocks_frame; [done|apply Hg|]. intros b Hb. rw elem_of_app. intros [Hin|Hin]; [|by apply (Hn b)].
  have := prefix12_range _ _ _ Hptr Hb => ?. revert Hin. rw /meta3. notin.
Qed.

(** the part of the content that is stored while [f] blocks are free *)
Definition stored_part (f : Z) (r : EXT2DriverRequest) (data : list Z) : list Z := take (Z.to_nat (512 * blocks_stored f r)) data.
Lemma stored_enough f r data : blocks_taken r <= f -> 0 <= buffer_size r -> length data = Z.to_nat (buffer_size r) ->
  stored_part f r data = take (Z.to_nat max_file_size) data.
Proof.
  intros Hf Hsz Hl. rw /stored_part. destruct (blocks_enough f r Hf) as [-> _].
  have Hq := Z.div_mod (buffer_size r + 511) 512 ltac:(lia). have Hm := Z.mod_pos_bound (buffer_size r + 511) 512 ltac:(lia).
  rw -/(blocks_needed r) in Hq. change (Z.to_nat max_file_size) with (512 * 140)%nat.
  destruct (Z.le_ge_cases (blocks_needed r) 140); [by rewrite -> !take_ge by lia|f_equal; lia].
Qed.

(** the new file in a later state in which its blocks are as they were written *)
Lemma file_written_at s s2 s3 r node ino tk : file_written s s2 r (new_inode false (buffer_size r)) node tk ->
  file_request s r -> 1 <= ino <= INODES_PER_GROUP -> inode_at s3 ino = node ->
  (forall b, b ∈ tk -> blk s3 b = blk s2 b) ->
  (exists ds ids, file_at s3 ino ds ids (buffer_size r) (stored_part (free_blocks s) r (request_data s r))) /\
  used (node_blocks s3 (inode_at s3 ino)) ≡ₚ tk.
Proof.
  intros (ds & ids & Hg & Hsub & Hind & [Hp Hmaps] & Hok & Em & Es & Hperm & Hlen & _ & Hdata) (_ & Hb & Hsz & _)
    Hino En Hfr. split; [exists ds, ids|].
  - have Hq := Z.div_mod (buffer_size r + 511) 512 ltac:(lia).
    have Hm := Z.mod_pos_bound (buffer_size r + 511) 512 ltac:(lia). rw -/(blocks_needed r) in Hq.
    have Edata : data_of s3 (ds ++ ids) = chunks (request_data s r) 0 (length (ds ++ ids)).
    { rw -Hdata. apply data_of_ext. auto. }
    have Hrl : length (request_data s r) = Z.to_nat (buffer_size r) by apply mem_load_length.
    constructor; rw ?En; [done|by rw /is_dir_mode Em|by rw Es|done|done| |].
    + destruct Hmaps as [|(H12 & Hir & Hrange & Hl & Hptrs)]; [by left|right].
      rw Hfr; [|done]. apply Hind. geometry. lia.
    + rw Edata. pose proof (chunks_prefix (request_data s r) (length (ds ++ ids))) as E. rw Hrl in E. rw E.
      rw /stored_part. f_equal. lia.
  - rw En. have -> : node_blocks s3 node = node_blocks s2 node; [|done].
    rw /node_blocks. destruct (Z.eqb_spec (indirect_of node) 0) as [|Hne]; [done|]. do 3 f_equal. by apply Hfr, Hind.
Qed.

(** what [write] leaves when the block phase of the new inode takes the blocks [tk]:
    the facts common to files and directories *)
Record entry_made s s' (p : Z) (bs : list Z) (ess : list (list dentry)) (nm : list Z) (ft ino : Z) (tk : list Z)
    (bs' : list Z) (ess' : list (list dentry)) : Prop := {
  em_inv : fs_inv s';
  em_mem : fs_mem s' = fs_mem s;
  em_ino : EXT2_GOOD_OLD_FIRST_INO < ino <= INODES_PER_GROUP;
  em_new : bit (inode_bitmap s) (ino - 1) = false;
  em_inodes j : 0 <= j -> bit (inode_bitmap s') j = (j =? ino - 1) || bit (inode_bitmap s) j;
  em_free_inodes : free_inodes s' = free_inodes s - 1;
  em_free_blocks : free_blocks s' = free_blocks s - len tk - (len bs' - len bs);
  em_nodup : NoDup tk;
  em_fresh b : b ∈ tk -> ROOT_DIR_BLOCK_LBA < b < BLOCKS_PER_GROUP /\ bit (block_bitmap s) b = false /\ b ∉ bs';
  em_blocks : (bs' = bs /\ dirs_insert ess ino nm ft = Some ess' /\ inode_at s' p = inode_at s p) \/
    (dirs_insert ess ino nm ft = None /\ ess' = ess ++ [[mkDentry ino nm ft (zeros (504 - length nm))]] /\
     exists b, bs' = bs ++ [b] /\ ROOT_DIR_BLOCK_LBA < b < BLOCKS_PER_GROUP /\ bit (block_bitmap s) b = false);
  em_dir : dir_at s' p bs' ess';
  em_bits j : 0 <= j -> bit (block_bitmap s') j = bool_decide (j ∈ tk ++ bs') || bit (block_bitmap s) j;
  em_others m : m <> ino -> m <> p -> 1 <= m <= INODES_PER_GROUP -> inode_at s' m = inode_at s m;
  em_indirect : indirect_of (inode_at s' p) = indirect_of (inode_at s p);
  em_blk b : ROOT_DIR_BLOCK_LBA <= b -> b ∉ tk -> b ∉ bs' -> blk s' b = blk s b;
}.

(** the state after the inode and its bit: nothing of the data region changes *)
Lemma entry_made_intro s s1 s2 s3 s4 p bs ess nm ft ino tk bs' ess' node : 1 <= p <= INODES_PER_GROUP ->
  EXT2_GOOD_OLD_FIRST_INO < ino <= INODES_PER_GROUP -> ino <> p -> bit (inode_bitmap s) (ino - 1) = false ->
  evolve [SUPERBLOCK_LBA; BGDT_LBA; INODE_BITMAP_LBA] s s1 ->
  free_inodes s1 = free_inodes s - 1 -> free_blocks s1 = free_blocks s ->
  (forall j, 0 <= j -> bit (inode_bitmap s1) j = (j =? ino - 1) || bit (inode_bitmap s) j) ->
  grabbed tk s1 s2 -> evolve [inode_lba ino] s2 s3 -> meta_same s2 s3 -> inode_at s3 ino = node ->
  (forall m, m <> ino -> 1 <= m <= INODES_PER_GROUP -> inode_at s3 m = inode_at s2 m) ->
  entry_placed s3 s4 p bs ess ino nm ft bs' ess' -> Forall (fun b => bit (block_bitmap s) b = true) bs ->
  entry_made s s4 p bs ess nm ft ino tk bs' ess' /\ inode_at s4 ino = node /\
  forall b, b ∈ tk -> blk s4 b = blk s2 b.
Proof.
  intros Hp Hino Hne Hbit Ev1 Efi Efb Hj Hg Ev3 M3 Enode Hoth Hep Hbits.
  have Hino' : 1 <= ino <= INODES_PER_GROUP by geometry; lia. have Hil := inode_lba_range ino Hino'.
  have Ebb1 : block_bitmap s1 = block_bitmap s by apply (ev_blk _ _ _ Ev1); notin.
  have Ebb3 : block_bitmap s3 = block_bitmap s2 by apply (ev_blk _ _ _ Ev3); notin.
  have Eib3 : inode_bitmap s3 = inode_bitmap s2 by apply (ev_blk _ _ _ Ev3); notin.
  have Hfr b : b ∈ tk -> ROOT_DIR_BLOCK_LBA < b < BLOCKS_PER_GROUP /\ bit (block_bitmap s) b = false.
  { rw -Ebb1. apply (gr_fresh _ _ _ Hg). }
  have Hbs' b : b ∈ bs' -> (b ∈ bs \/ ROOT_DIR_BLOCK_LBA < b < BLOCKS_PER_GROUP /\ bit (block_bitmap s3) b = false).
  { destruct (ep_blocks _ _ _ _ _ _ _ _ _ _ Hep) as [(-> & _)|(_ & _ & c & -> & Hc)]; [by left|].
    intros [?| ->%list_elem_of_singleton]%elem_of_app; [by left|by right]. }
  have Htk b : b ∈ tk -> b ∉ bs'.
  { intros Hin [Hb|[_ Hb]]%Hbs'.
    - rewrite -> Forall_forall in Hbits. have := Hbits b Hb. by rewrite -> (proj2 (Hfr b Hin)).
    - rewrite -> Ebb3, (gr_bits _ _ _ Hg), bool_decide_true in Hb by (done || destruct (Hfr b Hin); geometry; lia). done. }
  have Hb3 b : ROOT_DIR_BLOCK_LBA <= b -> blk s3 b = blk s2 b.
  { intros Hb. apply (ev_blk _ _ _ Ev3). geometry. notin. }
  have Hb1 b : ROOT_DIR_BLOCK_LBA <= b -> blk s1 b = blk s b by intros; apply (ev_blk _ _ _ Ev1); geometry; notin.
  have Hin1 m : 1 <= m <= INODES_PER_GROUP -> inode_at s1 m = inode_at s m.
  { intros Hmr. apply (inode_at_frame _ _ _ _ Ev1). have := inode_lba_range m Hmr => ?. notin. }
  destruct (meta_same_free _ _ M3) as [Eb3 Ei3]. have [? Hgb] := conj (gr_inodes _ _ _ Hg) (gr_blocks _ _ _ Hg).
  destruct Hep as [Hi' Em Hbl Hdir Hfb Hfi Hbb Hib Hothers Hind Hblk].
  split; [|split; [by rw Hothers|intros b Hb; rewrite -> Hblk, Hb3; destruct (Hfr b Hb); auto; lia]].
  constructor; [done| |done|done| |lia|lia|apply Hg| | |done| | | |].
  - destruct Ev1, Ev3, (gr_evolve _ _ _ Hg). congruence.
  - intros j Hj0. by rw Hib Eib3 (grabbed_inode_bitmap _ _ _ Hg) Hj.
  - intros b Hb. destruct (Hfr b Hb). auto.
  - destruct Hbl as [(A & B & C)|(A & B & c & -> & Hc & Hcb)].
    { left. split; [done|]. split; [done|]. by rewrite -> C, Hoth, (grabbed_inode _ _ _ _ Hg), Hin1 by done. }
    right. split; [done|]. split; [done|]. exists c.
    split; [done|]. split; [done|]. rewrite -> Ebb3, (gr_bits _ _ _ Hg), Ebb1 in Hcb by (geometry; lia).
    by apply orb_false_iff in Hcb as [_ ?].
  - intros j Hj0. rewrite -> Hbb, Ebb3, (gr_bits _ _ _ Hg), Ebb1, orb_assoc by done. f_equal.
    rewrite -> (bool_decide_ext (j ∈ tk ++ bs') (j ∈ bs' \/ j ∈ tk)), bool_decide_or by (rw elem_of_app; tauto). done.
  - intros m Hmi Hmp Hmr. rewrite -> Hothers, Hoth, (grabbed_inode _ _ _ _ Hg), Hin1 by done. done.
  - by rewrite -> Hind, Hoth, (grabbed_inode _ _ _ _ Hg), Hin1 by done.
  - intros b Hb Hbt Hbb'. rewrite -> Hblk, Hb3, (grabbed_blk _ _ _ b Hg), Hb1 by done. done.
Qed.

Lemma write_core_spec s r p bs ess ft n (phase : Z -> M (FS D) EXT2Inode)
    (R : Z -> FS D -> FS D -> list Z -> EXT2Inode -> Prop) :
  fs_inv s -> dir_live_at s p bs ess -> parent_inode r = p ->
  len (request_nm s r) < 256 -> bytes_ok (request_nm s r) -> 0 <= ft < 256 ->
  dir_lookup (concat ess) (request_nm s r) = 0 -> name_fits s bs ess (request_nm s r) n ->
  free_inodes s <> 0 ->
  (forall ino s1, EXT2_GOOD_OLD_FIRST_INO < ino <= INODES_PER_GROUP -> fs_inv s1 ->
    fs_mem s1 = fs_mem s -> free_blocks s1 = free_blocks s ->
    wp (phase ino) (fun node s2 => exists tk, grabbed tk s1 s2 /\ len tk <= n /\ EXT2Inode_ok node /\ R ino s1 s2 tk node) s1) ->
  wp (init ← gets g_filesystem_initialized;
      if negb init then mret (-1) else
      if parent_inode r =? 0 then mret 2 else
      name ← request_name r;
      found ← find_entry_in_dir (parent_inode r) name;
      if negb (found =? 0) then mret 1 else
      new_inode_num ← allocate_node;
      if new_inode_num =? 0 then mret (-1) else
      node ← phase new_inode_num;
      write_inode new_inode_num node;;
      ok ← add_entry_to_dir (parent_inode r) new_inode_num name ft;
      mret (if ok : bool then 0 else -1))
    (fun code s' => code = 0 /\ exists ino tk bs' ess',
      entry_made s s' p bs ess (request_nm s r) ft ino tk bs' ess' /\
      exists s1 s2, fs_mem s1 = fs_mem s /\ grabbed tk s1 s2 /\ R ino s1 s2 tk (inode_at s' ino) /\
        forall b, b ∈ tk -> blk s' b = blk s2 b) s.
Proof.
  intros Hi Hdl Ep Hnm Hnb Hft Habs Hroom Hfi Hphase.
  apply (write_start_spec s r p bs ess (fun name ino => node ← phase ino; write_inode ino node;;
      ok ← add_entry_to_dir (parent_inode r) ino name ft; mret (if ok : bool then 0 else -1))); [done..|].
  intros ino s1 Hino Hne Hbit Hi1 Ev1 Efi Efb Hj. destruct Hdl as (Hda & Hbits & _). rw Ep.
  have Em1 : fs_mem s1 = fs_mem s by destruct Ev1. have Hp := da_num _ _ _ _ Hda.
  have Ebb : block_bitmap s1 = block_bitmap s by apply (ev_blk _ _ _ Ev1); notin.
  have Hda1 : dir_at s1 p bs ess.
  { eapply dir_at_frame; [done|done| |].
    - apply (inode_at_frame _ _ _ _ Ev1). have := inode_lba_range p Hp => ?. notin.
    - intros b Hb. have := prefix12_range _ _ _ (da_ptrs _ _ _ _ Hda) Hb => ?. notin. }
  apply wp_bind. eapply wp_mono; [by apply Hphase|]. intros node s2 (tk & Hg & Hn & Hok & HR).
  have Hbits1 := Hbits. rw -Ebb in Hbits1. destruct (grabbed_dir_at _ _ _ _ _ _ Hg Hda1 Hbits1) as [Hda2 _].
  have Hgb := gr_blocks _ _ _ Hg.
  eapply wp_mono; [apply (write_finish_spec s2 p bs ess ino node (request_nm s r) ft);
    [apply Hg|done| |geometry; lia|done..|eapply name_fits_entry; [exact Hroom|lia]]|].
  { apply Forall_forall. intros b Hb. have := prefix12_range _ _ _ (da_ptrs _ _ _ _ Hda) Hb => ?.
    rewrite -> Forall_forall in Hbits1. rewrite -> (gr_bits _ _ _ Hg), (Hbits1 b Hb), orb_true_r by lia. done. }
  intros code s4 (-> & s3 & bs' & ess' & Ev3 & M3 & Enode & Hoth & Hep). split; [done|]. exists ino, tk, bs', ess'.
  destruct (entry_made_intro s s1 s2 s3 s4 p bs ess (request_nm s r) ft ino tk bs' ess' node) as (Hem & Ei & Hkeep); [done..|].
  split; [done|]. exists s1, s2. by rw Ei.
Qed.

(** [write] when the directory cannot take the name: the new inode and its blocks stay marked *)
Lemma write_core_refused s r p bs ess ft (n : Z) (phase : Z -> M (FS D) EXT2Inode) :
  fs_inv s -> dir_live_at s p bs ess -> parent_inode r = p ->
  len (request_nm s r) < 256 -> bytes_ok (request_nm s r) -> 0 <= ft < 256 ->
  dir_lookup (concat ess) (request_nm s r) = 0 -> dirs_room ess (request_nm s r) = false ->
  length bs = 12%nat \/ free_blocks s = n -> free_inodes s <> 0 ->
  (forall ino s1, EXT2_GOOD_OLD_FIRST_INO < ino <= INODES_PER_GROUP -> fs_inv s1 ->
    fs_mem s1 = fs_mem s -> free_blocks s1 = free_blocks s ->
    wp (phase ino) (fun node s2 => exists tk, grabbed tk s1 s2 /\ len tk = n /\ EXT2Inode_ok node) s1) ->
  wp (init ← gets g_filesystem_initialized;
      if negb init then mret (-1) else
      if parent_inode r =? 0 then mret 2 else
      name ← request_name r;
      found ← find_entry_in_dir (parent_inode r) name;
      if negb (found =? 0) then mret 1 else
      new_inode_num ← allocate_node;
      if new_inode_num =? 0 then mret (-1) else
      node ← phase new_inode_num;
      write_inode new_inode_num node;;
      ok ← add_entry_to_dir (parent_inode r) new_inode_num name ft;
      mret (if ok : bool then 0 else -1))
    (fun code s' => code = -1 /\ fs_inv s' /\ dir_live_at s' p bs ess /\
      free_inodes s' = free_inodes s - 1 /\ free_blocks s' = free_blocks s - n /\
      exists ino, EXT2_GOOD_OLD_FIRST_INO < ino <= INODES_PER_GROUP /\ ino <> p /\
        bit (inode_bitmap s) (ino - 1) = false /\ bit (inode_bitmap s') (ino - 1) = true) s.
Proof.
  intros Hi Hdl Ep Hnm Hnb Hft Habs Hroom Hno Hfi Hphase.
  apply (write_start_spec s r p bs ess (fun name ino => node ← phase ino; write_inode ino node;;
      ok ← add_entry_to_dir (parent_inode r) ino name ft; mret (if ok : bool then 0 else -1))); [done..|].
  intros ino s1 Hino Hne Hbit Hi1 Ev1 Efi Efb Hj. destruct Hdl as (Hda & Hbits & Hpb). rw Ep.
  have Em1 : fs_mem s1 = fs_mem s by destruct Ev1. have Hp := da_num _ _ _ _ Hda.
  have Hino' : 1 <= ino <= INODES_PER_GROUP by geometry; lia. have Hil := inode_lba_range ino Hino'.
  have Hbr b : b ∈ bs -> 21 <= b < 256 by apply prefix12_range with (1 := da_ptrs _ _ _ _ Hda).
  have Ebb : block_bitmap s1 = block_bitmap s by apply (ev_blk _ _ _ Ev1); notin.
  have Hda1 : dir_at s1 p bs ess.
  { eapply dir_at_frame; [done|done| |].
    - apply (inode_at_frame _ _ _ _ Ev1). have := inode_lba_range p Hp => ?. notin.
    - intros b Hb. have := Hbr b Hb => ?. notin. }
  apply wp_bind. eapply wp_mono; [by apply Hphase|]. intros node s2 (tk & Hg & Hn & Hok).
  have Hbits1 := Hbits. rw -Ebb in Hbits1. destruct (grabbed_dir_at _ _ _ _ _ _ Hg Hda1 Hbits1) as [Hda2 _].
  have Hgb := gr_blocks _ _ _ Hg. have Hgi := gr_inodes _ _ _ Hg. apply wp_bind.
  eapply wp_mono; [apply write_inode_spec; [apply fs_inv_table_ok, Hg|done|done]|].
  intros [] s3 (Ev3 & M3 & Enode & Hoth). have Hi3 := fs_inv_inode _ _ _ (gr_inv _ _ _ Hg) Hino' Ev3 M3.
  have Hda3 : dir_at s3 p bs ess.
  { eapply dir_at_frame; [done|done|apply Hoth; [by intros ->|done]|]. intros b Hb. have := Hbr b Hb => ?. notin. }
  destruct (meta_same_free _ _ M3) as [Eb3 Ei3]. apply wp_bind.
  eapply wp_mono; [apply (add_entry_refused_spec s3 p bs ess ino (request_nm s r) ft); [done|done| | |]|].
  - split; [geometry; lia|done].
  - have := dirs_insert_room ess ino (request_nm s r) ft. rw Hroom.
    destruct (dirs_insert _ _ _ _); [|done]. intros [_ E]. by have := E (mk_is_Some _ _ eq_refl).
  - destruct Hno as [?|?]; [by left|right; lia].
  - intros ok s4 (-> & Hf4). apply wp_ret. split; [done|]. have Hi4 := feq_fs_inv _ _ Hi3 Hf4. split; [done|].
    have Eb4 : block_bitmap s4 = block_bitmap s2.
    { rw /block_bitmap (feq_blk _ _ _ Hf4). apply (ev_blk _ _ _ Ev3). notin. }
    have Ei4 : inode_bitmap s4 = inode_bitmap s1.
    { rw /inode_bitmap (feq_blk _ _ _ Hf4) -/(inode_bitmap s1) -(grabbed_inode_bitmap _ _ _ Hg). apply (ev_blk _ _ _ Ev3). notin. }
    destruct (meta_same_free s3 s4) as [Ef4 Efi4]; [apply Hf4|].
    split; [split; [by eapply feq_dir_at|split]|].
    + apply Forall_forall. intros b Hb. have := Hbr b Hb => ?. rewrite -> Forall_forall in Hbits1.
      rewrite -> Eb4, (gr_bits _ _ _ Hg), (Hbits1 b Hb), orb_true_r by lia. done.
    + rewrite -> Ei4, Hj, Hpb, orb_true_r by lia. done.
    + split; [lia|]. split; [lia|]. exists ino. split; [done|]. split; [done|]. split; [done|].
      rewrite -> Ei4, Hj, Z.eqb_refl by lia. done.
Qed.

(** an inode in use whose blocks are marked, and apart from the directory's *)
Definition file_live_at s n (bs : list Z) : Prop :=
  EXT2_GOOD_OLD_FIRST_INO < n <= INODES_PER_GROUP /\ bit (inode_bitmap s) (n - 1) = true /\
  allocated s (node_blocks s (inode_at s n)) /\
  (forall b, b ∈ used (node_blocks s (inode_at s n)) -> b ∉ bs).

Lemma indirect_in_node_blocks s node : indirect_of node <> 0 ->
  indirect_of node ∈ used (node_blocks s node).
Proof.
  intros Hne. apply elem_of_used. split; [done|]. rw /node_blocks (proj2 (Z.eqb_neq _ _) Hne).
  apply elem_of_app; right; apply elem_of_app; right. by left.
Qed.

Section Made.
Context s s' p bs ess nm ft ino tk bs' ess' (Hem : entry_made s s' p bs ess nm ft ino tk bs' ess').
Lemma made_bit : bit (inode_bitmap s') (ino - 1) = true.
Proof. have Hr := em_ino _ _ _ _ _ _ _ _ _ _ _ Hem. rewrite -> (em_inodes _ _ _ _ _ _ _ _ _ _ _ Hem) by (geometry; lia). by rw Z.eqb_refl. Qed.
Lemma made_allocated l : used l ≡ₚ tk -> allocated s' l.
Proof.
  intros Hp. split; [rewrite -> Hp; apply Hem|]. intros b Hb Hb0.
  have Hin : b ∈ tk by rewrite <- Hp; apply elem_of_used.
  destruct (em_fresh _ _ _ _ _ _ _ _ _ _ _ Hem b Hin) as [Hr _]. split; [done|].
  rewrite -> (em_bits _ _ _ _ _ _ _ _ _ _ _ Hem), bool_decide_true by (geometry; lia || apply elem_of_app; by left). done.
Qed.
Lemma made_file_live : used (node_blocks s' (inode_at s' ino)) ≡ₚ tk -> file_live_at s' ino bs'.
Proof.
  intros Hp. split; [apply Hem|]. split; [apply made_bit|]. split; [by apply made_allocated|].
  intros b. rewrite -> Hp. apply (em_fresh _ _ _ _ _ _ _ _ _ _ _ Hem).
Qed.
Lemma made_dir_live : bit (inode_bitmap s) (p - 1) = true -> Forall (fun b => ROOT_DIR_BLOCK_LBA <= b < BLOCKS_PER_GROUP) bs' ->
  dir_live_at s' p bs' ess'.
Proof.
  intros Hpb Hr. have Hp := da_num _ _ _ _ (em_dir _ _ _ _ _ _ _ _ _ _ _ Hem). split; [apply Hem|]. split.
  - apply Forall_forall. intros b Hb. rewrite -> Forall_forall in Hr. have := Hr b Hb => ?.
    rewrite -> (em_bits _ _ _ _ _ _ _ _ _ _ _ Hem), bool_decide_true by (geometry; lia || apply elem_of_app; by right). done.
  - rewrite -> (em_inodes _ _ _ _ _ _ _ _ _ _ _ Hem), Hpb, orb_true_r by lia. done.
Qed.
End Made.

(** a new file, also where the directory takes a further block for its name and where the
    blocks do not suffice *)
Lemma write_file_stored s r p bs ess : fs_inv s -> dir_live_at s p bs ess -> parent_inode r = p ->
  file_request s r -> dir_lookup (concat ess) (request_nm s r) = 0 ->
  name_fits s bs ess (request_nm s r) (blocks_grabbed (free_blocks s) r) -> free_inodes s <> 0 ->
  wp (write r) (fun code s' => code = 0 /\ exists ino tk bs' ess' ds ids,
    entry_made s s' p bs ess (request_nm s r) EXT2_FT_REG_FILE ino tk bs' ess' /\ len tk = blocks_grabbed (free_blocks s) r /\
    file_at s' ino ds ids (buffer_size r) (stored_part (free_blocks s) r (request_data s r)) /\
    used (node_blocks s' (inode_at s' ino)) ≡ₚ tk) s.
Proof.
  intros Hi Hdl Ep Hfr Habs Hfit Hfi. destruct (Hfr) as (Ed & _ & _ & _ & _ & Hnl & Hm).
  destruct (request_nm_ok s r Hm Hnl) as [Hnm Hnb']. rw /write Ed. cbn [negb andb].
  eapply wp_mono; [apply (write_core_spec s r p bs ess EXT2_FT_REG_FILE (blocks_grabbed (free_blocks s) r)
    (fun _ => if 0 <? buffer_size r then write_file_blocks r (new_inode false (buffer_size r))
              else mret (new_inode false (buffer_size r)))
    (fun _ s1 s2 tk node => free_blocks s1 = free_blocks s /\ file_written s1 s2 r (new_inode false (buffer_size r)) node tk)); try done|].
  { intros ino s1 _ Hi1 Em1 Efb. eapply wp_mono.
    - apply file_phase_spec; [done|by rw /file_request Em1].
    - intros node s2 (tk & Hfw). have Hfw' := Hfw. destruct Hfw' as (ds & ids & Hg & _ & _ & _ & Hok & _ & _ & _ & _ & Hl & _).
      rw Efb in Hl. exists tk. split; [done|]. split; [lia|done]. }
  intros code s' (-> & ino & tk & bs' & ess' & Hem & s1 & s2 & Em1 & Hg & [Efb Hfw] & Hkeep). split; [done|].
  destruct (file_written_at s1 s2 s' r _ ino tk Hfw) as ((ds & ids & Hfa) & Hperm);
    [by rw /file_request Em1|have := em_ino _ _ _ _ _ _ _ _ _ _ _ Hem; geometry; lia|done|done|].
  exists ino, tk, bs', ess', ds, ids. split; [done|]. rw /request_data Em1 Efb in Hfa. split; [|done].
  rw -Efb. by destruct Hfw as (? & ? & _ & _ & _ & _ & _ & _ & _ & _ & _ & ? & _).
Qed.
(** the same where the blocks suffice *)
Lemma write_file_made s r p bs ess : fs_inv s -> dir_live_at s p bs ess -> parent_inode r = p ->
  file_request s r -> dir_lookup (concat ess) (request_nm s r) = 0 ->
  name_fits s bs ess (request_nm s r) (blocks_taken r) -> free_inodes s <> 0 ->
  wp (write r) (fun code s' => code = 0 /\ exists ino tk bs' ess' ds ids,
    entry_made s s' p bs ess (request_nm s r) EXT2_FT_REG_FILE ino tk bs' ess' /\ len tk = blocks_taken r /\
    file_at s' ino ds ids (buffer_size r) (take (Z.to_nat max_file_size) (request_data s r)) /\
    used (node_blocks s' (inode_at s' ino)) ≡ₚ tk) s.
Proof.
  intros Hi Hdl Ep Hfr Habs Hfit Hfi.
  have Hfb : blocks_taken r <= free_blocks s by move: Hfit; rw /name_fits; destruct (dirs_room _ _); lia.
  have [_ Eg] := blocks_enough _ _ Hfb. have Hsz : 0 <= buffer_size r by destruct Hfr as (_ & _ & ? & _).
  eapply wp_mono; [by apply (write_file_stored s r p bs ess); rw ?Eg|]. rw Eg.
  rewrite -> (stored_enough _ _ _ Hfb Hsz) by apply mem_load_length. done.
Qed.

(** the same where a block of the directory has room *)
Definition entry_created s s' p bs ess nm ft ino : Prop :=
  fs_inv s' /\ fs_mem s' = fs_mem s /\
  EXT2_GOOD_OLD_FIRST_INO < ino <= INODES_PER_GROUP /\ bit (inode_bitmap s) (ino - 1) = false /\
  bit (inode_bitmap s') (ino - 1) = true /\ free_inodes s' = free_inodes s - 1 /\
  (exists ess', dirs_insert ess ino nm ft = Some ess' /\ dir_live_at s' p bs ess') /\
  (forall m, m <> ino -> 1 <= m <= INODES_PER_GROUP -> inode_at s' m = inode_at s m) /\
  (forall b, ROOT_DIR_BLOCK_LBA <= b -> bit (block_bitmap s) b = true -> b ∉ bs -> blk s' b = blk s b) /\
  (forall j, 0 <= j -> bit (inode_bitmap s) j = true -> bit (inode_bitmap s') j = true) /\
  (forall j, 0 <= j -> bit (block_bitmap s) j = true -> bit (block_bitmap s') j = true).
Lemma made_created s s' p bs ess nm ft ino tk bs' ess' : entry_made s s' p bs ess nm ft ino tk bs' ess' ->
  dirs_room ess nm = true -> dir_live_at s p bs ess -> bs' = bs /\ entry_created s s' p bs ess nm ft ino.
Proof.
  intros Hem Hroom (Hda & Hbits & Hpb). destruct (proj1 (dirs_insert_room ess ino _ ft) Hroom) as [ess2 Hins].
  destruct (em_blocks _ _ _ _ _ _ _ _ _ _ _ Hem) as [(-> & Hins' & Ei)|(Hno & _)]; [|by rw Hins in Hno].
  have Hr : Forall (fun b => ROOT_DIR_BLOCK_LBA <= b < BLOCKS_PER_GROUP) bs by destruct Hda as [_ _ (_ & _ & ?) _ _].
  have Hdl := made_dir_live _ _ _ _ _ _ _ _ _ _ _ Hem Hpb Hr. have Hbit := made_bit _ _ _ _ _ _ _ _ _ _ _ Hem.
  destruct Hem as [Hi Em Hino Hnew Hib Hfi _ Hnd Hfresh _ _ Hbb Hoth _ Hblk]. split; [done|].
  split; [done|]. split; [done|]. split; [done|]. split; [done|]. split; [done|]. split; [done|]. split; [by exists ess'|].
  split; [intros m Hm Hmr; destruct (decide (m = p)) as [->|]; [done|by apply Hoth]|].
  split; [intros b Hb Hbit' Hbs; apply Hblk; [done| |done]; intros Hin; destruct (Hfresh b Hin) as (_ & E & _); by rw Hbit' in E|].
  split; intros j Hj E; [rw Hib|rw Hbb]; rw ?E ?orb_true_r //.
Qed.

Lemma write_file_spec s r p bs ess : fs_inv s -> dir_live_at s p bs ess -> parent_inode r = p ->
  file_request s r -> dir_lookup (concat ess) (request_nm s r) = 0 ->
  dirs_room ess (request_nm s r) = true -> free_inodes s <> 0 ->
  blocks_taken r <= free_blocks s ->
  wp (write r) (fun code s' => code = 0 /\ exists ino ds ids,
    entry_created s s' p bs ess (request_nm s r) EXT2_FT_REG_FILE ino /\
    file_at s' ino ds ids (buffer_size r) (take (Z.to_nat max_file_size) (request_data s r)) /\ file_live_at s' ino bs /\
    free_blocks s' = free_blocks s - len (used (node_blocks s' (inode_at s' ino))) /\
    (forall b, b ∈ used (node_blocks s' (inode_at s' ino)) -> bit (block_bitmap s) b = false)) s.
Proof.
  intros Hi Hdl Ep Hfr Habs Hroom Hfi Hfb.
  eapply wp_mono; [by apply (write_file_made s r p bs ess); rw ?/name_fits ?Hroom|].
  intros code s' (-> & ino & tk & bs' & ess' & ds & ids & Hem & _ & Hfa & Hperm). split; [done|].
  destruct (made_created _ _ _ _ _ _ _ _ _ _ _ Hem Hroom Hdl) as [-> Hec]. exists ino, ds, ids.
  split; [done|]. split; [done|]. split; [by eapply made_file_live|]. have Hl := Permutation_length Hperm. split.
  - have := em_free_blocks _ _ _ _ _ _ _ _ _ _ _ Hem. lia.
  - intros b. rewrite -> Hperm. apply (em_fresh _ _ _ _ _ _ _ _ _ _ _ Hem).
Qed.

(** a directory request: one block with [.] and [..] *)
Lemma dir_phase_spec s r ino : fs_inv s -> 1 <= ino <= INODES_PER_GROUP -> 1 <= parent_inode r <= INODES_PER_GROUP ->
  0 < free_blocks s ->
  wp (write_dir_block r ino (new_inode true (buffer_size r))) (fun node s2 => exists tk,
    grabbed tk s s2 /\ EXT2Inode_ok node /\ exists b, tk = [b] /\ is_dir_mode node = true /\ indirect_of node = 0 /\
      prefix12 node [b] /\ dir_block (blk s2 b) (dot_entries ino (parent_inode r))) s.
Proof.
  intros Hi Hino Hp Hfree. rw /write_dir_block. apply wp_bind.
  eapply wp_mono; [by apply grab_spec|]. intros b s1 [(_ & Hz & _)|(Hb & _ & Hg)]; [lia|].
  rewrite -> (proj2 (Z.eqb_neq b 0)) by done. apply wp_bind.
  destruct (dot_block_spec ino (parent_inode r)) as (buf & Eb & Hbuf); [geometry; lia|geometry; lia|].
  eapply wp_lift; [exact Eb|]. apply wp_bind.
  eapply wp_mono; [apply (grab_write _ _ _ _ _ Hg); [by left|by eapply dir_block_buffer_ok]|].
  intros [] s2 (Hg2 & E2 & _). apply wp_ret. exists [b]. split; [done|].
  destruct (gr_fresh _ _ _ Hg2 b) as [Hbr _]; [by left|].
  split; [apply set_size_ok; [apply set_blocks_ok; [apply set_block_ok; [by apply new_inode_ok; left|geometry; lia]|done]|done]|].
  exists b. split; [done|]. split; [done|]. split; [done|]. split; [|by rw E2].
  split; [cbn; lia|]. split; [done|]. constructor; [lia|done].
Qed.

(** and without a free block: an inode without blocks *)
Lemma dir_phase_any s r ino : fs_inv s -> 1 <= ino <= INODES_PER_GROUP -> 1 <= parent_inode r <= INODES_PER_GROUP ->
  wp (write_dir_block r ino (new_inode true (buffer_size r))) (fun node s2 => exists tk,
    grabbed tk s s2 /\ len tk = Z.min 1 (free_blocks s) /\ EXT2Inode_ok node) s.
Proof.
  intros Hi Hino Hp. have [Hf0 _] := fs_core_counts s (inv_core _ Hi).
  destruct (Z.eq_dec (free_blocks s) 0) as [E0|Hne].
  - rw /write_dir_block. apply wp_bind. eapply wp_mono; [by apply grab_spec|]. intros b s1 [(-> & _ & Hf)|(_ & Hpos & _)]; [|lia].
    apply wp_ret. exists []. split; [by apply grabbed_nil|]. split; [by rw E0|]. by apply new_inode_ok; left.
  - eapply wp_mono; [apply dir_phase_spec; [done|done|done|lia]|]. intros node s2 (tk & Hg & Hok & b & -> & _).
    exists [b]. split; [done|]. split; [cbn [length]; lia|done].
Qed.

Lemma write_dir_made s r p bs ess : fs_inv s -> dir_live_at s p bs ess -> parent_inode r = p ->
  is_directory r = true -> 0 <= name_len r < 256 -> mem_ok (fs_mem s) ->
  dir_lookup (concat ess) (request_nm s r) = 0 -> name_fits s bs ess (request_nm s r) 1 -> free_inodes s <> 0 ->
  wp (write r) (fun code s' => code = 0 /\ exists ino b bs' ess',
    entry_made s s' p bs ess (request_nm s r) EXT2_FT_DIR ino [b] bs' ess' /\
    indirect_of (inode_at s' ino) = 0 /\ dir_live_at s' ino [b] [dot_entries ino p]) s.
Proof.
  intros Hi Hdl Ep Ed Hnl Hm Habs Hfit Hfi.
  destruct (request_nm_ok s r Hm Hnl) as [Hnm Hnb']. rw /write Ed. cbn [negb andb].
  have Hp : 1 <= p <= INODES_PER_GROUP by destruct Hdl as ([] & _).
  have Hfb : 1 <= free_blocks s by move: Hfit; rw /name_fits; destruct (dirs_room _ _); lia.
  eapply wp_mono; [apply (write_core_spec s r p bs ess EXT2_FT_DIR 1
    (fun ino => write_dir_block r ino (new_inode true (buffer_size r)))
    (fun ino s1 s2 tk node => exists b, tk = [b] /\ is_dir_mode node = true /\ indirect_of node = 0 /\
      prefix12 node [b] /\ dir_block (blk s2 b) (dot_entries ino (parent_inode r)))); try done|].
  { intros ino s1 Hino Hi1 Em1 Efb. eapply wp_mono; [apply dir_phase_spec; [done|geometry; lia|by rw Ep|lia]|].
    intros node s2 (tk & Hg & Hok & b & -> & HR). exists [b]. split; [done|]. split; [cbn; lia|]. split; [done|]. by exists b. }
  intros code s' (-> & ino & tk & bs' & ess' & Hem & s1 & s2 & _ & Hg & (b & -> & Hmode & Hind & Hpre & Hbl) & Hkeep).
  split; [done|]. exists ino, b, bs', ess'. split; [done|]. split; [done|].
  have Hino := em_ino _ _ _ _ _ _ _ _ _ _ _ Hem. split; [|split; [|by eapply made_bit]].
  - constructor; [geometry; lia|done|done|apply NoDup_singleton|]. constructor; [|done].
    rewrite -> Hkeep, Ep in * by (by left). done.
  - constructor; [|done]. destruct (em_fresh _ _ _ _ _ _ _ _ _ _ _ Hem b) as [Hr _]; [by left|].
    rewrite -> (em_bits _ _ _ _ _ _ _ _ _ _ _ Hem), bool_decide_true by (geometry; lia || by left). done.
Qed.

Lemma write_dir_spec s r p bs ess : fs_inv s -> dir_live_at s p bs ess -> parent_inode r = p ->
  is_directory r = true -> 0 <= name_len r < 256 -> mem_ok (fs_mem s) ->
  dir_lookup (concat ess) (request_nm s r) = 0 -> dirs_room ess (request_nm s r) = true ->
  free_inodes s <> 0 -> 0 < free_blocks s ->
  wp (write r) (fun code s' => code = 0 /\ exists ino b,
    entry_created s s' p bs ess (request_nm s r) EXT2_FT_DIR ino /\
    dir_live_at s' ino [b] [dot_entries ino p] /\ free_blocks s' = free_blocks s - 1) s.
Proof.
  intros Hi Hdl Ep Ed Hnl Hm Habs Hroom Hfi Hfb.
  eapply wp_mono; [apply (write_dir_made s r p bs ess); rw ?/name_fits ?Hroom //; lia|].
  intros code s' (-> & ino & b & bs' & ess' & Hem & _ & Hdl'). split; [done|]. exists ino, b.
  destruct (made_created _ _ _ _ _ _ _ _ _ _ _ Hem Hroom Hdl) as [-> Hec]. split; [done|]. split; [done|].
  have := em_free_blocks _ _ _ _ _ _ _ _ _ _ _ Hem. cbn [length]. lia.
Qed.

(** ** Deletion *)
(** writes to directory blocks leave the file alone *)
Lemma file_live_frame s s' n bs : file_live_at s n bs -> fs_inv s' -> evolve bs s s' ->
  Forall (fun b => ROOT_DIR_BLOCK_LBA <= b < BLOCKS_PER_GROUP) bs ->
  inode_at s' n = inode_at s n /\ node_blocks s' (inode_at s' n) = node_blocks s (inode_at s n) /\
  inode_bitmap s' = inode_bitmap s /\ block_bitmap s' = block_bitmap s /\
  allocated s' (node_blocks s' (inode_at s' n)).
Proof.
  intros (Hn & Hbit & [Hnd Hall] & Hdis) Hi Ev Hr. destruct (data_blocks_not_meta bs Hr) as [Hm Hni].
  have Hn' : 1 <= n <= INODES_PER_GROUP by geometry; lia.
  have Ei : inode_at s' n = inode_at s n by apply (inode_at_frame _ _ _ _ Ev), Hni.
  destruct (evolve_bitmaps _ _ _ Ev Hr) as [Ebb Eib].
  have En : node_blocks s' (inode_at s' n) = node_blocks s (inode_at s n).
  { rw Ei /node_blocks. destruct (Z.eqb_spec (indirect_of (inode_at s n)) 0) as [|Hne]; [done|].
    do 3 f_equal. apply (ev_blk _ _ _ Ev), Hdis. by apply indirect_in_node_blocks. }
  split; [done|]. split; [done|]. split; [done|]. split; [done|]. rw En. split; [done|].
  intros b Hb Hb0. rw Ebb. by apply Hall.
Qed.

(** the common tail of [delete] *)
Lemma delete_tail_spec s p bs ess n nm : fs_inv s -> dir_live_at s p bs ess ->
  dir_lookup (concat ess) nm = n -> file_live_at s n bs -> n <> p ->
  wp (ok ← remove_entry_from_dir p nm;
      if negb ok then mret (-1) else deallocate_node n;; mret 0)
    (fun code s' => code = 0 /\ fs_inv s' /\ fs_mem s' = fs_mem s /\
      exists ess', dirs_remove ess nm = Some ess' /\ dir_live_at s' p bs ess' /\
        inode_at s' n = zero_inode /\ bit (inode_bitmap s') (n - 1) = false /\
        free_inodes s' = free_inodes s + 1 /\
        free_blocks s' = free_blocks s + len (used (node_blocks s (inode_at s n))) /\
        (forall b, b ∈ used (node_blocks s (inode_at s n)) -> bit (block_bitmap s') b = false) /\
        (forall m, m <> n -> 1 <= m <= INODES_PER_GROUP -> inode_at s' m = inode_at s m) /\
        (forall b, 0 <= b -> b ∉ used (node_blocks s (inode_at s n)) -> bit (block_bitmap s') b = bit (block_bitmap s) b) /\
        (forall j, 0 <= j -> j <> n - 1 -> bit (inode_bitmap s') j = bit (inode_bitmap s) j) /\
        (forall b, ROOT_DIR_BLOCK_LBA <= b -> b ∉ bs -> blk s' b = blk s b)) s.
Proof.
  intros Hi (Hda & Hbits & Hpb) El Hfl Hnp. destruct (Hda) as [Hp Hpm (Hl & Hpt & Hr) Hnd Hbl].
  apply wp_bind. eapply wp_mono; [by apply (remove_entry_spec s p bs ess)|]. intros ok s1.
  destruct (dirs_remove ess nm) as [ess'|] eqn:Er; last first.
  { apply dirs_remove_none in Er. destruct Hfl as (Hn & _). geometry. lia. }
  intros (-> & Ev1 & M1 & Hi1 & Hda1). cbn [negb].
  destruct (file_live_frame _ _ _ _ Hfl Hi1 Ev1 Hr) as (Ei & En & Eib & Ebb & Hal).
  destruct Hfl as (Hn & Hbit & _ & Hdis). have Hn' : 1 <= n <= INODES_PER_GROUP by geometry; lia.
  destruct (data_blocks_not_meta bs Hr) as [Hm Hni].
  apply wp_bind. eapply wp_mono; [apply deallocate_node_spec; [done|done|by rw Eib|done]|].
  intros [] s2 (Hi2 & Ev2 & Hz & Hoth & Hfb & Hfi & Hbb & Hib). apply wp_ret. rw En in Hbb Hfb.
  destruct (meta_same_free _ _ M1) as [E1 E2]. split; [done|]. split; [done|].
  split; [destruct Ev1, Ev2; congruence|]. exists ess'. split; [done|].
  have Hsame m : 1 <= m <= INODES_PER_GROUP -> inode_at s1 m = inode_at s m.
  { intros Hmr. by apply (inode_at_frame _ _ _ _ Ev1), Hni. }
  have Hbr b : b ∈ bs -> 21 <= b < 256 by rewrite -> Forall_forall in Hr; intros Hb%Hr; geometry.
  split; [split; [|split]|].
  - apply (dir_at_frame _ s1 _ _ _ _ Hda1 Ev2); [by apply Hoth|]. intros b Hb.
    have := Hbr b Hb. have := inode_lba_range n Hn'. rw /meta_blocks => ??. notin.
  - apply Forall_forall. intros b Hb. rw Hbb; [have := Hbr b Hb; lia|].
    rewrite -> Forall_forall in Hbits. rw Ebb Hbits // andb_true_r.
    apply negb_true_iff, bool_decide_eq_false. intros Hin. by apply (Hdis b).
  - rw Hib; [lia|]. rw Eib Hpb andb_true_r. apply negb_true_iff, Z.eqb_neq. lia.
  - split; [done|]. split; [rw Hib; [geometry; lia|]; by rw Z.eqb_refl|]. split; [lia|]. split; [lia|].
    split; [|split; [intros m Hmn Hmr; by rw Hoth // Hsame|split; [|split]]].
    2: { intros b Hb0 Hb. rw Hbb // Ebb. by rewrite -> bool_decide_false by done. }
    2: { intros j Hj0 Hj. rw Hib // Eib. by rw (proj2 (Z.eqb_neq _ _) Hj). }
    2: { intros b Hb Hbs. rewrite -> (ev_blk _ _ _ Ev2); [by apply (ev_blk _ _ _ Ev1)|].
         have := inode_lba_range n Hn'. rw /meta_blocks => ?. notin. }
    intros b Hb. have Hb' := Hb. rw -En in Hb'. apply elem_of_used in Hb' as [Hb0 Hb'].
    destruct Hal as [_ Hal]. destruct (Hal b Hb' Hb0) as [Hbrange _].
    rewrite -> Hbb by (geometry; lia). by rewrite -> bool_decide_true by done.
Qed.
End Ext2Crud.
