(* ===== verification/Inserter.v ===== *)
(** * The host-side inserter ([src/external/external-inserter.c])

    An in-memory image of the storage file behind the block-device interface, and the
    whole program: its command line, the files of the host, the insertion with its
    verification, the messages and the exit status.  It runs on the machine the kernel is
    built on, with the pointers of that machine: [PtrWidth] is a parameter here. *)

From S2P Require Import Prelude Bitmap StdString BlockDevice Ext2Layout Ext2Dir Ext2State Ext2.

(** [uint8_t *image_storage], 4 MiB: byte offsets to bytes *)
Record Image := mkImage { image_storage : Z -> Z }.
Definition IMAGE_SIZE : Z := 4 * 1024 * 1024.

(** [memcpy(ptr + BLOCK_SIZE*i, image_storage + BLOCK_SIZE*(lba+i), BLOCK_SIZE)], the
    offset in 32-bit arithmetic, undefined outside the allocation *)
Definition image_offset (lba i : Z) : Z := u32 (BLOCK_SIZE * u32 (lba + i)).
Definition read_image_block (lba i : Z) : M Image (list Z) := fun d =>
  let off := image_offset lba i in
  if off + BLOCK_SIZE <=? IMAGE_SIZE
  then Ok (map (image_storage d) (seqZ off BLOCK_SIZE), d) else UB.
Definition write_image_block (lba i : Z) (b : list Z) : M Image unit := fun d =>
  let off := image_offset lba i in
  if off + BLOCK_SIZE <=? IMAGE_SIZE
  then Ok (tt, mkImage (fun a => if (off <=? a) && (a <? off + BLOCK_SIZE)
                                 then nth (Z.to_nat (a - off)) b 0 else image_storage d a))
  else UB.

(** [for (i = 0; i < block_count; i++)] *)
Fixpoint read_image_blocks (n : nat) (lba i : Z) : M Image (list Z) :=
  match n with
  | O => mret []
  | S n => b ← read_image_block lba i; bs ← read_image_blocks n lba (i + 1); mret (b ++ bs)
  end.
Fixpoint write_image_blocks (n : nat) (ptr : list Z) (lba i : Z) : M Image unit :=
  match n with
  | O => mret tt
  | S n => b ← lift (slice (BLOCK_SIZE * i) BLOCK_SIZE ptr);
           write_image_block lba i b;; write_image_blocks n ptr lba (i + 1)
  end.
Definition read_blocks (lba block_count : Z) : M Image (list Z) :=
  read_image_blocks (Z.to_nat block_count) lba 0.
Definition write_blocks (ptr : list Z) (lba block_count : Z) : M Image unit :=
  write_image_blocks (Z.to_nat block_count) ptr lba 0.

#[export] Instance image_device : BlockDevice Image := {|
  nblocks := IMAGE_SIZE / BLOCK_SIZE;
  dev_ok d := forall a, 0 <= image_storage d a < 256;
  dev_block d l := map (image_storage d) (seqZ (BLOCK_SIZE * l) BLOCK_SIZE);
  dev_read l := read_blocks l 1;
  dev_write l b := write_blocks b l 1;
|}.

Lemma image_offset_block l : 0 <= l < 8192 -> image_offset l 0 = 512 * l.
Proof. intros. rw /image_offset /BLOCK_SIZE Z.add_0_r. rewrite -> (u32_id l) by lia. apply u32_id. lia. Qed.

(** the block read back after a store: the same block, or another one *)
Lemma image_update (f : Z -> Z) (b : list Z) l l' : len b = 512 ->
  map (fun a => if (512 * l <=? a) && (a <? 512 * l + BLOCK_SIZE) then nth (Z.to_nat (a - 512 * l)) b 0 else f a)
    (seqZ (BLOCK_SIZE * l') BLOCK_SIZE) =
  if l' =? l then b else map f (seqZ (BLOCK_SIZE * l') BLOCK_SIZE).
Proof.
  rw /BLOCK_SIZE. intros Hl. destruct (Z.eqb_spec l' l) as [->|Hne].
  - apply list_eq => i. destruct (decide (i < 512)%nat) as [Hi|Hi].
    + rewrite -> list_lookup_fmap, lookup_seqZ_lt by lia. cbn [fmap option_fmap option_map].
      rewrite -> (proj2 (Z.leb_le _ _)), (proj2 (Z.ltb_lt _ _)) by lia. cbn [andb].
      destruct (lookup_lt_is_Some_2 b i) as [x E]; [lia|]. rw E. f_equal. apply nth_lookup_Some. rw -E. f_equal. lia.
    + rewrite -> !lookup_ge_None_2; [done|lia|]. rw length_map length_seqZ. lia.
  - apply map_ext_in. intros a Ha%list_elem_of_In%elem_of_seqZ.
    destruct (Z.leb_spec (512 * l) a), (Z.ltb_spec a (512 * l + 512)); cbn [andb]; try done. lia.
Qed.

(** the image keeps the promises of the block-device interface *)
#[export] Instance image_device_laws : BlockDeviceLaws Image.
Proof.
  have Hn : nblocks (D:=Image) = 8192 by done.
  split; [done| | |].
  - intros d l Hd Hl. cbn [dev_block image_device]. split; [by rw length_map length_seqZ|].
    apply Forall_map, Forall_true. intros a. apply Hd.
  - intros d l Hd Hl. rw Hn in Hl. cbn [dev_read image_device]. rw /read_blocks. change (Z.to_nat 1) with 1%nat.
    cbn [read_image_blocks]. apply wp_bind. rw {1}/wp /read_image_block. cbv zeta.
    rewrite -> image_offset_block, (proj2 (Z.leb_le _ _)) by (rw ?/BLOCK_SIZE ?/IMAGE_SIZE; lia).
    apply wp_bind, wp_ret, wp_ret. by rw app_nil_r.
  - intros d l b Hd Hl [Hbl Hbo]. rw Hn in Hl. cbn [dev_write image_device]. rw /write_blocks.
    change (Z.to_nat 1) with 1%nat. cbn [write_image_blocks]. rw /BLOCK_SIZE in Hbl. apply wp_bind.
    eapply wp_lift; [rewrite <- (app_nil_r b) at 1; apply (slice_mid [] b []); rw ?/BLOCK_SIZE //|].
    apply wp_bind. rw {1}/wp /write_image_block. cbv zeta.
    rewrite -> image_offset_block, (proj2 (Z.leb_le _ _)) by (rw ?/BLOCK_SIZE ?/IMAGE_SIZE; lia).
    apply wp_ret. cbn [dev_ok dev_block image_device image_storage]. split.
    + intros a. destruct (_ && _); [|apply Hd]. destruct (nth_in_or_default (Z.to_nat (a - 512 * l)) b 0) as [Hin| ->]; [|lia].
      by apply (proj1 (Forall_forall _ _) Hbo), list_elem_of_In.
    + intros l'. apply image_update; rw /BLOCK_SIZE; lia.
Qed.

(** ** The process

    The host program runs over the files of the host, its own memory and the driver's
    globals.  The addresses [malloc] answers, 0 for a failure, and the bytes behind them
    are whatever the C library gives; the image is kept apart from the other memory. *)
Inductive Message : Type :=
| Usage
| NoMemory
| CannotOpenStorage (path : list Z)
| CannotOpenSource (path : list Z)
| Report (src dest : list Z) (parent size : Z)
| Replacing
| WriteSuccess
| Verification (ok : bool)
| AlreadyExists
| InvalidParent
| UnknownError (code : Z)
| CannotWriteStorage.

Record Process := mkProcess {
  (** what the paths of the host name, and the paths [fopen] refuses *)
  files : gmap (list Z) (list Z);
  unreadable : gset (list Z);
  unwritable : gset (list Z);
  printed : list Message;
  (** memory, image and globals of [ext2.c] *)
  volume : FS Image;
}.

Definition set_files (f : gmap (list Z) (list Z)) (p : Process) : Process :=
  mkProcess f (unreadable p) (unwritable p) (printed p) (volume p).
Definition set_volume (v : FS Image) (p : Process) : Process :=
  mkProcess (files p) (unreadable p) (unwritable p) (printed p) v.
Definition set_image (d : Image) (s : FS Image) : FS Image :=
  mkFS d (_ext2_superblock_state s) (_ext2_bgdt_state s) (g_filesystem_initialized s) (fs_tick s) (fs_mem s).

Abbreviation PM := (M Process).
Definition say (msg : Message) : PM unit := modify (fun p =>
  mkProcess (files p) (unreadable p) (unwritable p) (printed p ++ [msg]) (volume p)).
Definition on_volume {A} (m : M (FS Image) A) : PM A := fun p =>
  match m (volume p) with Ok (a, v) => Ok (a, set_volume v p) | UB => UB | NoFuel => NoFuel end.

(** ** Strings of the command line *)
(** the longest argument the host passes on *)
Definition MAX_ARG_STRLEN : nat := Z.to_nat 131072.
Fixpoint c_string {PW : PtrWidth} (k : nat) (m : mem) (a : Z) : res (list Z) :=
  match k with
  | O => NoFuel
  | S k => if m (ptr a) =? 0 then Ok [] else r ← c_string k m (a + 1); Ok (m (ptr a) :: r)
  end.
Definition argument {PW : PtrWidth} (a : Z) : PM (list Z) := m ← gets (fun p => fs_mem (volume p)); lift (c_string MAX_ARG_STRLEN m a).

(** [sscanf(s, "%u", &n)]: white space, a sign, digits; [None] leaves [n] alone.  A number
    that an [unsigned] cannot hold is undefined behaviour. *)
Definition is_space (c : Z) : bool := (c =? 32) || ((9 <=? c) && (c <=? 13)).
Definition is_digit (c : Z) : bool := (48 <=? c) && (c <=? 57).
Fixpoint skip_spaces (l : list Z) : list Z :=
  match l with c :: r => if is_space c then skip_spaces r else l | [] => [] end.
Fixpoint digits_value (acc : Z) (l : list Z) : Z :=
  match l with c :: r => if is_digit c then digits_value (10 * acc + (c - 48)) r else acc | [] => acc end.
Definition scan_unsigned (l : list Z) : res (option Z) :=
  let l := skip_spaces l in
  let '(neg, l) := match l with 45 :: r => (true, r) | 43 :: r => (false, r) | _ => (false, l) end in
  match l with
  | c :: _ => if is_digit c then
      let v := digits_value 0 l in
      if v <? 2 ^ 32 then Ok (Some (if (neg : bool) then u32 (- v) else v)) else UB
    else Ok None
  | [] => Ok None
  end.
Definition sscanf_u (l : list Z) (n : Z) : PM Z :=
  v ← lift (scan_unsigned l); mret (match v with Some v => v | None => n end).

(** [strrchr]: the index of the last [c] *)
Fixpoint strrchr_from (i : Z) (c : Z) (l : list Z) (last : option Z) : option Z :=
  match l with x :: r => strrchr_from (i + 1) c r (if x =? c then Some i else last) | [] => last end.
Definition strrchr (l : list Z) (c : Z) : option Z := strrchr_from 0 c l None.

(** ** Files *)
(** [fopen(path, "rb")] and the whole content *)
Definition fopen_read (path : list Z) : PM (option (list Z)) := gets (fun p =>
  if bool_decide (path ∈ unreadable p) then None else files p !! path).
(** [fopen(path, "wb")]: the file exists afterwards and is empty *)
Definition fopen_write (path : list Z) : PM bool :=
  refused ← gets (fun p => bool_decide (path ∈ unwritable p));
  if refused : bool then mret false else modify (fun p => set_files (<[path := []]> (files p)) p);; mret true.
(** [fread(image_storage, IMAGE_SIZE, 1, f)]: what a shorter file does not cover stays *)
Definition load_image (content : list Z) (d : Image) : Image :=
  mkImage (fun a => if (0 <=? a) && (a <? Z.min IMAGE_SIZE (len content)) then nth (Z.to_nat a) content 0 else image_storage d a).
Definition fread_image (content : list Z) : PM unit :=
  on_volume (modify (fun s => set_image (load_image content (fs_dev s)) s)).
(** [fread(buffer, filesize, 1, f)] into 4 MiB *)
Definition fread_file {PW : PtrWidth} (buffer : Z) (content : list Z) : PM unit :=
  if IMAGE_SIZE <? len content then lift UB
  else on_volume (modify (fun s => set_mem (mem_store (fs_mem s) buffer content) s)).
(** [fwrite(image_storage, IMAGE_SIZE, 1, f)] *)
Definition image_bytes (d : Image) : list Z := map (image_storage d) (seqZ 0 IMAGE_SIZE).
Definition fwrite_image (path : list Z) : PM unit := modify (fun p =>
  set_files (<[path := default [] (files p !! path) ++ image_bytes (fs_dev (volume p))]> (files p)) p).

(** ** The program *)
Section Main.
Context {PW : PtrWidth} `{StackJunk} `{Overrun Image}.

(** [uint8_t len = 0; while (name[len] && len < 255) len++;]: at most 255 rounds *)
Fixpoint filename_length (k : nat) (m : mem) (name len : Z) : Z :=
  match k with
  | O => len
  | S k => if m (ptr (name + len)) =? 0 then len else filename_length k m name (len + 1)
  end.
Definition get_filename_length (m : mem) (name : Z) : Z := filename_length 255 m name 0.

(** [for (i = 0; i < filesize; i++) if (read_buffer[i] != file_buffer[i]) ...] *)
Fixpoint verify (n : nat) (i : Z) (m : mem) (read_buffer file_buffer : Z) : bool :=
  match n with
  | O => true
  | S n => if negb (m (ptr (read_buffer + i)) =? m (ptr (file_buffer + i))) then false
           else verify n (i + 1) m read_buffer file_buffer
  end.

(** reading back what was written *)
Definition read_back (request : EXT2DriverRequest) (read_buffer file_buffer filesize : Z) : PM unit :=
  on_volume (modify (fun s => set_mem (memset read_buffer 0 (Z.to_nat IMAGE_SIZE) (fs_mem s)) s));;
  read_ret ← on_volume (read (mkRequest read_buffer (name request) (name_len request) (parent_inode request)
    (buffer_size request) (is_directory request)));
  if read_ret =? 0 then
    verified ← gets (fun p => verify (Z.to_nat filesize) 0 (fs_mem (volume p)) read_buffer file_buffer);
    say (Verification verified)
  else mret tt.

(** the volume is mounted, the file written, an older one of the name replaced *)
Definition insert (dest_name parent_inode file_buffer filesize read_buffer : Z) : PM unit :=
  on_volume initialize_filesystem_ext2;;
  filename_length ← gets (fun p => get_filename_length (fs_mem (volume p)) dest_name);
  let request := mkRequest file_buffer dest_name filename_length parent_inode (u32 filesize) false in
  retcode ← on_volume (write request);
  retcode ← (if retcode =? 1 then say Replacing;; on_volume (delete request);; on_volume (write request)
             else mret retcode);
  if retcode =? 0 then say WriteSuccess;; read_back request read_buffer file_buffer filesize
  else if retcode =? 1 then say AlreadyExists
  else if retcode =? 2 then say InvalidParent
  else say (UnknownError retcode).

(** the arguments: storage file, parent inode and the name on the volume.  With three of them
    the storage file is the third and the name the last part of the path *)
Definition arguments (argv : list Z) (src_file : list Z) : PM (Z * Z * Z) :=
  dest_name ← lift (arr_get argv 2);
  arg3 ← lift (arr_get argv 3);
  arg3_text ← argument arg3;
  parent_inode ← sscanf_u arg3_text 2;
  if 5 <=? len argv then
    storage_file ← lift (arr_get argv 4);
    mret (storage_file, parent_inode, dest_name)
  else
    dest_text ← argument dest_name;
    parent_inode ← sscanf_u dest_text 2;
    path ← lift (arr_get argv 1);
    mret (arg3, parent_inode, match strrchr src_file 47 with Some i => path + i + 1 | None => path end).

(** [main]: the exit status *)
Definition main (argv : list Z) (image_storage file_buffer read_buffer : Z) : PM Z :=
  if len argv <? 4 then say Usage;; mret 1 else
  src ← lift (arr_get argv 1);
  src_file ← argument src;
  '(storage, parent_inode, dest_name) ← arguments argv src_file;
  storage_file ← argument storage;
  dest_text ← argument dest_name;
  if (image_storage =? 0) || (file_buffer =? 0) || (read_buffer =? 0) then say NoMemory;; mret 1 else
  image ← fopen_read storage_file;
  match image with
  | None => say (CannotOpenStorage storage_file);; mret 1
  | Some image =>
    fread_image image;;
    file ← fopen_read src_file;
    match file with
    | None => say (CannotOpenSource src_file);; mret 1
    | Some file =>
      fread_file file_buffer file;;
      say (Report src_file dest_text parent_inode (len file));;
      insert dest_name parent_inode file_buffer (len file) read_buffer;;
      ok ← fopen_write storage_file;
      if negb ok then say CannotWriteStorage;; mret 1 else
      fwrite_image storage_file;;
      mret 0
    end
  end.
End Main.
