(* ===== verification/Ext2Any.v ===== *)
(** * The file system on arbitrary volumes

    The theorems of [Ext2Theorems.v] start from a volume that keeps its invariant.
    Here nothing is assumed of the blocks: for whatever bytes the disk holds, each operation
    ends, since every scan moves forward or stops, and leaves the state well typed, with the
    cached structures in the widths of their fields and every block and byte of memory
    a byte.  So does the mount, when what the overrunning loads leave is well typed. *)

From S2P Require Import Prelude Lasts Bitmap StdString BlockDevice Ext2Layout Ext2Dir Ext2State Ext2Inv Ext2 Ext2Format Ext2Files Ext2Write Inserter.

(** what a device answers for any block number, on the disk or beyond it *)
Class DeviceAnswers (D : Type) `{BlockDevice D} := {
  any_read l : lasts (S := D) dev_ok (dev_read l) (array 512);
  any_write l b : array 512 b -> lasts (S := D) dev_ok (dev_write l b) (fun _ => True);
}.
#[export] Hint Resolve any_read any_write : lasts.

(** the in-memory image accesses its storage for the blocks it has and nothing else *)
#[export] Instance image_answers : DeviceAnswers Image.
Proof.
  split.
  - intros l s Hs. cbn [dev_read image_device]. rw /read_blocks. change (Z.to_nat 1) with 1%nat.
    cbn [read_image_blocks]. rw /mbind /M_bind /mret /M_ret /read_image_block. cbv zeta. destruct (_ <=? _); [|done].
    rw app_nil_r. split; [|exact Hs]. split; [by rw length_map length_seqZ|].
    apply Forall_map, Forall_true. intros a. apply Hs.
  - intros l b [Hl Hb] s Hs. cbn [dev_write image_device]. rw /write_blocks. change (Z.to_nat 1) with 1%nat.
    cbn [write_image_blocks]. revert s Hs. change (lasts (S := Image) dev_ok
      (b ← lift (slice (BLOCK_SIZE * 0) BLOCK_SIZE b); write_image_block l 0 b;; mret tt) (fun _ => True)).
    eapply lasts_bind; [apply lasts_lift, array_slice, Hb|]. intros b' [_ Hb']. eapply (lasts_seq _ _ _ (fun _ => True)); [|by apply lasts_ret].
    intros s Hs. rw /write_image_block. cbv zeta. destruct (_ <=? _); [|done]. split; [done|]. intros a. cbn.
    destruct (_ && _); [|apply Hs]. destruct (nth_in_or_default (Z.to_nat (a - image_offset l 0)) b' 0) as [Hin| ->]; [|lia].
    by apply (proj1 (Forall_forall _ _) Hb'), list_elem_of_In.
Qed.

(** ** Values *)
Definition word32 (v : Z) : Prop := 0 <= v < 2 ^ 32.
Lemma word32_0 : word32 0.
Proof. rw /word32. lia. Qed.
Definition request_typed (r : EXT2DriverRequest) : Prop := word32 (buffer_size r).

Lemma get_byte_any b i : bytes_ok b -> ends (get_byte b i) byte.
Proof. intros Hb. rw /get_byte. destruct (b !! _) eqn:E; [|done]. exact (Forall_lookup_1 _ _ _ _ Hb E). Qed.
Lemma set_bit_any n b i : array n b -> ends (set_bit b i) (array n).
Proof.
  intros [Hl Hb]. eapply ends_bind; [by apply get_byte_any|]. intros c _. split; [by rw length_insert|].
  by apply bytes_ok_insert.
Qed.
Lemma clear_bit_any n b i : array n b -> ends (clear_bit b i) (array n).
Proof.
  intros [Hl Hb]. eapply ends_bind; [by apply get_byte_any|]. intros c _. split; [by rw length_insert|].
  by apply bytes_ok_insert.
Qed.
Lemma test_bit_any b i : bytes_ok b -> ends (test_bit b i) (fun _ => True).
Proof. intros Hb. by eapply ends_bind; [apply get_byte_any|]. Qed.
Lemma first_clear_any n i b : bytes_ok b -> 0 <= i -> ends (first_clear n i b)
  (fun r => match r with Some j => 0 <= j < i + Z.of_nat n | None => True end).
Proof.
  intros Hb. revert i. induction n as [|n IH] => i Hi; cbn [first_clear]; [done|].
  eapply ends_bind; [by apply test_bit_any|]. intros v _. destruct (v =? 0); [cbn; lia|].
  eapply ends_mono; [apply IH; lia|]. intros [j|]; [lia|done].
Qed.

Lemma i_size_word node : EXT2Inode_ok node -> word32 (i_size node).
Proof. intros [Hf _]. by apply (Forall_lookup_1 _ _ 2%nat (4%nat, i_size node) Hf). Qed.

(** ** Directory blocks *)
Lemma find_scan_any b name : bytes_ok b -> ends (find_scan scan_fuel b 0 name) word32.
Proof.
  intros Hb. apply ends_elim; [apply find_scan_fuel; [done|done|rw /scan_fuel; lia]|].
  generalize scan_fuel, 0. intros n off v. revert off. induction n as [|n IH] => off; cbn [find_scan]; [done|].
  destruct (off <? _); [|by intros [= <-]]. destruct (entry_rec_len b off) as [rl| |]; [|done|done]. cbn.
  destruct (rl =? 0); [by intros [= <-]|]. have := ends_ld 4 b off Hb. rw /entry_inode.
  destruct (ld 4 b off) as [ino| |]; [|done|done]. cbn. intros Hi. destruct (if ino =? 0 then _ else _) as [hit| |]; [|done|done].
  cbn. destruct (hit : bool); [by intros [= <-]|apply IH].
Qed.
Lemma live_scan_any b off : bytes_ok b -> 0 <= off -> ends (live_scan scan_fuel b off) (fun _ => True).
Proof. intros Hb Ho. apply ends_elim; [apply live_scan_fuel; [done|done|rw /scan_fuel; lia]|done]. Qed.
Lemma write_entry_any b off ino rl name ft : array 512 b -> bytes_ok name -> ends (write_entry b off ino rl name ft) (array 512).
Proof.
  intros Hb Hn. rw /write_entry. do 4 (eapply ends_bind; [by apply array_st|]; intros ? ?). by apply array_splice.
Qed.
Lemma add_scan_any n b off ino name ft : array 512 b -> bytes_ok name -> 0 <= off -> (512 - Z.to_nat off < n)%nat ->
  ends (add_scan n b off ino name ft) (fun r => match r with Some b' => array 512 b' | None => True end).
Proof.
  intros Hb Hn. revert off. induction n as [|n IH] => off Hoff Hf; [lia|]. cbn [add_scan].
  destruct (off <? BLOCK_SIZE) eqn:Elt; [|done]. eapply ends_bind; [apply ends_ld, Hb|]. intros nl _.
  eapply ends_bind; [apply ends_ld, Hb|]. intros rl Hrl. destruct (_ <=? rl).
  - eapply ends_bind; [by apply array_st|]. intros b1 Hb1. eapply ends_bind; [by apply write_entry_any|]. by intros b2 Hb2.
  - destruct (rl =? 0) eqn:E0; [done|]. apply IH; eapply scan_advance; try done; by destruct Hrl.
Qed.
Lemma name_matches_any b off name : ends (name_matches b off name) (fun _ => True).
Proof. apply ends_elim; [apply name_matches_fuel|done]. Qed.
Lemma remove_scan_any n b prev off name : array 512 b -> 0 <= off -> (512 - Z.to_nat off < n)%nat ->
  ends (remove_scan n b prev off name) (fun r => match r with Some b' => array 512 b' | None => True end).
Proof.
  intros Hb. revert prev off. induction n as [|n IH] => prev off Hoff Hf; [lia|]. cbn [remove_scan].
  destruct (off <? BLOCK_SIZE) eqn:Elt; [|done]. eapply ends_bind; [apply ends_ld, Hb|]. intros rl Hrl.
  destruct (rl =? 0) eqn:E0; [done|]. eapply ends_bind; [apply ends_ld, Hb|]. intros ino _.
  eapply (ends_bind _ _ (fun _ => True)); [by destruct (ino =? 0); [|apply name_matches_any]|]. intros [] _.
  - destruct prev as [p|].
    + eapply ends_bind; [apply ends_ld, Hb|]. intros prl _. eapply ends_bind; [by apply array_st|]. by intros b' Hb'.
    + eapply ends_bind; [by apply array_st|]. by intros b' Hb'.
  - apply IH; eapply scan_advance; try done; by destruct Hrl.
Qed.
Lemma first_child_any b : bytes_ok b -> ends (get_dir_first_child_offset b) (fun off => 0 <= off).
Proof.
  intros Hb. rw /get_dir_first_child_offset. eapply ends_bind; [by apply ends_ld|]. intros rl _. destruct (rl =? 0); [done|].
  eapply (ends_bind _ _ (fun _ => True)).
  { rw /get_next_directory_entry. eapply ends_bind; [by apply ends_ld|]. intros rl' _. by destruct (rl' =? 0). }
  intros [dotdot|] _; [|done]. eapply ends_bind; [by apply ends_ld|]. intros rl2 _. destruct (rl2 =? 0); [done|]. apply u32_range.
Qed.
Lemma dot_block_any ino parent : ends (dot_block ino parent) (array 512).
Proof.
  rw /dot_block. eapply ends_bind; [apply write_entry_any; [apply array_zeros|by repeat constructor]|]. intros b Hb.
  apply write_entry_any; [done|by repeat constructor].
Qed.
Lemma data_block_any {PW : PtrWidth} m src size n i : mem_ok m -> ends (data_block m src size n i) (array 512).
Proof. intros Hm. apply array_splice; [by apply mem_load_ok|apply array_zeros]. Qed.

(** ** The state *)
Section Any.
Context {PW : PtrWidth} {D : Type} `{DeviceAnswers D} `{StackJunkLaws}.
Abbreviation FSM := (M (FS D)).

Record fs_typed (s : FS D) : Prop := {
  ft_dev : dev_ok (fs_dev s);
  ft_superblock : EXT2Superblock_ok (_ext2_superblock_state s);
  ft_groups : Forall EXT2BlockGroupDescriptor_ok (_ext2_bgdt_state s);
  ft_mem : mem_ok (fs_mem s);
}.
Abbreviation fs_lasts := (lasts fs_typed).
Definition typed_answer (r : option EXT2Inode) : Prop := match r with Some node => EXT2Inode_ok node | None => True end.

Lemma on_dev_any {A} (m : M D A) R : lasts dev_ok m R -> fs_lasts (on_dev m) R.
Proof.
  intros Hm. change (on_dev m) with (zoom fs_dev set_dev m). eapply lasts_zoom; [apply ft_dev| |exact Hm].
  intros s d [] Hd. by constructor.
Qed.
Lemma read_block_any l : fs_lasts (read_block l) (array 512).
Proof. apply on_dev_any, any_read. Qed.
Lemma write_block_any b l : array 512 b -> fs_lasts (write_block b l) (fun _ => True).
Proof. intros Hb. by apply on_dev_any, any_write. Qed.
Lemma bgdt_get_any i : fs_lasts (bgdt_get i) EXT2BlockGroupDescriptor_ok.
Proof. intros s Hs. rw /bgdt_get. destruct (_ !! _) eqn:E; [|done]. split; [|done]. eapply Forall_lookup_1; [apply Hs|done]. Qed.
Lemma fresh_buffer_any : fs_lasts fresh_buffer (array 512).
Proof. intros s []. destruct (junk_ok (fs_tick s)) as [Hl Hb]. split; [split; [rw /BLOCK_SIZE in Hl; lia|done]|by constructor]. Qed.
Lemma init_any : fs_lasts (gets g_filesystem_initialized) (fun _ => True).
Proof. by apply lasts_gets. Qed.
Lemma lift_any {A} (r : res A) R : ends r R -> fs_lasts (lift r) R.
Proof. apply lasts_lift. Qed.

Lemma write_meta_any : fs_lasts write_meta (fun _ => True).
Proof.
  rw /write_meta. eapply lasts_bind; [apply fresh_buffer_any|]. intros b Hb.
  eapply (lasts_bind _ _ _ EXT2Superblock_ok); [by apply lasts_gets; intros s []|]. intros sb Hsb.
  eapply lasts_bind; [apply lift_any, array_splice; [by apply EXT2Superblock_bytes_ok|done]|]. intros b1 Hb1.
  eapply lasts_seq; [by apply write_block_any|]. eapply lasts_bind; [apply bgdt_get_any|]. intros g Hg.
  eapply lasts_bind; [apply lift_any, array_splice; [apply EXT2BlockGroupDescriptor_bytes_ok|done]|]. intros b2 Hb2.
  by apply write_block_any.
Qed.
Lemma read_inode_any n : fs_lasts (read_inode n) typed_answer.
Proof.
  rw /read_inode. destruct (n =? 0); [by apply lasts_ret|]. cbv zeta. eapply lasts_bind; [apply bgdt_get_any|]. intros g _.
  eapply lasts_bind; [apply read_block_any|]. intros b Hb. eapply lasts_bind; [apply lift_any, array_slice, Hb|].
  intros bs [Hl Ho]. apply lasts_ret. apply EXT2Inode_of_bytes_ok; [by rw Hl|done].
Qed.
Lemma write_inode_any n node : EXT2Inode_ok node -> fs_lasts (write_inode n node) (fun _ => True).
Proof.
  intros Hn. rw /write_inode. destruct (n =? 0); [by apply lasts_ret|]. cbv zeta. eapply lasts_bind; [apply bgdt_get_any|].
  intros g _. eapply lasts_bind; [apply read_block_any|]. intros b Hb.
  eapply lasts_bind; [apply lift_any, array_splice; [by apply EXT2Inode_bytes_ok|done]|]. intros b' Hb'. by apply write_block_any.
Qed.

(** ** Allocation *)
Lemma add_free_blocks_any k : fs_lasts (add_free_blocks k) (fun _ => True).
Proof.
  rw /add_free_blocks. eapply lasts_bind; [apply bgdt_get_any|]. intros g Hg. apply lasts_modify. intros s [].
  constructor; cbn; try done; [apply set_free_blocks_ok; [done|apply u32_range]|].
  apply Forall_insert; [done|]. apply set_bg_free_blocks_ok; [done|apply u16_range].
Qed.
Lemma add_free_inodes_any k : fs_lasts (add_free_inodes k) (fun _ => True).
Proof.
  rw /add_free_inodes. eapply lasts_bind; [apply bgdt_get_any|]. intros g Hg. apply lasts_modify. intros s [].
  constructor; cbn; try done; [apply set_free_inodes_ok; [done|apply u32_range]|].
  apply Forall_insert; [done|]. apply set_bg_free_inodes_ok; [done|apply u16_range].
Qed.
Lemma allocate_block_any : fs_lasts allocate_block word32.
Proof.
  rw /allocate_block. eapply lasts_bind; [apply bgdt_get_any|]. intros g _. destruct (_ =? 0); [apply lasts_ret, word32_0|].
  eapply lasts_bind; [apply read_block_any|]. intros b Hb. eapply lasts_bind; [apply lift_any, first_clear_any; [apply Hb|done]|].
  intros [i|] Hi; [|apply lasts_ret, word32_0]. change (0 + Z.of_nat (Z.to_nat BLOCKS_PER_GROUP)) with 256 in Hi.
  eapply lasts_bind; [by apply lift_any, set_bit_any|]. intros b1 Hb1. eapply lasts_seq; [by apply write_block_any|].
  eapply lasts_seq; [apply add_free_blocks_any|]. eapply lasts_seq; [apply write_meta_any|]. apply lasts_ret. rw /word32. lia.
Qed.
Lemma deallocate_single_block_any n : fs_lasts (deallocate_single_block n) (fun _ => True).
Proof.
  rw /deallocate_single_block. destruct (n =? 0); [by apply lasts_ret|]. eapply lasts_bind; [apply read_block_any|]. intros b Hb.
  eapply lasts_bind; [apply lift_any, test_bit_any, Hb|]. intros v _. destruct (v =? 0); [by apply lasts_ret|].
  eapply lasts_bind; [by apply lift_any, clear_bit_any|]. intros b1 Hb1. eapply lasts_seq; [by apply write_block_any|].
  eapply lasts_seq; [apply add_free_blocks_any|apply write_meta_any].
Qed.
Lemma allocate_node_any : fs_lasts allocate_node word32.
Proof.
  rw /allocate_node. eapply lasts_bind; [apply init_any|]. intros [] _; cbn [negb]; [|apply lasts_ret, word32_0].
  eapply lasts_bind; [apply bgdt_get_any|]. intros g _. destruct (_ =? 0); [apply lasts_ret, word32_0|].
  eapply lasts_bind; [apply read_block_any|]. intros b Hb. eapply lasts_bind; [apply lift_any, first_clear_any; [apply Hb|done]|].
  intros [i|] Hi; [|apply lasts_ret, word32_0]. change (0 + Z.of_nat (Z.to_nat INODES_PER_GROUP)) with 64 in Hi.
  eapply lasts_bind; [by apply lift_any, set_bit_any|]. intros b1 Hb1. eapply lasts_seq; [by apply write_block_any|].
  eapply lasts_seq; [apply add_free_inodes_any|]. eapply lasts_seq; [apply write_meta_any|]. apply lasts_ret. rw /word32. lia.
Qed.
Lemma deallocate_list_any bs : fs_lasts (deallocate_list bs) (fun _ => True).
Proof.
  induction bs as [|b bs IH]; cbn [deallocate_list]; [by apply lasts_ret|]. eapply lasts_seq; [|exact IH].
  destruct (b =? 0); [by apply (lasts_ret _ _ (fun _ => True))|apply deallocate_single_block_any].
Qed.
Lemma deallocate_node_any n : fs_lasts (deallocate_node n) (fun _ => True).
Proof.
  rw /deallocate_node. eapply lasts_bind; [apply init_any|]. intros init _. destruct (_ || _); [by apply lasts_ret|].
  eapply lasts_bind; [apply read_inode_any|]. intros [node|] Hn; [|by apply lasts_ret].
  eapply lasts_seq; [apply deallocate_list_any|].
  eapply (lasts_seq _ _ _ (fun _ => True)).
  { cbv zeta. destruct (_ =? 0); [by apply lasts_ret|]. eapply lasts_bind; [apply read_block_any|]. intros t _.
    eapply lasts_seq; [apply deallocate_list_any|apply deallocate_single_block_any]. }
  eapply lasts_seq; [apply write_inode_any, zero_inode_ok|]. eapply lasts_bind; [apply read_block_any|]. intros b Hb.
  eapply lasts_bind; [by apply lift_any, clear_bit_any|]. intros b1 Hb1. eapply lasts_seq; [by apply write_block_any|].
  eapply lasts_seq; [apply add_free_inodes_any|apply write_meta_any].
Qed.

(** ** Directories *)
Lemma find_blocks_any bs name : fs_lasts (find_blocks bs name) word32.
Proof.
  induction bs as [|lba bs IH]; cbn [find_blocks]; [apply lasts_ret, word32_0|].
  destruct (lba =? 0); [apply lasts_ret, word32_0|]. eapply lasts_bind; [apply read_block_any|]. intros b [_ Hb].
  eapply lasts_bind; [by apply lift_any, find_scan_any|]. intros r Hr. destruct (r =? 0); [exact IH|by apply lasts_ret].
Qed.
Lemma find_entry_any p name : fs_lasts (find_entry_in_dir p name) word32.
Proof.
  rw /find_entry_in_dir. eapply lasts_bind; [apply read_inode_any|]. intros [node|] _; [|apply lasts_ret, word32_0].
  destruct (negb _); [apply lasts_ret, word32_0|apply find_blocks_any].
Qed.
Lemma add_blocks_any p node i bs n name ft : EXT2Inode_ok node -> bytes_ok name ->
  fs_lasts (add_blocks p node i bs n name ft) (fun _ => True).
Proof.
  intros Hn Hb. revert i. induction bs as [|lba bs IH] => i; cbn [add_blocks]; [by apply lasts_ret|].
  destruct (lba =? 0).
  - eapply lasts_bind; [apply allocate_block_any|]. intros blk Hblk. destruct (blk =? 0); [by apply lasts_ret|]. cbv zeta.
    eapply lasts_seq; [apply write_inode_any, set_size_ok; [by apply count_block_ok, set_block_ok|apply u32_range]|].
    eapply lasts_bind; [apply lift_any, write_entry_any; [apply array_zeros|done]|]. intros b' Hb'.
    eapply lasts_seq; [by apply write_block_any|by apply lasts_ret].
  - eapply lasts_bind; [apply read_block_any|]. intros b Hb'.
    eapply lasts_bind; [apply lift_any, add_scan_any; [done|done|done|rw /scan_fuel; lia]|]. intros [b2|] Hb2; [|apply IH].
    eapply lasts_seq; [by apply write_block_any|by apply lasts_ret].
Qed.
Lemma add_entry_any p n name ft : bytes_ok name -> fs_lasts (add_entry_to_dir p n name ft) (fun _ => True).
Proof.
  intros Hb. rw /add_entry_to_dir. eapply lasts_bind; [apply read_inode_any|].
  intros [node|] Hn; [by apply add_blocks_any|by apply lasts_ret].
Qed.
Lemma remove_blocks_any bs name : fs_lasts (remove_blocks bs name) (fun _ => True).
Proof.
  induction bs as [|lba bs IH]; cbn [remove_blocks]; [by apply lasts_ret|]. destruct (lba =? 0); [by apply lasts_ret|].
  eapply lasts_bind; [apply read_block_any|]. intros b Hb.
  eapply lasts_bind; [apply lift_any, remove_scan_any; [done|done|rw /scan_fuel; lia]|]. intros [b2|] Hb2; [|exact IH].
  eapply lasts_seq; [by apply write_block_any|by apply lasts_ret].
Qed.
Lemma remove_entry_any p name : fs_lasts (remove_entry_from_dir p name) (fun _ => True).
Proof.
  rw /remove_entry_from_dir. eapply lasts_bind; [apply read_inode_any|].
  intros [node|] _; [apply remove_blocks_any|by apply lasts_ret].
Qed.
Lemma empty_blocks_any bs first : fs_lasts (empty_blocks bs first) (fun _ => True).
Proof.
  revert first. induction bs as [|lba bs IH] => first; cbn [empty_blocks]; [by apply lasts_ret|].
  destruct (lba =? 0); [by apply lasts_ret|]. eapply lasts_bind; [apply read_block_any|]. intros b [_ Hb].
  eapply (lasts_bind _ _ _ (fun off => 0 <= off)).
  { apply lift_any. destruct first; [by apply first_child_any|done]. }
  intros off Hoff. eapply lasts_bind; [by apply lift_any, live_scan_any|]. intros [] _; [by apply lasts_ret|apply IH].
Qed.
Lemma is_directory_empty_any n : fs_lasts (is_directory_empty n) (fun _ => True).
Proof.
  rw /is_directory_empty. eapply lasts_bind; [apply read_inode_any|]. intros on _. repeat case_match; first [apply empty_blocks_any|by apply lasts_ret].
Qed.

(** ** The operations of the interface *)
Lemma copy_out_any bs out pos total : fs_lasts (copy_out bs out pos total) (fun _ => True).
Proof.
  revert pos. induction bs as [|lba bs IH] => pos; cbn [copy_out]; [by apply lasts_ret|].
  destruct (pos <? total); [|by apply lasts_ret]. destruct (lba =? 0); [by apply lasts_ret|].
  eapply lasts_bind; [apply read_block_any|]. intros b [_ Hb]. cbv zeta. eapply lasts_seq; [|apply IH].
  apply lasts_modify. intros s []. constructor; try done. apply mem_store_ok; [done|by apply bytes_ok_take].
Qed.
Lemma name_load_any r : fs_lasts (request_name r) bytes_ok.
Proof. apply lasts_gets. intros s []. by apply mem_load_ok. Qed.

Lemma read_directory_any r : fs_lasts (read_directory r) (fun _ => True).
Proof.
  rw /read_directory. eapply lasts_bind; [apply init_any|]. intros [] _; cbn [negb]; [|by apply lasts_ret].
  eapply lasts_bind; [apply read_inode_any|]. intros [node|] _; [|by apply lasts_ret].
  destruct (negb _); [by apply lasts_ret|]. destruct (_ =? 0); [by apply lasts_ret|].
  eapply lasts_seq; [apply copy_out_any|by apply lasts_ret].
Qed.
Lemma read_any r : fs_lasts (read r) (fun _ => True).
Proof.
  rw /read. eapply lasts_bind; [apply init_any|]. intros [] _; cbn [negb]; [|by apply lasts_ret].
  destruct (_ =? 0); [by apply lasts_ret|]. eapply lasts_bind; [apply name_load_any|]. intros nm _.
  eapply lasts_bind; [apply find_entry_any|]. intros n _. destruct (n =? 0); [by apply lasts_ret|].
  eapply lasts_bind; [apply read_inode_any|]. intros [node|] _; [|by apply lasts_ret].
  destruct (is_dir_mode node); [by apply lasts_ret|]. cbv zeta. eapply lasts_bind; [apply copy_out_any|]. intros pos _.
  eapply (lasts_seq _ _ _ (fun _ => True)); [|by apply lasts_ret]. destruct (_ && _); [|by apply lasts_ret].
  eapply lasts_bind; [apply read_block_any|]. intros t _. eapply lasts_seq; [apply copy_out_any|by apply lasts_ret].
Qed.

Lemma write_data_any r n i blk : fs_lasts (write_data r n i blk) (fun _ => True).
Proof.
  rw /write_data. eapply (lasts_bind _ _ _ mem_ok); [by apply lasts_gets; intros s []|]. intros m Hm.
  eapply lasts_bind; [by apply lift_any, data_block_any|]. intros b Hb. by apply write_block_any.
Qed.
Lemma write_direct_any k r n i node : EXT2Inode_ok node -> fs_lasts (write_direct k r n i node) EXT2Inode_ok.
Proof.
  revert i node. induction k as [|k IH] => i node Hn; cbn [write_direct]; [by apply lasts_ret|].
  destruct (i <? n); [|by apply lasts_ret]. eapply lasts_bind; [apply allocate_block_any|]. intros blk Hblk.
  destruct (blk =? 0); [by apply lasts_ret|]. eapply lasts_seq; [apply write_data_any|]. by apply IH, count_block_ok, set_block_ok.
Qed.
Lemma write_indirect_any k r n i t node : EXT2Inode_ok node -> array 512 t ->
  fs_lasts (write_indirect k r n i t node) (fun x => array 512 x.1 /\ EXT2Inode_ok x.2).
Proof.
  revert i t node. induction k as [|k IH] => i t node Hn Ht; cbn [write_indirect]; [by apply lasts_ret|].
  destruct (i <? n); [|by apply lasts_ret]. eapply lasts_bind; [apply allocate_block_any|]. intros blk Hblk.
  destruct (blk =? 0); [by apply lasts_ret|]. eapply lasts_bind; [by apply lift_any, array_st|]. intros t' Ht'.
  eapply lasts_seq; [apply write_data_any|]. apply IH; [by apply count_block_ok|done].
Qed.
Lemma write_file_blocks_any r node : EXT2Inode_ok node -> fs_lasts (write_file_blocks r node) EXT2Inode_ok.
Proof.
  intros Hn. rw /write_file_blocks. cbv zeta. eapply lasts_bind; [by apply write_direct_any|]. intros node1 Hn1.
  destruct (12 <? _); [|by apply lasts_ret]. eapply lasts_bind; [apply allocate_block_any|]. intros blk Hblk.
  destruct (blk =? 0); [by apply lasts_ret|].
  eapply lasts_bind; [apply write_indirect_any; [by apply count_block_ok, set_block_ok|apply array_zeros]|].
  intros [t node2] [Ht Hn2]. eapply lasts_seq; [by apply write_block_any|by apply lasts_ret].
Qed.
Lemma write_dir_block_any r n node : EXT2Inode_ok node -> fs_lasts (write_dir_block r n node) EXT2Inode_ok.
Proof.
  intros Hn. rw /write_dir_block. eapply lasts_bind; [apply allocate_block_any|]. intros blk Hblk.
  destruct (blk =? 0); [by apply lasts_ret|]. cbv zeta. eapply lasts_bind; [apply lift_any, dot_block_any|]. intros b Hb.
  eapply lasts_seq; [by apply write_block_any|]. apply lasts_ret.
  apply set_size_ok; [apply set_blocks_ok; [by apply set_block_ok|by split]|by split].
Qed.
Lemma write_any r : request_typed r -> fs_lasts (write r) (fun _ => True).
Proof.
  intros Hr. rw /write. eapply lasts_bind; [apply init_any|]. intros [] _; cbn [negb]; [|by apply lasts_ret].
  destruct (_ =? 0); [by apply lasts_ret|]. eapply lasts_bind; [apply name_load_any|]. intros nm Hnm.
  eapply lasts_bind; [apply find_entry_any|]. intros found _. destruct (negb _); [by apply lasts_ret|].
  eapply lasts_bind; [apply allocate_node_any|]. intros n _. destruct (n =? 0); [by apply lasts_ret|]. cbv zeta.
  have Hn : EXT2Inode_ok (new_inode (is_directory r) (buffer_size r)) by apply new_inode_ok; right; apply Hr.
  eapply (lasts_bind _ _ _ EXT2Inode_ok).
  { destruct (_ && _); [by apply write_file_blocks_any|]. destruct (is_directory r); [by apply write_dir_block_any|by apply lasts_ret]. }
  intros node Hn'. eapply lasts_seq; [by apply write_inode_any|]. eapply lasts_bind; [by apply add_entry_any|].
  intros ok _. by apply lasts_ret.
Qed.
Lemma delete_any r : fs_lasts (delete r) (fun _ => True).
Proof.
  rw /delete. eapply lasts_bind; [apply init_any|]. intros [] _; cbn [negb]; [|by apply lasts_ret].
  destruct (_ =? 0); [by apply lasts_ret|]. destruct (_ || _); [by apply lasts_ret|].
  eapply lasts_bind; [apply name_load_any|]. intros nm _. eapply lasts_bind; [apply find_entry_any|]. intros n _.
  destruct (n =? 0); [by apply lasts_ret|]. eapply lasts_bind; [apply read_inode_any|]. intros [node|] _; [|by apply lasts_ret].
  cbv zeta. eapply (lasts_bind _ _ _ (fun _ => True)).
  { destruct (is_directory r); [|by apply lasts_ret]. destruct (negb _); [by apply lasts_ret|].
    eapply lasts_bind; [apply is_directory_empty_any|]. intros e _. by apply lasts_ret. }
  intros refused _. destruct (negb _); [by apply lasts_ret|]. eapply lasts_bind; [apply remove_entry_any|].
  intros ok _. destruct (negb ok); [by apply lasts_ret|]. eapply lasts_seq; [apply deallocate_node_any|by apply lasts_ret].
Qed.
Lemma stat_any nm n p : fs_lasts (stat nm n p) (fun r => match r.2 with Some (size, _) => word32 size | None => True end).
Proof.
  rw /stat. eapply lasts_bind; [apply init_any|]. intros [] _; cbn [negb]; [|by apply lasts_ret].
  destruct (_ || _); [by apply lasts_ret|]. eapply (lasts_bind _ _ _ (fun _ => True)); [by apply lasts_gets|]. intros name _.
  eapply lasts_bind; [apply find_entry_any|]. intros i _. destruct (i =? 0); [by apply lasts_ret|].
  eapply lasts_bind; [apply read_inode_any|]. intros [node|] Hn; [|by apply lasts_ret]. apply lasts_ret.
  exact (i_size_word node Hn).
Qed.

(** ** Mounting *)
Context `{Overrun D}.
(** what the overrunning loads leave is well typed, where it is defined *)
Definition overrun_typed : Prop :=
  (forall b s, bytes_ok b -> fs_typed s -> ends (overrun_superblock b s) fs_typed) /\
  (forall b s, bytes_ok b -> fs_typed s -> ends (overrun_bgdt b s) fs_typed).
Lemma stray_any f : (forall s, fs_typed s -> ends (f s) fs_typed) -> fs_lasts (stray f) (fun _ => True).
Proof. intros Hf s Hs. have := Hf s Hs. rw /stray. by destruct (f s). Qed.
Lemma set_meta_any (f : FS D -> EXT2Superblock) (g : FS D -> list EXT2BlockGroupDescriptor) :
  (forall s, fs_typed s -> EXT2Superblock_ok (f s)) -> (forall s, fs_typed s -> Forall EXT2BlockGroupDescriptor_ok (g s)) ->
  fs_lasts (modify (fun s => set_meta (f s) (g s) s)) (fun _ => True).
Proof. intros Hf Hg. apply lasts_modify. intros s Hs. have A := Hf s Hs. have B := Hg s Hs. destruct Hs. by constructor. Qed.
Lemma set_init_any b : fs_lasts (modify (set_init b)) (fun _ => True).
Proof. apply lasts_modify. intros s []. by constructor. Qed.
Lemma write_many_any n b l : array 512 b -> fs_lasts (write_many n b l) (fun _ => True).
Proof.
  intros Hb. revert l. induction n as [|n IH] => l; cbn [write_many]; [by apply lasts_ret|].
  eapply lasts_seq; [by apply write_block_any|apply IH].
Qed.
Lemma bgdt_of_bytes_ok b : array 512 b -> Forall EXT2BlockGroupDescriptor_ok (bgdt_of_bytes (take 256 b)).
Proof.
  intros [Hl Hb]. apply Forall_map, Forall_forall. intros i Hi%elem_of_seq. change (0 <= i < 0 + 8)%nat in Hi.
  apply EXT2BlockGroupDescriptor_of_bytes_ok; [rw length_take length_drop length_take; lia|].
  by apply bytes_ok_take, bytes_ok_drop, bytes_ok_take.
Qed.
Lemma computed_any (r : res (list Z)) b : r = Ok b -> BlockBuffer_ok b -> ends r (array 512).
Proof. intros -> [Hl Hb]. split; [rw /BLOCK_SIZE in Hl; lia|done]. Qed.
Lemma is_empty_storage_any : fs_lasts is_empty_storage (fun _ => True).
Proof.
  rw /is_empty_storage. eapply lasts_bind; [apply read_block_any|]. intros b Hb.
  eapply (lasts_bind _ _ _ (fun _ => True)); [|by intros; apply lasts_ret]. apply lift_any, ends_elim; [|done].
  apply memcmp_loop_fuel; intros j; rw /list_at; by destruct (_ !! _).
Qed.
Lemma create_ext2_any : fs_lasts create_ext2 (fun _ => True).
Proof.
  have Hsig : array 512 fs_signature by apply (computed_any (Ok fs_signature) fs_signature); [done|by apply BlockBuffer_ok_compute].
  have Hbgdt : Forall EXT2BlockGroupDescriptor_ok new_bgdt.
  { constructor; [exact new_bgd_ok|]. apply Forall_replicate. split; [|done]. by repeat constructor. }
  rw /create_ext2. eapply lasts_seq; [by apply write_block_any|].
  eapply lasts_seq; [apply set_meta_any; [by intros; apply new_superblock_ok|by intros s []]|].
  eapply lasts_bind; [apply lift_any, array_splice; [apply EXT2Superblock_bytes_ok, new_superblock_ok|apply array_zeros]|]. intros b1 Hb1.
  eapply lasts_seq; [by apply write_block_any|].
  eapply lasts_seq; [apply set_meta_any; [by intros s []|by intros; exact Hbgdt]|].
  eapply lasts_bind; [apply lift_any, array_splice; [apply EXT2BlockGroupDescriptor_bytes_ok|apply array_zeros]|]. intros b2 Hb2.
  eapply lasts_seq; [by apply write_block_any|].
  eapply lasts_bind; [apply lift_any, (computed_any _ _ fresh_block_bitmap_eq); by apply BlockBuffer_ok_compute|]. intros b3 Hb3.
  eapply lasts_seq; [by apply write_block_any|].
  eapply lasts_bind; [apply lift_any, (computed_any _ _ fresh_inode_bitmap_eq); by apply BlockBuffer_ok_compute|]. intros b4 Hb4.
  eapply lasts_seq; [by apply write_block_any|]. eapply lasts_seq; [apply write_many_any, array_zeros|].
  eapply lasts_seq; [apply write_inode_any, root_inode_ok|].
  eapply lasts_bind; [apply lift_any, (computed_any _ _ root_block_eq); by apply BlockBuffer_ok_compute|]. intros b5 Hb5.
  eapply lasts_seq; [by apply write_block_any|apply set_init_any].
Qed.
Lemma initialize_any : overrun_typed -> fs_lasts initialize_filesystem_ext2 (fun _ => True).
Proof.
  intros [Ho1 Ho2]. rw /initialize_filesystem_ext2. eapply lasts_bind; [apply is_empty_storage_any|]. intros [] _.
  { eapply lasts_seq; [apply create_ext2_any|apply set_init_any]. }
  eapply lasts_bind; [apply read_block_any|]. intros b Hb. have [Hl Hbb] := Hb.
  eapply lasts_seq; [apply set_meta_any; [|by intros s []]|].
  { intros _ _. apply EXT2Superblock_of_bytes_ok; [rw length_take; lia|by apply bytes_ok_take]. }
  eapply lasts_seq; [apply stray_any; intros s Hs; apply Ho1; [by apply bytes_ok_drop|done]|].
  eapply lasts_bind; [apply read_block_any|]. intros b2 Hb2.
  eapply lasts_seq; [apply set_meta_any; [by intros s []|by intros _ _; apply bgdt_of_bytes_ok]|].
  eapply lasts_seq; [apply stray_any; intros s Hs; apply Ho2; [by apply bytes_ok_drop; apply Hb2|done]|].
  eapply (lasts_bind _ _ _ (fun _ => True)); [by apply lasts_gets|]. intros sb _.
  destruct (_ =? _); [apply set_init_any|by apply lasts_ret].
Qed.
End Any.
