(* ===== verification/Ext2Theorems.v ===== *)
(** * Theorems about the file system

    The properties of the calls of [ext2.h], stated over any block device that
    keeps the laws of [BlockDevice.v], each with a closed instance on the image of
    [Inserter.v]. *)

From S2P Require Import Prelude Bitmap StdString BlockDevice Ext2Layout Ext2Dir Ext2State Ext2 Ext2Inv Ext2Format Ext2Files Ext2Data Ext2Write Ext2Crud Inserter.

Section Root.
Context {PW : PtrWidth} {D : Type} `{BlockDeviceLaws D} `{StackJunkLaws} `{Overrun D}.
Implicit Types s : FS D.

(** the root directory of a formatted volume *)
Lemma formatted_root s : formatted s -> dir_live_at s ROOT_INODE_NO [ROOT_DIR_BLOCK_LBA] [root_entries].
Proof.
  intros Hf. destruct (Hf) as [Hi _ _ Hr _ Hd Hbb Hib _ _]. split; [|split].
  - constructor; rw ?Hr //; [|apply NoDup_singleton|by constructor].
    split; [cbn; lia|]. split; [done|]. by constructor.
  - constructor; [by rw Hbb|done].
  - by rw Hib.
Qed.
End Root.

(** ** A concrete volume: a blank image, formatted; the caller's memory holds the
    letters 65, 66, ... and a full stop at address 16 *)
Definition blank_image : Image := mkImage (fun _ => 0).
Definition demo_mem : mem := fun a => if a =? 16 then 46 else 65 + a mod 26.
#[export] Instance demo_junk : StackJunk := fun _ => zeros 512.
#[export] Instance demo_junk_laws : StackJunkLaws.
Proof. intros n. apply BlockBuffer_ok_zeros. Qed.
#[export] Instance demo_overrun : Overrun Image :=
  {| overrun_superblock := fun _ s => Ok s; overrun_bgdt := fun _ s => Ok s |}.
Definition blank_fs : FS Image :=
  mkFS blank_image new_superblock [] false 0 demo_mem.
Definition demo_fs : FS Image :=
  match create_ext2 blank_fs with Ok (_, s) => s | _ => blank_fs end.

Lemma blank_dev_ok : dev_ok (fs_dev blank_fs).
Proof. by intros a. Qed.

Lemma demo_formatted : formatted demo_fs /\ fs_mem demo_fs = demo_mem.
Proof.
  destruct (wp_elim _ _ _ (create_ext2_spec blank_fs blank_dev_ok)) as ([] & s & E & Hs).
  by rw /demo_fs E.
Qed.
Lemma demo_created : create_ext2 blank_fs = Ok (tt, demo_fs).
Proof. destruct (wp_elim _ _ _ (create_ext2_spec blank_fs blank_dev_ok)) as ([] & s & E & _). by rw /demo_fs E. Qed.
(** its facts are known from here on; it is never evaluated *)
#[global] Opaque demo_fs.

Lemma demo_inv : fs_inv demo_fs.
Proof. apply demo_formatted. Qed.
Lemma demo_mem_ok : mem_ok (fs_mem demo_fs).
Proof.
  destruct demo_formatted as [_ ->]. intros a _. rw /demo_mem. have := Z.mod_pos_bound a 26. destruct (a =? 16); lia.
Qed.
Lemma demo_counts : free_blocks demo_fs = 234 /\ free_inodes demo_fs = 53.
Proof. exact (conj (fm_free_blocks _ (proj1 demo_formatted)) (fm_free_inodes _ (proj1 demo_formatted))). Qed.

Lemma demo_root : dir_live_at demo_fs ROOT_INODE_NO [ROOT_DIR_BLOCK_LBA] [root_entries].
Proof. exact (formatted_root _ (proj1 demo_formatted)). Qed.
Lemma demo_nm r : request_nm demo_fs r = mem_load demo_mem (name r) (Z.to_nat (name_len r)).
Proof. exact (f_equal (fun m => mem_load m (name r) (Z.to_nat (name_len r))) (proj2 demo_formatted)). Qed.
(** a file request of [n] bytes at 4096 under the five-byte name at 256 *)
Definition demo_request (n : Z) : EXT2DriverRequest := mkRequest 4096 256 5 ROOT_INODE_NO n false.
Lemma demo_absent r : name r = 256 -> name_len r = 5 ->
  dir_lookup (concat [root_entries]) (request_nm demo_fs r) = 0.
Proof. intros E1 E2. rw demo_nm E1 E2. by vm_compute. Qed.
Lemma demo_room r : name r = 256 -> name_len r = 5 -> dirs_room [root_entries] (request_nm demo_fs r) = true.
Proof. intros E1 E2. rw demo_nm E1 E2. by vm_compute. Qed.
Lemma demo_file_request n : 0 <= n <= 2 ^ 20 -> file_request demo_fs (demo_request n).
Proof. intros Hn. split; [done|]. cbn. repeat (split; [lia|]). exact demo_mem_ok. Qed.
Lemma demo_free : free_inodes demo_fs <> 0 /\ 0 < free_blocks demo_fs /\
  (forall n, 0 <= n <= 2 ^ 20 -> blocks_taken (demo_request n) <= free_blocks demo_fs).
Proof.
  destruct demo_counts as [Hb Hi]. rw Hb Hi. split; [lia|]. split; [lia|]. intros n Hn.
  rw /blocks_taken. destruct (12 <? _); lia.
Qed.
Lemma demo_unique : names_unique [root_entries].
Proof. rw /names_unique. apply (bool_decide_unpack (NoDup _)). by vm_compute. Qed.

Section Theorems.
Context {PW : PtrWidth} {D : Type} `{BlockDeviceLaws D} `{StackJunkLaws} `{Overrun D}.
Implicit Types s : FS D.

(** [write] of a file followed by [read] of its name, up to the effect on memory *)
Lemma write_read_effect s r out p bs ess :
  fs_inv s -> dir_live_at s p bs ess -> parent_inode r = p -> file_request s r ->
  dir_lookup (concat ess) (request_nm s r) = 0 -> dirs_room ess (request_nm s r) = true ->
  free_inodes s <> 0 -> 0 <= out -> out + buffer_size r <= ptr_size ->
  wp (w ← write r;
      c ← read (mkRequest out (name r) (name_len r) (parent_inode r) (buffer_size r) false);
      mret (w, c))
    (fun wc s' => wc = (0, 0) /\ fs_inv s' /\
      mem_eq (fs_mem s') (mem_store (fs_mem s) out (stored_part (free_blocks s) r (request_data s r)))) s.
Proof.
  intros Hi Hdl Ep Hfr Habs Hroom Hfi Hout Hw. apply wp_bind. destruct (Hfr) as (_ & _ & Hsz & _).
  have [Hf0 _] := fs_core_counts s (inv_core _ Hi).
  eapply wp_mono; [apply (write_file_stored s r p bs ess); try done; rw /name_fits Hroom; by apply blocks_grabbed_le, Hf0|].
  intros w s1 (-> & ino & tk & bs' & ess1 & ds & ids & Hem & _ & Hfa & _).
  destruct (made_created _ _ _ _ _ _ _ _ _ _ _ Hem Hroom Hdl) as [-> Hec].
  destruct (Hec) as (Hi1 & Em & Hino & _ & _ & _ & (ess' & Hins & Hda1 & _) & _).
  have Hino0 : ino <> 0 by geometry; lia.
  apply wp_bind. eapply wp_mono; [eapply (read_spec s1 _ p bs ess' ino ds ids); [done|done|done| |done|..]|].
  - cbn. rw Em. rewrite -> (dirs_insert_lookup _ _ _ _ _ _ Hino0 Hins Habs).
    by rewrite -> bool_decide_true by done.
  - done.
  - done.
  - cbn. lia.
  - intros c s2 (-> & M & E). apply wp_ret. split; [done|].
    split; [by eapply mem_only_fs_inv|]. etrans; [exact E|]. cbn. rw Em.
    have Hl : length (request_data s r) = Z.to_nat (buffer_size r) by apply mem_load_length.
    rewrite -> (take_ge (stored_part _ _ _)) by (rw /stored_part length_take; lia). done.
Qed.

(** C6: a file written under a new name reads back byte for byte.  On a volume that
    satisfies the invariant, for a directory in use with room for the name, a file
    of at most 140 blocks for which enough blocks and an inode are free: [write]
    answers 0 and keeps the invariant, and a following [read] of the same name into
    any buffer answers 0 and leaves the file's bytes there. *)
Theorem write_then_read s r out p bs ess :
  fs_inv s -> dir_live_at s p bs ess -> parent_inode r = p -> file_request s r ->
  dir_lookup (concat ess) (request_nm s r) = 0 -> dirs_room ess (request_nm s r) = true ->
  free_inodes s <> 0 -> buffer_size r <= max_file_size -> blocks_taken r <= free_blocks s ->
  0 <= out -> out + buffer_size r <= ptr_size ->
  wp (w ← write r;
      c ← read (mkRequest out (name r) (name_len r) (parent_inode r) (buffer_size r) false);
      mret (w, c))
    (fun wc s' => wc = (0, 0) /\ fs_inv s' /\
      mem_load (fs_mem s') out (Z.to_nat (buffer_size r)) = request_data s r) s.
Proof.
  intros Hi Hdl Ep Hfr Habs Hroom Hfi Hmax Hfb Hout Hw. destruct (Hfr) as (_ & _ & Hsz & _).
  have Hl : length (request_data s r) = Z.to_nat (buffer_size r) by apply mem_load_length.
  eapply wp_mono; [by apply (write_read_effect s r out p bs ess)|]. intros wc s' (-> & Hi' & E).
  split; [done|]. split; [done|]. rewrite -> stored_enough, take_ge in E by (done || lia).
  rewrite -> (mem_load_eq _ _ _ _ E). apply mem_load_store; [split; lia|done].
Qed.

(** C31: [write] answers 0 whether or not it could store the file.  For a file of any size
    and any number of free blocks, [write] answers 0 and keeps the invariant, a following
    [read] answers 0 as well, and delivers exactly the first [blocks_stored] blocks of the
    file: up to 140 blocks, up to the free ones, the thirteenth of which is spent on the
    pointers; behind them the reader's buffer stays as it was. *)
Theorem write_stores_prefix s r out p bs ess :
  fs_inv s -> dir_live_at s p bs ess -> parent_inode r = p -> file_request s r ->
  dir_lookup (concat ess) (request_nm s r) = 0 -> dirs_room ess (request_nm s r) = true ->
  free_inodes s <> 0 -> 0 <= out -> out + buffer_size r <= ptr_size ->
  wp (w ← write r;
      c ← read (mkRequest out (name r) (name_len r) (parent_inode r) (buffer_size r) false);
      mret (w, c))
    (fun wc s' => wc = (0, 0) /\ fs_inv s' /\
      forall i, 0 <= i < buffer_size r -> fs_mem s' (out + i) =
        if i <? 512 * blocks_stored (free_blocks s) r then fs_mem s (buf r + i) else fs_mem s (out + i)) s.
Proof.
  intros Hi Hdl Ep Hfr Habs Hroom Hfi Hout Hw. destruct (Hfr) as (_ & Hb & Hsz & Hbw & _).
  have Hl : length (request_data s r) = Z.to_nat (buffer_size r) by apply mem_load_length.
  eapply wp_mono; [by apply (write_read_effect s r out p bs ess)|]. intros wc s' (-> & Hi' & E).
  split; [done|]. split; [done|]. intros i Hir. rewrite -> E by lia. rw /stored_part.
  set (n := 512 * blocks_stored (free_blocks s) r).
  have Hlt : len (take (Z.to_nat n) (request_data s r)) = Z.max 0 (Z.min n (buffer_size r)) by rw length_take Hl; lia.
  rewrite -> mem_store_lookup by lia. rw Hlt. destruct (Z.ltb_spec i n).
  - rewrite -> bool_decide_true by lia. apply nth_lookup_Some.
    rewrite -> lookup_take_lt by lia. rw /request_data.
    rewrite -> mem_load_lookup, ptr_id by lia. do 2 f_equal. lia.
  - by rewrite -> bool_decide_false by lia.
Qed.

(** the blocks a request takes while [f] are free *)
Definition blocks_claimed (f : Z) (r : EXT2DriverRequest) : Z :=
  if is_directory r then Z.min 1 f else blocks_grabbed f r.
(** C32: [write] that finds no room for the name answers -1 and keeps what it took.  When no
    block of the directory has room for the name and none can be added, because there are
    twelve or because the new file uses up the volume, the directory stays as it was, but an inode
    and all the blocks written for it remain marked as used, in a volume that still keeps the
    invariant.  Without a free inode the answer is
    -1, too, and nothing changes. *)
Theorem write_leaks s r p bs ess :
  fs_inv s -> dir_live_at s p bs ess -> parent_inode r = p ->
  (is_directory r = false -> file_request s r) -> 0 <= name_len r < 256 -> mem_ok (fs_mem s) ->
  dir_lookup (concat ess) (request_nm s r) = 0 -> dirs_room ess (request_nm s r) = false ->
  length bs = 12%nat \/ blocks_claimed (free_blocks s) r = free_blocks s ->
  wp (write r) (fun code s' => code = -1 /\ fs_inv s' /\ dir_live_at s' p bs ess /\
    if free_inodes s =? 0 then feq s s' else
    free_inodes s' = free_inodes s - 1 /\ free_blocks s' = free_blocks s - blocks_claimed (free_blocks s) r /\
    exists ino, EXT2_GOOD_OLD_FIRST_INO < ino <= INODES_PER_GROUP /\ ino <> p /\
      bit (inode_bitmap s) (ino - 1) = false /\ bit (inode_bitmap s') (ino - 1) = true) s.
Proof.
  intros Hi Hdl Ep Hreq Hnl Hm Habs Hroom Hno. destruct (request_nm_ok s r Hm Hnl) as [Hnm Hnb].
  have Hp : 1 <= p <= INODES_PER_GROUP by destruct Hdl as ([] & _).
  destruct (Z.eqb_spec (free_inodes s) 0) as [E0|Hfi].
  - eapply wp_mono; [by apply (write_no_inode s r p bs ess)|]. intros code s' [-> Hf].
    split; [done|]. split; [by eapply feq_fs_inv|]. split; [by eapply feq_live|done].
  - rw /write /blocks_claimed in Hno |- *. destruct (is_directory r) eqn:Ed; cbn [negb andb].
    + eapply wp_mono; [apply (write_core_refused s r p bs ess EXT2_FT_DIR (Z.min 1 (free_blocks s))
        (fun ino => write_dir_block r ino (new_inode true (buffer_size r)))); try done; [by destruct Hno; [left|right]|]|done].
      intros ino s1 Hino Hi1 Em Efb. rw -Efb. apply dir_phase_any; [done|geometry; lia|by rw Ep].
    + eapply wp_mono; [apply (write_core_refused s r p bs ess EXT2_FT_REG_FILE (blocks_grabbed (free_blocks s) r)
        (fun _ => if 0 <? buffer_size r then write_file_blocks r (new_inode false (buffer_size r))
                  else mret (new_inode false (buffer_size r)))); try done; [by destruct Hno; [left|right]|]|done].
      intros ino s1 Hino Hi1 Em Efb. eapply wp_mono; [apply file_phase_spec; [done|by rw /file_request Em; apply Hreq]|].
      intros node s2 (tk & ds & ids & Hg & _ & _ & _ & Hok & _ & _ & _ & _ & Hl & _). exists tk. by rw -Efb.
Qed.

(** the first steps of [delete] on a name that exists *)
Lemma delete_start_spec s r p bs ess n Q : fs_inv s -> dir_at s p bs ess -> parent_inode r = p ->
  name r <> 0 -> name_len r <> 0 -> dir_lookup (concat ess) (request_nm s r) = n ->
  1 <= n <= INODES_PER_GROUP ->
  (forall s', feq s s' ->
    wp (refused ← (if is_directory r then
                 if negb (is_dir_mode (inode_at s n)) then mret 1 else
                 empty ← is_directory_empty n;
                 mret (if empty : bool then 0 else 2)
               else mret (if is_dir_mode (inode_at s n) then 1 else 0));
        if negb (refused =? 0) then mret refused else
        ok ← remove_entry_from_dir p (request_nm s r);
        if negb ok then mret (-1) else
        deallocate_node n;;
        mret 0) Q s') -> wp (delete r) Q s.
Proof.
  intros Hi Hda Ep Hn0 Hl0 El Hn HQ. have Hp := da_num _ _ _ _ Hda. rw /delete.
  apply wp_bind, wp_gets. have -> : g_filesystem_initialized s = true by destruct Hi as [[]].
  cbn [negb]. rewrite -> (proj2 (Z.eqb_neq (parent_inode r) 0)) by lia.
  rw (proj2 (Z.eqb_neq _ _) Hn0) (proj2 (Z.eqb_neq _ _) Hl0). cbn [orb].
  apply wp_bind, wp_gets, wp_bind. rw Ep -/(request_nm s r).
  eapply wp_mono; [by apply (find_entry_in_dir_spec s p bs ess); [apply fs_inv_table_ok|]|].
  rw El. intros _ s1 [-> Hf]. rewrite -> (proj2 (Z.eqb_neq n 0)) by lia. apply wp_bind.
  eapply wp_mono; [apply read_inode_spec; [apply fs_inv_table_ok; by eapply feq_fs_inv|done]|].
  intros _ s2 [-> Hf2]. cbv beta iota zeta. rw (feq_inode _ _ n Hf). apply HQ. by eapply feq_trans.
Qed.

Lemma feq_file_live s s' n bs : feq s s' -> file_live_at s n bs -> file_live_at s' n bs.
Proof.
  intros Hf (Hn & Hb & [Hnd Hall] & Hd).
  have En : node_blocks s' (inode_at s' n) = node_blocks s (inode_at s n).
  { rw (feq_inode _ _ n Hf) /node_blocks. by rw (feq_blk _ _ _ Hf). }
  rw /file_live_at En /allocated /inode_bitmap /block_bitmap !(feq_blk _ _ _ Hf). done.
Qed.

(** C12: [delete] undoes [write].  A file written under a new name and then deleted
    leaves a volume that satisfies the invariant, with the free counters of before,
    and a directory in which every look-up answers as before. *)
Theorem write_then_delete s r p bs ess :
  fs_inv s -> dir_live_at s p bs ess -> parent_inode r = p -> file_request s r ->
  dir_lookup (concat ess) (request_nm s r) = 0 -> dirs_room ess (request_nm s r) = true ->
  free_inodes s <> 0 -> blocks_taken r <= free_blocks s -> names_unique ess ->
  name r <> 0 -> name_len r <> 0 ->
  wp (w ← write r;
      d ← delete (mkRequest 0 (name r) (name_len r) (parent_inode r) 0 false);
      mret (w, d))
    (fun wd s' => wd = (0, 0) /\ fs_inv s' /\
      free_blocks s' = free_blocks s /\ free_inodes s' = free_inodes s /\
      exists ess', dir_live_at s' p bs ess' /\
        forall nm, dir_lookup (concat ess') nm = dir_lookup (concat ess) nm) s.
Proof.
  intros Hi Hdl Ep Hfr Habs Hroom Hfi Hfb Hu Hn0 Hl0. apply wp_bind.
  eapply wp_mono; [by apply (write_file_spec s r p bs ess)|].
  intros w s1 (-> & ino & ds & ids & Hec & Hfa & Hfl & Hfree).
  destruct (Hec) as (Hi1 & Em & Hino & Hbit & _ & Hfin & (ess' & Hins & Hdl1) & _).
  have Hino0 : ino <> 0 by geometry; lia.
  have Hlook : dir_lookup (concat ess') (request_nm s r) = ino.
  { rewrite -> (dirs_insert_lookup _ _ _ _ _ _ Hino0 Hins Habs). by rewrite -> bool_decide_true by done. }
  have Hnp : ino <> p by intros ->; destruct Hdl as (_ & _ & Hb); rw Hb in Hbit.
  have Hmode := fa_mode _ _ _ _ _ _ Hfa.
  set (rd := mkRequest _ _ _ _ _ _).
  have Enm : request_nm s1 rd = request_nm s r by rw /request_nm Em.
  apply wp_bind. apply (delete_start_spec s1 rd p bs ess' ino); [done|apply Hdl1|done|done|done|by rw Enm| |].
  { geometry; lia. }
  intros s2 Hf. rw Hmode Enm. cbn [is_directory rd]. apply wp_bind, wp_ret. cbn [Z.eqb negb].
  eapply wp_mono; [apply (delete_tail_spec s2 p bs ess' ino); [by eapply feq_fs_inv|by eapply feq_live|done|by eapply feq_file_live|done]|].
  intros d s3 (-> & Hi3 & _ & ess2 & Hrem & Hdl3 & _ & _ & Hfi3 & Hfb3 & _ & _). apply wp_ret.
  destruct (meta_same_free s1 s2) as [Eb Ei]; [apply Hf|].
  have En : node_blocks s2 (inode_at s2 ino) = node_blocks s1 (inode_at s1 ino).
  { rw (feq_inode _ _ ino Hf) /node_blocks. by rw (feq_blk _ _ _ Hf). }
  rw En in Hfb3. split; [done|]. split; [done|]. split; [lia|]. split; [lia|].
  exists ess2. split; [done|]. intros nm.
  rewrite -> (dirs_remove_lookup _ _ _ _ (dirs_insert_unique _ _ _ _ _ Hino0 Hu Habs Hins) Hrem).
  rewrite -> (dirs_insert_lookup _ _ _ _ _ _ Hino0 Hins Habs). case_bool_decide as E; [by rw E|done].
Qed.

(** C11: formatting any storage gives a volume that satisfies the invariant: the
    counters agree with the bitmaps and with their copies on disk, the boot sector
    carries the signature, the root directory is in use and holds exactly [.] and
    [..], both naming inode 2, and every other inode is zero. *)
Theorem create_ext2_correct s : dev_ok (fs_dev s) ->
  wp create_ext2 (fun _ s' => fs_inv s' /\ blk s' BOOT_SECTOR = fs_signature /\
    dir_live_at s' ROOT_INODE_NO [ROOT_DIR_BLOCK_LBA] [root_entries] /\
    dir_live (concat [root_entries]) = [([46], (2, EXT2_FT_DIR)); ([46; 46], (2, EXT2_FT_DIR))] /\
    free_blocks s' = 234 /\ free_inodes s' = 53 /\
    forall n, 1 <= n <= INODES_PER_GROUP -> n <> ROOT_INODE_NO -> inode_at s' n = zero_inode) s.
Proof.
  intros Hd. eapply wp_mono; [by apply create_ext2_spec|]. intros [] s' [Hf _].
  have Hroot := formatted_root _ Hf. by destruct Hf.
Qed.

(** C20: a volume survives a restart.  Whatever the memory of the driver held, mounting
    the storage that a volume satisfying the invariant left behind restores the
    cached superblock and group descriptor, and with them the invariant, without
    changing a block; provided the two overrunning loads hit nothing. *)
Theorem remount s t : dev_ok (fs_dev s) -> overrun_harmless -> fs_inv t ->
  (forall l, blk s l = blk t l) ->
  wp initialize_filesystem_ext2 (fun _ s' => fs_inv s' /\
    free_blocks s' = free_blocks t /\ free_inodes s' = free_inodes t /\
    (forall l, blk s' l = blk t l) /\
    forall p bs ess, dir_live_at t p bs ess -> dir_live_at s' p bs ess) s.
Proof.
  intros Hd Ho Hi Heq. eapply wp_mono; [by apply (mount_existing s t)|].
  intros [] s' (Hi' & _ & Eg & Eb & _). rw /free_blocks /free_inodes Eg. split; [done|].
  split; [done|]. split; [done|]. split; [done|]. intros p bs ess (Hda & Hbits & Hp).
  split; [by apply (blk_dir_at t)|by rw /block_bitmap /inode_bitmap !Eb].
Qed.

(** the block allocator and the release of a block are inverse.  When a block is
    free, [allocate_block] answers a data block that was clear in the bitmap, and
    releasing it restores the bitmap bit for bit and both free counters. *)
Theorem allocate_then_deallocate s : fs_inv s -> free_blocks s <> 0 ->
  wp (i ← allocate_block; deallocate_single_block i;; mret i)
    (fun i s' => ROOT_DIR_BLOCK_LBA < i < BLOCKS_PER_GROUP /\ bit (block_bitmap s) i = false /\
      fs_inv s' /\ free_blocks s' = free_blocks s /\ free_inodes s' = free_inodes s /\
      block_bitmap s' = block_bitmap s) s.
Proof.
  intros Hi Hfree. apply wp_bind. eapply wp_mono; [by apply allocate_block_spec|].
  intros i s1 [(_ & ? & _)|(Hr & Hbit & Hi1 & _ & Hb1 & Hn1 & Hj1)]; [done|]. apply wp_bind.
  eapply wp_mono; [apply deallocate_single_block_spec; [done|done|]|].
  { rw Hj1 ?Z.eqb_refl //. geometry. lia. }
  intros [] s2 (Hi2 & _ & Hb2 & Hn2 & Hj2). apply wp_ret. split; [done|]. split; [done|]. split; [done|].
  split; [lia|]. split; [lia|].
  have Hd s0 : fs_inv s0 -> dev_ok (fs_dev s0) by intros [[]].
  destruct (blk_ok s BLOCK_BITMAP_LBA) as [Hl Hok]; [by apply Hd|done|].
  destruct (blk_ok s2 BLOCK_BITMAP_LBA) as [Hl2 Hok2]; [by apply Hd|done|].
  apply bit_ext; [done|done|rw /block_bitmap; lia|]. intros j Hj. rewrite -> Hj2, Hj1 by lia.
  destruct (Z.eqb_spec j i) as [->|]; [by rw Hbit|done].
Qed.

(** A directory that holds anything but [.] and [..] is not deleted: [delete]
    answers 2 and changes nothing. *)
Theorem delete_nonempty s r p bs ess n bs' e1 e2 es ess' : fs_inv s -> dir_at s p bs ess ->
  parent_inode r = p -> is_directory r = true -> name r <> 0 -> name_len r <> 0 ->
  dir_lookup (concat ess) (request_nm s r) = n ->
  dir_at s n bs' ((e1 :: e2 :: es) :: ess') -> live (es ++ concat ess') = true ->
  wp (delete r) (fun code s' => code = 2 /\ feq s s') s.
Proof.
  intros Hi Hda Ep Ed Hn0 Hl0 El Hda' Hlive.
  apply (delete_start_spec s r p bs ess n); [done..|by destruct Hda'|]. intros s1 Hf.
  rw Ed (da_mode _ _ _ _ Hda'). cbn [negb]. apply wp_bind, wp_bind.
  eapply wp_mono; [apply (is_directory_empty_spec s1 n bs' e1 e2 es ess'); [by eapply feq_fs_inv|by eapply feq_dir_at]|].
  intros r' s2 [-> Hf2]. rw Hlive. apply wp_ret, wp_ret. split; [done|by eapply feq_trans].
Qed.

(** Making a directory.  [write] with [is_directory] on a new name answers 0, and
    leaves a volume that satisfies the invariant in which the name is found, every
    other look-up answers as before, and the new inode is a directory in use whose
    [.] is itself and whose [..] is its parent and which is empty. *)
Theorem write_directory s r p bs ess : fs_inv s -> dir_live_at s p bs ess -> parent_inode r = p ->
  is_directory r = true -> 0 <= name_len r < 256 -> mem_ok (fs_mem s) ->
  dir_lookup (concat ess) (request_nm s r) = 0 -> dirs_room ess (request_nm s r) = true ->
  free_inodes s <> 0 -> 0 < free_blocks s ->
  wp (code ← write r;
      ino ← find_entry_in_dir p (request_nm s r);
      dot ← find_entry_in_dir ino [46];
      dotdot ← find_entry_in_dir ino [46; 46];
      empty ← is_directory_empty ino;
      mret (code, ino, dot, dotdot, empty))
    (fun res s' => exists ino ess' b, res = (0, ino, ino, p, true) /\ fs_inv s' /\ ino <> 0 /\
      dir_live_at s' p bs ess' /\ dir_live_at s' ino [b] [dot_entries ino p] /\
      forall nm, nm <> request_nm s r -> dir_lookup (concat ess') nm = dir_lookup (concat ess) nm) s.
Proof.
  intros Hi Hdl Ep Ed Hnl Hm Habs Hroom Hfi Hfb. have Hp : p <> 0 by destruct Hdl as ([] & _); lia.
  apply wp_bind. eapply wp_mono; [by apply (write_dir_spec s r p bs ess)|].
  intros code s1 (-> & ino & b & Hec & Hdl2 & _).
  destruct (Hec) as (Hi1 & Em & Hino & _ & _ & _ & (ess' & Hins & Hdl1) & _).
  have Hino0 : ino <> 0 by geometry; lia.
  have Hlook nm := dirs_insert_lookup _ _ _ _ _ nm Hino0 Hins Habs.
  apply wp_bind. eapply wp_mono; [apply (find_entry_in_dir_spec s1 p bs ess'); [by apply fs_inv_table_ok|apply Hdl1]|].
  intros i s2 [-> Hf2]. rewrite -> Hlook, bool_decide_true by done.
  have Hi2 := feq_fs_inv _ _ Hi1 Hf2. have Hd2 := feq_live _ _ _ _ _ Hf2 Hdl2.
  apply wp_bind. eapply wp_mono; [apply (find_entry_in_dir_spec s2 ino [b]); [by apply fs_inv_table_ok|apply Hd2]|].
  intros i s3 [-> Hf3]. have Hf13 := feq_trans _ _ _ Hf2 Hf3.
  have Hi3 := feq_fs_inv _ _ Hi1 Hf13. have Hd3 := feq_live _ _ _ _ _ Hf13 Hdl2.
  apply wp_bind. eapply wp_mono; [apply (find_entry_in_dir_spec s3 ino [b]); [by apply fs_inv_table_ok|apply Hd3]|].
  intros i s4 [-> Hf4]. have Hf14 := feq_trans _ _ _ Hf13 Hf4.
  have Hi4 := feq_fs_inv _ _ Hi1 Hf14. have Hd4 := feq_live _ _ _ _ _ Hf14 Hdl2.
  apply wp_bind. eapply wp_mono; [eapply is_directory_empty_spec; [done|apply Hd4]|].
  intros e s5 [-> Hf5]. apply wp_ret. have Hf15 := feq_trans _ _ _ Hf14 Hf5.
  exists ino, ess', b. split.
  { cbn. rw /de_match. cbn. rewrite -> !(proj2 (Z.eqb_neq _ _)) by done. done. }
  split; [by eapply feq_fs_inv|]. split; [done|]. split; [by eapply feq_live|]. split; [by eapply feq_live|].
  intros nm Hnm. by rewrite -> Hlook, bool_decide_false by done.
Qed.

(** [stat] of a name that exists *)
Lemma stat_spec s nm l p bs ess n ds ids size content : fs_inv s -> dir_at s p bs ess -> nm <> 0 -> l <> 0 ->
  dir_lookup (concat ess) (mem_load (fs_mem s) nm (Z.to_nat l)) = n -> file_at s n ds ids size content ->
  wp (stat nm l p) (fun ans s' => ans = (0, Some (size, false)) /\ feq s s') s.
Proof.
  intros Hi Hda Hn0 Hl0 El Hfa. have Hp := da_num _ _ _ _ Hda. have Hn := fa_num _ _ _ _ _ _ Hfa.
  rw /stat. apply wp_bind, wp_gets. have -> : g_filesystem_initialized s = true by destruct Hi as [[]].
  rw (proj2 (Z.eqb_neq _ _) Hn0) (proj2 (Z.eqb_neq _ _) Hl0). rewrite -> (proj2 (Z.eqb_neq p 0)) by lia.
  cbn [negb orb]. apply wp_bind, wp_gets, wp_bind.
  eapply wp_mono; [by apply (find_entry_in_dir_spec s p bs ess); [apply fs_inv_table_ok|]|].
  rw El. intros _ s1 [-> Hf]. rewrite -> (proj2 (Z.eqb_neq n 0)) by lia. apply wp_bind.
  eapply wp_mono; [apply read_inode_spec; [apply fs_inv_table_ok; by eapply feq_fs_inv|done]|].
  intros _ s2 [-> Hf2]. apply wp_ret. have Hf12 := feq_trans _ _ _ Hf Hf2.
  have E := feq_inode _ _ n Hf. rw E (fa_size _ _ _ _ _ _ Hfa) (fa_mode _ _ _ _ _ _ Hfa). done.
Qed.

(** the start of a refused call: the name is looked up *)
Lemma write_exists_spec s r p bs ess : fs_inv s -> dir_at s p bs ess -> parent_inode r = p ->
  dir_lookup (concat ess) (request_nm s r) <> 0 -> wp (write r) (fun code s' => code = 1 /\ feq s s') s.
Proof.
  intros Hi Hda Ep Hl. have Hp : p <> 0 by destruct Hda; lia.
  rw /write. apply wp_bind, wp_gets. have -> : g_filesystem_initialized s = true by destruct Hi as [[]].
  rw Ep (proj2 (Z.eqb_neq p 0) Hp). cbn [negb]. apply wp_bind, wp_gets, wp_bind.
  eapply wp_mono; [by apply (find_entry_in_dir_spec s p bs ess); [apply fs_inv_table_ok|]|]. intros i s1 [-> Hf].
  rw (proj2 (Z.eqb_neq _ 0) Hl). by apply wp_ret.
Qed.
Lemma delete_missing_spec s r p bs ess : fs_inv s -> dir_at s p bs ess -> parent_inode r = p ->
  name r <> 0 -> name_len r <> 0 -> dir_lookup (concat ess) (request_nm s r) = 0 ->
  wp (delete r) (fun code s' => code = 1 /\ feq s s') s.
Proof.
  intros Hi Hda Ep Hn0 Hl0 Hl. have Hp : p <> 0 by destruct Hda; lia.
  rw /delete. apply wp_bind, wp_gets. have -> : g_filesystem_initialized s = true by destruct Hi as [[]].
  rw Ep (proj2 (Z.eqb_neq p 0) Hp) (proj2 (Z.eqb_neq _ _) Hn0) (proj2 (Z.eqb_neq _ _) Hl0). cbn [negb orb].
  apply wp_bind, wp_gets, wp_bind.
  eapply wp_mono; [by apply (find_entry_in_dir_spec s p bs ess); [apply fs_inv_table_ok|]|]. intros i s1 [-> Hf].
  rw -/(request_nm s r) Hl. by apply wp_ret.
Qed.
Lemma stat_missing_spec s nm l p bs ess : fs_inv s -> dir_at s p bs ess -> nm <> 0 -> l <> 0 ->
  dir_lookup (concat ess) (mem_load (fs_mem s) nm (Z.to_nat l)) = 0 ->
  wp (stat nm l p) (fun res s' => res = (1, None) /\ feq s s') s.
Proof.
  intros Hi Hda Hn0 Hl0 Hl. have Hp : p <> 0 by destruct Hda; lia.
  rw /stat. apply wp_bind, wp_gets. have -> : g_filesystem_initialized s = true by destruct Hi as [[]].
  rw (proj2 (Z.eqb_neq p 0) Hp) (proj2 (Z.eqb_neq _ _) Hn0) (proj2 (Z.eqb_neq _ _) Hl0). cbn [negb orb].
  apply wp_bind, wp_gets, wp_bind.
  eapply wp_mono; [by apply (find_entry_in_dir_spec s p bs ess); [apply fs_inv_table_ok|]|]. intros i s1 [-> Hf].
  rw Hl. by apply wp_ret.
Qed.

(** Refusals on a mounted volume.  [write] of a name that exists answers 1,
    [read] of a name that does not exist answers 3, [delete] answers 1 and [stat]
    answers 1; none of them changes a block, the metadata or the caller's memory. *)
Theorem refusals s r p bs ess : fs_inv s -> dir_at s p bs ess -> parent_inode r = p ->
  name r <> 0 -> name_len r <> 0 ->
  (dir_lookup (concat ess) (request_nm s r) <> 0 -> wp (write r) (fun code s' => code = 1 /\ feq s s') s) /\
  (dir_lookup (concat ess) (request_nm s r) = 0 ->
    wp (read r) (fun code s' => code = 3 /\ feq s s') s /\
    wp (delete r) (fun code s' => code = 1 /\ feq s s') s /\
    wp (stat (name r) (name_len r) p) (fun res s' => res = (1, None) /\ feq s s') s).
Proof.
  intros Hi Hda Ep Hn0 Hl0. split; [by apply (write_exists_spec s r p bs ess)|]. intros Hl.
  split; [by apply (read_missing_spec s r p bs ess)|]. split; [by apply (delete_missing_spec s r p bs ess)|].
  by apply (stat_missing_spec s _ _ p bs ess).
Qed.

(** An inode number above 512 indexes [_ext2_bgdt_state.table] out of bounds:
    [read_inode], and with it every call whose parent inode it is, is undefined. *)
Theorem inode_out_of_range s n : length (_ext2_bgdt_state s) = Z.to_nat GROUPS_COUNT ->
  g_filesystem_initialized s = true -> TOTAL_INODES < n ->
  read_inode n s = UB /\ find_entry_in_dir n [] s = UB /\
  read_directory (mkRequest 0 0 0 n 512 true) s = UB /\ stat 1 1 n s = UB.
Proof.
  intros Hl Hi Hn. have Hr : read_inode n s = UB.
  { rw /read_inode. rewrite -> (proj2 (Z.eqb_neq n 0)) by (geometry; lia). cbv zeta.
    apply bind_UB. rw /bgdt_get. rewrite -> lookup_ge_None_2; [done|]. rw Hl /inode_to_bgd.
    rewrite -> (proj2 (Z.eqb_neq n 0)) by (geometry; lia). geometry.
    have := Z.div_le_lower_bound (n - 1) 64 8. change (Z.to_nat GROUPS_COUNT) with 8%nat. lia. }
  have Hf nm : find_entry_in_dir n nm s = UB by apply bind_UB.
  split; [done|split; [done|split]].
  - rw /read_directory bind_gets Hi. by apply bind_UB.
  - rw /stat bind_gets Hi. rewrite -> (proj2 (Z.eqb_neq n 0)) by (geometry; lia). cbn [negb orb Z.eqb].
    rw bind_gets. by apply bind_UB.
Qed.
End Theorems.

Lemma write_then_read_witness :
  wp (w ← write (demo_request 1000);
      c ← read (mkRequest 65536 256 5 ROOT_INODE_NO 1000 false);
      mret (w, c))
    (fun wc s' => wc = (0, 0) /\ fs_inv s' /\
      mem_load (fs_mem s') 65536 (Z.to_nat 1000) = request_data demo_fs (demo_request 1000)) demo_fs.
Proof.
  apply (write_then_read demo_fs (demo_request 1000) 65536 _ _ _ demo_inv demo_root);
    [done|by apply demo_file_request|by apply demo_absent|by apply demo_room|apply demo_free|done|
     by apply demo_free|done|done].
Defined.

Lemma write_then_delete_witness :
  wp (w ← write (demo_request 10000);
      d ← delete (mkRequest 0 256 5 ROOT_INODE_NO 0 false);
      mret (w, d))
    (fun wd s' => wd = (0, 0) /\ fs_inv s' /\
      free_blocks s' = free_blocks demo_fs /\ free_inodes s' = free_inodes demo_fs /\
      exists ess', dir_live_at s' ROOT_INODE_NO [ROOT_DIR_BLOCK_LBA] ess' /\
        forall nm, dir_lookup (concat ess') nm = dir_lookup (concat [root_entries]) nm) demo_fs.
Proof.
  apply (write_then_delete demo_fs (demo_request 10000) _ _ _ demo_inv demo_root);
    [done|by apply demo_file_request|by apply demo_absent|by apply demo_room|apply demo_free|
     by apply demo_free|exact demo_unique|done|done].
Defined.

Lemma create_ext2_correct_witness :
  wp create_ext2 (fun _ s' => fs_inv s' /\ blk s' BOOT_SECTOR = fs_signature /\
    dir_live_at s' ROOT_INODE_NO [ROOT_DIR_BLOCK_LBA] [root_entries] /\
    dir_live (concat [root_entries]) = [([46], (2, EXT2_FT_DIR)); ([46; 46], (2, EXT2_FT_DIR))] /\
    free_blocks s' = 234 /\ free_inodes s' = 53 /\
    forall n, 1 <= n <= INODES_PER_GROUP -> n <> ROOT_INODE_NO -> inode_at s' n = zero_inode) blank_fs.
Proof. exact (create_ext2_correct blank_fs blank_dev_ok). Defined.

(** a restart: the image of [demo_fs] under a driver that knows nothing *)
Definition restarted_fs : FS Image := mkFS (fs_dev demo_fs) new_superblock [] false 0 demo_mem.
Lemma restarted_dev : fs_dev restarted_fs = fs_dev demo_fs.
Proof. reflexivity. Qed.
Lemma restarted_blk l : blk restarted_fs l = blk demo_fs l.
Proof. by rw /blk restarted_dev. Qed.
Lemma restarted_ok : dev_ok (fs_dev restarted_fs).
Proof. rw restarted_dev. exact (inv_dev _ (inv_core _ demo_inv)). Qed.
Lemma demo_overrun_harmless : overrun_harmless (D:=Image).
Proof. split; intros b s; by exists s. Qed.

Lemma remount_witness :
  wp initialize_filesystem_ext2 (fun _ s' => fs_inv s' /\
    free_blocks s' = free_blocks demo_fs /\ free_inodes s' = free_inodes demo_fs /\
    (forall l, blk s' l = blk demo_fs l) /\
    forall p bs ess, dir_live_at demo_fs p bs ess -> dir_live_at s' p bs ess) restarted_fs.
Proof.
  exact (remount restarted_fs demo_fs restarted_ok demo_overrun_harmless demo_inv restarted_blk).
Defined.

Lemma allocate_then_deallocate_witness :
  wp (i ← allocate_block; deallocate_single_block i;; mret i)
    (fun i s' => ROOT_DIR_BLOCK_LBA < i < BLOCKS_PER_GROUP /\ bit (block_bitmap demo_fs) i = false /\
      fs_inv s' /\ free_blocks s' = free_blocks demo_fs /\ free_inodes s' = free_inodes demo_fs /\
      block_bitmap s' = block_bitmap demo_fs) demo_fs.
Proof. apply (allocate_then_deallocate demo_fs demo_inv). destruct demo_counts as [Hb _]. rw Hb. lia. Defined.

(** the root directory with one file, and its own entry [.] as the target *)
Definition dot_request : EXT2DriverRequest := mkRequest 0 16 1 ROOT_INODE_NO 0 true.
Definition demo_name : list Z := mem_load demo_mem 256 5.
Definition one_file (ino : Z) : list dentry :=
  [ mkDentry 2 [46] EXT2_FT_DIR (zeros 3); mkDentry 2 [46; 46] EXT2_FT_DIR (zeros 2);
    mkDentry ino demo_name EXT2_FT_REG_FILE (zeros 475) ].
Lemma one_file_eq ino : dirs_insert [root_entries] ino demo_name EXT2_FT_REG_FILE = Some [one_file ino].
Proof. reflexivity. Qed.

(** a volume with one file of 71680 bytes under a long name: 93 blocks are left *)
Definition long_name : list Z := mem_load demo_mem 256 255.
Definition long_request : EXT2DriverRequest := mkRequest 4096 256 255 ROOT_INODE_NO 71680 false.
Definition long_file (ino : Z) : list dentry :=
  [ mkDentry 2 [46] EXT2_FT_DIR (zeros 3); mkDentry 2 [46; 46] EXT2_FT_DIR (zeros 2);
    mkDentry ino long_name EXT2_FT_REG_FILE (zeros 225) ].
Lemma long_file_eq ino : dirs_insert [root_entries] ino long_name EXT2_FT_REG_FILE = Some [long_file ino].
Proof. vm_compute. reflexivity. Qed.
Lemma long_room : dirs_room [root_entries] (request_nm demo_fs long_request) = true /\
  dir_lookup (concat [root_entries]) (request_nm demo_fs long_request) = 0.
Proof. rw demo_nm. by vm_compute. Qed.
Lemma crowded_volume : exists s ino, fs_inv s /\ fs_mem s = demo_mem /\ free_blocks s = 93 /\ free_inodes s = 52 /\ ino <> 0 /\
  dir_live_at s ROOT_INODE_NO [ROOT_DIR_BLOCK_LBA] [long_file ino].
Proof.
  have Ht : blocks_taken long_request = 141 by done. destruct demo_counts as [Eb Ei]. destruct long_room as [Hr Ha].
  have Hreq : file_request demo_fs long_request by split; [done|]; cbn; repeat (split; [lia|]); exact demo_mem_ok.
  destruct (wp_elim _ _ _ (write_file_made demo_fs long_request _ _ _ demo_inv demo_root eq_refl Hreq Ha
    ltac:(rw /name_fits Hr Eb Ht; lia) (proj1 demo_free)))
    as (c & s & _ & _ & ino & tk & bs' & ess' & ds & ids & Hem & Hl & _).
  destruct (made_created _ _ _ _ _ _ _ _ _ _ _ Hem Hr demo_root)
    as [-> (Hi & Em & Hino & _ & _ & Hfi & (ess2 & Hins & Hdl) & _)].
  rw demo_nm in Hins. change (mem_load demo_mem _ _) with long_name in Hins. rw long_file_eq in Hins. injection Hins as <-.
  have Hfb := em_free_blocks _ _ _ _ _ _ _ _ _ _ _ Hem. rw Ht in Hl. rw Eb in Hfb. rw Ei in Hfi.
  exists s, ino. split; [done|]. split; [by rw Em (proj2 demo_formatted)|]. split; [lia|]. split; [lia|].
  split; [geometry; lia|exact Hdl].
Qed.
Lemma write_stores_prefix_witness : exists s : FS Image, free_blocks s = 93 /\
  wp (w ← write (mkRequest 4096 256 4 ROOT_INODE_NO 60000 false);
      c ← read (mkRequest 1048576 256 4 ROOT_INODE_NO 60000 false);
      mret (w, c))
    (fun wc s' => wc = (0, 0) /\ fs_inv s' /\
      forall i, 0 <= i < 60000 -> fs_mem s' (1048576 + i) =
        if i <? 47104 then fs_mem s (4096 + i) else fs_mem s (1048576 + i)) s.
Proof.
  destruct crowded_volume as (s & ino & Hi & Em & Efb & Efi & Hino & Hdl). exists s. split; [exact Efb|].
  pose proof (write_stores_prefix s (mkRequest 4096 256 4 ROOT_INODE_NO 60000 false) 1048576 ROOT_INODE_NO _ _ Hi Hdl eq_refl) as W.
  rewrite -> Efb in W. refine (W _ _ _ _ _ _); clear W.
  - split; [done|]. cbn. repeat (split; [lia|]). rw Em. exact demo_mem_ok.
  - unfold request_nm. rw Em. vm_compute. by destruct ino.
  - unfold request_nm. rw Em. by vm_compute.
  - rewrite -> Efi. discriminate.
  - done.
  - done.
Defined.
Lemma write_leaks_witness : exists s : FS Image, free_blocks s = 93 /\ free_inodes s = 52 /\
  wp (write (mkRequest 4096 256 230 ROOT_INODE_NO 71680 false)) (fun code s' => code = -1 /\ fs_inv s' /\
    free_inodes s' = 51 /\ free_blocks s' = 0) s.
Proof.
  destruct crowded_volume as (s & ino & Hi & Em & Efb & Efi & Hino & Hdl). exists s. split; [exact Efb|]. split; [exact Efi|].
  eapply wp_mono; [apply (write_leaks s (mkRequest 4096 256 230 ROOT_INODE_NO 71680 false) ROOT_INODE_NO _ _ Hi Hdl eq_refl)|].
  - intros _. split; [done|]. cbn. repeat (split; [lia|]). rw Em. exact demo_mem_ok.
  - cbn. lia.
  - rw Em. exact demo_mem_ok.
  - unfold request_nm. rw Em. vm_compute. by destruct ino.
  - unfold request_nm. rw Em. by vm_compute.
  - right. rewrite -> Efb. reflexivity.
  - intros code s' (Ec & Hi' & _ & HP). rewrite -> Efi, Efb in HP. destruct HP as (E1 & E2 & _).
    split; [exact Ec|]. split; [exact Hi'|]. split; [rewrite -> E1; reflexivity|rewrite -> E2; reflexivity].
Defined.

Lemma delete_nonempty_witness : exists s, fs_inv s /\ wp (delete dot_request) (fun code s' => code = 2 /\ feq s s') s.
Proof.
  destruct (wp_elim _ _ _ (write_file_spec demo_fs (demo_request 10) _ _ _ demo_inv demo_root eq_refl
    (demo_file_request 10 ltac:(lia)) (demo_absent (demo_request 10) eq_refl eq_refl)
    (demo_room (demo_request 10) eq_refl eq_refl)
    (proj1 demo_free) (proj2 (proj2 demo_free) 10 ltac:(lia))))
    as (c & s & _ & _ & ino & _ & _ & (Hi & Hm & Hino & _ & _ & _ & (ess' & Hins & Hdl & _) & _) & _).
  rw demo_nm in Hins. change (mem_load demo_mem _ _) with demo_name in Hins. rw one_file_eq in Hins.
  injection Hins as <-. exists s. split; [exact Hi|].
  apply (delete_nonempty s dot_request ROOT_INODE_NO [ROOT_DIR_BLOCK_LBA] [one_file ino] ROOT_INODE_NO [ROOT_DIR_BLOCK_LBA]
    (mkDentry 2 [46] EXT2_FT_DIR (zeros 3)) (mkDentry 2 [46; 46] EXT2_FT_DIR (zeros 2))
    [mkDentry ino demo_name EXT2_FT_REG_FILE (zeros 475)] []);
    [exact Hi|exact Hdl|reflexivity|reflexivity|discriminate|discriminate| |exact Hdl|].
  - rw /request_nm Hm (proj2 demo_formatted). by vm_compute.
  - cbn. rewrite -> (proj2 (Z.eqb_neq ino 0)); [done|]. geometry. lia.
Defined.

Definition mkdir_request : EXT2DriverRequest := mkRequest 0 256 5 ROOT_INODE_NO 0 true.
Lemma write_directory_witness :
  wp (code ← write mkdir_request;
      ino ← find_entry_in_dir ROOT_INODE_NO (request_nm demo_fs mkdir_request);
      dot ← find_entry_in_dir ino [46];
      dotdot ← find_entry_in_dir ino [46; 46];
      empty ← is_directory_empty ino;
      mret (code, ino, dot, dotdot, empty))
    (fun res s' => exists ino ess' b, res = (0, ino, ino, ROOT_INODE_NO, true) /\ fs_inv s' /\ ino <> 0 /\
      dir_live_at s' ROOT_INODE_NO [ROOT_DIR_BLOCK_LBA] ess' /\ dir_live_at s' ino [b] [dot_entries ino ROOT_INODE_NO] /\
      forall nm, nm <> request_nm demo_fs mkdir_request ->
        dir_lookup (concat ess') nm = dir_lookup (concat [root_entries]) nm) demo_fs.
Proof.
  apply (write_directory demo_fs mkdir_request _ _ _ demo_inv demo_root);
    [reflexivity|reflexivity|cbn; lia|exact demo_mem_ok|by apply demo_absent|by apply demo_room|apply demo_free|apply demo_free].
Defined.

Lemma refusals_witness :
  (dir_lookup (concat [root_entries]) (request_nm demo_fs (demo_request 0)) <> 0 ->
    wp (write (demo_request 0)) (fun code s' => code = 1 /\ feq demo_fs s') demo_fs) /\
  (dir_lookup (concat [root_entries]) (request_nm demo_fs (demo_request 0)) = 0 ->
    wp (read (demo_request 0)) (fun code s' => code = 3 /\ feq demo_fs s') demo_fs /\
    wp (delete (demo_request 0)) (fun code s' => code = 1 /\ feq demo_fs s') demo_fs /\
    wp (stat 256 5 ROOT_INODE_NO) (fun res s' => res = (1, None) /\ feq demo_fs s') demo_fs).
Proof.
  exact (refusals demo_fs (demo_request 0) _ _ _ demo_inv (proj1 demo_root) eq_refl ltac:(discriminate) ltac:(discriminate)).
Defined.

Lemma inode_out_of_range_witness :
  read_inode 513 demo_fs = UB /\ find_entry_in_dir 513 [] demo_fs = UB /\
  read_directory (mkRequest 0 0 0 513 512 true) demo_fs = UB /\ stat 1 1 513 demo_fs = UB.
Proof.
  exact (inode_out_of_range demo_fs 513 (inv_bgdt_len _ (inv_core _ demo_inv)) (inv_init _ (inv_core _ demo_inv)) eq_refl).
Defined.
