(* ===== verification/FileTree.v ===== *)
(** * The file system as a tree

    What a volume means to its users, without blocks, inodes and bit maps: a finite map from
    numbers to nodes, a node being a regular file or a folder of named entries, that forms a
    tree below the root.  The calls of [ext2.h] are functions on it. *)

From S2P Require Import Prelude Ext2Layout Ext2Dir.

(** ** Nodes *)
Inductive node : Type :=
| Folder (names : gmap (list Z) (Z * Z))
| Regular (content : list Z).
(** a number and what it stands for *)
Definition tree : Type := gmap Z node.
(** the type an entry gives for a node *)
Definition kind (o : node) : Z := match o with Folder _ => EXT2_FT_DIR | Regular _ => EXT2_FT_REG_FILE end.

Definition dot : list Z := [46].
Definition dotdot : list Z := [46; 46].
Definition dots (nm : list Z) : bool := bool_decide (nm = dot) || bool_decide (nm = dotdot).
Definition empty_folder (parent self : Z) : node := Folder (<[dot := (self, EXT2_FT_DIR)]> {[dotdot := (parent, EXT2_FT_DIR)]}).
(** nothing but [.] and [..] *)
Definition childless (m : gmap (list Z) (Z * Z)) : bool :=
  bool_decide (base.delete dot (base.delete dotdot m) = ∅).

(** ** Operations *)
(** the node that a name of the folder [p] stands for, with its number *)
Definition look (t : tree) (p : Z) (nm : list Z) : option (Z * node) :=
  match t !! p with
  | Some (Folder m) => match m !! nm with Some (i, _) => (fun o => (i, o)) <$> t !! i | None => None end
  | _ => None
  end.
Definition with_names (p : Z) (f : gmap (list Z) (Z * Z) -> gmap (list Z) (Z * Z)) (t : tree) : tree :=
  match t !! p with Some (Folder m) => <[p := Folder (f m)]> t | _ => t end.
Definition add_node (t : tree) (p : Z) (nm : list Z) (n : Z) (o : node) : tree :=
  <[n := o]> (with_names p (fun m => <[nm := (n, kind o)]> m) t).
Definition remove_node (t : tree) (p : Z) (nm : list Z) (n : Z) : tree :=
  base.delete n (with_names p (base.delete nm) t).

(** the calls, their answers (with what [stat] stores) and the tree they leave; a new node
    gets the number [n], a folder has some size [size] *)
Inductive file_call : Type := CallWrite | CallRead | CallDelete | CallStat.
Definition tree_call (k : file_call) (t : tree) (p : Z) (nm data : list Z) (dir : bool) (n size : Z)
    : Z * option (Z * bool) * tree :=
  match k, look t p nm with
  | CallWrite, None => (0, None, add_node t p nm n (if dir then empty_folder p n else Regular data))
  | CallWrite, Some _ => (1, None, t)
  | CallRead, None => (3, None, t)
  | CallRead, Some (_, Folder _) => (1, None, t)
  | CallRead, Some (_, Regular _) => (0, None, t)
  | CallDelete, None => (1, None, t)
  | CallDelete, Some (i, Regular _) => if dir then (1, None, t) else (0, None, remove_node t p nm i)
  | CallDelete, Some (i, Folder m) =>
    if dir then if childless m then (0, None, remove_node t p nm i) else (2, None, t) else (1, None, t)
  | CallStat, None => (1, None, t)
  | CallStat, Some (_, Regular c) => (0, Some (len c, false), t)
  | CallStat, Some (_, Folder _) => (0, Some (size, true), t)
  end.

(** ** Well-formed trees *)
Definition entry (t : tree) (p : Z) (nm : list Z) (i ft : Z) : Prop :=
  exists m, t !! p = Some (Folder m) /\ m !! nm = Some (i, ft).
(** below the root, through entries other than [.] and [..] *)
Inductive reach (t : tree) : Z -> Prop :=
| reach_root : reach t ROOT_INODE_NO
| reach_entry p nm i ft : reach t p -> entry t p nm i ft -> dots nm = false -> reach t i.

Record tree_ok (t : tree) : Prop := {
  to_root : entry t ROOT_INODE_NO dotdot ROOT_INODE_NO EXT2_FT_DIR;
  to_dot p m : t !! p = Some (Folder m) -> m !! dot = Some (p, EXT2_FT_DIR);
  to_parent p m : t !! p = Some (Folder m) ->
    exists q mq, m !! dotdot = Some (q, EXT2_FT_DIR) /\ t !! q = Some (Folder mq);
  (** an entry names a node of its type, a folder's [..] leads back *)
  to_entry p nm i ft : entry t p nm i ft -> dots nm = false -> i <> ROOT_INODE_NO /\
    exists o, t !! i = Some o /\ ft = kind o /\ forall m, o = Folder m -> m !! dotdot = Some (p, EXT2_FT_DIR);
  to_unique p nm ft p' nm' ft' i : entry t p nm i ft -> entry t p' nm' i ft' ->
    dots nm = false -> dots nm' = false -> p = p' /\ nm = nm';
  to_reach i o : t !! i = Some o -> reach t i;
}.

Lemma dots_dot : dots dot = true. Proof. done. Qed.
Lemma dots_dotdot : dots dotdot = true. Proof. done. Qed.
Lemma dots_false nm : dots nm = false <-> nm <> dot /\ nm <> dotdot.
Proof. rw /dots orb_false_iff !bool_decide_eq_false. done. Qed.
Lemma childless_spec m : childless m = true <-> forall nm, dots nm = false -> m !! nm = None.
Proof.
  rw /childless bool_decide_eq_true map_empty. split.
  - intros Hm nm [H1 H2]%dots_false. specialize (Hm nm). by rewrite -> !lookup_delete_ne in Hm by done.
  - intros Hm nm. destruct (decide (nm = dot)) as [->|H1]; [by rw lookup_delete_eq|].
    destruct (decide (nm = dotdot)) as [->|H2]; [by rewrite -> lookup_delete_ne, lookup_delete_eq by done|].
    rewrite -> !lookup_delete_ne by done. by apply Hm, dots_false.
Qed.
Lemma empty_folder_childless p n m : empty_folder p n = Folder m -> childless m = true.
Proof.
  intros [= <-]. apply childless_spec. intros nm [H1 H2]%dots_false. rw lookup_insert_ne //. by rw lookup_singleton_ne.
Qed.

(** ** A node is added *)
Record addable (t : tree) (p : Z) (m : gmap (list Z) (Z * Z)) (nm : list Z) (n : Z) (o : node) : Prop := {
  ad_tree : tree_ok t;
  ad_folder : t !! p = Some (Folder m);
  ad_name : m !! nm = None;
  ad_number : t !! n = None;
  ad_node : (exists c, o = Regular c) \/ o = empty_folder p n;
}.
Section Add.
Implicit Types (t : tree) (o : node) (m : gmap (list Z) (Z * Z)).

Lemma add_node_eq t p m nm n o : t !! p = Some (Folder m) ->
  add_node t p nm n o = <[n := o]> (<[p := Folder (<[nm := (n, kind o)]> m)]> t).
Proof. intros Hp. by rw /add_node /with_names Hp. Qed.
Lemma add_apart t p m nm n o : addable t p m nm n o -> n <> p.
Proof. intros [_ Hp _ Hn _] ->. by rw Hn in Hp. Qed.
Lemma add_dots t p m nm n o : addable t p m nm n o -> dots nm = false.
Proof.
  intros [Ht Hp Hnm _ _]. apply dots_false. split; intros ->; [by rw (to_dot _ Ht _ _ Hp) in Hnm|].
  destruct (to_parent _ Ht _ _ Hp) as (q & mq & E & _). by rw E in Hnm.
Qed.
(** the entries afterwards *)
Lemma add_entry t p m nm n o q x i ft : addable t p m nm n o -> entry (add_node t p nm n o) q x i ft <->
  (q = p /\ x = nm /\ i = n /\ ft = kind o) \/ entry t q x i ft \/
  (q = n /\ o = empty_folder p n /\ exists mo, o = Folder mo /\ mo !! x = Some (i, ft)).
Proof.
  intros Ha. have Hne := add_apart _ _ _ _ _ _ Ha. destruct Ha as [Ht Hp Hnm Hn Ho].
  rw /entry (add_node_eq _ _ _ _ _ _ Hp). split.
  - intros (m' & Hq & Hx). destruct (decide (q = n)) as [->|Hqn].
    + rw lookup_insert_eq in Hq. injection Hq as ->. right. right. split; [done|].
      destruct Ho as [(c & ?)|?]; [done|]. split; [done|]. by exists m'.
    + rw lookup_insert_ne // in Hq. destruct (decide (q = p)) as [->|Hqp].
      * rw lookup_insert_eq in Hq. injection Hq as <-. apply lookup_insert_Some in Hx as [[<- [= <- <-]]|[_ Hx]]; [by left|].
        right. left. by exists m.
      * rw lookup_insert_ne // in Hq. right. left. by exists m'.
  - intros [(-> & -> & -> & ->)|[(m' & Hq & Hx)|(-> & _ & mo & -> & Hx)]].
    + exists (<[nm := (n, kind o)]> m). rw lookup_insert_ne // !lookup_insert_eq. done.
    + have Hqn : q <> n by intros ->; rw Hn in Hq. rw lookup_insert_ne //. destruct (decide (q = p)) as [->|Hqp].
      * rw Hp in Hq. injection Hq as <-. exists (<[nm := (n, kind o)]> m). rw lookup_insert_eq. split; [done|].
        rw lookup_insert_ne //. intros <-. by rw Hnm in Hx.
      * exists m'. by rw lookup_insert_ne.
    + exists mo. by rw lookup_insert_eq.
Qed.
Lemma add_lookup t p m nm n o i : t !! p = Some (Folder m) -> i <> n -> i <> p -> add_node t p nm n o !! i = t !! i.
Proof. intros Hp H1 H2. by rw (add_node_eq _ _ _ _ _ _ Hp) !lookup_insert_ne. Qed.
(** a folder stays one, with its parent *)
Lemma add_folder t p m nm n o i mi : addable t p m nm n o -> t !! i = Some (Folder mi) -> exists mi', add_node t p nm n o !! i = Some (Folder mi') /\
  (forall x, x <> nm -> mi' !! x = mi !! x) /\ (i <> p -> mi' = mi).
Proof.
  intros [_ Hp _ Hn _] Hi. have Hin : i <> n by intros ->; rw Hn in Hi. rw (add_node_eq _ _ _ _ _ _ Hp) lookup_insert_ne //.
  destruct (decide (i = p)) as [->|Hip]; [|exists mi; by rw lookup_insert_ne].
  rw Hp in Hi. injection Hi as <-. rw lookup_insert_eq. exists (<[nm := (n, kind o)]> m). split; [done|]. split; [|done].
  intros x Hx. by rw lookup_insert_ne.
Qed.

Lemma add_node_ok t p m nm n o : addable t p m nm n o -> tree_ok (add_node t p nm n o).
Proof.
  intros Ha. have Hne := add_apart _ _ _ _ _ _ Ha. have Hd := add_dots _ _ _ _ _ _ Ha.
  have [Hd1 Hd2] := proj1 (dots_false nm) Hd. destruct (Ha) as [Ht Hp Hnm Hn Ho].
  have Eq := add_node_eq _ _ _ nm n o Hp. have Hnew : add_node t p nm n o !! n = Some o by rw Eq lookup_insert_eq.
  have Hent q x i ft := add_entry _ _ _ _ _ _ q x i ft Ha.
  destruct (add_folder _ _ _ _ _ _ p m Ha Hp) as (mp & Hp' & _).
  have Hold q x i ft : entry t q x i ft -> i <> n \/ dots x = true.
  { intros He. destruct (dots x) eqn:E; [by right|left]. intros ->.
    destruct (to_entry _ Ht _ _ _ _ He E) as (_ & o' & Ho' & _). by rw Hn in Ho'. }
  have Hreach i : reach t i -> reach (add_node t p nm n o) i.
  { induction 1 as [|q x i ft _ IH He Hx]; [constructor|]. eapply reach_entry; [exact IH| |exact Hx].
    apply Hent. right. by left. }
  have Hcases q x i ft : entry (add_node t p nm n o) q x i ft -> dots x = false ->
    (q = p /\ x = nm /\ i = n /\ ft = kind o) \/ entry t q x i ft.
  { intros [?|[?|(-> & _ & mo & E & Hx)]]%Hent Hdx; [by left|by right|].
    destruct Ho as [(c & ->)| ->]; [done|]. have := proj1 (childless_spec mo) (empty_folder_childless _ _ _ E) x Hdx. by rw Hx. }
  constructor.
  - apply Hent. right. left. apply Ht.
  - intros q mq Hq. destruct (decide (q = n)) as [->|Hqn].
    { rw Hnew in Hq. injection Hq as ->. destruct Ho as [(c & ?)|[= ->]]; [done|]. apply lookup_insert_eq. }
    destruct (decide (q = p)) as [->|Hqp].
    { rw Eq lookup_insert_ne // lookup_insert_eq in Hq. injection Hq as <-. rw lookup_insert_ne //. by apply Ht. }
    rewrite -> (add_lookup _ _ _ _ _ _ _ Hp) in Hq by done. by apply Ht.
  - intros q mq Hq. destruct (decide (q = n)) as [->|Hqn].
    { rw Hnew in Hq. injection Hq as ->. destruct Ho as [(c & ?)|[= ->]]; [done|]. exists p, mp. split; [|done].
      by rw lookup_insert_ne. }
    have [mq0 [Hq0 E]] : exists mq0, t !! q = Some (Folder mq0) /\ mq !! dotdot = mq0 !! dotdot.
    { destruct (decide (q = p)) as [->|Hqp]; [|exists mq; by rewrite -> (add_lookup _ _ _ _ _ _ _ Hp) in Hq by done].
      rw Eq lookup_insert_ne // lookup_insert_eq in Hq. injection Hq as <-. exists m. by rw lookup_insert_ne. }
    destruct (to_parent _ Ht _ _ Hq0) as (r & mr & Er & Hr). destruct (add_folder _ _ _ _ _ _ r mr Ha Hr) as (mr' & Hr' & _).
    exists r, mr'. by rw E.
  - intros q x i ft He Hx. destruct (Hcases _ _ _ _ He Hx) as [(-> & -> & -> & ->)|He'].
    + split; [intros E; destruct (to_root _ Ht) as (mr & Hr & _); by rw -E Hn in Hr|]. exists o. split; [done|]. split; [done|].
      intros mo ->. destruct Ho as [(c & ?)|[= ->]]; [done|]. by rw lookup_insert_ne.
    + destruct (to_entry _ Ht _ _ _ _ He' Hx) as (Hir & o' & Ho' & -> & Hback). split; [done|].
      have Hin : i <> n by intros ->; rw Hn in Ho'. destruct o' as [mi|c].
      * destruct (add_folder _ _ _ _ _ _ i mi Ha Ho') as (mi' & Hi' & Hx' & _). exists (Folder mi'). split; [done|]. split; [done|].
        intros ? [= <-]. rw Hx' //. by apply Hback.
      * exists (Regular c). rw (add_lookup _ _ _ _ _ _ _ Hp) //. intros ->. by rw Hp in Ho'.
  - intros q x ft q' x' ft' i He He' Hx Hx'. apply Hcases in He; [|done]. apply Hcases in He'; [|done].
    destruct He as [(-> & -> & -> & _)|He], He' as [(-> & -> & E & _)|He'].
    + done.
    + destruct (Hold _ _ _ _ He') as [?|E]; [done|by rw Hx' in E].
    + subst. destruct (Hold _ _ _ _ He) as [?|E]; [done|by rw Hx in E].
    + by apply (to_unique _ Ht _ _ _ _ _ _ _ He He').
  - intros i oi Hi. destruct (decide (i = n)) as [->|Hin].
    + apply (reach_entry _ p nm n (kind o)); [by apply Hreach, (to_reach _ Ht _ _ Hp)| |done]. apply Hent. by left.
    + destruct (decide (i = p)) as [->|Hip]; [by apply Hreach, (to_reach _ Ht _ _ Hp)|].
      rewrite -> (add_lookup _ _ _ _ _ _ _ Hp) in Hi by done. by apply Hreach, (to_reach _ Ht _ _ Hi).
Qed.
End Add.

(** ** A node without children is removed *)
Record removable (t : tree) (p : Z) (m : gmap (list Z) (Z * Z)) (nm : list Z) (n ft : Z) : Prop := {
  rm_tree : tree_ok t;
  rm_folder : t !! p = Some (Folder m);
  rm_name : m !! nm = Some (n, ft);
  rm_dots : dots nm = false;
  rm_leaf x i f : entry t n x i f -> dots x = true;
}.
Section Remove.
Implicit Types (t : tree) (m : gmap (list Z) (Z * Z)).

Lemma remove_node_eq t p m nm n : t !! p = Some (Folder m) ->
  remove_node t p nm n = base.delete n (<[p := Folder (base.delete nm m)]> t).
Proof. intros Hp. by rw /remove_node /with_names Hp. Qed.
Lemma remove_entry_in t p m nm n ft : removable t p m nm n ft -> entry t p nm n ft.
Proof. intros [_ Hp Hnm _ _]. by exists m. Qed.
Lemma remove_apart t p m nm n ft : removable t p m nm n ft -> n <> p.
Proof.
  intros Hr E. have He := remove_entry_in _ _ _ _ _ _ Hr. destruct Hr as [_ _ _ Hd Hl].
  rw E in Hl. have := Hl nm n ft He. by rw Hd.
Qed.
Lemma remove_entry t p m nm n ft q x i f : removable t p m nm n ft ->
  entry (remove_node t p nm n) q x i f <-> entry t q x i f /\ q <> n /\ ~ (q = p /\ x = nm).
Proof.
  intros Hr. have Hne := remove_apart _ _ _ _ _ _ Hr. destruct Hr as [Ht Hp Hnm Hd Hl].
  rw /entry (remove_node_eq _ _ _ _ _ Hp). split.
  - intros (m' & Hq & Hx). apply lookup_delete_Some in Hq as [Hqn Hq]. destruct (decide (q = p)) as [->|Hqp].
    + rw lookup_insert_eq in Hq. injection Hq as <-. apply lookup_delete_Some in Hx as [Hxn Hx].
      split; [by exists m|]. split; [done|]. intros [_ ->]. done.
    + rw lookup_insert_ne // in Hq. split; [by exists m'|]. split; [done|]. tauto.
  - intros ((m' & Hq & Hx) & Hqn & Hno). destruct (decide (q = p)) as [->|Hqp].
    + rw Hp in Hq. injection Hq as <-. exists (base.delete nm m). rw lookup_delete_ne // lookup_insert_eq. split; [done|].
      rw lookup_delete_ne //. intros <-. tauto.
    + exists m'. by rw lookup_delete_ne // lookup_insert_ne.
Qed.
Lemma remove_lookup t p m nm n i : t !! p = Some (Folder m) -> i <> n -> i <> p -> remove_node t p nm n !! i = t !! i.
Proof. intros Hp H1 H2. by rw (remove_node_eq _ _ _ _ _ Hp) lookup_delete_ne // lookup_insert_ne. Qed.
Lemma remove_folder t p m nm n ft i mi : removable t p m nm n ft -> i <> n -> t !! i = Some (Folder mi) ->
  exists mi', remove_node t p nm n !! i = Some (Folder mi') /\ forall x, x <> nm -> mi' !! x = mi !! x.
Proof.
  intros [_ Hp _ _ _] Hin Hi. rw (remove_node_eq _ _ _ _ _ Hp) lookup_delete_ne //.
  destruct (decide (i = p)) as [->|Hip]; [|exists mi; by rw lookup_insert_ne].
  rw Hp in Hi. injection Hi as <-. rw lookup_insert_eq. exists (base.delete nm m). split; [done|].
  intros x Hx. by rw lookup_delete_ne.
Qed.
Lemma remove_node_inv t p m nm n ft i mi : removable t p m nm n ft -> remove_node t p nm n !! i = Some (Folder mi) ->
  i <> n /\ exists mi0, t !! i = Some (Folder mi0) /\ forall x, x <> nm -> mi !! x = mi0 !! x.
Proof.
  intros [_ Hp _ _ _]. rw (remove_node_eq _ _ _ _ _ Hp). intros [Hin Hi]%lookup_delete_Some. split; [done|].
  destruct (decide (i = p)) as [->|Hip]; [|exists mi; by rw lookup_insert_ne // in Hi].
  rw lookup_insert_eq in Hi. injection Hi as <-. exists m. split; [done|]. intros x Hx. by rw lookup_delete_ne.
Qed.

Lemma remove_node_ok t p m nm n ft : removable t p m nm n ft -> tree_ok (remove_node t p nm n).
Proof.
  intros Hr. have Hne := remove_apart _ _ _ _ _ _ Hr. have He0 := remove_entry_in _ _ _ _ _ _ Hr.
  have Hent q x i f := remove_entry _ _ _ _ _ _ q x i f Hr. destruct (Hr) as [Ht Hp Hnm Hd Hl].
  have [Hd1 Hd2] := proj1 (dots_false nm) Hd.
  destruct (to_entry _ Ht _ _ _ _ He0 Hd) as (Hroot & on & Hn & _ & Hback).
  have Hin q x i f : entry (remove_node t p nm n) q x i f -> dots x = false -> i <> n.
  { intros (He & Hq & Hno)%Hent Hx ->. apply Hno, (to_unique _ Ht _ _ _ _ _ _ _ He He0 Hx Hd). }
  have Hreach i : reach t i -> i <> n -> reach (remove_node t p nm n) i.
  { induction 1 as [|q x i f _ IH He Hx]; [constructor|]. intros Hi. have Hq : q <> n.
    { intros ->. by rw (Hl _ _ _ He) in Hx. }
    eapply reach_entry; [by apply IH| |exact Hx]. apply Hent. split; [done|]. split; [done|].
    intros [-> ->]. destruct He as (m' & Hm' & E). rw Hp in Hm'. injection Hm' as <-. rw Hnm in E. by injection E as ->. }
  constructor.
  - apply Hent. split; [apply Ht|]. split; [done|]. by intros [_ E].
  - intros q mq (Hq & m0 & H0 & E)%(remove_node_inv _ _ _ _ _ _ _ _ Hr). rw E //. by apply Ht.
  - intros q mq (Hq & m0 & H0 & E)%(remove_node_inv _ _ _ _ _ _ _ _ Hr). rw E //.
    destruct (to_parent _ Ht _ _ H0) as (r & mr & Er & Hmr). have Hrn : r <> n.
    { intros ->. destruct (decide (q = ROOT_INODE_NO)) as [->|Hqr].
      - destruct (to_root _ Ht) as (m1 & H1 & E1). rw H0 in H1. injection H1 as <-. rw Er in E1. by injection E1.
      - have Hrq := to_reach _ Ht _ _ H0. destruct Hrq as [|q' x i f _ He Hx]; [done|].
        destruct (to_entry _ Ht _ _ _ _ He Hx) as (_ & o & Ho & _ & Hb). rw H0 in Ho. injection Ho as <-.
        have := Hb m0 eq_refl. rw Er. intros [= <-]. by rw (Hl _ _ _ He) in Hx. }
    destruct (remove_folder _ _ _ _ _ _ r mr Hr Hrn Hmr) as (mr' & Hmr' & _). by exists r, mr'.
  - intros q x i f He Hx. have Hi := Hin _ _ _ _ He Hx. apply Hent in He as (He & _ & _).
    destruct (to_entry _ Ht _ _ _ _ He Hx) as (Hir & o & Ho & -> & Hb). split; [done|]. destruct o as [mi|c].
    + destruct (remove_folder _ _ _ _ _ _ i mi Hr Hi Ho) as (mi' & Hi' & E). exists (Folder mi'). split; [done|]. split; [done|].
      intros ? [= <-]. rw E //. by apply Hb.
    + exists (Regular c). rewrite -> (remove_lookup _ _ _ _ _ _ Hp) by (done || intros ->; by rw Hp in Ho). done.
  - intros q x f q' x' f' i (He & _)%Hent (He' & _)%Hent. by apply (to_unique _ Ht _ _ _ _ _ _ _ He He').
  - intros i o Hi. have Hin' : i <> n.
    { intros ->. by rw (remove_node_eq _ _ _ _ _ Hp) lookup_delete_eq in Hi. }
    destruct (decide (i = p)) as [->|Hip]; [by apply Hreach, Hin'; apply (to_reach _ Ht _ _ Hp)|].
    rewrite -> (remove_lookup _ _ _ _ _ _ Hp) in Hi by done. by apply Hreach, Hin'; apply (to_reach _ Ht _ _ Hi).
Qed.
End Remove.

(** ** Look-up *)
Lemma look_none t p m nm : t !! p = Some (Folder m) -> m !! nm = None -> look t p nm = None.
Proof. intros Hp Hn. by rw /look Hp Hn. Qed.
Lemma look_some t p m nm i ft : tree_ok t -> t !! p = Some (Folder m) -> m !! nm = Some (i, ft) ->
  exists o, t !! i = Some o /\ look t p nm = Some (i, o).
Proof.
  intros Ht Hp Hn. have Hex : exists o, t !! i = Some o.
  { destruct (dots nm) eqn:Hd.
    - have Hm1 := to_dot _ Ht _ _ Hp. destruct (to_parent _ Ht _ _ Hp) as (q & mq & Hm2 & Hq).
      apply orb_true_iff in Hd as [E%bool_decide_eq_true|E%bool_decide_eq_true]; subst nm.
      + rw Hm1 in Hn. injection Hn as <- _. by eexists.
      + rw Hm2 in Hn. injection Hn as <- _. by eexists.
    - destruct (to_entry _ Ht p nm i ft) as (_ & o & Ho & _); [by exists m|done|]. by exists o. }
  destruct Hex as [o Ho]. exists o. by rw /look Hp Hn Ho.
Qed.

(** ** The tree of a formatted volume *)
Definition root_tree : tree := {[ROOT_INODE_NO := empty_folder ROOT_INODE_NO ROOT_INODE_NO]}.
Lemma root_tree_lookup p o : root_tree !! p = Some o -> p = ROOT_INODE_NO /\ o = empty_folder ROOT_INODE_NO ROOT_INODE_NO.
Proof. rw /root_tree. by intros [<- <-]%lookup_singleton_Some. Qed.
Lemma root_tree_dots p nm i ft : entry root_tree p nm i ft -> dots nm = true.
Proof.
  intros (m & [_ E]%root_tree_lookup & Hm). destruct (dots nm) eqn:Hd; [done|].
  have := proj1 (childless_spec m) (empty_folder_childless _ _ _ (eq_sym E)) nm Hd. by rw Hm.
Qed.
Lemma root_tree_ok : tree_ok root_tree.
Proof.
  constructor.
  - by eexists.
  - by intros p m [-> [= ->]]%root_tree_lookup.
  - intros p m [-> [= ->]]%root_tree_lookup. by eexists _, _.
  - intros p nm i ft Hd%root_tree_dots. by rw Hd.
  - intros p nm ft p' nm' ft' i Hd%root_tree_dots. by rw Hd.
  - intros i o [-> _]%root_tree_lookup. constructor.
Qed.
(** the nodes after a node was added or removed *)
Lemma add_node_cases t p m nm n o i x : addable t p m nm n o -> add_node t p nm n o !! i = Some x ->
  (i = n /\ x = o) \/ (i = p /\ x = Folder (<[nm := (n, kind o)]> m)) \/ (i <> n /\ i <> p /\ t !! i = Some x).
Proof.
  intros Ha. rw (add_node_eq _ _ _ _ _ _ (ad_folder _ _ _ _ _ _ Ha)). intros [[<- <-]|[Hi E]]%lookup_insert_Some; [by left|].
  apply lookup_insert_Some in E as [[<- <-]|[Hp E]]; right; [by left|by right].
Qed.
Lemma add_node_has t p m nm n o i : addable t p m nm n o -> is_Some (add_node t p nm n o !! i) <-> i = n \/ is_Some (t !! i).
Proof.
  intros Ha. rw (add_node_eq _ _ _ _ _ _ (ad_folder _ _ _ _ _ _ Ha)) !lookup_insert_is_Some'.
  have Hp : is_Some (t !! p) by exists (Folder m); apply Ha. split; [intros [->|[->|?]]; auto|intros [->|?]; auto].
Qed.
Lemma remove_node_cases t p m nm n ft i x : removable t p m nm n ft -> remove_node t p nm n !! i = Some x ->
  i <> n /\ ((i = p /\ x = Folder (base.delete nm m)) \/ (i <> p /\ t !! i = Some x)).
Proof.
  intros Hr. rw (remove_node_eq _ _ _ _ _ (rm_folder _ _ _ _ _ _ Hr)). intros [Hi E]%lookup_delete_Some. split; [done|].
  apply lookup_insert_Some in E as [[<- <-]|[Hp E]]; [by left|by right].
Qed.
Lemma remove_node_has t p m nm n ft i : removable t p m nm n ft -> is_Some (remove_node t p nm n !! i) <-> i <> n /\ is_Some (t !! i).
Proof.
  intros Hr. rw (remove_node_eq _ _ _ _ _ (rm_folder _ _ _ _ _ _ Hr)) lookup_delete_is_Some lookup_insert_is_Some'.
  have Hp : is_Some (t !! p) by exists (Folder m); apply Hr. split; [intros [? [<-|?]]; auto|intros [? ?]; auto].
Qed.

(** ** Calls *)
Lemma tree_call_code k t p nm data dir n size code out t' :
  tree_call k t p nm data dir n size = (code, out, t') -> 0 <= code <= 3.
Proof.
  rw /tree_call. destruct k, (look t p nm) as [[i [m|c]]|]; [..|destruct dir; [destruct (childless m)|]|destruct dir| | | |];
    intros E; injection E; lia.
Qed.
(** a new node that is removed again *)
Lemma remove_add t p m nm n o : addable t p m nm n o -> remove_node (add_node t p nm n o) p nm n = t.
Proof.
  intros Ha. have Hne := add_apart _ _ _ _ _ _ Ha. destruct Ha as [_ Hp Hnm Hn _].
  rw (add_node_eq _ _ _ nm n o Hp). rewrite -> (remove_node_eq _ p (<[nm := (n, kind o)]> m)); last first.
  { by rw lookup_insert_ne // lookup_insert_eq. }
  apply map_eq. intros i. destruct (decide (i = n)) as [->|Hi]; [by rw lookup_delete_eq Hn|].
  rw lookup_delete_ne //. destruct (decide (i = p)) as [->|Hip].
  - rw lookup_insert_eq delete_insert_id //.
  - by rw !lookup_insert_ne.
Qed.
(** a node stays where it is when another one is added elsewhere *)
Lemma look_add t p m nm n o : addable t p m nm n o -> look (add_node t p nm n o) p nm = Some (n, o).
Proof.
  intros Ha. have Hne := add_apart _ _ _ _ _ _ Ha. destruct Ha as [_ Hp _ _ _].
  rw /look (add_node_eq _ _ _ nm n o Hp) lookup_insert_ne // !lookup_insert_eq. done.
Qed.
