(* ===== verification/Ext2View.v ===== *)
(** * A directory as a map of names to files

    The contract of the calls of [ext2.h] for regular files: a directory in use is a map
    from names to contents, [write] adds a binding, [delete] removes one, [read] and
    [stat] look one up, and no call touches another file.  [view] is the abstraction
    relation, and the lemmas are its forward simulation. *)

From S2P Require Import Prelude Bitmap StdString BlockDevice Ext2Layout Ext2Dir Ext2State Ext2 Ext2Inv Ext2Format Ext2Files Ext2Data Ext2Write Ext2Crud Inserter Ext2Theorems FileTree.

(** ** A directory block determines its entries *)
Lemma le_bytes_inj n a b : 0 <= a < 256 ^ Z.of_nat n -> 0 <= b < 256 ^ Z.of_nat n -> le_bytes n a = le_bytes n b -> a = b.
Proof. intros Ha Hb E. by rewrite <- (le_val_bytes_id n a), <- (le_val_bytes_id n b), E. Qed.

Lemma dentry_bytes_inj e e' rest rest' : dentry_ok e -> dentry_ok e' -> de_rec_len e < 65536 -> de_rec_len e' < 65536 ->
  dentry_bytes e ++ rest = dentry_bytes e' ++ rest' -> e = e' /\ rest = rest'.
Proof.
  intros He He' Hr Hr'. have R := dentry_ok_rec_len e He. have R' := dentry_ok_rec_len e' He'.
  destruct e as [i nm ty pad], e' as [i' nm' ty' pad'], He as (Hi & Hn & Ht & _), He' as (Hi' & Hn' & Ht' & _).
  rw /dentry_bytes /entry_header in R R' |- *. cbn [de_inode de_name de_type de_pad] in *. rw -!app_assoc.
  intros [Ei E]%app_inj_1; [|by rw !le_bytes_length]. apply app_inj_1 in E as [Er E]; [|by rw !le_bytes_length].
  apply app_inj_1 in E as [Enl E]; [|by rw !le_bytes_length]. apply app_inj_1 in E as [Et E]; [|by rw !le_bytes_length].
  apply le_bytes_inj in Ei; [|done..]. apply le_bytes_inj in Er; [|cbn; lia..].
  apply le_bytes_inj in Enl; [|cbn; lia..]. apply le_bytes_inj in Et; [|done..].
  apply app_inj_1 in E as [-> E]; [|lia]. rw /de_rec_len in Er. cbn [de_name de_pad] in Er.
  apply app_inj_1 in E as [-> ->]; [|lia]. by subst.
Qed.

Lemma dir_bytes_nil_inv e es : dentry_ok e -> dir_bytes (e :: es) <> [].
Proof.
  intros He E. have A := dentry_ok_rec_len e He. have B := dentry_bytes_length e. rw dir_bytes_cons in E.
  apply app_eq_nil in E as [E _]. rw E in B. cbn in B. lia.
Qed.
Lemma dir_bytes_inj es es' : Forall dentry_ok es -> Forall dentry_ok es' -> len (dir_bytes es) < 65536 ->
  dir_bytes es = dir_bytes es' -> es = es'.
Proof.
  intros Hes. revert es'. induction Hes as [|e es He Hes IH] => es' Hes' Hl E; destruct Hes' as [|e' es' He' Hes'].
  - done.
  - by destruct (dir_bytes_nil_inv e' es' He').
  - by destruct (dir_bytes_nil_inv e es He).
  - rw !dir_bytes_cons in E Hl. have B := dentry_bytes_length e. have B' := dentry_bytes_length e'.
    have L := f_equal length E. rewrite -> (length_app (dentry_bytes e)), (length_app (dentry_bytes e')) in L.
    rewrite -> (length_app (dentry_bytes e)) in Hl.
    apply dentry_bytes_inj in E as [-> E]; [|done|done|lia|lia]. f_equal. apply IH; [done|lia|done].
Qed.
Lemma dir_block_inj b es es' : dir_block b es -> dir_block b es' -> es = es'.
Proof. intros (E & Hl & Hes) (E' & _ & Hes'). apply dir_bytes_inj; [done|done|rw -E Hl; geometry; lia|by rw -E]. Qed.

Lemma prefix12_used node bs : prefix12 node bs -> used (take 12 (i_block node)) = bs.
Proof.
  intros (_ & -> & Hr). rw used_app used_zeros app_nil_r. apply used_nonzero. eapply Forall_impl; [exact Hr|]. cbn. geometry. lia.
Qed.
Lemma prefix12_inj node bs bs' : prefix12 node bs -> prefix12 node bs' -> bs = bs'.
Proof. by intros <-%prefix12_used <-%prefix12_used. Qed.

(** ** Room for a name stays when another entry is removed *)
Definition entry_room (name : list Z) (e : dentry) : bool := de_actual e + align4 (8 + len name) <=? de_rec_len e.
Lemma dir_remove_after_room name nm p es es' : dentry_ok p -> Forall dentry_ok es -> dir_remove_after p es nm = Some es' ->
  existsb (entry_room name) (p :: es) = true -> existsb (entry_room name) es' = true.
Proof.
  intros Hp Hes. revert p Hp es'. induction Hes as [|e es He Hes IH] => p Hp es'; cbn [dir_remove_after]; [done|].
  destruct (de_match nm e).
  - intros [= <-]. cbn [existsb]. have A := dentry_ok_rec_len p Hp. have B := dentry_ok_rec_len e He.
    have -> : entry_room name (de_absorb p e) = (de_actual p + align4 (8 + len name) <=? de_rec_len p + de_rec_len e)
      by rw /entry_room de_absorb_rec_len.
    rw /entry_room. destruct (Z.leb_spec (de_actual p + align4 (8 + len name)) (de_rec_len p)); cbn [orb].
    { intros _. apply orb_true_iff. left. lia. }
    destruct (Z.leb_spec (de_actual e + align4 (8 + len name)) (de_rec_len e)); cbn [orb].
    { intros _. apply orb_true_iff. left. lia. }
    intros E. rw E. by rw orb_true_r.
  - destruct (dir_remove_after e es nm) as [es0|] eqn:E; [|done]. intros [= <-]. cbn [existsb].
    intros [Hx|Hx]%orb_true_iff; [by rw Hx|]. have -> := IH e He es0 E Hx. by rw orb_true_r.
Qed.
Lemma dirs_remove_room name nm ess ess' : Forall (Forall dentry_ok) ess -> dirs_remove ess nm = Some ess' ->
  dirs_room ess name = true -> dirs_room ess' name = true.
Proof.
  rw /dirs_room -/(entry_room name). intros Hok. revert ess'. induction Hok as [|es ess Hes Hok IH] => ess'; cbn [dirs_remove]; [done|].
  destruct (dir_remove es nm) as [es'|] eqn:E.
  - intros [= <-]. cbn [existsb]. intros [Hx|Hx]%orb_true_iff; [|by rw Hx orb_true_r].
    have -> : existsb (entry_room name) es' = true; [|done]. destruct Hes as [|e es He Hes]; [done|].
    cbn [dir_remove] in E. destruct (de_match nm e); [injection E as <-; exact Hx|]. by eapply dir_remove_after_room.
  - destruct (dirs_remove ess nm) as [ess0|]; [|done]. intros [= <-]. cbn [existsb].
    intros [Hx|Hx]%orb_true_iff; [by rw Hx|]. have -> := IH ess0 eq_refl Hx. by rw orb_true_r.
Qed.

(** ** The abstraction relation *)
(** what a name stands for: nothing, a regular file, or another entry *)
Inductive slot : Type := Absent | File (content : list Z) | Other.
Definition put_slot (nm : list Z) (v : slot) (m : list Z -> slot) : list Z -> slot :=
  fun nm' => if bool_decide (nm' = nm) then v else m nm'.

Section View.
Context {PW : PtrWidth} {D : Type} `{BlockDeviceLaws D} `{StackJunkLaws} `{Overrun D}.
Implicit Types s : FS D.

Definition file_blocks s n : list Z := used (node_blocks s (inode_at s n)).
Lemma elem_of_file_blocks s n b : b ∈ file_blocks s n <-> b <> 0 /\ b ∈ node_blocks s (inode_at s n).
Proof. apply elem_of_used. Qed.
Lemma feq_bitmaps s s' : feq s s' -> block_bitmap s' = block_bitmap s /\ inode_bitmap s' = inode_bitmap s.
Proof. intros Hf. by rw /block_bitmap /inode_bitmap !(feq_blk _ _ _ Hf). Qed.
Lemma feq_node_blocks s s' n : feq s s' -> node_blocks s' (inode_at s' n) = node_blocks s (inode_at s n).
Proof. intros Hf. by rw (feq_inode _ _ n Hf) /node_blocks (feq_blk _ _ _ Hf). Qed.
(** the reads of a state with the same blocks *)
Lemma blk_reads s s' n : (forall l, blk s' l = blk s l) -> inode_at s' n = inode_at s n /\
  node_blocks s' (inode_at s' n) = node_blocks s (inode_at s n) /\
  block_bitmap s' = block_bitmap s /\ inode_bitmap s' = inode_bitmap s.
Proof.
  intros Eb. have Ei : inode_at s' n = inode_at s n by rw /inode_at /inode_raw Eb.
  by rw Ei /node_blocks /block_bitmap /inode_bitmap !Eb.
Qed.
Lemma group0_free s s' : group0 s' = group0 s -> free_blocks s' = free_blocks s /\ free_inodes s' = free_inodes s.
Proof. intros E. by rw /free_blocks /free_inodes E. Qed.
(** an allocated inode that holds the content *)
Definition file_in s (bs : list Z) (n : Z) (c : list Z) : Prop :=
  (exists ds ids, file_at s n ds ids (len c) c) /\ file_live_at s n bs.
Record view s (p : Z) (bs : list Z) (ess : list (list dentry)) (m : list Z -> slot) : Prop := {
  v_inv : fs_inv s;
  v_dir : dir_live_at s p bs ess;
  v_unique : names_unique ess;
  v_slot nm : match m nm with
    | Absent => dir_lookup (concat ess) nm = 0
    | File c => file_in s bs (dir_lookup (concat ess) nm) c
    | Other => dir_lookup (concat ess) nm <> 0
    end;
  v_apart nm nm' c c' : m nm = File c -> m nm' = File c' -> nm <> nm' ->
    let n := dir_lookup (concat ess) nm in let n' := dir_lookup (concat ess) nm' in
    n <> n' /\ forall b, b ∈ file_blocks s n -> b ∉ file_blocks s n';
}.
(** the directory [p] holds what [m] says *)
Definition dir_view s p (m : list Z -> slot) : Prop := exists bs ess, view s p bs ess m.
(** the directory and the volume can take one more file of [n] bytes *)
Definition dir_room s p (nm : list Z) (n : Z) : Prop := exists bs ess, dir_live_at s p bs ess /\
  dirs_room ess nm = true /\ free_inodes s <> 0 /\ blocks_taken (mkRequest 0 0 0 0 n false) <= free_blocks s.

Lemma dir_at_inj s p bs bs' ess ess' : dir_at s p bs ess -> dir_at s p bs' ess' -> bs = bs' /\ ess = ess'.
Proof.
  intros [_ _ Hp _ Hb] [_ _ Hp' _ Hb']. have E := prefix12_inj _ _ _ Hp Hp'. subst bs'. split; [done|].
  clear Hp Hp'. revert ess' Hb'. induction Hb as [|b es bs ess Hes Hb IH] => ess' Hb'; inversion Hb'; subst; [done|].
  f_equal; [by eapply dir_block_inj|by apply IH].
Qed.
Lemma dir_at_entries_ok s p bs ess : dir_at s p bs ess -> Forall (Forall dentry_ok) ess.
Proof. intros [_ _ _ _ Hb]. induction Hb as [|b es bs ess (_ & _ & Hes) _ IH]; by constructor. Qed.

(** ** Files that a step leaves alone *)
Lemma file_at_used s n ds ids sz c b : file_at s n ds ids sz c -> b ∈ ds ++ ids -> b ∈ file_blocks s n.
Proof.
  intros [_ _ _ _ (_ & Ed & Hr) Hi _] Hb. rewrite -> Forall_forall in Hr. apply elem_of_file_blocks. rw /node_blocks Ed.
  apply elem_of_app in Hb as [Hb|Hb].
  { split; [specialize (Hr b Hb); geometry; lia|]. apply elem_of_app. left. apply elem_of_app. by left. }
  destruct Hi as [[-> _]|(_ & Hind & Hri & _ & Ei)]; [by apply not_elem_of_nil in Hb|].
  rewrite -> Forall_forall in Hri. split; [specialize (Hri b Hb); geometry; lia|].
  rewrite -> (proj2 (Z.eqb_neq (indirect_of _) 0)) by (geometry; lia). apply elem_of_app. right.
  apply elem_of_app. left. rw Ei. apply elem_of_app. by left.
Qed.

Lemma file_in_frame s s' bs n c : file_in s bs n c -> inode_at s' n = inode_at s n ->
  bit (inode_bitmap s') (n - 1) = true ->
  (forall b, b ∈ file_blocks s n -> blk s' b = blk s b /\ bit (block_bitmap s') b = true) ->
  file_in s' bs n c /\ file_blocks s' n = file_blocks s n.
Proof.
  intros [(ds & ids & Hfa) (Hn & _ & [Hnd Hall] & Hdis)] Ei Hbit Hb.
  have En : node_blocks s' (inode_at s' n) = node_blocks s (inode_at s n).
  { rw Ei /node_blocks. destruct (Z.eqb_spec (indirect_of (inode_at s n)) 0) as [|Hne]; [done|].
    do 3 f_equal. apply Hb. by apply indirect_in_node_blocks. }
  split; [|by rw /file_blocks En]. split.
  - exists ds, ids. have Hu b := file_at_used _ _ _ _ _ _ b Hfa. destruct Hfa as [? ? ? ? ? Hind ?].
    constructor; rw ?Ei; try done.
    + destruct Hind as [|(A1 & A2 & A3 & A4 & A5)]; [by left|right]. have Hne : indirect_of (inode_at s n) <> 0 by geometry; lia. by rewrite -> (proj1 (Hb _ (indirect_in_node_blocks _ _ Hne))).
    + rewrite -> (data_of_ext s s'); [done|]. intros b Hin. by apply Hb, Hu.
  - split; [done|]. split; [done|]. rw En. split; [split; [done|]|done]. intros b Hin Hb0.
    split; [by apply Hall|]. apply Hb, elem_of_file_blocks. done.
Qed.

Lemma file_in_bits s bs n c b : file_in s bs n c -> b ∈ file_blocks s n ->
  ROOT_DIR_BLOCK_LBA < b < BLOCKS_PER_GROUP /\ bit (block_bitmap s) b = true /\ b ∉ bs.
Proof.
  intros [_ (_ & _ & [_ Hall] & Hdis)] Hin. have Hu : b ∈ used (node_blocks s (inode_at s n)) := Hin.
  apply elem_of_file_blocks in Hin as [Hb0 Hb]. destruct (Hall b Hb Hb0) as [Hr Hbit].
  split; [exact Hr|]. split; [exact Hbit|exact (Hdis b Hu)].
Qed.
Lemma file_in_inode s bs n c : file_in s bs n c ->
  EXT2_GOOD_OLD_FIRST_INO < n <= INODES_PER_GROUP /\ bit (inode_bitmap s) (n - 1) = true.
Proof. by intros [_ (? & ? & _)]. Qed.

Lemma blk_live s s' p bs ess : (forall l, blk s' l = blk s l) -> dir_live_at s p bs ess -> dir_live_at s' p bs ess.
Proof.
  intros Eb (Hda & Hb & Hp). destruct (blk_reads s s' 0 Eb) as (_ & _ & E1 & E2).
  split; [by eapply blk_dir_at|]. by rw E1 E2.
Qed.
Lemma mem_only_live s s' p bs ess : mem_only s s' -> dir_live_at s p bs ess -> dir_live_at s' p bs ess.
Proof. intros M. apply blk_live, M. Qed.

(** twelve direct pointers, a table of 128, and the table itself *)
Lemma file_blocks_count s n : len (file_blocks s n) <= 141.
Proof.
  have Hu l : (length (used l) <= length l)%nat by apply length_filter.
  have Hl : (length (file_blocks s n) <= length (node_blocks s (inode_at s n)))%nat := Hu _.
  have Hn : (length (node_blocks s (inode_at s n)) <= 141)%nat; [clear Hl|lia].
  rw /node_blocks length_app length_take. destruct (_ =? 0); [cbn; lia|].
  rw length_app /block_pointers fields_val_length length_replicate. cbn [length]. lia.
Qed.

(** what blocks and inodes hold is known through the lemmas above *)
#[local] Opaque inode_at node_blocks block_bitmap inode_bitmap blk free_inodes free_blocks.

(** ** The calls *)
(** a write of a new name *)
Lemma write_view s r p bs ess m nm : view s p bs ess m -> parent_inode r = p -> file_request s r -> request_nm s r = nm ->
  m nm = Absent -> dirs_room ess nm = true -> free_inodes s <> 0 -> buffer_size r <= max_file_size ->
  blocks_taken r <= free_blocks s ->
  wp (write r) (fun code s' => code = 0 /\ fs_mem s' = fs_mem s /\
    free_inodes s' = free_inodes s - 1 /\ free_blocks s - 141 <= free_blocks s' /\
    exists ess' ino, dirs_insert ess ino nm EXT2_FT_REG_FILE = Some ess' /\
      view s' p bs ess' (put_slot nm (File (request_data s r)) m)) s.
Proof.
  intros [Hi Hdl Hu Hslot Hap] Ep Hfr En Hm Hroom Hfi Hmax Hfb. have Habs := Hslot nm. rw Hm in Habs.
  have Hl : length (request_data s r) = Z.to_nat (buffer_size r) by apply mem_load_length.
  have Hsz : 0 <= buffer_size r by destruct Hfr as (_ & _ & ? & _).
  eapply wp_mono; [apply (write_file_spec s r p bs ess); rw ?En //|]. rw En.
  intros code s' (-> & ino & ds & ids & Hec & Hfa & Hfl & Hfree & Hfresh). split; [done|].
  destruct Hec as (Hi' & Em & Hino & Hbit & _ & Hfin & (ess' & Hins & Hdl') & Hoth & Hblk & Hib & Hbb). split; [done|].
  split; [done|]. split; [have := file_blocks_count s' ino; rw /file_blocks; lia|].
  have Hino0 : ino <> 0 by geometry; lia. have Hlk nm' := dirs_insert_lookup _ _ _ _ _ nm' Hino0 Hins Habs.
  have Hold nm' c : m nm' = File c -> let n := dir_lookup (concat ess) nm' in n <> ino /\
    file_in s' bs n c /\ file_blocks s' n = file_blocks s n /\ forall b, b ∈ file_blocks s' ino -> b ∉ file_blocks s n.
  { intros Hm' n. have Hf := Hslot nm'. rw Hm' in Hf. destruct (file_in_inode _ _ _ _ Hf) as [Hn Hnb].
    have Hne : n <> ino by intros E; rw -E Hnb in Hbit. split; [done|].
    have [A B] : file_in s' bs n c /\ file_blocks s' n = file_blocks s n.
    { apply (file_in_frame s); [done|apply Hoth; [done|geometry; lia]|apply Hib; [geometry; lia|done]|].
      intros b Hb. destruct (file_in_bits _ _ _ _ b Hf Hb) as (Hr & Hbit' & Hnd).
      split; [apply Hblk; [lia|done|done]|apply Hbb; [geometry; lia|done]]. }
    split; [done|]. split; [done|]. intros b Hb Hb2. destruct (file_in_bits _ _ _ _ b Hf Hb2) as (_ & E & _). rewrite -> (Hfresh b Hb) in E. discriminate E. }
  exists ess', ino. split; [done|]. constructor; [done|done|by eapply dirs_insert_unique| |].
  - intros nm'. rw /put_slot Hlk. case_bool_decide as E.
    + split; [|done]. exists ds, ids. rewrite -> take_ge in Hfa by lia. rw Hl Z2Nat.id //.
    + have Hs := Hslot nm'. destruct (m nm') eqn:Em'; [done| |done]. by apply Hold.
  - intros x y cx cy. rw /put_slot !Hlk. case_bool_decide as Ex; case_bool_decide as Ey; subst.
    + by intros _ _ ?.
    + intros _ Hy _. destruct (Hold y cy Hy) as (A & _ & -> & B). by split.
    + intros Hx _ _. destruct (Hold x cx Hx) as (A & _ & -> & B). split; [done|]. intros b Hb Hb2. by apply (B b).
    + intros Hx Hy Hne. destruct (Hold x cx Hx) as (_ & _ & -> & _). destruct (Hold y cy Hy) as (_ & _ & -> & _). by eapply Hap.
Qed.

(** a delete of a regular file *)
Lemma delete_view s r p bs ess m nm c : view s p bs ess m -> parent_inode r = p -> is_directory r = false ->
  name r <> 0 -> name_len r <> 0 -> request_nm s r = nm -> m nm = File c ->
  wp (delete r) (fun code s' => code = 0 /\ fs_mem s' = fs_mem s /\
    free_inodes s < free_inodes s' /\ free_blocks s <= free_blocks s' /\
    exists ess', dirs_remove ess nm = Some ess' /\ view s' p bs ess' (put_slot nm Absent m)) s.
Proof.
  intros [Hi Hdl Hu Hslot Hap] Ep Ed Hn0 Hl0 En Hm. have Hf := Hslot nm. rw Hm in Hf.
  set (n := dir_lookup (concat ess) nm) in *. destruct (Hf) as [(ds & ids & Hfa) Hfl]. have Hn := fa_num _ _ _ _ _ _ Hfa.
  have Hmode := fa_mode _ _ _ _ _ _ Hfa.
  have Hnp : n <> p by intros E; destruct Hdl as ([_ Hd _ _ _] & _); rw -E Hmode in Hd.
  apply (delete_start_spec s r p bs ess n); [done|apply Hdl|done|done|done|by rw En|done|]. intros s1 Hf1.
  rw Ed Hmode En. apply wp_bind, wp_ret. cbn [Z.eqb negb].
  have E1 : node_blocks s1 (inode_at s1 n) = node_blocks s (inode_at s n)
    by apply feq_node_blocks.
  eapply wp_mono; [apply (delete_tail_spec s1 p bs ess n); [by eapply feq_fs_inv|by eapply feq_live|done|by eapply feq_file_live|done]|].
  destruct (meta_same_free s s1) as [Eb Ei]; [apply Hf1|]. rw E1 Eb Ei -/(file_blocks s n).
  intros code s' (-> & Hi' & Em & ess' & Hrem & Hdl' & _ & _ & Hfi & Hfb & _ & Hoth & Hbb & Hib & Hblk).
  split; [done|]. split; [destruct Hf1 as [[]]; congruence|]. split; [lia|]. split; [lia|]. exists ess'. split; [done|].
  have Hlk nm' := dirs_remove_lookup _ _ _ nm' Hu Hrem.
  have Hold nm' c' : m nm' = File c' -> nm' <> nm ->
    file_in s' bs (dir_lookup (concat ess) nm') c' /\
    file_blocks s' (dir_lookup (concat ess) nm') = file_blocks s (dir_lookup (concat ess) nm').
  { intros Hm' Hne. destruct (Hap nm' nm c' c Hm' Hm Hne) as [Hn' Hdis]. have Hf' := Hslot nm'. rw Hm' in Hf'.
    destruct (file_in_inode _ _ _ _ Hf') as [Hr Hbit].
    apply (file_in_frame s); [done|rw Hoth; [done|geometry; lia|by apply feq_inode]|rw Hib; [geometry; lia|lia|]|].
    - by rewrite -> (proj2 (feq_bitmaps _ _ Hf1)).
    - intros b Hb. destruct (file_in_bits _ _ _ _ b Hf' Hb) as (Hbr & Hbbit & Hnb).
      split; [rewrite -> Hblk by (done || lia); apply (feq_blk _ _ _ Hf1)|].
      rewrite -> Hbb; [by rewrite -> (proj1 (feq_bitmaps _ _ Hf1))|geometry; lia|by apply Hdis]. }
  constructor; [done|done| | |].
  - rw /names_unique. destruct (dirs_remove_live _ _ _ Hrem) as (l1 & x & l2 & A & _ & ->).
    rw /names_unique A fmap_app fmap_cons in Hu. apply NoDup_app in Hu as (U1 & U2 & [_ U3]%NoDup_cons).
    rw fmap_app. apply NoDup_app. split; [done|]. split; [|done]. intros y Hy Hy2. apply (U2 y Hy). by right.
  - intros nm'. rw /put_slot Hlk. case_bool_decide as E; [done|]. have Hs := Hslot nm'.
    destruct (m nm') eqn:Em'; [done| |done]. by apply Hold.
  - intros x y cx cy. rw /put_slot !Hlk. case_bool_decide as Ex; [done|]. case_bool_decide as Ey; [done|].
    intros Hx Hy Hne. destruct (Hold x cx Hx Ex) as [_ ->]. destruct (Hold y cy Hy Ey) as [_ ->]. by eapply Hap.
Qed.

(** ** The same for the relation *)
Lemma view_blk s s' p bs ess m : fs_inv s' -> (forall l, blk s' l = blk s l) -> view s p bs ess m -> view s' p bs ess m.
Proof.
  intros Hi' Eb [Hi Hdl Hu Hslot Hap]. have E n := blk_reads s s' n Eb.
  constructor; [done|by eapply blk_live|done| |].
  - intros nm. have Hs := Hslot nm. destruct (m nm); [done| |done]. set (n := dir_lookup _ _) in *.
    destruct (E n) as (E1 & E2 & E3 & E4). apply (file_in_frame s); [done|done| |].
    + rw E4. by destruct (file_in_inode _ _ _ _ Hs).
    + intros b Hb. rw E3. split; [apply Eb|]. by destruct (file_in_bits _ _ _ _ b Hs Hb) as (_ & ? & _).
  - intros x y cx cy Hx Hy Hne. destruct (E (dir_lookup (concat ess) x)) as (_ & E1 & _).
    destruct (E (dir_lookup (concat ess) y)) as (_ & E2 & _). rw /file_blocks E1 E2. exact (Hap x y cx cy Hx Hy Hne).
Qed.
Lemma blk_view s s' p m : fs_inv s' -> (forall l, blk s' l = blk s l) -> dir_view s p m -> dir_view s' p m.
Proof. intros Hi Eb (bs & ess & Hv). exists bs, ess. by eapply view_blk. Qed.
Lemma blk_room s s' p nm n : (forall l, blk s' l = blk s l) -> free_blocks s' = free_blocks s -> free_inodes s' = free_inodes s ->
  dir_room s p nm n -> dir_room s' p nm n.
Proof.
  intros Eb E1 E2 (bs & ess & Hdl & Hr & Hfi & Hfb). exists bs, ess. rw E1 E2. split; [by eapply blk_live|done].
Qed.
Lemma view_ext s p m m' : (forall nm, m' nm = m nm) -> dir_view s p m -> dir_view s p m'.
Proof.
  intros E (bs & ess & [Hi Hdl Hu Hslot Hap]). exists bs, ess. constructor; [done|done|done| |].
  - intros nm. rw E. apply Hslot.
  - intros nm nm' c c'. rw !E. apply Hap.
Qed.
Lemma view_inv s p m : dir_view s p m -> fs_inv s.
Proof. by intros (bs & ess & []). Qed.
Lemma mem_only_view s s' p m : mem_only s s' -> dir_view s p m -> dir_view s' p m.
Proof. intros M Hv. apply (blk_view s); [|apply M|done]. eapply mem_only_fs_inv; [by eapply view_inv|done]. Qed.
Lemma mem_only_room s s' p nm n : mem_only s s' -> dir_room s p nm n -> dir_room s' p nm n.
Proof. intros M. have [_ _ Eb Hm] := M. destruct (meta_same_free s s' Hm) as [E1 E2]. by apply blk_room. Qed.
(** a volume that is mounted again *)
Lemma mount_view `{Overrun D} s t p m : dev_ok (fs_dev s) -> overrun_harmless (D:=D) -> (forall l, blk s l = blk t l) -> dir_view t p m ->
  wp initialize_filesystem_ext2 (fun _ f => dir_view f p m /\ fs_mem f = fs_mem s /\
    forall nm n, dir_room t p nm n -> dir_room f p nm n) s.
Proof.
  intros Hd Ho Hb Hv. eapply wp_mono; [apply (mount_existing s t); try done; by eapply view_inv|].
  intros [] f (Hi & _ & Eg & Eb & Em). split; [by eapply blk_view|]. split; [done|]. intros nm n.
  by apply blk_room; [done|apply group0_free|apply group0_free].
Qed.

Lemma write_new_view s r p m : dir_view s p m -> parent_inode r = p -> file_request s r ->
  m (request_nm s r) = Absent -> dir_room s p (request_nm s r) (buffer_size r) -> buffer_size r <= max_file_size ->
  wp (write r) (fun code s' => code = 0 /\ fs_mem s' = fs_mem s /\
    dir_view s' p (put_slot (request_nm s r) (File (request_data s r)) m)) s.
Proof.
  intros (bs & ess & Hv) Ep Hfr Hm (bs' & ess' & (Hda & _) & Hroom & Hfi & Hfb) Hmax.
  destruct (dir_at_inj _ _ _ _ _ _ (proj1 (v_dir _ _ _ _ _ Hv)) Hda) as [<- <-].
  eapply wp_mono; [by eapply write_view|]. intros code s' (-> & Em & _ & _ & ess' & ino & _ & Hv'). split; [done|]. split; [done|]. by exists bs, ess'.
Qed.
Lemma delete_file_view s r p m c : dir_view s p m -> parent_inode r = p -> is_directory r = false ->
  name r <> 0 -> name_len r <> 0 -> m (request_nm s r) = File c ->
  wp (delete r) (fun code s' => code = 0 /\ fs_mem s' = fs_mem s /\
    dir_view s' p (put_slot (request_nm s r) Absent m) /\
    forall nm n, dir_room s p nm n -> dir_room s' p nm n) s.
Proof.
  intros (bs & ess & Hv) Ep Ed Hn0 Hl0 Hm. have Hda := proj1 (v_dir _ _ _ _ _ Hv).
  eapply wp_mono; [by eapply delete_view|]. intros code s' (-> & Em & Hfi & Hfb & ess' & Hrem & Hv').
  split; [done|]. split; [done|]. split; [by exists bs, ess'|].
  intros nm n (bs2 & ess2 & (Hda2 & _) & Hroom & Hfi2 & Hfb2). destruct (dir_at_inj _ _ _ _ _ _ Hda Hda2) as [<- <-].
  have [_ ?] := fs_core_counts s (inv_core _ (v_inv _ _ _ _ _ Hv)).
  exists bs, ess'. split; [apply Hv'|]. split; [|lia].
  apply (dirs_remove_room nm (request_nm s r) ess); [by eapply dir_at_entries_ok|done|done].
Qed.

Lemma write_exists_view s r p m : dir_view s p m -> parent_inode r = p -> m (request_nm s r) <> Absent ->
  wp (write r) (fun code s' => code = 1 /\ feq s s') s.
Proof.
  intros (bs & ess & [Hi Hdl _ Hslot _]) Ep Hm. apply (write_exists_spec s r p bs ess); [done|apply Hdl|done|].
  pose proof (Hslot (request_nm s r)) as Hs. destruct (m _) as [|c|]; [done| |done]. destruct (file_in_inode _ _ _ _ Hs). geometry. lia.
Qed.
Lemma read_file_view s r p m c : dir_view s p m -> parent_inode r = p -> m (request_nm s r) = File c ->
  0 <= buf r -> 0 <= buffer_size r -> buf r + Z.min (buffer_size r) (len c) <= ptr_size ->
  wp (read r) (fun code s' => code = 0 /\ mem_only s s' /\
    mem_eq (fs_mem s') (mem_store (fs_mem s) (buf r) (take (Z.to_nat (buffer_size r)) c))) s.
Proof.
  intros (bs & ess & [Hi Hdl _ Hslot _]) Ep Hm Hb Hsz Hw. pose proof (Hslot (request_nm s r)) as Hs. rw Hm in Hs.
  destruct Hs as [(ds & ids & Hfa) _].
  by apply (read_spec s r p bs ess (dir_lookup (concat ess) (request_nm s r)) ds ids (len c) c); try done; apply Hdl.
Qed.

(** ** Calls against the map *)
Definition run_call (k : file_call) (r : EXT2DriverRequest) : M (FS D) (Z * option (Z * bool)) :=
  match k with
  | CallWrite => code ← write r; mret (code, None)
  | CallRead => code ← read r; mret (code, None)
  | CallDelete => code ← delete r; mret (code, None)
  | CallStat => stat (name r) (name_len r) (parent_inode r)
  end.
(** the answer and the map afterwards *)
Definition map_call (k : file_call) (nm data : list Z) (m : list Z -> slot) : Z * option (Z * bool) * (list Z -> slot) :=
  match k, m nm with
  | CallWrite, Absent => (0, None, put_slot nm (File data) m)
  | CallWrite, _ => (1, None, m)
  | CallRead, File _ => (0, None, m)
  | CallRead, _ => (3, None, m)
  | CallDelete, File _ => (0, None, put_slot nm Absent m)
  | CallDelete, _ => (1, None, m)
  | CallStat, File c => (0, Some (len c, false), m)
  | CallStat, _ => (1, None, m)
  end.
(** the memory afterwards: only a read of a file stores into it *)
Definition mem_call (k : file_call) (nm : list Z) (out n : Z) (m : list Z -> slot) (mm : mem) : mem :=
  match k, m nm with CallRead, File c => mem_store mm out (take (Z.to_nat n) c) | _, _ => mm end.
(** what the caller has to see to *)
Definition call_allowed s (k : file_call) (r : EXT2DriverRequest) (m : list Z -> slot) : Prop :=
  let nm := request_nm s r in
  m nm <> Other /\ name r <> 0 /\ name_len r <> 0 /\
  match k with
  | CallWrite => file_request s r /\ buffer_size r <= max_file_size /\
      (m nm = Absent -> dir_room s (parent_inode r) nm (buffer_size r))
  | CallRead => 0 <= buf r /\ 0 <= buffer_size r /\ buf r + buffer_size r <= ptr_size
  | CallDelete => is_directory r = false
  | CallStat => True
  end.

(** C3: a directory is a map of names to files.  From any volume and directory that the
    map [m] describes, each of [write], [read], [delete] and [stat] of a regular file answers
    what the map answers, errors included, leaves a volume and directory that the
    updated map describes, with every other file's content as it was, and stores
    nothing but the bytes read. *)
Theorem directory_refines_map s k r m : dir_view s (parent_inode r) m -> call_allowed s k r m ->
  wp (run_call k r) (fun ans s' =>
    let nm := request_nm s r in let '(ans', m') := map_call k nm (request_data s r) m in
    ans = ans' /\ dir_view s' (parent_inode r) m' /\
    mem_eq (fs_mem s') (mem_call k nm (buf r) (buffer_size r) m (fs_mem s))) s.
Proof.
  intros Hv (Hno & Hn0 & Hl0 & Hk). set (nm := request_nm s r) in *. set (p := parent_inode r) in *.
  destruct (Hv) as (bs & ess & [Hi Hdl _ Hslot _]). have Hs := Hslot nm. have Hda := proj1 Hdl.
  have Hkeep s' : feq s s' -> dir_view s' p m /\ mem_eq (fs_mem s') (fs_mem s).
  { intros Hf. split; [eapply mem_only_view; [by apply feq_mem_only|done]|]. by destruct Hf as [[_ _ -> _] _]. }
  destruct k; cbn [run_call map_call mem_call]; destruct (m nm) as [|c|] eqn:Em; try done.
  - destruct Hk as (Hfr & Hmax & Hroom). apply wp_bind. eapply wp_mono; [by apply (write_new_view s r p m); auto|].
    intros code s' (-> & E & Hv'). apply wp_ret. split; [done|]. split; [done|]. by rw E.
  - apply wp_bind. eapply wp_mono; [by apply (write_exists_view s r p m); rw ?Em|].
    intros code s' (-> & Hf). apply wp_ret. split; [done|]. by apply Hkeep.
  - apply wp_bind. eapply wp_mono; [by apply (read_missing_spec s r p bs ess)|].
    intros code s' (-> & Hf). apply wp_ret. split; [done|]. by apply Hkeep.
  - destruct Hk as (Hb & Hsz & Hw). apply wp_bind.
    eapply wp_mono; [apply (read_file_view s r p m c); try done; lia|].
    intros code s' (-> & M & E). apply wp_ret. split; [done|]. split; [by eapply mem_only_view|done].
  - apply wp_bind. eapply wp_mono; [by apply (delete_missing_spec s r p bs ess)|].
    intros code s' (-> & Hf). apply wp_ret. split; [done|]. by apply Hkeep.
  - apply wp_bind. eapply wp_mono; [by apply (delete_file_view s r p m c)|].
    intros code s' (-> & E & Hv' & _). apply wp_ret. split; [done|]. split; [done|]. by rw E.
  - eapply wp_mono; [by apply (stat_missing_spec s (name r) (name_len r) p bs ess)|].
    intros ans s' (-> & Hf). split; [done|]. by apply Hkeep.
  - destruct Hs as [(ds & ids & Hfa) _]. eapply wp_mono; [by apply (stat_spec s (name r) (name_len r) p bs ess (dir_lookup (concat ess) nm) ds ids (len c) c)|].
    intros ans s' (-> & Hf). split; [done|]. by apply Hkeep.
Qed.
End View.

(** the root directory of the formatted volume: nothing but [.] and [..] *)
Definition root_slots : list Z -> slot := fun nm =>
  if bool_decide (nm = [46]) || bool_decide (nm = [46; 46]) then Other else Absent.
Section Formatted.
Context {PW : PtrWidth} {D : Type} `{BlockDeviceLaws D} `{StackJunkLaws}.
Lemma formatted_view (s : FS D) : formatted s -> view s ROOT_INODE_NO [ROOT_DIR_BLOCK_LBA] [root_entries] root_slots.
Proof.
  intros Hf. constructor; [exact (fm_inv _ Hf)|exact (formatted_root _ Hf)|exact demo_unique| |].
  - intros nm. rw /root_slots dir_lookup_live. change (dir_live (concat [root_entries])) with
      [([46], (2, EXT2_FT_DIR)); ([46; 46], (2, EXT2_FT_DIR))]. cbn [live_lookup].
    rewrite -> (bool_decide_ext ([46] = nm) (nm = [46])), (bool_decide_ext ([46; 46] = nm) (nm = [46; 46])) by done.
    by repeat case_bool_decide.
  - intros nm nm' c c'. rw /root_slots. by destruct (_ || _).
Qed.
(** the root directory has room for every name *)
Lemma root_room nm : len nm < 256 -> dirs_room [root_entries] nm = true.
Proof.
  intros Hl. set (e := mkDentry ROOT_INODE_NO [46; 46] EXT2_FT_DIR (zeros 490)).
  have Hfit : (de_actual e + align4 (8 + len nm) <=? de_rec_len e) = true.
  { apply Z.leb_le. change (de_actual e) with 12. change (de_rec_len e) with 500.
    have := align4_bounds (8 + len nm). lia. }
  rw /dirs_room /root_entries /dot_entries -/e. cbn [existsb]. by rw Hfit !orb_true_r.
Qed.
Lemma formatted_room (s : FS D) nm n : formatted s -> len nm < 256 -> 0 <= n -> dir_room s ROOT_INODE_NO nm n.
Proof.
  intros Hf Hl Hn. exists [ROOT_DIR_BLOCK_LBA], [root_entries]. split; [exact (formatted_root _ Hf)|]. split; [by apply root_room|].
  have -> : free_inodes s = 53 by exact (fm_free_inodes _ Hf). have -> : free_blocks s = 234 by exact (fm_free_blocks _ Hf).
  rw /blocks_taken. destruct (12 <? _); lia.
Qed.
End Formatted.
Lemma demo_root_view : view demo_fs ROOT_INODE_NO [ROOT_DIR_BLOCK_LBA] [root_entries] root_slots.
Proof. exact (formatted_view _ (proj1 demo_formatted)). Qed.
Lemma demo_view : dir_view demo_fs ROOT_INODE_NO root_slots.
Proof. exists [ROOT_DIR_BLOCK_LBA], [root_entries]. exact demo_root_view. Qed.
Lemma demo_dir_room r : name r = 256 -> name_len r = 5 -> 0 <= buffer_size r <= 2 ^ 20 ->
  dir_room demo_fs ROOT_INODE_NO (request_nm demo_fs r) (buffer_size r).
Proof.
  intros E1 E2 Hs. exists [ROOT_DIR_BLOCK_LBA], [root_entries]. split; [exact demo_root|].
  split; [by apply demo_room|]. split; [apply demo_free|]. exact (proj2 (proj2 demo_free) (buffer_size r) Hs).
Qed.
Lemma directory_refines_map_witness :
  root_slots demo_name = Absent /\
  wp (run_call CallWrite (demo_request 1000)) (fun ans s' => ans = (0, None) /\
    dir_view s' ROOT_INODE_NO (put_slot demo_name (File (request_data demo_fs (demo_request 1000))) root_slots) /\
    mem_eq (fs_mem s') (fs_mem demo_fs)) demo_fs.
Proof.
  have En : request_nm demo_fs (demo_request 1000) = demo_name by apply demo_nm.
  have Hab : root_slots demo_name = Absent by vm_compute.
  have R := demo_dir_room (demo_request 1000) eq_refl eq_refl ltac:(cbn; lia). rewrite -> En in R.
  have F := demo_file_request 1000 ltac:(lia). split; [exact Hab|].
  pose proof (directory_refines_map demo_fs CallWrite (demo_request 1000) root_slots demo_view) as W.
  rewrite -> En in W. rw /map_call /mem_call Hab in W. apply W. rw /call_allowed. rewrite -> En, Hab.
  split; [discriminate|]. split; [discriminate|]. split; [discriminate|]. split; [exact F|].
  split; [vm_compute; discriminate|exact (fun _ => R)].
Defined.

(** the same volume with a file of ten bytes under the five-byte name, and what room is left *)
Lemma one_file_volume : exists s, dir_view s ROOT_INODE_NO (put_slot demo_name (File (request_data demo_fs (demo_request 10))) root_slots) /\
  fs_mem s = demo_mem /\
  forall nm n, (forall ino, dirs_room [one_file ino] nm = true) -> 0 <= n <= 10000 -> dir_room s ROOT_INODE_NO nm n.
Proof.
  have Hv : view demo_fs ROOT_INODE_NO [ROOT_DIR_BLOCK_LBA] [root_entries] root_slots by exact demo_root_view.
  have En : request_nm demo_fs (demo_request 10) = demo_name by apply demo_nm.
  destruct (wp_elim _ _ _ (write_view demo_fs (demo_request 10) _ _ _ _ demo_name Hv eq_refl
    (demo_file_request 10 ltac:(lia)) En eq_refl eq_refl (proj1 demo_free) ltac:(discriminate)
    (proj2 (proj2 demo_free) 10 ltac:(lia)))) as (c & s & _ & _ & Em & Hfi & Hfb & ess' & ino & Hins & Hv').
  rw one_file_eq in Hins. injection Hins as <-. exists s. split; [by eexists _, _|]. split; [by rw Em (proj2 demo_formatted)|].
  intros nm n Hroom Hn. exists [ROOT_DIR_BLOCK_LBA], [one_file ino]. split; [apply Hv'|]. split; [apply Hroom|].
  destruct demo_counts as [Eb Ei]. rw Ei in Hfi. rw Eb in Hfb. split; [lia|].
  have := Z.div_mod (n + 511) 512. have := Z.mod_pos_bound (n + 511) 512. rw /blocks_taken /blocks_needed. cbn [buffer_size]. destruct (12 <? _); lia.
Qed.

(** ** Reading a directory *)
Section ReadDirectory.
Context {PW : PtrWidth} {D : Type} `{BlockDeviceLaws D} `{StackJunkLaws} `{Overrun D}.
Implicit Types s : FS D.

Lemma data_of_dir s bs ess : dir_blocks s bs ess -> data_of s bs = dir_bytes (concat ess).
Proof.
  induction 1 as [|b es bs ess (Eb & _) _ IH]; [done|]. cbn [concat]. rw dir_bytes_app /data_of. cbn [map concat].
  by rw Eb -/(data_of s bs) IH.
Qed.
(** as much of the directory's blocks as the buffer takes *)
Lemma read_directory_prefix s r p bs ess : fs_inv s -> dir_at s p bs ess -> parent_inode r = p ->
  0 <= buf r -> 0 <= buffer_size r -> buf r + buffer_size r <= ptr_size ->
  wp (read_directory r) (fun code s' => code = 0 /\ mem_only s s' /\
    mem_eq (fs_mem s') (mem_store (fs_mem s) (buf r) (take (Z.to_nat (buffer_size r)) (dir_bytes (concat ess))))) s.
Proof.
  intros Hi Hda Ep Hb Hsz Hw. have [Hp Hmode Hpre _ Hblocks] := Hda. destruct (Hpre) as (Hl12 & Et & Hr).
  have Hdev := inv_dev _ (inv_core _ Hi).
  rw /read_directory. apply wp_bind, wp_gets. have -> : g_filesystem_initialized s = true by destruct Hi as [[]].
  cbn [negb]. apply wp_bind. rw Ep. eapply wp_mono; [apply read_inode_spec; [by apply fs_inv_table_ok|done]|].
  intros _ s1 [-> Hf]. have M1 := feq_mem_only _ _ Hf. rw Hmode. cbn [negb].
  have E0 : nth 0 (i_block (inode_at s p)) 0 = hd 0 (bs ++ replicate (12 - length bs) 0).
  { rw -Et. by destruct (i_block (inode_at s p)). }
  have Em : fs_mem s1 = fs_mem s by destruct Hf as [[]].
  destruct bs as [|b bs].
  { rw E0 /=. apply wp_ret. split; [done|]. split; [done|]. inversion Hblocks; subst. change (dir_bytes (concat [])) with (@nil Z). rewrite -> take_nil. by rw Em mem_store_nil. }
  rw E0. cbn [app hd]. inversion_clear Hr as [|? ? Hb0 Hbs]. rewrite -> (proj2 (Z.eqb_neq b 0)) by (geometry; lia).
  pose proof (data_of_length s (b :: bs) Hdev (Forall_cons_2 _ _ _ Hb0 Hbs)) as Hdl. rw Et. apply wp_bind.
  eapply wp_mono; [apply (copy_out_spec s1 (b :: bs)); [by eapply feq_dev|by constructor|apply replicate_stop|lia|done|lia]|].
  intros pos s2 (_ & M2 & E2). apply wp_ret. split; [done|]. split; [by eapply mem_only_trans|].
  have Ed : data_of s1 (b :: bs) = data_of s (b :: bs) by apply data_of_ext; intros; apply M1.
  rw Ed Em Z.add_0_r in E2. rw -(data_of_dir _ _ _ Hblocks). etrans; [exact E2|]. rw Z.sub_0_r.
  destruct (Z.le_ge_cases (buffer_size r) (512 * len (b :: bs))); [by rewrite -> Z.min_l by lia|].
  rewrite -> Z.min_r by lia. by rewrite -> !take_ge by lia.
Qed.
Lemma read_directory_spec s r p bs ess : fs_inv s -> dir_at s p bs ess -> parent_inode r = p ->
  512 * len bs <= buffer_size r -> 0 <= buf r -> buf r + buffer_size r <= ptr_size ->
  wp (read_directory r) (fun code s' => code = 0 /\ mem_only s s' /\
    mem_eq (fs_mem s') (mem_store (fs_mem s) (buf r) (dir_bytes (concat ess)))) s.
Proof.
  intros Hi Hda Ep Hsz Hb Hw. eapply wp_mono; [apply (read_directory_prefix s r p bs ess); (done || lia)|].
  intros code s' (-> & M & E). split; [done|]. split; [done|]. destruct (Hda) as [_ _ (_ & _ & Hr) _ Hblocks].
  pose proof (data_of_length s bs (inv_dev _ (inv_core _ Hi)) Hr) as Hdl. rw (data_of_dir _ _ _ Hblocks) in Hdl.
  by rewrite -> take_ge in E by lia.
Qed.
End ReadDirectory.
