(* ===== verification/Ext2Tree.v ===== *)
(** * The volume as a tree

    [volume s t]: the blocks of the disk hold exactly the tree [t].  Every folder and file
    of [t] is an inode with its contents, no block belongs to two of them, and the bit maps
    mark what is used and nothing else.  The calls keep this, whatever folder they work in,
    and do on the tree what [FileTree.tree_call] says: a refinement of the whole file
    system, from which a volume in use is always one a file system check accepts. *)

From S2P Require Import Prelude Bitmap StdString BlockDevice Ext2Layout Ext2Dir Ext2State Ext2 Ext2Inv Ext2Format Ext2Files Ext2Data Ext2Write Ext2Crud Ext2Theorems FileTree Ext2View.

(** ** Directory entries as a map *)
Definition names_of (ess : list (list dentry)) : gmap (list Z) (Z * Z) := list_to_map (dir_live (concat ess)).

Lemma live_lookup_map l nm : (forall n i f, (n, (i, f)) ∈ l -> i <> 0) ->
  live_lookup l nm = default 0 (fst <$> (list_to_map l : gmap (list Z) (Z * Z)) !! nm).
Proof.
  induction l as [|[n [i f]] l IH] => Hl; [done|]. rw list_to_map_cons. cbn [live_lookup].
  destruct (decide (n = nm)) as [->|Hne].
  - by rewrite -> bool_decide_true, lookup_insert_eq by done.
  - rewrite -> bool_decide_false, lookup_insert_ne by done. apply IH. intros n' i' f' Hin. apply (Hl n' i' f'). by right.
Qed.
Lemma names_of_lookup ess nm : dir_lookup (concat ess) nm = default 0 (fst <$> names_of ess !! nm).
Proof. rw dir_lookup_live. apply live_lookup_map, dir_live_inode. Qed.
Lemma names_of_nonzero ess nm i ft : names_of ess !! nm = Some (i, ft) -> i <> 0.
Proof. intros Hin%elem_of_list_to_map_2. by eapply dir_live_inode. Qed.
Lemma names_of_absent ess nm : dir_lookup (concat ess) nm = 0 <-> names_of ess !! nm = None.
Proof.
  rw names_of_lookup. destruct (names_of ess !! nm) as [[i ft]|] eqn:E; [|done]. split; [|done].
  cbn. intros ->. by destruct (names_of_nonzero _ _ _ _ E).
Qed.

Lemma names_of_perm l l' : NoDup l.*1 -> l ≡ₚ l' -> (list_to_map l : gmap (list Z) (Z * Z)) = list_to_map l'.
Proof. apply list_to_map_proper. Qed.
Lemma names_of_insert l l1 l2 nm v : l = l1 ++ l2 -> NoDup l.*1 -> nm ∉ l.*1 ->
  (list_to_map (l1 ++ (nm, v) :: l2) : gmap (list Z) (Z * Z)) = <[nm := v]> (list_to_map l) /\
  NoDup (l1 ++ (nm, v) :: l2).*1.
Proof.
  intros -> Hu Hn. have Hp : (nm, v) :: l1 ++ l2 ≡ₚ l1 ++ (nm, v) :: l2 by apply Permutation_middle.
  have Hu' : NoDup ((nm, v) :: l1 ++ l2).*1 by rw fmap_cons; apply NoDup_cons.
  split; [by rw -(names_of_perm _ _ Hu' Hp) list_to_map_cons|]. by rewrite <- Hp.
Qed.
Lemma names_of_delete l l1 l2 nm v : l = l1 ++ (nm, v) :: l2 -> NoDup l.*1 ->
  (list_to_map (l1 ++ l2) : gmap (list Z) (Z * Z)) = base.delete nm (list_to_map l) /\ NoDup (l1 ++ l2).*1.
Proof.
  intros -> Hu. have Hp : l1 ++ (nm, v) :: l2 ≡ₚ (nm, v) :: l1 ++ l2 by symmetry; apply Permutation_middle.
  rewrite -> (names_of_perm _ _ Hu Hp). rewrite -> Hp, fmap_cons in Hu. apply NoDup_cons in Hu as [Hn Hu].
  split; [|done]. rw list_to_map_cons delete_insert_id //. by apply not_elem_of_list_to_map_1.
Qed.

(** insertion into a directory, in a block with room or in a new one *)
Definition grown (ess : list (list dentry)) (ino : Z) (nm : list Z) (ft : Z) (ess' : list (list dentry)) : Prop :=
  dirs_insert ess ino nm ft = Some ess' \/ ess' = ess ++ [[mkDentry ino nm ft (zeros (504 - length nm))]].
Lemma grown_live ess ino nm ft ess' : ino <> 0 -> grown ess ino nm ft ess' ->
  exists l1 l2, dir_live (concat ess) = l1 ++ l2 /\ dir_live (concat ess') = l1 ++ (nm, (ino, ft)) :: l2.
Proof.
  intros Hi [Hins| ->]; [by apply (dirs_insert_live ess)|]. exists (dir_live (concat ess)), [].
  rw app_nil_r concat_app dir_live_app. split; [done|]. f_equal. rw /dir_live. cbn [concat app map].
  rw /entry_live. cbn [de_inode de_name de_type]. by rewrite -> (proj2 (Z.eqb_neq ino 0)) by done.
Qed.
Lemma grown_names ess ino nm ft ess' : ino <> 0 -> grown ess ino nm ft ess' -> names_unique ess ->
  names_of ess !! nm = None -> names_of ess' = <[nm := (ino, ft)]> (names_of ess) /\ names_unique ess'.
Proof.
  intros Hi Hg Hu Hn. destruct (grown_live _ _ _ _ _ Hi Hg) as (l1 & l2 & E1 & E2). rw /names_of /names_unique E2.
  apply names_of_insert; [done|done|]. by apply not_elem_of_list_to_map_2.
Qed.
Lemma removed_names ess nm ess' : dirs_remove ess nm = Some ess' -> names_unique ess ->
  names_of ess' = base.delete nm (names_of ess) /\ names_unique ess'.
Proof.
  intros Hr Hu. destruct (dirs_remove_live _ _ _ Hr) as (l1 & v & l2 & E1 & _ & E2). rw /names_of /names_unique E2.
  by apply (names_of_delete _ _ _ nm v).
Qed.

(** the first two entries stay [.] and [..] *)
Definition dot_first (ess : list (list dentry)) : Prop := exists e1 e2 es ess0, ess = (e1 :: e2 :: es) :: ess0 /\
  de_name e1 = dot /\ de_rec_len e1 = 12 /\ de_inode e1 <> 0 /\ de_name e2 = dotdot /\ de_inode e2 <> 0.
Lemma grown_dot_first ess ino nm ft ess' : Forall (Forall dentry_ok) ess -> dot_first ess -> grown ess ino nm ft ess' -> dot_first ess'.
Proof.
  intros Hok (e1 & e2 & es & ess0 & -> & N1 & R1 & I1 & N2 & I2) [Hins| ->]; last first.
  { by exists e1, e2, es, (ess0 ++ [[mkDentry ino nm ft (zeros (504 - length nm))]]). }
  cbn [dirs_insert dir_insert] in Hins. have A1 : de_actual e1 = 12 by rw /de_actual N1.
  have Hal := align4_bounds (8 + len nm).
  rewrite -> (proj2 (Z.leb_gt _ _)) in Hins by lia. destruct (de_actual e2 + align4 (8 + len nm) <=? de_rec_len e2).
  { injection Hins as <-. cbn [app]. eexists _, _, _, _. split; [done|]. done. }
  destruct (dir_insert es ino nm ft) as [es'|].
  { injection Hins as <-. by exists e1, e2, es', ess0. }
  cbn [fmap option_fmap option_map] in Hins. destruct (dirs_insert ess0 ino nm ft) as [ess1|]; [|done].
  injection Hins as <-. by exists e1, e2, es, ess1.
Qed.
Lemma removed_dot_first ess nm ess' : dots nm = false -> dot_first ess -> dirs_remove ess nm = Some ess' -> dot_first ess'.
Proof.
  intros [Hd1 Hd2]%dots_false (e1 & e2 & es & ess0 & -> & N1 & R1 & I1 & N2 & I2) Hr.
  cbn [dirs_remove dir_remove dir_remove_after] in Hr.
  have M1 : de_match nm e1 = false by rw /de_match N1 (bool_decide_false (dot = nm)) ?andb_false_r // => E; apply Hd1.
  have M2 : de_match nm e2 = false by rw /de_match N2 (bool_decide_false (dotdot = nm)) ?andb_false_r // => E; apply Hd2.
  rw M1 M2 in Hr. destruct (dir_remove_after e2 es nm) as [es'|] eqn:E.
  - cbn [fmap option_fmap option_map] in Hr. injection Hr as <-. destruct es as [|e es]; [done|].
    cbn [dir_remove_after] in E. destruct (de_match nm e).
    + injection E as <-. by eexists e1, _, _, ess0.
    + destruct (dir_remove_after e es nm) as [es0|]; [|done]. injection E as <-. by eexists e1, e2, _, ess0.
  - cbn [fmap option_fmap option_map] in Hr. destruct (dirs_remove ess0 nm) as [ess1|]; [|done].
    injection Hr as <-. by exists e1, e2, es, ess1.
Qed.

(** ** What an inode holds *)
Section Volume.
Context {PW : PtrWidth} {D : Type} `{BlockDeviceLaws D} `{StackJunkLaws} `{Overrun D}.
Implicit Types s : FS D.

Definition folder_at s (n : Z) (bs : list Z) (ess : list (list dentry)) (m : gmap (list Z) (Z * Z)) : Prop :=
  dir_at s n bs ess /\ indirect_of (inode_at s n) = 0 /\ dot_first ess /\ names_unique ess /\ names_of ess = m.
Definition holds s (n : Z) (o : node) : Prop :=
  match o with
  | Folder m => exists bs ess, folder_at s n bs ess m
  | Regular c => exists ds ids, file_at s n ds ids (len c) c
  end.
(** an inode of its own: the root or one beyond the reserved ones, no block twice, and
    block 21 belongs to the root *)
Record inode_in s (n : Z) : Prop := {
  in_num : n = ROOT_INODE_NO \/ EXT2_GOOD_OLD_FIRST_INO < n <= INODES_PER_GROUP;
  in_nodup : NoDup (file_blocks s n);
  in_range b : b ∈ file_blocks s n -> ROOT_DIR_BLOCK_LBA <= b < BLOCKS_PER_GROUP /\ (n <> ROOT_INODE_NO -> b <> ROOT_DIR_BLOCK_LBA);
}.
Record volume s (t : tree) : Prop := {
  vo_inv : fs_inv s;
  vo_tree : tree_ok t;
  vo_node n o : t !! n = Some o -> inode_in s n /\ holds s n o;
  vo_apart n n' o o' b : t !! n = Some o -> t !! n' = Some o' -> n <> n' -> b ∈ file_blocks s n -> b ∉ file_blocks s n';
  (** the bit maps mark what is in use, and nothing else *)
  vo_inodes n : 1 <= n <= INODES_PER_GROUP ->
    bit (inode_bitmap s) (n - 1) = true <-> n <= EXT2_GOOD_OLD_FIRST_INO \/ is_Some (t !! n);
  vo_blocks b : 0 <= b < BLOCKS_PER_GROUP ->
    bit (block_bitmap s) b = true <-> b <= ROOT_DIR_BLOCK_LBA \/ exists n o, t !! n = Some o /\ b ∈ file_blocks s n;
}.

Lemma direct_blocks s s' node : indirect_of node = 0 -> node_blocks s node = node_blocks s' node.
Proof. intros Hi. by rw /node_blocks Hi. Qed.
Lemma direct_file_blocks s n bs ess : dir_at s n bs ess -> indirect_of (inode_at s n) = 0 -> file_blocks s n = bs.
Proof. intros [_ _ Hp _ _] Hi. rw /file_blocks /node_blocks Hi Z.eqb_refl app_nil_r. by apply prefix12_used. Qed.
Lemma folder_blocks s n bs ess m : folder_at s n bs ess m -> file_blocks s n = bs.
Proof. intros (Hda & Hi & _). by eapply direct_file_blocks. Qed.
Lemma inode_in_num s n : inode_in s n -> 1 <= n <= INODES_PER_GROUP.
Proof. intros [[-> |?] _ _]; geometry; [done|lia]. Qed.

(** an inode that a step leaves alone *)
Lemma blocks_frame s s' n : inode_at s' n = inode_at s n -> (forall b, b ∈ file_blocks s n -> blk s' b = blk s b) ->
  node_blocks s' (inode_at s' n) = node_blocks s (inode_at s n).
Proof.
  intros Ei Hb. rewrite -> Ei. unfold node_blocks. destruct (Z.eqb_spec (indirect_of (inode_at s n)) 0) as [|Hne]; [done|].
  by rewrite -> (Hb _ (indirect_in_node_blocks _ _ Hne)).
Qed.
(** what blocks and inodes hold is known through the lemmas *)
#[local] Opaque inode_at node_blocks block_bitmap inode_bitmap blk free_inodes free_blocks.
Lemma node_holds_frame s s' n o : inode_in s n -> holds s n o -> inode_at s' n = inode_at s n ->
  (forall b, b ∈ file_blocks s n -> blk s' b = blk s b) ->
  inode_in s' n /\ holds s' n o /\ file_blocks s' n = file_blocks s n.
Proof.
  intros [Hn Hnd Hr] Ho Ei Hb. have En := blocks_frame s s' n Ei Hb.
  have Ef : file_blocks s' n = file_blocks s n by rw /file_blocks En.
  split; [by constructor; rw ?Ef|]. split; [|done]. destruct o as [m|c].
  - destruct Ho as (bs & ess & Hfa). have Eb := folder_blocks _ _ _ _ _ Hfa.
    destruct Hfa as ([Hp Hm Hpre Hbn Hbl] & Hi & Hrest). exists bs, ess. split; [|by rw Ei].
    constructor; rw ?Ei //. apply Forall2_same_length_lookup_2; [by eapply Forall2_length|].
    intros i b es Hbi Hesi. rewrite -> Hb by (rw Eb; by eapply list_elem_of_lookup_2).
    by eapply (Forall2_lookup_lr _ _ _ _ _ _ Hbl).
  - destruct Ho as (ds & ids & Hfa). exists ds, ids. have Hu b := file_at_used _ _ _ _ _ _ b Hfa.
    destruct Hfa as [? ? ? ? ? Hind ?]. constructor; rw ?Ei; try done.
    + destruct Hind as [|(A1 & A2 & A3 & A4 & A5)]; [by left|right].
      have Hne : indirect_of (inode_at s n) <> 0 by geometry; lia.
      by rewrite -> (Hb _ (indirect_in_node_blocks _ _ Hne)).
    + rewrite -> (data_of_ext s s'); [done|]. intros b Hin. by apply Hb, Hu.
Qed.

(** ** Reading the relation *)
Section Facts.
Context s t (Hv : volume s t).
Lemma volume_live p bs ess m : t !! p = Some (Folder m) -> folder_at s p bs ess m -> dir_live_at s p bs ess.
Proof.
  intros Hp Hfa. have Eb := folder_blocks _ _ _ _ _ Hfa. destruct (vo_node _ _ Hv p _ Hp) as [Hin _].
  have Hn := inode_in_num _ _ Hin. destruct Hfa as (Hda & _). split; [done|]. split.
  - apply Forall_forall. intros b Hb. rw -Eb in Hb. destruct (in_range _ _ Hin b Hb) as [Hr _].
    apply (vo_blocks _ _ Hv); [geometry; lia|]. right. by exists p, (Folder m).
  - apply (vo_inodes _ _ Hv); [done|]. right. by eexists.
Qed.
Lemma volume_allocated n o : t !! n = Some o -> n <> ROOT_INODE_NO -> allocated s (node_blocks s (inode_at s n)).
Proof.
  intros Hn Hne. destruct (vo_node _ _ Hv n _ Hn) as [[_ Hnd Hr] _]. split; [exact Hnd|]. intros b Hb Hb0.
  have Hin : b ∈ file_blocks s n by apply elem_of_file_blocks. destruct (Hr b Hin) as [Hbr Hbne].
  split; [have := Hbne Hne; lia|]. apply (vo_blocks _ _ Hv); [geometry; lia|]. right. by exists n, o.
Qed.
Lemma volume_bit n o : t !! n = Some o -> bit (inode_bitmap s) (n - 1) = true.
Proof.
  intros Hn. apply (vo_inodes _ _ Hv); [|right; by eexists]. by eapply inode_in_num, (vo_node _ _ Hv).
Qed.
Lemma volume_marked n o b : t !! n = Some o -> b ∈ file_blocks s n -> bit (block_bitmap s) b = true.
Proof.
  intros Hn Hb. destruct (vo_node _ _ Hv n _ Hn) as [Hin _]. destruct (in_range _ _ Hin b Hb) as [Hr _].
  apply (vo_blocks _ _ Hv); [geometry; lia|]. right. by exists n, o.
Qed.
Lemma volume_new ino : EXT2_GOOD_OLD_FIRST_INO < ino <= INODES_PER_GROUP -> bit (inode_bitmap s) (ino - 1) = false -> t !! ino = None.
Proof.
  intros Hr Hb. destruct (t !! ino) as [o|] eqn:E; [|done]. by rewrite -> (volume_bit _ _ E) in Hb.
Qed.
End Facts.

(** ** A new node *)
Section Made.
Context s s' (t : tree) (p : Z) (bs : list Z) (ess : list (list dentry)) (m : gmap (list Z) (Z * Z)) (nm : list Z)
  (ft ino : Z) (tk bs' : list Z) (ess' : list (list dentry)).
Context (Hv : volume s t) (Hp : t !! p = Some (Folder m)) (Hfo : folder_at s p bs ess m) (Hnm : m !! nm = None).
Context (Hem : entry_made s s' p bs ess nm ft ino tk bs' ess').

(** where the blocks of the directory come from *)
Lemma made_dir_blocks b : b ∈ bs' -> b ∈ bs \/ ROOT_DIR_BLOCK_LBA < b < BLOCKS_PER_GROUP /\ bit (block_bitmap s) b = false.
Proof.
  destruct (em_blocks _ _ _ _ _ _ _ _ _ _ _ Hem) as [(-> & _)|(_ & _ & c & -> & Hc)]; [by left|].
  intros [Hb| ->%list_elem_of_singleton]%elem_of_app; [by left|by right].
Qed.
Lemma made_dir_old b : b ∈ bs -> b ∈ bs'.
Proof.
  destruct (em_blocks _ _ _ _ _ _ _ _ _ _ _ Hem) as [(-> & _)|(_ & _ & c & -> & _)]; [done|].
  intros. apply elem_of_app. by left.
Qed.
Lemma made_old i o b : t !! i = Some o -> i <> p -> b ∈ file_blocks s i -> b ∉ tk /\ b ∉ bs' /\ blk s' b = blk s b.
Proof.
  intros Hi Hip Hb. have Hbit := volume_marked _ _ Hv _ _ _ Hi Hb.
  have Hn1 : b ∉ tk by intros Hin; destruct (em_fresh _ _ _ _ _ _ _ _ _ _ _ Hem b Hin) as (_ & E & _); by rw Hbit in E.
  have Hn2 : b ∉ bs'.
  { intros [Hin|[_ E]]%made_dir_blocks; [|by rw Hbit in E]. rewrite <- (folder_blocks _ _ _ _ _ Hfo) in Hin.
    by apply (vo_apart _ _ Hv i p _ _ b Hi Hp Hip). }
  split; [done|]. split; [done|]. apply (em_blk _ _ _ _ _ _ _ _ _ _ _ Hem); [|done..].
  destruct (vo_node _ _ Hv i _ Hi) as [Hin _]. apply (in_range _ _ Hin b Hb).
Qed.
Lemma made_ino : t !! ino = None.
Proof. apply (volume_new s t Hv); apply Hem. Qed.
Lemma made_ino_nonzero : ino <> 0.
Proof. have := em_ino _ _ _ _ _ _ _ _ _ _ _ Hem. geometry. lia. Qed.
Lemma made_frame i o : t !! i = Some o -> i <> p ->
  inode_in s' i /\ holds s' i o /\ file_blocks s' i = file_blocks s i.
Proof.
  intros Hi Hip. destruct (vo_node _ _ Hv i _ Hi) as [Hin Ho]. apply (node_holds_frame s); [done|done| |].
  - apply (em_others _ _ _ _ _ _ _ _ _ _ _ Hem); [|done|by eapply inode_in_num]. intros ->. by rw made_ino in Hi.
  - intros b Hb. by apply (made_old i o b).
Qed.
Lemma made_folder : inode_in s' p /\ folder_at s' p bs' ess' (<[nm := (ino, ft)]> m).
Proof.
  destruct (vo_node _ _ Hv p _ Hp) as [Hin _]. have Hfo' := Hfo. destruct Hfo' as (Hda & Hind & Hdot & Hu & Em).
  have Hg : grown ess ino nm ft ess'.
  { destruct (em_blocks _ _ _ _ _ _ _ _ _ _ _ Hem) as [(_ & Hins & _)|(_ & E & _)]; [by left|by right]. }
  destruct (grown_names _ _ _ _ _ made_ino_nonzero Hg Hu) as [En Hu']; [by rw Em|].
  have Hf : folder_at s' p bs' ess' (<[nm := (ino, ft)]> m).
  { split; [apply Hem|]. split; [by rw (em_indirect _ _ _ _ _ _ _ _ _ _ _ Hem)|].
    split; [eapply grown_dot_first; [by eapply dir_at_entries_ok|done..]|]. by rw En Em. }
  split; [|done]. have Eb := folder_blocks _ _ _ _ _ Hf. have Eb0 := folder_blocks _ _ _ _ _ Hfo.
  constructor; [apply Hin|rw Eb; apply (em_dir _ _ _ _ _ _ _ _ _ _ _ Hem)|].
  intros b. rw Eb. intros [Hb|[Hb _]]%made_dir_blocks; [|lia]. apply (in_range _ _ Hin). by rw Eb0.
Qed.
Lemma made_node o : holds s' ino o -> file_blocks s' ino ≡ₚ tk -> inode_in s' ino.
Proof.
  intros Ho Hperm. constructor; [right; apply Hem|rewrite -> Hperm; apply Hem|].
  intros b. rewrite -> Hperm. intros Hb. destruct (em_fresh _ _ _ _ _ _ _ _ _ _ _ Hem b Hb) as (Hr & _). lia.
Qed.

Lemma volume_add o : ft = kind o -> (exists c, o = Regular c) \/ o = empty_folder p ino -> holds s' ino o ->
  file_blocks s' ino ≡ₚ tk -> volume s' (add_node t p nm ino o).
Proof.
  intros Eft Ho Hh Hperm. have Hadd : addable t p m nm ino o by constructor; [apply Hv|done|done|apply made_ino|done].
  destruct made_folder as [Hinp Hfo']. have Ebp := folder_blocks _ _ _ _ _ Hfo'. have Ebp0 := folder_blocks _ _ _ _ _ Hfo.
  have Hip := add_apart _ _ _ _ _ _ Hadd.
  have Hcase i x : add_node t p nm ino o !! i = Some x -> (i = ino /\ x = o) \/ (i = p /\ x = Folder (<[nm := (ino, ft)]> m)) \/
    (i <> ino /\ i <> p /\ t !! i = Some x) by rw Eft; apply add_node_cases.
  have Hown i x b : add_node t p nm ino o !! i = Some x -> b ∈ file_blocks s' i -> (i = ino /\ b ∈ tk) \/ (i = p /\ b ∈ bs') \/
    (i <> ino /\ i <> p /\ t !! i = Some x /\ b ∈ file_blocks s i).
  { intros [[-> _]|[[-> _]|(N1 & N2 & Hi)]]%Hcase; [rewrite -> Hperm; auto|rw Ebp; auto|].
    destruct (made_frame i x Hi N2) as (_ & _ & ->). auto 6. }
  constructor; [apply Hem|by apply add_node_ok with m| | | |].
  - intros i x [[-> ->]|[[-> ->]|(_ & N2 & Hi)]]%Hcase.
    + split; [by apply (made_node o)|done].
    + split; [done|]. by exists bs', ess'.
    + destruct (made_frame i x Hi N2) as (? & ? & _). done.
  - intros i j x y b Hx Hy Hne Hi Hj. apply (Hown _ _ _ Hx) in Hi. apply (Hown _ _ _ Hy) in Hj.
    have Hfr := em_fresh _ _ _ _ _ _ _ _ _ _ _ Hem b.
    destruct Hi as [[-> Hi]|[[-> Hi]|(_ & Hi2 & Hti & Hi)]], Hj as [[-> Hj]|[[-> Hj]|(_ & Hj2 & Htj & Hj)]]; try done.
    + by destruct (Hfr Hi) as (_ & _ & ?).
    + by destruct (made_old j y b Htj Hj2 Hj) as (? & _).
    + by destruct (Hfr Hj) as (_ & _ & ?).
    + by destruct (made_old j y b Htj Hj2 Hj) as (_ & ? & _).
    + by destruct (made_old i x b Hti Hi2 Hi) as (? & _).
    + by destruct (made_old i x b Hti Hi2 Hi) as (_ & ? & _).
    + by apply (vo_apart _ _ Hv i j x y b).
  - intros i Hi. rewrite -> (em_inodes _ _ _ _ _ _ _ _ _ _ _ Hem), orb_true_iff, Z.eqb_eq, (vo_inodes _ _ Hv), (add_node_has _ _ _ _ _ _ i Hadd) by lia.
    have Ei : i - 1 = ino - 1 <-> i = ino by lia. rw Ei. tauto.
  - intros b Hb. rewrite -> (em_bits _ _ _ _ _ _ _ _ _ _ _ Hem), orb_true_iff, bool_decide_eq_true, (vo_blocks _ _ Hv), elem_of_app by lia.
    split.
    + intros [[Hin|Hin]|[?|(i & x & Hi & Hin)]]; [| |by left|]; right.
      * exists ino, o. rewrite -> Hperm. rw (add_node_eq _ _ _ _ _ _ Hp) lookup_insert_eq. done.
      * exists p, (Folder (<[nm := (ino, kind o)]> m)). rw (add_node_eq _ _ _ _ _ _ Hp) lookup_insert_ne // lookup_insert_eq Ebp. done.
      * destruct (decide (i = p)) as [->|Hne].
        { exists p, (Folder (<[nm := (ino, kind o)]> m)). rw (add_node_eq _ _ _ _ _ _ Hp) lookup_insert_ne // lookup_insert_eq Ebp.
          split; [done|]. apply made_dir_old. by rw -Ebp0. }
        have Hii : i <> ino by intros ->; rw made_ino in Hi. exists i, x.
        rewrite -> (add_lookup _ _ _ _ _ _ _ Hp) by done. destruct (made_frame i x Hi Hne) as (_ & _ & ->). done.
    + intros [?|(i & x & Hi & Hin)]; [by right; left|]. destruct (Hown _ _ _ Hi Hin) as [[_ ?]|[[_ ?]|(_ & _ & Hti & ?)]]; [auto..|].
      right. right. by exists i, x.
Qed.
End Made.

(** ** A node that is removed *)
Section Gone.
Context s s' (t : tree) (p : Z) (bs : list Z) (ess ess' : list (list dentry)) (m : gmap (list Z) (Z * Z)) (nm : list Z) (n ft : Z).
Context (Hv : volume s t) (Hr : removable t p m nm n ft) (Hfo : folder_at s p bs ess m) (Hi' : fs_inv s').
Context (Hrem : dirs_remove ess nm = Some ess') (Hdir : dir_live_at s' p bs ess').
Context (Hbit : bit (inode_bitmap s') (n - 1) = false)
  (Hfree : forall b, b ∈ file_blocks s n -> bit (block_bitmap s') b = false)
  (Hothers : forall i, i <> n -> 1 <= i <= INODES_PER_GROUP -> inode_at s' i = inode_at s i)
  (Hbits : forall b, 0 <= b -> b ∉ file_blocks s n -> bit (block_bitmap s') b = bit (block_bitmap s) b)
  (Hinodes : forall j, 0 <= j -> j <> n - 1 -> bit (inode_bitmap s') j = bit (inode_bitmap s) j)
  (Hblk : forall b, ROOT_DIR_BLOCK_LBA <= b -> b ∉ bs -> blk s' b = blk s b).

Lemma gone_frame i o : t !! i = Some o -> i <> n -> i <> p ->
  inode_in s' i /\ holds s' i o /\ file_blocks s' i = file_blocks s i.
Proof.
  intros Hi Hin Hip. destruct (vo_node _ _ Hv i _ Hi) as [Hii Ho]. apply (node_holds_frame s); [done|done| |].
  - apply Hothers; [done|by eapply inode_in_num].
  - intros b Hb. apply Hblk; [apply (in_range _ _ Hii b Hb)|]. rewrite <- (folder_blocks _ _ _ _ _ Hfo).
    apply (vo_apart _ _ Hv i p _ _ b Hi (rm_folder _ _ _ _ _ _ Hr) Hip Hb).
Qed.
Lemma gone_folder : inode_in s' p /\ folder_at s' p bs ess' (base.delete nm m).
Proof.
  have Hnp := remove_apart _ _ _ _ _ _ Hr. destruct (vo_node _ _ Hv p _ (rm_folder _ _ _ _ _ _ Hr)) as [Hin _].
  have Eb0 := folder_blocks _ _ _ _ _ Hfo. have Hfo' := Hfo. destruct Hfo' as (Hda & Hind & Hdot & Hu & Em).
  destruct (removed_names _ _ _ Hrem Hu) as [En Hu'].
  have Hf : folder_at s' p bs ess' (base.delete nm m).
  { split; [apply Hdir|]. split; [rewrite -> Hothers; [done|by intros ->|by eapply inode_in_num]|].
    split; [eapply removed_dot_first; [apply Hr|done..]|]. by rw En Em. }
  split; [|done]. have Eb := folder_blocks _ _ _ _ _ Hf. destruct Hin as [A B C]. by constructor; rw ?Eb -?Eb0.
Qed.

Lemma volume_remove : volume s' (remove_node t p nm n).
Proof.
  have Hnp := remove_apart _ _ _ _ _ _ Hr. have He := remove_entry_in _ _ _ _ _ _ Hr.
  have Hp := rm_folder _ _ _ _ _ _ Hr. destruct gone_folder as [Hinp Hfo'].
  have Ebp := folder_blocks _ _ _ _ _ Hfo'. have Ebp0 := folder_blocks _ _ _ _ _ Hfo.
  destruct (to_entry _ (vo_tree _ _ Hv) _ _ _ _ He (rm_dots _ _ _ _ _ _ Hr)) as (Hroot & on & Hn & _).
  destruct (vo_node _ _ Hv n _ Hn) as [Hinn _].
  have Hsame i x : remove_node t p nm n !! i = Some x -> i <> n /\ file_blocks s' i = file_blocks s i /\ exists x0, t !! i = Some x0.
  { intros (Hin & Hc)%(remove_node_cases _ _ _ _ _ _ _ _ Hr). split; [done|]. destruct Hc as [[-> _]|[Hip Hi]].
    - rw Ebp Ebp0. split; [done|by eexists].
    - destruct (gone_frame i x Hi Hin Hip) as (_ & _ & ->). split; [done|by eexists]. }
  constructor; [done|by eapply remove_node_ok| | | |].
  - intros i x (Hin & Hc)%(remove_node_cases _ _ _ _ _ _ _ _ Hr). destruct Hc as [[-> ->]|[Hip Hi]].
    + split; [done|]. by exists bs, ess'.
    + destruct (gone_frame i x Hi Hin Hip) as (? & ? & _). done.
  - intros i j x y b (_ & -> & x0 & Hi)%Hsame (_ & -> & y0 & Hj)%Hsame Hne. by apply (vo_apart _ _ Hv i j x0 y0).
  - intros i Hi. rw (remove_node_has _ _ _ _ _ _ i Hr). destruct (decide (i = n)) as [->|Hne].
    + rw Hbit. split; [done|]. intros [Hle|[? _]]; [|done]. destruct (in_num _ _ Hinn); geometry; [done|lia].
    + rewrite -> Hinodes, (vo_inodes _ _ Hv) by lia. tauto.
  - intros b Hb. destruct (decide (b ∈ file_blocks s n)) as [Hin|Hnin].
    + rw (Hfree b Hin). split; [done|]. destruct (in_range _ _ Hinn b Hin) as [Hbr Hbn].
      intros [Hle|(i & x & Hi & Hib)]; [have := Hbn Hroot; lia|]. destruct (Hsame _ _ Hi) as (Hne & E & x0 & Hx0).
      rw E in Hib. by destruct (vo_apart _ _ Hv i n _ _ b Hx0 Hn Hne Hib).
    + rewrite -> Hbits, (vo_blocks _ _ Hv) by (done || lia). split; (intros [?|(i & x & Hi & Hib)]; [by left|right]).
      * have Hne : i <> n by intros ->. destruct (decide (i = p)) as [->|Hip].
        { exists p, (Folder (base.delete nm m)). rw Ebp -Ebp0. split; [|done].
          rw (remove_node_eq _ _ _ _ _ Hp) lookup_delete_ne // lookup_insert_eq. done. }
        exists i, x. destruct (gone_frame i x Hi Hne Hip) as (_ & _ & ->). split; [|done].
        by rewrite -> (remove_lookup _ _ _ _ _ _ Hp) by done.
      * destruct (Hsame _ _ Hi) as (_ & E & x0 & Hx0). rw E in Hib. by exists i, x0.
Qed.
End Gone.

(** ** States with the same blocks *)
Lemma volume_blk s s' t : fs_inv s' -> (forall l, blk s' l = blk s l) -> volume s t -> volume s' t.
Proof.
  intros Hi Eb [_ Ht Hn Ha Hin Hbl]. destruct (blk_reads s s' 0 Eb) as (_ & _ & E1 & E2).
  have Hf i o : t !! i = Some o -> inode_in s' i /\ holds s' i o /\ file_blocks s' i = file_blocks s i.
  { intros Hi'. destruct (Hn i o Hi') as [A B]. apply (node_holds_frame s); [done|done|apply (blk_reads s s' i Eb)|auto]. }
  constructor; [done|done| | | |].
  - intros i o Ho. destruct (Hf i o Ho) as (? & ? & _). done.
  - intros i j o o' b Ho Ho'. destruct (Hf i o Ho) as (_ & _ & ->), (Hf j o' Ho') as (_ & _ & ->). by eapply Ha.
  - by rw E2.
  - intros b Hb. rw E1 (Hbl b Hb). split; (intros [?|(i & o & Ho & Hib)]; [by left|right; exists i, o]);
      destruct (Hf i o Ho) as (_ & _ & E); by rw E in Hib |- *.
Qed.
Lemma mem_only_volume s s' t : mem_only s s' -> volume s t -> volume s' t.
Proof. intros M Hv. apply (volume_blk s); [|apply M|done]. eapply mem_only_fs_inv; [apply Hv|done]. Qed.
Lemma feq_volume s s' t : feq s s' -> volume s t -> volume s' t.
Proof. intros Hf. by apply mem_only_volume, feq_mem_only. Qed.
Lemma feq_folder s s' n bs ess m : feq s s' -> folder_at s n bs ess m -> folder_at s' n bs ess m.
Proof. intros Hf (Hda & Hi & Hrest). split; [by eapply feq_dir_at|]. by rw (feq_inode _ _ n Hf). Qed.

(** ** Folders in the calls *)
Lemma folder_lookup s p bs ess m nm : folder_at s p bs ess m -> dir_lookup (concat ess) nm = default 0 (fst <$> m !! nm).
Proof. intros (_ & _ & _ & _ & <-). apply names_of_lookup. Qed.
Lemma folder_nonzero s p bs ess m nm i ft : folder_at s p bs ess m -> m !! nm = Some (i, ft) ->
  dir_lookup (concat ess) nm = i /\ i <> 0.
Proof.
  intros Hf Hm. rw (folder_lookup _ _ _ _ _ nm Hf) Hm. split; [done|]. destruct Hf as (_ & _ & _ & _ & <-).
  by eapply names_of_nonzero.
Qed.
Lemma live_none es : live es = false <-> dir_live es = [].
Proof.
  induction es as [|e es IH]; [done|]. cbn [live existsb]. rw dir_live_cons orb_false_iff IH /entry_live.
  destruct (Z.eqb_spec (de_inode e) 0); cbn; [tauto|]. split; [by intros []|done].
Qed.
Lemma folder_empty s n bs e1 e2 es ess0 m : folder_at s n bs ((e1 :: e2 :: es) :: ess0) m ->
  negb (live (es ++ concat ess0)) = childless m.
Proof.
  intros (_ & _ & (e1' & e2' & es' & ess' & [= <- <- <- <-] & N1 & _ & I1 & N2 & I2) & Hu & <-).
  have E : dir_live (concat ((e1 :: e2 :: es) :: ess0)) =
    (dot, (de_inode e1, de_type e1)) :: (dotdot, (de_inode e2, de_type e2)) :: dir_live (es ++ concat ess0).
  { cbn [concat app]. rw !dir_live_cons /entry_live N1 N2. by rewrite -> (proj2 (Z.eqb_neq _ _) I1), (proj2 (Z.eqb_neq _ _) I2). }
  rw /names_unique E in Hu. apply NoDup_cons in Hu as [H1' [H2' _]%NoDup_cons]. rw /names_of E !list_to_map_cons.
  destruct (live (es ++ concat ess0)) eqn:El; symmetry.
  - destruct (dir_live (es ++ concat ess0)) as [|[x v] l] eqn:Ed; [by apply live_none in Ed; rw Ed in El|].
    apply not_true_iff_false. intros Hc. have Hx : dots x = false.
    { cbn [fmap list_fmap fst] in H1', H2'. apply not_elem_of_cons in H1' as [_ [A _]%not_elem_of_cons].
      apply not_elem_of_cons in H2' as [B _]. apply dots_false. split; intros ->; [by apply A|by apply B]. }
    have [N3 N4] := proj1 (dots_false x) Hx. have := proj1 (childless_spec _) Hc x Hx.
    by rewrite -> !lookup_insert_ne, list_to_map_cons, lookup_insert_eq by done.
  - apply live_none in El as ->. apply childless_spec. intros x [N3 N4]%dots_false.
    by rewrite -> !lookup_insert_ne by done.
Qed.

(** the calls on the name of a folder *)
Lemma read_folder_spec s r p bs ess n : fs_inv s -> dir_at s p bs ess -> parent_inode r = p ->
  dir_lookup (concat ess) (request_nm s r) = n -> 1 <= n <= INODES_PER_GROUP -> is_dir_mode (inode_at s n) = true ->
  wp (read r) (fun code s' => code = 1 /\ feq s s') s.
Proof.
  intros Hi Hda Ep El Hn Hm. have Hp := da_num _ _ _ _ Hda. rw /read. apply wp_bind, wp_gets.
  have -> : g_filesystem_initialized s = true by destruct Hi as [[]]. cbn [negb].
  rewrite -> (proj2 (Z.eqb_neq (parent_inode r) 0)) by lia. apply wp_bind, wp_gets, wp_bind. rw Ep.
  eapply wp_mono; [by apply (find_entry_in_dir_spec s p bs ess); [apply fs_inv_table_ok|]|].
  rw -/(request_nm s r) El. intros _ s1 [-> Hf]. rewrite -> (proj2 (Z.eqb_neq n 0)) by lia. apply wp_bind.
  eapply wp_mono; [apply read_inode_spec; [apply fs_inv_table_ok; by eapply feq_fs_inv|done]|].
  intros _ s2 [-> Hf2]. cbv beta iota. rw (feq_inode _ _ n Hf) Hm. apply wp_ret. split; [done|by eapply feq_trans].
Qed.
Lemma stat_folder_spec s nm l p bs ess n : fs_inv s -> dir_at s p bs ess -> nm <> 0 -> l <> 0 ->
  dir_lookup (concat ess) (mem_load (fs_mem s) nm (Z.to_nat l)) = n -> 1 <= n <= INODES_PER_GROUP ->
  is_dir_mode (inode_at s n) = true ->
  wp (stat nm l p) (fun ans s' => ans = (0, Some (i_size (inode_at s n), true)) /\ feq s s') s.
Proof.
  intros Hi Hda Hn0 Hl0 El Hn Hm. have Hp := da_num _ _ _ _ Hda.
  rw /stat. apply wp_bind, wp_gets. have -> : g_filesystem_initialized s = true by destruct Hi as [[]].
  rw (proj2 (Z.eqb_neq _ _) Hn0) (proj2 (Z.eqb_neq _ _) Hl0). rewrite -> (proj2 (Z.eqb_neq p 0)) by lia.
  cbn [negb orb]. apply wp_bind, wp_gets, wp_bind.
  eapply wp_mono; [by apply (find_entry_in_dir_spec s p bs ess); [apply fs_inv_table_ok|]|].
  rw El. intros _ s1 [-> Hf]. rewrite -> (proj2 (Z.eqb_neq n 0)) by lia. apply wp_bind.
  eapply wp_mono; [apply read_inode_spec; [apply fs_inv_table_ok; by eapply feq_fs_inv|done]|].
  intros _ s2 [-> Hf2]. apply wp_ret. have Hf12 := feq_trans _ _ _ Hf Hf2.
  have E := feq_inode _ _ n Hf. by rw E Hm.
Qed.

(** ** The calls against the tree *)
(** room for a name in the directory [p] and for [n] further blocks *)
Definition room s (p : Z) (nm : list Z) (n : Z) : Prop := free_inodes s <> 0 /\
  exists bs ess, dir_at s p bs ess /\ name_fits s bs ess nm n.
Definition blocks_asked (r : EXT2DriverRequest) : Z := if is_directory r then 1 else blocks_taken r.
(** the new node of a write *)
Definition new_node (r : EXT2DriverRequest) (data : list Z) (n : Z) : node :=
  if is_directory r then empty_folder (parent_inode r) n else Regular data.

Lemma new_folder_at s n p b : dir_at s n [b] [dot_entries n p] -> indirect_of (inode_at s n) = 0 -> n <> 0 -> p <> 0 ->
  holds s n (empty_folder p n).
Proof.
  intros Hda Hi Hn Hp. exists [b], [dot_entries n p]. split; [done|]. split; [done|].
  have E : dir_live (concat [dot_entries n p]) = [(dot, (n, EXT2_FT_DIR)); (dotdot, (p, EXT2_FT_DIR))].
  { rw /dir_live /dot_entries. cbn [concat app map]. rw /entry_live. cbn [de_inode de_name de_type].
    by rewrite -> (proj2 (Z.eqb_neq _ _) Hn), (proj2 (Z.eqb_neq _ _) Hp). }
  split; [by eexists _, _, _, _|]. rw /names_unique /names_of E. split; [|done].
  apply (bool_decide_unpack (NoDup _)). by vm_compute.
Qed.

Lemma volume_write s t r p m : volume s t -> t !! p = Some (Folder m) -> parent_inode r = p -> 0 <= name_len r < 256 ->
  mem_ok (fs_mem s) -> (is_directory r = false -> file_request s r /\ buffer_size r <= max_file_size) ->
  m !! request_nm s r = None -> room s p (request_nm s r) (blocks_asked r) ->
  wp (write r) (fun code s' => code = 0 /\ fs_mem s' = fs_mem s /\ exists n, t !! n = None /\
    EXT2_GOOD_OLD_FIRST_INO < n <= INODES_PER_GROUP /\
    volume s' (add_node t p (request_nm s r) n (new_node r (request_data s r) n))) s.
Proof.
  intros Hv Hp Ep Hnl Hm Hreq Hnm (Hfi & bs & ess & Hda & Hfit).
  destruct (vo_node _ _ Hv p _ Hp) as [Hin (bs' & ess' & Hfo)].
  destruct (dir_at_inj _ _ _ _ _ _ Hda (proj1 Hfo)) as [<- <-]. have Hdl := volume_live s t Hv _ _ _ _ Hp Hfo.
  have Hpn := inode_in_num _ _ Hin. have Habs : dir_lookup (concat ess) (request_nm s r) = 0.
  { by rw (folder_lookup _ _ _ _ _ _ Hfo) Hnm. }
  rw /blocks_asked in Hfit. rw /new_node Ep. destruct (is_directory r) eqn:Ed.
  - eapply wp_mono; [apply (write_dir_made s r p bs ess); try done; apply Hv|].
    intros code s' (-> & n & b & bs' & ess' & Hem & Hind & Hda' & _). split; [done|]. split; [apply Hem|]. exists n.
    have Hn := em_ino _ _ _ _ _ _ _ _ _ _ _ Hem. split; [by eapply made_ino|]. split; [done|].
    have Hh : holds s' n (empty_folder p n) by apply (new_folder_at _ _ _ b); [done|done|geometry; lia|lia].
    apply (volume_add s s' t p bs ess m (request_nm s r) EXT2_FT_DIR n [b] bs' ess' Hv Hp Hfo Hnm Hem); [done|by right|done|].
    by rewrite -> (direct_file_blocks _ _ _ _ Hda' Hind).
  - destruct (Hreq eq_refl) as [Hfr Hmax]. eapply wp_mono; [apply (write_file_made s r p bs ess); try done; apply Hv|].
    intros code s' (-> & n & tk & bs' & ess' & ds & ids & Hem & _ & Hfa & Hperm). split; [done|]. split; [apply Hem|]. exists n.
    split; [by eapply made_ino|]. split; [apply Hem|].
    have Hl : length (request_data s r) = Z.to_nat (buffer_size r) by apply mem_load_length.
    have Hsz : 0 <= buffer_size r by destruct Hfr as (_ & _ & ? & _).
    apply (volume_add s s' t p bs ess m (request_nm s r) EXT2_FT_REG_FILE n tk bs' ess' Hv Hp Hfo Hnm Hem); [done|left; by eexists| |done].
    exists ds, ids. rewrite -> take_ge in Hfa by lia. have -> : len (request_data s r) = buffer_size r by lia. done.
Qed.

Lemma volume_delete_tail s t p bs ess m nm n ft : volume s t -> removable t p m nm n ft -> folder_at s p bs ess m ->
  wp (ok ← remove_entry_from_dir p nm; if negb ok then mret (-1) else deallocate_node n;; mret 0)
    (fun code s' => code = 0 /\ fs_mem s' = fs_mem s /\ volume s' (remove_node t p nm n)) s.
Proof.
  intros Hv Hr Hfo. have He := remove_entry_in _ _ _ _ _ _ Hr. have Hp := rm_folder _ _ _ _ _ _ Hr.
  have Hnp := remove_apart _ _ _ _ _ _ Hr. have Hdl := volume_live s t Hv _ _ _ _ Hp Hfo.
  destruct (to_entry _ (vo_tree _ _ Hv) _ _ _ _ He (rm_dots _ _ _ _ _ _ Hr)) as (Hroot & on & Hn & _).
  destruct (vo_node _ _ Hv n _ Hn) as [Hin _].
  eapply wp_mono; [apply (delete_tail_spec s p bs ess n nm); [apply Hv|done| | |done]|].
  - by apply (folder_nonzero s p bs ess m nm n ft Hfo), Hr.
  - split; [by destruct (in_num _ _ Hin)|]. split; [by eapply volume_bit|]. split; [by eapply volume_allocated|].
    intros b Hb. rewrite <- (folder_blocks _ _ _ _ _ Hfo). by apply (vo_apart _ _ Hv n p _ _ b Hn Hp).
  - intros code s' (-> & Hi' & Em & ess' & Hrem & Hdl' & _ & Hbit & _ & _ & Hfree & Hoth & Hbb & Hib & Hblk).
    split; [done|]. split; [done|]. by apply (volume_remove s s' t p bs ess ess' m nm n ft).
Qed.

Lemma leaf_node t n o : t !! n = Some o -> (forall m, o = Folder m -> childless m = true) ->
  forall x i f, entry t n x i f -> dots x = true.
Proof.
  intros Hn Ho x i f (m & Hm & Hx). rw Hn in Hm. injection Hm as ->. destruct (dots x) eqn:Hd; [done|].
  have := proj1 (childless_spec m) (Ho m eq_refl) x Hd. by rw Hx.
Qed.

Lemma volume_delete s t r p m i ft o : volume s t -> t !! p = Some (Folder m) -> parent_inode r = p ->
  name r <> 0 -> name_len r <> 0 -> m !! request_nm s r = Some (i, ft) -> t !! i = Some o ->
  (is_directory r = true -> dots (request_nm s r) = true -> forall mi, o = Folder mi -> childless mi = false) ->
  wp (delete r) (fun code s' => fs_mem s' = fs_mem s /\ exists t', volume s' t' /\
    (code, t') = match o with
      | Regular _ => if is_directory r then (1, t) else (0, remove_node t p (request_nm s r) i)
      | Folder mi => if is_directory r then if childless mi then (0, remove_node t p (request_nm s r) i) else (2, t) else (1, t)
      end) s.
Proof.
  intros Hv Hp Ep Hn0 Hl0 Hm Ho Hd. destruct (vo_node _ _ Hv p _ Hp) as [_ (bs & ess & Hfo)].
  destruct (vo_node _ _ Hv i _ Ho) as [Hin Hh]. have Hi := inode_in_num _ _ Hin. set (nm := request_nm s r) in *.
  destruct (folder_nonzero _ _ _ _ _ _ _ _ Hfo Hm) as [El _].
  apply (delete_start_spec s r p bs ess i); [apply Hv|apply Hfo|done|done|done|done|done|]. intros s1 Hf.
  have Hv1 := feq_volume _ _ _ Hf Hv. have Hfo1 := feq_folder _ _ _ _ _ _ Hf Hfo.
  have Em1 : fs_mem s1 = fs_mem s by destruct Hf as [[]].
  have Hgone (Hdn : dots nm = false) : (forall mi, o = Folder mi -> childless mi = true) -> forall s2, feq s s2 ->
    wp (ok ← remove_entry_from_dir p nm; if negb ok then mret (-1) else deallocate_node i;; mret 0)
      (fun code s' => fs_mem s' = fs_mem s /\ code = 0 /\ volume s' (remove_node t p nm i)) s2.
  { intros Hc s2 Hf2. have Hr : removable t p m nm i ft by constructor; [apply Hv|done|done|done|by eapply leaf_node].
    eapply wp_mono; [apply (volume_delete_tail s2 t p bs ess m nm i ft); [by eapply feq_volume|done|by eapply feq_folder]|].
    intros code s3 (-> & E & Hv3). destruct Hf2 as [[]]. split; [congruence|done]. }
  destruct o as [mi|c].
  - destruct Hh as (bsi & essi & Hfi). have Hfi0 := Hfi. destruct Hfi0 as (Hdai & _ & (e1 & e2 & es & ess0 & E & _) & _).
    rw (da_mode _ _ _ _ Hdai). destruct (is_directory r) eqn:Edir; cbn [negb].
    + apply wp_bind, wp_bind. subst essi.
      eapply wp_mono; [apply (is_directory_empty_spec s1 i bsi e1 e2 es ess0); [apply Hv1|by eapply feq_dir_at]|].
      intros e s2 [-> Hf2]. rw (folder_empty _ _ _ _ _ _ _ _ Hfi). have Hf12 := feq_trans _ _ _ Hf Hf2.
      destruct (childless mi) eqn:Ec; apply wp_ret; cbn [Z.eqb negb].
      * have Hdn : dots nm = false by apply not_true_iff_false; intros E; rewrite -> (Hd eq_refl E mi eq_refl) in Ec.
        eapply wp_mono; [apply (Hgone Hdn); [by intros ? [= <-]|done]|]. intros code s3 (E & -> & Hv3).
        split; [done|]. by eexists.
      * apply wp_ret. split; [by destruct Hf12 as [[]]|]. exists t. split; [by eapply feq_volume|done].
    + apply wp_bind, wp_ret. cbn [Z.eqb negb]. apply wp_ret. split; [done|]. by exists t.
  - destruct Hh as (ds & ids & Hfa). rw (fa_mode _ _ _ _ _ _ Hfa). destruct (is_directory r) eqn:Edir; cbn [negb];
      apply wp_bind, wp_ret; cbn [Z.eqb negb].
    + apply wp_ret. split; [done|]. by exists t.
    + have Hdn : dots nm = false.
      { destruct (dots nm) eqn:Edn; [|done]. exfalso. apply orb_true_iff in Edn as [E%bool_decide_eq_true|E%bool_decide_eq_true]; rw E in Hm.
        - rw (to_dot _ (vo_tree _ _ Hv) _ _ Hp) in Hm. injection Hm as <- _. by rw Hp in Ho.
        - destruct (to_parent _ (vo_tree _ _ Hv) _ _ Hp) as (q & mq & Eq & Hq). rw Eq in Hm. injection Hm as <- _. by rw Hq in Ho. }
      eapply wp_mono; [by apply (Hgone Hdn)|]. intros code s3 (E & -> & Hv3). split; [done|]. by eexists.
Qed.

(** a directory in use *)
Definition in_use s (p : Z) : Prop := (p = ROOT_INODE_NO \/ EXT2_GOOD_OLD_FIRST_INO < p <= INODES_PER_GROUP) /\
  bit (inode_bitmap s) (p - 1) = true /\ is_dir_mode (inode_at s p) = true.
Lemma in_use_folder s t p : volume s t -> in_use s p -> exists m, t !! p = Some (Folder m).
Proof.
  intros Hv (Hp & Hb & Hm). have Ht : is_Some (t !! p).
  { destruct Hp as [->|Hp].
    - destruct (to_root _ (vo_tree _ _ Hv)) as (m & Hr & _). by eexists.
    - apply (vo_inodes _ _ Hv) in Hb; [|geometry; lia]. destruct Hb; [lia|done]. }
  destruct Ht as [[m|c] Ho]; [by exists m|]. destruct (vo_node _ _ Hv p _ Ho) as [_ (ds & ids & Hfa)].
  by rw (fa_mode _ _ _ _ _ _ Hfa) in Hm.
Qed.

(** what the caller has to see to: the parent is a directory in use, the name is not empty,
    a new name and its contents find room when there is an inode for them, nobody deletes
    [.] or [..] where it stands for an empty directory, and the buffers are in memory *)
Definition volume_allows s (k : file_call) (r : EXT2DriverRequest) : Prop :=
  let p := parent_inode r in let nm := request_nm s r in
  in_use s p /\ name r <> 0 /\ name_len r <> 0 /\
  match k with
  | CallWrite => 0 <= name_len r < 256 /\ mem_ok (fs_mem s) /\
      (is_directory r = false -> file_request s r /\ buffer_size r <= max_file_size) /\
      forall bs ess, dir_at s p bs ess -> dir_lookup (concat ess) nm = 0 -> free_inodes s = 0 \/ name_fits s bs ess nm (blocks_asked r)
  | CallRead => 0 <= buf r /\ 0 <= buffer_size r /\ buf r + buffer_size r <= ptr_size
  | CallDelete => is_directory r = true -> dots nm = true ->
      forall t i m, volume s t -> look t p nm = Some (i, Folder m) -> childless m = false
  | CallStat => True
  end.
(** the memory afterwards: only a read of a file stores into it *)
Definition tree_mem (k : file_call) (t : tree) (p : Z) (nm : list Z) (out n : Z) (mm : mem) : mem :=
  match k, look t p nm with CallRead, Some (_, Regular c) => mem_store mm out (take (Z.to_nat n) c) | _, _ => mm end.

(** the answer and the tree: those of the tree, except that a new name is answered -1 when
    the volume has no free inode *)
Definition volume_answer s (k : file_call) (t : tree) (p : Z) (nm data : list Z) (dir : bool) (n size : Z)
    : Z * option (Z * bool) * tree :=
  match k, look t p nm with
  | CallWrite, None => if free_inodes s =? 0 then (-1, None, t) else tree_call k t p nm data dir n size
  | _, _ => tree_call k t p nm data dir n size
  end.

Lemma volume_refines s k r t : volume s t -> volume_allows s k r ->
  wp (run_call k r) (fun ans s' => exists n size t',
    let p := parent_inode r in let nm := request_nm s r in
    volume_answer s k t p nm (request_data s r) (is_directory r) n size = (ans, t') /\ volume s' t' /\
    (k = CallWrite -> look t p nm = None -> free_inodes s <> 0 -> t !! n = None /\ EXT2_GOOD_OLD_FIRST_INO < n <= INODES_PER_GROUP) /\
    mem_eq (fs_mem s') (tree_mem k t p nm (buf r) (buffer_size r) (fs_mem s))) s.
Proof.
  intros Hv (Hu & Hn0 & Hl0 & Hk). set (nm := request_nm s r) in *. set (p := parent_inode r) in *.
  destruct (in_use_folder _ _ _ Hv Hu) as [m Hp]. destruct (vo_node _ _ Hv p _ Hp) as [_ (bs & ess & Hfo)].
  have Hi := vo_inv _ _ Hv. have Hda := proj1 Hfo. have El := folder_lookup _ _ _ _ _ nm Hfo.
  have Hkeep s' : feq s s' -> volume s' t /\ mem_eq (fs_mem s') (fs_mem s).
  { intros Hf. split; [by eapply feq_volume|]. by destruct Hf as [[_ _ -> _] _]. }
  destruct (m !! nm) as [[i ft]|] eqn:Em.
  - destruct (look_some t p m nm i ft (vo_tree _ _ Hv) Hp Em) as (o & Ho & Elk).
    destruct (folder_nonzero _ _ _ _ _ _ _ _ Hfo Em) as [Edl Hi0]. destruct (vo_node _ _ Hv i _ Ho) as [Hin Hh].
    have Hir := inode_in_num _ _ Hin. rw /tree_mem /volume_answer /tree_call Elk. destruct k; cbn [run_call].
    + apply wp_bind. eapply wp_mono; [apply (write_exists_spec s r p bs ess); [done|done|done|by rw -/nm Edl]|].
      intros code s' (-> & Hf). apply wp_ret. exists 0, 0, t. split; [done|]. destruct (Hkeep s' Hf). done.
    + destruct Hk as (Hb & Hsz & Hw). apply wp_bind. destruct o as [mo|c].
      * destruct Hh as (bso & esso & Hfo2). eapply wp_mono; [apply (read_folder_spec s r p bs ess i); try done; apply Hfo2|].
        intros code s' (-> & Hf). apply wp_ret. exists 0, 0, t. split; [done|]. destruct (Hkeep s' Hf). done.
      * destruct Hh as (ds & ids & Hfa).
        eapply wp_mono; [apply (read_spec s r p bs ess i ds ids (len c) c); try done; lia|].
        intros code s' (-> & M & E). apply wp_ret. exists 0, 0, t. split; [done|]. split; [by eapply mem_only_volume|done].
    + apply wp_bind. eapply wp_mono; [apply (volume_delete s t r p m i ft o); try done; intros Ed' Edn mi ->; by apply (Hk Ed' Edn t i mi)|].
      intros code s' (E & t' & Hv' & Ec). apply wp_ret. exists 0, 0, t'. rw E. split; [|done].
      destruct o; destruct (is_directory r); [destruct (childless names)|..]; by injection Ec as -> ->.
    + destruct o as [mo|c].
      * destruct Hh as (bso & esso & Hfo2).
        eapply wp_mono; [apply (stat_folder_spec s (name r) (name_len r) p bs ess i); try done; apply Hfo2|].
        intros ans s' (-> & Hf). exists 0, (i_size (inode_at s i)), t. split; [done|]. destruct (Hkeep s' Hf). done.
      * destruct Hh as (ds & ids & Hfa).
        eapply wp_mono; [by apply (stat_spec s (name r) (name_len r) p bs ess i ds ids (len c) c)|].
        intros ans s' (-> & Hf). exists 0, 0, t. split; [done|]. destruct (Hkeep s' Hf). done.
  - have Elk := look_none t p m nm Hp Em. rw /tree_mem /volume_answer /tree_call Elk. destruct k; cbn [run_call].
    + destruct Hk as (Hnl & Hm & Hreq & Hroom). apply wp_bind. have Habs : dir_lookup (concat ess) nm = 0 by rw El.
      destruct (Z.eqb_spec (free_inodes s) 0) as [E0|E0].
      { eapply wp_mono; [by apply (write_no_inode s r p bs ess); [|eapply volume_live|..]|].
        intros code s' (-> & Hf). apply wp_ret. exists 0, 0, t. split; [done|]. destruct (Hkeep s' Hf). done. }
      have Hfit : name_fits s bs ess nm (blocks_asked r) by destruct (Hroom bs ess Hda Habs).
      eapply wp_mono; [apply (volume_write s t r p m); try done; split; [done|by exists bs, ess]|].
      intros code s' (-> & E & n & Hn & Hnr & Hv'). apply wp_ret. rw E. by exists n, 0, (add_node t p nm n (new_node r (request_data s r) n)).
    + apply wp_bind. eapply wp_mono; [by apply (read_missing_spec s r p bs ess)|].
      intros code s' (-> & Hf). apply wp_ret. exists 0, 0, t. split; [done|]. destruct (Hkeep s' Hf). done.
    + apply wp_bind. eapply wp_mono; [by apply (delete_missing_spec s r p bs ess)|].
      intros code s' (-> & Hf). apply wp_ret. exists 0, 0, t. split; [done|]. destruct (Hkeep s' Hf). done.
    + eapply wp_mono; [by apply (stat_missing_spec s (name r) (name_len r) p bs ess)|].
      intros ans s' (-> & Hf). exists 0, 0, t. split; [done|]. destruct (Hkeep s' Hf). done.
Qed.
End Volume.
