(* ===== verification/Ext2Volume.v ===== *)
(** * Volumes in use

    The calls of [ext2.h] on a volume that holds a tree ([Ext2Tree.volume]): which of them
    keep it one ([allowed]), that they do on it what the tree does, and the volumes that
    programs reach with them, however often the disk is mounted again.  What the tree does
    not survive is the removal of [.] in an empty directory, which [delete] does not refuse. *)

From S2P Require Import Prelude Bitmap StdString BlockDevice Ext2Layout Ext2Dir Ext2State Ext2 Ext2Inv Ext2Format Ext2Files Ext2Data Ext2Write Ext2Crud Inserter Ext2Theorems FileTree Ext2View Ext2Tree.

(** ** One folder as a map of names *)
Definition slot_of (t : tree) (m : gmap (list Z) (Z * Z)) (nm : list Z) : slot :=
  match m !! nm with
  | None => Absent
  | Some (i, _) => match t !! i with Some (Regular c) => File c | _ => Other end
  end.

Section Reachable.
Context {PW : PtrWidth} {D : Type} `{BlockDeviceLaws D} `{StackJunkLaws} `{Overrun D}.
Implicit Types s : FS D.

(** ** The calls of [ext2.h] *)
Inductive volume_call : Type := Operation (k : file_call) | ReadDirectory.
Definition run_volume (c : volume_call) (r : EXT2DriverRequest) : M (FS D) (Z * option (Z * bool)) :=
  match c with
  | Operation k => run_call k r
  | ReadDirectory => code ← read_directory r; mret (code, None)
  end.
(** [Ext2Tree.volume_allows], and for [read_directory] a buffer of any size in memory *)
Definition allowed s (c : volume_call) (r : EXT2DriverRequest) : Prop :=
  match c with
  | Operation k => volume_allows s k r
  | ReadDirectory => in_use s (parent_inode r) /\ 0 <= buf r /\ 0 <= buffer_size r /\ buf r + buffer_size r <= ptr_size
  end.
(** what the tree answers and becomes *)
Definition volume_result s (c : volume_call) (t : tree) (r : EXT2DriverRequest) (n size : Z) : Z * option (Z * bool) * tree :=
  match c with
  | Operation k => volume_answer s k t (parent_inode r) (request_nm s r) (request_data s r) (is_directory r) n size
  | ReadDirectory => (0, None, t)
  end.
(** and what is in memory afterwards: [read_directory] stores as much as the buffer takes of
    the entries that spell the names of the directory *)
Definition memory_result s (c : volume_call) (t : tree) (r : EXT2DriverRequest) (mm : mem) : Prop :=
  match c with
  | Operation k => mem_eq mm (tree_mem k t (parent_inode r) (request_nm s r) (buf r) (buffer_size r) (fs_mem s))
  | ReadDirectory => exists m ess, t !! parent_inode r = Some (Folder m) /\ names_of ess = m /\
      mem_eq mm (mem_store (fs_mem s) (buf r) (take (Z.to_nat (buffer_size r)) (dir_bytes (concat ess))))
  end.

Lemma list_refines s r t : volume s t -> allowed s ReadDirectory r ->
  wp (read_directory r) (fun code s' => code = 0 /\ volume s' t /\ memory_result s ReadDirectory t r (fs_mem s')) s.
Proof.
  intros Hv (Hu & Hb & Hsz & Hw). destruct (in_use_folder _ _ _ Hv Hu) as [m Hp].
  destruct (vo_node _ _ Hv _ _ Hp) as [_ (bs & ess & Hda & _ & _ & _ & Em)].
  eapply wp_mono; [by apply (read_directory_prefix s r _ bs ess (vo_inv _ _ Hv) Hda eq_refl)|].
  intros code s' (-> & M & E). split; [done|]. split; [by eapply mem_only_volume|]. by exists m, ess.
Qed.
Lemma call_refines s c r t : volume s t -> allowed s c r ->
  wp (run_volume c r) (fun ans s' => exists n size t', volume_result s c t r n size = (ans, t') /\ volume s' t' /\
    (c = Operation CallWrite -> look t (parent_inode r) (request_nm s r) = None -> free_inodes s <> 0 ->
      t !! n = None /\ EXT2_GOOD_OLD_FIRST_INO < n <= INODES_PER_GROUP) /\
    memory_result s c t r (fs_mem s')) s.
Proof.
  intros Hv Ha. destruct c as [k|].
  - eapply wp_mono; [by apply (volume_refines s k r t)|]. intros ans s' (n & size & t' & E & Hv' & Hf & Hm).
    exists n, size, t'. split; [done|]. split; [done|]. split; [|done]. intros [= ->]. by apply Hf.
  - apply wp_bind. eapply wp_mono; [by apply (list_refines s r t)|]. intros code s' (-> & Hv' & Hm).
    apply wp_ret. by exists 0, 0, t.
Qed.

(** C1: the file system is a tree.  On any volume that the tree [t] describes, in any of
    its directories, a call of [write] (of a file or a directory, also where the directory
    grows by a block for the name), [read], [delete] (also of a directory), [stat] or
    [read_directory] (with a buffer of any size) that [allowed] lets through answers what the
    tree answers, refusals included, -1 for a new name when no inode is free, and leaves a
    volume that the updated tree describes: every file and directory elsewhere as it was, a
    new node under a number that was free, no block in two places, bit maps that mark exactly
    what is in use, and no memory changed but the bytes read.
    [allowed] leaves out three kinds of call, where the code does not do what the tree does: a
    new file of more than 71680 bytes, or whose blocks or directory entry do not fit although
    an inode is free (it is cut short or leaks, [Ext2Theorems.write_stores_prefix] and
    [Ext2Theorems.write_leaks]); a deletion of [.] or [..] where it stands for an empty directory
    ([delete_dot_breaks]); and requests that are none: a parent that is not a directory in use,
    a null or empty name, buffers beyond the memory. *)
Theorem volume_refines_tree s c r t : volume s t -> allowed s c r ->
  wp (run_volume c r) (fun ans s' => exists n size t', volume_result s c t r n size = (ans, t') /\ volume s' t' /\
    (c = Operation CallWrite -> look t (parent_inode r) (request_nm s r) = None -> free_inodes s <> 0 ->
      t !! n = None /\ EXT2_GOOD_OLD_FIRST_INO < n <= INODES_PER_GROUP) /\
    memory_result s c t r (fs_mem s')) s.
Proof. apply call_refines. Qed.

(** ** What the clients of a volume use *)
#[local] Opaque inode_at node_blocks block_bitmap inode_bitmap blk free_inodes free_blocks.
Lemma folder_in_use s t p m : volume s t -> t !! p = Some (Folder m) -> in_use s p.
Proof.
  intros Hv Hp. destruct (vo_node _ _ Hv p _ Hp) as [[Hn _ _] (bs & ess & [_ Hm _ _ _] & _)].
  split; [exact Hn|]. split; [by eapply volume_bit|exact Hm].
Qed.
Lemma mem_only_place s s' p nm n : mem_only s s' -> room s p nm n -> room s' p nm n.
Proof.
  intros M (Hfi & bs & ess & Hda & Hfit). destruct (meta_same_free s s') as [Eb Ei]; [apply M|].
  split; [by rw Ei|]. exists bs, ess. split; [by eapply mem_only_dir_at|]. by rw /name_fits Eb.
Qed.
(** a folder of the tree is a directory as [Ext2View] sees it *)
Lemma volume_file s t bs ess m p nm c : volume s t -> t !! p = Some (Folder m) -> folder_at s p bs ess m ->
  slot_of t m nm = File c -> exists i ft, m !! nm = Some (i, ft) /\ dir_lookup (concat ess) nm = i /\ t !! i = Some (Regular c) /\
  dots nm = false /\ file_in s bs i c.
Proof.
  intros Hv Hp Hfo. rw /slot_of. destruct (m !! nm) as [[i ft]|] eqn:Em; [|done].
  destruct (t !! i) as [[mi|ci]|] eqn:Ei; [done| |done]. intros [= ->].
  destruct (folder_nonzero _ _ _ _ _ _ _ _ Hfo Em) as [El _]. destruct (vo_node _ _ Hv i _ Ei) as [Hin (ds & ids & Hfa)].
  have Hip : i <> p by intros ->; rw Hp in Ei. have Hdn : dots nm = false.
  { destruct (dots nm) eqn:Hd; [|done]. exfalso. apply orb_true_iff in Hd as [E%bool_decide_eq_true|E%bool_decide_eq_true]; rw E in Em.
    - rw (to_dot _ (vo_tree _ _ Hv) _ _ Hp) in Em. injection Em as E2 _. by destruct Hip.
    - destruct (to_parent _ (vo_tree _ _ Hv) _ _ Hp) as (q & mq & Eq & Hq). rw Eq in Em. injection Em as -> _. by rw Hq in Ei. }
  destruct (to_entry _ (vo_tree _ _ Hv) p nm i ft) as (Hroot & _); [by exists m|done|].
  exists i, ft. split; [done|]. split; [done|]. split; [done|]. split; [done|]. split; [by exists ds, ids|].
  split; [by destruct (in_num _ _ Hin)|]. split; [by eapply volume_bit|]. split; [by eapply volume_allocated|].
  intros b Hb. rewrite <- (folder_blocks _ _ _ _ _ Hfo). by apply (vo_apart _ _ Hv i p _ _ b Ei Hp).
Qed.
Lemma volume_view s t p m : volume s t -> t !! p = Some (Folder m) -> dir_view s p (slot_of t m).
Proof.
  intros Hv Hp. destruct (vo_node _ _ Hv p _ Hp) as [_ (bs & ess & Hfo)]. exists bs, ess.
  have El nm := folder_lookup _ _ _ _ _ nm Hfo.
  constructor; [apply Hv|by eapply volume_live|apply Hfo| |].
  - intros nm. destruct (slot_of t m nm) as [|c|] eqn:Es.
    + rw El. move: Es. rw /slot_of. destruct (m !! nm) as [[i ft]|]; [|done]. by destruct (t !! i) as [[]|].
    + by destruct (volume_file s t bs ess m p nm c Hv Hp Hfo Es) as (i & ft & _ & -> & _ & _ & Hf).
    + move: Es. rw /slot_of. destruct (m !! nm) as [[i ft]|] eqn:Em; [|done]. intros _.
      by destruct (folder_nonzero _ _ _ _ _ _ _ _ Hfo Em) as [-> ?].
  - intros nm nm' c c' Hs Hs' Hne. destruct (volume_file s t bs ess m p nm c Hv Hp Hfo Hs) as (i & ft & Em & -> & Ei & Hd & _).
    destruct (volume_file s t bs ess m p nm' c' Hv Hp Hfo Hs') as (i' & ft' & Em' & -> & Ei' & Hd' & _).
    have Hii : i <> i'.
    { intros ->. destruct (to_unique _ (vo_tree _ _ Hv) p nm ft p nm' ft' i') as [_ E]; [by exists m|by exists m|done|done|done]. }
    split; [done|]. intros b. by apply (vo_apart _ _ Hv i i' _ _ b Ei Ei').
Qed.

(** the calls on their own *)
Lemma write_on_tree s r t m : volume s t -> t !! parent_inode r = Some (Folder m) -> name r <> 0 -> 0 < name_len r < 256 ->
  mem_ok (fs_mem s) -> (is_directory r = false -> file_request s r /\ buffer_size r <= max_file_size) ->
  (m !! request_nm s r = None -> room s (parent_inode r) (request_nm s r) (blocks_asked r)) ->
  wp (write r) (fun code s' => exists n t',
    tree_call CallWrite t (parent_inode r) (request_nm s r) (request_data s r) (is_directory r) n 0 = (code, None, t') /\ volume s' t' /\
    (m !! request_nm s r = None -> t !! n = None) /\ mem_eq (fs_mem s') (fs_mem s)) s.
Proof.
  intros Hv Hp Hn Hl Hm Hreq Hroom. have Ha : volume_allows s CallWrite r.
  { split; [by eapply folder_in_use|]. split; [done|]. split; [lia|]. split; [lia|]. split; [done|]. split; [done|].
    intros bs ess Hda Habs. right. destruct (vo_node _ _ Hv _ _ Hp) as [_ (bs' & ess' & Hfo)].
    destruct (dir_at_inj _ _ _ _ _ _ Hda (proj1 Hfo)) as [<- <-]. destruct Hroom as (Hfi & bs2 & ess2 & Hda2 & Hfit).
    - rw (folder_lookup _ _ _ _ _ _ Hfo) in Habs. destruct (m !! request_nm s r) as [[i ft]|] eqn:Em; [|done].
      by destruct (folder_nonzero _ _ _ _ _ _ _ _ Hfo Em) as [_ ?].
    - destruct (dir_at_inj _ _ _ _ _ _ Hda Hda2) as [<- <-]. done. }
  eapply wp_mono; [eapply wp_answer, (volume_refines s CallWrite r t Hv Ha)|].
  intros code s' (n & size & t' & E & Hv' & Hfresh & Em). exists n, t'. cbv zeta in E. rw /volume_answer in E.
  destruct (m !! request_nm s r) as [[i ft]|] eqn:Enm.
  - destruct (look_some t _ m _ i ft (vo_tree _ _ Hv) Hp Enm) as (o & _ & El). rw El in E.
    split; [|done]. rw /tree_call El in E |- *. done.
  - have El := look_none t _ m _ Hp Enm. have Hfi := proj1 (Hroom eq_refl). rw El (proj2 (Z.eqb_neq _ _) Hfi) in E.
    split; [by rw /tree_call El in E |- *|]. split; [done|]. split; [|done]. intros _. by apply (Hfresh eq_refl El).
Qed.
Lemma delete_on_tree s r t m : volume s t -> t !! parent_inode r = Some (Folder m) -> name r <> 0 -> name_len r <> 0 ->
  (is_directory r = true -> dots (request_nm s r) = false) ->
  wp (delete r) (fun code s' => exists t',
    tree_call CallDelete t (parent_inode r) (request_nm s r) [] (is_directory r) 0 0 = (code, None, t') /\ volume s' t' /\
    mem_eq (fs_mem s') (fs_mem s)) s.
Proof.
  intros Hv Hp Hn Hl Hd. have Ha : volume_allows s CallDelete r.
  { split; [by eapply folder_in_use|]. split; [done|]. split; [done|]. intros Ed Edn. by rw Hd in Edn. }
  eapply wp_mono; [eapply wp_answer, (volume_refines s CallDelete r t Hv Ha)|].
  intros code s' (n & size & t' & E & Hv' & _ & Em). exists t'. done.
Qed.

(** ** A formatted volume *)
Lemma fresh_inode_bits n : 1 <= n <= INODES_PER_GROUP -> bit fresh_inode_bitmap (n - 1) = (n <=? EXT2_GOOD_OLD_FIRST_INO).
Proof.
  intros Hn. have Hall : forallb (fun i => eqb (bit fresh_inode_bitmap (i - 1)) (i <=? EXT2_GOOD_OLD_FIRST_INO)) (seqZ 1 64) = true by vm_compute.
  rewrite -> forallb_forall in Hall. apply eqb_prop, Hall, list_elem_of_In, elem_of_seqZ. geometry. lia.
Qed.
Lemma fresh_block_bits b : 0 <= b < BLOCKS_PER_GROUP -> bit fresh_block_bitmap b = (b <=? ROOT_DIR_BLOCK_LBA).
Proof.
  intros Hb. have Hall : forallb (fun i => eqb (bit fresh_block_bitmap i) (i <=? ROOT_DIR_BLOCK_LBA)) (seqZ 0 256) = true by vm_compute.
  rewrite -> forallb_forall in Hall. apply eqb_prop, Hall, list_elem_of_In, elem_of_seqZ. geometry. lia.
Qed.
Lemma formatted_volume s : formatted s -> volume s root_tree.
Proof.
  intros Hf. destruct (formatted_root _ Hf) as (Hda & _). have Hind : indirect_of (inode_at s ROOT_INODE_NO) = 0 by rw (fm_root _ Hf).
  have Hh := new_folder_at s ROOT_INODE_NO ROOT_INODE_NO ROOT_DIR_BLOCK_LBA Hda Hind ltac:(done) ltac:(done).
  have Eb := direct_file_blocks _ _ _ _ Hda Hind.
  constructor; [apply Hf|apply root_tree_ok| | | |].
  - intros n o [-> ->]%root_tree_lookup. split; [|exact Hh]. constructor; [by left|rw Eb; apply NoDup_singleton|].
    intros b. rw Eb. intros ->%list_elem_of_singleton. done.
  - intros n n' o o' b [-> _]%root_tree_lookup [-> _]%root_tree_lookup. done.
  - intros n Hn. rw (fm_inode_bitmap _ Hf) (fresh_inode_bits n Hn) Z.leb_le. split; [by left|].
    intros [?|[o [-> _]%root_tree_lookup]]; [done|by geometry].
  - intros b Hb. rw (fm_block_bitmap _ Hf) (fresh_block_bits b Hb) Z.leb_le. split; [by left|].
    intros [?|(n & o & [-> _]%root_tree_lookup & Hin)]; [done|]. rw Eb in Hin. apply list_elem_of_singleton in Hin as ->. done.
Qed.

(** ** The disk determines the tree *)
Lemma file_at_inj s n ds ids ds' ids' size size' c c' : file_at s n ds ids size c -> file_at s n ds' ids' size' c' -> c = c'.
Proof.
  intros [_ _ Es _ Hp Hi ->] [_ _ Es' _ Hp' Hi' ->]. rw -Es -Es' (prefix12_inj _ _ _ Hp Hp'). do 3 f_equal.
  have Hu k l : Forall (fun b => ROOT_DIR_BLOCK_LBA <= b < BLOCKS_PER_GROUP) l -> used (l ++ replicate k 0) = l.
  { intros Hl. rw used_app used_zeros app_nil_r. apply used_nonzero. eapply Forall_impl; [exact Hl|]. cbn. geometry. lia. }
  destruct Hi as [[-> Hz]|(_ & Hr & Hl & _ & E)], Hi' as [[-> Hz']|(_ & Hr' & Hl' & _ & E')]; [done|geometry; lia|geometry; lia|].
  by rewrite <- (Hu (128 - length ids)%nat ids), <- E, E', (Hu _ ids') by done.
Qed.
Lemma holds_inj s n o o' : holds s n o -> holds s n o' -> o = o'.
Proof.
  destruct o as [m|c], o' as [m'|c']; cbn [holds].
  - intros (bs & ess & Hda & _ & _ & _ & <-) (bs' & ess' & Hda' & _ & _ & _ & <-). by destruct (dir_at_inj _ _ _ _ _ _ Hda Hda') as [_ <-].
  - intros (bs & ess & [_ Hm _ _ _] & _) (ds & ids & [_ Hm' _ _ _ _ _]). by rw Hm in Hm'.
  - intros (ds & ids & [_ Hm' _ _ _ _ _]) (bs & ess & [_ Hm _ _ _] & _). by rw Hm in Hm'.
  - intros (ds & ids & Hf) (ds' & ids' & Hf'). f_equal. by eapply file_at_inj.
Qed.
Lemma volume_unique s t t' : volume s t -> volume s t' -> t = t'.
Proof.
  intros Hv Hv'. apply (map_eq (M := gmap Z)). intros n. change (t !! n = t' !! n).
  have Hdom u u' : volume s u -> volume s u' -> is_Some (u !! n) -> is_Some (u' !! n).
  { intros Hu Hu' [o Ho]. have Hin := proj1 (vo_node _ _ Hu _ _ Ho). have Hn := inode_in_num _ _ Hin.
    destruct (in_num _ _ Hin) as [->|Hlt].
    - destruct (to_root _ (vo_tree _ _ Hu')) as (m & Hm & _). by exists (Folder m).
    - have Hb : bit (inode_bitmap s) (n - 1) = true by apply (vo_inodes _ _ Hu n Hn); right; exists o.
      apply (vo_inodes _ _ Hu' n Hn) in Hb as [Hle|Hsome]; [lia|exact Hsome]. }
  destruct (t !! n) as [o|] eqn:E.
  - destruct (Hdom t t') as [o' E']; [done|done|by exists o|]. rw E'. f_equal.
    eapply holds_inj; [apply (vo_node _ _ Hv _ _ E)|apply (vo_node _ _ Hv' _ _ E')].
  - destruct (t' !! n) as [o'|] eqn:E'; [|reflexivity]. destruct (Hdom t' t) as [? ?]; [done|done|by exists o'|]. by congruence.
Qed.

(** ** The volumes of [allowed] calls *)
Inductive reachable : FS D -> Prop :=
(** a disk is formatted *)
| reach_format s s' : dev_ok (fs_dev s) -> create_ext2 s = Ok (tt, s') -> reachable s'
(** a call, any of the five, that [allowed] lets through *)
| reach_call s c r ans s' : reachable s -> allowed s c r -> run_volume c r s = Ok (ans, s') -> reachable s'
(** the programs change their memory *)
| reach_memory s m : reachable s -> reachable (set_mem m s)
(** the machine is switched off and on, and the mount overruns nothing that matters *)
| reach_mount s t s' : reachable t -> dev_ok (fs_dev s) -> overrun_harmless -> (forall l, blk s l = blk t l) ->
    initialize_filesystem_ext2 s = Ok (tt, s') -> reachable s'.

Lemma reachable_volume s : reachable s -> exists t, volume s t.
Proof.
  induction 1 as [s s' Hd E|s c r ans s' _ [t Hv] Ha E|s m _ [t Hv]|s t0 s' _ [t Hv] Hd Ho Hb E].
  - exists root_tree. apply formatted_volume. pose proof (create_ext2_spec s Hd) as W. rw /wp E in W. apply W.
  - pose proof (call_refines s c r t Hv Ha) as W. rw /wp E in W. destruct W as (n & size & t' & _ & Hv' & _). by exists t'.
  - exists t. apply (mem_only_volume s); [|done]. constructor; try done. by destruct (vo_inv _ _ Hv) as [[]].
  - pose proof (mount_existing s t0 Hd Ho (vo_inv _ _ Hv) Hb) as W. rw /wp E in W. destruct W as (Hi & _ & _ & Eb & _).
    exists t. by apply (volume_blk t0).
Qed.

(** C2: as long as the calls are those that [allowed] lets through, the disk holds a tree.  A
    volume reached from formatting by any sequence of such calls, [read_directory] with any
    buffer included, of changes of the programs' memory and of mounts whose two overrunning
    loads hit nothing the file system needs, is described by exactly one tree: each file and
    directory hangs below the root by one entry of its type, every [..] leads back, no block
    belongs to two of them, and the bit maps mark exactly what is in use; and no further call
    or mount of this kind gets stuck.  [allowed] leaves out new files without room for their
    blocks or their name or of more than 71680 bytes, deletions of [.] or [..] where it stands for
    an empty directory, after which no tree describes the volume ([delete_dot_breaks]), and
    requests without a name or a directory in use. *)
Theorem reachable_volumes_are_trees s : reachable s -> (exists t, volume s t /\ forall t', volume s t' -> t' = t) /\
  (forall c r, allowed s c r -> exists ans s', run_volume c r s = Ok (ans, s') /\ reachable s') /\
  (forall s0, dev_ok (fs_dev s0) -> overrun_harmless -> (forall l, blk s0 l = blk s l) ->
    exists s', initialize_filesystem_ext2 s0 = Ok (tt, s') /\ reachable s').
Proof.
  intros Hr. destruct (reachable_volume s Hr) as [t Hv]. split; [exists t; split; [done|]; intros t' Hv'; by eapply volume_unique|].
  split.
  - intros c r Ha. destruct (wp_elim _ _ _ (call_refines s c r t Hv Ha)) as (ans & s' & E & _). exists ans, s'. split; [done|].
    by eapply reach_call.
  - intros s0 Hd Ho Hb. destruct (wp_elim _ _ _ (mount_existing s0 s Hd Ho (vo_inv _ _ Hv) Hb)) as ([] & s' & E & _).
    exists s'. split; [done|]. by eapply reach_mount.
Qed.

(** ** The entry [.] can be deleted *)
(** no tree has an entry that leads to a free inode *)
Lemma dangling_no_tree s p bs ess nm i : dir_live_at s p bs ess -> (p = ROOT_INODE_NO \/ EXT2_GOOD_OLD_FIRST_INO < p <= INODES_PER_GROUP) ->
  dir_lookup (concat ess) nm = i -> i <> 0 -> bit (inode_bitmap s) (i - 1) = false -> forall t, ~ volume s t.
Proof.
  intros (Hda & _ & Hb) Hp El Hi Hbit t Hv. destruct (in_use_folder s t p Hv) as [m Hm]; [split; [done|split; [done|apply Hda]]|].
  destruct (vo_node _ _ Hv p _ Hm) as [_ (bs' & ess' & Hfo)]. destruct (dir_at_inj _ _ _ _ _ _ Hda (proj1 Hfo)) as [<- <-].
  rw (folder_lookup _ _ _ _ _ nm Hfo) in El. destruct (m !! nm) as [[n ft]|] eqn:E; cbn in El; [subst n|by destruct Hi].
  destruct (look_some t p m nm i ft (vo_tree _ _ Hv) Hm E) as (o & Ho & _). by rewrite -> (volume_bit _ _ Hv _ _ Ho) in Hbit.
Qed.

(** the end of [delete] when a directory is told to remove its own entry [.] *)
Lemma self_removed_spec s t i p mi bsi essi bs ess m : volume s t -> t !! i = Some (Folder mi) -> i <> ROOT_INODE_NO ->
  folder_at s i bsi essi mi -> t !! p = Some (Folder m) -> p <> i -> folder_at s p bs ess m ->
  wp (ok ← remove_entry_from_dir i dot; if negb ok then mret (-1) else deallocate_node i;; mret 0)
    (fun code s' => code = 0 /\ fs_inv s' /\ bit (inode_bitmap s') (i - 1) = false /\ dir_live_at s' p bs ess) s.
Proof.
  intros Hv Hi Hroot Hfi Hp Hpi Hfo. destruct (vo_node _ _ Hv i _ Hi) as [Hin _]. destruct (vo_node _ _ Hv p _ Hp) as [Hinp _].
  have Hir := inode_in_num _ _ Hin. have Hpr := inode_in_num _ _ Hinp. destruct (volume_live s t Hv _ _ _ _ Hp Hfo) as (Hda & Hbits & Hpb).
  have Hbr : Forall (fun b => ROOT_DIR_BLOCK_LBA <= b < BLOCKS_PER_GROUP) bsi by destruct Hfi as ([_ _ (_ & _ & ?) _ _] & _).
  have Hap b : b ∈ bs -> b ∉ bsi.
  { rewrite <- (folder_blocks _ _ _ _ _ Hfi), <- (folder_blocks _ _ _ _ _ Hfo). by apply (vo_apart _ _ Hv p i _ _ b Hp Hi). }
  have Hdot := to_dot _ (vo_tree _ _ Hv) _ _ Hi. destruct (folder_nonzero _ _ _ _ _ _ _ _ Hfi Hdot) as [El Hi0].
  apply wp_bind. eapply wp_mono; [apply (remove_entry_spec s i bsi essi dot); [apply Hv|apply Hfi]|]. intros ok s1.
  destruct (dirs_remove essi dot) as [ess1|] eqn:Er; [|by apply dirs_remove_none in Er; rw El in Er].
  intros (-> & Ev1 & M1 & Hi1 & _). cbn [negb]. destruct (data_blocks_not_meta bsi Hbr) as [Hm Hni].
  have Hsame n : 1 <= n <= INODES_PER_GROUP -> inode_at s1 n = inode_at s n by intros; apply (inode_at_frame _ _ _ _ Ev1), Hni.
  destruct (evolve_bitmaps _ _ _ Ev1 Hbr) as [Ebb Eib].
  have En : node_blocks s1 (inode_at s1 i) = node_blocks s (inode_at s i).
  { rewrite -> (Hsame i Hir). apply direct_blocks, Hfi. }
  apply wp_bind. eapply wp_mono; [apply deallocate_node_spec; [done|by destruct (in_num _ _ Hin)|by rw Eib; eapply volume_bit|]|].
  { rw En /allocated Ebb. by eapply volume_allocated. }
  intros [] s2 (Hi2 & Ev2 & _ & Hoth & _ & _ & Hbb & Hib). apply wp_ret. split; [done|]. split; [done|].
  split; [rw Hib; [lia|]; by rw Z.eqb_refl|]. split; [|split].
  - have Hbs b : b ∈ bs -> 21 <= b < 256 by apply prefix12_range with (1 := da_ptrs _ _ _ _ Hda).
    apply (dir_at_frame (meta_blocks ++ [inode_lba i]) s1); [|done|by apply Hoth|].
    + apply (dir_at_frame bsi s); [done|done|by apply Hsame|done].
    + intros b Hb. have := Hbs b Hb. have := inode_lba_range i Hir. rw /meta_blocks => ??. notin.
  - apply Forall_forall. intros b Hb. have := prefix12_range _ _ _ (da_ptrs _ _ _ _ Hda) Hb => ?.
    rewrite -> Forall_forall in Hbits. rewrite -> Hbb, Ebb, (Hbits b Hb), andb_true_r by lia.
    apply negb_true_iff, bool_decide_eq_false. rewrite -> En. change (b ∉ file_blocks s i). rewrite -> (folder_blocks _ _ _ _ _ Hfi). by apply Hap.
  - rewrite -> Hib, Eib, Hpb, andb_true_r by lia. apply negb_true_iff, Z.eqb_neq. lia.
Qed.

(** C37: [delete] does not refuse [.].  In an empty directory other than the root, a request to delete
    the directory [.] answers 0 and releases the directory itself while the entry in its
    parent stays: a name that leads to an inode marked free, and a volume that no tree
    describes any more. *)
Theorem delete_dot_breaks s r t mi : volume s t -> is_directory r = true -> name r <> 0 -> name_len r <> 0 ->
  request_nm s r = dot -> parent_inode r <> ROOT_INODE_NO -> t !! parent_inode r = Some (Folder mi) -> childless mi = true ->
  wp (delete r) (fun code s' => code = 0 /\ fs_inv s' /\
    (exists p bs ess nm, dir_live_at s' p bs ess /\ dots nm = false /\
      dir_lookup (concat ess) nm = parent_inode r /\ bit (inode_bitmap s') (parent_inode r - 1) = false) /\
    forall t', ~ volume s' t') s.
Proof.
  intros Hv Ed Hn0 Hl0 En Hroot Hi Hc. set (i := parent_inode r) in *.
  destruct (vo_node _ _ Hv i _ Hi) as [Hin (bsi & essi & Hfi)]. have Hir := inode_in_num _ _ Hin.
  have Hfi0 := Hfi. destruct Hfi0 as (Hdai & Hind & (e1 & e2 & es & ess0 & E & _) & _ & Em).
  have Hdot := to_dot _ (vo_tree _ _ Hv) _ _ Hi. destruct (folder_nonzero _ _ _ _ _ _ _ _ Hfi Hdot) as [El _].
  (* the entry of the parent *)
  have Hre := to_reach _ (vo_tree _ _ Hv) _ _ Hi. inversion Hre as [Er|p nm i' ft Hrp He Hnm Ei]; [by destruct Hroot|]. subst i'.
  destruct (He) as (m & Hp & Hm). destruct (vo_node _ _ Hv p _ Hp) as [Hinp (bs & ess & Hfo)].
  have Hpi : p <> i.
  { intros ->. rw Hi in Hp. injection Hp as <-. have := proj1 (childless_spec mi) Hc nm Hnm. by rw Hm. }
  destruct (folder_nonzero _ _ _ _ _ _ _ _ Hfo Hm) as [Elp _].
  apply (delete_start_spec s r i bsi essi i); [apply Hv|done|done|done|done|by rw En|done|]. intros s1 Hf.
  rw Ed (da_mode _ _ _ _ Hdai) En. cbn [negb]. apply wp_bind, wp_bind. subst essi.
  eapply wp_mono; [apply (is_directory_empty_spec s1 i bsi e1 e2 es ess0); [eapply feq_fs_inv; [apply Hv|done]|by eapply feq_dir_at]|].
  intros e s2 [-> Hf2]. rw (folder_empty _ _ _ _ _ _ _ _ Hfi) Hc. apply wp_ret. cbn [Z.eqb negb].
  have Hf12 := feq_trans _ _ _ Hf Hf2. have Hv2 := feq_volume _ _ _ Hf12 Hv.
  have Hfi2 := feq_folder _ _ _ _ _ _ Hf12 Hfi. have Hfo2 := feq_folder _ _ _ _ _ _ Hf12 Hfo.
  eapply wp_mono; [by apply (self_removed_spec s2 t i p mi bsi ((e1 :: e2 :: es) :: ess0) bs ess m)|].
  intros code s3 (-> & Hi3 & Hbit & Hdl). split; [done|]. split; [done|]. split; [by exists p, bs, ess, nm|].
  apply (dangling_no_tree s3 p bs ess nm i); [done|apply Hinp|done|lia|done].
Qed.
End Reachable.

(** ** The formatted image *)
Section Formatted.
Context {PW : PtrWidth} {D : Type} `{BlockDeviceLaws D} `{StackJunkLaws}.
Lemma formatted_in_use (s : FS D) : formatted s -> in_use s ROOT_INODE_NO.
Proof.
  intros Hf. destruct (formatted_root _ Hf) as (Hda & _ & Hb). split; [by left|]. split; [exact Hb|exact (da_mode _ _ _ _ Hda)].
Qed.
(** a formatted volume has room for a directory *)
Lemma formatted_place (s : FS D) nm : formatted s -> len nm < 256 -> room s ROOT_INODE_NO nm 1.
Proof.
  intros Hf Hl. split; [by have -> : free_inodes s = 53 by exact (fm_free_inodes _ Hf)|].
  exists [ROOT_DIR_BLOCK_LBA], [root_entries]. split; [exact (proj1 (formatted_root _ Hf))|].
  rw /name_fits root_room //. by have -> : free_blocks s = 234 by exact (fm_free_blocks _ Hf).
Qed.
(** and allows a new one under any name *)
Lemma formatted_mkdir (s : FS D) r : formatted s -> parent_inode r = ROOT_INODE_NO -> is_directory r = true ->
  name r <> 0 -> 0 < name_len r < 256 -> mem_ok (fs_mem s) -> volume_allows s CallWrite r.
Proof.
  intros Hf Ep Ed Hn Hl Hm. split; [rw Ep; by apply formatted_in_use|]. split; [done|]. split; [lia|].
  split; [lia|]. split; [done|]. split; [by rw Ed|]. intros bs ess Hda _. right. rw Ep in Hda.
  destruct (formatted_place s (request_nm s r) Hf) as (Hfi & bs' & ess' & Hda' & Hfit); [rw /request_nm mem_load_length; lia|].
  destruct (dir_at_inj _ _ _ _ _ _ Hda Hda') as [-> ->]. by rw /blocks_asked Ed.
Qed.
End Formatted.

Lemma demo_mkdir_allowed : allowed demo_fs (Operation CallWrite) mkdir_request.
Proof. apply formatted_mkdir; [exact (proj1 demo_formatted)|done|done|done|done|exact demo_mem_ok]. Qed.
Lemma demo_look : look root_tree ROOT_INODE_NO (request_nm demo_fs mkdir_request) = None.
Proof. rw demo_nm. by vm_compute. Qed.
Lemma demo_volume : volume demo_fs root_tree.
Proof. exact (formatted_volume _ (proj1 demo_formatted)). Qed.
(** the call of the examples: what the tree answers, and that there is an inode *)
Lemma demo_answer n size : volume_result demo_fs (Operation CallWrite) root_tree mkdir_request n size =
  (0, None, add_node root_tree ROOT_INODE_NO (request_nm demo_fs mkdir_request) n (empty_folder ROOT_INODE_NO n)).
Proof.
  unfold volume_result, volume_answer, tree_call. change (parent_inode mkdir_request) with ROOT_INODE_NO.
  rewrite -> demo_look, (proj2 demo_counts). reflexivity.
Qed.
Lemma volume_refines_tree_witness :
  wp (run_volume (Operation CallWrite) mkdir_request) (fun ans s' => ans = (0, None) /\ exists n t',
    t' = add_node root_tree ROOT_INODE_NO (request_nm demo_fs mkdir_request) n (empty_folder ROOT_INODE_NO n) /\ volume s' t') demo_fs.
Proof.
  eapply wp_mono; [apply (volume_refines_tree demo_fs (Operation CallWrite) mkdir_request root_tree demo_volume demo_mkdir_allowed)|].
  intros ans s' (n & size & t' & E & Hv & _). rewrite -> demo_answer in E. injection E as <- <-. split; [exact eq_refl|].
  eexists n, _. split; [exact eq_refl|exact Hv].
Defined.

(** the same volume with one empty directory *)
Lemma one_folder_volume : exists s n, reachable s /\ mem_eq (fs_mem s) demo_mem /\ n <> ROOT_INODE_NO /\ exists t,
  volume s t /\ t !! n = Some (empty_folder ROOT_INODE_NO n).
Proof.
  destruct (wp_elim _ _ _ (call_refines demo_fs (Operation CallWrite) mkdir_request root_tree demo_volume demo_mkdir_allowed))
    as (ans & s' & Er & n & size & t' & E & Hv & Hn & Em).
  rewrite -> demo_answer in E. injection E as _ <-. unfold memory_result, tree_mem in Em.
  change (parent_inode mkdir_request) with ROOT_INODE_NO in Em, Hn.
  destruct (Hn eq_refl demo_look) as [_ Hr]; [by rewrite -> (proj2 demo_counts)|]. exists s', n.
  split; [|split; [by rewrite -> (proj2 demo_formatted) in Em|split; [change ROOT_INODE_NO with 2; geometry; lia|]]].
  - eapply reach_call; [|exact demo_mkdir_allowed|exact Er]. exact (reach_format blank_fs _ blank_dev_ok demo_created).
  - eexists. split; [exact Hv|]. by rw /add_node lookup_insert_eq.
Qed.
(** its root directory can be listed into the first 100 bytes of memory *)
Lemma root_listable s : reachable (D := Image) s -> allowed s ReadDirectory (mkRequest 0 0 0 ROOT_INODE_NO 100 true).
Proof.
  intros Hr. destruct (reachable_volume s Hr) as [t Hv]. destruct (to_root _ (vo_tree _ _ Hv)) as (m & Hm & _).
  split; [by eapply folder_in_use|]. cbn. lia.
Qed.
Lemma reachable_volumes_are_trees_witness : exists s, reachable (D := Image) s /\
  (exists t, volume s t /\ forall t', volume s t' -> t' = t) /\
  exists ans s', run_volume ReadDirectory (mkRequest 0 0 0 ROOT_INODE_NO 100 true) s = Ok (ans, s') /\ reachable s'.
Proof.
  destruct one_folder_volume as (s & n & Hr & _). exists s. split; [exact Hr|].
  destruct (reachable_volumes_are_trees s Hr) as (Ht & Hcall & _). split; [exact Ht|].
  exact (Hcall ReadDirectory _ (root_listable s Hr)).
Defined.
Lemma delete_dot_breaks_witness : exists s n, reachable (D := Image) s /\
  wp (delete (mkRequest 0 16 1 n 0 true)) (fun code s' => code = 0 /\ forall t', ~ volume s' t') s.
Proof.
  destruct one_folder_volume as (s & n & Hr & Em & Hn & t & Hv & Ht). exists s, n. split; [exact Hr|].
  eapply wp_mono; [apply (delete_dot_breaks s (mkRequest 0 16 1 n 0 true) t
    (<[dot := (n, EXT2_FT_DIR)]> {[dotdot := (ROOT_INODE_NO, EXT2_FT_DIR)]}) Hv eq_refl)|].
  - discriminate.
  - discriminate.
  - unfold request_nm. rewrite -> (mem_load_eq _ _ _ _ Em). reflexivity.
  - exact Hn.
  - exact Ht.
  - exact (empty_folder_childless ROOT_INODE_NO n _ eq_refl).
  - intros code s' (E & _ & _ & Hno). exact (conj E Hno).
Defined.
