(* ===== verification/InserterSpec.v ===== *)
(** * The inserter puts a host file on a volume

    From the command line to the storage file: [main] mounts or formats the image, writes
    the file, replaces an older one of the same name, reads it back and stores the image.
    What it leaves is again a volume, of which the directory shows the new content. *)

From S2P Require Import Prelude Bitmap StdString BlockDevice Ext2Layout Ext2Dir Ext2State Ext2 Ext2Inv Ext2Format Ext2Files Ext2Data Ext2Write Ext2Crud Inserter Ext2Theorems Ext2View.

#[local] Arguments IMAGE_SIZE : simpl never.
Lemma image_size : IMAGE_SIZE = 4194304. Proof. done. Qed.
#[local] Opaque IMAGE_SIZE.

(** ** Strings in memory *)
Section Strings.
Context {PW : PtrWidth}.
(** [str] and its end at [a] *)
Record holds (m : mem) (a : Z) (str : list Z) : Prop := {
  holds_place : 0 <= a /\ a + len str < ptr_size;
  holds_char (i : nat) c : str !! i = Some c -> c <> 0 /\ m (a + Z.of_nat i) = c;
  holds_end : m (a + len str) = 0;
}.
Lemma holds_intro m a str : 0 <= a /\ a + len str < ptr_size -> Forall (fun c => c <> 0) str ->
  mem_load m a (S (length str)) = str ++ [0] -> holds m a str.
Proof.
  intros Ha Hz E.
  have Hl (i : nat) x : (str ++ [0]) !! i = Some x -> (i <= length str)%nat -> m (a + Z.of_nat i) = x.
  { intros Ex Hi. rewrite <- E, mem_load_lookup, ptr_id in Ex by lia. by injection Ex. }
  split; [done| |apply Hl; [by rewrite -> lookup_app_r, Nat.sub_diag by lia|done]].
  intros i c Ec. have Hi := lookup_lt_Some _ _ _ Ec. split; [exact (Forall_lookup_1 _ _ _ _ Hz Ec)|].
  apply Hl; [by apply lookup_app_l_Some|lia].
Qed.
Lemma holds_frame m m' a str : holds m a str -> (forall x, a <= x <= a + len str -> m' x = m x) -> holds m' a str.
Proof.
  intros [Ha Hc He] Hm. split; [done| |by rw Hm; [lia|]]. intros i c E. have Hi := lookup_lt_Some _ _ _ E.
  rewrite -> Hm by lia. by apply Hc.
Qed.
Lemma holds_tail m a c str : holds m a (c :: str) -> c <> 0 /\ m (ptr a) = c /\ holds m (a + 1) str.
Proof.
  intros [[Ha Hw] Hc He]. cbn [length] in Hw, He. destruct (Hc 0%nat c eq_refl) as [Hc0 Em]. rewrite -> Z.add_0_r in Em.
  split; [done|]. rewrite -> ptr_id by lia. split; [done|]. split; [lia| |by have -> : a + 1 + len str = a + Z.of_nat (S (length str)) by lia].
  intros i x E. have -> : a + 1 + Z.of_nat i = a + Z.of_nat (S i) by lia. by apply Hc.
Qed.
Lemma holds_nil m a : holds m a [] -> m (ptr a) = 0.
Proof. intros [[Ha Hw] _ He]. cbn [length] in Hw, He. rewrite -> Z.add_0_r in He. by rewrite -> ptr_id by lia. Qed.
Lemma c_string_spec str : forall k m a, holds m a str -> (length str < k)%nat -> c_string k m a = Ok str.
Proof.
  induction str as [|c str IH] => k m a Hs Hk; (destruct k as [|k]; [lia|]); cbn [c_string].
  { by rw (holds_nil _ _ Hs). }
  destruct (holds_tail _ _ _ _ Hs) as (Hc & -> & Ht). rewrite -> (proj2 (Z.eqb_neq c 0)) by done.
  cbn [length] in Hk. rewrite -> (IH k m (a + 1)) by (done || lia). done.
Qed.
Lemma filename_length_spec str : forall k m a l, holds m (a + l) str -> (length str <= k)%nat ->
  (length str < k)%nat \/ (l = 255 - len str /\ k = length str) -> filename_length k m a l = l + len str.
Proof.
  induction str as [|c str IH] => k m a l Hs Hk Hend.
  { destruct k as [|k]; cbn [filename_length length]; [lia|]. rw (holds_nil _ _ Hs). cbn. lia. }
  destruct k as [|k]; cbn [length] in Hk, Hend; [lia|]. cbn [filename_length]. destruct (holds_tail _ _ _ _ Hs) as (Hc & -> & Ht).
  rewrite -> (proj2 (Z.eqb_neq c 0)) by done. rewrite -> (IH k m a (l + 1)); [cbn [length]; lia| |lia|lia].
  by have -> : a + (l + 1) = a + l + 1 by lia.
Qed.
Lemma get_filename_length_spec m a str : holds m a str -> (length str <= 255)%nat -> get_filename_length m a = len str.
Proof.
  intros Hs Hl. rw /get_filename_length. rewrite -> (filename_length_spec str); [lia|by rw Z.add_0_r|done|].
  destruct (decide (length str = 255%nat)); lia.
Qed.
Lemma holds_load m a str : holds m a str -> mem_load m a (length str) = str.
Proof.
  intros [[Ha Hw] Hc _]. apply list_eq => i. destruct (decide (i < length str)%nat) as [Hi|Hi].
  - rewrite -> mem_load_lookup, ptr_id by lia. destruct (lookup_lt_is_Some_2 str i Hi) as [c E].
    by rw E (proj2 (Hc i c E)).
  - by rewrite -> !lookup_ge_None_2 by (rw ?mem_load_length; lia).
Qed.

End Strings.

(** ** Steps of the process *)
Section Steps.
Context {PW : PtrWidth} `{StackJunkLaws} `{Overrun Image}.
Implicit Types p : Process.

Lemma wp_volume {A} (m : M (FS Image) A) Q p :
  wp m (fun a v => Q a (set_volume v p)) (volume p) -> wp (on_volume m) Q p.
Proof. rw /wp /on_volume. by destruct (m (volume p)) as [[a v]| |]. Qed.
(** the process with another volume and more lines printed *)
Definition after (msgs : list Message) (v : FS Image) p : Process :=
  mkProcess (files p) (unreadable p) (unwritable p) (printed p ++ msgs) v.
Lemma after_nil p : after [] (volume p) p = p.
Proof. destruct p. by rw /after /= app_nil_r. Qed.
Lemma wp_message msg msgs v Q p : Q tt (after (msgs ++ [msg]) v p) -> wp (say msg) Q (after msgs v p).
Proof. rw /wp /say /modify /after /=. by rw app_assoc. Qed.
Lemma wp_after {A} (m : M (FS Image) A) msgs v Q p :
  wp m (fun a v' => Q a (after msgs v' p)) v -> wp (on_volume m) Q (after msgs v p).
Proof. intros W. by apply wp_volume. Qed.
Lemma wp_argument a str Q p : holds (fs_mem (volume p)) a str -> len str < 131072 -> Q str p -> wp (argument a) Q p.
Proof.
  intros Hs Hl HQ. apply wp_bind, wp_gets. eapply wp_lift; [|done]. apply c_string_spec; [done|]. rw /MAX_ARG_STRLEN. lia.
Qed.
Lemma wp_arr {A} (l : list A) (i : nat) x (Q : A -> Process -> Prop) p : l !! i = Some x -> Q x p -> wp (lift (arr_get l (Z.of_nat i))) Q p.
Proof. intros E HQ. eapply wp_lift; [|done]. apply arr_get_ok; [lia|]. by rw Nat2Z.id. Qed.

(** ** The comparison *)
Lemma verify_true n i m rb fb :
  (forall j, i <= j < i + Z.of_nat n -> m (ptr (rb + j)) = m (ptr (fb + j))) -> verify n i m rb fb = true.
Proof.
  revert i. induction n as [|n IH] => i Hj; cbn [verify]; [done|].
  rewrite -> Hj, Z.eqb_refl by lia. cbn [negb]. apply IH. intros. apply Hj. lia.
Qed.
(** memory outside the region that [memset] clears *)
Lemma memset_other m a n x : 0 <= a -> a + Z.of_nat n <= ptr_size -> ~ (a <= x < a + Z.of_nat n) ->
  memset a 0 n m x = m x.
Proof.
  intros Ha Hn Hx. rw /memset. rewrite -> memset_loop_spec by lia.
  by rewrite -> bool_decide_false by lia.
Qed.
(** two regions, the second of 4 MiB *)
Definition beside (a n rb : Z) : Prop := a + n <= rb \/ rb + IMAGE_SIZE <= a.
Lemma read_back_spec msgs v p parent vm nm c dest fb rb : dir_view v parent vm -> vm nm = File c ->
  holds (fs_mem v) dest nm -> mem_load (fs_mem v) fb (length c) = c ->
  0 <= fb -> fb + len c <= ptr_size -> 0 <= rb -> rb + IMAGE_SIZE <= ptr_size -> len c <= IMAGE_SIZE ->
  beside fb (len c) rb -> beside dest (len nm + 1) rb ->
  wp (read_back (mkRequest fb dest (len nm) parent (len c) false) rb fb (len c))
    (fun _ p' => exists v', p' = after (msgs ++ [Verification true]) v' p /\ dir_view v' parent vm) (after msgs v p).
Proof.
  rw /beside image_size. intros Hv Hm Hn Hc Hfb Hfw Hrb Hrw Hl Hd1 Hd2. rw /read_back. apply wp_bind, wp_after, wp_modify.
  rw image_size. have [cleared Hcl] : exists k, k = Z.to_nat 4194304 by eexists.
  have Hcz : Z.of_nat cleared = 4194304 by rw Hcl; apply Z2Nat.id. rw -Hcl. clear Hcl.
  set (v1 := set_mem _ v). have Ev1 : fs_mem v1 = memset rb 0 cleared (fs_mem v) by done.
  have M1 : mem_only v v1 by constructor; [exact (inv_dev _ (inv_core _ (view_inv _ _ _ Hv)))|done..].
  have Hn1 : holds (fs_mem v1) dest nm.
  { eapply holds_frame; [exact Hn|]. intros x Hx. rw Ev1. apply memset_other; lia. }
  apply wp_bind, wp_after. cbn [name name_len parent_inode buffer_size is_directory].
  eapply wp_mono; [apply (read_file_view v1 _ parent vm c)|].
  - by eapply mem_only_view.
  - done.
  - rw /request_nm. cbn [name name_len]. by rw Nat2Z.id (holds_load _ _ _ Hn1).
  - done.
  - cbn. lia.
  - cbn. lia.
  - intros code v2 (-> & M2 & E2). cbn [Z.eqb buf buffer_size] in E2 |- *. rewrite -> Nat2Z.id, take_ge in E2 by lia.
    apply wp_bind, wp_gets. cbn [after volume]. rewrite -> verify_true.
    { apply wp_message. exists v2. split; [done|]. eapply mem_only_view; [|exact Hv]. by eapply mem_only_trans. }
    intros j Hj. rewrite -> Nat2Z.id in Hj. destruct (lookup_lt_is_Some_2 c (Z.to_nat j)) as [x Ex]; [lia|].
    rewrite -> !ptr_id by lia. rewrite -> (E2 (rb + j)), (E2 (fb + j)) by lia. rewrite -> !mem_store_lookup by lia.
    rewrite -> bool_decide_true, bool_decide_false by lia. rw Ev1. rewrite -> memset_other by lia.
    have Ey : mem_load (fs_mem v) fb (length c) !! Z.to_nat j = Some x by rw Hc.
    rewrite -> mem_load_lookup in Ey by lia. injection Ey as Ey. rewrite -> ptr_id in Ey by lia.
    have -> : fb + j = fb + Z.of_nat (Z.to_nat j) by lia. rw Ey. apply nth_lookup_Some. rw -Ex. f_equal. lia.
Qed.

(** ** Writing the file *)
Definition inserted_says (old : slot) : list Message :=
  (match old with File _ => [Replacing] | _ => [] end) ++ [WriteSuccess; Verification true].
(** the buffers and the name: in memory, and apart *)
Record buffers_ok (dest : Z) (nm c : list Z) (fb rb : Z) : Prop := {
  ok_name : nm <> [] /\ (length nm <= 255)%nat /\ 0 < dest;
  ok_size : len c <= max_file_size;
  ok_file : 0 <= fb /\ fb + len c <= ptr_size;
  ok_read : 0 <= rb /\ rb + IMAGE_SIZE <= ptr_size;
  ok_apart : beside fb (len c) rb /\ beside dest (len nm + 1) rb;
  ok_kept : dest + len nm < fb \/ fb + len c <= dest;
}.
Lemma insert_spec msgs p vm dest parent nm c fb rb v : buffers_ok dest nm c fb rb -> vm nm <> Other ->
  holds (fs_mem v) dest nm -> mem_load (fs_mem v) fb (length c) = c -> mem_ok (fs_mem v) ->
  wp initialize_filesystem_ext2 (fun _ f => dir_view f parent vm /\ fs_mem f = fs_mem v /\ dir_room f parent nm (len c)) v ->
  wp (insert dest parent fb (len c) rb) (fun _ p' => exists v', p' = after (msgs ++ inserted_says (vm nm)) v' p /\
    dir_view v' parent (put_slot nm (File c) vm)) (after msgs v p).
Proof.
  intros [(Hne & Hl255 & Hd0) Hsz [Hf1 Hf2] [Hr1 Hr2] [Ha1 Ha2] _] Hvm Hn Hc Hmem Hmount.
  have HM : max_file_size = 71680 by done. rw HM in Hsz. rw /insert.
  apply wp_bind, wp_after. eapply wp_mono; [exact Hmount|]. intros [] v1 (Hv1 & Em1 & Hroom).
  apply wp_bind, wp_gets. cbn [after volume]. rw Em1. rewrite -> (get_filename_length_spec _ _ nm Hn Hl255), u32_id by lia. cbv zeta.
  set (r := mkRequest fb dest (len nm) parent (len c) false).
  have Hnm (f : FS Image) : fs_mem f = fs_mem v -> request_nm f r = nm /\ request_data f r = c.
  { intros E. rw /request_nm /request_data E. cbn [name name_len buf buffer_size r]. by rw !Nat2Z.id (holds_load _ _ _ Hn) Hc. }
  have Hfr (f : FS Image) : fs_mem f = fs_mem v -> file_request f r by intros E; split; [done|]; cbn; rw E; do 5 (split; [lia|]).
  have Hback msgs' f : dir_view f parent (put_slot nm (File c) vm) -> fs_mem f = fs_mem v ->
    wp (say WriteSuccess;; read_back r rb fb (len c)) (fun _ p' => exists v', p' = after (msgs' ++ [WriteSuccess; Verification true]) v' p /\
      dir_view v' parent (put_slot nm (File c) vm)) (after msgs' f p).
  { intros Hv E. apply wp_bind, wp_message. eapply wp_mono; [apply (read_back_spec (msgs' ++ [WriteSuccess]) f p parent (put_slot nm (File c) vm) nm)|].
    - done. - by rw /put_slot bool_decide_true. - by rw E. - by rw E. - done. - done. - done. - done. - rw image_size. lia. - done. - done.
    - intros a p' (v' & -> & Hv'). exists v'. split; [|done]. by rewrite <- app_assoc. }
  destruct (Hnm v1 Em1) as [En1 Ed1]. apply wp_bind, wp_after. destruct (vm nm) as [|old|] eqn:Eold; [| |done].
  - eapply wp_mono; [apply (write_new_view v1 r parent vm); [done|done|by apply Hfr|by rw En1|by rw En1|cbn; rw HM; lia]|].
    rw En1 Ed1. intros code v2 (-> & Em2 & Hv2). cbn [Z.eqb]. apply wp_bind, wp_ret. cbn [Z.eqb]. apply Hback; [done|congruence].
  - eapply wp_mono; [apply (write_exists_view v1 r parent vm); [done|done|by rw En1 Eold]|]. intros code v2 (-> & Hf).
    have M2 := feq_mem_only _ _ Hf. have Em2 : fs_mem v2 = fs_mem v by destruct Hf as [[_ _ -> _] _].
    destruct (Hnm v2 Em2) as [En2 _]. cbn [Z.eqb Pos.eqb]. apply wp_bind, wp_bind, wp_message, wp_bind, wp_after.
    eapply wp_mono; [apply (delete_file_view v2 r parent vm old); [by eapply mem_only_view|done|done|cbn; lia|cbn; destruct nm; [done|cbn; lia]|by rw En2]|].
    rw En2. intros code v3 (-> & Em3 & Hv3 & Hroom3). have Em3' : fs_mem v3 = fs_mem v by congruence.
    destruct (Hnm v3 Em3') as [En3 Ed3]. apply wp_after.
    eapply wp_mono; [apply (write_new_view v3 r parent (put_slot nm Absent vm)); [done|done|by apply Hfr| | |cbn; rw HM; lia]|].
    + by rw En3 /put_slot bool_decide_true.
    + rw En3. by eapply Hroom3, mem_only_room.
    + rw En3 Ed3. intros code' v4 (-> & Em4 & Hv4). cbn [Z.eqb].
      eapply wp_mono; [apply (Hback (msgs ++ [Replacing]) v4); [|congruence]|].
      * eapply view_ext; [|exact Hv4]. intros x. rw /put_slot. by case_bool_decide.
      * intros a p' (v' & -> & Hv'). exists v'. split; [|done]. rw /inserted_says. by rewrite <- app_assoc.
Qed.

(** ** The storage file *)
Lemma load_image_ok image d : bytes_ok image -> (forall a, 0 <= image_storage d a < 256) ->
  forall a, 0 <= image_storage (load_image image d) a < 256.
Proof.
  intros Hi Hd a. cbn [load_image image_storage]. destruct (_ && _); [|apply Hd].
  destruct (nth_in_or_default (Z.to_nat a) image 0) as [Hin| ->]; [|lia].
  by apply (proj1 (Forall_forall _ _) Hi), list_elem_of_In.
Qed.
Lemma image_bytes_length d : len (image_bytes d) = IMAGE_SIZE.
Proof. rw /image_bytes length_map length_seqZ image_size. by apply Z2Nat.id. Qed.
Lemma image_bytes_ok d : (forall a, 0 <= image_storage d a < 256) -> bytes_ok (image_bytes d).
Proof. intros Hd. apply Forall_map, Forall_true. intros a. apply Hd. Qed.
Lemma load_image_bytes d d0 a : 0 <= a < IMAGE_SIZE -> image_storage (load_image (image_bytes d) d0) a = image_storage d a.
Proof.
  intros Ha. cbn [load_image image_storage]. rewrite -> image_bytes_length, Z.min_id, (proj2 (Z.leb_le 0 a)), (proj2 (Z.ltb_lt a _)) by lia.
  cbn [andb]. apply nth_lookup_Some. rw /image_bytes. rewrite -> list_lookup_fmap, lookup_seqZ_lt by lia.
  cbn [fmap option_fmap option_map]. do 2 f_equal. lia.
Qed.
(** an image loaded from a stored one has its blocks *)
Lemma reloaded (s t : FS Image) d : fs_dev s = load_image (image_bytes (fs_dev t)) d -> forall l, blk s l = blk t l.
Proof.
  intros E l. rw /blk E. destruct (Z.leb_spec 0 l); [|done]. destruct (Z.ltb_spec l 8192); [|done]. cbn [andb dev_block image_device].
  apply map_ext_in. intros a Ha%list_elem_of_In%elem_of_seqZ. apply load_image_bytes. rw image_size. rw /BLOCK_SIZE in Ha. lia.
Qed.
(** the first sector of an image that covers it *)
Lemma boot_sector (s : FS Image) image d : fs_dev s = load_image image d -> IMAGE_SIZE <= len image -> blk s BOOT_SECTOR = take 512 image.
Proof.
  intros E Hl. rw image_size in Hl. rewrite -> blk_in by (geometry; lia). cbn [dev_block image_device]. rw E.
  apply list_eq => i. destruct (decide (i < 512)%nat) as [Hi|Hi].
  - rewrite -> list_lookup_fmap, lookup_seqZ_lt by (rw /BLOCK_SIZE; lia). cbn [fmap option_fmap option_map load_image image_storage].
    rw image_size. rewrite -> (proj2 (Z.leb_le _ _)), (proj2 (Z.ltb_lt _ _)) by (rw /BLOCK_SIZE; geometry; lia). cbn [andb].
    rewrite -> lookup_take_lt by done. destruct (lookup_lt_is_Some_2 image i) as [x Ex]; [lia|]. rw Ex. f_equal. apply nth_lookup_Some.
    rw -Ex. f_equal. rw /BLOCK_SIZE. geometry. lia.
  - rewrite -> !lookup_ge_None_2; [done|rw length_take; lia|]. rw length_map length_seqZ /BLOCK_SIZE. lia.
Qed.
(** a stored volume whose directory [parent] shows [vm] and takes one more file, or a file of
    4 MiB that does not begin with the signature *)
Inductive storage_holds (image : list Z) (parent : Z) (nm : list Z) (n : Z) (vm : list Z -> slot) : Prop :=
| Stored (t : FS Image) : image = image_bytes (fs_dev t) -> dir_view t parent vm ->
    dir_room t parent nm n -> storage_holds image parent nm n vm
| Unformatted : len image = IMAGE_SIZE -> bytes_ok image -> take 512 image <> fs_signature -> parent = ROOT_INODE_NO ->
    vm = root_slots -> storage_holds image parent nm n vm.
(** mounting a formatted storage loads it with the two calls that overrun their structures *)
Definition loads_harmless (image : list Z) : Prop := take 512 image = fs_signature -> overrun_harmless (D:=Image).
Lemma storage_mount image parent nm n vm (v : FS Image) d : storage_holds image parent nm n vm -> loads_harmless image -> len nm < 256 -> 0 <= n ->
  (forall a, 0 <= image_storage d a < 256) -> fs_dev v = load_image image d ->
  wp initialize_filesystem_ext2 (fun _ f => dir_view f parent vm /\ fs_mem f = fs_mem v /\ dir_room f parent nm n) v.
Proof.
  intros [t -> Hv Hroom|Hl Hb Hne -> ->] Ho Hnm Hn Hd E.
  - eapply wp_mono; [apply (mount_view v t parent vm); try done; [| |by eapply reloaded]|].
    2: { apply Ho. rewrite <- (boot_sector v _ d E) by (rw image_bytes_length; lia). rw (reloaded v t d E).
         exact (inv_boot _ (inv_core _ (view_inv _ _ _ Hv))). }
    + rw E. intros a. apply load_image_ok; [apply image_bytes_ok|done]. exact (inv_dev _ (inv_core _ (view_inv _ _ _ Hv))).
    + intros [] f (Hvf & Em & Hr). split; [done|]. split; [done|]. by apply Hr.
  - eapply wp_mono; [apply (mount_fresh v)|].
    + rw E. intros a. by apply load_image_ok.
    + rewrite -> (boot_sector v image d) by (done || lia). done.
    + intros [] f [Hf Em]. split; [exists [ROOT_DIR_BLOCK_LBA], [root_entries]; by apply formatted_view|]. split; [done|]. by apply formatted_room.
Qed.

(** ** The command line *)
Lemma holds_drop m a str (k : nat) : holds m a str -> (k <= length str)%nat -> holds m (a + Z.of_nat k) (drop k str).
Proof.
  intros [[Ha Hw] Hc He] Hk. have Hl := length_drop str k. split; [lia| |by have -> : a + Z.of_nat k + len (drop k str) = a + len str by lia].
  intros i c E. rewrite -> lookup_drop in E. destruct (Hc _ _ E) as [Hc0 Em]. split; [done|]. rw -Em. f_equal. lia.
Qed.
Lemma strrchr_from_range l : forall i c last, (forall j, last = Some j -> 0 <= j < i) ->
  forall j, strrchr_from i c l last = Some j -> 0 <= i -> 0 <= j < i + len l.
Proof.
  induction l as [|x l IH] => i c last Hl j E Hi; cbn [strrchr_from] in E; [apply Hl in E; cbn; lia|].
  eapply IH in E; [cbn [length]; lia| |lia]. intros j' Ej. destruct (x =? c); [injection Ej as <-; lia|apply Hl in Ej; lia].
Qed.
(** the part of a path behind its last slash *)
Definition basename (l : list Z) : list Z := match strrchr l 47 with Some i => drop (Z.to_nat (i + 1)) l | None => l end.
(** what the arguments say: the source, the name and where it is, the directory and the storage file *)
Definition text_arg (m : mem) (argv : list Z) (i : nat) (a : Z) (str : list Z) : Prop :=
  argv !! i = Some a /\ holds m a str /\ len str < 131072.
Inductive command_line (m : mem) (argv : list Z) (src : list Z) (dest : Z) (nm : list Z) (parent : Z) (storage : list Z) : Prop :=
| Five a_src a_parent number v a_storage : (5 <= length argv)%nat -> text_arg m argv 1 a_src src -> text_arg m argv 2 dest nm ->
    text_arg m argv 3 a_parent number -> scan_unsigned number = Ok v -> parent = default 2 v ->
    text_arg m argv 4 a_storage storage -> command_line m argv src dest nm parent storage
| Four a_src a_parent number v v' a_storage : length argv = 4%nat -> text_arg m argv 1 a_src src ->
    text_arg m argv 2 a_parent number -> scan_unsigned number = Ok v -> parent = default 2 v ->
    text_arg m argv 3 a_storage storage -> scan_unsigned storage = Ok v' ->
    nm = basename src -> dest = a_src + (len src - len nm) -> command_line m argv src dest nm parent storage.
Lemma basename_holds m a src : holds m a src -> holds m (a + (len src - len (basename src))) (basename src).
Proof.
  intros Hs. rw /basename. destruct (strrchr src 47) as [i|] eqn:E; [|by rw Z.sub_diag Z.add_0_r].
  apply (strrchr_from_range src 0 47 None) in E; [|done|lia]. rw length_drop.
  have -> : a + (len src - Z.of_nat (length src - Z.to_nat (i + 1))) = a + Z.of_nat (Z.to_nat (i + 1)) by lia.
  apply holds_drop; [done|lia].
Qed.
Lemma command_line_name m argv src dest nm parent storage : command_line m argv src dest nm parent storage -> holds m dest nm.
Proof. intros [??????? (_ & H3 & _)|??????? (_ & H3 & _) ????? -> ->]; [done|by apply basename_holds]. Qed.
Lemma wp_text m argv (i : nat) a str Q p : fs_mem (volume p) = m -> text_arg m argv i a str -> Q str p -> wp (argument a) Q p.
Proof. intros <- (_ & Hs & Hl) HQ. by eapply wp_argument. Qed.
Lemma wp_scan l v n Q p : scan_unsigned l = Ok v -> Q (default n v) p -> wp (sscanf_u l n) Q p.
Proof. intros E HQ. apply wp_bind. eapply wp_lift; [exact E|]. by destruct v. Qed.
Lemma arguments_spec argv src dest nm parent storage Q p : command_line (fs_mem (volume p)) argv src dest nm parent storage ->
  (forall a_storage, holds (fs_mem (volume p)) a_storage storage -> len storage < 131072 -> Q (a_storage, parent, dest) p) ->
  wp (arguments argv src) Q p.
Proof.
  intros [a_src a_parent number v a_storage Hc Ts Tn Tp Ev -> Tt|a_src a_parent number v v' a_storage Hc Ts Tp Ev -> Tt Ev' -> ->] HQ;
    rw /arguments.
  - apply wp_bind, (wp_arr argv 2 dest); [apply Tn|]. apply wp_bind, (wp_arr argv 3 a_parent); [apply Tp|].
    apply wp_bind. eapply wp_text; [reflexivity|exact Tp|]. apply wp_bind. eapply wp_scan; [exact Ev|].
    rewrite -> (proj2 (Z.leb_le 5 _)) by lia. apply wp_bind, (wp_arr argv 4 a_storage); [apply Tt|]. apply wp_ret, HQ; apply Tt.
  - apply wp_bind, (wp_arr argv 2 a_parent); [apply Tp|]. apply wp_bind, (wp_arr argv 3 a_storage); [apply Tt|].
    apply wp_bind. eapply wp_text; [reflexivity|exact Tt|]. apply wp_bind. eapply wp_scan; [exact Ev'|].
    rewrite -> (proj2 (Z.leb_gt 5 _)) by lia. apply wp_bind. eapply wp_text; [reflexivity|exact Tp|].
    apply wp_bind. eapply wp_scan; [exact Ev|]. apply wp_bind, (wp_arr argv 1 a_src); [apply Ts|]. apply wp_ret.
    have := HQ a_storage ltac:(apply Tt) ltac:(apply Tt). rw /basename. destruct (strrchr src 47) as [i|] eqn:E.
    + apply (strrchr_from_range src 0 47 None) in E; [|done|lia]. rw length_drop.
      by have -> : a_src + (len src - Z.of_nat (length src - Z.to_nat (i + 1))) = a_src + i + 1 by lia.
    + by rw Z.sub_diag Z.add_0_r.
Qed.
Lemma command_line_src m argv src dest nm parent storage : command_line m argv src dest nm parent storage ->
  (4 <= length argv)%nat /\ exists a, text_arg m argv 1 a src.
Proof. intros [a ???? Hc T|a ????? Hc T]; (split; [lia|by exists a]). Qed.

(** ** The whole run *)
(** what the host gives the process: memory, and files that can be opened *)
Record host_ok p (src storage image c : list Z) : Prop := {
  host_memory : mem_ok (fs_mem (volume p)) /\ forall a, 0 <= image_storage (fs_dev (volume p)) a < 256;
  host_allowed : storage ∉ unreadable p /\ storage ∉ unwritable p /\ src ∉ unreadable p;
  host_storage : files p !! storage = Some image;
  host_source : files p !! src = Some c /\ bytes_ok c;
}.
Lemma wp_fopen_read path Q p : path ∉ unreadable p -> Q (files p !! path) p -> wp (fopen_read path) Q p.
Proof. intros Hp HQ. apply wp_gets. by rewrite -> bool_decide_false by done. Qed.
(** opening the storage file again and writing the image *)
Lemma store_spec msgs v p storage Q : storage ∉ unwritable p ->
  Q 0 (mkProcess (<[storage := image_bytes (fs_dev v)]> (files p)) (unreadable p) (unwritable p) (printed p ++ msgs) v) ->
  wp (ok ← fopen_write storage; if negb ok then say CannotWriteStorage;; mret 1 else fwrite_image storage;; mret 0) Q (after msgs v p).
Proof.
  intros Hw HQ. apply wp_bind, wp_bind, wp_gets. cbn [after unwritable]. rewrite -> bool_decide_false by done.
  apply wp_bind, wp_modify, wp_ret. cbn [negb]. apply wp_bind, wp_modify, wp_ret. rw /set_files. cbn [files unreadable unwritable printed volume].
  by rw lookup_insert_eq insert_insert_eq.
Qed.
Lemma main_spec p argv src dest nm parent storage image c vm ip fb rb : command_line (fs_mem (volume p)) argv src dest nm parent storage ->
  host_ok p src storage image c -> storage_holds image parent nm (len c) vm -> loads_harmless image -> vm nm <> Other -> buffers_ok dest nm c fb rb ->
  ip <> 0 -> fb <> 0 -> rb <> 0 ->
  wp (main argv ip fb rb) (fun status p' => status = 0 /\ exists v, dir_view v parent (put_slot nm (File c) vm) /\
    p' = mkProcess (<[storage := image_bytes (fs_dev v)]> (files p)) (unreadable p) (unwritable p)
           (printed p ++ (Report src nm parent (len c) :: inserted_says (vm nm))) v) p.
Proof.
  intros Hcl [(Hm & Hd) (Hu1 & Hw & Hu2) Hst (Hsrc & Hcb)] Hsh Hov Hvm Hb Hip Hfb Hrb.
  destruct (ok_name _ _ _ _ _ Hb) as (Hdne & Hdl & Hd0). have Hsz := ok_size _ _ _ _ _ Hb. have HM : max_file_size = 71680 by done. rw HM in Hsz.
  have [Hf1 Hf2] := ok_file _ _ _ _ _ Hb. have Hkept := ok_kept _ _ _ _ _ Hb.
  have Hnm := command_line_name _ _ _ _ _ _ _ Hcl. destruct (command_line_src _ _ _ _ _ _ _ Hcl) as (Hargc & a_src & Ta).
  rw /main. rewrite -> (proj2 (Z.ltb_ge _ 4)) by lia. apply wp_bind, (wp_arr argv 1 a_src); [apply Ta|].
  apply wp_bind. eapply wp_text; [reflexivity|exact Ta|]. apply wp_bind, (arguments_spec argv src dest nm parent storage); [done|].
  intros a_st Hs1 Hs2. apply wp_bind, (wp_argument a_st storage); [done|done|]. apply wp_bind, (wp_argument dest nm); [done|lia|].
  rewrite -> (proj2 (Z.eqb_neq ip 0)), (proj2 (Z.eqb_neq fb 0)), (proj2 (Z.eqb_neq rb 0)) by done. cbn [orb].
  apply wp_bind, wp_fopen_read; [done|]. rw Hst. apply wp_bind, wp_volume, wp_modify.
  apply wp_bind, wp_fopen_read; [done|]. cbn [set_volume files]. rw Hsrc. apply wp_bind. rw /fread_file.
  rewrite -> (proj2 (Z.ltb_ge _ _)) by (rw image_size; lia). apply wp_volume, wp_modify. cbn [set_volume volume files].
  set (v := set_mem _ _). set (q := set_volume v _).
  have Eq : q = after [] v p by rw /q /after /set_volume /= app_nil_r. clearbody q. subst q.
  have Hnv : holds (fs_mem v) dest nm.
  { eapply holds_frame; [exact Hnm|]. intros x Hx. cbn [fs_mem v set_mem]. destruct (Hnm) as [[? ?] _ _].
    rewrite -> mem_store_lookup, bool_decide_false by lia. done. }
  apply wp_bind, (wp_message _ []). cbn [app]. apply wp_bind. eapply wp_mono; [apply (insert_spec _ _ vm dest parent nm c fb rb v Hb Hvm Hnv)|].
  - apply mem_load_store; [split; lia|done].
  - intros a Ha. by apply mem_store_ok.
  - eapply storage_mount; [exact Hsh|exact Hov|lia|lia|exact Hd|done].
  - intros [] p' (v' & -> & Hv'). apply (store_spec _ v' p storage); [done|]. split; [done|]. by exists v'.
Qed.
End Steps.

Section Theorems.
Context {PW : PtrWidth} `{StackJunkLaws} `{Overrun Image}.

(** C34: the inserter puts the file on the volume, on a host with pointers of 32 bits or
    more.  With a command line of three or four arguments, files that can be opened, a host
    file of at most 71680 bytes and a storage file that holds a volume with room for it, or
    no volume at all, [main] ends with status 0 and prints the report, that an older file of
    the name is replaced when there is one, and that the verification succeeded.  The storage
    file then holds the image of a volume whose directory shows the content under the name
    and everything else as before; no other file of the host changed.  Provided, for a
    storage file that is formatted, that the two loads of [initialize_filesystem_ext2] that
    overrun their structures hit nothing the inserter uses. *)
Theorem inserter_verifies p argv src dest nm parent storage image c vm ip fb rb :
  command_line (fs_mem (volume p)) argv src dest nm parent storage -> host_ok p src storage image c ->
  storage_holds image parent nm (len c) vm -> loads_harmless image -> vm nm <> Other -> buffers_ok dest nm c fb rb -> ip <> 0 -> fb <> 0 -> rb <> 0 ->
  wp (main argv ip fb rb) (fun status p' => status = 0 /\
    printed p' = printed p ++ (Report src nm parent (len c) :: inserted_says (vm nm)) /\
    exists v, dir_view v parent (put_slot nm (File c) vm) /\ files p' = <[storage := image_bytes (fs_dev v)]> (files p)) p.
Proof.
  intros Hcl Hh Hs Hov Hvm Hb Hip Hfb Hrb. eapply wp_mono; [by apply (main_spec p argv src dest nm parent storage image c vm)|].
  intros status p' (-> & v & Hv & ->). split; [done|]. split; [done|]. by exists v.
Qed.
End Theorems.

(** ** [./inserter shell shell 2 storage.bin] on a blank storage file

    on a host with pointers of 64 bits, the arguments and buffers beyond 4 GiB *)
#[local] Existing Instance host64_ptr.
Definition ARGUMENTS : Z := 0x7F0000000000.
Definition BUFFERS : Z := 0x550000000000.
Definition shell_path : list Z := [115; 104; 101; 108; 108].
Definition storage_path : list Z := [115; 116; 111; 114; 97; 103; 101; 46; 98; 105; 110].
Definition host_text : list Z := shell_path ++ [0] ++ shell_path ++ [0] ++ [50] ++ [0] ++ storage_path ++ [0].
Definition host_mem : mem := fun a => if ARGUMENTS <=? a then nth (Z.to_nat (a - ARGUMENTS)) host_text 0 else 0.
Definition host_argv : list Z := map (Z.add ARGUMENTS) [0; 0; 6; 12; 14].
Definition blank_file : list Z := image_bytes blank_image.
Definition shell_file : list Z := replicate (Z.to_nat 1000) 7.
Definition host_process : Process :=
  mkProcess (<[storage_path := blank_file]> (<[shell_path := shell_file]> ∅)) ∅ ∅ []
    (mkFS blank_image new_superblock [] false 0 host_mem).

Lemma host_strings : holds host_mem ARGUMENTS shell_path /\ holds host_mem (ARGUMENTS + 6) shell_path /\ holds host_mem (ARGUMENTS + 12) [50] /\
  holds host_mem (ARGUMENTS + 14) storage_path.
Proof.
  have Hz (str : list Z) : forallb (fun c => negb (c =? 0)) str = true -> Forall (fun c => c <> 0) str.
  { intros Hf. apply Forall_forall. intros c Hc ->. apply list_elem_of_In in Hc. by apply (proj1 (forallb_forall _ _) Hf) in Hc. }
  split; [|split; [|split]]; (apply holds_intro; [rw /ARGUMENTS; cbn; lia|by apply Hz|by vm_compute]).
Qed.
Lemma host_command_line : command_line host_mem host_argv shell_path (ARGUMENTS + 6) shell_path ROOT_INODE_NO storage_path.
Proof.
  destruct host_strings as (H1 & H2 & H3 & H4).
  by apply (Five _ _ _ _ _ _ _ ARGUMENTS (ARGUMENTS + 12) [50] (Some 2) (ARGUMENTS + 14)); [cbn; lia|..|]; split; try (split; [eassumption|cbn; lia]).
Qed.
Lemma host_files : host_ok host_process shell_path storage_path blank_file shell_file.
Proof.
  split.
  - split; [|intros a; cbn; lia]. intros a _. cbn. rw /host_mem. destruct (ARGUMENTS <=? a); [|lia].
    have Hb : bytes_ok host_text by apply (bool_decide_unpack (Forall _ _)); vm_compute.
    destruct (nth_in_or_default (Z.to_nat (a - ARGUMENTS)) host_text 0) as [Hin| ->]; [|lia].
    by apply (proj1 (Forall_forall _ _) Hb), list_elem_of_In.
  - repeat split; apply not_elem_of_empty.
  - by rw lookup_insert_eq.
  - cbn [files host_process]. rewrite -> lookup_insert_ne, lookup_insert_eq by discriminate. split; [done|]. apply Forall_replicate. lia.
Qed.
Lemma blank_boot : take 512 blank_file <> fs_signature.
Proof.
  set (s := mkFS blank_image new_superblock [] false 0 host_mem).
  have E : take 512 blank_file = blk s BOOT_SECTOR.
  { symmetry. rewrite <- (reloaded (set_image (load_image blank_file blank_image) s) s blank_image) by done.
    apply (boot_sector _ _ blank_image); [done|]. rw /blank_file image_bytes_length. lia. }
  rw E. intros E'. apply (f_equal (hd 0)) in E'. vm_compute in E'. discriminate.
Qed.
Lemma blank_loads `{Overrun Image} : loads_harmless blank_file.
Proof. by intros E%blank_boot. Qed.
Lemma blank_storage nm n : storage_holds blank_file ROOT_INODE_NO nm n root_slots.
Proof.
  apply Unformatted; [apply image_bytes_length|apply image_bytes_ok; intros a; cbn; lia|exact blank_boot|done|done].
Qed.
Lemma host_buffers : buffers_ok (ARGUMENTS + 6) shell_path shell_file BUFFERS (BUFFERS + 0x100000).
Proof.
  have Hl : len shell_file = 1000 by rw length_replicate; apply Z2Nat.id.
  have HM : max_file_size = 71680 by done. split; rw /beside /ARGUMENTS /BUFFERS ?HM ?Hl ?image_size; cbn [length shell_path]; first [lia|split; [lia|]; lia|split; [done|lia]].
Qed.
Lemma inserter_verifies_witness :
  wp (main host_argv 1 BUFFERS (BUFFERS + 0x100000)) (fun status p' => status = 0 /\
    printed p' = [Report shell_path shell_path ROOT_INODE_NO 1000; WriteSuccess; Verification true] /\
    exists v, dir_view v ROOT_INODE_NO (put_slot shell_path (File shell_file) root_slots) /\
      files p' = <[storage_path := image_bytes (fs_dev v)]> (files host_process)) host_process.
Proof.
  apply (inserter_verifies host_process host_argv shell_path (ARGUMENTS + 6) shell_path ROOT_INODE_NO storage_path blank_file shell_file root_slots 1 BUFFERS (BUFFERS + 0x100000)
    host_command_line host_files (blank_storage _ _) blank_loads); try done.
  exact host_buffers.
Defined.
