(* ===== verification/Ata.v ===== *)
(** * The ATA PIO driver ([src/driver/disk.c])

    [read_blocks] and [write_blocks] over port input and output.  The ports are
    inline assembly and the disk behind them is hardware: both are parameters, with
    the behaviour the driver relies on (the PIO protocol of the task file, for
    transfers of one sector) as laws.  The driver then keeps the laws of the
    block-device interface.  The one command it sends to a drive that may be busy, the flush
    behind a written sector, needs an assumption of its own ([IgnoresWhileBusy]). *)

From S2P Require Import Prelude BlockDevice Ext2Layout.

(** [in], [out], [in16], [out16] of [src/header/cpu/portio.h] *)
Class PortIO (D : Type) := {
  port_in : Z -> M D Z;
  port_out : Z -> Z -> M D unit;
  port_in16 : Z -> M D Z;
  port_out16 : Z -> Z -> M D unit;
}.

Definition ATA_STATUS_BSY : Z := 0x80.
Definition ATA_STATUS_RDY : Z := 0x40.
Definition ATA_STATUS_DRQ : Z := 0x08.

Section Driver.
Context {D : Type} `{PortIO D}.

(** [while (in(0x1F7) & ATA_STATUS_BSY);] *)
Fixpoint ATA_busy_wait (fuel : nat) : M D unit :=
  match fuel with
  | O => lift NoFuel
  | S fuel => v ← port_in 0x1F7; if Z.land v ATA_STATUS_BSY =? 0 then mret tt else ATA_busy_wait fuel
  end.
(** [while (!(in(0x1F7) & ATA_STATUS_RDY));]: the status tested is RDY *)
Fixpoint ATA_DRQ_wait (fuel : nat) : M D unit :=
  match fuel with
  | O => lift NoFuel
  | S fuel => v ← port_in 0x1F7; if Z.land v ATA_STATUS_RDY =? 0 then ATA_DRQ_wait fuel else mret tt
  end.

(** the register writes that start a transfer *)
Definition ATA_select (logical_block_address block_count command : Z) : M D unit :=
  port_out 0x1F6 (Z.lor 0xE0 (Z.land (Z.shiftr logical_block_address 24) 0xF));;
  port_out 0x1F2 block_count;;
  port_out 0x1F3 (u8 logical_block_address);;
  port_out 0x1F4 (u8 (Z.shiftr logical_block_address 8));;
  port_out 0x1F5 (u8 (Z.shiftr logical_block_address 16));;
  port_out 0x1F7 command.

(** [for (j = 0; j < HALF_BLOCK_SIZE; j++) target[j] = in16(0x1F0);], as bytes *)
Fixpoint read_words (n : nat) : M D (list Z) :=
  match n with
  | O => mret []
  | S n => w ← port_in16 0x1F0; ws ← read_words n; mret (le_bytes 2 w ++ ws)
  end.
Fixpoint read_sectors (fuel n : nat) : M D (list Z) :=
  match n with
  | O => mret []
  | S n =>
    ATA_busy_wait fuel;; ATA_DRQ_wait fuel;;
    b ← read_words (Z.to_nat HALF_BLOCK_SIZE);
    bs ← read_sectors fuel n; mret (b ++ bs)
  end.
Definition read_blocks (fuel : nat) (logical_block_address block_count : Z) : M D (list Z) :=
  ATA_busy_wait fuel;;
  ATA_select logical_block_address block_count 0x20;;
  read_sectors fuel (Z.to_nat block_count).

(** [out16(0x1F0, ((uint16_t * ) ptr)[HALF_BLOCK_SIZE*i + j])] for each [j] *)
Fixpoint write_words (n : nat) (ptr : list Z) (k : Z) : M D unit :=
  match n with
  | O => mret tt
  | S n => w ← lift (ld 2 ptr (2 * k)); port_out16 0x1F0 w;; write_words n ptr (k + 1)
  end.
Fixpoint write_sectors (fuel n : nat) (ptr : list Z) (i : Z) : M D unit :=
  match n with
  | O => mret tt
  | S n =>
    ATA_busy_wait fuel;; ATA_DRQ_wait fuel;;
    write_words (Z.to_nat HALF_BLOCK_SIZE) ptr (HALF_BLOCK_SIZE * i);;
    write_sectors fuel n ptr (i + 1)
  end.
(** the last command, 0xE7, flushes the cache of the drive *)
Definition write_blocks (fuel : nat) (ptr : list Z) (logical_block_address block_count : Z) : M D unit :=
  ATA_busy_wait fuel;;
  ATA_select logical_block_address block_count 0x30;;
  write_sectors fuel (Z.to_nat block_count) ptr 0;;
  port_out 0x1F7 0xE7;;
  ATA_busy_wait fuel.
End Driver.

(** ** The disk behind the ports *)
Inductive ata_mode : Type :=
| Idle
| Sending (ws : list Z)
| Receiving (lba : Z) (ws : list Z).

(** what the driver can observe of the disk: its sectors, the transfer in progress,
    the address registers, and how many more status reads will report BSY *)
Record AtaView := mkAta {
  ata_sectors : Z -> list Z;
  ata_transfer : ata_mode;
  ata_drive : Z; ata_count : Z; ata_low : Z; ata_mid : Z; ata_high : Z;
  ata_busy : nat;
}.
Definition ata_lba (a : AtaView) : Z :=
  ata_low a + 2 ^ 8 * ata_mid a + 2 ^ 16 * ata_high a + 2 ^ 24 * (ata_drive a mod 16).
Definition set_transfer (m : ata_mode) (b : nat) (a : AtaView) : AtaView :=
  mkAta (ata_sectors a) m (ata_drive a) (ata_count a) (ata_low a) (ata_mid a) (ata_high a) b.
Definition set_register (port v : Z) (a : AtaView) : AtaView :=
  if port =? 0x1F2 then mkAta (ata_sectors a) (ata_transfer a) (ata_drive a) v (ata_low a) (ata_mid a) (ata_high a) (ata_busy a)
  else if port =? 0x1F3 then mkAta (ata_sectors a) (ata_transfer a) (ata_drive a) (ata_count a) v (ata_mid a) (ata_high a) (ata_busy a)
  else if port =? 0x1F4 then mkAta (ata_sectors a) (ata_transfer a) (ata_drive a) (ata_count a) (ata_low a) v (ata_high a) (ata_busy a)
  else if port =? 0x1F5 then mkAta (ata_sectors a) (ata_transfer a) (ata_drive a) (ata_count a) (ata_low a) (ata_mid a) v (ata_busy a)
  else mkAta (ata_sectors a) (ata_transfer a) v (ata_count a) (ata_low a) (ata_mid a) (ata_high a) (ata_busy a).

Definition words_of (b : list Z) : list Z := fields_val (replicate 256 2%nat) b.
#[global] Arguments words_of : simpl never.
Definition bytes_of_words (ws : list Z) : list Z := fields_bytes (map (pair 2%nat) ws).

(** The protocol, for commands on one sector.  [max_busy] bounds the polls. *)
Class AtaLaws (D : Type) `{PortIO D} := {
  ata_view : D -> AtaView;
  ata_nblocks : Z;
  ata_max_busy : nat;
  ata_nblocks_range : DISK_SPACE / BLOCK_SIZE <= ata_nblocks <= 2 ^ 28;
  (** reading the status register *)
  ata_status (d : D) : wp (port_in 0x1F7) (fun v d' =>
    ata_view d' = set_transfer (ata_transfer (ata_view d)) (pred (ata_busy (ata_view d))) (ata_view d) /\
    (ata_busy (ata_view d) = 0%nat -> Z.land v ATA_STATUS_BSY = 0 /\ Z.land v ATA_STATUS_RDY <> 0) /\
    (ata_busy (ata_view d) <> 0%nat -> Z.land v ATA_STATUS_BSY <> 0)) d;
  (** the registers of an idle drive *)
  ata_register (d : D) port v : 0x1F2 <= port <= 0x1F6 ->
    ata_transfer (ata_view d) = Idle -> ata_busy (ata_view d) = 0%nat ->
    wp (port_out port v) (fun _ d' => ata_view d' = set_register port v (ata_view d)) d;
  (** READ SECTORS: the words of the sector become available *)
  ata_read_command (d : D) : ata_transfer (ata_view d) = Idle -> ata_busy (ata_view d) = 0%nat ->
    ata_count (ata_view d) = 1 -> 0 <= ata_lba (ata_view d) < ata_nblocks ->
    wp (port_out 0x1F7 0x20) (fun _ d' => exists k, (k <= ata_max_busy)%nat /\
      ata_view d' = set_transfer (Sending (words_of (ata_sectors (ata_view d) (ata_lba (ata_view d))))) k (ata_view d)) d;
  ata_read_word (d : D) w ws : ata_transfer (ata_view d) = Sending (w :: ws) -> ata_busy (ata_view d) = 0%nat ->
    wp (port_in16 0x1F0) (fun v d' => v = w /\
      ata_view d' = set_transfer (if ws is [] then Idle else Sending ws) 0 (ata_view d)) d;
  (** WRITE SECTORS: 256 words are taken and then stored *)
  ata_write_command (d : D) : ata_transfer (ata_view d) = Idle -> ata_busy (ata_view d) = 0%nat ->
    ata_count (ata_view d) = 1 -> 0 <= ata_lba (ata_view d) < ata_nblocks ->
    wp (port_out 0x1F7 0x30) (fun _ d' => exists k, (k <= ata_max_busy)%nat /\
      ata_view d' = set_transfer (Receiving (ata_lba (ata_view d)) []) k (ata_view d)) d;
  ata_write_word (d : D) lba ws w : ata_transfer (ata_view d) = Receiving lba ws -> ata_busy (ata_view d) = 0%nat ->
    (length ws < 255)%nat ->
    wp (port_out16 0x1F0 w) (fun _ d' => ata_view d' = set_transfer (Receiving lba (ws ++ [w])) 0 (ata_view d)) d;
  ata_write_last (d : D) lba ws w : ata_transfer (ata_view d) = Receiving lba ws -> ata_busy (ata_view d) = 0%nat ->
    length ws = 255%nat ->
    wp (port_out16 0x1F0 w) (fun _ d' => exists k, (k <= ata_max_busy)%nat /\
      ata_transfer (ata_view d') = Idle /\ ata_busy (ata_view d') = k /\
      forall l, ata_sectors (ata_view d') l =
        if l =? lba then bytes_of_words (ws ++ [w]) else ata_sectors (ata_view d) l) d;
  (** FLUSH CACHE to a drive that is not busy: no effect on the sectors *)
  ata_flush (d : D) : ata_transfer (ata_view d) = Idle -> ata_busy (ata_view d) = 0%nat ->
    wp (port_out 0x1F7 0xE7) (fun _ d' => exists k, (k <= ata_max_busy)%nat /\
      ata_transfer (ata_view d') = Idle /\ ata_busy (ata_view d') = k /\
      forall l, ata_sectors (ata_view d') l = ata_sectors (ata_view d) l) d;
}.

(** The protocol leaves open what a command does that is written while BSY is set, and
    [write_blocks] writes its flush command right behind the last word, when the drive may
    still be busy.  What the driver relies on there is an assumption of its own: the drive
    ignores the command, as the emulator does that the Makefile runs the kernel on. *)
Class IgnoresWhileBusy (D : Type) `{AtaLaws D} : Prop :=
  flush_while_busy (d : D) : ata_busy (ata_view d) <> 0%nat ->
    wp (port_out 0x1F7 0xE7) (fun _ d' => ata_view d' = ata_view d) d.

(** ** The driver keeps the laws of a block device *)
Lemma words_bytes b : BlockBuffer_ok b -> bytes_of_words (words_of b) = b.
Proof.
  intros [Hl Hb]. rw /BLOCK_SIZE in Hl. have Hw : length (words_of b) = 256%nat by apply fields_val_length.
  have := fields_bytes_val (replicate 256 2%nat) b. rw -/(words_of b).
  have -> : zip (replicate 256 2%nat) (words_of b) = map (pair 2%nat) (words_of b).
  { rw -Hw. generalize (words_of b) => l. induction l as [|x l IH]; [done|]. cbn. by rw IH. }
  rw sum_list_replicate -/(bytes_of_words (words_of b)) => ->; [lia|done|]. apply take_ge. lia.
Qed.

Lemma bytes_of_words_cons w ws : bytes_of_words (w :: ws) = le_bytes 2 w ++ bytes_of_words ws.
Proof. done. Qed.
Lemma bytes_of_words_app ws ws' : bytes_of_words (ws ++ ws') = bytes_of_words ws ++ bytes_of_words ws'.
Proof. by rw /bytes_of_words /fields_bytes !map_app concat_app. Qed.
Lemma bytes_of_words_length ws : length (bytes_of_words ws) = (2 * length ws)%nat.
Proof. rw /bytes_of_words fields_bytes_length map_fst_pair sum_list_replicate. lia. Qed.

Lemma drive_select x : 0 <= x < 16 -> Z.lor 0xE0 (Z.land x 0xF) mod 16 = x.
Proof.
  intros Hx. apply Z.eqb_eq. revert x Hx.
  apply (forall_range (fun x => Z.lor 0xE0 (Z.land x 0xF) mod 16 =? x) 0 16). by vm_compute.
Qed.

Section AtaDriver.
Context {D : Type} `{AtaLaws D}.
Implicit Types d : D.

(** enough polls for every wait *)
Definition ata_fuel : nat := S (S ata_max_busy).

Lemma set_transfer_id a : ata_busy a = 0%nat -> set_transfer (ata_transfer a) 0 a = a.
Proof. destruct a; cbn. by intros ->. Qed.

Lemma busy_wait_spec fuel d : (ata_busy (ata_view d) < fuel)%nat ->
  wp (ATA_busy_wait fuel) (fun _ d' => ata_view d' = set_transfer (ata_transfer (ata_view d)) 0 (ata_view d)) d.
Proof.
  revert d. induction fuel as [|fuel IH] => d Hf; [lia|]. cbn [ATA_busy_wait]. apply wp_bind.
  eapply wp_mono; [apply ata_status|]. intros v d1 (E1 & H0' & H1').
  destruct (decide (ata_busy (ata_view d) = 0%nat)) as [Eb|Eb].
  - destruct (H0' Eb) as [-> _]. apply wp_ret. by rw E1 Eb.
  - rw (proj2 (Z.eqb_neq _ _) (H1' Eb)). eapply wp_mono; [apply IH; rw E1 /=; lia|].
    intros [] d2 ->. by rw E1.
Qed.

Lemma drq_wait_spec fuel d : ata_busy (ata_view d) = 0%nat -> (0 < fuel)%nat ->
  wp (ATA_DRQ_wait fuel) (fun _ d' => ata_view d' = ata_view d) d.
Proof.
  intros Eb Hf. destruct fuel as [|fuel]; [lia|]. cbn [ATA_DRQ_wait]. apply wp_bind.
  eapply wp_mono; [apply ata_status|]. intros v d1 (E1 & H0' & _). destruct (H0' Eb) as [_ Hr].
  rw (proj2 (Z.eqb_neq _ _) Hr). apply wp_ret. rw E1 Eb. by apply set_transfer_id.
Qed.

(** the registers after [ATA_select] hold the address *)
Lemma select_spec d lba cmd Q : 0 <= lba < 2 ^ 28 ->
  ata_transfer (ata_view d) = Idle -> ata_busy (ata_view d) = 0%nat ->
  (forall d', ata_transfer (ata_view d') = Idle -> ata_busy (ata_view d') = 0%nat ->
    ata_count (ata_view d') = 1 -> ata_lba (ata_view d') = lba ->
    ata_sectors (ata_view d') = ata_sectors (ata_view d) -> wp (port_out 0x1F7 cmd) Q d') ->
  wp (ATA_select lba 1 cmd) Q d.
Proof.
  intros Hl Ht Hb HQ. rw /ATA_select.
  apply wp_bind; eapply wp_mono; [by apply ata_register|]; intros [] d1 E1; cbn in E1.
  apply wp_bind; eapply wp_mono; [apply ata_register; by rw ?E1|]; intros [] d2 E2; rw E1 in E2; cbn in E2.
  apply wp_bind; eapply wp_mono; [apply ata_register; by rw ?E2|]; intros [] d3 E3; rw E2 in E3; cbn in E3.
  apply wp_bind; eapply wp_mono; [apply ata_register; by rw ?E3|]; intros [] d4 E4; rw E3 in E4; cbn in E4.
  apply wp_bind; eapply wp_mono; [apply ata_register; by rw ?E4|]; intros [] d5 E5; rw E4 in E5; cbn in E5.
  apply HQ; rw E5 //. rw /ata_lba. cbn. rewrite -> !Z.shiftr_div_pow2 by lia.
  rewrite -> drive_select.
  - rw /u8. have A := Z.div_mod lba 256. have B := Z.div_mod (lba / 256) 256. have C := Z.div_mod (lba / 65536) 256.
    have E : lba / 256 / 256 = lba / 65536 by rewrite -> Z.div_div by lia.
    have F : lba / 65536 / 256 = lba / 16777216 by rewrite -> Z.div_div by lia. 
    change (2 ^ 8) with 256. change (2 ^ 16) with 65536. change (2 ^ 24) with 16777216. lia.
  - split; [apply Z.div_pos; lia|apply Z.div_lt_upper_bound; lia].
Qed.

Lemma read_words_spec d ws : ata_busy (ata_view d) = 0%nat ->
  ata_transfer (ata_view d) = (if ws is [] then Idle else Sending ws) ->
  wp (read_words (length ws)) (fun b d' => b = bytes_of_words ws /\
    ata_transfer (ata_view d') = Idle /\ ata_busy (ata_view d') = 0%nat /\
    ata_sectors (ata_view d') = ata_sectors (ata_view d)) d.
Proof.
  revert d. induction ws as [|w ws IH] => d Hb Ht; cbn [length read_words].
  { by apply wp_ret. }
  apply wp_bind. eapply wp_mono; [by apply (ata_read_word d w ws)|]. intros v d1 [-> E1].
  apply wp_bind. eapply wp_mono; [apply IH; by rw E1|]. intros b d2 (-> & Ht2 & Hb2 & Es).
  apply wp_ret. split; [done|]. rw E1 in Es. done.
Qed.

(** word [k] of a block *)
Lemma ld_word b k : BlockBuffer_ok b -> 0 <= k < 256 ->
  exists w, ld 2 b (2 * k) = Ok w /\ words_of b !! Z.to_nat k = Some w.
Proof.
  intros Hb Hk. have Hw : length (words_of b) = 256%nat by apply fields_val_length.
  destruct (lookup_lt_is_Some_2 (words_of b) (Z.to_nat k)) as [w E]; [lia|]. exists w. split; [|done].
  have Hin : in_width (2%nat, w).
  { have Hf : Forall in_width (zip (replicate 256 2%nat) (words_of b)).
    { destruct Hb as [Hl Hb]. rw /BLOCK_SIZE in Hl. apply fields_val_in_width; [rw sum_list_replicate; lia|done]. }
    eapply (Forall_lookup_1 _ _ (Z.to_nat k)); [exact Hf|]. apply lookup_zip_with_Some.
    exists 2%nat, w. split; [done|]. split; [|done]. apply lookup_replicate. lia. }
  have Hsplit := take_drop_middle _ _ _ E.
  have Hbytes := words_bytes b Hb. rw -Hsplit bytes_of_words_app bytes_of_words_cons in Hbytes.
  rw -{1}Hbytes. rewrite -> ld_mid; [|rw bytes_of_words_length length_take; lia|done].
  by rw le_val_bytes_id.
Qed.

Lemma write_words_spec n d b k lba : BlockBuffer_ok b -> (n <= 256)%nat -> k = 256 - Z.of_nat n -> (0 < n)%nat ->
  ata_busy (ata_view d) = 0%nat -> ata_transfer (ata_view d) = Receiving lba (take (Z.to_nat k) (words_of b)) ->
  wp (write_words n b k) (fun _ d' => ata_transfer (ata_view d') = Idle /\
    (ata_busy (ata_view d') <= ata_max_busy)%nat /\
    forall l, ata_sectors (ata_view d') l = if l =? lba then b else ata_sectors (ata_view d) l) d.
Proof.
  intros Hb. revert d k. induction n as [|n IH] => d k Hn Hk Hpos Hbusy Ht; [lia|].
  cbn [write_words]. destruct (ld_word b k Hb) as (w & E1 & E2); [lia|].
  have Hw : length (words_of b) = 256%nat by apply fields_val_length.
  have Hnext : take (Z.to_nat k) (words_of b) ++ [w] = take (Z.to_nat (k + 1)) (words_of b).
  { have -> : Z.to_nat (k + 1) = S (Z.to_nat k) by lia. by rewrite -> (take_S_r _ _ w). }
  apply wp_bind. eapply wp_lift; [exact E1|]. apply wp_bind. destruct n as [|n].
  - eapply wp_mono; [apply (ata_write_last d lba _ w Ht Hbusy); rw length_take; lia|].
    intros [] d1 (c & Hc & Ht1 & Hb1 & Hs1). apply wp_ret. split; [done|]. split; [lia|].
    intros l. rw Hs1 Hnext. rewrite -> take_ge by lia. by rw words_bytes.
  - eapply wp_mono; [apply (ata_write_word d lba _ w Ht Hbusy); rw length_take; lia|].
    intros [] d1 Ed1. eapply wp_mono; [apply (IH d1 (k + 1)); [lia|lia|lia|by rw Ed1|by rw Ed1 /= Hnext]|].
    intros [] d2 (Ht2 & Hb2 & Hs2). split; [done|]. split; [done|]. intros l. by rw Hs2 Ed1.
Qed.

(** between two calls the drive is idle, possibly still busy *)
Definition ata_ready d : Prop :=
  ata_transfer (ata_view d) = Idle /\ (ata_busy (ata_view d) <= ata_max_busy)%nat /\
  forall l, 0 <= l < ata_nblocks -> BlockBuffer_ok (ata_sectors (ata_view d) l).

Lemma read_blocks_spec d lba : ata_ready d -> 0 <= lba < ata_nblocks ->
  wp (read_blocks ata_fuel lba 1) (fun b d' => b = ata_sectors (ata_view d) lba /\ ata_ready d' /\
    forall l, ata_sectors (ata_view d') l = ata_sectors (ata_view d) l) d.
Proof.
  intros (Ht & Hb & Hok) Hl. have [_ Hnb] := ata_nblocks_range. rw /read_blocks /ata_fuel. apply wp_bind.
  eapply wp_mono; [apply busy_wait_spec; lia|]. intros [] d1 E1. apply wp_bind.
  apply select_spec; [lia|by rw E1|by rw E1|]. intros d2 Ht2 Hb2 Hc2 Hl2 Hs2.
  eapply wp_mono; [apply ata_read_command; [done|done|done|by rw Hl2]|]. intros [] d3 (k & Hk & E3).
  rw Hl2 Hs2 E1 in E3. cbn in E3. change (Z.to_nat 1) with 1%nat. cbn [read_sectors]. apply wp_bind.
  eapply wp_mono; [apply busy_wait_spec; rw E3 /=; lia|]. intros [] d4 E4. rw E3 in E4. cbn in E4. apply wp_bind.
  eapply wp_mono; [apply drq_wait_spec; [by rw E4|lia]|]. intros [] d5 E5. rw E4 in E5. apply wp_bind.
  have Hw : length (words_of (ata_sectors (ata_view d) lba)) = 256%nat by apply fields_val_length.
  change (Z.to_nat HALF_BLOCK_SIZE) with 256%nat. rw -{1}Hw.
  eapply wp_mono; [apply read_words_spec; rw E5; first done|].
  { revert Hw. cbn. by destruct (words_of (ata_sectors (ata_view d) lba)). }
  intros b d6 (-> & Ht6 & Hb6 & Hs6). apply wp_bind, wp_ret, wp_ret. rw app_nil_r words_bytes; [by apply Hok|].
  split; [done|]. have Hs l : ata_sectors (ata_view d6) l = ata_sectors (ata_view d) l by rw Hs6 E5 /= Hs2 E1.
  split; [|done]. split; [done|]. split; [lia|]. intros l Hlr. rw Hs. by apply Hok.
Qed.

(** the flush command, whether or not the drive has finished the sector *)
Lemma flush_any_time `{!IgnoresWhileBusy D} d : ata_transfer (ata_view d) = Idle -> (ata_busy (ata_view d) <= ata_max_busy)%nat ->
  wp (port_out 0x1F7 0xE7) (fun _ d' => exists k, (k <= ata_max_busy)%nat /\
    ata_transfer (ata_view d') = Idle /\ ata_busy (ata_view d') = k /\
    forall l, ata_sectors (ata_view d') l = ata_sectors (ata_view d) l) d.
Proof.
  intros Ht Hb. destruct (decide (ata_busy (ata_view d) = 0%nat)) as [E|E]; [by apply ata_flush|].
  eapply wp_mono; [by apply flush_while_busy|]. intros [] d' Ed. exists (ata_busy (ata_view d)). by rw Ed.
Qed.

Lemma write_blocks_spec `{!IgnoresWhileBusy D} d lba b : ata_ready d -> 0 <= lba < ata_nblocks -> BlockBuffer_ok b ->
  wp (write_blocks ata_fuel b lba 1) (fun _ d' => ata_ready d' /\
    forall l, ata_sectors (ata_view d') l = if l =? lba then b else ata_sectors (ata_view d) l) d.
Proof.
  intros (Ht & Hb & Hok) Hl Hbok. have [_ Hnb] := ata_nblocks_range. rw /write_blocks /ata_fuel. apply wp_bind.
  eapply wp_mono; [apply busy_wait_spec; lia|]. intros [] d1 E1. apply wp_bind.
  apply select_spec; [lia|by rw E1|by rw E1|]. intros d2 Ht2 Hb2 Hc2 Hl2 Hs2.
  eapply wp_mono; [apply ata_write_command; [done|done|done|by rw Hl2]|]. intros [] d3 (k & Hk & E3).
  rw Hl2 in E3. change (Z.to_nat 1) with 1%nat. cbn [write_sectors]. apply wp_bind, wp_bind.
  eapply wp_mono; [apply busy_wait_spec; rw E3 /=; lia|]. intros [] d4 E4. rw E3 in E4. cbn in E4. apply wp_bind.
  eapply wp_mono; [apply drq_wait_spec; [by rw E4|lia]|]. intros [] d5 E5. rw E4 in E5. apply wp_bind.
  change (Z.to_nat HALF_BLOCK_SIZE) with 256%nat. change (HALF_BLOCK_SIZE * 0) with 0.
  eapply wp_mono; [apply (write_words_spec 256 d5 b 0 lba); [done|lia|lia|lia|by rw E5|by rw E5]|].
  intros [] d6 (Ht6 & Hb6 & Hs6). apply wp_ret, wp_bind.
  eapply wp_mono; [by apply flush_any_time|]. intros [] d7 (k7 & Hk7 & Ht7 & Hb7 & Hs7).
  eapply wp_mono; [apply busy_wait_spec; lia|]. intros [] d8 E8.
  have Hs l : ata_sectors (ata_view d8) l = if l =? lba then b else ata_sectors (ata_view d) l.
  { rw E8 /= Hs7 Hs6 E5 /= Hs2 E1. done. }
  split; [|done]. split; [by rw E8|]. split; [rw E8 /=; lia|]. intros l Hlr. rw Hs.
  destruct (l =? lba); [done|by apply Hok].
Qed.

#[export] Instance ata_device : BlockDevice D := {|
  nblocks := ata_nblocks;
  dev_ok := ata_ready;
  dev_block d := ata_sectors (ata_view d);
  dev_read l := read_blocks ata_fuel l 1;
  dev_write l b := write_blocks ata_fuel b l 1;
|}.

#[export] Instance ata_device_laws `{!IgnoresWhileBusy D} : BlockDeviceLaws D.
Proof.
  split.
  - apply ata_nblocks_range.
  - intros d l (_ & _ & Hok). apply Hok.
  - intros d l. apply read_blocks_spec.
  - intros d l b. apply write_blocks_spec.
Qed.
End AtaDriver.

(** ** A drive that keeps the protocol

    A reference drive, busy for one poll after every command: the protocol above can
    be met.  What it does with a command written while it is busy is its own matter,
    [on_busy]. *)
Section Drive.
Variable on_busy : AtaView -> AtaView.
Definition drive_status (a : AtaView) : Z := if bool_decide (ata_busy a = 0%nat) then 0x40 else 0x80.
Definition drive_command (v : Z) (a : AtaView) : AtaView :=
  if negb (bool_decide (ata_busy a = 0%nat)) then on_busy a
  else if v =? 0x20 then set_transfer (Sending (words_of (ata_sectors a (ata_lba a)))) 1 a
  else if v =? 0x30 then set_transfer (Receiving (ata_lba a) []) 1 a
  else set_transfer (ata_transfer a) 1 a.
Definition drive_word (a : AtaView) : Z :=
  match ata_transfer a with Sending (w :: _) => w | _ => 0 end.
Definition drive_sent (a : AtaView) : AtaView :=
  match ata_transfer a with
  | Sending [_] => set_transfer Idle 0 a
  | Sending (_ :: ws) => set_transfer (Sending ws) 0 a
  | _ => a
  end.
Definition drive_store (lba : Z) (ws : list Z) (a : AtaView) : AtaView :=
  mkAta (fun l => if l =? lba then bytes_of_words ws else ata_sectors a l)
    Idle (ata_drive a) (ata_count a) (ata_low a) (ata_mid a) (ata_high a) 1.
Definition drive_received (w : Z) (a : AtaView) : AtaView :=
  match ata_transfer a with
  | Receiving lba ws =>
    if bool_decide (length ws < 255)%nat then set_transfer (Receiving lba (ws ++ [w])) 0 a
    else drive_store lba (ws ++ [w]) a
  | _ => a
  end.

Definition drive_ports : PortIO AtaView := {|
  port_in _ := v ← gets drive_status;
    modify (fun a => set_transfer (ata_transfer a) (pred (ata_busy a)) a);; mret v;
  port_out p v := modify (if p =? 0x1F7 then drive_command v else set_register p v);
  port_in16 _ := v ← gets drive_word; modify drive_sent;; mret v;
  port_out16 _ w := modify (drive_received w);
|}.

#[program] Definition drive_laws : @AtaLaws AtaView drive_ports := {|
  ata_view a := a;
  ata_nblocks := DISK_SPACE / BLOCK_SIZE;
  ata_max_busy := 1;
|}.
Next Obligation. rw /DISK_SPACE. vm_compute. split; intros E; discriminate. Qed.
Next Obligation.
  intros a. apply wp_bind, wp_gets, wp_bind, wp_modify, wp_ret. split; [done|].
  rw /drive_status. destruct (bool_decide_reflect (ata_busy a = 0%nat)) as [E|E]; split; intros E'; done.
Qed.
Next Obligation.
  intros a p v Hp _ _. apply wp_modify. rewrite -> (proj2 (Z.eqb_neq p 0x1F7)) by lia. done.
Qed.
Next Obligation. intros a _ Hb _ _. apply wp_modify. exists 1%nat. split; [lia|]. cbn in Hb |- *. rw /drive_command. by rewrite -> bool_decide_true by done. Qed.
Next Obligation.
  intros a w ws Ht Hb. apply wp_bind, wp_gets, wp_bind, wp_modify, wp_ret. rw /drive_word /drive_sent Ht.
  split; [done|]. by destruct ws.
Qed.
Next Obligation. intros a _ Hb _ _. apply wp_modify. exists 1%nat. split; [lia|]. cbn in Hb |- *. rw /drive_command. by rewrite -> bool_decide_true by done. Qed.
Next Obligation.
  intros a lba ws w Ht Hb Hl. apply wp_modify. rw /drive_received Ht. by rewrite -> bool_decide_true by done.
Qed.
Next Obligation.
  intros a lba ws w Ht Hb Hl. apply wp_modify. rw /drive_received Ht. rewrite -> bool_decide_false by lia.
  exists 1%nat. done.
Qed.
Next Obligation. intros a Ht Hb. apply wp_modify. exists 1%nat. cbn in Ht, Hb |- *. rw /drive_command. rewrite -> bool_decide_true by done. by rw /= Ht. Qed.
End Drive.

(** the drive that ignores what it is told while busy *)
#[export] Instance ignoring_ports : PortIO AtaView := drive_ports (fun a => a).
#[export] Instance ignoring_laws : AtaLaws AtaView := drive_laws (fun a => a).
#[export] Instance ignoring_drive : IgnoresWhileBusy AtaView.
Proof. intros a Hb. apply wp_modify. change (ata_busy a <> 0%nat) in Hb. cbn. rw /drive_command. by rewrite -> bool_decide_false by done. Qed.

(** a drive just powered up, with zeroed sectors *)
Definition blank_drive : AtaView := mkAta (fun _ => replicate 512 0) Idle 0 0 0 0 0 1.

(** The assumption is needed: this drive keeps the protocol and gives the sector up when a
    command arrives before it has stored it, and the block that was written is lost. *)
Definition abandon_sector (a : AtaView) : AtaView :=
  mkAta (fun l => if l =? ata_lba a then replicate 512 0 else ata_sectors a l)
    Idle (ata_drive a) (ata_count a) (ata_low a) (ata_mid a) (ata_high a) 0.
Lemma early_flush_loses : exists (P : PortIO AtaView) (L : AtaLaws AtaView) d b, ata_ready d /\ BlockBuffer_ok b /\
  exists d', write_blocks ata_fuel b 5 1 d = Ok (tt, d') /\ ata_sectors (ata_view d') 5 <> b.
Proof.
  exists (drive_ports abandon_sector), (drive_laws abandon_sector), blank_drive, (replicate 512 7).
  have Hz x : 0 <= x < 256 -> BlockBuffer_ok (replicate 512 x) by intros Hx; split; [done|by apply Forall_replicate].
  split; [|split; [apply Hz; lia|]].
  - split; [done|]. split; [cbn; lia|]. intros l _. apply Hz. lia.
  - have E : match write_blocks (H := drive_ports abandon_sector) 3 (replicate 512 7) 5 1 blank_drive with
             | Ok (_, a) => bool_decide (ata_sectors a 5 = replicate 512 0) | _ => false end = true by vm_compute.
    change (@ata_fuel _ _ (drive_laws abandon_sector)) with 3%nat.
    destruct (write_blocks (H := drive_ports abandon_sector) 3 (replicate 512 7) 5 1 blank_drive) as [[[] a]| |]; [|discriminate..].
    apply bool_decide_eq_true in E. exists a. split; [reflexivity|]. intros E'. change (ata_sectors a 5 = replicate 512 7) in E'.
    rewrite -> E in E'. discriminate.
Qed.

Section Properties.
Context {D : Type} `{IgnoresWhileBusy D}.

(** C19: on a drive that ignores a command written while it is busy, the block written to a
    sector is the block read back, every other sector keeps its content, and both waits end
    within the polls the drive may ask for.  The proviso is about the flush command, which
    [write_blocks] sends behind the last word without waiting for the drive. *)
Theorem write_then_read_sector d lba l b : ata_ready d -> 0 <= lba < ata_nblocks ->
  0 <= l < ata_nblocks -> BlockBuffer_ok b ->
  wp (write_blocks ata_fuel b lba 1;; read_blocks ata_fuel l 1)
    (fun r d' => r = (if l =? lba then b else ata_sectors (ata_view d) l) /\ ata_ready d') d.
Proof.
  intros Hd Hlba Hl Hb. apply wp_bind. eapply wp_mono; [by apply write_blocks_spec|].
  intros [] d1 (Hd1 & Hs). eapply wp_mono; [by apply read_blocks_spec|]. intros r d2 (-> & Hd2 & _).
  by rw Hs.
Qed.
End Properties.

Lemma write_then_read_sector_witness :
  wp (write_blocks ata_fuel (replicate 512 7) 5 1;; read_blocks ata_fuel 5 1)
    (fun r d' => r = replicate 512 7 /\ ata_ready d') blank_drive.
Proof.
  have Hz x : 0 <= x < 256 -> BlockBuffer_ok (replicate 512 x) by intros Hx; split; [done|by apply Forall_replicate].
  apply (write_then_read_sector blank_drive 5 5 (replicate 512 7)).
  - split; [done|]. split; [cbn; lia|]. intros l _. apply Hz. lia.
  - rw /ata_nblocks. vm_compute. split; [intros E; discriminate|done].
  - rw /ata_nblocks. vm_compute. split; [intros E; discriminate|done].
  - apply Hz. lia.
Defined.
