(* ===== verification/Keyboard.v ===== *)
(** * The keyboard driver ([src/driver/keyboard.c], [src/header/driver/keyboard.h])

    The driver state, the interrupt routine and the ring buffer as the code has them;
    the specification is a queue of at most 255 characters fed by a decoder of scan
    codes, and the driver refines it.  Characters are kept as bytes; the byte that the
    data port delivers to one call of [keyboard_isr] is its argument. *)

From S2P Require Import Prelude.

Definition KEYBOARD_BUFFER_SIZE : Z := 256.
Definition EXTENDED_SCANCODE_BYTE : Z := 0xE0.
Definition EXT_SCANCODE_UP : Z := 0x48.
Definition EXT_SCANCODE_DOWN : Z := 0x50.
Definition EXT_SCANCODE_LEFT : Z := 0x4B.
Definition EXT_SCANCODE_RIGHT : Z := 0x4D.
Definition EXT_SCANCODE_DELETE : Z := 0x53.
Definition KEY_DELETE : Z := 0x7F.
Definition KEY_ARROW_UP : Z := 0x80.
Definition KEY_ARROW_DOWN : Z := 0x81.
Definition KEY_ARROW_LEFT : Z := 0x82.
Definition KEY_ARROW_RIGHT : Z := 0x83.

(** the table of the source, sixteen entries a line *)
Definition keyboard_scancode_1_to_ascii_map : list Z := [
    0;  27;  49;  50;  51;  52;  53;  54;  55;  56;  57;  48;  45;  61;   8;   9;
  113; 119; 101; 114; 116; 121; 117; 105; 111; 112;  91;  93;  10;   0;  97; 115;
  100; 102; 103; 104; 106; 107; 108;  59;  39;  96;   0;  92; 122; 120;  99; 118;
   98; 110; 109;  44;  46;  47;   0;  42;   0;  32;   0;   0;   0;   0;   0;   0;
    0;   0;   0;   0;   0;   0;   0;   0;   0;   0;  45;   0;   0;   0;  43;   0;
    0;   0;   0;   0;   0;   0;   0;   0;   0;   0;   0;   0;   0;   0;   0;   0;
    0;   0;   0;   0;   0;   0;   0;   0;   0;   0;   0;   0;   0;   0;   0;   0;
    0;   0;   0;   0;   0;   0;   0;   0;   0;   0;   0;   0;   0;   0;   0;   0;
    0;   0;   0;   0;   0;   0;   0;   0;   0;   0;   0;   0;   0;   0;   0;   0;
    0;   0;   0;   0;   0;   0;   0;   0;   0;   0;   0;   0;   0;   0;   0;   0;
    0;   0;   0;   0;   0;   0;   0;   0;   0;   0;   0;   0;   0;   0;   0;   0;
    0;   0;   0;   0;   0;   0;   0;   0;   0;   0;   0;   0;   0;   0;   0;   0;
    0;   0;   0;   0;   0;   0;   0;   0;   0;   0;   0;   0;   0;   0;   0;   0;
    0;   0;   0;   0;   0;   0;   0;   0;   0;   0;   0;   0;   0;   0;   0;   0;
    0;   0;   0;   0;   0;   0;   0;   0;   0;   0;   0;   0;   0;   0;   0;   0;
    0;   0;   0;   0;   0;   0;   0;   0;   0;   0;   0;   0;   0;   0;   0;   0
].

Record KeyboardDriverState := mkKbd {
  read_extended_mode : bool;
  keyboard_input_on : bool;
  buffer : list Z;
  head : Z;
  tail : Z;
}.

(** the initial state; a static array starts zeroed *)
Definition keyboard_state : KeyboardDriverState := mkKbd false false (zeros 256) 0 0.

Definition set_extended (b : bool) (s : KeyboardDriverState) : KeyboardDriverState :=
  mkKbd b (keyboard_input_on s) (buffer s) (head s) (tail s).
Definition set_input_on (b : bool) (s : KeyboardDriverState) : KeyboardDriverState :=
  mkKbd (read_extended_mode s) b (buffer s) (head s) (tail s).

Definition keyboard_state_activate : M KeyboardDriverState unit := modify (set_input_on true).
Definition keyboard_state_deactivate : M KeyboardDriverState unit := modify (set_input_on false).

(** the character stored through [buf] *)
Definition get_keyboard_buffer : M KeyboardDriverState Z := fun s =>
  if head s =? tail s then Ok (0, s)
  else c ← arr_get (buffer s) (tail s);
       Ok (c, mkKbd (read_extended_mode s) (keyboard_input_on s) (buffer s) (head s)
                (u32 (tail s + 1) mod KEYBOARD_BUFFER_SIZE)).

Definition add_to_buffer (c : Z) : M KeyboardDriverState unit := fun s =>
  let next_head := u32 (head s + 1) mod KEYBOARD_BUFFER_SIZE in
  if next_head =? tail s then Ok (tt, s)
  else b ← arr_set (buffer s) (head s) c;
       Ok (tt, mkKbd (read_extended_mode s) (keyboard_input_on s) b next_head (tail s)).

Definition keyboard_isr (scancode : Z) : M KeyboardDriverState unit :=
  on ← gets keyboard_input_on;
  if negb on then mret tt
  else if scancode =? EXTENDED_SCANCODE_BYTE then modify (set_extended true)
  else
    ext ← gets read_extended_mode;
    if (ext : bool) then
      modify (set_extended false);;
      if scancode =? EXT_SCANCODE_UP then add_to_buffer KEY_ARROW_UP
      else if scancode =? EXT_SCANCODE_DOWN then add_to_buffer KEY_ARROW_DOWN
      else if scancode =? EXT_SCANCODE_LEFT then add_to_buffer KEY_ARROW_LEFT
      else if scancode =? EXT_SCANCODE_RIGHT then add_to_buffer KEY_ARROW_RIGHT
      else if scancode =? EXT_SCANCODE_DELETE then add_to_buffer KEY_DELETE
      else mret tt
    else if scancode <? 0x80 then
      c ← lift (arr_get keyboard_scancode_1_to_ascii_map scancode);
      if negb (c =? 0) then add_to_buffer c else mret tt
    else mret tt.

(** ** Specification: a bounded queue fed by a decoder *)
Record Keys := mkKeys { k_on : bool; k_ext : bool; k_queue : list Z }.

(** what one scan code means; the 0xE0 prefix has been seen when [ext] *)
Definition decode (ext : bool) (scancode : Z) : option Z :=
  if ext then
    if scancode =? 0x48 then Some 0x80 else if scancode =? 0x50 then Some 0x81
    else if scancode =? 0x4B then Some 0x82 else if scancode =? 0x4D then Some 0x83
    else if scancode =? 0x53 then Some 0x7F else None
  else if scancode <? 0x80 then
    let c := nth (Z.to_nat scancode) keyboard_scancode_1_to_ascii_map 0 in
    if c =? 0 then None else Some c
  else None.

Definition enqueue (c : Z) (q : list Z) : list Z := if (length q <? 255)%nat then q ++ [c] else q.
Definition scan (scancode : Z) (k : Keys) : Keys :=
  if negb (k_on k) then k
  else if scancode =? 0xE0 then mkKeys true true (k_queue k)
  else mkKeys true false
    (match decode (k_ext k) scancode with Some c => enqueue c (k_queue k) | None => k_queue k end).

(** ** The ring buffer is the queue *)
Record kbd_inv (s : KeyboardDriverState) : Prop := {
  kbd_buffer : length (buffer s) = 256%nat;
  kbd_head : 0 <= head s < 256;
  kbd_tail : 0 <= tail s < 256;
}.
Definition kbd_count (s : KeyboardDriverState) : nat := Z.to_nat ((head s - tail s) mod 256).
Definition kbd_queue (s : KeyboardDriverState) : list Z :=
  map (fun i => nth (Z.to_nat ((tail s + Z.of_nat i) mod 256)) (buffer s) 0) (seq 0 (kbd_count s)).
Definition kbd_abs (s : KeyboardDriverState) : Keys :=
  mkKeys (keyboard_input_on s) (read_extended_mode s) (kbd_queue s).

Lemma keyboard_state_inv : kbd_inv keyboard_state.
Proof. by split. Qed.

Lemma kbd_queue_length s : length (kbd_queue s) = kbd_count s.
Proof. by rw /kbd_queue length_map length_seq. Qed.

Lemma mod256 a b k : 0 <= b < 256 -> a = b + 256 * k -> a mod 256 = b.
Proof. intros Hb ->. rw Z.mul_comm Z_mod_plus_full. by apply Z.mod_small. Qed.

Lemma kbd_count_le s : kbd_inv s -> (kbd_count s <= 255)%nat.
Proof. intros _. rw /kbd_count. have := Z.mod_pos_bound (head s - tail s) 256. lia. Qed.

(** the slot at the head is none of the queue's *)
Lemma kbd_slot s (i : nat) : kbd_inv s -> (i < kbd_count s)%nat -> (tail s + Z.of_nat i) mod 256 <> head s.
Proof.
  intros [Hb Hh Ht]. rw /kbd_count => Hi E. have B := Z.mod_pos_bound (head s - tail s) 256.
  have A := Z.div_mod (head s - tail s) 256. have C := Z.div_mod (tail s + Z.of_nat i) 256. lia.
Qed.
Lemma kbd_count_head s : kbd_inv s -> (tail s + Z.of_nat (kbd_count s)) mod 256 = head s.
Proof.
  intros [Hb Hh Ht]. rw /kbd_count. have B := Z.mod_pos_bound (head s - tail s) 256.
  have A := Z.div_mod (head s - tail s) 256.
  apply (mod256 _ _ (- ((head s - tail s) / 256))); lia.
Qed.

Lemma kbd_next_full s : kbd_inv s ->
  ((u32 (head s + 1) mod KEYBOARD_BUFFER_SIZE =? tail s) = negb (kbd_count s <? 255)%nat).
Proof.
  intros [Hb Hh Ht]. rw /kbd_count /KEYBOARD_BUFFER_SIZE. rewrite -> u32_id by lia.
  have B := Z.mod_pos_bound (head s - tail s) 256. have A := Z.div_mod (head s - tail s) 256.
  have C := Z.div_mod (head s + 1) 256. have D := Z.mod_pos_bound (head s + 1) 256.
  destruct (Z.eqb_spec ((head s + 1) mod 256) (tail s)); destruct (Nat.ltb_spec (Z.to_nat ((head s - tail s) mod 256)) 255); cbn; lia.
Qed.

Lemma add_to_buffer_spec s c : kbd_inv s ->
  wp (add_to_buffer c) (fun _ s' => kbd_inv s' /\ keyboard_input_on s' = keyboard_input_on s /\
    read_extended_mode s' = read_extended_mode s /\ kbd_queue s' = enqueue c (kbd_queue s)) s.
Proof.
  intros Hi. rw /wp /add_to_buffer /enqueue kbd_queue_length (kbd_next_full s Hi).
  destruct (Nat.ltb_spec (kbd_count s) 255) as [Hlt|]; cbn [negb]; [|done].
  have Hi' := Hi. destruct Hi' as [Hb Hh Ht]. rewrite -> arr_set_ok by lia. cbn [mbind res_bind].
  rw /KEYBOARD_BUFFER_SIZE. rewrite -> u32_id by lia.
  set (s' := mkKbd _ _ _ _ _). have D := Z.mod_pos_bound (head s + 1) 256.
  have Hc : kbd_count s' = S (kbd_count s).
  { rw /kbd_count /s' /=. revert Hlt. rw /kbd_count. have B := Z.mod_pos_bound (head s - tail s) 256.
    have A := Z.div_mod (head s - tail s) 256. have C := Z.div_mod (head s + 1) 256. intros Hlt.
    have -> : ((head s + 1) mod 256 - tail s) mod 256 = (head s - tail s) mod 256 + 1.
    { apply (mod256 _ _ ((head s - tail s) / 256 - (head s + 1) / 256)); lia. }
    lia. }
  split; [split; cbn; [by rw length_insert|lia|lia]|]. split; [done|]. split; [done|].
  rw /kbd_queue Hc seq_S map_app /=. f_equal.
  - apply map_ext_in => i /in_seq Hin. rewrite -> !nth_lookup, list_lookup_insert_ne; [done|].
    have A := kbd_slot s i Hi. have B := Z.mod_pos_bound (tail s + Z.of_nat i) 256. lia.
  - rw kbd_count_head // nth_lookup list_lookup_insert_eq //. lia.
Qed.

Lemma get_keyboard_buffer_spec s : kbd_inv s ->
  wp get_keyboard_buffer (fun c s' => kbd_inv s' /\ keyboard_input_on s' = keyboard_input_on s /\
    read_extended_mode s' = read_extended_mode s /\ c = hd 0 (kbd_queue s) /\ kbd_queue s' = tl (kbd_queue s)) s.
Proof.
  intros Hi. have Hi' := Hi. destruct Hi' as [Hb Hh Ht]. rw /wp /get_keyboard_buffer.
  destruct (Z.eqb_spec (head s) (tail s)) as [E|E].
  - have Hc : kbd_count s = 0%nat by rw /kbd_count E Z.sub_diag.
    have Hq : kbd_queue s = [] by rw /kbd_queue Hc. rw Hq. done.
  - rewrite -> (arr_get_nth _ _ 0) by lia. cbn [mbind res_bind]. rw /KEYBOARD_BUFFER_SIZE. rewrite -> u32_id by lia.
    set (s' := mkKbd _ _ _ _ _). have D := Z.mod_pos_bound (tail s + 1) 256.
    have Hc : kbd_count s = S (kbd_count s').
    { rw /kbd_count /s' /=. have B := Z.mod_pos_bound (head s - tail s) 256.
      have A := Z.div_mod (head s - tail s) 256. have C := Z.div_mod (tail s + 1) 256.
      have N : (head s - tail s) mod 256 <> 0 by lia.
      have -> : (head s - (tail s + 1) mod 256) mod 256 = (head s - tail s) mod 256 - 1.
      { apply (mod256 _ _ ((head s - tail s) / 256 + (tail s + 1) / 256)); lia. }
      lia. }
    split; [split; cbn; [done|done|lia]|]. split; [done|]. split; [done|]. rw /kbd_queue Hc /=. split.
    + rw Z.add_0_r. by rewrite -> Z.mod_small by lia.
    + rw -seq_shift map_map. apply map_ext => i. do 2 f_equal.
      rw Z.add_mod_idemp_l //. f_equal. lia.
Qed.

(** ** The interrupt routine *)
Lemma table_bytes i : 0 <= i < 256 ->
  arr_get keyboard_scancode_1_to_ascii_map i = Ok (nth (Z.to_nat i) keyboard_scancode_1_to_ascii_map 0).
Proof. intros Hi. apply arr_get_nth. exact Hi. Qed.

(** a buffered character is added under unchanged flags *)
Lemma add_abs s c : kbd_inv s ->
  wp (add_to_buffer c) (fun _ s' => kbd_inv s' /\
    kbd_abs s' = mkKeys (keyboard_input_on s) (read_extended_mode s) (enqueue c (kbd_queue s))) s.
Proof.
  intros Hi. eapply wp_mono; [by apply add_to_buffer_spec|]. intros [] s' (Hi' & E1 & E2 & E3).
  split; [done|]. by rw /kbd_abs E1 E2 E3.
Qed.

Lemma keyboard_isr_spec s scancode : kbd_inv s -> 0 <= scancode < 256 ->
  wp (keyboard_isr scancode) (fun _ s' => kbd_inv s' /\ kbd_abs s' = scan scancode (kbd_abs s)) s.
Proof.
  intros Hi Hs. rw /keyboard_isr /scan. cbn [k_on k_ext k_queue kbd_abs]. apply wp_bind, wp_gets.
  destruct (keyboard_input_on s) eqn:Eon; cbn [negb]; [|by apply wp_ret].
  rw /EXTENDED_SCANCODE_BYTE. destruct (scancode =? 0xE0).
  { apply wp_modify. split; [by destruct Hi|]. by rw /kbd_abs /set_extended /= Eon. }
  apply wp_bind, wp_gets. destruct (read_extended_mode s) eqn:Eext; rw /decode.
  - apply wp_bind, wp_modify. have Hi' : kbd_inv (set_extended false s) by destruct Hi.
    have Hadd c : wp (add_to_buffer c) (fun _ s' => kbd_inv s' /\
      kbd_abs s' = mkKeys true false (enqueue c (kbd_queue s))) (set_extended false s).
    { eapply wp_mono; [by apply add_abs|]. intros [] s' [? ->]. by rw /= Eon. }
    rw /EXT_SCANCODE_UP /EXT_SCANCODE_DOWN /EXT_SCANCODE_LEFT /EXT_SCANCODE_RIGHT /EXT_SCANCODE_DELETE.
    repeat match goal with |- context [if scancode =? ?k then _ else _] =>
      destruct (scancode =? k); [by apply Hadd|] end.
    apply wp_ret. split; [done|]. by rw /kbd_abs /set_extended /= Eon.
  - have Habs : kbd_abs s = mkKeys true false (kbd_queue s) by rw /kbd_abs Eon Eext.
    destruct (scancode <? 128); [|by apply wp_ret].
    apply wp_bind. eapply wp_lift; [by apply table_bytes|].
    destruct (_ =? 0); cbn [negb]; [by apply wp_ret|].
    eapply wp_mono; [by apply add_abs|]. intros [] s' [? ->]. by rw Eon Eext.
Qed.

(** ** Runs of the driver *)
Inductive kbd_event : Type :=
| Scan (scancode : Z)
| GetChar
| Activate
| Deactivate.
Definition event_ok (e : kbd_event) : Prop := match e with Scan sc => 0 <= sc < 256 | _ => True end.

Definition kbd_step (e : kbd_event) : M KeyboardDriverState (list Z) :=
  match e with
  | Scan sc => keyboard_isr sc;; mret []
  | GetChar => c ← get_keyboard_buffer; mret [c]
  | Activate => keyboard_state_activate;; mret []
  | Deactivate => keyboard_state_deactivate;; mret []
  end.
Fixpoint kbd_run (es : list kbd_event) : M KeyboardDriverState (list Z) :=
  match es with [] => mret [] | e :: es => o ← kbd_step e; os ← kbd_run es; mret (o ++ os) end.

(** the specification of the same events *)
Definition keys_step (e : kbd_event) (k : Keys) : list Z * Keys :=
  match e with
  | Scan sc => ([], scan sc k)
  | GetChar => ([hd 0 (k_queue k)], mkKeys (k_on k) (k_ext k) (tl (k_queue k)))
  | Activate => ([], mkKeys true (k_ext k) (k_queue k))
  | Deactivate => ([], mkKeys false (k_ext k) (k_queue k))
  end.
Fixpoint keys_run (es : list kbd_event) (k : Keys) : list Z * Keys :=
  match es with
  | [] => ([], k)
  | e :: es => let (o, k1) := keys_step e k in let (os, k2) := keys_run es k1 in (o ++ os, k2)
  end.

Lemma kbd_step_spec e s : kbd_inv s -> event_ok e ->
  wp (kbd_step e) (fun o s' => kbd_inv s' /\ (o, kbd_abs s') = keys_step e (kbd_abs s)) s.
Proof.
  intros Hi He. destruct e; cbn [kbd_step keys_step].
  - apply wp_bind. eapply wp_mono; [by apply keyboard_isr_spec|]. intros [] s' [? E]. apply wp_ret. by rw E.
  - apply wp_bind. eapply wp_mono; [by apply get_keyboard_buffer_spec|].
    intros c s' (? & E1 & E2 & -> & E3). apply wp_ret. split; [done|]. by rw /kbd_abs E1 E2 E3.
  - apply wp_bind, wp_modify, wp_ret. split; [by destruct Hi|done].
  - apply wp_bind, wp_modify, wp_ret. split; [by destruct Hi|done].
Qed.

Lemma kbd_run_spec es s : kbd_inv s -> Forall event_ok es ->
  wp (kbd_run es) (fun os s' => kbd_inv s' /\ (os, kbd_abs s') = keys_run es (kbd_abs s)) s.
Proof.
  revert s. induction es as [|e es IH] => s Hi Hok; cbn [kbd_run keys_run]; [by apply wp_ret|].
  inversion Hok as [|? ? He Hes]; subst. apply wp_bind.
  eapply wp_mono; [by apply kbd_step_spec|]. intros o s1 (Hi1 & <-). apply wp_bind.
  eapply wp_mono; [by apply IH|]. intros os s2 (Hi2 & <-). by apply wp_ret.
Qed.

(** ** Typing *)
(** the scan code of the key that carries a character, if there is one *)
Definition scancode_of (c : Z) : option Z :=
  match list_find (fun x => x = c) keyboard_scancode_1_to_ascii_map with
  | Some (i, _) => Some (Z.of_nat i)
  | None => None
  end.
(** pressing and releasing the key of [c] *)
Definition key (c : Z) : list kbd_event :=
  match scancode_of c with Some sc => [Scan sc; Scan (sc + 0x80)] | None => [] end.
Definition typeable (c : Z) : bool :=
  match scancode_of c with Some sc => (sc <? 0x60) && negb (c =? 0) | None => false end.

Lemma scancode_of_decode c sc : scancode_of c = Some sc -> sc < 0x60 -> c <> 0 ->
  0 <= sc /\ decode false sc = Some c.
Proof.
  rw /scancode_of. destruct (list_find _ _) as [[i x]|] eqn:E; [|done]. intros [= <-] Hsc Hc.
  apply list_find_Some in E as (E & -> & _). split; [lia|]. rw /decode.
  rewrite -> (proj2 (Z.ltb_lt (Z.of_nat i) 128)) by lia. rw Nat2Z.id (nth_lookup_Some _ _ _ _ E).
  by rewrite -> (proj2 (Z.eqb_neq c 0)) by done.
Qed.
Lemma scan_char sc c q : 0 <= sc < 0x60 -> decode false sc = Some c ->
  scan (sc + 0x80) (scan sc (mkKeys true false q)) = mkKeys true false (enqueue c q).
Proof.
  intros Hsc E. rw /scan. cbn [k_on negb]. rewrite -> (proj2 (Z.eqb_neq sc 0xE0)) by lia.
  cbn [k_on k_ext k_queue negb]. rw E. rewrite -> (proj2 (Z.eqb_neq (sc + 0x80) 0xE0)) by lia.
  rw /decode. by rewrite -> (proj2 (Z.ltb_ge (sc + 0x80) 0x80)) by lia.
Qed.

Lemma keys_run_app es es' k : keys_run (es ++ es') k =
  let (o, k1) := keys_run es k in let (os, k2) := keys_run es' k1 in (o ++ os, k2).
Proof.
  revert k. induction es as [|e es IH] => k; cbn [keys_run app]; [by destruct (keys_run es' k)|].
  destruct (keys_step e k) as [o k1]. rw IH. destruct (keys_run es k1) as [o1 k2].
  destruct (keys_run es' k2). by rw app_assoc.
Qed.

Lemma keys_run_key c q : typeable c = true ->
  keys_run (key c) (mkKeys true false q) = ([], mkKeys true false (enqueue c q)).
Proof.
  rw /typeable /key. destruct (scancode_of c) as [sc|] eqn:E; [|done].
  intros [Hsc Hc]%andb_true_iff. apply Z.ltb_lt in Hsc. apply negb_true_iff, Z.eqb_neq in Hc.
  destruct (scancode_of_decode c sc E Hsc Hc) as [H0 Hd]. cbn [keys_run keys_step app].
  by rewrite -> (scan_char sc c q) by done.
Qed.

Lemma keys_run_text text q : Forall (fun c => typeable c = true) text -> (length q <= 255)%nat ->
  keys_run (flat_map key text) (mkKeys true false q) = ([], mkKeys true false (take 255 (q ++ text))).
Proof.
  intros Ht. revert q. induction Ht as [|c text Hc Ht IH] => q Hq; cbn [flat_map].
  { rw app_nil_r. by rewrite -> take_ge by lia. }
  rw keys_run_app keys_run_key //. rw /enqueue. destruct (Nat.ltb_spec (length q) 255) as [Hl|Hl].
  - rw IH; [rw length_app /=; lia|]. by rw -app_assoc.
  - rw IH //. rewrite -> !take_app_le, !take_ge by lia. done.
Qed.

Lemma keys_run_gets n on ext q :
  (keys_run (replicate n GetChar) (mkKeys on ext q)).1 = take n (q ++ zeros n).
Proof.
  revert q. induction n as [|n IH] => q; [done|]. cbn [replicate keys_run keys_step k_on k_ext k_queue].
  specialize (IH (tl q)). destruct (keys_run (replicate n GetChar) _) as [os k2]. cbn in IH |- *. rw IH.
  destruct q as [|c q]; cbn; f_equal.
  change (0 :: replicate n 0) with (replicate (S n) 0). rw replicate_S_end app_assoc.
  rewrite -> (take_app_le _ [0]); [done|]. rw length_app length_replicate. lia.
Qed.

(** ** Properties *)
(** C21: the driver is a bounded queue fed by the scan code decoder.  Any sequence of
    interrupts, reads, activations and deactivations, from any state the driver can be
    in, runs without an access outside the buffer and delivers the characters that the
    specification delivers. *)
Theorem keyboard_refines_queue es s : kbd_inv s -> Forall event_ok es ->
  wp (kbd_run es) (fun os s' => kbd_inv s' /\ (os, kbd_abs s') = keys_run es (kbd_abs s)) s.
Proof. apply kbd_run_spec. Qed.

(** text typed on an activated keyboard is read back in order: the first 255
    characters, then zeros for the empty buffer; what exceeds 255 unread characters is
    dropped. *)
Theorem typed_text_read_back text n : Forall (fun c => typeable c = true) text ->
  wp (kbd_run (Activate :: flat_map key text ++ replicate n GetChar))
    (fun os _ => os = take n (take 255 text ++ zeros n)) keyboard_state.
Proof.
  intros Ht. eapply wp_mono; [apply kbd_run_spec; [apply keyboard_state_inv|]|].
  - constructor; [done|]. apply Forall_app. split; [|by apply Forall_replicate].
    apply Forall_flat_map. eapply Forall_impl; [exact Ht|]. intros c. rw /typeable /key.
    destruct (scancode_of c) as [sc|] eqn:E; [|done]. intros [Hsc Hc]%andb_true_iff. apply Z.ltb_lt in Hsc.
    apply negb_true_iff, Z.eqb_neq in Hc. destruct (scancode_of_decode c sc E Hsc Hc) as [H0 _].
    repeat constructor; cbn; lia.
  - intros os s' [_ E]. cbn [keys_run keys_step app] in E. rw keys_run_app in E.
    have B := keys_run_text text [] Ht (Nat.le_0_l _). change (k_queue (kbd_abs keyboard_state)) with (@nil Z) in E.
    cbn [kbd_abs k_ext read_extended_mode keyboard_state] in E. rw B in E.
    have A := keys_run_gets n true false (take 255 text).
    destruct (keys_run (replicate n GetChar) _) as [os' k']. cbn in A, E. congruence.
Qed.

(** [ls] and Enter, then an arrow key *)
Definition demo_events : list kbd_event :=
  [Activate; Scan 0x26; Scan 0xA6; Scan 0x1F; Scan 0x9F; Scan 0xE0; Scan 0x48; GetChar; GetChar; GetChar; GetChar].

Lemma keyboard_refines_queue_witness :
  wp (kbd_run demo_events) (fun os s' => kbd_inv s' /\
    (os, kbd_abs s') = keys_run demo_events (kbd_abs keyboard_state)) keyboard_state /\
  (keys_run demo_events (kbd_abs keyboard_state)).1 = [108; 115; 0x80; 0].
Proof.
  split; [|by vm_compute]. apply (keyboard_refines_queue demo_events keyboard_state).
  - apply keyboard_state_inv.
  - repeat constructor; cbn; lia.
Defined.

Lemma typed_text_read_back_witness :
  wp (kbd_run (Activate :: flat_map key [104; 105; 10] ++ replicate 4 GetChar))
    (fun os _ => os = [104; 105; 10; 0]) keyboard_state.
Proof. apply (typed_text_read_back [104; 105; 10] 4). repeat constructor. Defined.
