(* ===== verification/Console.v ===== *)
(** * The text console ([src/driver/framebuffer.c] and the output calls of
    [src/cpu/interrupt.c])

    The framebuffer routines over the bytes of video memory, and the cursor and
    scrolling code that the PUTCHAR and PUTS calls share.  The specification is a
    terminal of 25 rows by 80 columns; the console refines it, writes nothing outside
    the 4000 bytes of the screen and leaves the hardware cursor where its own is.

    Video memory is addressed physically.  The scrolling loop reaches it through the
    higher half (0xC00B8000), the other routines through the identity map: both name
    the same bytes under the kernel's page directory (see the file Paging). *)

From S2P Require Import Prelude StdString.

Definition FRAMEBUFFER_MEMORY_OFFSET : Z := 0xB8000.
Definition FRAMEBUFFER_COMMAND_PORT : Z := 0x3D4.
Definition FRAMEBUFFER_DATA_PORT : Z := 0x3D5.
Definition FRAMEBUFFER_WIDTH : Z := 80.
Definition FRAMEBUFFER_HEIGHT : Z := 25.
Definition BLACK : Z := 0.
Definition GREEN : Z := 2.
Definition RED : Z := 4.
Definition WHITE : Z := 15.

(** [ports] is the sequence of the [out(port, data)] calls, oldest first *)
Record Console := mkConsole {
  video : mem;
  sys_row : Z;
  sys_col : Z;
  ports : list (Z * Z);
}.

Definition out (port data : Z) (s : Console) : Console :=
  mkConsole (video s) (sys_row s) (sys_col s) (ports s ++ [(port, data)]).
Definition set_video (m : mem) (s : Console) : Console :=
  mkConsole m (sys_row s) (sys_col s) (ports s).
Definition set_sys (row col : Z) (s : Console) : Console :=
  mkConsole (video s) row col (ports s).

(** a 16-bit store and load *)
Definition st16 (m : mem) (a v : Z) : mem :=
  mem_upd (mem_upd m a (u16 v mod 256)) (u32 (a + 1)) (u16 v / 256).
Definition ld16 (m : mem) (a : Z) : Z := m a + 256 * m (u32 (a + 1)).

(** ** [framebuffer.c] *)
Definition framebuffer_set_cursor (r c : Z) (s : Console) : Console :=
  let position := u16 (r * FRAMEBUFFER_WIDTH + c) in
  let s := out FRAMEBUFFER_COMMAND_PORT 0x0E s in
  let s := out FRAMEBUFFER_DATA_PORT (u8 (Z.land (Z.shiftr position 8) 0xFF)) s in
  let s := out FRAMEBUFFER_COMMAND_PORT 0x0F s in
  out FRAMEBUFFER_DATA_PORT (u8 (Z.land position 0xFF)) s.

(** [c] is a signed [char]: it is extended before the bitwise or *)
Definition framebuffer_write (row col c fg bg : Z) (s : Console) : Console :=
  let position := u16 (row * FRAMEBUFFER_WIDTH + col) in
  let attribute := u8 (Z.lor (Z.shiftl bg 4) (Z.land fg 0x0F)) in
  set_video (st16 (video s) (FRAMEBUFFER_MEMORY_OFFSET + 2 * position)
    (Z.lor (s8 c) (Z.shiftl attribute 8))) s.

Definition framebuffer_clear (s : Console) : Console :=
  let clear_char := u16 (Z.lor 32 (Z.shiftl (Z.lor (Z.shiftl BLACK 4) (Z.land WHITE 0x0F)) 8)) in
  let s := set_video (memset16 FRAMEBUFFER_MEMORY_OFFSET clear_char
    (Z.to_nat (FRAMEBUFFER_WIDTH * FRAMEBUFFER_HEIGHT)) (video s)) s in
  framebuffer_set_cursor 0 0 s.

(** ** The console part of [syscall_handler] *)
(** the element [idx] of the array of 16-bit cells at 0xC00B8000 *)
Definition fb_cell (idx : Z) : Z := (0xC00B8000 - 0xC0000000) + 2 * idx.

Definition scroll_up (s : Console) : Console :=
  set_video (foldl (fun m row => foldl (fun m col =>
      let src_idx := u16 ((row + 1) * 80 + col) in
      let dst_idx := u16 (row * 80 + col) in
      st16 m (fb_cell dst_idx) (ld16 m (fb_cell src_idx))) m (seqZ 0 80))
    (video s) (seqZ 0 24)) s.
Definition clear_last_line (s : Console) : Console :=
  foldl (fun s col => framebuffer_write 24 col 32 0x07 0 s) s (seqZ 0 80).

(** one character: the branches on backspace, newline and the rest *)
Definition put_glyph (c color : Z) (s : Console) : Console :=
  if c =? 8 then
    let s := if 0 <? sys_col s then set_sys (sys_row s) (u8 (sys_col s - 1)) s
             else if 0 <? sys_row s then set_sys (u8 (sys_row s - 1)) 79 s else s in
    framebuffer_write (sys_row s) (sys_col s) 32 color 0 s
  else if c =? 10 then set_sys (u8 (sys_row s + 1)) 0 s
  else
    let s := framebuffer_write (sys_row s) (sys_col s) c color 0 s in
    let s := set_sys (sys_row s) (u8 (sys_col s + 1)) s in
    if 80 <=? sys_col s then set_sys (u8 (sys_row s + 1)) 0 s else s.
Definition scroll_if_needed (s : Console) : Console :=
  if 25 <=? sys_row s then
    let s := clear_last_line (scroll_up s) in set_sys 24 (sys_col s) s
  else s.
Definition put_one (color c : Z) (s : Console) : Console := scroll_if_needed (put_glyph c color s).

(** SYSCALL_PUTCHAR and SYSCALL_PUTS, with the characters as bytes *)
Definition console_putchar (c color : Z) (s : Console) : Console :=
  let s := put_one color c s in framebuffer_set_cursor (sys_row s) (sys_col s) s.
Definition console_puts (str : list Z) (color : Z) (s : Console) : Console :=
  let s := foldl (fun s c => put_one color c s) s str in
  framebuffer_set_cursor (sys_row s) (sys_col s) s.

(** ** Specification: a terminal *)
Record Term := mkTerm { t_cell : Z -> Z -> Z; t_row : Z; t_col : Z }.

(** the cell value of a character: the attribute of a character from 128 on is all ones *)
Definition glyph (c fg : Z) : Z := if c <? 128 then c + 256 * (fg mod 16) else 0xFF00 + c.
Definition t_put (r c v : Z) (t : Z -> Z -> Z) : Z -> Z -> Z := fun r' c' =>
  if (r' =? r) && (c' =? c) then v else t r' c'.
Definition t_backspace (t : Term) : Z * Z :=
  if 0 <? t_col t then (t_row t, t_col t - 1) else if 0 <? t_row t then (t_row t - 1, 79) else (t_row t, t_col t).
Definition t_glyph (color c : Z) (t : Term) : Term :=
  if c =? 8 then
    let (r, k) := t_backspace t in mkTerm (t_put r k (glyph 32 color) (t_cell t)) r k
  else if c =? 10 then mkTerm (t_cell t) (t_row t + 1) 0
  else
    let cells := t_put (t_row t) (t_col t) (glyph c color) (t_cell t) in
    if t_col t =? 79 then mkTerm cells (t_row t + 1) 0 else mkTerm cells (t_row t) (t_col t + 1).
Definition t_scroll (t : Term) : Term :=
  if t_row t =? 25
  then mkTerm (fun r c => if r =? 24 then glyph 32 7 else t_cell t (r + 1) c) 24 (t_col t)
  else t.
Definition t_one (color c : Z) (t : Term) : Term := t_scroll (t_glyph color c t).
Definition t_puts (str : list Z) (color : Z) (t : Term) : Term := foldl (fun t c => t_one color c t) t str.

Definition cell (s : Console) (r c : Z) : Z := ld16 (video s) (FRAMEBUFFER_MEMORY_OFFSET + 2 * (80 * r + c)).

(** ** Cells *)
Definition scr (k : Z) : Z := FRAMEBUFFER_MEMORY_OFFSET + 2 * k.
Definition on_screen (a : Z) : Prop := scr 0 <= a < scr 2000.

Lemma ld16_st16 m k v : 0 <= k < 65536 -> ld16 (st16 m (scr k) v) (scr k) = u16 v.
Proof.
  intros Hk. rw /ld16 /st16 /scr /FRAMEBUFFER_MEMORY_OFFSET. rewrite -> !u32_id by lia.
  rw mem_upd_same. rewrite -> mem_upd_ne, mem_upd_same by lia.
  have := Z.div_mod (u16 v) 256. lia.
Qed.
Lemma st16_other m k v a : 0 <= k < 65536 -> a <> scr k -> a <> scr k + 1 -> st16 m (scr k) v a = m a.
Proof.
  rw /st16 /scr /FRAMEBUFFER_MEMORY_OFFSET => Hk H1 H2. rewrite -> !u32_id by lia.
  by rewrite -> !mem_upd_ne by lia.
Qed.
Lemma ld16_st16_ne m k k' v : 0 <= k < 65536 -> 0 <= k' < 65536 -> k' <> k ->
  ld16 (st16 m (scr k) v) (scr k') = ld16 m (scr k').
Proof.
  intros Hk Hk' Hne. rw /ld16. have E : u32 (scr k' + 1) = scr k' + 1.
  { rw /scr /FRAMEBUFFER_MEMORY_OFFSET. by rewrite -> u32_id by lia. }
  rw E. by rewrite -> !st16_other by (rw ?/scr; lia).
Qed.
Lemma ld16_st16_cases m k k' v : 0 <= k < 65536 -> 0 <= k' < 65536 ->
  ld16 (st16 m (scr k) v) (scr k') = if k' =? k then u16 v else ld16 m (scr k').
Proof.
  intros Hk Hk'. destruct (Z.eqb_spec k' k) as [->|]; [by apply ld16_st16|by apply ld16_st16_ne].
Qed.

(** The value that [framebuffer_write] stores on a black background. *)
Lemma glyph_value c fg : 0 <= c < 256 -> 0 <= fg ->
  u16 (Z.lor (s8 c) (Z.shiftl (u8 (Z.lor (Z.shiftl 0 4) (Z.land fg 0x0F))) 8)) = glyph c fg.
Proof.
  intros Hc Hfg. have Hm : Z.land fg 0x0F = fg mod 16 by apply (Z.land_ones fg 4).
  have Hr : 0 <= fg mod 16 < 16 by apply Z.mod_pos_bound. rw Z.shiftl_0_l Z.lor_0_l Hm. rewrite -> u8_id by lia.
  remember (fg mod 16) as f eqn:Ef.
  rw /glyph -Ef. apply Z.eqb_eq. clear Ef Hm. revert f Hr. apply (forall_range (fun f =>
    u16 (Z.lor (s8 c) (Z.shiftl f 8)) =? (if c <? 128 then c + 256 * f else 0xFF00 + c)) 0 16).
  revert c Hc. apply (forall_range (fun c => forallb (fun f =>
    u16 (Z.lor (s8 c) (Z.shiftl f 8)) =? (if c <? 128 then c + 256 * f else 0xFF00 + c)) (seqZ 0 16)) 0 256).
  by vm_compute.
Qed.

(** a write at a cell of the screen *)
Lemma framebuffer_write_video row col c fg s : 0 <= row < 25 -> 0 <= col < 80 ->
  video (framebuffer_write row col c fg 0 s) =
    st16 (video s) (scr (80 * row + col))
      (Z.lor (s8 c) (Z.shiftl (u8 (Z.lor (Z.shiftl 0 4) (Z.land fg 0x0F))) 8)).
Proof.
  intros Hr Hc. rw /framebuffer_write /FRAMEBUFFER_WIDTH /=. rewrite -> u16_id by lia.
  rw /scr. do 2 f_equal. lia.
Qed.

(** [s'] shows [t] and differs from [s] on the screen only *)
Definition shows (s : Console) (t : Term) : Prop :=
  sys_row s = t_row t /\ sys_col s = t_col t /\
  forall r c, 0 <= r < 25 -> 0 <= c < 80 -> cell s r c = t_cell t r c.
Definition same_memory (m m' : mem) : Prop := forall a, ~ on_screen a -> m' a = m a.
Definition t_ok (t : Term) : Prop := 0 <= t_row t < 25 /\ 0 <= t_col t < 80.

Lemma framebuffer_write_cells s t r c ch fg : shows s t -> 0 <= r < 25 -> 0 <= c < 80 ->
  0 <= ch < 256 -> 0 <= fg ->
  shows (framebuffer_write r c ch fg 0 s) (mkTerm (t_put r c (glyph ch fg) (t_cell t)) (t_row t) (t_col t)) /\
  same_memory (video s) (video (framebuffer_write r c ch fg 0 s)).
Proof.
  intros (E1 & E2 & E3) Hr Hc Hch Hfg. split; [split; [exact E1|split; [exact E2|]]|].
  - intros r' c' Hr' Hc'. rw /cell framebuffer_write_video // -/(scr _).
    rewrite -> ld16_st16_cases by lia. rw glyph_value // /t_cell /t_put.
    destruct (Z.eqb_spec (80 * r' + c') (80 * r + c)).
    + have -> : r' = r by lia. have -> : c' = c by lia. by rw !Z.eqb_refl.
    + destruct (Z.eqb_spec r' r), (Z.eqb_spec c' c); cbn; try (by apply E3). lia.
  - intros a Ha. rw framebuffer_write_video //. rw /on_screen /scr in Ha.
    apply st16_other; [lia|rw /scr; lia..].
Qed.

Lemma same_memory_trans m1 m2 m3 : same_memory m1 m2 -> same_memory m2 m3 -> same_memory m1 m3.
Proof. intros H1 H2 a Ha. by rw H2 // H1. Qed.

(** ** Scrolling *)
Lemma st16_ok m a v : mem_ok m -> mem_ok (st16 m a v).
Proof.
  intros Hm x Hx. rw /st16 /mem_upd. have A := u16_range v. have B := Z.mod_pos_bound (u16 v) 256.
  have C : u16 v / 256 < 256 by apply Z.div_lt_upper_bound; lia. have D : 0 <= u16 v / 256 by apply Z.div_pos; lia.
  destruct (_ =? _); [lia|]. destruct (_ =? _); [lia|by apply Hm].
Qed.
Lemma ld16_range m a : mem_ok m -> 0 <= a < 2 ^ 32 -> 0 <= ld16 m a < 65536.
Proof. intros Hm Ha. rw /ld16. have A := Hm a Ha. have B := Hm _ (u32_range (a + 1)). lia. Qed.

(** the loops of the code, as one loop over the cells *)
Definition copy_cell (m : mem) (k : Z) : mem := st16 m (scr k) (ld16 m (scr (k + 80))).

Lemma foldl_flat {A B C} (g : A -> B -> A) (f : Z -> C -> B) cs rs (a : A) :
  foldl (fun a r => foldl (fun a c => g a (f r c)) a cs) a rs = foldl g a (flat_map (fun r => map (f r) cs) rs).
Proof.
  revert a. induction rs as [|r rs IH] => a; [done|]. cbn [foldl flat_map]. rw IH foldl_app. f_equal.
  clear. revert a. induction cs as [|c cs IH] => a; [done|]. cbn. by rw IH.
Qed.
Lemma foldl_ext_in {A B} (f g : A -> B -> A) l a : (forall a x, x ∈ l -> f a x = g a x) -> foldl f a l = foldl g a l.
Proof.
  revert a. induction l as [|x l IH] => a Hfg; [done|]. cbn. rw Hfg; [apply list_elem_of_here|].
  apply IH. intros a' y Hy. apply Hfg. by apply list_elem_of_further.
Qed.

Lemma scroll_up_copy s : video (scroll_up s) = foldl copy_cell (video s) (seqZ 0 1920).
Proof.
  have <- : flat_map (fun r => map (fun c => r * 80 + c) (seqZ 0 80)) (seqZ 0 24) = seqZ 0 1920 by vm_compute.
  rw -(foldl_flat copy_cell). rw /scroll_up. cbn [video set_video]. apply foldl_ext_in => m r /elem_of_seqZ Hr.
  apply foldl_ext_in => m' c /elem_of_seqZ Hc. rw /copy_cell /fb_cell /scr /FRAMEBUFFER_MEMORY_OFFSET.
  rewrite -> !u16_id by lia. do 2 f_equal. lia.
Qed.

Lemma copy_cells_spec m (n : nat) : mem_ok m -> (n <= 1920)%nat ->
  let m' := foldl copy_cell m (seqZ 0 (Z.of_nat n)) in
  mem_ok m' /\ same_memory m m' /\
  forall j, 0 <= j < 2000 -> ld16 m' (scr j) = if j <? Z.of_nat n then ld16 m (scr (j + 80)) else ld16 m (scr j).
Proof.
  intros Hm Hn. induction n as [|n IH].
  - split; [done|]. split; [by intros a|]. intros j Hj. change (Z.of_nat 0) with 0. by rewrite -> (proj2 (Z.ltb_ge j 0)) by lia.
  - destruct IH as (H1 & H2 & H3); [lia|]. have -> : Z.of_nat (S n) = Z.of_nat n + 1 by lia.
    rewrite -> seqZ_app by lia. rw foldl_app.
    have -> : seqZ (0 + Z.of_nat n) 1 = [Z.of_nat n] by rw /seqZ /=; f_equal; lia.
    cbn [foldl].
    set (m1 := foldl copy_cell m _) in *. rw /copy_cell. split; [by apply st16_ok|]. split.
    + intros a Ha. rw st16_other; [lia|rw /on_screen /scr in Ha; rw /scr; lia..|by apply H2].
    + intros j Hj. rewrite -> ld16_st16_cases by lia. rewrite -> u16_id by (apply ld16_range; [done|rw /scr /FRAMEBUFFER_MEMORY_OFFSET; lia]).
      rw !H3; [lia..|]. rewrite -> (proj2 (Z.ltb_ge (Z.of_nat n + 80) _)) by lia.
      destruct (Z.eqb_spec j (Z.of_nat n)) as [->|Hne].
      * by rewrite -> (proj2 (Z.ltb_lt _ _)) by lia.
      * destruct (Z.ltb_spec j (Z.of_nat n)), (Z.ltb_spec j (Z.of_nat n + 1)); try lia; done.
Qed.

(** everything one step keeps: the bytes, the memory outside the screen, the port log *)
Definition keeps (s s' : Console) : Prop :=
  mem_ok (video s') /\ same_memory (video s) (video s') /\ ports s' = ports s.

Lemma keeps_trans s1 s2 s3 : keeps s1 s2 -> keeps s2 s3 -> keeps s1 s3.
Proof.
  intros (_ & B & C) (A' & B' & C'). split; [done|]. split; [by eapply same_memory_trans|by rw C'].
Qed.

Lemma framebuffer_write_spec s t r c ch fg : mem_ok (video s) -> shows s t -> 0 <= r < 25 -> 0 <= c < 80 ->
  0 <= ch < 256 -> 0 <= fg ->
  let s' := framebuffer_write r c ch fg 0 s in
  keeps s s' /\ shows s' (mkTerm (t_put r c (glyph ch fg) (t_cell t)) (t_row t) (t_col t)).
Proof.
  intros Hm Hs Hr Hc Hch Hfg s'. destruct (framebuffer_write_cells s t r c ch fg) as [H1 H2]; [done..|].
  split; [|done]. split; [|by split]. by apply st16_ok.
Qed.

Lemma shows_ext s t t' : shows s t -> t_row t = t_row t' -> t_col t = t_col t' ->
  (forall r c, 0 <= r < 25 -> 0 <= c < 80 -> t_cell t r c = t_cell t' r c) -> shows s t'.
Proof.
  intros (E1 & E2 & E3) E4 E5 E. rw /shows -E4 -E5. split; [done|]. split; [done|].
  intros r c Hr Hc. by rw -E // E3.
Qed.

Lemma clear_last_line_spec s t : mem_ok (video s) -> shows s t ->
  keeps s (clear_last_line s) /\ shows (clear_last_line s)
    (mkTerm (fun r c => if r =? 24 then glyph 32 7 else t_cell t r c) (t_row t) (t_col t)).
Proof.
  intros Hm Hs.
  have Hind (n : nat) : (n <= 80)%nat ->
    let s' := foldl (fun s col => framebuffer_write 24 col 32 0x07 0 s) s (seqZ 0 (Z.of_nat n)) in
    keeps s s' /\ shows s' (mkTerm (fun r c => if (r =? 24) && (c <? Z.of_nat n) then glyph 32 7 else t_cell t r c)
      (t_row t) (t_col t)).
  { induction n as [|n IH] => Hn.
    - split; [by split|]. eapply shows_ext; [exact Hs|done|done|]. intros r c Hr Hc.
      cbn [t_cell]. rewrite -> (proj2 (Z.ltb_ge c _)) by lia. by rw andb_false_r.
    - destruct IH as [H1 H2]; [lia|]. have -> : Z.of_nat (S n) = Z.of_nat n + 1 by lia.
      rewrite -> seqZ_app by lia. rw foldl_app.
      have -> : seqZ (0 + Z.of_nat n) 1 = [Z.of_nat n] by rw /seqZ /=; f_equal; lia.
      cbn [foldl]. set (s1 := foldl _ _ _) in *.
      destruct (framebuffer_write_spec s1 _ 24 (Z.of_nat n) 32 7 (proj1 H1) H2) as [H3 H4]; [lia..|].
      split; [by eapply keeps_trans|]. eapply shows_ext; [exact H4|done|done|]. intros r c Hr Hc.
      cbn [t_cell t_row t_col]. rw /t_put.
      destruct (Z.eqb_spec r 24), (Z.eqb_spec c (Z.of_nat n)), (Z.ltb_spec c (Z.of_nat n)),
        (Z.ltb_spec c (Z.of_nat n + 1)); cbn; try lia; done. }
  destruct (Hind 80%nat) as [H1 H2]; [lia|]. split; [exact H1|].
  eapply shows_ext; [exact H2|done|done|]. intros r c Hr Hc. cbn [t_cell].
  rewrite -> (proj2 (Z.ltb_lt c _)) by lia. by rw andb_true_r.
Qed.

Lemma scroll_up_spec s t : mem_ok (video s) -> shows s t ->
  keeps s (scroll_up s) /\ shows (scroll_up s)
    (mkTerm (fun r c => if r <? 24 then t_cell t (r + 1) c else t_cell t r c) (t_row t) (t_col t)).
Proof.
  intros Hm (E1 & E2 & E3). have A := copy_cells_spec (video s) 1920 Hm (Nat.le_refl _).
  have V := scroll_up_copy s. change (Z.of_nat 1920) with 1920 in A.
  destruct A as (A1 & A2 & A3). split.
  - split; [by rw V|]. split; [by rw V|done].
  - split; [exact E1|]. split; [exact E2|]. intros r c Hr Hc. rw /cell -/(scr (80 * r + c)) V A3; [lia|].
    cbn [t_cell]. destruct (Z.ltb_spec (80 * r + c) 1920), (Z.ltb_spec r 24); try lia.
    + rw -E3; [lia|lia|]. rw /cell /scr. do 2 f_equal. lia.
    + by rw -E3.
Qed.

Lemma put_glyph_spec s t color c : mem_ok (video s) -> shows s t -> t_ok t -> 0 <= c < 256 -> 0 <= color ->
  keeps s (put_glyph c color s) /\ shows (put_glyph c color s) (t_glyph color c t) /\
  0 <= t_row (t_glyph color c t) <= 25 /\ 0 <= t_col (t_glyph color c t) < 80.
Proof.
  intros Hm Hs [Hr Hc] Hch Hcol. destruct (Hs) as (E1 & E2 & E3). rw /put_glyph /t_glyph /t_backspace.
  destruct (c =? 8).
  - set (s1 := (if 0 <? sys_col s then _ else _)). set (rk := (if 0 <? t_col t then _ else _)).
    have Hk : keeps s s1. { rw /s1. repeat case_match; done. }
    have H1 : shows s1 (mkTerm (t_cell t) rk.1 rk.2) /\ 0 <= rk.1 < 25 /\ 0 <= rk.2 < 80.
    { rw /s1 /rk E1 E2. destruct (Z.ltb_spec 0 (t_col t)); [|destruct (Z.ltb_spec 0 (t_row t))]; cbn.
      - rewrite -> u8_id by lia. split; [by split; [|split]|lia].
      - rewrite -> u8_id by lia. split; [by split; [|split]|lia].
      - split; [by split; [|split]|lia]. }
    destruct rk as [r k]. cbn in H1. destruct H1 as (H1 & H2 & H3). destruct (H1) as (F1 & F2 & _).
    cbn in F1, F2. rw F1 F2.
    destruct (framebuffer_write_spec s1 _ r k 32 color (proj1 Hk) H1) as [H4 H5]; [lia..|].
    split; [by eapply keeps_trans|]. split; [exact H5|cbn; lia].
  - destruct (c =? 10).
    + cbn. split; [done|]. split; [|lia]. split; [by rw /= E1; rewrite -> u8_id by lia|]. by split.
    + rw E1 E2. destruct (framebuffer_write_spec s t (t_row t) (t_col t) c color) as [H4 H5]; [done..|].
      set (s1 := framebuffer_write _ _ _ _ _ _) in *. destruct (H5) as (F1 & F2 & F3). cbn in F1, F2.
      cbn [sys_row sys_col set_sys]. rw F1 F2. rewrite -> !u8_id by lia.
      destruct (Z.eqb_spec (t_col t) 79), (Z.leb_spec 80 (t_col t + 1)); try lia; cbn.
      * split; [exact H4|]. split; [by split|lia].
      * split; [exact H4|]. split; [by split|lia].
Qed.

#[local] Opaque scroll_up clear_last_line put_glyph.

Lemma scroll_if_needed_spec s t : mem_ok (video s) -> shows s t -> 0 <= t_row t <= 25 -> 0 <= t_col t < 80 ->
  keeps s (scroll_if_needed s) /\ shows (scroll_if_needed s) (t_scroll t) /\ t_ok (t_scroll t).
Proof.
  intros Hm Hs Hr Hc. rw /scroll_if_needed /t_scroll. destruct (Hs) as (E1 & E2 & _). rw E1.
  destruct (Z.eqb_spec (t_row t) 25), (Z.leb_spec 25 (t_row t)); try lia;
    [|split; [done|split; [done|split; lia]]].
  destruct (scroll_up_spec s t Hm Hs) as [K1 K2]. revert K1 K2. generalize (scroll_up s) => s2 K1 K2.
  destruct (clear_last_line_spec _ _ (proj1 K1) K2) as [L1 L2]. revert L1 L2.
  generalize (clear_last_line s2). intros s3 L1 (F1 & F2 & F3). split; [|split].
  - eapply keeps_trans; [exact K1|]. by destruct L1 as (? & ? & ?).
  - split; [done|]. split; [exact F2|]. intros r k Hr' Hk.
    have G := F3 r k Hr' Hk. cbn [t_cell] in G |- *. unfold cell in *. cbn [video set_sys]. rw G.
    destruct (Z.eqb_spec r 24), (Z.ltb_spec r 24); try lia; done.
  - split; cbn; lia.
Qed.

Lemma put_one_spec s t color c : mem_ok (video s) -> shows s t -> t_ok t -> 0 <= c < 256 -> 0 <= color ->
  keeps s (put_one color c s) /\ shows (put_one color c s) (t_one color c t) /\ t_ok (t_one color c t).
Proof.
  intros Hm Hs Ht Hch Hcol. rw /put_one /t_one.
  destruct (put_glyph_spec s t color c) as (H1 & H2 & H3 & H4); [done..|].
  destruct (scroll_if_needed_spec _ _ (proj1 H1) H2 H3 H4) as (K1 & K2 & K3).
  split; [by eapply keeps_trans|by split].
Qed.

Lemma put_all_spec str s t color : mem_ok (video s) -> shows s t -> t_ok t -> bytes_ok str -> 0 <= color ->
  let s' := foldl (fun s c => put_one color c s) s str in
  keeps s s' /\ shows s' (t_puts str color t) /\ t_ok (t_puts str color t).
Proof.
  intros Hm Hs Ht Hb Hcol. revert s t Hm Hs Ht. induction Hb as [|c str Hc Hb IH] => s t Hm Hs Ht; [by split|].
  destruct (put_one_spec s t color c) as (H1 & H2 & H3); [done..|].
  destruct (IH (put_one color c s) (t_one color c t) (proj1 H1)) as (H4 & H5 & H6); [done..|].
  split; [by eapply keeps_trans|]. by split.
Qed.

(** ** The hardware cursor
    The CRT controller as the documentation of VGA has it: a write to the command port
    selects a register, a write to the data port stores into it; registers 0x0E and
    0x0F are the high and low byte of the cursor position. *)
Record Crtc := mkCrtc { crtc_index : Z; crtc_high : Z; crtc_low : Z }.
Definition crtc_write (d : Crtc) (o : Z * Z) : Crtc :=
  if o.1 =? 0x3D4 then mkCrtc o.2 (crtc_high d) (crtc_low d)
  else if o.1 =? 0x3D5 then
    if crtc_index d =? 0x0E then mkCrtc 0x0E o.2 (crtc_low d)
    else if crtc_index d =? 0x0F then mkCrtc 0x0F (crtc_high d) o.2 else d
  else d.
Definition crtc_cursor (s : Console) : Z :=
  let d := foldl crtc_write (mkCrtc 0 0 0) (ports s) in 256 * crtc_high d + crtc_low d.

Lemma set_cursor_cursor r c s : 0 <= r < 25 -> 0 <= c < 80 ->
  crtc_cursor (framebuffer_set_cursor r c s) = 80 * r + c.
Proof.
  intros Hr Hc. rw /crtc_cursor /framebuffer_set_cursor /FRAMEBUFFER_WIDTH.
  rewrite -> (u16_id (r * 80 + c)) by lia. cbn [ports out]. rw !foldl_app.
  destruct (foldl crtc_write _ (ports s)) as [i h l]. cbn [foldl crtc_write fst snd].
  rw /FRAMEBUFFER_COMMAND_PORT /FRAMEBUFFER_DATA_PORT /=.
  rewrite -> Z.shiftr_div_pow2 by lia. change 0xFF with (Z.ones 8). rewrite -> !Z.land_ones by lia.
  have A := Z.div_mod (r * 80 + c) 256. have B := Z.mod_pos_bound (r * 80 + c) 256.
  change (2 ^ 8) with 256. have D : 0 <= (r * 80 + c) / 256 < 256.
  { split; [apply Z.div_pos; lia|apply Z.div_lt_upper_bound; lia]. }
  rewrite -> (Z.mod_small (_ / 256)) by lia. rewrite -> !u8_id by lia. lia.
Qed.

(** ** Calls of the console *)
Inductive console_call : Type :=
| CallPutchar (c color : Z)
| CallPuts (str : list Z) (color : Z)
| CallClear.
Definition call_ok (x : console_call) : Prop :=
  match x with
  | CallPutchar c color => 0 <= c < 256 /\ 0 <= color < 256
  | CallPuts str color => bytes_ok str /\ 0 <= color < 256
  | CallClear => True
  end.
(** clearing moves the hardware cursor, not the cursor of the calls *)
Definition console_step (s : Console) (x : console_call) : Console :=
  match x with
  | CallPutchar c color => console_putchar c color s
  | CallPuts str color => console_puts str color s
  | CallClear => framebuffer_clear s
  end.
Definition term_step (t : Term) (x : console_call) : Term :=
  match x with
  | CallPutchar c color => t_one color c t
  | CallPuts str color => t_puts str color t
  | CallClear => mkTerm (fun _ _ => 0x0F20) (t_row t) (t_col t)
  end.

Lemma memset16_cells (n : nat) k m v : 0 <= k -> k + Z.of_nat n <= 65536 -> mem_ok m -> u16 v = v ->
  let m' := memset16 (scr k) v n m in
  mem_ok m' /\ (forall a, a < scr k \/ scr (k + Z.of_nat n) <= a -> m' a = m a) /\
  forall j, 0 <= j < 65536 -> ld16 m' (scr j) = if (k <=? j) && (j <? k + Z.of_nat n) then v else ld16 m (scr j).
Proof.
  revert k m. induction n as [|n IH] => k m Hk Hn Hm Hv.
  - split; [done|]. split; [done|]. intros j Hj. cbn [memset16]. destruct (Z.leb_spec k j), (Z.ltb_spec j (k + Z.of_nat 0)); cbn; try done; lia.
  - cbn [memset16]. rw -/(st16 m (scr k) v).
    have -> : ptr (scr k + 2) = scr (k + 1) by rw u32_ptr /scr /FRAMEBUFFER_MEMORY_OFFSET; rewrite -> u32_id by lia; lia.
    destruct (IH (k + 1) (st16 m (scr k) v)) as (H1 & H2 & H3); [lia|lia|by apply st16_ok|done|].
    split; [done|]. split.
    + intros a Ha. rw H2; [rw /scr in Ha |- *; lia|]. apply st16_other; [lia|rw /scr in Ha |- *; lia..].
    + intros j Hj. rw H3 //. rewrite -> ld16_st16_cases by lia. rw Hv.
      destruct (Z.leb_spec (k + 1) j), (Z.leb_spec k j), (Z.eqb_spec j k), (Z.ltb_spec j (k + 1 + Z.of_nat n)),
        (Z.ltb_spec j (k + Z.of_nat (S n))); cbn; try lia; done.
Qed.

Lemma framebuffer_clear_spec s t : mem_ok (video s) -> shows s t ->
  mem_ok (video (framebuffer_clear s)) /\ same_memory (video s) (video (framebuffer_clear s)) /\
  shows (framebuffer_clear s) (mkTerm (fun _ _ => 0x0F20) (t_row t) (t_col t)).
Proof.
  intros Hm (E1 & E2 & E3). rw /framebuffer_clear.
  have -> : u16 (Z.lor 32 (Z.shiftl (Z.lor (Z.shiftl BLACK 4) (Z.land WHITE 15)) 8)) = 0x0F20 by vm_compute.
  have -> : Z.to_nat (FRAMEBUFFER_WIDTH * FRAMEBUFFER_HEIGHT) = 2000%nat by vm_compute.
  destruct (memset16_cells 2000 0 (video s) 0x0F20) as (H1 & H2 & H3); [lia|lia|done|done|].
  change (scr 0) with FRAMEBUFFER_MEMORY_OFFSET in *. set (m := memset16 _ _ _ _) in *. clearbody m.
  change (video (framebuffer_set_cursor 0 0 (set_video m s))) with m. split; [done|]. split.
  { intros a Ha. apply H2. rw /on_screen in Ha. change (0 + Z.of_nat 2000) with 2000.
    change FRAMEBUFFER_MEMORY_OFFSET with (scr 0). lia. }
  split; [exact E1|]. split; [exact E2|]. intros r c Hr Hc. unfold cell.
  change (video (framebuffer_set_cursor 0 0 (set_video m s))) with m. rw -/(scr (80 * r + c)) H3; [lia|].
  change (0 + Z.of_nat 2000) with 2000. cbn [t_cell].
  by rewrite -> (proj2 (Z.leb_le 0 _)), (proj2 (Z.ltb_lt _ 2000)) by lia.
Qed.

(** the state between calls *)
Record console_inv (s : Console) (t : Term) : Prop := {
  ci_bytes : mem_ok (video s);
  ci_shows : shows s t;
  ci_ok : t_ok t;
}.

Lemma set_cursor_inv r c s t : console_inv s t -> console_inv (framebuffer_set_cursor r c s) t.
Proof. by destruct 1. Qed.

Lemma console_step_spec s t x : console_inv s t -> call_ok x ->
  console_inv (console_step s x) (term_step t x) /\ same_memory (video s) (video (console_step s x)) /\
  (x <> CallClear -> crtc_cursor (console_step s x) = 80 * t_row (term_step t x) + t_col (term_step t x)).
Proof.
  intros [Hm Hs Ht] Hx. destruct x as [c color|str color|]; cbn [console_step term_step call_ok] in *.
  - destruct (put_one_spec s t color c) as (H1 & H2 & H3); [done|done|done|lia|lia|].
    rw /console_putchar. destruct (put_one color c s) as [m r k ps]. destruct (H2) as (E1 & E2 & _).
    cbn [sys_row sys_col] in *. split; [|split].
    + apply set_cursor_inv. by split; [apply (proj1 H1)|..].
    + apply (proj1 (proj2 H1)).
    + intros _. destruct H3. rw E1 E2. by apply set_cursor_cursor.
  - destruct (put_all_spec str s t color) as (H1 & H2 & H3); [done|done|done|by destruct Hx|lia|].
    rw /console_puts. destruct (foldl _ s str) as [m r k ps]. destruct (H2) as (E1 & E2 & _).
    cbn [sys_row sys_col] in *. split; [|split].
    + apply set_cursor_inv. by split; [apply (proj1 H1)|..].
    + apply (proj1 (proj2 H1)).
    + intros _. destruct H3. rw E1 E2. by apply set_cursor_cursor.
  - destruct (framebuffer_clear_spec s t Hm Hs) as (H1 & H2 & H3). split; [by split|]. by split.
Qed.

Lemma console_run_spec xs s t : console_inv s t -> Forall call_ok xs ->
  console_inv (foldl console_step s xs) (foldl term_step t xs) /\
  same_memory (video s) (video (foldl console_step s xs)).
Proof.
  intros Hi Hok. revert s t Hi. induction Hok as [|x xs Hx Hok IH] => s t Hi; [done|]. cbn [foldl].
  destruct (console_step_spec s t x Hi Hx) as (H1 & H2 & _). destruct (IH _ _ H1) as [H3 H4].
  split; [exact H3|]. by eapply same_memory_trans.
Qed.

(** ** Properties *)
(** C22: the console is a terminal.  After any sequence of PUTCHAR and PUTS calls and
    clearings, ended by one more output call, every cell of the screen and the cursor
    are those of the specified terminal, the cursor is on the screen, the hardware
    cursor stands where the terminal's cursor is, and no byte of memory outside the
    4000 bytes of the screen has changed. *)
Theorem console_refines_terminal xs x s t : console_inv s t -> Forall call_ok xs -> call_ok x -> x <> CallClear ->
  let s' := console_step (foldl console_step s xs) x in
  let t' := term_step (foldl term_step t xs) x in
  shows s' t' /\ t_ok t' /\ crtc_cursor s' = 80 * t_row t' + t_col t' /\
  forall a, ~ on_screen a -> video s' a = video s a.
Proof.
  intros Hi Hok Hx Hne s' t'. destruct (console_run_spec xs s t Hi Hok) as [H1 H2].
  destruct (console_step_spec _ _ x H1 Hx) as ([H3 H4 H5] & H6 & H7). split; [exact H4|]. split; [exact H5|].
  split; [by apply H7|]. by eapply same_memory_trans.
Qed.

(** a line of printable characters that fits in the row *)
Lemma t_puts_line str color t : Forall (fun c => 32 <= c < 128) str -> 0 <= t_col t -> t_col t + len str < 80 ->
  t_row t < 25 ->
  t_row (t_puts str color t) = t_row t /\ t_col (t_puts str color t) = t_col t + len str /\
  forall r c, t_cell (t_puts str color t) r c =
    if (r =? t_row t) && (t_col t <=? c) && (c <? t_col t + len str)
    then nth (Z.to_nat (c - t_col t)) str 0 + 256 * (color mod 16) else t_cell t r c.
Proof.
  intros Hp. revert t. induction Hp as [|ch str Hch Hp IH] => t Hc0 Hc Hr.
  { cbn. split; [done|]. split; [lia|]. intros r c.
    change (Z.of_nat 0) with 0. destruct (_ =? _), (Z.leb_spec (t_col t) c), (Z.ltb_spec c (t_col t + 0)); cbn; try done; lia. }
  cbn [length] in Hc. cbn [t_puts foldl]. rw -/(t_puts str color _).
  have E : t_one color ch t = mkTerm (t_put (t_row t) (t_col t) (glyph ch color) (t_cell t)) (t_row t) (t_col t + 1).
  { rw /t_one /t_glyph. rewrite -> (proj2 (Z.eqb_neq ch 8)), (proj2 (Z.eqb_neq ch 10)), (proj2 (Z.eqb_neq (t_col t) 79)) by lia.
    rw /t_scroll. cbn [t_row]. by rewrite -> (proj2 (Z.eqb_neq (t_row t) 25)) by lia. }
  rw E. destruct (IH (mkTerm (t_put (t_row t) (t_col t) (glyph ch color) (t_cell t)) (t_row t) (t_col t + 1)))
    as (H1 & H2 & H3); cbn [t_row t_col t_cell length] in *; [lia..|].
  split; [exact H1|]. split; [rw H2; lia|]. intros r c. rw H3 /t_put /glyph.
  rewrite -> (proj2 (Z.ltb_lt ch 128)) by lia.
  destruct (Z.eqb_spec r (t_row t)); cbn [andb]; [|done].
  destruct (Z.eqb_spec c (t_col t)) as [->|Hne].
  - rewrite -> (proj2 (Z.leb_gt (t_col t + 1) (t_col t))) by lia. rw Z.leb_refl Z.sub_diag.
    by rewrite -> (proj2 (Z.ltb_lt (t_col t) (t_col t + Z.of_nat (S (length str))))) by lia.
  - destruct (Z.leb_spec (t_col t + 1) c), (Z.leb_spec (t_col t) c), (Z.ltb_spec c (t_col t + 1 + len str)),
      (Z.ltb_spec c (t_col t + Z.of_nat (S (length str)))); cbn [andb]; try done; try lia.
    have -> : Z.to_nat (c - t_col t) = S (Z.to_nat (c - (t_col t + 1))) by lia. done.
Qed.

(** printing a line.  A PUTS call with printable ASCII characters that fit in the
    current row puts exactly these characters, in the given colour on black, at the
    cursor, leaves every other cell of the screen as it was and moves the cursor behind
    the text. *)
Theorem puts_prints_line str color s t : console_inv s t -> Forall (fun c => 32 <= c < 128) str ->
  0 <= color < 256 -> t_col t + len str < 80 ->
  let s' := console_puts str color s in
  sys_row s' = sys_row s /\ sys_col s' = sys_col s + len str /\
  forall r c, 0 <= r < 25 -> 0 <= c < 80 -> cell s' r c =
    if (r =? sys_row s) && (sys_col s <=? c) && (c <? sys_col s + len str)
    then nth (Z.to_nat (c - sys_col s)) str 0 + 256 * (color mod 16) else cell s r c.
Proof.
  intros Hi Hp Hcol Hfit s'. destruct (Hi) as [_ (E1 & E2 & E3) [Hr Hc]].
  have Hok : call_ok (CallPuts str color).
  { split; [|done]. eapply Forall_impl; [exact Hp|]. cbn. intros ch. lia. }
  destruct (console_step_spec s t _ Hi Hok) as ([_ (F1 & F2 & F3) _] & _ & _). cbn [console_step term_step] in *.
  destruct (t_puts_line str color t Hp (proj1 Hc) Hfit (proj2 Hr)) as (G1 & G2 & G3).
  rw /s' F1 F2 G1 G2 E1 E2. split; [done|]. split; [done|]. intros r c Hr' Hc'. rw F3 // G3 E3 //.
Qed.

(** Characters from 128 on are drawn white on white.  The cell that
    [framebuffer_write] stores for such a character has attribute 0xFF whatever colours
    were asked for, because the [char] is sign-extended before the bitwise or. *)
Theorem framebuffer_write_high row col c fg bg s : 0 <= row < 25 -> 0 <= col < 80 -> 128 <= c < 256 ->
  0 <= fg < 256 -> 0 <= bg < 256 -> cell (framebuffer_write row col c fg bg s) row col = 0xFF00 + c.
Proof.
  intros Hr Hc Hch Hfg Hbg. rw /cell /framebuffer_write /FRAMEBUFFER_WIDTH. rewrite -> u16_id by lia.
  cbn [video set_video]. rw (Z.mul_comm row 80) -/(scr (80 * row + col)) ld16_st16; [lia|].
  set (a := u8 _). have Ha : 0 <= a < 256 by apply u8_range. clearbody a.
  have -> : s8 c = Z.lor (-256) c.
  { apply Z.eqb_eq. revert c Hch. apply (forall_range (fun c => s8 c =? Z.lor (-256) c) 128 128). by vm_compute. }
  have -> : Z.lor (Z.lor (-256) c) (Z.shiftl a 8) = Z.lor (-256) c.
  { apply Z.bits_inj' => n Hn. rw !Z.lor_spec Z.shiftl_spec //. change (-256) with (Z.shiftl (-1) 8).
    rw Z.shiftl_spec //. destruct (Z.lt_ge_cases n 8).
    - rewrite -> !(Z.testbit_neg_r _ (n - 8)) by lia. by rw orb_false_r.
    - rewrite -> Z.bits_m1 by lia. done. }
  apply Z.eqb_eq. revert c Hch. apply (forall_range (fun c => u16 (Z.lor (-256) c) =? 0xFF00 + c) 128 128).
  by vm_compute.
Qed.

(** a screen of zero bytes, cursor on the last row *)
Definition demo_console : Console := mkConsole (fun _ => 0) 24 70 [].
Definition demo_term : Term := mkTerm (fun _ _ => 0) 24 70.
Lemma demo_console_inv : console_inv demo_console demo_term.
Proof.
  split; [intros a; cbn; lia| |split; cbn; lia]. split; [done|]. split; [done|]. intros r c _ _. done.
Qed.

(** two lines that scroll the screen, then one character *)
Lemma console_refines_terminal_witness :
  let xs := [CallPuts (replicate 12 65 ++ [10; 66]) 7; CallPutchar 8 7] in
  let s' := console_step (foldl console_step demo_console xs) (CallPutchar 67 2) in
  let t' := term_step (foldl term_step demo_term xs) (CallPutchar 67 2) in
  (shows s' t' /\ t_ok t' /\ crtc_cursor s' = 80 * t_row t' + t_col t' /\
    forall a, ~ on_screen a -> video s' a = video demo_console a) /\
  t_row t' = 24 /\ t_col t' = 1 /\ t_cell t' 24 0 = 67 + 256 * 2 /\ t_cell t' 23 1 = 65 + 256 * 7.
Proof.
  cbn zeta. split; [|by vm_compute].
  apply (console_refines_terminal [CallPuts (replicate 12 65 ++ [10; 66]) 7; CallPutchar 8 7] (CallPutchar 67 2)).
  - exact demo_console_inv.
  - repeat constructor; cbn; lia.
  - cbn; lia.
  - done.
Defined.

Lemma puts_prints_line_witness :
  let s' := console_puts [72; 105] 7 demo_console in
  sys_row s' = 24 /\ sys_col s' = 70 + 2 /\
  forall r c, 0 <= r < 25 -> 0 <= c < 80 -> cell s' r c =
    if (r =? 24) && (70 <=? c) && (c <? 70 + 2)
    then nth (Z.to_nat (c - 70)) [72; 105] 0 + 256 * (7 mod 16) else cell demo_console r c.
Proof.
  apply (puts_prints_line [72; 105] 7 demo_console demo_term).
  - exact demo_console_inv.
  - repeat constructor; cbn; lia.
  - lia.
  - cbn. lia.
Defined.

Lemma framebuffer_write_high_witness : cell (framebuffer_write 3 4 0x80 2 0 demo_console) 3 4 = 0xFF80.
Proof. apply (framebuffer_write_high 3 4 0x80 2 0 demo_console); lia. Defined.
