(* ===== verification/Paging.v ===== *)
(** * Paging ([src/memory/paging.c], [src/header/memory/paging.h])

    The page directory with its bit fields, the frame manager and the three operations
    on them.  The invariant says that the frame map, its counter and the directory
    agree: a frame is marked used when it is the kernel's frame 0 or when exactly one
    directory entry maps it.  A page walk over the encoded entries is what the processor
    does with the directory. *)

From S2P Require Import Prelude.

Definition SYSTEM_MEMORY_MB : Z := 128.
Definition PAGE_ENTRY_COUNT : Z := 1024.
Definition PAGE_FRAME_SIZE : Z := Z.shiftl 1 (2 + 10 + 10).
Definition PAGE_FRAME_MAX_COUNT : Z := Z.shiftl SYSTEM_MEMORY_MB 20 / PAGE_FRAME_SIZE.

Record PageDirectoryEntry := mkPDE {
  present_bit : Z; write_bit : Z; user_bit : Z; pwt_bit : Z; pcd_bit : Z;
  accessed_bit : Z; dirty_bit : Z; use_pagesize_4_mb : Z; global_page : Z;
  available : Z; pat : Z; reserved_high : Z; lower_address : Z;
}.
Definition zero_entry : PageDirectoryEntry := mkPDE 0 0 0 0 0 0 0 0 0 0 0 0 0.
Definition kernel_entry : PageDirectoryEntry := mkPDE 1 1 0 0 0 0 0 1 0 0 0 0 0.
(** the entry [paging_allocate_user_page_frame] builds *)
Definition user_entry (lower : Z) : PageDirectoryEntry := mkPDE 1 1 1 0 0 0 0 1 0 0 0 0 lower.

(** the 32-bit word of an entry, with the fields in the order of the structure *)
Definition pde_word (e : PageDirectoryEntry) : Z :=
  present_bit e + 2 ^ 1 * write_bit e + 2 ^ 2 * user_bit e + 2 ^ 3 * pwt_bit e + 2 ^ 4 * pcd_bit e +
  2 ^ 5 * accessed_bit e + 2 ^ 6 * dirty_bit e + 2 ^ 7 * use_pagesize_4_mb e + 2 ^ 8 * global_page e +
  2 ^ 9 * available e + 2 ^ 12 * pat e + 2 ^ 13 * reserved_high e + 2 ^ 22 * lower_address e.

(** the directory in use, [page_manager_state], and the addresses flushed from the TLB
    ([invlpg], newest last) *)
Record Paging := mkPaging {
  page_dir : list PageDirectoryEntry;
  page_frame_map : list bool;
  free_page_frame_count : Z;
  flushed : list Z;
}.

Definition _paging_kernel_page_directory : list PageDirectoryEntry :=
  <[768%nat := kernel_entry]> (<[0%nat := kernel_entry]> (replicate 1024 zero_entry)).
Definition page_manager_state : list bool * Z := (true :: replicate 31 false, PAGE_FRAME_MAX_COUNT - 1).
Definition initial_paging : Paging :=
  mkPaging _paging_kernel_page_directory page_manager_state.1 page_manager_state.2 [].

Definition flush_single_tlb (virtual_addr : Z) : M Paging unit :=
  modify (fun s => mkPaging (page_dir s) (page_frame_map s) (free_page_frame_count s) (flushed s ++ [virtual_addr])).
Definition set_frame (i : Z) (b : bool) (d : Z) : M Paging unit := fun s =>
  m ← arr_set (page_frame_map s) i b;
  Ok (tt, mkPaging (page_dir s) m (u32 (free_page_frame_count s + d)) (flushed s)).
Definition set_entry (i : Z) (e : PageDirectoryEntry) : M Paging unit := fun s =>
  t ← arr_set (page_dir s) i e;
  Ok (tt, mkPaging t (page_frame_map s) (free_page_frame_count s) (flushed s)).
Definition get_entry (i : Z) : M Paging PageDirectoryEntry := fun s =>
  e ← arr_get (page_dir s) i; Ok (e, s).
Definition get_frame (i : Z) : M Paging bool := fun s => b ← arr_get (page_frame_map s) i; Ok (b, s).

Definition paging_allocate_check (amount : Z) (s : Paging) : bool :=
  let required_frames := u32 (amount + PAGE_FRAME_SIZE - 1) / PAGE_FRAME_SIZE in
  required_frames <=? free_page_frame_count s.

Definition page_index (virtual_addr : Z) : Z := Z.land (Z.shiftr virtual_addr 22) 0x3FF.

(** [for (i = 1; i < PAGE_FRAME_MAX_COUNT; i++)], from frame [i], [n] rounds left *)
Fixpoint find_frame (n : nat) (i : Z) : M Paging (option Z) :=
  match n with
  | O => mret None
  | S n => b ← get_frame i; if negb b then mret (Some i) else find_frame n (i + 1)
  end.

Definition paging_allocate_user_page_frame (virtual_addr : Z) : M Paging bool :=
  let idx := page_index virtual_addr in
  e ← get_entry idx;
  if negb (present_bit e =? 0) then mret false
  else
    found ← find_frame (Z.to_nat (PAGE_FRAME_MAX_COUNT - 1)) 1;
    match found with
    | None => mret false
    | Some physical_frame_idx =>
      set_frame physical_frame_idx true (-1);;
      let physical_addr := u32 (physical_frame_idx * PAGE_FRAME_SIZE) in
      set_entry idx (user_entry (Z.land (Z.shiftr physical_addr 22) 0x3FF));;
      flush_single_tlb virtual_addr;;
      mret true
    end.

Definition paging_free_user_page_frame (virtual_addr : Z) : M Paging bool :=
  let idx := page_index virtual_addr in
  e ← get_entry idx;
  if present_bit e =? 0 then mret false
  else
    let physical_frame_idx := lower_address e in
    if PAGE_FRAME_MAX_COUNT <=? physical_frame_idx then mret false
    else if physical_frame_idx =? 0 then mret false
    else
      used ← get_frame physical_frame_idx;
      (if (used : bool) then set_frame physical_frame_idx false 1 else mret tt);;
      set_entry idx zero_entry;;
      flush_single_tlb virtual_addr;;
      mret true.

(** ** What the processor does with the directory: a walk for 4 MiB pages *)
Definition walk (dir : list PageDirectoryEntry) (va : Z) : option Z :=
  match dir !! Z.to_nat (va / 2 ^ 22) with
  | Some e =>
    let w := pde_word e in
    if Z.testbit w 0 && Z.testbit w 7 then Some (w / 2 ^ 22 * 2 ^ 22 + va mod 2 ^ 22) else None
  | None => None
  end.

(** ** The invariant *)
Fixpoint count_free (l : list bool) : Z :=
  match l with [] => 0 | b :: l => (if b : bool then 0 else 1) + count_free l end.
(** entry [i] is present and maps frame [f] *)
Definition maps (dir : list PageDirectoryEntry) (i : nat) (f : Z) : Prop :=
  exists e, dir !! i = Some e /\ present_bit e <> 0 /\ lower_address e = f.

Record paging_inv (s : Paging) : Prop := {
  pg_dir : length (page_dir s) = 1024%nat;
  pg_map : length (page_frame_map s) = 32%nat;
  pg_kernel : page_frame_map s !! 0%nat = Some true;
  pg_count : free_page_frame_count s = count_free (page_frame_map s);
  pg_range i f : maps (page_dir s) i f -> 0 <= f < 32;
  pg_used i f : maps (page_dir s) i f -> page_frame_map s !! Z.to_nat f = Some true;
  pg_once i j f : maps (page_dir s) i f -> maps (page_dir s) j f -> f <> 0 -> i = j;
  pg_leak f : 0 < f < 32 -> page_frame_map s !! Z.to_nat f = Some true -> exists i, maps (page_dir s) i f;
}.

(** ** Counting free frames *)
Lemma count_free_range l : 0 <= count_free l <= len l.
Proof. induction l as [|b l IH]; cbn; [lia|]. destruct b; lia. Qed.

Definition free_of (b : bool) : Z := if b then 0 else 1.
Lemma count_free_insert l (i : nat) b b' : l !! i = Some b ->
  count_free (<[i := b']> l) = count_free l - free_of b + free_of b'.
Proof.
  revert i. induction l as [|x l IH] => i; [done|]. destruct i as [|i]; cbn.
  - intros [= ->]. rw /free_of. destruct b, b'; lia.
  - intros E. rw (IH _ E). lia.
Qed.
Lemma count_free_none l : (forall i b, l !! i = Some b -> b = true) -> count_free l = 0.
Proof.
  induction l as [|x l IH] => Hl; [done|]. cbn. rw (Hl 0%nat x) // IH //. intros i b E. by apply (Hl (S i)).
Qed.

(** ** Steps *)
Lemma page_index_range va : 0 <= page_index va < 1024.
Proof. rw /page_index. change 0x3FF with (Z.ones 10). rewrite -> Z.land_ones by lia. by apply Z.mod_pos_bound. Qed.

Lemma maps_insert dir (i j : nat) e f : (i < length dir)%nat ->
  maps (<[i := e]> dir) j f <-> (j = i /\ present_bit e <> 0 /\ lower_address e = f) \/ (j <> i /\ maps dir j f).
Proof.
  intros Hi. rw /maps. destruct (decide (j = i)) as [->|Hne].
  - rewrite -> list_lookup_insert_eq by done. split.
    + intros (x & [= <-] & ? & ?). by left.
    + intros [(_ & ? & ?)|[? _]]; [by exists e|done].
  - rewrite -> list_lookup_insert_ne by done. split; [by right|]. by intros [[? _]|[_ ?]].
Qed.

Lemma find_frame_spec n i s : 0 <= i -> i + Z.of_nat n <= len (page_frame_map s) ->
  wp (find_frame n i) (fun r s' => s' = s /\
    match r with
    | Some f => i <= f < i + Z.of_nat n /\ page_frame_map s !! Z.to_nat f = Some false
    | None => forall k, i <= k < i + Z.of_nat n -> page_frame_map s !! Z.to_nat k = Some true
    end) s.
Proof.
  revert i. induction n as [|n IH] => i Hi Hn; cbn [find_frame].
  { apply wp_ret. split; [done|]. intros k Hk. lia. }
  destruct (lookup_lt_is_Some_2 (page_frame_map s) (Z.to_nat i)) as [b E]; [lia|].
  apply wp_bind. eapply wp_intro; [rw /get_frame (arr_get_ok _ _ _ Hi E); reflexivity|].
  destruct b; cbn [negb].
  - eapply wp_mono; [apply IH; lia|]. intros [f|] s' [-> H]; split; try done.
    + split; [lia|apply H].
    + intros k Hk. destruct (decide (k = i)) as [->|]; [done|]. apply H. lia.
  - apply wp_ret. split; [done|]. split; [lia|done].
Qed.

(** no frame is free in the map exactly when the counter is zero *)
Lemma all_used s : paging_inv s -> (forall k, 1 <= k < 32 -> page_frame_map s !! Z.to_nat k = Some true) ->
  free_page_frame_count s = 0.
Proof.
  intros [Hd Hm Hk Hc _ _ _ _] Hall. rw Hc. apply count_free_none => i b E.
  have Hi : (i < 32)%nat by rw -Hm; eapply lookup_lt_Some.
  destruct (decide (i = 0%nat)) as [->|]; [congruence|].
  have A := Hall (Z.of_nat i). rw Nat2Z.id in A. rw A in E; [lia|]. congruence.
Qed.

Lemma physical_entry f : 0 <= f < 32 ->
  Z.land (Z.shiftr (u32 (f * PAGE_FRAME_SIZE)) 22) 0x3FF = f.
Proof.
  intros Hf. change PAGE_FRAME_SIZE with (2 ^ 22). rewrite -> u32_id, Z.shiftr_div_pow2, Z.div_mul by lia.
  change 0x3FF with (Z.ones 10). rewrite -> Z.land_ones by lia. by rewrite -> Z.mod_small by lia.
Qed.

(** ** Allocation *)
Definition mapped (s : Paging) (va : Z) : Prop := exists f, maps (page_dir s) (Z.to_nat (page_index va)) f.
Definition allocated_frame (s : Paging) (va f : Z) (s' : Paging) : Prop :=
  0 < f < 32 /\ page_frame_map s !! Z.to_nat f = Some false /\
  s' = mkPaging (<[Z.to_nat (page_index va) := user_entry f]> (page_dir s))
         (<[Z.to_nat f := true]> (page_frame_map s)) (free_page_frame_count s - 1) (flushed s ++ [va]).

Lemma entry_of s va : paging_inv s -> exists e, page_dir s !! Z.to_nat (page_index va) = Some e /\
  forall A (k : PageDirectoryEntry -> M Paging A), (get_entry (page_index va) ≫= k) s = k e s.
Proof.
  intros Hi. have Hr := page_index_range va. have Hd := pg_dir s Hi.
  destruct (lookup_lt_is_Some_2 (page_dir s) (Z.to_nat (page_index va))) as [e E]; [lia|].
  exists e. split; [done|]. intros A k. rw /mbind /M_bind /get_entry.
  by rewrite -> (arr_get_ok _ _ _ (proj1 Hr) E).
Qed.

Lemma allocate_inv s va f s' : paging_inv s -> ~ mapped s va -> allocated_frame s va f s' -> paging_inv s'.
Proof.
  intros [Hd Hm Hk Hc Hra Hu Ho Hl] Hno (Hf & Hfree & ->). have Hr := page_index_range va.
  have Hi : (Z.to_nat (page_index va) < length (page_dir s))%nat by lia.
  have Hfl : (Z.to_nat f < length (page_frame_map s))%nat by lia.
  have Hnew i : ~ maps (page_dir s) i f.
  { intros Hmf. have A := Hu _ _ Hmf. congruence. }
  split; cbn [page_dir page_frame_map free_page_frame_count].
  - by rw length_insert.
  - by rw length_insert.
  - rewrite -> list_lookup_insert_ne by lia. done.
  - rw (count_free_insert _ _ false) // Hc /free_of. lia.
  - intros i g. rw maps_insert //. intros [(_ & _ & <-)|[_ Hg]]; [cbn; lia|by eapply Hra].
  - intros i g. rw maps_insert //. intros [(_ & _ & <-)|[_ Hg]]; cbn.
    + by rewrite -> list_lookup_insert_eq by done.
    + rewrite -> list_lookup_insert_ne; [by eapply Hu|]. intros E. apply (Hnew i).
      have A := Hra _ _ Hg. by have -> : f = g by lia.
  - intros i j g. rw !maps_insert //. intros [(-> & _ & Eg)|[Hne Hg]] [(-> & _ & Eg')|[Hne' Hg']] H0; cbn in *; try done.
    + subst. by destruct (Hnew j).
    + subst. by destruct (Hnew i).
    + by eapply Ho.
  - intros g Hg. destruct (decide (g = f)) as [->|Hne].
    + intros _. exists (Z.to_nat (page_index va)). rw maps_insert //. by left.
    + rewrite -> list_lookup_insert_ne by lia. intros E. destruct (Hl g Hg E) as [i Hmi].
      exists i. rw maps_insert //. right. split; [|done]. intros ->. apply Hno. by exists g.
Qed.

Lemma allocate_spec s va : paging_inv s ->
  wp (paging_allocate_user_page_frame va) (fun r s' =>
    if (r : bool) then ~ mapped s va /\ exists f, allocated_frame s va f s'
    else s' = s /\ (mapped s va \/ free_page_frame_count s = 0)) s.
Proof.
  intros Hi. have Hr := page_index_range va. destruct (entry_of s va Hi) as (e & E & Hget).
  rw /wp /paging_allocate_user_page_frame Hget. destruct (Z.eqb_spec (present_bit e) 0) as [Ep|Ep]; cbn [negb].
  - have Hno : ~ mapped s va.
    { intros (f & e' & E' & Hp & _). congruence. }
    have Hlen := pg_map s Hi. change (Z.to_nat (PAGE_FRAME_MAX_COUNT - 1)) with 31%nat.
    destruct (wp_elim _ _ _ (find_frame_spec 31 1 s ltac:(lia) ltac:(lia))) as (r & s' & Er & -> & Hf).
    rw /mbind /M_bind Er. destruct r as [f|].
    + destruct Hf as [Hf Hfree]. rw /set_frame /set_entry /flush_single_tlb.
      rewrite -> arr_set_ok by lia. cbn [mbind res_bind page_dir page_frame_map free_page_frame_count flushed].
      rewrite -> arr_set_ok by (rw (pg_dir s Hi); lia). cbn. split; [done|]. exists f.
      split; [lia|]. split; [done|]. rewrite -> physical_entry by lia. f_equal.
      have A := count_free_insert _ _ _ true Hfree. have B := count_free_range (<[Z.to_nat f := true]> (page_frame_map s)).
      have C := count_free_range (page_frame_map s). rw (pg_count s Hi). unfold free_of in A. specialize (B list_insert).
      rewrite -> u32_id by lia. lia.
    + split; [done|]. right. apply all_used; [done|]. intros k Hk. apply Hf. lia.
  - split; [done|]. left. exists (lower_address e), e. done.
Qed.

(** ** Release *)
Definition freed_frame (s : Paging) (va f : Z) (s' : Paging) : Prop :=
  0 < f < 32 /\ maps (page_dir s) (Z.to_nat (page_index va)) f /\
  s' = mkPaging (<[Z.to_nat (page_index va) := zero_entry]> (page_dir s))
         (<[Z.to_nat f := false]> (page_frame_map s)) (free_page_frame_count s + 1) (flushed s ++ [va]).

Lemma free_inv s va f s' : paging_inv s -> freed_frame s va f s' -> paging_inv s'.
Proof.
  intros [Hd Hm Hk Hc Hra Hu Ho Hl] (Hf & Hmf & ->). have Hr := page_index_range va.
  have Hi : (Z.to_nat (page_index va) < length (page_dir s))%nat by lia.
  have Hfl : (Z.to_nat f < length (page_frame_map s))%nat by lia.
  have Hused := Hu _ _ Hmf.
  split; cbn [page_dir page_frame_map free_page_frame_count].
  - by rw length_insert.
  - by rw length_insert.
  - rewrite -> list_lookup_insert_ne by lia. done.
  - rw (count_free_insert _ _ true) // Hc /free_of. lia.
  - intros i g. rw maps_insert //. intros [(_ & ? & _)|[_ Hg]]; [done|by eapply Hra].
  - intros i g. rw maps_insert //. intros [(_ & ? & _)|[Hne Hg]]; [done|].
    rewrite -> list_lookup_insert_ne; [by eapply Hu|]. intros E. apply Hne.
    have A := Hra _ _ Hg. have B : f = g by lia. subst. by apply (Ho _ _ g); [| |lia].
  - intros i j g. rw !maps_insert //. intros [(_ & ? & _)|[_ Hg]] [(_ & ? & _)|[_ Hg']] Hg0; try done. by eapply Ho.
  - intros g Hg. destruct (decide (g = f)) as [->|Hne].
    + by rewrite -> list_lookup_insert_eq by done.
    + rewrite -> list_lookup_insert_ne by lia. intros E. destruct (Hl g Hg E) as [i Hmi].
      exists i. rw maps_insert //. right. split; [|done]. intros ->. apply Hne.
      destruct Hmi as (e & E1 & _ & <-), Hmf as (e' & E2 & _ & <-). congruence.
Qed.

Lemma free_spec s va : paging_inv s ->
  wp (paging_free_user_page_frame va) (fun r s' =>
    if (r : bool) then exists f, freed_frame s va f s'
    else s' = s /\ (~ mapped s va \/ maps (page_dir s) (Z.to_nat (page_index va)) 0)) s.
Proof.
  intros Hi. have Hr := page_index_range va. destruct (entry_of s va Hi) as (e & E & Hget).
  rw /wp /paging_free_user_page_frame Hget. destruct (Z.eqb_spec (present_bit e) 0) as [Ep|Ep].
  { split; [done|]. left. intros (f & e' & E' & Hp & _). congruence. }
  have Hmf : maps (page_dir s) (Z.to_nat (page_index va)) (lower_address e) by exists e.
  have Hf := pg_range s Hi _ _ Hmf. have Hu := pg_used s Hi _ _ Hmf.
  change PAGE_FRAME_MAX_COUNT with 32. rewrite -> (proj2 (Z.leb_gt 32 _)) by lia.
  destruct (Z.eqb_spec (lower_address e) 0) as [E0|E0].
  { split; [done|]. right. by rw -E0. }
  have Hlen := pg_map s Hi. rw /get_frame /mbind /M_bind. rewrite -> (arr_get_ok _ _ _ (proj1 Hf) Hu).
  cbn [res_bind mbind]. rw /set_frame /set_entry /flush_single_tlb. rewrite -> arr_set_ok by lia.
  cbn [mbind res_bind page_dir page_frame_map free_page_frame_count flushed].
  rewrite -> arr_set_ok by (rw (pg_dir s Hi); lia). cbn. exists (lower_address e).
  split; [lia|]. split; [done|]. f_equal. rw (pg_count s Hi). have C := count_free_range (page_frame_map s).
  rewrite -> u32_id by lia. lia.
Qed.

(** ** Runs of the manager *)
Inductive paging_op : Type :=
| Alloc (va : Z)
| Free (va : Z).
Definition paging_step (o : paging_op) : M Paging bool :=
  match o with
  | Alloc va => paging_allocate_user_page_frame va
  | Free va => paging_free_user_page_frame va
  end.
Fixpoint paging_run (os : list paging_op) : M Paging unit :=
  match os with [] => mret tt | o :: os => paging_step o;; paging_run os end.

(** the two windows on the first 4 MiB *)
Definition kernel_windows (dir : list PageDirectoryEntry) : Prop :=
  dir !! 0%nat = Some kernel_entry /\ dir !! 768%nat = Some kernel_entry.

Lemma allocate_window s va f s' i : allocated_frame s va f s' -> ~ mapped s va ->
  page_dir s !! i = Some kernel_entry -> page_dir s' !! i = Some kernel_entry.
Proof.
  intros (_ & _ & ->) Hno E. cbn. rewrite -> list_lookup_insert_ne; [done|]. intros <-.
  apply Hno. exists 0, kernel_entry. done.
Qed.
Lemma free_window s va f s' i : freed_frame s va f s' ->
  page_dir s !! i = Some kernel_entry -> page_dir s' !! i = Some kernel_entry.
Proof.
  intros (Hf & (e & E1 & _ & E2) & ->) E. cbn. rewrite -> list_lookup_insert_ne; [done|]. intros Ei.
  rw -Ei E1 in E. injection E as ->. cbn in E2. lia.
Qed.

Lemma paging_step_spec o s : paging_inv s -> kernel_windows (page_dir s) ->
  wp (paging_step o) (fun _ s' => paging_inv s' /\ kernel_windows (page_dir s')) s.
Proof.
  intros Hi [K1 K2]. destruct o as [va|va]; cbn [paging_step].
  - eapply wp_mono; [by apply allocate_spec|]. intros [|] s'; [|by intros [-> _]].
    intros (Hno & f & Ha). split; [by eapply allocate_inv|]. split; by eapply allocate_window.
  - eapply wp_mono; [by apply free_spec|]. intros [|] s'; [|by intros [-> _]].
    intros (f & Ha). split; [by eapply free_inv|]. split; by eapply free_window.
Qed.

Lemma paging_run_spec os s : paging_inv s -> kernel_windows (page_dir s) ->
  wp (paging_run os) (fun _ s' => paging_inv s' /\ kernel_windows (page_dir s')) s.
Proof.
  revert s. induction os as [|o os IH] => s Hi Hk; cbn [paging_run]; [by apply wp_ret|].
  apply wp_bind. eapply wp_mono; [by apply paging_step_spec|]. intros _ s1 [H1 H2]. by apply IH.
Qed.

Lemma initial_maps i f : maps (page_dir initial_paging) i f -> (i = 0%nat \/ i = 768%nat) /\ f = 0.
Proof.
  intros (e & E & Hp & <-). rw /initial_paging /_paging_kernel_page_directory in E. cbn [page_dir] in E.
  destruct (decide (i = 768%nat)) as [->|N1].
  { rewrite -> list_lookup_insert_eq in E by (rw length_insert length_replicate; lia).
    injection E as <-. split; [by right|done]. }
  rewrite -> list_lookup_insert_ne in E by done. destruct (decide (i = 0%nat)) as [->|N2].
  { rewrite -> list_lookup_insert_eq in E by (rw length_replicate; lia). injection E as <-. split; [by left|done]. }
  rewrite -> list_lookup_insert_ne in E by done. apply lookup_replicate in E as [-> _]. done.
Qed.

Lemma initial_paging_inv : paging_inv initial_paging.
Proof.
  split; try done.
  - intros i f Hm. destruct (initial_maps i f Hm) as [_ ->]. lia.
  - intros i f Hm. by destruct (initial_maps i f Hm) as [_ ->].
  - intros i j f Hm _ Hf. by destruct (initial_maps i f Hm).
  - intros f Hf E. exfalso. cbn [page_frame_map initial_paging page_manager_state fst] in E.
    destruct (Z.to_nat f) as [|k] eqn:Ek; [lia|]. change (replicate 31 false !! k = Some true) in E.
    apply lookup_replicate in E. by destruct E.
Qed.
Lemma initial_windows : kernel_windows (page_dir initial_paging).
Proof. split; vm_compute; reflexivity. Qed.

(** ** Walks *)
Lemma walk_entry dir va e f : 0 <= va < 2 ^ 32 -> dir !! Z.to_nat (page_index va) = Some e ->
  Z.testbit (pde_word e) 0 = true -> Z.testbit (pde_word e) 7 = true -> pde_word e / 2 ^ 22 = f ->
  walk dir va = Some (f * 2 ^ 22 + va mod 2 ^ 22).
Proof.
  intros Hva E H0 H7 <-. rw /walk. have <- : page_index va = va / 2 ^ 22.
  { rw /page_index. change 0x3FF with (Z.ones 10). rewrite -> Z.land_ones, Z.shiftr_div_pow2 by lia.
    apply Z.mod_small. split; [apply Z.div_pos; lia|apply Z.div_lt_upper_bound; lia]. }
  by rw E H0 H7.
Qed.

Lemma user_word f : 0 <= f < 32 -> Z.testbit (pde_word (user_entry f)) 0 = true /\
  Z.testbit (pde_word (user_entry f)) 7 = true /\ pde_word (user_entry f) / 2 ^ 22 = f.
Proof.
  intros Hf. rw -!Z.eqb_eq -!andb_true_iff andb_assoc. revert f Hf. apply (forall_range (fun f =>
    Z.testbit (pde_word (user_entry f)) 0 && Z.testbit (pde_word (user_entry f)) 7 &&
    (pde_word (user_entry f) / 2 ^ 22 =? f)) 0 32). by vm_compute.
Qed.

Lemma walk_window dir va : kernel_windows dir -> 0 <= va < 2 ^ 22 ->
  walk dir va = Some va /\ walk dir (0xC0000000 + va) = Some va.
Proof.
  intros [K1 K2] Hva. have A : page_index va = 0.
  { rw /page_index. rewrite -> Z.shiftr_div_pow2, Z.div_small by lia. done. }
  have B : page_index (0xC0000000 + va) = 768.
  { rw /page_index. rewrite -> Z.shiftr_div_pow2 by lia. change 0xC0000000 with (768 * 2 ^ 22).
    rewrite -> Z.add_comm, Z.div_add, Z.div_small by lia. done. }
  have C : (0xC0000000 + va) mod 2 ^ 22 = va.
  { change 0xC0000000 with (768 * 2 ^ 22). rewrite -> Z.add_comm, Z_mod_plus_full. by apply Z.mod_small. }
  split.
  - rewrite -> (walk_entry _ _ kernel_entry 0); [by rewrite -> Z.mod_small by lia|lia|by rw A|done|done|done].
  - rewrite -> (walk_entry _ _ kernel_entry 0); [by rw C|lia|by rw B|done|done|done].
Qed.

(** ** Properties *)
(** C18: every state the memory manager reaches is sound.  From the state at start-up,
    after any sequence of allocations and releases, whatever the addresses: the counter
    is the number of free frames, a frame is used exactly when it is frame 0 or one
    entry maps it, no two entries share a frame other than 0, and the first 4 MiB stay
    visible at 0 and at 0xC0000000 (so 0xB8000 and 0xC00B8000 are the same bytes). *)
Theorem reachable_paging os :
  wp (paging_run os) (fun _ s' => paging_inv s' /\
    forall va, 0 <= va < 2 ^ 22 -> walk (page_dir s') va = Some va /\ walk (page_dir s') (0xC0000000 + va) = Some va)
    initial_paging.
Proof.
  eapply wp_mono; [apply paging_run_spec; [apply initial_paging_inv|apply initial_windows]|].
  intros _ s' [Hi Hk]. split; [done|]. intros va Hva. by apply walk_window.
Qed.

(** C30: allocation.  It succeeds exactly when the address is not mapped and a frame is
    free.  Then the page walk sends the 4 MiB around the address to a frame that was
    free and that no other entry maps, every address of another page walks as before,
    one frame less is free and the address is flushed from the TLB; otherwise nothing
    changes. *)
Theorem allocate_maps s va : paging_inv s -> 0 <= va < 2 ^ 32 ->
  wp (paging_allocate_user_page_frame va) (fun r s' => paging_inv s' /\
    (r = true <-> ~ mapped s va /\ free_page_frame_count s <> 0) /\
    if (r : bool) then exists f, 0 < f < 32 /\ (forall i, ~ maps (page_dir s) i f) /\
      walk (page_dir s') va = Some (f * PAGE_FRAME_SIZE + va mod PAGE_FRAME_SIZE) /\
      (forall va', 0 <= va' < 2 ^ 32 -> va' / PAGE_FRAME_SIZE <> va / PAGE_FRAME_SIZE ->
        walk (page_dir s') va' = walk (page_dir s) va') /\
      free_page_frame_count s' = free_page_frame_count s - 1 /\ flushed s' = flushed s ++ [va]
    else s' = s) s.
Proof.
  intros Hi Hva. eapply wp_mono; [by apply allocate_spec|]. have Hr := page_index_range va.
  intros [|] s'; [|by intros [-> [Hm|Hz]]; (split; [done|split; [split; [done|by intros [? ?]]|done]])].
  intros (Hno & f & Ha). split; [by eapply allocate_inv|]. destruct (Ha) as (Hf & Hfree & ->).
  have Hx : page_index va = va / 2 ^ 22.
  { rw /page_index. change 0x3FF with (Z.ones 10). rewrite -> Z.land_ones, Z.shiftr_div_pow2 by lia.
    apply Z.mod_small. split; [apply Z.div_pos; lia|apply Z.div_lt_upper_bound; lia]. }
  have Hi' : (Z.to_nat (page_index va) < length (page_dir s))%nat by rw (pg_dir s Hi); lia.
  split.
  { split; [intros _|done]. split; [done|]. rw (pg_count s Hi) => E.
    have A := count_free_insert _ _ _ true Hfree. have B := count_free_range (<[Z.to_nat f := true]> (page_frame_map s)).
    specialize (B list_insert). unfold free_of in A. lia. }
  exists f. split; [done|]. split; [intros i Hm; have A := pg_used s Hi _ _ Hm; congruence|].
  cbn [page_dir free_page_frame_count flushed]. change PAGE_FRAME_SIZE with (2 ^ 22).
  destruct (user_word f) as (W1 & W2 & W3); [lia|]. split.
  { apply (walk_entry _ _ (user_entry f)); try done. by rewrite -> list_lookup_insert_eq by done. }
  split; [|done]. intros va' Hva' Hne. rw /walk. rewrite -> list_lookup_insert_ne; [done|]. rw Hx.
  have D1 : 0 <= va' / 2 ^ 22 by apply Z.div_pos; lia. have D2 : 0 <= va / 2 ^ 22 by apply Z.div_pos; lia. lia.
Qed.

(** Release undoes allocation.  After a successful allocation at an address whose
    entry was zero, the release of the address succeeds and restores the directory, the
    frame map and the counter. *)
Theorem allocate_then_free s va : paging_inv s ->
  page_dir s !! Z.to_nat (page_index va) = Some zero_entry -> free_page_frame_count s <> 0 ->
  wp (a ← paging_allocate_user_page_frame va; b ← paging_free_user_page_frame va; mret (a, b))
    (fun ab s' => ab = (true, true) /\ page_dir s' = page_dir s /\ page_frame_map s' = page_frame_map s /\
      free_page_frame_count s' = free_page_frame_count s) s.
Proof.
  intros Hi Hz Hfree. have Hr := page_index_range va. have Hno : ~ mapped s va.
  { intros (f & e & E & Hp & _). rw Hz in E. by injection E as <-. }
  apply wp_bind. eapply wp_mono; [by apply allocate_spec|]. intros [|] s1; [|intros [_ [Hx|Hx]]; contradiction].
  intros (_ & f & Ha). apply wp_bind. have Hi1 := allocate_inv _ _ _ _ Hi Hno Ha.
  destruct (Ha) as (Hf & Hff & ->).
  have Hi' : (Z.to_nat (page_index va) < length (page_dir s))%nat by rw (pg_dir s Hi); lia.
  have Hm : maps (<[Z.to_nat (page_index va) := user_entry f]> (page_dir s)) (Z.to_nat (page_index va)) f.
  { rw maps_insert //. by left. }
  eapply wp_mono; [by apply free_spec|]. intros [|] s2; cbn [page_dir].
  - intros (f' & Hf' & Hm' & ->). apply wp_ret. cbn [page_dir page_frame_map free_page_frame_count].
    have -> : f' = f. { destruct Hm as (e & E & _ & <-), Hm' as (e' & E' & _ & <-). cbn in E'. congruence. }
    rw !list_insert_insert_eq !list_insert_id //. split; [done|]. split; [done|]. split; [done|]. lia.
  - intros [_ [Hbad|Hbad]]; exfalso.
    + apply Hbad. by exists f.
    + cbn in Hbad. destruct Hm as (e & E & _ & Ef), Hbad as (e' & E' & _ & E0). have Ee : e = e' by congruence. subst. lia.
Qed.

(** the memory check is exact below the wrap-around.  For requests of at most
    2^32 - 4 MiB bytes, [paging_allocate_check] answers whether the free frames hold
    that many bytes. *)
Theorem allocate_check_exact s amount : paging_inv s -> 0 <= amount <= 2 ^ 32 - PAGE_FRAME_SIZE ->
  (paging_allocate_check amount s = true <-> amount <= free_page_frame_count s * PAGE_FRAME_SIZE).
Proof.
  intros Hi Ha. rw /paging_allocate_check Z.leb_le. change PAGE_FRAME_SIZE with (2 ^ 22) in *.
  rewrite -> u32_id by lia. have A := Z.div_mod (amount + 2 ^ 22 - 1) (2 ^ 22).
  have B := Z.mod_pos_bound (amount + 2 ^ 22 - 1) (2 ^ 22). lia.
Qed.

(** The memory check wraps around.  For every request within 4 MiB of the 32-bit
    limit the sum overflows, zero frames are computed to be needed, and
    [paging_allocate_check] answers true even when no frame is free. *)
Theorem allocate_check_overflow s amount : paging_inv s -> 2 ^ 32 - PAGE_FRAME_SIZE < amount < 2 ^ 32 ->
  paging_allocate_check amount s = true.
Proof.
  intros Hi Ha. rw /paging_allocate_check Z.leb_le. change PAGE_FRAME_SIZE with (2 ^ 22) in *.
  have -> : u32 (amount + 2 ^ 22 - 1) = amount + 2 ^ 22 - 1 - 2 ^ 32.
  { rw /u32. rewrite <- (Z_mod_plus_full _ (-1)), Z.mod_small by lia. lia. }
  rewrite -> Z.div_small by lia. rw (pg_count s Hi). apply count_free_range.
Qed.

(** the user stack at 8 MiB on the directory of start-up *)
Lemma initial_count : free_page_frame_count initial_paging <> 0.
Proof. done. Qed.

Lemma reachable_paging_witness :
  wp (paging_run [Alloc 0x800000; Alloc 0x400000; Free 0x800000; Free 0x123])
    (fun _ s' => paging_inv s' /\ walk (page_dir s') (0xC0000000 + 0xB8000) = Some 0xB8000) initial_paging.
Proof.
  eapply wp_mono; [apply (reachable_paging [Alloc 0x800000; Alloc 0x400000; Free 0x800000; Free 0x123])|].
  intros _ s' [Hi Hw]. split; [exact Hi|]. apply Hw. lia.
Defined.

Lemma allocate_maps_witness :
  wp (paging_allocate_user_page_frame 0x800000) (fun r s' => paging_inv s' /\
    (r = true <-> ~ mapped initial_paging 0x800000 /\ free_page_frame_count initial_paging <> 0) /\
    if (r : bool) then exists f, 0 < f < 32 /\ (forall i, ~ maps (page_dir initial_paging) i f) /\
      walk (page_dir s') 0x800000 = Some (f * PAGE_FRAME_SIZE + 0x800000 mod PAGE_FRAME_SIZE) /\
      (forall va', 0 <= va' < 2 ^ 32 -> va' / PAGE_FRAME_SIZE <> 0x800000 / PAGE_FRAME_SIZE ->
        walk (page_dir s') va' = walk (page_dir initial_paging) va') /\
      free_page_frame_count s' = free_page_frame_count initial_paging - 1 /\
      flushed s' = flushed initial_paging ++ [0x800000]
    else s' = initial_paging) initial_paging.
Proof. apply (allocate_maps initial_paging 0x800000); [exact initial_paging_inv|lia]. Defined.

Lemma allocate_then_free_witness :
  wp (a ← paging_allocate_user_page_frame 0x800000; b ← paging_free_user_page_frame 0x800000; mret (a, b))
    (fun ab s' => ab = (true, true) /\ page_dir s' = page_dir initial_paging /\
      page_frame_map s' = page_frame_map initial_paging /\
      free_page_frame_count s' = free_page_frame_count initial_paging) initial_paging.
Proof.
  apply (allocate_then_free initial_paging 0x800000); [exact initial_paging_inv| |exact initial_count].
  vm_compute. reflexivity.
Defined.

Lemma allocate_check_exact_witness :
  paging_allocate_check 0x800000 initial_paging = true <-> 0x800000 <= 31 * PAGE_FRAME_SIZE.
Proof.
  apply (allocate_check_exact initial_paging 0x800000); [exact initial_paging_inv|].
  change PAGE_FRAME_SIZE with (2 ^ 22). lia.
Defined.

Lemma allocate_check_overflow_witness : paging_allocate_check 0xFFFFFFFF initial_paging = true.
Proof.
  apply (allocate_check_overflow initial_paging 0xFFFFFFFF); [exact initial_paging_inv|].
  change PAGE_FRAME_SIZE with (2 ^ 22). lia.
Defined.
