(* ===== verification/BitFields.v ===== *)
(** * Packed bit fields

    The value of a structure of bit fields laid out from the least significant bit, as
    the compiler places them in a packed structure, and the extraction of the fields
    from the value, as the processor reads them. *)

From S2P Require Import Prelude.

(** fields as (width, value), least significant first *)
Fixpoint pack (fs : list (Z * Z)) : Z :=
  match fs with [] => 0 | (w, v) :: fs => v + 2 ^ w * pack fs end.
Fixpoint unpack (ws : list Z) (x : Z) : list Z :=
  match ws with [] => [] | w :: ws => x mod 2 ^ w :: unpack ws (x / 2 ^ w) end.

(** every value fits in its field *)
Definition fits (f : Z * Z) : Prop := 0 <= f.1 /\ 0 <= f.2 < 2 ^ f.1.

Lemma pack_range fs : Forall fits fs -> 0 <= pack fs < 2 ^ (foldr Z.add 0 fs.*1) /\ 0 <= foldr Z.add 0 fs.*1.
Proof.
  induction 1 as [|[w v] fs [Hw Hv] Hfs IH]; cbn in *; [lia|]. destruct IH as [IH1 IH2].
  split; [|lia]. rewrite -> Z.pow_add_r by lia. nia.
Qed.

Lemma unpack_pack fs : Forall fits fs -> unpack fs.*1 (pack fs) = fs.*2.
Proof.
  induction 1 as [|[w v] fs [Hw Hv] Hfs IH]; [done|]. cbn in *.
  have Hp : 0 < 2 ^ w by apply Z.pow_pos_nonneg; lia. f_equal.
  - rw (Z.mul_comm (2 ^ w)) Z_mod_plus_full. by apply Z.mod_small.
  - rewrite -> (Z.mul_comm (2 ^ w)), Z.div_add, Z.div_small by lia. by rw Z.add_0_l.
Qed.

(** an address split into its low 16 bits and two bytes, and into two 16-bit halves *)
Lemma split_16_8_8 a : 0 <= a < 2 ^ 32 ->
  Z.land a 0xFFFF + 2 ^ 16 * Z.land (Z.shiftr a 16) 0xFF + 2 ^ 24 * Z.land (Z.shiftr a 24) 0xFF = a /\
  0 <= Z.land a 0xFFFF < 2 ^ 16 /\ 0 <= Z.land (Z.shiftr a 16) 0xFF < 2 ^ 8 /\ 0 <= Z.land (Z.shiftr a 24) 0xFF < 2 ^ 8.
Proof.
  intros Ha. change 0xFFFF with (Z.ones 16). change 0xFF with (Z.ones 8).
  rewrite -> !Z.land_ones, !Z.shiftr_div_pow2 by lia.
  have E : a / 2 ^ 24 = a / 2 ^ 16 / 2 ^ 8 by rewrite -> Z.div_div by lia.
  have A := Z.div_mod a (2 ^ 16). have B := Z.div_mod (a / 2 ^ 16) (2 ^ 8).
  have C : 0 <= a / 2 ^ 24 < 2 ^ 8. { split; [apply Z.div_pos; lia|apply Z.div_lt_upper_bound; lia]. }
  have D := Z.mod_pos_bound a (2 ^ 16). have F := Z.mod_pos_bound (a / 2 ^ 16) (2 ^ 8).
  rewrite -> (Z.mod_small (a / 2 ^ 24)) by lia. lia.
Qed.
Lemma split_16_16 a : 0 <= a < 2 ^ 32 ->
  Z.land a 0xFFFF + 2 ^ 16 * Z.shiftr a 16 = a /\ 0 <= Z.land a 0xFFFF < 2 ^ 16 /\ 0 <= Z.shiftr a 16 < 2 ^ 16.
Proof.
  intros Ha. change 0xFFFF with (Z.ones 16). rewrite -> Z.land_ones, Z.shiftr_div_pow2 by lia.
  have A := Z.div_mod a (2 ^ 16). have D := Z.mod_pos_bound a (2 ^ 16).
  have C : 0 <= a / 2 ^ 16 < 2 ^ 16. { split; [apply Z.div_pos; lia|apply Z.div_lt_upper_bound; lia]. }
  lia.
Qed.
