(* ===== verification/Gdt.v ===== *)
(** * Segments ([src/cpu/gdt.c], [src/header/cpu/gdt.h])

    The descriptor table with its bit fields, the task state segment and the functions
    that set them up; what the processor reads from them is the specification: base,
    limit, type and privilege of a descriptor word, and the I/O permission test of the
    task state segment. *)

From S2P Require Import Prelude BitFields.

Definition GDT_MAX_ENTRY_COUNT : Z := 32.
Definition GDT_KERNEL_CODE_SEGMENT_SELECTOR : Z := 0x8.
Definition GDT_KERNEL_DATA_SEGMENT_SELECTOR : Z := 0x10.
Definition GDT_USER_CODE_SEGMENT_SELECTOR : Z := 0x18.
Definition GDT_USER_DATA_SEGMENT_SELECTOR : Z := 0x20.
Definition GDT_TSS_SEGMENT_SELECTOR : Z := 0x28.

Record SegmentDescriptor := mkSeg {
  segment_low : Z; base_low : Z; base_mid : Z; type_bit : Z; non_system : Z; privilege : Z;
  valid_bit : Z; segment_high : Z; reserved_bit : Z; long_mode : Z; opr_32_bit : Z;
  granularity : Z; base_high : Z;
}.
Definition SegmentDescriptor_fields (d : SegmentDescriptor) : list (Z * Z) :=
  [(16, segment_low d); (16, base_low d); (8, base_mid d); (4, type_bit d); (1, non_system d);
   (2, privilege d); (1, valid_bit d); (4, segment_high d); (1, reserved_bit d); (1, long_mode d);
   (1, opr_32_bit d); (1, granularity d); (8, base_high d)].
Definition SegmentDescriptor_word (d : SegmentDescriptor) : Z := pack (SegmentDescriptor_fields d).

(** a designated initialiser leaves the fields it does not name at zero *)
Definition null_descriptor : SegmentDescriptor := mkSeg 0 0 0 0 0 0 0 0 0 0 0 0 0.
Definition flat_descriptor (type privilege : Z) : SegmentDescriptor :=
  mkSeg 0xFFFF 0 0 type 1 privilege 1 0 0 0 1 1 0.
Definition tss_descriptor : SegmentDescriptor := mkSeg 0 0 0 0x9 0 0 1 0 0 0 0 0 0.
Definition global_descriptor_table : list SegmentDescriptor :=
  [null_descriptor; flat_descriptor 0xA 0; flat_descriptor 0x2 0; flat_descriptor 0xA 3;
   flat_descriptor 0x2 3; tss_descriptor] ++ replicate 26 null_descriptor.

(** GDTR: the size and the address of the table *)
Definition _gdt_gdtr (table_address : Z) : Z * Z := (GDT_MAX_ENTRY_COUNT * 8 - 1, table_address).

(** the task state segment as its bytes: 25 words of 32 bits, then [trap] and [iomap_base] *)
Definition TSS_widths : list nat := replicate 25 4%nat ++ [2%nat; 2%nat].
Definition TSS_offset (field : nat) : Z := Z.of_nat (sum_list (take field TSS_widths)).
Definition sizeof_TSS : Z := TSS_offset 27.
Definition offset_esp0 : Z := TSS_offset 1.
Definition offset_ss0 : Z := TSS_offset 2.
Definition offset_iomap_base : Z := TSS_offset 26.

Record Cpu := mkCpu { g_tss : list Z; gdt : list SegmentDescriptor }.
Definition initial_cpu : Cpu := mkCpu (zeros 104) global_descriptor_table.

Definition st_tss (n : nat) (off v : Z) : M Cpu unit := fun s =>
  b ← st n (g_tss s) off v; Ok (tt, mkCpu b (gdt s)).
Definition update_gdt (i : Z) (f : SegmentDescriptor -> SegmentDescriptor) : M Cpu unit := fun s =>
  d ← arr_get (gdt s) i; t ← arr_set (gdt s) i (f d); Ok (tt, mkCpu (g_tss s) t).

(** [for (i = 0; i < sizeof(struct TSS); i++) tss_ptr[i] = 0;] *)
Fixpoint clear_tss (n : nat) (i : Z) : M Cpu unit :=
  match n with O => mret tt | S n => st_tss 1 i 0;; clear_tss n (i + 1) end.

(** [tss_address] is [&g_tss] *)
Definition init_tss (tss_address : Z) : M Cpu unit :=
  clear_tss (Z.to_nat sizeof_TSS) 0;;
  st_tss 4 offset_ss0 GDT_KERNEL_DATA_SEGMENT_SELECTOR;;
  let base := u32 tss_address in
  let limit := sizeof_TSS - 1 in
  update_gdt 5 (fun d =>
    mkSeg (Z.land limit 0xFFFF) (Z.land base 0xFFFF) (Z.land (Z.shiftr base 16) 0xFF) 0x9 0 0 1
      (Z.land (Z.shiftr limit 16) 0xF) (reserved_bit d) (long_mode d) (opr_32_bit d) (granularity d)
      (Z.land (Z.shiftr base 24) 0xFF)).
Definition set_kernel_stack (stack_addr : Z) : M Cpu unit := st_tss 4 offset_esp0 (u32 stack_addr).

(** ** What the processor reads *)
Record Segment := mkSegment {
  seg_base : Z; seg_limit : Z; seg_type : Z; seg_code_data : bool; seg_dpl : Z; seg_present : bool;
}.
(** the highest valid offset of the segment of a descriptor word *)
Definition segment_of_word (w : Z) : Segment :=
  match unpack [16; 16; 8; 4; 1; 2; 1; 4; 1; 1; 1; 1; 8] w with
  | [l0; b0; b1; t; s; dpl; p; l1; _; _; _; g; b2] =>
    let limit := l0 + 2 ^ 16 * l1 in
    mkSegment (b0 + 2 ^ 16 * b1 + 2 ^ 24 * b2) (if g =? 0 then limit else limit * 4096 + 4095)
      t (negb (s =? 0)) dpl (negb (p =? 0))
  | _ => mkSegment 0 0 0 false 0 false
  end.
Definition segment (s : Cpu) (selector : Z) : option Segment :=
  segment_of_word ∘ SegmentDescriptor_word <$> gdt s !! Z.to_nat (selector / 8).

(** the I/O permission test for one byte port at I/O privilege level 0: the processor
    reads two bytes of the bit map, which must lie within the limit of the segment *)
Definition io_permitted (tss : list Z) (limit port : Z) : bool :=
  match ld 2 tss offset_iomap_base with
  | Ok base =>
    let off := base + port / 8 in
    (off + 1 <=? limit) &&
    match ld 1 tss off with Ok b => negb (Z.testbit b (port mod 8)) | _ => false end
  | _ => false
  end.

(** ** Setting up *)
Lemma clear_tss_spec n i s : i + Z.of_nat n <= len (g_tss s) -> 0 <= i ->
  wp (clear_tss n i) (fun _ s' => gdt s' = gdt s /\
    g_tss s' = take (Z.to_nat i) (g_tss s) ++ zeros n ++ drop (Z.to_nat i + n) (g_tss s)) s.
Proof.
  revert i s. induction n as [|n IH] => i s Hn Hi; cbn [clear_tss].
  { apply wp_ret. split; [done|]. by rw /= Nat.add_0_r take_drop. }
  have E := take_drop (Z.to_nat i) (g_tss s). have L : length (take (Z.to_nat i) (g_tss s)) = Z.to_nat i by rw length_take; lia.
  destruct (drop (Z.to_nat i) (g_tss s)) as [|x l] eqn:Ed.
  { exfalso. have A := length_drop (g_tss s) (Z.to_nat i). rw Ed /= in A. lia. }
  apply wp_bind. eapply wp_intro.
  { rw /st_tss -E. change (x :: l) with ([x] ++ l). rewrite -> st_mid by (rw ?L; cbn; lia || done). reflexivity. }
  eapply wp_mono; [apply IH; cbn [g_tss]; rw ?length_app /= ?L; [|lia]|].
  { have B : length (g_tss s) = (length (take (Z.to_nat i) (g_tss s)) + S (length l))%nat by rw -{1}E length_app.
    rw L in B. lia. }
  intros _ s' [E1 E2]. split; [done|]. rw E2. cbn [g_tss gdt].
  have -> : Z.to_nat (i + 1) = S (Z.to_nat i) by lia.
  have D : drop (Z.to_nat i + S n) (g_tss s) = drop n l by rw -drop_drop Ed.
  rw D. change (le_bytes 1 0) with [0]. rewrite -> take_app, drop_app. rw L.
  have -> : (S (Z.to_nat i) - Z.to_nat i = 1)%nat by lia.
  have -> : (S (Z.to_nat i) + n - Z.to_nat i = S n)%nat by lia.
  rewrite -> take_ge, (drop_ge (take _ _)) by (rw L; lia). rw -app_assoc. done.
Qed.

(** the bytes of the task state segment after the set-up *)
Definition tss_bytes (stack : Z) : list Z :=
  zeros 4 ++ le_bytes 4 stack ++ le_bytes 4 GDT_KERNEL_DATA_SEGMENT_SELECTOR ++ zeros 92.
Definition tss_entry (address : Z) : SegmentDescriptor :=
  mkSeg 103 (Z.land address 0xFFFF) (Z.land (Z.shiftr address 16) 0xFF) 0x9 0 0 1 0 0 0 0 0
    (Z.land (Z.shiftr address 24) 0xFF).

Lemma setup_spec s address stack : length (g_tss s) = 104%nat -> gdt s = global_descriptor_table ->
  0 <= address < 2 ^ 32 -> 0 <= stack < 2 ^ 32 ->
  wp (init_tss address;; set_kernel_stack stack) (fun _ s' =>
    g_tss s' = tss_bytes stack /\ gdt s' = <[5%nat := tss_entry address]> global_descriptor_table) s.
Proof.
  intros Hl Hg Ha Hs. rw /init_tss. apply wp_bind, wp_bind. change (Z.to_nat sizeof_TSS) with 104%nat.
  eapply wp_mono; [apply clear_tss_spec; lia|]. intros [] s1 [E1 E2].
  rewrite -> take_0, drop_ge, app_nil_r in E2 by lia. cbn [app] in E2. destruct s1 as [tss g]. cbn in E1, E2. subst tss g.
  rw Hg. apply wp_bind. eapply wp_intro.
  { rw /st_tss. change (g_tss _) with (zeros 8 ++ zeros 4 ++ zeros 92). rewrite -> st_mid by done. reflexivity. }
  cbn [gdt]. eapply wp_intro; [reflexivity|]. rw /set_kernel_stack. eapply wp_intro.
  { rw /st_tss. change (g_tss _) with (zeros 4 ++ zeros 4 ++ le_bytes 4 GDT_KERNEL_DATA_SEGMENT_SELECTOR ++ zeros 92).
    rewrite -> st_mid by done. reflexivity. }
  cbn [g_tss gdt]. rewrite -> !u32_id by lia. done.
Qed.

Lemma tss_entry_segment address : 0 <= address < 2 ^ 32 ->
  segment_of_word (SegmentDescriptor_word (tss_entry address)) = mkSegment address 103 0x9 false 0 true.
Proof.
  intros Ha. destruct (split_16_8_8 address Ha) as (E & H0 & H1 & H2).
  have Hf : Forall fits (SegmentDescriptor_fields (tss_entry address)).
  { repeat constructor; cbn in *; lia. }
  have U := unpack_pack _ Hf. rw /segment_of_word /SegmentDescriptor_word.
  cbn [SegmentDescriptor_fields fmap list_fmap fst snd] in U. cbn [SegmentDescriptor_fields] in *. rw U.
  cbn [tss_entry segment_low base_low base_mid type_bit non_system privilege valid_bit segment_high granularity base_high].
  by rw E.
Qed.

Lemma tss_setup s address stack : length (g_tss s) = 104%nat -> gdt s = global_descriptor_table ->
  0 <= address < 2 ^ 32 -> 0 <= stack < 2 ^ 32 ->
  wp (init_tss address;; set_kernel_stack stack) (fun _ s' =>
    segment s' GDT_TSS_SEGMENT_SELECTOR = Some (mkSegment address 103 0x9 false 0 true) /\
    ld 4 (g_tss s') offset_esp0 = Ok stack /\
    ld 4 (g_tss s') offset_ss0 = Ok GDT_KERNEL_DATA_SEGMENT_SELECTOR /\
    forall i, i <> 5%nat -> gdt s' !! i = gdt s !! i) s.
Proof.
  intros Hl Hg Ha Hs. eapply wp_mono; [by apply setup_spec|]. intros _ s' [E1 E2]. rw /segment E1 E2 Hg. split.
  - change (Z.to_nat (GDT_TSS_SEGMENT_SELECTOR / 8)) with 5%nat. rewrite -> list_lookup_insert_eq by (cbn; lia).
    cbn [fmap option_fmap option_map compose]. by rw tss_entry_segment.
  - split; [|split].
    + rw /tss_bytes (ld_mid 4 (zeros 4) (le_bytes 4 stack)) //. rewrite -> le_val_bytes_id by (cbn; lia). done.
    + rw /tss_bytes app_assoc (ld_mid 4 (zeros 4 ++ le_bytes 4 stack) (le_bytes 4 _)) //.
    + intros i Hi. by rewrite -> list_lookup_insert_ne by lia.
Qed.

(** ** Properties *)
(** the task state segment is installed.  After [init_tss] and [set_kernel_stack],
    as [kernel_setup] calls them, the selector 0x28 names a present, available 32-bit
    task state segment at the address of [g_tss] with limit 103 and privilege 0, the
    segment holds the kernel's stack pointer and stack selector, and the other
    descriptors are as before. *)
Theorem tss_installed s address stack : length (g_tss s) = 104%nat -> gdt s = global_descriptor_table ->
  0 <= address < 2 ^ 32 -> 0 <= stack < 2 ^ 32 ->
  wp (init_tss address;; set_kernel_stack stack) (fun _ s' =>
    segment s' GDT_TSS_SEGMENT_SELECTOR = Some (mkSegment address 103 0x9 false 0 true) /\
    ld 4 (g_tss s') offset_esp0 = Ok stack /\
    ld 4 (g_tss s') offset_ss0 = Ok GDT_KERNEL_DATA_SEGMENT_SELECTOR /\
    forall i, i <> 5%nat -> gdt s' !! i = gdt s !! i) s.
Proof. apply tss_setup. Qed.

(** The code and data segments end at 256 MiB.  All four are present, based at 0 and
    of the intended type and privilege, but the upper limit bits are left zero, so the
    last valid offset is 0x0FFFFFFF: the kernel, linked at 0xC0100000, lies outside its
    own code and data segments. *)
Theorem flat_segments_limit :
  segment initial_cpu GDT_KERNEL_CODE_SEGMENT_SELECTOR = Some (mkSegment 0 0x0FFFFFFF 0xA true 0 true) /\
  segment initial_cpu GDT_KERNEL_DATA_SEGMENT_SELECTOR = Some (mkSegment 0 0x0FFFFFFF 0x2 true 0 true) /\
  segment initial_cpu GDT_USER_CODE_SEGMENT_SELECTOR = Some (mkSegment 0 0x0FFFFFFF 0xA true 3 true) /\
  segment initial_cpu GDT_USER_DATA_SEGMENT_SELECTOR = Some (mkSegment 0 0x0FFFFFFF 0x2 true 3 true) /\
  0x0FFFFFFF < 0xC0100000.
Proof. repeat split. Qed.

(** a zero byte of the task state segment *)
Lemma tss_zero_byte stack off : 0 <= stack < 2 ^ 32 -> 12 <= off < 104 -> ld 1 (tss_bytes stack) off = Ok 0.
Proof.
  intros Hs Ho. rw /tss_bytes !app_assoc. set (pre := (zeros 4 ++ _) ++ _).
  have Hp : length pre = 12%nat by rw /pre !length_app !le_bytes_length.
  have -> : zeros 92 = zeros (Z.to_nat (off - 12)) ++ [0] ++ zeros (Z.to_nat (103 - off)).
  { rw /zeros. change [0] with (replicate 1 0). rw -!replicate_add. f_equal. lia. }
  rw app_assoc (ld_mid 1 (pre ++ zeros (Z.to_nat (off - 12))) [0]) //.
  rw length_app Hp length_replicate. lia.
Qed.

(** C40: user mode may reach the disk.  The set-up leaves [iomap_base] at zero, so the
    I/O permission bit map is read from the task state segment itself, whose bytes
    are zero from offset 12 on: every port from 0x60 (the keyboard) to 0x337, the ATA
    ports 0x1F0 to 0x1F7 among them, is permitted at ring 3. *)
Theorem user_io_permitted s address stack port : length (g_tss s) = 104%nat -> gdt s = global_descriptor_table ->
  0 <= address < 2 ^ 32 -> 0 <= stack < 2 ^ 32 -> 0x60 <= port <= 0x337 ->
  wp (init_tss address;; set_kernel_stack stack)
    (fun _ s' => io_permitted (g_tss s') (sizeof_TSS - 1) port = true) s.
Proof.
  intros Hl Hg Ha Hs Hp. eapply wp_mono; [by apply setup_spec|]. intros _ s' [E1 _]. rw /io_permitted E1.
  have -> : ld 2 (tss_bytes stack) offset_iomap_base = Ok 0.
  { change offset_iomap_base with 102. rw /tss_bytes !app_assoc. change (zeros 92) with (zeros 90 ++ zeros 2 ++ []).
    rw app_assoc (ld_mid 2 _ (zeros 2)) //. }
  have A := Z.div_mod port 8. have B := Z.mod_pos_bound port 8. change (sizeof_TSS - 1) with 103.
  rewrite -> tss_zero_byte by lia. rw Z.testbit_0_l. by rewrite -> (proj2 (Z.leb_le _ 103)) by lia.
Qed.

Lemma tss_installed_witness :
  wp (init_tss 0xC0105000;; set_kernel_stack 0xC0109000) (fun _ s' =>
    segment s' GDT_TSS_SEGMENT_SELECTOR = Some (mkSegment 0xC0105000 103 0x9 false 0 true) /\
    ld 4 (g_tss s') offset_esp0 = Ok 0xC0109000 /\
    ld 4 (g_tss s') offset_ss0 = Ok GDT_KERNEL_DATA_SEGMENT_SELECTOR /\
    forall i, i <> 5%nat -> gdt s' !! i = gdt initial_cpu !! i) initial_cpu.
Proof. apply (tss_installed initial_cpu 0xC0105000 0xC0109000); [done|done|lia|lia]. Defined.

Lemma user_io_permitted_witness :
  wp (init_tss 0xC0105000;; set_kernel_stack 0xC0109000)
    (fun _ s' => io_permitted (g_tss s') (sizeof_TSS - 1) 0x1F7 = true) initial_cpu.
Proof. apply (user_io_permitted initial_cpu 0xC0105000 0xC0109000 0x1F7); [done|done|lia|lia|lia]. Defined.
