(* ===== verification/Idt.v ===== *)
(** * Interrupt gates ([src/cpu/idt.c], [src/header/cpu/idt.h])

    The gates with their bit fields and the two functions that fill the table.  The
    addresses of the assembly stubs and of the table are parameters.  The specification
    is what the processor reads from a gate word. *)

From S2P Require Import Prelude BitFields Gdt.

Definition IDT_MAX_ENTRY_COUNT : Z := 256.
Definition ISR_STUB_TABLE_LIMIT : Z := 256.

Record IDTGate := mkGate {
  offset_low : Z; segment_selector : Z; _reserved : Z; gate_type : Z; gate_privilege : Z;
  present : Z; offset_high : Z;
}.
Definition IDTGate_fields (g : IDTGate) : list (Z * Z) :=
  [(16, offset_low g); (16, segment_selector g); (8, _reserved g); (5, gate_type g);
   (2, gate_privilege g); (1, present g); (16, offset_high g)].
Definition IDTGate_word (g : IDTGate) : Z := pack (IDTGate_fields g).
Definition zero_gate : IDTGate := mkGate 0 0 0 0 0 0 0.

(** the table, [_idt_idtr], the register that [lidt] loads and the interrupt flag *)
Record Idt := mkIdt {
  idt_table : list IDTGate;
  _idt_idtr : Z * Z;
  cpu_idtr : Z * Z;
  interrupt_flag : bool;
}.
Definition initial_idt : Idt := mkIdt (replicate 256 zero_gate) (0, 0) (0, 0) false.

Definition set_gate (i : Z) (g : IDTGate) : M Idt unit := fun s =>
  t ← arr_set (idt_table s) i g;
  Ok (tt, mkIdt t (_idt_idtr s) (cpu_idtr s) (interrupt_flag s)).
Definition update_gate (i : Z) (f : IDTGate -> IDTGate) : M Idt unit := fun s =>
  g ← arr_get (idt_table s) i; set_gate i (f g) s.

(** every field is assigned; the privilege is a field of two bits *)
Definition set_interrupt_gate (int_vector handler_address gdt_seg_selector privilege : Z) : M Idt unit :=
  let a := u32 handler_address in
  set_gate int_vector
    (mkGate (Z.land a 0xFFFF) (u16 gdt_seg_selector) 0 0xE (Z.land privilege 3) 1 (u16 (Z.shiftr a 16))).

Section Initialize.
(** [isr_stub_table] and the address of the gate table *)
Variables (isr_stub_table : Z -> Z) (table_address : Z).

(** [for (uint16_t i = 0; i < ISR_STUB_TABLE_LIMIT; i++)] *)
Fixpoint set_gates (n : nat) (i : Z) : M Idt unit :=
  match n with
  | O => mret tt
  | S n =>
    set_interrupt_gate (u8 i) (isr_stub_table i) GDT_KERNEL_CODE_SEGMENT_SELECTOR 0;;
    set_gates n (u16 (i + 1))
  end.

Definition initialize_idt : M Idt unit :=
  modify (fun s => mkIdt (idt_table s) (IDT_MAX_ENTRY_COUNT * 8 - 1, table_address) (cpu_idtr s) (interrupt_flag s));;
  set_gates (Z.to_nat ISR_STUB_TABLE_LIMIT) 0;;
  set_interrupt_gate 0x80 (isr_stub_table 0x80) GDT_KERNEL_CODE_SEGMENT_SELECTOR 3;;
  update_gate 0x80 (fun g => mkGate (offset_low g) (segment_selector g) (_reserved g) 0xF
    (gate_privilege g) (present g) (offset_high g));;
  modify (fun s => mkIdt (idt_table s) (_idt_idtr s) (_idt_idtr s) true).
End Initialize.

(** ** What the processor reads *)
Record Gate := mkGateView {
  gate_handler : Z; gate_selector : Z; gate_kind : Z; gate_dpl : Z; gate_present : bool;
}.
Definition gate_of_word (w : Z) : Gate :=
  match unpack [16; 16; 8; 5; 2; 1; 16] w with
  | [lo; sel; _; t; dpl; p; hi] => mkGateView (lo + 2 ^ 16 * hi) sel t dpl (negb (p =? 0))
  | _ => mkGateView 0 0 0 0 false
  end.
Definition gate (s : Idt) (vector : Z) : option Gate :=
  gate_of_word ∘ IDTGate_word <$> idt_table s !! Z.to_nat vector.
(** the [int] instruction at privilege [cpl] may use the vector *)
Definition int_allowed (s : Idt) (vector cpl : Z) : bool :=
  match gate s vector with Some g => gate_present g && (cpl <=? gate_dpl g) | None => false end.

Lemma gate_view address selector kind dpl : 0 <= address < 2 ^ 32 -> 0 <= selector < 2 ^ 16 ->
  0 <= kind < 32 -> 0 <= dpl < 4 ->
  gate_of_word (IDTGate_word (mkGate (Z.land address 0xFFFF) selector 0 kind dpl 1 (Z.shiftr address 16))) =
    mkGateView address selector kind dpl true.
Proof.
  intros Ha Hs Hk Hd. destruct (split_16_16 address Ha) as (E & H0 & H1).
  set (g := mkGate _ _ _ _ _ _ _). have Hf : Forall fits (IDTGate_fields g).
  { repeat constructor; cbn in *; lia. }
  have U := unpack_pack _ Hf. rw /gate_of_word /IDTGate_word.
  cbn [IDTGate_fields fmap list_fmap fst snd] in U. cbn [IDTGate_fields] in *. rw U.
  cbn [g offset_low segment_selector gate_type gate_privilege present offset_high]. by rw E.
Qed.

(** the gate that [set_interrupt_gate] writes *)
Definition new_gate (address kind dpl : Z) : IDTGate :=
  mkGate (Z.land address 0xFFFF) GDT_KERNEL_CODE_SEGMENT_SELECTOR 0 kind dpl 1 (Z.shiftr address 16).

Lemma set_interrupt_gate_spec s v a dpl : length (idt_table s) = 256%nat -> 0 <= v < 256 ->
  0 <= a < 2 ^ 32 -> 0 <= dpl < 4 ->
  set_interrupt_gate v a GDT_KERNEL_CODE_SEGMENT_SELECTOR dpl s =
    Ok (tt, mkIdt (<[Z.to_nat v := new_gate a 0xE dpl]> (idt_table s)) (_idt_idtr s) (cpu_idtr s) (interrupt_flag s)).
Proof.
  intros Hl Hv Ha Hd. rw /set_interrupt_gate /set_gate. rewrite -> arr_set_ok by lia.
  destruct (split_16_16 a Ha) as (_ & _ & H1). cbn [mbind res_bind]. rewrite -> (u32_id a), (u16_id (Z.shiftr a 16)) by lia.
  change 3 with (Z.ones 2). rewrite -> Z.land_ones by lia. change (2 ^ 2) with 4. by rewrite -> Z.mod_small by lia.
Qed.

Section Proofs.
Variables (isr_stub_table : Z -> Z) (table_address : Z).
Hypothesis stubs : forall i, 0 <= i < 256 -> 0 <= isr_stub_table i < 2 ^ 32.

Lemma set_gates_spec n i s : length (idt_table s) = 256%nat -> 0 <= i -> i + Z.of_nat n <= 256 ->
  wp (set_gates isr_stub_table n i) (fun _ s' =>
    length (idt_table s') = 256%nat /\ _idt_idtr s' = _idt_idtr s /\
    forall v, 0 <= v < 256 -> idt_table s' !! Z.to_nat v =
      if (i <=? v) && (v <? i + Z.of_nat n) then Some (new_gate (isr_stub_table v) 0xE 0)
      else idt_table s !! Z.to_nat v) s.
Proof.
  revert i s. induction n as [|n IH] => i s Hl Hi Hn; cbn [set_gates].
  { apply wp_ret. split; [done|]. split; [done|]. intros v Hv. change (Z.of_nat 0) with 0.
    destruct (Z.leb_spec i v), (Z.ltb_spec v (i + 0)); cbn; try done; lia. }
  apply wp_bind. rewrite -> u8_id by lia. eapply wp_intro; [by apply set_interrupt_gate_spec; [|lia|apply stubs; lia|]|].
  rewrite -> u16_id by lia. eapply wp_mono; [apply IH; cbn; [by rw length_insert|lia|lia]|].
  cbn. intros _ s' (H1 & H2 & H3). split; [done|]. split; [done|]. intros v Hv. rw H3 //.
  destruct (decide (v = i)) as [->|Hne].
  - rewrite -> list_lookup_insert_eq by lia. destruct (Z.leb_spec (i + 1) i), (Z.leb_spec i i), (Z.ltb_spec i (i + Z.of_nat (S n))); cbn; try lia; done.
  - rewrite -> list_lookup_insert_ne by lia.
    destruct (Z.leb_spec (i + 1) v), (Z.leb_spec i v), (Z.ltb_spec v (i + 1 + Z.of_nat n)), (Z.ltb_spec v (i + Z.of_nat (S n))); cbn; try lia; done.
Qed.

Lemma initialize_idt_spec s : length (idt_table s) = 256%nat ->
  wp (initialize_idt isr_stub_table table_address) (fun _ s' =>
    cpu_idtr s' = (256 * 8 - 1, table_address) /\ interrupt_flag s' = true /\
    forall v, 0 <= v < 256 ->
      gate s' v = Some (mkGateView (isr_stub_table v) GDT_KERNEL_CODE_SEGMENT_SELECTOR
        (if v =? 0x80 then 0xF else 0xE) (if v =? 0x80 then 3 else 0) true) /\
      int_allowed s' v 3 = (v =? 0x80)) s.
Proof.
  intros Hl. rw /initialize_idt. apply wp_bind, wp_modify, wp_bind. change (Z.to_nat ISR_STUB_TABLE_LIMIT) with 256%nat.
  eapply wp_mono; [apply set_gates_spec; [exact Hl|lia|lia]|]. cbn. intros [] s1 (H1 & H2 & H3). apply wp_bind.
  eapply wp_intro; [by apply set_interrupt_gate_spec; [|lia|apply stubs; lia|]|]. apply wp_bind.
  eapply wp_intro.
  { rw /update_gate. rewrite -> (arr_get_ok _ _ (new_gate (isr_stub_table 0x80) 0xE 3)); [|lia|].
    - cbn [mbind res_bind]. rw /set_gate. rewrite -> arr_set_ok by (cbn [idt_table]; rw length_insert; lia). reflexivity.
    - cbn [idt_table]. by rewrite -> list_lookup_insert_eq by lia. }
  apply wp_modify. cbn [idt_table _idt_idtr cpu_idtr interrupt_flag]. split; [done|]. split; [done|].
  intros v Hv. rw list_insert_insert_eq.
  set (s' := mkIdt _ _ _ _). have Hg : gate s' v = Some (mkGateView (isr_stub_table v) GDT_KERNEL_CODE_SEGMENT_SELECTOR
        (if v =? 0x80 then 0xF else 0xE) (if v =? 0x80 then 3 else 0) true).
  { rw /gate /s'. cbn [idt_table]. destruct (Z.eqb_spec v 0x80) as [->|Hne].
    - rewrite -> list_lookup_insert_eq by lia. cbn [fmap option_fmap option_map compose].
      f_equal. by apply gate_view; [apply stubs; lia|..].
    - rewrite -> list_lookup_insert_ne by lia. rw H3 //.
      destruct (Z.leb_spec 0 v), (Z.ltb_spec v (0 + Z.of_nat 256)); cbn [andb]; try lia.
      cbn [fmap option_fmap option_map compose]. f_equal. by apply gate_view; [apply stubs; lia|..]. }
  split; [exact Hg|]. rw /int_allowed Hg /=. by destruct (v =? 0x80).
Qed.

(** every vector has its gate.  After [initialize_idt] the processor reads the
    whole table; each of the 256 vectors is present, leads to its own assembly stub
    through the kernel's code segment, and is an interrupt gate that user mode may not
    raise, except vector 0x80, a trap gate of privilege 3. *)
Theorem idt_installed s : length (idt_table s) = 256%nat ->
  wp (initialize_idt isr_stub_table table_address) (fun _ s' =>
    cpu_idtr s' = (256 * 8 - 1, table_address) /\ interrupt_flag s' = true /\
    forall v, 0 <= v < 256 ->
      gate s' v = Some (mkGateView (isr_stub_table v) GDT_KERNEL_CODE_SEGMENT_SELECTOR
        (if v =? 0x80 then 0xF else 0xE) (if v =? 0x80 then 3 else 0) true) /\
      int_allowed s' v 3 = (v =? 0x80)) s.
Proof. apply initialize_idt_spec. Qed.
End Proofs.

Lemma idt_installed_witness :
  wp (initialize_idt (fun i => 0xC0101000 + 16 * i) 0xC0106000) (fun _ s' =>
    cpu_idtr s' = (256 * 8 - 1, 0xC0106000) /\ interrupt_flag s' = true /\
    forall v, 0 <= v < 256 ->
      gate s' v = Some (mkGateView (0xC0101000 + 16 * v) GDT_KERNEL_CODE_SEGMENT_SELECTOR
        (if v =? 0x80 then 0xF else 0xE) (if v =? 0x80 then 3 else 0) true) /\
      int_allowed s' v 3 = (v =? 0x80)) initial_idt.
Proof. apply (idt_installed (fun i => 0xC0101000 + 16 * i) 0xC0106000); [intros i Hi; lia|done]. Defined.
