(* ===== verification/Pic.v ===== *)
(** * The interrupt controllers ([src/cpu/interrupt.c], PIC functions)

    The port writes of the functions, and the pair of 8259 controllers as their data
    sheet has it: initialisation by four command words, the mask, and the end of
    interrupt.  The theorems say what the writes leave in the controllers. *)

From S2P Require Import Prelude Console.

Definition PIC1_OFFSET : Z := 0x20.
Definition PIC2_OFFSET : Z := 0x28.
Definition PIC1 : Z := 0x20.
Definition PIC2 : Z := 0xA0.
Definition PIC1_COMMAND : Z := PIC1.
Definition PIC1_DATA : Z := PIC1 + 1.
Definition PIC2_COMMAND : Z := PIC2.
Definition PIC2_DATA : Z := PIC2 + 1.
Definition PIC_ACK : Z := 0x20.
Definition PIC_DISABLE_ALL_MASK : Z := 0xFF.
Definition ICW1_ICW4 : Z := 0x01.
Definition ICW1_INIT : Z := 0x10.
Definition ICW4_8086 : Z := 0x01.
Definition IRQ_TIMER : Z := 0.
Definition IRQ_KEYBOARD : Z := 1.

Definition io_wait (s : Console) : Console := out 0x80 0 s.

Definition pic_ack (irq : Z) (s : Console) : Console :=
  let s := if 8 <=? irq then out PIC2_COMMAND PIC_ACK s else s in
  out PIC1_COMMAND PIC_ACK s.

Definition pic_remap (s : Console) : Console :=
  let s := io_wait (out PIC1_COMMAND (Z.lor ICW1_INIT ICW1_ICW4) s) in
  let s := io_wait (out PIC2_COMMAND (Z.lor ICW1_INIT ICW1_ICW4) s) in
  let s := io_wait (out PIC1_DATA PIC1_OFFSET s) in
  let s := io_wait (out PIC2_DATA PIC2_OFFSET s) in
  let s := io_wait (out PIC1_DATA 4 s) in
  let s := io_wait (out PIC2_DATA 2 s) in
  let s := io_wait (out PIC1_DATA ICW4_8086 s) in
  let s := io_wait (out PIC2_DATA ICW4_8086 s) in
  out PIC2_DATA PIC_DISABLE_ALL_MASK (out PIC1_DATA PIC_DISABLE_ALL_MASK s).

(** [mask] is the byte that [in(PIC1_DATA)] delivers *)
Definition activate_keyboard_interrupt (mask : Z) (s : Console) : Console :=
  out PIC1_DATA (u8 (Z.land mask (Z.lnot (Z.shiftl 1 IRQ_KEYBOARD)))) s.
Definition activate_timer_interrupt (mask : Z) (s : Console) : Console :=
  out PIC1_DATA (u8 (Z.land mask (Z.lnot (Z.shiftl 1 IRQ_TIMER)))) s.

(** ** The 8259 *)
(** the next word the data port takes *)
Inductive icw : Type := Icw2 | Icw3 | Icw4 | Ready.
Record Pic := mkPic {
  pic_next : icw;
  pic_icw1 : Z;
  pic_vector : Z;
  pic_cascade : Z;
  pic_mode : Z;
  pic_mask : Z;
  in_service : list Z;
}.
(** a command: ICW1 has bit 4, a non-specific end of interrupt retires the request of
    the highest priority that is in service *)
Definition pic_command (v : Z) (p : Pic) : Pic :=
  if Z.testbit v 4 then mkPic Icw2 v (pic_vector p) (pic_cascade p) 0 0 []
  else if v =? 0x20 then
    mkPic (pic_next p) (pic_icw1 p) (pic_vector p) (pic_cascade p) (pic_mode p) (pic_mask p)
      (match in_service p with [] => [] | i :: l => remove Z.eq_dec (foldl Z.min i l) (i :: l) end)
  else p.
Definition pic_data (v : Z) (p : Pic) : Pic :=
  match pic_next p with
  | Icw2 => mkPic (if Z.testbit (pic_icw1 p) 1 then if Z.testbit (pic_icw1 p) 0 then Icw4 else Ready else Icw3)
              (pic_icw1 p) (Z.land v 0xF8) (pic_cascade p) (pic_mode p) (pic_mask p) (in_service p)
  | Icw3 => mkPic (if Z.testbit (pic_icw1 p) 0 then Icw4 else Ready)
              (pic_icw1 p) (pic_vector p) v (pic_mode p) (pic_mask p) (in_service p)
  | Icw4 => mkPic Ready (pic_icw1 p) (pic_vector p) (pic_cascade p) v (pic_mask p) (in_service p)
  | Ready => mkPic Ready (pic_icw1 p) (pic_vector p) (pic_cascade p) (pic_mode p) v (in_service p)
  end.
(** master and slave on the bus *)
Definition pics_write (ps : Pic * Pic) (o : Z * Z) : Pic * Pic :=
  if o.1 =? 0x20 then (pic_command o.2 ps.1, ps.2) else if o.1 =? 0x21 then (pic_data o.2 ps.1, ps.2)
  else if o.1 =? 0xA0 then (ps.1, pic_command o.2 ps.2) else if o.1 =? 0xA1 then (ps.1, pic_data o.2 ps.2)
  else ps.
Definition pics (ps : Pic * Pic) (s : Console) : Pic * Pic := foldl pics_write ps (ports s).
(** the vector raised for line [irq] of the pair, when it is not masked *)
Definition pics_raise (ps : Pic * Pic) (irq : Z) : option Z :=
  if irq <? 8 then if Z.testbit (pic_mask ps.1) irq then None else Some (pic_vector ps.1 + irq)
  else if Z.testbit (pic_mask ps.2) (irq - 8) || Z.testbit (pic_mask ps.1) 2 then None
  else Some (pic_vector ps.2 + (irq - 8)).

Lemma pics_out ps port v s : pics ps (out port v s) = pics_write (pics ps s) (port, v).
Proof. by rw /pics /= foldl_app. Qed.

Lemma pics_io_wait ps s : pics ps (io_wait s) = pics ps s.
Proof. by rw /io_wait pics_out. Qed.

(** both controllers after [pic_remap] *)
Definition remapped : Pic * Pic :=
  (mkPic Ready 0x11 0x20 4 1 0xFF [], mkPic Ready 0x11 0x28 2 1 0xFF []).

Lemma pic_remap_pics ps s : pics ps (pic_remap s) = remapped.
Proof.
  rw /pic_remap. cbn zeta. repeat first [rewrite -> pics_out | rewrite -> pics_io_wait].
  by destruct (pics ps s) as [[] []].
Qed.

Lemma irq_setup ps s :
  let s1 := pic_remap s in
  let s2 := activate_keyboard_interrupt (pic_mask (pics ps s1).1) s1 in
  let s3 := activate_timer_interrupt (pic_mask (pics ps s2).1) s2 in
  forall irq, 0 <= irq < 16 -> pics_raise (pics ps s3) irq =
    if irq =? IRQ_TIMER then Some 0x20 else if irq =? IRQ_KEYBOARD then Some 0x21 else None.
Proof.
  intros s1 s2 s3 irq Hirq. have E1 : pics ps s1 = remapped by apply pic_remap_pics.
  have E2 : pics ps s2 = (mkPic Ready 0x11 0x20 4 1 0xFD [], mkPic Ready 0x11 0x28 2 1 0xFF []).
  { rw /s2 /activate_keyboard_interrupt pics_out E1. reflexivity. }
  have E3 : pics ps s3 = (mkPic Ready 0x11 0x20 4 1 0xFC [], mkPic Ready 0x11 0x28 2 1 0xFF []).
  { rw /s3 /activate_timer_interrupt pics_out E2. reflexivity. }
  rw E3. apply (bool_decide_unpack _), Is_true_true. revert irq Hirq. apply (forall_range (fun irq =>
    bool_decide (pics_raise _ irq = if irq =? IRQ_TIMER then Some 0x20 else
      if irq =? IRQ_KEYBOARD then Some 0x21 else None)) 0 16). by vm_compute.
Qed.

(** ** Properties *)
(** the interrupt lines after start-up.  Whatever state the controllers were in,
    after [pic_remap], [activate_keyboard_interrupt] and [activate_timer_interrupt], as
    [kernel_setup] calls them, the timer raises vector 0x20, the keyboard 0x21, and the
    other fourteen lines raise nothing. *)
Theorem irq_lines ps s :
  let s1 := pic_remap s in
  let s2 := activate_keyboard_interrupt (pic_mask (pics ps s1).1) s1 in
  let s3 := activate_timer_interrupt (pic_mask (pics ps s2).1) s2 in
  forall irq, 0 <= irq < 16 -> pics_raise (pics ps s3) irq =
    if irq =? IRQ_TIMER then Some 0x20 else if irq =? IRQ_KEYBOARD then Some 0x21 else None.
Proof. apply irq_setup. Qed.

(** An acknowledged interrupt is retired.  When one request is being served, by the
    master or through the cascade by the slave, [pic_ack] leaves neither controller
    with a request in service and changes nothing else in them. *)
Theorem pic_ack_retires ps s irq : 0 <= irq < 16 ->
  in_service (pics ps s).1 = [if irq <? 8 then irq else 2] ->
  in_service (pics ps s).2 = (if irq <? 8 then [] else [irq - 8]) ->
  pics ps (pic_ack irq s) =
    let (m, v) := pics ps s in
    (mkPic (pic_next m) (pic_icw1 m) (pic_vector m) (pic_cascade m) (pic_mode m) (pic_mask m) [],
     mkPic (pic_next v) (pic_icw1 v) (pic_vector v) (pic_cascade v) (pic_mode v) (pic_mask v) []).
Proof.
  intros Hirq. rw /pic_ack. destruct (pics ps s) as [[n1 i1 v1 c1 m1 k1 s1] [n2 i2 v2 c2 m2 k2 s2]] eqn:E.
  cbn [fst snd in_service]. intros -> ->. destruct (Z.leb_spec 8 irq), (Z.ltb_spec irq 8); try lia;
    rw !pics_out E /pics_write /pic_command; cbn [fst snd in_service]; cbn; repeat destruct (Z.eq_dec _ _); done.
Qed.

Lemma irq_lines_witness :
  let ps := (mkPic Icw3 0 0 0 0 0 [3], mkPic Ready 0 0 0 0 0 []) in
  let s1 := pic_remap (mkConsole (fun _ => 0) 0 0 []) in
  let s2 := activate_keyboard_interrupt (pic_mask (pics ps s1).1) s1 in
  let s3 := activate_timer_interrupt (pic_mask (pics ps s2).1) s2 in
  pics_raise ps 9 = Some 1 /\ pics_raise (pics ps s3) 1 = Some 0x21.
Proof.
  split; [by vm_compute|].
  apply (irq_lines (mkPic Icw3 0 0 0 0 0 [3], mkPic Ready 0 0 0 0 0 []) (mkConsole (fun _ => 0) 0 0 []) 1). lia.
Defined.

Lemma pic_ack_retires_witness :
  let ps := (mkPic Ready 0x11 0x20 4 1 0xFC [2], mkPic Ready 0x11 0x28 2 1 0xFF [6]) in
  let s := mkConsole (fun _ => 0) 0 0 [] in
  pics ps (pic_ack 14 s) =
    (mkPic Ready 0x11 0x20 4 1 0xFC [], mkPic Ready 0x11 0x28 2 1 0xFF []).
Proof.
  apply (pic_ack_retires (mkPic Ready 0x11 0x20 4 1 0xFC [2], mkPic Ready 0x11 0x28 2 1 0xFF [6])
    (mkConsole (fun _ => 0) 0 0 []) 14); [lia|done|done].
Defined.
