(* ===== verification/Interrupt.v ===== *)
(** * Interrupts and system calls ([src/cpu/interrupt.c], handler functions)

    The state of the kernel that the handlers reach: the file system with the memory
    its requests live in, the keyboard and the console.  [main_interrupt_handler]
    dispatches on the vector, [syscall_handler] on EAX, with the requests decoded from
    the caller's memory as the packed structures lay them out.

    Memory is the caller's address space; video memory is kept apart in the console, so
    the model is faithful for requests that do not point into 0xB8000-0xBFFFF. *)

From S2P Require Import Prelude StdString BlockDevice Ext2Layout Ext2State Ext2Inv Ext2 Ext2Data Ext2Write Ext2Crud Keyboard Console Pic.

(** the registers that the assembly stubs save *)
Record SegmentRegisters := mkSegmentRegisters { gs : Z; fs : Z; es : Z; ds : Z }.
Record GeneralRegisters := mkGeneralRegisters {
  edi : Z; esi : Z; ebp : Z; esp_useless : Z; ebx : Z; edx : Z; ecx : Z; eax : Z;
}.
Record CPURegister := mkRegs { seg_regs : SegmentRegisters; general : GeneralRegisters }.
Definition set_eax (v : Z) (r : CPURegister) : CPURegister :=
  let g := general r in
  mkRegs (seg_regs r) (mkGeneralRegisters (edi g) (esi g) (ebp g) (esp_useless g) (ebx g) (edx g) (ecx g) v).

Definition SYSCALL_READ : Z := 0.
Definition SYSCALL_READ_DIR : Z := 1.
Definition SYSCALL_WRITE : Z := 2.
Definition SYSCALL_DELETE : Z := 3.
Definition SYSCALL_GETCHAR : Z := 4.
Definition SYSCALL_PUTCHAR : Z := 5.
Definition SYSCALL_PUTS : Z := 6.
Definition SYSCALL_ACTIVATE_KBD : Z := 7.
Definition SYSCALL_STAT : Z := 8.

Record Kernel (D : Type) := mkKernel {
  k_fs : FS D;
  k_keyboard : KeyboardDriverState;
  k_console : Console;
}.
Arguments mkKernel {D} _ _ _.
Arguments k_fs {D} _.
Arguments k_keyboard {D} _.
Arguments k_console {D} _.

(** fields of a packed structure in memory *)
Definition mem_field (m : mem) (a : Z) (n : nat) : Z := le_val (mem_load m a n).
(** [struct EXT2DriverRequest]: buf, name, name_len, parent_inode, buffer_size, is_directory *)
Definition request_at (m : mem) (a : Z) : EXT2DriverRequest :=
  mkRequest (mem_field m a 4) (mem_field m (a + 4) 4) (mem_field m (a + 8) 1) (mem_field m (a + 9) 4)
    (mem_field m (a + 13) 4) (negb (mem_field m (a + 17) 1 =? 0)).

Section Handlers.
Context {D : Type} `{BlockDevice D} `{StackJunk}.
Abbreviation KM := (M (Kernel D)).

Definition on_fs {A} (m : M (FS D) A) : KM A := fun k =>
  match m (k_fs k) with Ok (a, s) => Ok (a, mkKernel s (k_keyboard k) (k_console k)) | UB => UB | NoFuel => NoFuel end.
Definition on_keyboard {A} (m : M KeyboardDriverState A) : KM A := fun k =>
  match m (k_keyboard k) with Ok (a, s) => Ok (a, mkKernel (k_fs k) s (k_console k)) | UB => UB | NoFuel => NoFuel end.
Definition on_console (f : Console -> Console) : KM unit :=
  modify (fun k => mkKernel (k_fs k) (k_keyboard k) (f (k_console k))).
Definition user_mem (k : Kernel D) : mem := fs_mem (k_fs k).
(** a store of bytes through a pointer of the caller *)
Definition store (a : Z) (bs : list Z) : KM unit :=
  on_fs (modify (fun s => set_mem (mem_store (fs_mem s) (u32 a) bs) s)).
(** [*(int8_t* )a = code] *)
Definition store_code (a code : Z) : KM unit := store a [u8 code].

(** [char c = (char) ebx] and [uint8_t color = (uint8_t) ecx] are the low bytes *)
Definition syscall_handler (regs : CPURegister) : KM CPURegister :=
  let r := general regs in
  if eax r =? SYSCALL_READ then
    request ← gets (fun k => request_at (user_mem k) (ebx r));
    code ← on_fs (read request); store_code (ecx r) code;; mret regs
  else if eax r =? SYSCALL_READ_DIR then
    request ← gets (fun k => request_at (user_mem k) (ebx r));
    code ← on_fs (read_directory request); store_code (ecx r) code;; mret regs
  else if eax r =? SYSCALL_WRITE then
    request ← gets (fun k => request_at (user_mem k) (ebx r));
    code ← on_fs (write request); store_code (ecx r) code;; mret regs
  else if eax r =? SYSCALL_DELETE then
    request ← gets (fun k => request_at (user_mem k) (ebx r));
    code ← on_fs (delete request); store_code (ecx r) code;; mret regs
  else if eax r =? SYSCALL_GETCHAR then
    c ← on_keyboard get_keyboard_buffer; store (ebx r) [c];; mret regs
  else if eax r =? SYSCALL_PUTCHAR then
    on_console (console_putchar (u8 (ebx r)) (u8 (ecx r)));; mret regs
  else if eax r =? SYSCALL_PUTS then
    str ← gets (fun k => mem_load (user_mem k) (ebx r) (Z.to_nat (ecx r)));
    on_console (console_puts str (u8 (edx r)));; mret regs
  else if eax r =? SYSCALL_ACTIVATE_KBD then
    on_keyboard keyboard_state_activate;; mret regs
  else if eax r =? SYSCALL_STAT then
    m ← gets user_mem;
    answer ← on_fs (stat (mem_field m (ebx r) 4) (mem_field m (ebx r + 4) 1) (mem_field m (ebx r + 5) 4));
    let (code, out) := (answer : Z * option (Z * bool)) in
    match out with
    | Some (size, is_dir) =>
      (if ecx r =? 0 then mret tt else store (ecx r) (le_bytes 4 size));;
      (if edx r =? 0 then mret tt else store (edx r) [if is_dir : bool then 1 else 0])
    | None => mret tt
    end;;
    mret (set_eax (u32 code) regs)
  else mret regs.

(** [scancode] is what the keyboard's data port holds *)
Definition main_interrupt_handler (scancode : Z) (regs : CPURegister) (int_number : Z) : KM CPURegister :=
  if int_number =? PIC1_OFFSET + IRQ_KEYBOARD then
    on_keyboard (keyboard_isr scancode);; on_console (pic_ack IRQ_KEYBOARD);; mret regs
  else if int_number =? PIC1_OFFSET + IRQ_TIMER then on_console (pic_ack IRQ_TIMER);; mret regs
  else if int_number =? 0x80 then syscall_handler regs
  else mret regs.
End Handlers.

(** ** Steps of the handlers *)
Section Steps.
Context {D : Type} `{BlockDeviceLaws D} `{StackJunkLaws}.
Implicit Types k : Kernel D.

Lemma wp_on_fs {A} (m : M (FS D) A) Q k :
  wp m (fun a s => Q a (mkKernel s (k_keyboard k) (k_console k))) (k_fs k) -> wp (on_fs m) Q k.
Proof. rw /wp /on_fs. by destruct (m (k_fs k)) as [[a s]| |]. Qed.
Lemma wp_on_keyboard {A} (m : M KeyboardDriverState A) Q k :
  wp m (fun a s => Q a (mkKernel (k_fs k) s (k_console k))) (k_keyboard k) -> wp (on_keyboard m) Q k.
Proof. rw /wp /on_keyboard. by destruct (m (k_keyboard k)) as [[a s]| |]. Qed.

(** the state after a store through a caller's pointer *)
Definition stored (a : Z) (bs : list Z) k : Kernel D :=
  mkKernel (set_mem (mem_store (user_mem k) (u32 a) bs) (k_fs k)) (k_keyboard k) (k_console k).
Lemma wp_store a bs Q k : Q tt (stored a bs k) -> wp (store a bs) Q k.
Proof. done. Qed.

Lemma set_mem_mem_only m (s : FS D) : dev_ok (fs_dev s) -> mem_only s (set_mem m s).
Proof. intros Hd. by constructor. Qed.


(** the keyboard interrupt *)
Lemma keyboard_interrupt_spec scancode regs k : kbd_inv (k_keyboard k) -> 0 <= scancode < 256 ->
  wp (main_interrupt_handler scancode regs 0x21) (fun r k' => r = regs /\ k_fs k' = k_fs k /\
    kbd_inv (k_keyboard k') /\ kbd_abs (k_keyboard k') = scan scancode (kbd_abs (k_keyboard k)) /\
    k_console k' = pic_ack IRQ_KEYBOARD (k_console k)) k.
Proof.
  intros Hi Hs. change (wp (on_keyboard (keyboard_isr scancode);; on_console (pic_ack IRQ_KEYBOARD);; mret regs)
    (fun r k' => r = regs /\ k_fs k' = k_fs k /\ kbd_inv (k_keyboard k') /\
      kbd_abs (k_keyboard k') = scan scancode (kbd_abs (k_keyboard k)) /\
      k_console k' = pic_ack IRQ_KEYBOARD (k_console k)) k).
  apply wp_bind, wp_on_keyboard. eapply wp_mono; [by apply keyboard_isr_spec|].
  intros [] s [Hi' E]. by apply wp_bind, wp_modify, wp_ret.
Qed.

Lemma getchar_syscall_spec regs k : kbd_inv (k_keyboard k) -> eax (general regs) = SYSCALL_GETCHAR ->
  wp (main_interrupt_handler 0 regs 0x80) (fun r k' => r = regs /\ kbd_inv (k_keyboard k') /\
    k_on (kbd_abs (k_keyboard k')) = k_on (kbd_abs (k_keyboard k)) /\
    k_ext (kbd_abs (k_keyboard k')) = k_ext (kbd_abs (k_keyboard k)) /\
    k_queue (kbd_abs (k_keyboard k')) = tl (k_queue (kbd_abs (k_keyboard k))) /\
    k_fs k' = set_mem (mem_store (user_mem k) (u32 (ebx (general regs))) [hd 0 (k_queue (kbd_abs (k_keyboard k)))]) (k_fs k) /\
    k_console k' = k_console k) k.
Proof.
  intros Hi E. change (main_interrupt_handler 0 regs 128) with (syscall_handler (D := D) regs). rw /syscall_handler E.
  change (SYSCALL_GETCHAR =? SYSCALL_READ) with false. change (SYSCALL_GETCHAR =? SYSCALL_READ_DIR) with false.
  change (SYSCALL_GETCHAR =? SYSCALL_WRITE) with false. change (SYSCALL_GETCHAR =? SYSCALL_DELETE) with false.
  change (SYSCALL_GETCHAR =? SYSCALL_GETCHAR) with true. cbv beta iota.
  apply wp_bind, wp_on_keyboard. eapply wp_mono; [by apply get_keyboard_buffer_spec|].
  intros c s (Hi' & E1 & E2 & -> & E3). apply wp_bind, wp_store, wp_ret. cbn.
  rw E1 E2 E3. auto 10.
Qed.

(** a call that ends by storing its code: [read], [write] and the like *)
Lemma code_syscall_spec (call : EXT2DriverRequest -> M (FS D) Z) regs Q k :
  wp (call (request_at (user_mem k) (ebx (general regs))))
    (fun code s => Q regs (stored (ecx (general regs)) [u8 code] (mkKernel s (k_keyboard k) (k_console k)))) (k_fs k) ->
  wp (request ← gets (fun k => request_at (user_mem k) (ebx (general regs)));
      code ← on_fs (call request); store_code (ecx (general regs)) code;; mret regs) Q k.
Proof. intros Hc. apply wp_bind, wp_gets, wp_bind, wp_on_fs. eapply wp_mono; [exact Hc|]. done. Qed.

Lemma read_syscall_eq regs : eax (general regs) = SYSCALL_READ ->
  main_interrupt_handler (D := D) 0 regs 0x80 =
    (request ← gets (fun k => request_at (user_mem k) (ebx (general regs)));
     code ← on_fs (read request); store_code (ecx (general regs)) code;; mret regs).
Proof. intros E. change (main_interrupt_handler 0 regs 128) with (syscall_handler (D := D) regs). by rw /syscall_handler E. Qed.
Lemma write_syscall_eq regs : eax (general regs) = SYSCALL_WRITE ->
  main_interrupt_handler (D := D) 0 regs 0x80 =
    (request ← gets (fun k => request_at (user_mem k) (ebx (general regs)));
     code ← on_fs (write request); store_code (ecx (general regs)) code;; mret regs).
Proof. intros E. change (main_interrupt_handler 0 regs 128) with (syscall_handler (D := D) regs). by rw /syscall_handler E. Qed.
Lemma stat_syscall_eq regs : let r := general regs in eax r = SYSCALL_STAT ->
  main_interrupt_handler (D := D) 0 regs 0x80 =
    (m ← gets user_mem;
     answer ← on_fs (stat (mem_field m (ebx r) 4) (mem_field m (ebx r + 4) 1) (mem_field m (ebx r + 5) 4));
     let (code, out) := (answer : Z * option (Z * bool)) in
     match out with
     | Some (size, is_dir) =>
       (if ecx r =? 0 then mret tt else store (ecx r) (le_bytes 4 size));;
       (if edx r =? 0 then mret tt else store (edx r) [if is_dir : bool then 1 else 0])
     | None => mret tt
     end;;
     mret (set_eax (u32 code) regs)).
Proof. intros r E. change (main_interrupt_handler 0 regs 128) with (syscall_handler (D := D) regs). by rw /syscall_handler E. Qed.
End Steps.
