(* ===== verification/Syscalls.v ===== *)
(** * Theorems about interrupts and system calls

    A program of the user reaches the file system, the keyboard and the screen through
    [int 0x80] with requests in its own memory.  The theorems follow the bytes: from
    the keyboard port into the caller's buffer, from a buffer through the volume into
    another buffer, and from the caller's strings onto the screen. *)

From S2P Require Import Prelude StdString BlockDevice Ext2Layout Ext2Dir Ext2State Ext2Inv Ext2 Ext2Format Ext2Files Ext2Data Ext2Write Ext2Crud Inserter Ext2Theorems Ext2View Keyboard Console Pic Interrupt.

(** the registers of a system call: EAX, EBX, ECX, EDX *)
Definition call_regs (a b c d : Z) : CPURegister :=
  mkRegs (mkSegmentRegisters 0x23 0x23 0x23 0x23) (mkGeneralRegisters 0 0 0 0 b d c a).

Section Calls.
Context {D : Type} `{BlockDevice D} `{StackJunk}.

(** keyboard interrupts for a sequence of scan codes *)
Fixpoint irqs (scs : list Z) : M (Kernel D) unit :=
  match scs with
  | [] => mret tt
  | sc :: scs => main_interrupt_handler sc (call_regs 0 0 0 0) 0x21;; irqs scs
  end.
(** [n] GETCHAR calls into consecutive bytes *)
Fixpoint getchars (n : nat) (a : Z) : M (Kernel D) unit :=
  match n with
  | O => mret tt
  | S n => main_interrupt_handler 0 (call_regs SYSCALL_GETCHAR a 0 0) 0x80;; getchars n (a + 1)
  end.
(** [int 0x80] *)
Definition syscall (a b c d : Z) : M (Kernel D) Z :=
  r ← main_interrupt_handler 0 (call_regs a b c d) 0x80; mret (eax (general r)).
End Calls.

(** ** Typing into a program *)
Definition scancodes (text : list Z) : list Z :=
  flat_map (fun c => match scancode_of c with Some sc => [sc; sc + 0x80] | None => [] end) text.
Definition scans (scs : list Z) (q : Keys) : Keys := foldl (fun q sc => scan sc q) q scs.

Lemma scans_text text q : Forall (fun c => typeable c = true) text -> (length q <= 255)%nat ->
  scans (scancodes text) (mkKeys true false q) = mkKeys true false (take 255 (q ++ text)).
Proof.
  intros Ht Hq. have E := keys_run_text text q Ht Hq.
  have Hr l q0 : (keys_run (map Scan l) q0).2 = scans l q0.
  { revert q0. induction l as [|sc l IH] => q0; [done|].
    specialize (IH (scan sc q0)). cbn [map keys_run keys_step].
    destruct (keys_run (map Scan l) (scan sc q0)). exact IH. }
  have Hf : flat_map key text = map Scan (scancodes text).
  { clear. induction text as [|c text IH]; [done|]. cbn. rw /key IH. by destruct (scancode_of c). }
  rw -Hr -Hf E. done.
Qed.
Lemma scancodes_range text : Forall (fun c => typeable c = true) text ->
  Forall (fun sc => 0 <= sc < 256) (scancodes text).
Proof.
  intros Ht. apply Forall_flat_map. eapply Forall_impl; [exact Ht|]. intros c. rw /typeable.
  destruct (scancode_of c) as [sc|] eqn:E; [|done]. intros [Hsc Hc]%andb_true_iff. apply Z.ltb_lt in Hsc.
  apply negb_true_iff, Z.eqb_neq in Hc. destruct (scancode_of_decode c sc E Hsc Hc) as [? _].
  repeat constructor; lia.
Qed.

Section Theorems.
Context {D : Type} `{BlockDeviceLaws D} `{StackJunkLaws} `{Overrun D}.
Implicit Types k : Kernel D.

Lemma irqs_spec scs k : kbd_inv (k_keyboard k) -> Forall (fun sc => 0 <= sc < 256) scs ->
  wp (irqs scs) (fun _ k' => k_fs k' = k_fs k /\ kbd_inv (k_keyboard k') /\
    kbd_abs (k_keyboard k') = scans scs (kbd_abs (k_keyboard k)) /\
    k_console k' = Nat.iter (length scs) (pic_ack IRQ_KEYBOARD) (k_console k)) k.
Proof.
  intros Hi Hs. revert k Hi. induction Hs as [|sc scs Hsc Hs IH] => k Hi; [by apply wp_ret|].
  cbn [irqs]. apply wp_bind. eapply wp_mono; [by apply keyboard_interrupt_spec|].
  intros r k1 (_ & E1 & Hi1 & E2 & E3). eapply wp_mono; [by apply IH|].
  intros [] k2 (E4 & Hi2 & E5 & E6). rw E4 E5 E6 E1 E2 E3.
  split; [done|]. split; [done|]. split; [done|]. cbn [length]. by rw Nat.iter_succ_r.
Qed.

Lemma stored_twice (m : mem) a (n : nat) c l : 0 <= a -> a + 1 + Z.of_nat n <= 2 ^ 32 -> length l = n ->
  mem_eq (mem_store (mem_store m a [c]) (a + 1) l) (mem_store m a (c :: l)).
Proof.
  intros Ha Hn Hl x Hx. rewrite -> !mem_store_lookup by (cbn; lia). cbn [length].
  repeat case_bool_decide; try lia; try done.
  - have -> : (Z.to_nat (x - a) = S (Z.to_nat (x - (a + 1))))%nat by lia. done.
  - have -> : x - a = 0 by lia. done.
Qed.

Lemma getchars_spec n a k : kbd_inv (k_keyboard k) -> 0 <= a -> a + Z.of_nat n <= 2 ^ 32 ->
  wp (getchars n a) (fun _ k' => mem_eq (user_mem k')
      (mem_store (user_mem k) a (take n (k_queue (kbd_abs (k_keyboard k)) ++ zeros n))) /\
    k_fs k' = set_mem (user_mem k') (k_fs k) /\ k_console k' = k_console k) k.
Proof.
  revert a k. induction n as [|n IH] => a k Hi Ha Hn; cbn [getchars].
  { apply wp_ret. rw take_0 mem_store_nil /user_mem. split; [done|]. by destruct k as [[]]. }
  apply wp_bind. eapply wp_mono; [by apply getchar_syscall_spec|].
  intros r k1 (_ & Hi1 & _ & _ & Eq & Ef & Ec). eapply wp_mono; [apply IH; [done|lia|lia]|].
  intros [] k2 (E & E1 & E2). rw E1 E2 Ef Ec. split; [|done]. etrans; [exact E|]. rw Eq /user_mem Ef.
  change (ebx (general (call_regs SYSCALL_GETCHAR a 0 0))) with a. rewrite -> u32_id by lia.
  set (q := k_queue _). cbn [set_mem fs_mem].
  have Hz : take n (tl q ++ zeros n) = tl (take (S n) (q ++ zeros (S n))).
  { destruct q as [|c q]; cbn; [done|]. change (0 :: replicate n 0) with (replicate (S n) 0).
    rw replicate_S_end app_assoc. rewrite -> (take_app_le _ [0]); [done|]. rw length_app length_replicate. lia. }
  have Hl : length (take n (tl q ++ zeros n)) = n by rw length_take length_app length_replicate; lia.
  etrans; [apply (stored_twice _ a n); [lia|lia|exact Hl]|]. rw Hz. by destruct q.
Qed.

(** ** Requests in memory *)
(** two regions that do not meet, neither wrapping around *)
Definition apart (a : Z) (n : nat) (b : Z) (m : nat) : Prop :=
  no_wrap a n /\ no_wrap b m /\ (b + Z.of_nat m <= a \/ a + Z.of_nat n <= b).

Lemma load_apart (m : mem) a l b n : apart a (length l) b n -> mem_load (mem_store m a l) b n = mem_load m b n.
Proof. intros (Ha & Hb & Hd). by apply mem_load_store_ne. Qed.
Lemma byte_stored (m : mem) a v : 0 <= a < 2 ^ 32 -> mem_store m a [v] a = v.
Proof. intros Ha. rewrite -> mem_store_lookup by (cbn; lia). rewrite -> bool_decide_true by (cbn; lia). by rw Z.sub_diag. Qed.
Lemma byte_apart (m : mem) a l b : apart b 1 a (length l) -> mem_store m a l b = m b.
Proof.
  intros ([] & [] & Hd). rewrite -> mem_store_lookup by lia. by rewrite -> bool_decide_false by lia.
Qed.
Lemma field_apart (m : mem) a l b n off sz : apart a (length (l : list Z)) b n -> 0 <= off -> off + Z.of_nat sz <= Z.of_nat n ->
  mem_field (mem_store m a l) (b + off) sz = mem_field m (b + off) sz.
Proof.
  intros ([Ha1 Ha2] & [Hb1 Hb2] & Hd) Ho Hk. rw /mem_field. f_equal. apply load_apart.
  split; [by split|]. split; [split; lia|lia].
Qed.
Lemma request_apart (m : mem) a l b : apart a (length l) b 18 -> request_at (mem_store m a l) b = request_at m b.
Proof.
  intros Ha. have F off sz := field_apart m a l b 18 off sz Ha. rw /request_at.
  have E := F 0 4%nat. rw !Z.add_0_r in E.
  by rewrite -> E, (F 4 4%nat), (F 8 1%nat), (F 9 4%nat), (F 13 4%nat), (F 17 1%nat) by lia.
Qed.

(** the caller's memory changes, the volume does not *)
Lemma stored_fs a l k : dev_ok (fs_dev (k_fs k)) -> mem_only (k_fs k) (k_fs (stored a l k)).
Proof. apply set_mem_mem_only. Qed.

(** what SYSCALL_WRITE leaves for a new file: the code, the memory and the file *)
Definition file_created k k' (r : EXT2DriverRequest) (p : Z) (bs : list Z) (ess : list (list dentry)) : Prop :=
  fs_inv (k_fs k') /\ exists ino ess' ds ids, ino <> 0 /\ dirs_insert ess ino (request_nm (k_fs k) r) EXT2_FT_REG_FILE = Some ess' /\
    dir_live_at (k_fs k') p bs ess' /\
    file_at (k_fs k') ino ds ids (buffer_size r) (take (Z.to_nat max_file_size) (request_data (k_fs k) r)).

Lemma write_syscall_spec k w rc p bs ess : let s := k_fs k in let r := request_at (fs_mem s) w in
  fs_inv s -> dir_live_at s p bs ess -> parent_inode r = p -> file_request s r ->
  dir_lookup (concat ess) (request_nm s r) = 0 -> dirs_room ess (request_nm s r) = true ->
  free_inodes s <> 0 -> blocks_taken r <= free_blocks s -> 0 <= rc < 2 ^ 32 ->
  wp (syscall SYSCALL_WRITE w rc 0) (fun _ k' => user_mem k' = mem_store (user_mem k) rc [0] /\
    file_created k k' r p bs ess) k.
Proof.
  intros s r Hi Hdl Ep Hfr Habs Hroom Hfi Hfb Hrc. apply wp_bind. rw write_syscall_eq //.
  apply code_syscall_spec. eapply wp_mono; [by apply (write_file_spec s r p bs ess)|].
  intros c s1 (-> & ino & ds & ids & Hec & Hfa & _). apply wp_ret.
  destruct Hec as (Hi1 & Em & Hino & _ & _ & _ & (ess' & Hins & Hdl1) & _). have Hino0 : ino <> 0 by geometry; lia.
  change (ecx (general (call_regs SYSCALL_WRITE w rc 0))) with rc. set (k1 := mkKernel s1 _ _).
  have M : mem_only s1 (k_fs (stored rc [u8 0] k1)) := stored_fs rc [u8 0] k1 (inv_dev _ (inv_core _ Hi1)).
  split; [change (mem_store (fs_mem s1) (u32 rc) [0] = mem_store (user_mem k) rc [0]); rewrite -> u32_id, Em by lia; done|].
  split; [by eapply mem_only_fs_inv|]. exists ino, ess', ds, ids. split; [done|]. split; [done|].
  split; [by eapply mem_only_live|by eapply mem_only_file_at].
Qed.

Lemma file_created_lookup k k' r p bs ess : file_created k k' r p bs ess ->
  dir_lookup (concat ess) (request_nm (k_fs k) r) = 0 ->
  fs_inv (k_fs k') /\ exists ino ess' ds ids, dir_at (k_fs k') p bs ess' /\
    dir_lookup (concat ess') (request_nm (k_fs k) r) = ino /\
    file_at (k_fs k') ino ds ids (buffer_size r) (take (Z.to_nat max_file_size) (request_data (k_fs k) r)).
Proof.
  intros (Hi & ino & ess' & ds & ids & Hino & Hins & Hdl & Hfa) Habs. split; [done|].
  exists ino, ess', ds, ids. split; [apply Hdl|]. split; [|done].
  rewrite -> (dirs_insert_lookup _ _ _ _ _ _ Hino Hins Habs). by rewrite -> bool_decide_true.
Qed.

Lemma read_syscall_spec k a rc p bs ess n ds ids size content : let s := k_fs k in let r := request_at (fs_mem s) a in
  fs_inv s -> dir_at s p bs ess -> parent_inode r = p ->
  dir_lookup (concat ess) (request_nm s r) = n -> file_at s n ds ids size content ->
  0 <= buf r -> 0 <= buffer_size r -> buf r + Z.min (buffer_size r) size <= 2 ^ 32 -> 0 <= rc < 2 ^ 32 ->
  wp (syscall SYSCALL_READ a rc 0) (fun _ k' => fs_inv (k_fs k') /\ exists m,
    user_mem k' = mem_store m rc [0] /\
    mem_eq m (mem_store (user_mem k) (buf r) (take (Z.to_nat (buffer_size r)) content))) k.
Proof.
  intros s r Hi Hda Ep El Hfa Hb Hsz Hw Hrc. apply wp_bind. rw read_syscall_eq //.
  apply code_syscall_spec. eapply wp_mono; [by apply (read_spec s r p bs ess n ds ids size content)|].
  intros c s1 (-> & M1 & E). apply wp_ret.
  change (ecx (general (call_regs SYSCALL_READ a rc 0))) with rc. set (k1 := mkKernel s1 _ _).
  have M : mem_only s1 (k_fs (stored rc [u8 0] k1)) := stored_fs rc [u8 0] k1 (mo_dev _ _ M1).
  split; [eapply mem_only_fs_inv; [exact Hi|by eapply mem_only_trans]|]. exists (fs_mem s1). split; [|exact E].
  change (mem_store (fs_mem s1) (u32 rc) [0] = mem_store (fs_mem s1) rc [0]). by rewrite -> u32_id by lia.
Qed.

(** C23: a file goes from one buffer of a program to another through system calls.
    SYSCALL_WRITE with a request for a new file in the caller's memory, then
    SYSCALL_READ with a request for the same name and another buffer: both result
    codes are 0 and the second buffer holds the bytes of the first, for any placement
    of requests, name, codes and buffer that do not overlap. *)
Theorem write_read_syscalls k w a rc1 rc2 out bs ess :
  let s := k_fs k in let r := request_at (fs_mem s) w in
  fs_inv s -> dir_live_at s (parent_inode r) bs ess -> file_request s r ->
  dir_lookup (concat ess) (request_nm s r) = 0 -> dirs_room ess (request_nm s r) = true ->
  free_inodes s <> 0 -> buffer_size r <= max_file_size -> blocks_taken r <= free_blocks s ->
  request_at (fs_mem s) a = mkRequest out (name r) (name_len r) (parent_inode r) (buffer_size r) false ->
  apart rc1 1 a 18 -> apart rc1 1 (name r) (Z.to_nat (name_len r)) ->
  apart rc1 1 out (Z.to_nat (buffer_size r)) -> apart rc2 1 out (Z.to_nat (buffer_size r)) ->
  wp (syscall SYSCALL_WRITE w rc1 0;; syscall SYSCALL_READ a rc2 0)
    (fun _ k' => user_mem k' rc1 = 0 /\ user_mem k' rc2 = 0 /\
      mem_load (user_mem k') out (Z.to_nat (buffer_size r)) = request_data s r /\ fs_inv (k_fs k')) k.
Proof.
  intros s r Hi Hdl Hfr Habs Hroom Hfi Hmax Hfb Ea A1 A2 A3 A4. destruct (Hfr) as (_ & _ & Hsz & _).
  destruct (A1) as ([] & _). destruct (A4) as ([] & [] & _).
  apply wp_bind. eapply wp_mono; [apply (write_syscall_spec k w rc1 (parent_inode r) bs ess); try done; lia|].
  intros _ k1 (Em & Hc). destruct (file_created_lookup _ _ _ _ _ _ Hc Habs) as (Hi1 & ino & ess' & ds & ids & Hda & El & Hfa).
  have Er : request_at (user_mem k1) a = mkRequest out (name r) (name_len r) (parent_inode r) (buffer_size r) false
    by rw Em request_apart.
  have En : request_nm (k_fs k1) (request_at (user_mem k1) a) = request_nm s r.
  { rw Er /request_nm. change (fs_mem (k_fs k1)) with (user_mem k1). by rw Em load_apart. }
  eapply wp_mono; [eapply (read_syscall_spec k1 a rc2 (parent_inode r) bs ess' ino ds ids); try done|].
  - by rw Er. - by rw En. - by rw Er. - by rw Er. - rw Er. cbn [buf buffer_size].  lia. - lia.
  - intros _ k2 (Hi2 & m & E2 & E). rw Er in E. cbn [buf buffer_size] in E. fold s in E. fold r in E.
    have Hl : length (request_data s r) = Z.to_nat (buffer_size r) by apply mem_load_length.
    rewrite -> !take_ge in E by (rw ?length_take; lia). rw Em in E. rw E2 -Hl in A3 A4 |- *. split; [|split; [|split; [|done]]].
    + rewrite -> mem_store_lookup by (cbn; lia). case_bool_decide as Hr; [cbn in Hr; by have -> : rc1 - rc2 = 0 by lia|].
      rewrite -> E, byte_apart, byte_stored by (done || lia). done.
    + by rewrite -> byte_stored by lia.
    + rewrite -> load_apart by done. rewrite -> (mem_load_eq _ _ _ _ E). apply mem_load_store; [split; lia|done].
Qed.

(** the size of a new file is visible through SYSCALL_STAT.  After SYSCALL_WRITE of
    a new file, SYSCALL_STAT of the same name and directory answers 0 in EAX, stores
    the size that the write request had and the byte 0 for "not a directory". *)
Theorem stat_after_write k w rc q size_out dir_out bs ess :
  let s := k_fs k in let r := request_at (fs_mem s) w in
  fs_inv s -> dir_live_at s (parent_inode r) bs ess -> file_request s r ->
  dir_lookup (concat ess) (request_nm s r) = 0 -> dirs_room ess (request_nm s r) = true ->
  free_inodes s <> 0 -> blocks_taken r <= free_blocks s -> name r <> 0 -> name_len r <> 0 ->
  mem_field (fs_mem s) q 4 = name r -> mem_field (fs_mem s) (q + 4) 1 = name_len r ->
  mem_field (fs_mem s) (q + 5) 4 = parent_inode r ->
  apart rc 1 q 9 -> apart rc 1 (name r) (Z.to_nat (name_len r)) ->
  size_out <> 0 -> dir_out <> 0 -> apart dir_out 1 size_out 4 ->
  wp (syscall SYSCALL_WRITE w rc 0;; syscall SYSCALL_STAT q size_out dir_out)
    (fun code k' => code = 0 /\ mem_field (user_mem k') size_out 4 = buffer_size r /\
      user_mem k' dir_out = 0 /\ fs_inv (k_fs k')) k.
Proof.
  intros s r Hi Hdl Hfr Habs Hroom Hfi Hfb Hn0 Hl0 E1 E2 E3 A1 A2 Hs Hd A3. destruct (A1) as ([] & _).
  destruct (A3) as ([] & [] & Ha3).
  apply wp_bind. eapply wp_mono; [apply (write_syscall_spec k w rc (parent_inode r) bs ess); try done; lia|].
  intros _ k1 (Em & Hc). destruct (file_created_lookup _ _ _ _ _ _ Hc Habs) as (Hi1 & ino & ess' & ds & ids & Hda & El & Hfa).
  have F off sz : 0 <= off -> off + Z.of_nat sz <= 9 -> mem_field (user_mem k1) (q + off) sz = mem_field (fs_mem s) (q + off) sz.
  { intros Ho Hz. rw Em. by apply (field_apart _ _ _ _ 9). }
  have F0 := F 0 4%nat. rw !Z.add_0_r in F0.
  apply wp_bind. rw stat_syscall_eq //. cbn [call_regs general ebx ecx edx].
  apply wp_bind, wp_gets, wp_bind, wp_on_fs. rewrite -> F0, (F 4 1%nat), (F 5 4%nat) by lia. rw E1 E2 E3.
  eapply wp_mono; [eapply (stat_spec (k_fs k1) _ _ _ bs ess' ino ds ids); try done|].
  { change (fs_mem (k_fs k1)) with (user_mem k1). rw Em load_apart; [exact A2|exact El]. }
  intros ans s2 [-> Hf]. cbv beta iota. rw (proj2 (Z.eqb_neq _ _) Hs) (proj2 (Z.eqb_neq _ _) Hd).
  apply wp_bind, wp_bind, wp_store, wp_store, wp_ret, wp_ret. split; [done|].
  set (k2 := mkKernel s2 _ _). have Hz : 0 <= buffer_size r < 2 ^ 32 by destruct Hfr as (_ & ? & ? & ? & ? & _); lia.
  have Ez : user_mem (stored dir_out [0] (stored size_out (le_bytes 4 (buffer_size r)) k2)) =
    mem_store (mem_store (user_mem k2) size_out (le_bytes 4 (buffer_size r))) dir_out [0].
  { change (mem_store (mem_store (user_mem k2) (u32 size_out) (le_bytes 4 (buffer_size r))) (u32 dir_out) [0] =
      mem_store (mem_store (user_mem k2) size_out (le_bytes 4 (buffer_size r))) dir_out [0]).
    by rewrite -> !u32_id by lia. }
  rw Ez. split; [|split].
  - rw /mem_field load_apart // mem_load_store; [by split|done|]. by apply le_val_bytes_id.
  - apply byte_stored; lia.
  - have M1 := stored_fs size_out (le_bytes 4 (buffer_size r)) k2 (feq_dev _ _ Hf).
    have M2 := stored_fs dir_out [0] (stored size_out (le_bytes 4 (buffer_size r)) k2) (mo_dev _ _ M1).
    eapply mem_only_fs_inv; [exact Hi1|]. eapply mem_only_trans; [by apply feq_mem_only|by eapply mem_only_trans].
Qed.

(** What is typed arrives in the program.  On an activated keyboard with nothing
    unread, the interrupts of typing a text followed by [n] GETCHAR calls leave the
    first 255 characters of the text, then zeros, in the caller's buffer; nothing else
    of the file system's state changes, and each interrupt is acknowledged. *)
Theorem typed_text_delivered k text n a : kbd_inv (k_keyboard k) ->
  kbd_abs (k_keyboard k) = mkKeys true false [] -> Forall (fun c => typeable c = true) text ->
  0 <= a -> a + Z.of_nat n <= 2 ^ 32 ->
  wp (irqs (scancodes text);; getchars n a) (fun _ k' =>
    mem_load (user_mem k') a n = take n (take 255 text ++ zeros n) /\
    k_fs k' = set_mem (user_mem k') (k_fs k) /\
    k_console k' = Nat.iter (length (scancodes text)) (pic_ack IRQ_KEYBOARD) (k_console k)) k.
Proof.
  intros Hi Ek Ht Ha Hn. apply wp_bind. eapply wp_mono; [by apply irqs_spec, scancodes_range|].
  intros [] k1 (E1 & Hi1 & E2 & E3). eapply wp_mono; [by apply getchars_spec|].
  intros [] k2 (E4 & E5 & E6). rw Ek (scans_text text []) //= in E2; [lia|]. rw E2 in E4. cbn [k_queue] in E4.
  split; [|by rw E5 E6 E1 E3]. rewrite -> (mem_load_eq _ _ _ _ E4). apply mem_load_store; [by split|].
  rw length_take length_app length_replicate. lia.
Qed.

(** ** The terminal of a program *)
(** an interrupt: the byte in the keyboard's port, the registers, the vector *)
Definition interrupt : Type := Z * CPURegister * Z.
Record Tty := mkTty { tty_keys : Keys; tty_screen : Term; tty_mem : mem }.
Definition tty_call (r : GeneralRegisters) (t : Tty) : Tty :=
  let q := tty_keys t in
  if eax r =? SYSCALL_GETCHAR then
    mkTty (mkKeys (k_on q) (k_ext q) (tl (k_queue q))) (tty_screen t)
      (mem_store (tty_mem t) (u32 (ebx r)) [hd 0 (k_queue q)])
  else if eax r =? SYSCALL_PUTCHAR then mkTty q (t_one (u8 (ecx r)) (u8 (ebx r)) (tty_screen t)) (tty_mem t)
  else if eax r =? SYSCALL_PUTS then
    mkTty q (t_puts (mem_load (tty_mem t) (ebx r) (Z.to_nat (ecx r))) (u8 (edx r)) (tty_screen t)) (tty_mem t)
  else if eax r =? SYSCALL_ACTIVATE_KBD then mkTty (mkKeys true (k_ext q) (k_queue q)) (tty_screen t) (tty_mem t)
  else t.
Definition tty_step (t : Tty) (i : interrupt) : Tty :=
  let '(scancode, regs, vector) := i in
  if vector =? 0x21 then mkTty (scan scancode (tty_keys t)) (tty_screen t) (tty_mem t)
  else if vector =? 0x80 then tty_call (general regs) t
  else t.
(** every interrupt but the system calls of the file system *)
Definition file_call (r : GeneralRegisters) : bool := bool_decide (eax r ∈ [0; 1; 2; 3; 8]).
Definition tty_interrupt (i : interrupt) : Prop :=
  let '(scancode, regs, vector) := i in
  0 <= scancode < 256 /\ (vector = 0x80 -> file_call (general regs) = false).
Record tty_rel k (t : Tty) : Prop := {
  tr_inv : kbd_inv (k_keyboard k);
  tr_keys : kbd_abs (k_keyboard k) = tty_keys t;
  tr_bytes : bytes_ok (k_queue (tty_keys t));
  tr_screen : console_inv (k_console k) (tty_screen t);
  tr_mem : user_mem k = tty_mem t;
  tr_mem_ok : mem_ok (tty_mem t);
}.
Fixpoint handle (ints : list interrupt) : M (Kernel D) unit :=
  match ints with
  | [] => mret tt
  | (scancode, regs, vector) :: ints => main_interrupt_handler scancode regs vector;; handle ints
  end.

Lemma scan_bytes sc q : bytes_ok (k_queue q) -> bytes_ok (k_queue (scan sc q)).
Proof.
  intros Hq. rw /scan. destruct (negb _); [done|]. destruct (_ =? 224); [done|]. cbn [k_queue].
  have Ht : Forall (fun c => 0 <= c < 256) keyboard_scancode_1_to_ascii_map.
  { apply (bool_decide_unpack (Forall _ _)). by vm_compute. }
  have Hd c : decode (k_ext q) sc = Some c -> 0 <= c < 256.
  { rw /decode. destruct (k_ext q).
    - repeat (destruct (_ =? _); [intros [= <-]; lia|]). done.
    - destruct (_ <? _); [|done].
      have Hx : 0 <= nth (Z.to_nat sc) keyboard_scancode_1_to_ascii_map 0 < 256.
      { destruct (nth_lookup_or_length keyboard_scancode_1_to_ascii_map (Z.to_nat sc) 0) as [E|E].
        - by apply (Forall_lookup_1 _ _ _ _ Ht E).
        - rewrite -> nth_overflow by done. lia. }
      revert Hx. generalize (nth (Z.to_nat sc) keyboard_scancode_1_to_ascii_map 0) => x Hx.
      cbv zeta. destruct (x =? 0); [done|]. by intros [= <-]. }
  destruct (decode _ _) as [c|]; [|done]. rw /enqueue. destruct (_ <? _)%nat; [|done].
  apply Forall_app. split; [done|]. constructor; [by apply Hd|done].
Qed.

Lemma tty_call_spec regs k t : tty_rel k t -> file_call (general regs) = false ->
  wp (syscall_handler regs) (fun _ k' => tty_rel k' (tty_call (general regs) t) /\
    k_fs k' = set_mem (user_mem k') (k_fs k)) k.
Proof.
  intros [Hi Ek Hb Hs Em Hm] Hf. rw /file_call in Hf. apply bool_decide_eq_false in Hf. set_unfold in Hf.
  have Hne v : v ∈ [0; 1; 2; 3; 8] -> (eax (general regs) =? v) = false.
  { intros Hv. apply Z.eqb_neq. intros E. apply Hf. set_unfold in Hv. lia. }
  have Hself : k_fs k = set_mem (user_mem k) (k_fs k) by rw /user_mem; destruct (k_fs k).
  rw /syscall_handler /tty_call /SYSCALL_READ /SYSCALL_READ_DIR /SYSCALL_WRITE /SYSCALL_DELETE /SYSCALL_STAT.
  rw (Hne 0) ?(Hne 1) ?(Hne 2) ?(Hne 3) ?(Hne 8); try set_solver.
  destruct (eax _ =? SYSCALL_GETCHAR).
  { apply wp_bind, wp_on_keyboard. eapply wp_mono; [by apply get_keyboard_buffer_spec|].
    intros c s (Hi' & E1 & E2 & -> & E3). apply wp_bind, wp_store, wp_ret.
    have Eq : kbd_queue (k_keyboard k) = k_queue (tty_keys t) by rw -Ek. rw Eq in E3 |- *.
    have Hh : 0 <= List.hd 0 (k_queue (tty_keys t)) < 256 by destruct Hb; cbn; lia.
    split; [|done]. constructor; cbn [k_keyboard k_console k_fs tty_keys tty_screen tty_mem stored k_queue]; try done.
    - rw /kbd_abs E1 E2 E3. by rw -Ek.
    - revert Hb. destruct (k_queue (tty_keys t)); [done|]. by inversion 1.
    - by rw -Em.
    - apply mem_store_ok; [done|]. by constructor. }
  destruct (eax _ =? SYSCALL_PUTCHAR).
  { apply wp_bind, wp_modify, wp_ret. split; [|done]. constructor; try done.
    have Hc : call_ok (CallPutchar (u8 (ebx (general regs))) (u8 (ecx (general regs)))) by split; apply u8_range.
    apply (console_step_spec _ _ _ Hs Hc). }
  destruct (eax _ =? SYSCALL_PUTS).
  { apply wp_bind, wp_gets, wp_bind, wp_modify, wp_ret. split; [|done]. rw Em. constructor; try done.
    set (str := mem_load _ _ _).
    have Hc : call_ok (CallPuts str (u8 (edx (general regs)))) by split; [by apply mem_load_ok|apply u8_range].
    apply (console_step_spec _ _ _ Hs Hc). }
  destruct (eax _ =? SYSCALL_ACTIVATE_KBD).
  { apply wp_bind, wp_on_keyboard, wp_modify, wp_ret. split; [|done]. constructor; try done; [by destruct Hi|]. cbn. by rw -Ek. }
  by apply wp_ret.
Qed.

Lemma pic_ack_inv irq s t : console_inv s t -> console_inv (pic_ack irq s) t.
Proof. rw /pic_ack. destruct (8 <=? irq); by destruct 1. Qed.

Lemma tty_step_spec i k t : tty_rel k t -> tty_interrupt i ->
  wp (let '(scancode, regs, vector) := i in main_interrupt_handler scancode regs vector)
    (fun _ k' => tty_rel k' (tty_step t i) /\ k_fs k' = set_mem (user_mem k') (k_fs k)) k.
Proof.
  destruct i as [[sc regs] vec]. intros Ht [Hsc Hcall]. rw /tty_step.
  have Hself : k_fs k = set_mem (user_mem k) (k_fs k) by rw /user_mem; destruct (k_fs k).
  destruct (Z.eqb_spec vec 0x21) as [->|Hk].
  { destruct Ht as [Hi Ek Hb Hs Em Hm]. eapply wp_mono; [by apply keyboard_interrupt_spec|].
    intros r k' (_ & E1 & Hi' & E2 & E3). rw /user_mem E1. split; [|done]. constructor; cbn; rw ?E3 ?/user_mem ?E1 ?E2 ?Ek //.
    - by apply scan_bytes.
    - by apply pic_ack_inv. }
  rw /main_interrupt_handler. change (PIC1_OFFSET + IRQ_KEYBOARD) with 0x21. change (PIC1_OFFSET + IRQ_TIMER) with 0x20.
  rw (proj2 (Z.eqb_neq _ _) Hk). destruct (Z.eqb_spec vec 0x20) as [->|Ht2].
  { apply wp_bind, wp_modify, wp_ret. split; [|done]. destruct Ht. constructor; try done. by apply pic_ack_inv. }
  destruct (Z.eqb_spec vec 0x80) as [->|Hv]; [by apply tty_call_spec; [|apply Hcall]|by apply wp_ret].
Qed.

(** C13: a program's terminal.  Any sequence of keyboard and timer interrupts, of
    interrupts that the kernel does not serve and of system calls that are not calls of
    the file system runs without undefined behaviour and does to the keyboard queue, the
    screen and the caller's memory what the terminal's specification does; the volume
    and the state of its driver are not touched. *)
Theorem terminal_refinement ints k t : tty_rel k t -> Forall tty_interrupt ints ->
  wp (handle ints) (fun _ k' => tty_rel k' (foldl tty_step t ints) /\ k_fs k' = set_mem (user_mem k') (k_fs k)) k.
Proof.
  intros Hr Hok. revert k t Hr. induction Hok as [|i ints Hi Hok IH] => k t Hr; cbn [handle foldl].
  { apply wp_ret. split; [done|]. rw /user_mem. by destruct (k_fs k). }
  have Hstep := tty_step_spec i k t Hr Hi. destruct i as [[sc regs] vec].
  apply wp_bind. eapply wp_mono; [exact Hstep|]. intros _ k1 [Hr1 E1].
  eapply wp_mono; [by apply IH|]. intros [] k2 [Hr2 E2]. split; [done|]. by rw E2 E1.
Qed.
End Theorems.

(** ** A program with its requests in memory *)
Definition request_bytes (r : EXT2DriverRequest) : list Z :=
  le_bytes 4 (buf r) ++ le_bytes 4 (name r) ++ [name_len r] ++ le_bytes 4 (parent_inode r) ++
  le_bytes 4 (buffer_size r) ++ [if is_directory r then 1 else 0].
(** at 512 a request to write the 1000 bytes at 4096, at 544 one to read them to
    65536, at 576 one to ask for the size, all under the five-byte name at 256 *)
Definition region (a : Z) (bs : list Z) (m : mem) : mem := fun x =>
  if (a <=? x) && (x <? a + len bs) then nth (Z.to_nat (x - a)) bs 0 else m x.
Definition program_mem : mem :=
  region 512 (request_bytes (demo_request 1000))
    (region 544 (request_bytes (mkRequest 65536 256 5 ROOT_INODE_NO 1000 false))
    (region 576 (le_bytes 4 256 ++ [5] ++ le_bytes 4 ROOT_INODE_NO) demo_mem)).
Definition program_fs : FS Image := set_mem program_mem demo_fs.
Definition program : Kernel Image := mkKernel program_fs keyboard_state demo_console.

Lemma program_mem_only : mem_only demo_fs program_fs.
Proof. exact (set_mem_mem_only program_mem demo_fs (inv_dev _ (inv_core _ demo_inv))). Qed.
Lemma program_inv : fs_inv program_fs.
Proof. exact (mem_only_fs_inv _ _ demo_inv program_mem_only). Qed.
Lemma program_root : dir_live_at program_fs ROOT_INODE_NO [ROOT_DIR_BLOCK_LBA] [root_entries].
Proof. exact (mem_only_live _ _ _ _ _ program_mem_only demo_root). Qed.
Lemma region_ok a bs m : bytes_ok bs -> mem_ok m -> mem_ok (region a bs m).
Proof.
  intros Hb Hm x Hx. rw /region. destruct (_ && _); [|by apply Hm].
  destruct (nth_in_or_default (Z.to_nat (x - a)) bs 0) as [Hin| ->]; [|lia].
  apply list_elem_of_In in Hin. by apply (proj1 (Forall_forall _ _) Hb).
Qed.
Lemma program_mem_ok : mem_ok program_mem.
Proof.
  have H0 : mem_ok demo_mem := eq_ind _ mem_ok demo_mem_ok _ (proj2 demo_formatted).
  repeat apply region_ok; try exact H0; apply (bool_decide_unpack (Forall _ _)); by vm_compute.
Qed.
Lemma program_request : request_at program_mem 512 = demo_request 1000.
Proof. by vm_compute. Qed.
Lemma program_file_request : file_request program_fs (request_at program_mem 512).
Proof. rw program_request. split; [done|]. cbn. repeat (split; [lia|]). exact program_mem_ok. Qed.
Lemma program_name : request_nm program_fs (request_at program_mem 512) = demo_name.
Proof. change (mem_load program_mem (name (request_at program_mem 512)) (Z.to_nat (name_len (request_at program_mem 512))) = demo_name). by vm_compute. Qed.
Lemma program_free : free_inodes program_fs <> 0 /\ blocks_taken (request_at program_mem 512) <= free_blocks program_fs.
Proof. rw program_request. exact (conj (proj1 demo_free) (proj2 (proj2 demo_free) 1000 ltac:(lia))). Qed.
Lemma program_absent : dir_lookup (concat [root_entries]) (request_nm program_fs (request_at program_mem 512)) = 0.
Proof. rw program_name. by vm_compute. Qed.
Lemma program_room : dirs_room [root_entries] (request_nm program_fs (request_at program_mem 512)) = true.
Proof. rw program_name. by vm_compute. Qed.

Ltac solve_apart := split; [split; vm_compute; discriminate|split; [split; vm_compute; discriminate|]];
  solve [left; vm_compute; discriminate|right; vm_compute; discriminate].

Lemma write_read_syscalls_witness :
  wp (syscall SYSCALL_WRITE 512 600 0;; syscall SYSCALL_READ 544 604 0)
    (fun _ k' => user_mem k' 600 = 0 /\ user_mem k' 604 = 0 /\
      mem_load (user_mem k') 65536 1000 = request_data program_fs (request_at program_mem 512) /\
      fs_inv (k_fs k')) program.
Proof.
  apply (write_read_syscalls program 512 544 600 604 65536 [ROOT_DIR_BLOCK_LBA] [root_entries]);
    [exact program_inv|exact program_root|exact program_file_request|exact program_absent|exact program_room|
     apply program_free|by vm_compute|apply program_free|by vm_compute|solve_apart..].
Defined.

Lemma stat_after_write_witness :
  wp (syscall SYSCALL_WRITE 512 600 0;; syscall SYSCALL_STAT 576 608 612)
    (fun code k' => code = 0 /\ mem_field (user_mem k') 608 4 = 1000 /\ user_mem k' 612 = 0 /\
      fs_inv (k_fs k')) program.
Proof.
  apply (stat_after_write program 512 600 576 608 612 [ROOT_DIR_BLOCK_LBA] [root_entries]);
    [exact program_inv|exact program_root|exact program_file_request|exact program_absent|exact program_room|
     apply program_free|apply program_free|done|done|by vm_compute|by vm_compute|by vm_compute|solve_apart|
     solve_apart|done|done|solve_apart].
Defined.

Definition active_program : Kernel Image := mkKernel program_fs (set_input_on true keyboard_state) demo_console.
Lemma typed_text_delivered_witness :
  wp (irqs (scancodes [108; 115; 10]);; getchars 4 65536) (fun _ k' =>
    mem_load (user_mem k') 65536 4 = [108; 115; 10; 0] /\
    k_fs k' = set_mem (user_mem k') program_fs /\
    k_console k' = Nat.iter 6 (pic_ack IRQ_KEYBOARD) demo_console) active_program.
Proof.
  apply (typed_text_delivered active_program [108; 115; 10] 4 65536); [by split|done| |done|done].
  repeat constructor.
Defined.

(** activate the keyboard, type a key, fetch it, and print the byte where it went *)
Definition demo_interrupts : list interrupt :=
  [ (0, call_regs SYSCALL_ACTIVATE_KBD 0 0 0, 0x80); (0x26, call_regs 0 0 0 0, 0x21); (0, call_regs 0 0 0 0, 0x20);
    (0, call_regs SYSCALL_GETCHAR 65536 0 0, 0x80); (0, call_regs SYSCALL_PUTS 65536 1 7, 0x80); (0, call_regs 0 0 0 0, 14) ].
Definition demo_tty : Tty := mkTty (kbd_abs keyboard_state) demo_term program_mem.
Lemma demo_tty_rel : tty_rel program demo_tty.
Proof. constructor; [by split|done|by constructor|exact demo_console_inv|done|exact program_mem_ok]. Qed.
Lemma terminal_refinement_witness :
  wp (handle demo_interrupts) (fun _ k' => tty_rel k' (foldl tty_step demo_tty demo_interrupts) /\
    k_fs k' = set_mem (user_mem k') program_fs) program /\
  t_cell (tty_screen (foldl tty_step demo_tty demo_interrupts)) (t_row demo_term) (t_col demo_term) = 108 + 256 * 7.
Proof.
  split; [|by vm_compute]. apply (terminal_refinement demo_interrupts program demo_tty demo_tty_rel).
  repeat constructor; cbn; lia || done.
Defined.
