(* ===== verification/KernelAny.v ===== *)
(** * Interrupts and system calls on arbitrary data

    No assumption on the volume, on the memory of the caller or on its registers: each
    interrupt is handled in finitely many steps, and the state of the kernel stays well
    typed, so that the theorems that start from such a state apply again. *)

From S2P Require Import Prelude Lasts StdString BlockDevice Ext2Layout Ext2State Ext2 Ext2Format Ext2Write Inserter Ext2Any Ext2Theorems Keyboard Console Pic Interrupt Syscalls.

(** ** Keyboard and console *)
Definition kbd_typed (s : KeyboardDriverState) : Prop := kbd_inv s /\ bytes_ok (buffer s).
Lemma add_to_buffer_any c : byte c -> lasts kbd_typed (add_to_buffer c) (fun _ => True).
Proof.
  intros Hc s [[Hl Hh Ht] Hb]. rw /add_to_buffer. cbv zeta. destruct (_ =? tail s); [by split|].
  have := array_set 256 (buffer s) (head s) c (conj Hl Hb) Hc. destruct (arr_set _ _ _) as [b| |]; [|done|done].
  intros [Hl' Hb']. split; [done|]. split; [|done]. constructor; cbn; [done|apply Z.mod_pos_bound; done|done].
Qed.
Lemma get_keyboard_buffer_any : lasts kbd_typed get_keyboard_buffer byte.
Proof.
  intros s [[Hl Hh Ht] Hb]. rw /get_keyboard_buffer. destruct (_ =? _); [by split|].
  have := array_get 256 (buffer s) (tail s) (conj Hl Hb). destruct (arr_get _ _) as [c| |]; [|done|done].
  intros [Hc _]. split; [done|]. split; [|done]. constructor; cbn; [done|done|apply Z.mod_pos_bound; done].
Qed.
Lemma set_input_on_any b : lasts kbd_typed (modify (set_input_on b)) (fun _ => True).
Proof. apply lasts_modify. by intros s [[] ?]. Qed.
Lemma keyboard_isr_any scancode : lasts kbd_typed (keyboard_isr scancode) (fun _ => True).
Proof.
  rw /keyboard_isr. eapply (lasts_bind _ _ _ (fun _ => True)); [by apply lasts_gets|]. intros on _.
  destruct (negb on); [by apply lasts_ret|]. destruct (_ =? _); [by apply lasts_modify; intros s [[] ?]|].
  eapply (lasts_bind _ _ _ (fun _ => True)); [by apply lasts_gets|]. intros [] _.
  - eapply lasts_seq; [by apply lasts_modify; intros s [[] ?]|].
    repeat (case_match; [by apply add_to_buffer_any|]). by apply lasts_ret.
  - destruct (_ <? _); [|by apply lasts_ret]. eapply lasts_bind.
    { apply lasts_lift, (ends_arr_get byte). apply (bool_decide_eq_true_1 _). by vm_compute. }
    intros c [Hc _]. destruct (negb _); [by apply add_to_buffer_any|by apply lasts_ret].
Qed.

Record console_typed (s : Console) : Prop := {
  ct_video : mem_ok (video s);
  ct_row : 0 <= sys_row s < 25;
  ct_col : 0 <= sys_col s < 80;
}.
Lemma console_typed_inv s : console_typed s -> console_inv s (mkTerm (cell s) (sys_row s) (sys_col s)).
Proof. by intros []. Qed.
Lemma inv_console_typed s t : console_inv s t -> console_typed s.
Proof. intros [Hm (E1 & E2 & _) [H1 H2]]. by constructor; rw ?E1 ?E2. Qed.
Lemma console_step_any s x : console_typed s -> call_ok x -> console_typed (console_step s x).
Proof. intros Hs Hx. destruct (console_step_spec s _ x (console_typed_inv s Hs) Hx) as [Hi _]. by eapply inv_console_typed. Qed.

(** ** The handlers *)
Section Kernel.
Context {D : Type} `{DeviceAnswers D} `{StackJunkLaws}.

Record kernel_typed (k : Kernel D) : Prop := {
  kt_fs : fs_typed (k_fs k);
  kt_keyboard : kbd_typed (k_keyboard k);
  kt_console : console_typed (k_console k);
}.
Abbreviation kernel_lasts := (lasts kernel_typed).

Lemma on_fs_any {A} (m : M (FS D) A) R : lasts fs_typed m R -> kernel_lasts (on_fs m) R.
Proof.
  intros Hm. change (on_fs m) with (zoom k_fs (fun s (k : Kernel D) => mkKernel s (k_keyboard k) (k_console k)) m).
  eapply lasts_zoom; [apply kt_fs| |exact Hm]. intros k s [] Hs. by constructor.
Qed.
Lemma on_keyboard_any {A} (m : M KeyboardDriverState A) R : lasts kbd_typed m R -> kernel_lasts (on_keyboard m) R.
Proof.
  intros Hm. change (on_keyboard m) with (zoom k_keyboard (fun s (k : Kernel D) => mkKernel (k_fs k) s (k_console k)) m).
  eapply lasts_zoom; [apply kt_keyboard| |exact Hm]. intros k s [] Hs. by constructor.
Qed.
Lemma on_console_any f : (forall s, console_typed s -> console_typed (f s)) -> kernel_lasts (on_console f) (fun _ => True).
Proof. intros Hf. apply lasts_modify. intros k []. constructor; [done|done|by apply Hf]. Qed.
Lemma pic_ack_any irq s : console_typed s -> console_typed (pic_ack irq s).
Proof. intros []. rw /pic_ack. by destruct (_ <=? _). Qed.

Lemma store_any a bs : bytes_ok bs -> kernel_lasts (store a bs) (fun _ => True).
Proof. intros Hb. apply on_fs_any, lasts_modify. intros s []. constructor; try done. by apply mem_store_ok. Qed.
Lemma store_code_any a code : kernel_lasts (store_code a code) (fun _ => True).
Proof. apply store_any. constructor; [apply u8_range|done]. Qed.
Lemma mem_field_any m a n : mem_ok m -> 0 <= mem_field m a n < 256 ^ Z.of_nat n.
Proof. intros Hm. have := le_val_range _ (mem_load_ok m a n Hm). by rw mem_load_length. Qed.
Lemma request_any a : kernel_lasts (gets (fun k => request_at (user_mem k) a)) request_typed.
Proof. apply lasts_gets. intros k [[] _ _]. by apply (mem_field_any _ (a + 13) 4). Qed.
(** a call with a request: its code goes to the caller *)
Lemma request_call_any (call : EXT2DriverRequest -> M (FS D) Z) a b (r : CPURegister) :
  (forall q, request_typed q -> lasts fs_typed (call q) (fun _ => True)) ->
  kernel_lasts (request ← gets (fun k => request_at (user_mem k) a);
    code ← on_fs (call request); store_code b code;; mret r) (fun _ => True).
Proof.
  intros Hc. eapply lasts_bind; [apply request_any|]. intros q Hq. eapply lasts_bind; [by apply on_fs_any, Hc|].
  intros code _. eapply lasts_seq; [apply store_code_any|by apply lasts_ret].
Qed.
Lemma stat_store_any size (is_dir : bool) a b : word32 size -> kernel_lasts
  ((if a =? 0 then mret tt else store a (le_bytes 4 size));;
   (if b =? 0 then mret tt else store b [if is_dir then 1 else 0])) (fun _ => True).
Proof.
  intros Hs. eapply (lasts_seq _ _ _ (fun _ => True)).
  - destruct (a =? 0); [by apply lasts_ret|]. apply store_any, le_bytes_ok.
  - destruct (b =? 0); [by apply lasts_ret|]. apply store_any. by destruct is_dir; repeat constructor.
Qed.

Lemma syscall_handler_any regs : kernel_lasts (syscall_handler regs) (fun _ => True).
Proof.
  rw /syscall_handler. cbv zeta.
  case_match; [apply request_call_any; intros; apply read_any|].
  case_match; [apply request_call_any; intros; apply read_directory_any|].
  case_match; [apply request_call_any; intros; by apply write_any|].
  case_match; [apply request_call_any; intros; apply delete_any|].
  case_match.
  { eapply lasts_bind; [apply on_keyboard_any, get_keyboard_buffer_any|]. intros c Hc.
    eapply lasts_seq; [by apply store_any; constructor|by apply lasts_ret]. }
  case_match.
  { eapply lasts_seq; [|by apply (lasts_ret _ _ (fun _ => True))]. apply on_console_any. intros s Hs.
    apply (console_step_any s (CallPutchar _ _) Hs). split; apply u8_range. }
  case_match.
  { eapply (lasts_bind _ _ _ bytes_ok); [by apply lasts_gets; intros k [[] _ _]; apply mem_load_ok|]. intros str Hstr.
    eapply lasts_seq; [|by apply (lasts_ret _ _ (fun _ => True))]. apply on_console_any. intros s Hs.
    apply (console_step_any s (CallPuts _ _) Hs). split; [done|apply u8_range]. }
  case_match.
  { eapply lasts_seq; [apply on_keyboard_any, set_input_on_any|by apply (lasts_ret _ _ (fun _ => True))]. }
  case_match; [|by apply lasts_ret].
  eapply (lasts_bind _ _ _ (fun _ => True)); [by apply lasts_gets|]. intros m _.
  eapply lasts_bind; [apply on_fs_any, stat_any|]. intros [code [[size is_dir]|]] Hs; cbn in Hs.
  - eapply lasts_seq; [by apply stat_store_any|by apply lasts_ret].
  - eapply lasts_seq; [by apply (lasts_ret _ _ (fun _ => True))|by apply lasts_ret].
Qed.
Lemma handler_any scancode regs vector : kernel_lasts (main_interrupt_handler scancode regs vector) (fun _ => True).
Proof.
  rw /main_interrupt_handler. case_match.
  { eapply lasts_seq; [apply on_keyboard_any, keyboard_isr_any|].
    eapply lasts_seq; [apply on_console_any, pic_ack_any|by apply lasts_ret]. }
  case_match; [eapply lasts_seq; [apply on_console_any, pic_ack_any|by apply lasts_ret]|].
  case_match; [apply syscall_handler_any|by apply lasts_ret].
Qed.
Lemma handle_any ints : kernel_lasts (handle ints) (fun _ => True).
Proof.
  induction ints as [|[[scancode regs] vector] ints IH]; cbn [handle]; [by apply lasts_ret|].
  eapply lasts_seq; [apply handler_any|exact IH].
Qed.
End Kernel.

(** ** Property *)
Section Property.
Context {D : Type} `{DeviceAnswers D} `{StackJunkLaws}.

(** C10: the kernel cannot be hung by data.  Whatever bytes the disk and the memory hold, for
    any sequence of interrupts and system calls with any registers, no loop of the handlers
    runs on: handling the sequence either ends with the kernel well typed, or reaches
    undefined behaviour, which does happen: a request that names an inode beyond 512 reads
    past the table of descriptors ([Ext2Theorems.inode_out_of_range]).  Well typed: every
    block of the disk is a block of bytes, the cached superblock and descriptors fit the
    widths of their fields, memory holds bytes, the ring buffer's indices are inside it and
    the cursor is on the screen. *)
Theorem interrupts_end_typed ints (k : Kernel D) : kernel_typed k ->
  handle ints k <> NoFuel /\ forall k', handle ints k = Ok (tt, k') -> kernel_typed k'.
Proof.
  intros Hk. pose proof (handle_any ints k Hk) as Hh. destruct (handle ints k) as [[[] k']| |]; [|by split|done].
  destruct Hh as [_ Hk']. split; [done|]. by intros k'' [= <-].
Qed.
End Property.

(** *** A volume of nonsense: the same 128 bytes all over the disk, under a cached
    superblock of a mounted volume *)
Definition nonsense_image : Image :=
  mkImage (fun a => if a mod 128 =? 1 then 0x40 else if a mod 4 =? 0 then 3 else 0).
Definition nonsense_fs : FS Image :=
  mkFS nonsense_image new_superblock (replicate 8 new_bgd) true 0 
    (mem_store (fun a => a mod 251) 0x100 (request_bytes (mkRequest 0x1000 0x200 1 2 600 false))).
Definition nonsense_kernel : Kernel Image :=
  mkKernel nonsense_fs keyboard_state (mkConsole (fun _ => 0) 0 0 []).
Lemma nonsense_typed : kernel_typed nonsense_kernel.
Proof.
  constructor.
  - constructor; [|exact new_superblock_ok|by repeat (constructor; [exact new_bgd_ok|])|].
    + intros a. cbn [dev_ok image_device fs_dev k_fs nonsense_kernel nonsense_fs image_storage nonsense_image]. repeat case_match; lia.
    + apply mem_store_ok; [intros a Ha; have := Z.mod_pos_bound a 251; lia|]. by repeat constructor.
  - split; [exact keyboard_state_inv|apply bytes_ok_zeros].
  - by constructor; [intros a _; cbn| |].
Qed.
(** a key, and the directory of nonsense read into the caller's memory *)
Definition nonsense_ints : list interrupt :=
  (0x1E, call_regs 0 0 0 0, 0x21) :: [(0, call_regs SYSCALL_READ_DIR 0x100 0x8000 0, 0x80)].
Lemma interrupts_end_typed_witness : kernel_typed nonsense_kernel /\
  (match handle nonsense_ints nonsense_kernel with Ok _ => true | _ => false end) = true /\
  (handle nonsense_ints nonsense_kernel <> NoFuel /\
   forall k', handle nonsense_ints nonsense_kernel = Ok (tt, k') -> kernel_typed k').
Proof.
  split; [exact nonsense_typed|]. split; [vm_compute; reflexivity|].
  apply (interrupts_end_typed nonsense_ints nonsense_kernel), nonsense_typed.
Defined.
