(* ===== verification/Kernel.v ===== *)
(** * Start-up ([src/kernel.c])

    [kernel_setup] over the whole machine: the descriptor tables, the interrupt
    controllers, the console, the file system and the page directory, composed in the
    order of the code.  The addresses the linker chooses, the assembly stubs and what
    the port of the interrupt mask delivers are parameters.  The result is the jump to
    user mode or the place of the endless loop the code enters.

    The caller's memory of the file system is the address space the kernel runs in; the
    program is loaded at its virtual address, in the frame that the page walk gives. *)

From S2P Require Import Prelude StdString BlockDevice Ext2Layout Ext2Dir Ext2State Ext2Inv Ext2 Ext2Format Ext2Files Ext2Data Ext2Write Ext2Crud Console Paging Gdt Idt Keyboard Pic Interrupt.

Definition KERNEL_STACK_SIZE : Z := 8192.

Record Machine (D : Type) := mkMachine {
  m_kernel : Kernel D;
  m_cpu : Cpu;
  m_idt : Idt;
  m_paging : Paging;
  (** GDTR, the data segment registers, the task register and CR3 *)
  m_gdtr : Z * Z;
  m_segments : Z;
  m_tr : Z;
  m_cr3 : Z;
}.
Arguments mkMachine {D}.
Arguments m_kernel {D}.
Arguments m_cpu {D}.
Arguments m_idt {D}.
Arguments m_paging {D}.
Arguments m_gdtr {D}.
Arguments m_segments {D}.
Arguments m_tr {D}.
Arguments m_cr3 {D}.

(** the jump to user mode, or the loops [while (true);] after a failed stack
    allocation, code allocation or load *)
Inductive outcome : Type := EnterUserMode | HangStack | HangCode | HangLoad.

(** where the linker put things, and the assembly stubs *)
Record Image_layout := mkLayout {
  addr_gdt : Z; addr_idt : Z; addr_tss : Z; addr_kernel_stack : Z; addr_page_directory : Z;
  addr_shell_name : Z;  (** the literal ["shell"] *)
  addr_isr_stub : Z -> Z;
}.

Section KernelSetup.
Context {D : Type} `{BlockDevice D} `{StackJunk} `{Overrun D}.
(** [pic1_mask s] is what [in(PIC1_DATA)] delivers after the port writes of [s] *)
Variables (L : Image_layout) (pic1_mask : Console -> Z).
Abbreviation MM := (M (Machine D)).

Definition on_kernel {A} (m : M (Kernel D) A) : MM A := fun s =>
  match m (m_kernel s) with
  | Ok (a, k) => Ok (a, mkMachine k (m_cpu s) (m_idt s) (m_paging s) (m_gdtr s) (m_segments s) (m_tr s) (m_cr3 s))
  | UB => UB | NoFuel => NoFuel end.
Definition on_cpu {A} (m : M Cpu A) : MM A := fun s =>
  match m (m_cpu s) with
  | Ok (a, c) => Ok (a, mkMachine (m_kernel s) c (m_idt s) (m_paging s) (m_gdtr s) (m_segments s) (m_tr s) (m_cr3 s))
  | UB => UB | NoFuel => NoFuel end.
Definition on_idt {A} (m : M Idt A) : MM A := fun s =>
  match m (m_idt s) with
  | Ok (a, i) => Ok (a, mkMachine (m_kernel s) (m_cpu s) i (m_paging s) (m_gdtr s) (m_segments s) (m_tr s) (m_cr3 s))
  | UB => UB | NoFuel => NoFuel end.
Definition on_paging {A} (m : M Paging A) : MM A := fun s =>
  match m (m_paging s) with
  | Ok (a, p) => Ok (a, mkMachine (m_kernel s) (m_cpu s) (m_idt s) p (m_gdtr s) (m_segments s) (m_tr s) (m_cr3 s))
  | UB => UB | NoFuel => NoFuel end.
Definition console (f : Console -> Console) : MM unit := on_kernel (on_console f).
Definition load_registers (gdtr : Z * Z) (segments tr cr3 : Z) : MM unit := modify (fun s =>
  mkMachine (m_kernel s) (m_cpu s) (m_idt s) (m_paging s) gdtr segments tr cr3).

Definition load_gdt : MM unit := s ← gets id; load_registers (_gdt_gdtr (addr_gdt L)) (m_segments s) (m_tr s) (m_cr3 s).
Definition reload_segments (selector : Z) : MM unit :=
  s ← gets id; load_registers (m_gdtr s) selector (m_tr s) (m_cr3 s).
Definition load_tss : MM unit :=
  s ← gets id; load_registers (m_gdtr s) (m_segments s) GDT_TSS_SEGMENT_SELECTOR (m_cr3 s).
Definition load_cr3 (a : Z) : MM unit := s ← gets id; load_registers (m_gdtr s) (m_segments s) (m_tr s) a.
Definition sti : MM unit := on_idt (modify (fun i => mkIdt (idt_table i) (_idt_idtr i) (cpu_idtr i) true)).

(** a character in the first row of the screen *)
Definition mark (col c fg : Z) : MM unit := console (framebuffer_write 0 col c fg BLACK).

(** phase 1: descriptor tables, task state segment, interrupts *)
Definition setup_tables : MM unit :=
  load_gdt;;
  reload_segments GDT_KERNEL_DATA_SEGMENT_SELECTOR;;
  on_cpu (init_tss (addr_tss L));;
  on_cpu (set_kernel_stack (addr_kernel_stack L + KERNEL_STACK_SIZE));;
  load_tss;;
  console pic_remap;;
  on_idt (initialize_idt (addr_isr_stub L) (addr_idt L));;
  console (fun s => activate_keyboard_interrupt (pic1_mask s) s);;
  console (fun s => activate_timer_interrupt (pic1_mask s) s);;
  sti.

(** phases 2 and 3: the screen, the file system, the page directory *)
Definition setup_drivers : MM unit :=
  console framebuffer_clear;;
  console (framebuffer_set_cursor 0 0);;
  on_kernel (on_fs initialize_filesystem_ext2);;
  ok ← gets (fun s => g_filesystem_initialized (k_fs (m_kernel s)));
  (if (ok : bool) then mark 0 70 GREEN else mark 0 88 RED);;
  load_cr3 (u32 (addr_page_directory L - 0xC0000000));;
  mark 1 80 GREEN.

Definition shell_request : EXT2DriverRequest :=
  mkRequest 0x400000 (addr_shell_name L) 5 ROOT_INODE_NO 0x100000 false.

Definition kernel_setup : MM outcome :=
  setup_tables;;
  setup_drivers;;
  mark 2 82 GREEN;;
  stack ← on_paging (paging_allocate_user_page_frame 0x800000);
  if negb stack then mark 3 69 RED;; mret HangStack else
  mark 3 83 GREEN;;
  code ← on_paging (paging_allocate_user_page_frame 0x400000);
  if negb code then mark 4 69 RED;; mret HangCode else
  mark 4 77 GREEN;;
  ret ← on_kernel (on_fs (read shell_request));
  if ret =? 0 then mark 5 76 GREEN;; mret EnterUserMode
  else mark 5 70 RED;; mret HangLoad.
End KernelSetup.

(** ** Steps *)
Section Steps.
Context {D : Type} `{BlockDeviceLaws D} `{StackJunkLaws} `{Overrun D}.
Variables (L : Image_layout) (ps : Pic * Pic).
(** the mask the controller holds *)
Abbreviation mask1 := (fun s => pic_mask (pics ps s).1).
Implicit Types s : Machine D.

Definition with_kernel (k : Kernel D) s : Machine D :=
  mkMachine k (m_cpu s) (m_idt s) (m_paging s) (m_gdtr s) (m_segments s) (m_tr s) (m_cr3 s).
Definition with_paging (p : Paging) s : Machine D :=
  mkMachine (m_kernel s) (m_cpu s) (m_idt s) p (m_gdtr s) (m_segments s) (m_tr s) (m_cr3 s).
Definition set_fs (f : FS D) s : Machine D :=
  with_kernel (mkKernel f (k_keyboard (m_kernel s)) (k_console (m_kernel s))) s.
Definition set_console (c : Console) s : Machine D :=
  with_kernel (mkKernel (k_fs (m_kernel s)) (k_keyboard (m_kernel s)) c) s.

Lemma wp_unbind {S A B} (m : M S A) (f : A -> M S B) Q (x : S) : wp (m ≫= f) Q x -> wp m (fun a y => wp (f a) Q y) x.
Proof. rw /wp /mbind /M_bind. by destruct (m x) as [[a y]| |]. Qed.
Lemma wp_fs {A} (m : M (FS D) A) Q s :
  wp m (fun a f => Q a (set_fs f s)) (k_fs (m_kernel s)) -> wp (on_kernel (on_fs m)) Q s.
Proof. rw /wp /on_kernel /on_fs. by destruct (m _) as [[a f]| |]. Qed.
Lemma wp_console f Q s : Q tt (set_console (f (k_console (m_kernel s))) s) -> wp (console f) Q s.
Proof. done. Qed.
Lemma wp_paging {A} (m : M Paging A) Q s :
  wp m (fun a p => Q a (with_paging p s)) (m_paging s) -> wp (on_paging m) Q s.
Proof. rw /wp /on_paging. by destruct (m _) as [[a p]| |]. Qed.
Lemma wp_cpu {A} (m : M Cpu A) Q s :
  wp m (fun a c => Q a (mkMachine (m_kernel s) c (m_idt s) (m_paging s) (m_gdtr s) (m_segments s) (m_tr s) (m_cr3 s))) (m_cpu s) ->
  wp (on_cpu m) Q s.
Proof. rw /wp /on_cpu. by destruct (m _) as [[a c]| |]. Qed.
Lemma wp_idt {A} (m : M Idt A) Q s :
  wp m (fun a i => Q a (mkMachine (m_kernel s) (m_cpu s) i (m_paging s) (m_gdtr s) (m_segments s) (m_tr s) (m_cr3 s))) (m_idt s) ->
  wp (on_idt m) Q s.
Proof. rw /wp /on_idt. by destruct (m _) as [[a i]| |]. Qed.

Ltac msimpl := cbn [m_kernel m_cpu m_idt m_paging m_gdtr m_segments m_tr m_cr3 k_fs k_keyboard k_console
  with_kernel with_paging set_fs set_console idt_table _idt_idtr cpu_idtr interrupt_flag].

(** ** The machine can take interrupts *)
Definition layout_ok : Prop := 0 <= addr_tss L < 2 ^ 32 /\ 0 <= addr_kernel_stack L /\
  addr_kernel_stack L + KERNEL_STACK_SIZE < 2 ^ 32 /\ forall v, 0 <= v < 256 -> 0 <= addr_isr_stub L v < 2 ^ 32.
Record tables_ready s : Prop := {
  ready_gdtr : m_gdtr s = (32 * 8 - 1, addr_gdt L);
  ready_segments : m_segments s = GDT_KERNEL_DATA_SEGMENT_SELECTOR;
  ready_tr : m_tr s = GDT_TSS_SEGMENT_SELECTOR;
  ready_tss : segment (m_cpu s) GDT_TSS_SEGMENT_SELECTOR = Some (mkSegment (addr_tss L) 103 0x9 false 0 true);
  ready_esp0 : ld 4 (g_tss (m_cpu s)) offset_esp0 = Ok (addr_kernel_stack L + KERNEL_STACK_SIZE);
  ready_ss0 : ld 4 (g_tss (m_cpu s)) offset_ss0 = Ok GDT_KERNEL_DATA_SEGMENT_SELECTOR;
  ready_idtr : cpu_idtr (m_idt s) = (256 * 8 - 1, addr_idt L);
  ready_if : interrupt_flag (m_idt s) = true;
  ready_gate v : 0 <= v < 256 -> gate (m_idt s) v = Some (mkGateView (addr_isr_stub L v) GDT_KERNEL_CODE_SEGMENT_SELECTOR
    (if v =? 0x80 then 0xF else 0xE) (if v =? 0x80 then 3 else 0) true) /\ int_allowed (m_idt s) v 3 = (v =? 0x80);
  ready_irq irq : 0 <= irq < 16 -> pics_raise (pics ps (k_console (m_kernel s))) irq =
    if irq =? IRQ_TIMER then Some 0x20 else if irq =? IRQ_KEYBOARD then Some 0x21 else None;
}.
(** nothing after the first phase takes that away *)
Lemma ready_frame s s' : tables_ready s -> m_gdtr s' = m_gdtr s -> m_segments s' = m_segments s -> m_tr s' = m_tr s ->
  m_cpu s' = m_cpu s -> m_idt s' = m_idt s ->
  pics ps (k_console (m_kernel s')) = pics ps (k_console (m_kernel s)) -> tables_ready s'.
Proof. intros [] E1 E2 E3 E4 E5 E6. by constructor; rw ?E1 ?E2 ?E3 ?E4 ?E5 ?E6. Qed.

(** what the first phase leaves alone *)
Definition screen_same (c c' : Console) : Prop := video c' = video c /\ sys_row c' = sys_row c /\ sys_col c' = sys_col c.

Lemma setup_tables_spec s : layout_ok -> length (g_tss (m_cpu s)) = 104%nat -> gdt (m_cpu s) = global_descriptor_table ->
  length (idt_table (m_idt s)) = 256%nat ->
  wp (setup_tables L mask1) (fun _ s' => tables_ready s' /\ m_paging s' = m_paging s /\
    k_fs (m_kernel s') = k_fs (m_kernel s) /\ k_keyboard (m_kernel s') = k_keyboard (m_kernel s) /\
    screen_same (k_console (m_kernel s)) (k_console (m_kernel s'))) s.
Proof.
  intros (Ha & Hs0 & Hs & Hstub) Hl Hg Hi. rw /setup_tables. do 2 (apply wp_bind; eapply wp_intro; [reflexivity|]).
  apply wp_bind, wp_cpu. msimpl.
  have HS : 0 <= addr_kernel_stack L + KERNEL_STACK_SIZE < 2 ^ 32 by rw /KERNEL_STACK_SIZE in Hs |- *; lia.
  eapply wp_mono; [exact (wp_unbind _ _ _ _ (tss_setup (m_cpu s) _ _ Hl Hg Ha HS))|].
  intros [] c1 Hc1. apply wp_bind, wp_cpu. msimpl. eapply wp_mono; [exact Hc1|]. clear c1 Hc1. intros [] c (C1 & C2 & C3 & _).
  apply wp_bind; eapply wp_intro; [reflexivity|]. apply wp_bind, wp_console. msimpl. apply wp_bind, wp_idt. msimpl.
  eapply wp_mono; [by apply (initialize_idt_spec (addr_isr_stub L) (addr_idt L) Hstub)|]. intros [] i (I1 & I2 & I3).
  apply wp_bind, wp_console. msimpl. apply wp_bind, wp_console. msimpl. apply wp_idt, wp_modify. msimpl. split; [|done].
  have Hirq := irq_setup ps (k_console (m_kernel s)). constructor; try done.
Qed.
(** ** The screen *)
(** the marks on the first row of an otherwise cleared screen *)
Definition marks (c : Console) (l : list Z) : Prop := mem_ok (video c) /\
  forall r k, 0 <= r < 25 -> 0 <= k < 80 -> cell c r k = if r =? 0 then nth (Z.to_nat k) l 0x0F20 else 0x0F20.
Lemma marks_clear (c : Console) : mem_ok (video c) -> marks (framebuffer_clear c) [].
Proof.
  intros Hm. destruct (framebuffer_clear_spec c (mkTerm (cell c) (sys_row c) (sys_col c)) Hm) as (Hv & _ & _ & _ & Hc); [done|].
  split; [exact Hv|]. intros r k Hr Hk. rw Hc //. cbn [t_cell]. destruct (r =? 0); [by destruct (Z.to_nat k)|done].
Qed.
Lemma marks_snoc (c : Console) l ch fg : marks c l -> len l < 80 -> 0 <= ch < 256 -> 0 <= fg ->
  marks (framebuffer_write 0 (len l) ch fg BLACK c) (l ++ [glyph ch fg]).
Proof.
  intros [Hm Hc] Hl Hch Hfg. set (t := mkTerm (cell c) (sys_row c) (sys_col c)).
  destruct (framebuffer_write_spec c t 0 (len l) ch fg Hm) as ((Hv & _) & _ & _ & Hs); [done|lia|lia|done|done|].
  split; [exact Hv|]. intros r k Hr Hk. rewrite -> Hs by done. cbn [t_cell]. rw /t_put.
  destruct (Z.eqb_spec r 0) as [->|Hr0]; cbn [andb].
  - destruct (Z.eqb_spec k (len l)) as [->|Hne].
    + rw Nat2Z.id. rewrite -> app_nth2 by lia. by rw Nat.sub_diag.
    + change (t_cell t 0 k) with (cell c 0 k). rw Hc //. change (0 =? 0) with true. cbv iota. destruct (decide (k < len l)).
      * by rewrite -> app_nth1 by lia.
      * rewrite -> !nth_overflow; [done|rw length_app /=; lia|lia].
  - change (t_cell t r k) with (cell c r k). rw Hc //. by rw (proj2 (Z.eqb_neq _ _) Hr0).
Qed.
Lemma marks_cursor (c : Console) r k l : marks c l -> marks (framebuffer_set_cursor r k c) l.
Proof. done. Qed.
Lemma pics_cursor r k (c : Console) : pics ps (framebuffer_set_cursor r k c) = pics ps c.
Proof. rw /framebuffer_set_cursor. rewrite -> !pics_out. by destruct (pics ps c). Qed.
Lemma pics_clear (c : Console) : pics ps (framebuffer_clear c) = pics ps c.
Proof. rw /framebuffer_clear. by rewrite -> pics_cursor. Qed.

(** ** The state on the way to the load *)
Record on_the_way (F : FS D -> Prop) (p : Paging) (l : list Z) s : Prop := {
  way_ready : tables_ready s;
  way_fs : F (k_fs (m_kernel s));
  way_paging : m_paging s = p;
  way_cr3 : m_cr3 s = u32 (addr_page_directory L - 0xC0000000);
  way_marks : marks (k_console (m_kernel s)) l;
  way_keyboard : k_keyboard (m_kernel s) = keyboard_state;
  way_cursor : sys_row (k_console (m_kernel s)) = 0 /\ sys_col (k_console (m_kernel s)) = 0;
}.

Lemma mark_run F p l ch fg s : on_the_way F p l s -> len l < 80 -> 0 <= ch < 256 -> 0 <= fg ->
  exists s', mark (len l) ch fg s = Ok (tt, s') /\ on_the_way F p (l ++ [glyph ch fg]) s'.
Proof.
  intros [Hr Hf Hp Hc Hm Hk Hcur] Hl Hch Hfg. eexists. split; [reflexivity|]. constructor; try done.
  - by eapply ready_frame.
  - by apply marks_snoc.
Qed.
Lemma page_run va F p p' l s : on_the_way F p l s -> paging_allocate_user_page_frame va p = Ok (true, p') ->
  exists s', on_paging (paging_allocate_user_page_frame va) s = Ok (true, s') /\ on_the_way F p' l s'.
Proof.
  intros [Hr Hf Hp Hc Hm Hk Hcur] E. rw /on_paging Hp E. eexists. split; [reflexivity|].
  constructor; try done. by eapply ready_frame.
Qed.

(** the directory after the stack, and after the stack and the code *)
Definition stack_paging : Paging :=
  match paging_allocate_user_page_frame 0x800000 initial_paging with Ok (_, p) => p | _ => initial_paging end.
Definition user_paging : Paging :=
  match paging_allocate_user_page_frame 0x400000 stack_paging with Ok (_, p) => p | _ => initial_paging end.
Lemma stack_allocated : paging_allocate_user_page_frame 0x800000 initial_paging = Ok (true, stack_paging).
Proof. vm_compute. reflexivity. Qed.
Lemma code_allocated : paging_allocate_user_page_frame 0x400000 stack_paging = Ok (true, user_paging).
Proof. vm_compute. reflexivity. Qed.

(** the machine as the boot loader leaves it *)
Record power_on s : Prop := {
  on_tss : length (g_tss (m_cpu s)) = 104%nat;
  on_gdt : gdt (m_cpu s) = global_descriptor_table;
  on_idt_table : length (idt_table (m_idt s)) = 256%nat;
  on_page_dir : m_paging s = initial_paging;
  on_video : mem_ok (video (k_console (m_kernel s)));
  on_keyboard : k_keyboard (m_kernel s) = keyboard_state;
  on_cursor : sys_row (k_console (m_kernel s)) = 0 /\ sys_col (k_console (m_kernel s)) = 0;
}.

(** the first mark: whether the volume was mounted *)
Definition start_mark (f : FS D) : Z := if g_filesystem_initialized f then glyph 70 GREEN else glyph 88 RED.
Lemma setup_drivers_spec f s Q : tables_ready s -> mem_ok (video (k_console (m_kernel s))) ->
  k_keyboard (m_kernel s) = keyboard_state -> sys_row (k_console (m_kernel s)) = 0 /\ sys_col (k_console (m_kernel s)) = 0 ->
  initialize_filesystem_ext2 (k_fs (m_kernel s)) = Ok (tt, f) ->
  (forall s', on_the_way (eq f) (m_paging s) [start_mark f; glyph 80 GREEN] s' -> Q tt s') ->
  wp (setup_drivers L) Q s.
Proof.
  intros Hr Hm Hk Hcur Hf HQ. rw /setup_drivers. apply wp_bind, wp_console. msimpl. apply wp_bind, wp_console. msimpl.
  apply wp_bind, wp_fs. msimpl. eapply wp_intro; [exact Hf|]. apply wp_bind, wp_gets. msimpl.
  have Hc0 := marks_clear _ Hm. apply wp_bind.
  have Hfirst Q' s0 : Q' tt (set_console (framebuffer_write 0 0 (if g_filesystem_initialized f then 70 else 88)
      (if g_filesystem_initialized f then GREEN else RED) BLACK (k_console (m_kernel s0))) s0) ->
    wp (if g_filesystem_initialized f then mark 0 70 GREEN else mark 0 88 RED) Q' s0.
  { by destruct (g_filesystem_initialized f). }
  apply Hfirst. msimpl. apply wp_bind. eapply wp_intro; [reflexivity|]. apply wp_console. msimpl. apply HQ.
  constructor; msimpl; try done.
  - apply (ready_frame s); try done. msimpl. change (pics ps (framebuffer_set_cursor 0 0 (framebuffer_clear (k_console (m_kernel s)))) = pics ps (k_console (m_kernel s))).
    by rewrite -> pics_cursor, pics_clear.
  - apply (marks_snoc _ [start_mark f]); [|done|lia|done]. rw /start_mark. have Hc1 := marks_cursor _ 0 0 [] Hc0.
    destruct (g_filesystem_initialized f); by apply (marks_snoc _ []).
Qed.

(** everything up to the load of the program is one run, given that the mount ends *)
Definition load_shell : M (Machine D) outcome :=
  ret ← on_kernel (on_fs (read (shell_request L)));
  if ret =? 0 then mark 5 76 GREEN;; mret EnterUserMode else mark 5 70 RED;; mret HangLoad.
Lemma run_bind {S A B} (m : M S A) (k : A -> M S B) x a y : m x = Ok (a, y) -> (m ≫= k) x = k a y.
Proof. rw /mbind /M_bind. by intros ->. Qed.
Lemma before_load f s : layout_ok -> power_on s -> initialize_filesystem_ext2 (k_fs (m_kernel s)) = Ok (tt, f) ->
  exists s', on_the_way (eq f) user_paging [start_mark f; glyph 80 GREEN; glyph 82 GREEN; glyph 83 GREEN; glyph 77 GREEN] s' /\
    kernel_setup L mask1 s = load_shell s'.
Proof.
  intros HL [Ht Hg Hi Hp Hv Hk Hcur] Hf. rw /kernel_setup.
  destruct (wp_elim _ _ _ (setup_tables_spec s HL Ht Hg Hi)) as ([] & s1 & E & Hr & Ep & Ef & Ek & (Ev & E1 & E2)). rewrite -> (run_bind _ _ _ _ _ E).
  destruct (wp_elim _ _ _ (setup_drivers_spec f s1 (fun _ s' => on_the_way (eq f) (m_paging s1) [start_mark f; glyph 80 GREEN] s')
    Hr ltac:(by rw Ev) ltac:(by rw Ek) ltac:(by rw E1 E2) ltac:(by rw Ef) ltac:(done))) as ([] & s2 & E' & W2). rewrite -> (run_bind _ _ _ _ _ E').
  rw Ep Hp in W2. destruct (mark_run _ _ [_; _] 82 GREEN s2 W2) as (s3 & Em3 & W3); [done..|]. rewrite -> (run_bind _ _ _ _ _ Em3).
  destruct (page_run 0x800000 _ _ _ _ s3 W3 stack_allocated) as (s4 & Em4 & W4). rewrite -> (run_bind _ _ _ _ _ Em4). cbn [negb].
  destruct (mark_run _ _ [_; _; _] 83 GREEN s4 W4) as (s5 & Em5 & W5); [done..|]. rewrite -> (run_bind _ _ _ _ _ Em5).
  destruct (page_run 0x400000 _ _ _ _ s5 W5 code_allocated) as (s6 & Em6 & W6). rewrite -> (run_bind _ _ _ _ _ Em6). cbn [negb].
  destruct (mark_run _ _ [_; _; _; _] 77 GREEN s6 W6) as (s7 & Em7 & W7); [done..|]. rewrite -> (run_bind _ _ _ _ _ Em7). by exists s7.
Qed.
(** and undefined when the mount is *)
Lemma before_load_UB s : layout_ok -> power_on s -> initialize_filesystem_ext2 (k_fs (m_kernel s)) = UB ->
  kernel_setup L mask1 s = UB.
Proof.
  intros HL [Ht Hg Hi Hp Hv Hk Hcur] Hf. rw /kernel_setup.
  destruct (wp_elim _ _ _ (setup_tables_spec s HL Ht Hg Hi)) as ([] & s1 & E & _ & _ & Ef & _). rewrite -> (run_bind _ _ _ _ _ E).
  apply bind_UB. rw /setup_drivers. do 2 (erewrite run_bind; [|reflexivity]). apply bind_UB. rw /on_kernel /on_fs. msimpl.
  by rw Ef Hf.
Qed.
Lemma way_mono (F G : FS D -> Prop) p l s : on_the_way F p l s -> (forall f, F f -> G f) -> on_the_way G p l s.
Proof. intros [] HFG. constructor; auto. Qed.
Lemma before_load_spec (F : FS D -> Prop) s Q : layout_ok -> power_on s ->
  wp initialize_filesystem_ext2 (fun _ f => F f /\ g_filesystem_initialized f = true) (k_fs (m_kernel s)) ->
  (forall s', on_the_way F user_paging
      [glyph 70 GREEN; glyph 80 GREEN; glyph 82 GREEN; glyph 83 GREEN; glyph 77 GREEN] s' -> wp load_shell Q s') ->
  wp (kernel_setup L mask1) Q s.
Proof.
  intros HL Hon Hf HQ. destruct (wp_elim _ _ _ Hf) as ([] & f & E & HF & Hi).
  destruct (before_load f s HL Hon E) as (s' & W & Es). rw /wp Es. apply HQ.
  rw /start_mark Hi in W. eapply way_mono; [exact W|]. by intros f' <-.
Qed.

(** the shell's pages: two frames of their own, next to the kernel's *)
Lemma user_pages : walk (page_dir user_paging) 0x800000 = Some (1 * PAGE_FRAME_SIZE) /\
  walk (page_dir user_paging) 0x400000 = Some (2 * PAGE_FRAME_SIZE).
Proof. by vm_compute. Qed.
End Steps.
