(* ===== verification/Boot.v ===== *)
(** * Theorems about start-up

    From the state the boot loader leaves to the jump to user mode: the machine can
    take the interrupts and system calls of the user program, the pages of the program
    are mapped, and the file [shell] of the volume is in memory; or, when the volume
    has no such file, the kernel stops with a mark on the screen.  On an arbitrary disk
    [kernel_setup] still does not run on, and its end, where it has one, has the same tables. *)

From S2P Require Import Prelude StdString BlockDevice Ext2Layout Ext2Dir Ext2State Ext2Inv Ext2 Ext2Format Ext2Files Ext2Data Ext2Write Ext2Crud Inserter Lasts Ext2Any Ext2Theorems FileTree Ext2View Ext2Tree Console Paging Gdt Idt Keyboard Pic Interrupt Syscalls Kernel.

(** ["shell"] *)
Definition shell_name : list Z := [115; 104; 101; 108; 108].

Section Boot.
Context {D : Type} `{BlockDeviceLaws D} `{StackJunkLaws} `{Overrun D}.
Variables (L : Image_layout) (ps : Pic * Pic).
Abbreviation mask1 := (fun s => pic_mask (pics ps s).1).
Implicit Types s : Machine D.

(** the volume [t] is on the disk of [s], the literal ["shell"] is in memory *)
Record has_volume s (t : FS D) : Prop := {
  hv_dev : dev_ok (fs_dev (k_fs (m_kernel s)));
  hv_inv : fs_inv t;
  hv_blk l : blk (k_fs (m_kernel s)) l = blk t l;
  hv_name : mem_load (fs_mem (k_fs (m_kernel s))) (addr_shell_name L) 5 = shell_name;
}.

Lemma mount_volume s t : has_volume s t -> overrun_harmless (D:=D) ->
  wp initialize_filesystem_ext2 (fun _ f => (fs_inv f /\ (forall l, blk f l = blk t l) /\ group0 f = group0 t /\
    fs_mem f = fs_mem (k_fs (m_kernel s))) /\ g_filesystem_initialized f = true) (k_fs (m_kernel s)).
Proof.
  intros [Hd Hi Hb _] Ho. eapply wp_mono; [by apply (mount_existing _ t)|].
  intros [] f (Hi' & _ & Eg & Hb' & Hm). split; [done|]. exact (inv_init _ (inv_core _ Hi')).
Qed.

Lemma blk_file_at (s t : FS D) n ds ids sz c : (forall l, blk s l = blk t l) -> file_at t n ds ids sz c -> file_at s n ds ids sz c.
Proof.
  intros Hb []. have Ei : inode_at s n = inode_at t n by rw /inode_at /inode_raw Hb.
  constructor; rw ?Ei; try done; [by rw Hb|]. by rewrite -> (data_of_ext t s) by auto.
Qed.

(** the machine when the jump to user mode is reached, started as [s] with the volume [t] *)
Record started s (t : FS D) (content : list Z) s' : Prop := {
  st_tables : tables_ready L ps s';
  st_paging : m_paging s' = user_paging;
  st_inv : fs_inv (k_fs (m_kernel s'));
  st_blk l : blk (k_fs (m_kernel s')) l = blk t l;
  st_group0 : group0 (k_fs (m_kernel s')) = group0 t;
  st_mem : mem_eq (user_mem (m_kernel s')) (mem_store (user_mem (m_kernel s)) 0x400000 content);
  st_marks : marks (k_console (m_kernel s')) (map (fun ch => glyph ch GREEN) [70; 80; 82; 83; 77; 76]);
  st_keyboard : k_keyboard (m_kernel s') = keyboard_state;
  st_cursor : sys_row (k_console (m_kernel s')) = 0 /\ sys_col (k_console (m_kernel s')) = 0;
}.
Lemma setup_starts s t bs ess n ds ids size content : layout_ok L -> power_on s -> has_volume s t ->
  overrun_harmless (D:=D) -> dir_at t ROOT_INODE_NO bs ess -> dir_lookup (concat ess) shell_name = n ->
  file_at t n ds ids size content -> size <= 0x100000 ->
  wp (kernel_setup L mask1) (fun r s' => r = EnterUserMode /\ started s t content s') s.
Proof.
  intros HL Hon Hv Ho Hda El Hfa Hsz. have Hsz0 := fa_size_pos _ _ _ _ _ _ Hfa.
  eapply before_load_spec; [exact HL|exact Hon|by apply mount_volume|]. intros s1 [Hr (Hi & Hb & Eg & Hm) Hp Hc Hs Hk Hcur].
  destruct Hv as [Hd Hit _ Hn]. apply wp_bind, wp_fs.
  eapply wp_mono; [apply (read_spec _ (shell_request L) ROOT_INODE_NO bs ess n ds ids size content)|].
  - done. - by apply (blk_dir_at t). - done. - rw Hm. change (Z.to_nat (name_len (shell_request L))) with 5%nat. by rw Hn.
  - by apply (blk_file_at _ t). - done. - done. - cbn [buf buffer_size shell_request]. lia.
  - intros c f (-> & M & E). apply wp_bind. cbn [buf buffer_size shell_request] in E.
    have Hl : (length content <= Z.to_nat 0x100000)%nat by rw (fa_data _ _ _ _ _ _ Hfa) length_take; lia.
    rewrite -> take_ge in E by done. rw Hm in E. apply wp_console, wp_ret. split; [done|]. constructor; [by eapply ready_frame|exact Hp|by eapply mem_only_fs_inv| | |exact E| |exact Hk|exact Hcur].
    + intros l. change (blk f l = blk t l). by rw (mo_blk _ _ M).
    + change (group0 f = group0 t). by rw (meta_same_group0 _ _ (mo_meta _ _ M)).
    + exact (marks_snoc _ _ 76 GREEN Hs ltac:(cbn; lia) ltac:(lia) ltac:(done)).
Qed.

(** C8: the kernel starts the shell.  On a machine as the boot loader leaves it, with a
    volume whose root directory holds a regular file [shell] of at most 1 MiB, and provided
    the two loads of [initialize_filesystem_ext2] that overrun their structures (ext2.c, lines
    404 and 405) hit nothing the file system uses, [kernel_setup] reaches the jump to user
    mode.  The bytes of the file are at
    0x400000; the page walk takes that address and the stack's to two frames of their
    own; and the first row of the screen shows F P R S M L in green. *)
Theorem boot_starts_shell s t bs ess n ds ids size content : layout_ok L -> power_on s -> has_volume s t ->
  overrun_harmless (D:=D) -> dir_at t ROOT_INODE_NO bs ess -> dir_lookup (concat ess) shell_name = n ->
  file_at t n ds ids size content -> size <= 0x100000 ->
  wp (kernel_setup L mask1) (fun r s' => r = EnterUserMode /\
    mem_load (user_mem (m_kernel s')) 0x400000 (length content) = content /\
    walk (page_dir (m_paging s')) 0x800000 = Some (1 * PAGE_FRAME_SIZE) /\
    walk (page_dir (m_paging s')) 0x400000 = Some (2 * PAGE_FRAME_SIZE) /\
    fs_inv (k_fs (m_kernel s')) /\
    marks (k_console (m_kernel s')) (map (fun ch => glyph ch GREEN) [70; 80; 82; 83; 77; 76])) s.
Proof.
  intros HL Hon Hv Ho Hda El Hfa Hsz. have Hsz0 := fa_size_pos _ _ _ _ _ _ Hfa.
  eapply wp_mono; [by apply (setup_starts s t bs ess n ds ids size content)|]. intros r s' (-> & [Ht Hp Hi Hb _ Hm Hs _ _]).
  have Hl : (length content <= Z.to_nat 0x100000)%nat by rw (fa_data _ _ _ _ _ _ Hfa) length_take; lia.
  split; [done|]. split; [rewrite -> (mem_load_eq _ _ _ _ Hm); apply mem_load_store; [split; lia|done]|].
  rw Hp. split; [apply user_pages|]. split; [apply user_pages|]. by split.
Qed.

(** the load on a mounted volume: whatever the name [shell] stands for *)
Lemma load_shell_ends s t bs ess : has_volume s t -> overrun_harmless (D:=D) -> dir_at t ROOT_INODE_NO bs ess -> layout_ok L -> power_on s ->
  (let n := dir_lookup (concat ess) shell_name in n = 0 \/ (1 <= n <= INODES_PER_GROUP /\ is_dir_mode (inode_at t n) = true) \/
     exists ds ids size content, file_at t n ds ids size content) ->
  exists r s', kernel_setup L mask1 s = Ok (r, s').
Proof.
  intros Hv Ho Hda HL Hon Hcase.
  have W : wp (kernel_setup L mask1) (fun _ _ => True) s; [|destruct (wp_elim _ _ _ W) as (r & s' & E & _); by exists r, s'].
  eapply before_load_spec; [exact HL|exact Hon|by apply mount_volume|]. intros s1 [Hr (Hi & Hb & _ & Hm) Hp Hc Hs _ _].
  destruct Hv as [Hd Hit _ Hn]. apply wp_bind, wp_fs. have Hda1 := blk_dir_at _ _ _ _ _ Hb Hda.
  have Hnm : mem_load (fs_mem (k_fs (m_kernel s1))) (name (shell_request L)) (Z.to_nat (name_len (shell_request L))) = shell_name
    by rw Hm -Hn.
  have Hend (c : Z) f : wp (if c =? 0 then mark 5 76 GREEN;; mret EnterUserMode else mark 5 70 RED;; mret HangLoad) (fun _ _ => True) (set_fs f s1)
    by destruct (c =? 0).
  cbv zeta in Hcase. destruct Hcase as [E0|[[Hn1 Hn2]|(ds & ids & size & content & Hfa)]].
  - eapply wp_mono; [apply (read_missing_spec _ (shell_request L) ROOT_INODE_NO bs ess); try done; by rw Hnm|].
    intros c f _. apply Hend.
  - eapply wp_mono; [apply (read_folder_spec _ (shell_request L) ROOT_INODE_NO bs ess (dir_lookup (concat ess) shell_name) Hi Hda1 eq_refl);
      [by rw /request_nm Hnm|exact Hn1|by rw /inode_at /inode_raw Hb]|]. intros c f _. apply Hend.
  - have Hsz0 := fa_size_pos _ _ _ _ _ _ Hfa.
    eapply wp_mono; [apply (read_spec _ (shell_request L) ROOT_INODE_NO bs ess (dir_lookup (concat ess) shell_name) ds ids size content);
      [exact Hi|exact Hda1|done|by rw Hnm|by apply (blk_file_at _ t)|done|done|cbn [buf buffer_size shell_request]; lia]|].
    intros c f _. apply Hend.
Qed.
Lemma load_shell_any `{!DeviceAnswers D} f l s : on_the_way L ps (eq f) user_paging l s -> fs_typed f ->
  match load_shell L s with
  | Ok (_, s') => tables_ready L ps s' /\ m_cr3 s' = u32 (addr_page_directory L - 0xC0000000)
  | UB => True | NoFuel => False
  end.
Proof.
  intros [Hr -> _ Hc _ _ _] Hf. rw /load_shell /mbind /M_bind /on_kernel /on_fs. have W := read_any (shell_request L) _ Hf.
  destruct (read (shell_request L) (k_fs (m_kernel s))) as [[c f]| |]; [|done|done].
  destruct (c =? 0); (split; [by eapply ready_frame|exact Hc]).
Qed.

Lemma setup_any `{!DeviceAnswers D} s : layout_ok L -> power_on s -> fs_typed (k_fs (m_kernel s)) -> overrun_typed (D:=D) ->
  match kernel_setup L mask1 s with
  | Ok (_, s') => tables_ready L ps s' /\ m_cr3 s' = u32 (addr_page_directory L - 0xC0000000)
  | UB => True | NoFuel => False
  end.
Proof.
  intros HL Hon Hf Ho. have W := initialize_any Ho _ Hf.
  destruct (initialize_filesystem_ext2 (k_fs (m_kernel s))) as [[[] f]| |] eqn:E; [|by rewrite -> (before_load_UB L ps s HL Hon E)|done].
  destruct (before_load L ps f s HL Hon E) as (s' & Hw & ->). by apply (load_shell_any f _ s' Hw), W.
Qed.

(** C33: after start-up the machine can take the interrupts of the shell.  Whatever bytes the
    disk holds, [kernel_setup] ends or reaches undefined behaviour, which a corrupt volume
    and the loads of [initialize_filesystem_ext2] beyond their structures can bring about.  When it ends, by the jump or by a loop after a failure, the loaded tables
    are the kernel's, each vector leads to its stub, only 0x80 may be raised from ring 3, the
    task state segment names the top of the kernel stack, interrupts are enabled and of the
    sixteen lines just the timer and the keyboard are unmasked, at vectors 0x20 and 0x21.
    And it does end, without undefined behaviour, when the disk holds a volume in whose root
    directory [shell] is absent, a directory or a regular file, provided the two overrunning
    loads hit nothing the file system uses.  In general those loads are only assumed to leave
    the cached structures in the widths of their fields, where they are defined at all. *)
Theorem boot_ready `{!DeviceAnswers D} s : layout_ok L -> power_on s -> fs_typed (k_fs (m_kernel s)) -> overrun_typed (D:=D) ->
  kernel_setup L mask1 s <> NoFuel /\
  (forall r s', kernel_setup L mask1 s = Ok (r, s') -> tables_ready L ps s' /\
    m_cr3 s' = u32 (addr_page_directory L - 0xC0000000)) /\
  (forall t bs ess, has_volume s t -> overrun_harmless (D:=D) -> dir_at t ROOT_INODE_NO bs ess ->
    (let n := dir_lookup (concat ess) shell_name in n = 0 \/ (1 <= n <= INODES_PER_GROUP /\ is_dir_mode (inode_at t n) = true) \/
       exists ds ids size content, file_at t n ds ids size content) ->
    exists r s', kernel_setup L mask1 s = Ok (r, s')).
Proof.
  intros HL Hon Hf Ho. pose proof (setup_any s HL Hon Hf Ho) as W. split; [|split; [|by intros; eapply load_shell_ends]].
  - intros E. by rw E in W.
  - intros r s' E. by rw E in W.
Qed.

(** C38: a blank disk.  The kernel formats it, finds no shell in the new root directory
    and stays in the loop after the failed load, with a volume that satisfies the
    invariant and F P R S M in green and F in red on the screen. *)
Theorem boot_blank_disk s : layout_ok L -> power_on s -> dev_ok (fs_dev (k_fs (m_kernel s))) ->
  blk (k_fs (m_kernel s)) BOOT_SECTOR <> fs_signature ->
  mem_load (fs_mem (k_fs (m_kernel s))) (addr_shell_name L) 5 = shell_name ->
  wp (kernel_setup L mask1) (fun r s' => r = HangLoad /\ fs_inv (k_fs (m_kernel s')) /\
    dir_at (k_fs (m_kernel s')) ROOT_INODE_NO [ROOT_DIR_BLOCK_LBA] [root_entries] /\
    marks (k_console (m_kernel s')) (map (fun ch => glyph ch GREEN) [70; 80; 82; 83; 77] ++ [glyph 70 RED])) s.
Proof.
  intros HL Hon Hd Hne Hn.
  eapply (before_load_spec L ps (fun f => formatted f /\ fs_mem f = fs_mem (k_fs (m_kernel s)))); [exact HL|exact Hon| |].
  { eapply wp_mono; [by apply mount_fresh|]. intros [] f Hf. split; [done|]. apply (inv_init _ (inv_core _ (fm_inv _ (proj1 Hf)))). }
  intros s1 [Hr (Hf & Hm) Hp Hc Hs _ _]. have [Hda _] := formatted_root _ Hf. have Hi := fm_inv _ Hf.
  have Hnm : mem_load (fs_mem (k_fs (m_kernel s1))) (name (shell_request L)) (Z.to_nat (name_len (shell_request L))) = shell_name
    by rw Hm -Hn.
  apply wp_bind, wp_fs. eapply wp_mono; [apply (read_missing_spec _ (shell_request L) ROOT_INODE_NO _ _ Hi Hda); [done|by rw Hnm]|].
  intros c f [-> Hf2]. apply wp_bind, wp_console, wp_ret. split; [done|]. split; [by eapply feq_fs_inv|].
  split; [by eapply feq_dir_at|].
  exact (marks_snoc _ _ 70 RED Hs ltac:(cbn; lia) ltac:(lia) ltac:(done)).
Qed.
End Boot.

(** ** A disk with a shell of 1000 bytes *)
Definition shell_mem : mem := region 256 shell_name demo_mem.
Definition blank_volume : FS Image := set_mem shell_mem demo_fs.
Lemma blank_volume_only : mem_only demo_fs blank_volume.
Proof. exact (set_mem_mem_only shell_mem demo_fs (inv_dev _ (inv_core _ demo_inv))). Qed.
Lemma shell_nm : request_nm blank_volume (demo_request 1000) = shell_name.
Proof. change (mem_load shell_mem 256 5 = shell_name). by vm_compute. Qed.
Lemma shell_mem_ok : mem_ok shell_mem.
Proof. apply region_ok; [by repeat constructor|]. exact (eq_ind _ mem_ok demo_mem_ok _ (proj2 demo_formatted)). Qed.
Lemma shell_file_request : file_request blank_volume (demo_request 1000).
Proof. split; [done|]. cbn. repeat (split; [lia|]). exact shell_mem_ok. Qed.
Lemma shell_absent : dir_lookup (concat [root_entries]) (request_nm blank_volume (demo_request 1000)) = 0 /\
  dirs_room [root_entries] (request_nm blank_volume (demo_request 1000)) = true.
Proof. rw shell_nm. by vm_compute. Qed.

Lemma shell_written : exists t, fs_inv t /\ exists ess ino ds ids,
  dir_at t ROOT_INODE_NO [ROOT_DIR_BLOCK_LBA] ess /\ dir_lookup (concat ess) shell_name = ino /\
  file_at t ino ds ids 1000 (take (Z.to_nat max_file_size) (request_data blank_volume (demo_request 1000))).
Proof.
  have W := write_file_spec blank_volume (demo_request 1000) ROOT_INODE_NO _ _
    (mem_only_fs_inv _ _ demo_inv blank_volume_only) (mem_only_live _ _ _ _ _ blank_volume_only demo_root) eq_refl
    shell_file_request (proj1 shell_absent) (proj2 shell_absent) (proj1 demo_free) (proj2 (proj2 demo_free) 1000 ltac:(lia)).
  destruct (wp_elim _ _ _ (W _ _ _)) as (c & t & E & _ & ino & ds & ids & Hec & Hfa & _). exists t.
  destruct Hec as (Hi & _ & Hino & _ & _ & _ & (ess' & Hins & [Hda _]) & _). split; [exact Hi|].
  have Hino0 : ino <> 0 by geometry; lia.
  exists ess', ino, ds, ids. split; [exact Hda|]. split; [|exact Hfa]. rw -shell_nm.
  rewrite -> (dirs_insert_lookup _ _ _ _ _ _ Hino0 Hins (proj1 shell_absent)). by rewrite -> bool_decide_true.
Qed.

(** a machine that was just switched on, with the disk [d] *)
Definition demo_machine {D : Type} (d : D) : Machine D :=
  mkMachine (mkKernel (mkFS d new_superblock [] false 0 shell_mem) keyboard_state (mkConsole (fun _ => 0) 0 0 []))
    initial_cpu initial_idt initial_paging (0, 0) 0 0 0.
Definition demo_layout : Image_layout :=
  mkLayout 0xC0104000 0xC0106000 0xC0105000 0xC0107000 0xC0109000 256 (fun i => 0xC0101000 + 16 * i).
Definition demo_pics : Pic * Pic := (mkPic Ready 0 0 0 0 0 [], mkPic Ready 0 0 0 0 0 []).
Lemma demo_layout_ok : layout_ok demo_layout.
Proof. split; [cbn; lia|]. split; [cbn; lia|]. split; [rw /KERNEL_STACK_SIZE; cbn; lia|]. intros v Hv. cbn. lia. Qed.
Lemma demo_power_on {D : Type} (d : D) : power_on (demo_machine d).
Proof. by constructor. Qed.
Lemma volume_on (t : FS Image) : fs_inv t -> has_volume demo_layout (demo_machine (fs_dev t)) t.
Proof. intros Hi. constructor; [exact (inv_dev _ (inv_core _ Hi))|exact Hi|done|change (mem_load shell_mem 256 5 = shell_name)]. by vm_compute. Qed.

Lemma boot_starts_shell_witness : exists t content, length content = 1000%nat /\
  wp (kernel_setup demo_layout (fun s => pic_mask (pics demo_pics s).1)) (fun r s' => r = EnterUserMode /\
    mem_load (user_mem (m_kernel s')) 0x400000 (length content) = content /\
    walk (page_dir (m_paging s')) 0x800000 = Some (1 * PAGE_FRAME_SIZE) /\
    walk (page_dir (m_paging s')) 0x400000 = Some (2 * PAGE_FRAME_SIZE) /\
    fs_inv (k_fs (m_kernel s')) /\
    marks (k_console (m_kernel s')) (map (fun ch => glyph ch GREEN) [70; 80; 82; 83; 77; 76]))
    (demo_machine (fs_dev t)).
Proof.
  destruct shell_written as (t & Hi & ess & ino & ds & ids & Hda & El & Hfa). exists t. eexists. split; [|
    apply (boot_starts_shell demo_layout demo_pics (demo_machine (fs_dev t)) t
      [ROOT_DIR_BLOCK_LBA] ess ino ds ids 1000);
    [exact demo_layout_ok|apply demo_power_on|exact (volume_on t Hi)|exact demo_overrun_harmless|exact Hda|exact El|
     exact Hfa|lia]].
  rw length_take /request_data mem_load_length. reflexivity.
Defined.

Lemma demo_fs_typed (t : FS Image) : fs_inv t -> fs_typed (k_fs (m_kernel (demo_machine (fs_dev t)))).
Proof.
  intros Hi. constructor; [exact (inv_dev _ (inv_core _ Hi))|exact new_superblock_ok|constructor|exact shell_mem_ok].
Qed.
Lemma demo_overrun_typed : overrun_typed (D:=Image).
Proof. by split. Qed.
Lemma boot_ready_witness : exists t r s',
  kernel_setup demo_layout (fun s => pic_mask (pics demo_pics s).1) (demo_machine (fs_dev t)) = Ok (r, s') /\
  tables_ready demo_layout demo_pics s' /\ m_cr3 s' = 0x109000.
Proof.
  destruct shell_written as (t & Hi & ess & ino & ds & ids & Hda & El & Hfa). exists t.
  destruct (boot_ready demo_layout demo_pics (demo_machine (fs_dev t)) demo_layout_ok (demo_power_on _) (demo_fs_typed t Hi) demo_overrun_typed)
    as (_ & Hready & Hend).
  destruct (Hend t [ROOT_DIR_BLOCK_LBA] ess (volume_on t Hi) demo_overrun_harmless Hda) as (r & s' & E).
  - right. right. rw El. exists ds, ids, 1000. eexists. exact Hfa.
  - exists r, s'. split; [exact E|]. exact (Hready r s' E).
Defined.

Lemma boot_blank_disk_witness :
  wp (kernel_setup demo_layout (fun s => pic_mask (pics demo_pics s).1)) (fun r s' => r = HangLoad /\
    fs_inv (k_fs (m_kernel s')) /\
    dir_at (k_fs (m_kernel s')) ROOT_INODE_NO [ROOT_DIR_BLOCK_LBA] [root_entries] /\
    marks (k_console (m_kernel s')) (map (fun ch => glyph ch GREEN) [70; 80; 82; 83; 77] ++ [glyph 70 RED]))
    (demo_machine blank_image).
Proof.
  apply (boot_blank_disk demo_layout demo_pics (demo_machine blank_image));
    [exact demo_layout_ok|apply demo_power_on|by intros a| |by vm_compute].
  intros E. apply (f_equal (hd 0)) in E. vm_compute in E. discriminate.
Defined.
