(* ===== verification/ShellStr.v ===== *)
(** * Strings of the shell ([src/user/shell.c], string utilities and parsing)

    A [char *] is the list of bytes from the pointer to the end of its object; an access
    past the end is undefined.  [cstr] is the string the pointer stands for: the bytes
    before the first zero.  Loops that scan a string carry the bytes that are left as
    fuel. *)

From S2P Require Import Prelude.

(** ** The functions *)
(** [while (str[len]) len++;] *)
Fixpoint strlen_loop (n : nat) (str : list Z) (l : Z) : res Z :=
  match n with
  | O => NoFuel
  | S n => c ← arr_get str l; if c =? 0 then Ok l else strlen_loop n str (u32 (l + 1))
  end.
Definition strlen (str : list Z) : res Z := strlen_loop (S (length str)) str 0.

(** [while ( *s1 && ( *s1 == *s2)) { s1++; s2++; } return *s1 == *s2;] *)
Fixpoint streq_loop (n : nat) (s1 s2 : list Z) (i : Z) : res bool :=
  match n with
  | O => NoFuel
  | S n => a ← arr_get s1 i;
           if a =? 0 then b ← arr_get s2 i; Ok (a =? b) else
           b ← arr_get s2 i;
           if a =? b then streq_loop n s1 s2 (i + 1) else Ok false
  end.
Definition streq (s1 s2 : list Z) : res bool := streq_loop (S (length s1)) s1 s2 0.

Fixpoint strncmp_loop (k : nat) (i : Z) (s1 s2 : list Z) : res bool :=
  match k with
  | O => Ok true
  | S k => a ← arr_get s1 i; b ← arr_get s2 i;
           if negb (a =? b) then Ok false else if a =? 0 then Ok true else strncmp_loop k (i + 1) s1 s2
  end.
Definition strncmp (s1 s2 : list Z) (n : nat) : res bool := strncmp_loop n 0 s1 s2.

(** [while ( *src) *dst++ = *src++; *dst = 0;] with [dst] at [i] and [src] at [j] *)
Fixpoint strcpy_loop (n : nat) (dst src : list Z) (i j : Z) : res (list Z) :=
  match n with
  | O => NoFuel
  | S n => c ← arr_get src j;
           if c =? 0 then arr_set dst i 0
           else dst ← arr_set dst i c; strcpy_loop n dst src (i + 1) (j + 1)
  end.
Definition strcpy (dst src : list Z) : res (list Z) := strcpy_loop (S (length src)) dst src 0 0.
(** [while ( *dst) dst++;] finds the end *)
Definition strcat (dst src : list Z) : res (list Z) :=
  e ← strlen_loop (S (length dst)) dst 0; strcpy_loop (S (length src)) dst src e 0.

Fixpoint fill_loop (k : nat) (p : list Z) (i v : Z) : res (list Z) :=
  match k with O => Ok p | S k => p ← arr_set p i (u8 v); fill_loop k p (i + 1) v end.
Definition shell_memset (p : list Z) (v : Z) (size : nat) : res (list Z) := fill_loop size p 0 v.
Fixpoint copy_loop (k : nat) (d s : list Z) (i : Z) : res (list Z) :=
  match k with O => Ok d | S k => c ← arr_get s i; d ← arr_set d i c; copy_loop k d s (i + 1) end.
Definition shell_memcpy (d s : list Z) (size : nat) : res (list Z) := copy_loop size d s 0.

(** ** [parse_input] *)
(** [while (input[i] == ' ') i++;] *)
Fixpoint skip_spaces (n : nat) (input : list Z) (i : Z) : res Z :=
  match n with
  | O => NoFuel
  | S n => c ← arr_get input i; if c =? 32 then skip_spaces n input (i + 1) else Ok i
  end.
(** [while (input[i] && input[i] != ' ') out[j++] = input[i++]; out[j] = 0;] *)
Fixpoint take_word (n : nat) (input out : list Z) (i j : Z) : res (list Z * Z) :=
  match n with
  | O => NoFuel
  | S n => c ← arr_get input i;
           if (c =? 0) || (c =? 32) then out ← arr_set out j 0; Ok (out, i)
           else out ← arr_set out j c; take_word n input out (i + 1) (j + 1)
  end.
(** spaces, then a word into [out] *)
Definition next_word (n : nat) (input out : list Z) (i : Z) : res (list Z * Z) :=
  i ← skip_spaces n input i; take_word n input out i 0.
Definition parse_input (input cmd a1 a2 : list Z) : res (list Z * list Z * list Z) :=
  let n := S (length input) in
  '(cmd, i) ← next_word n input cmd 0;
  '(a1, i) ← next_word n input a1 i;
  '(a2, i) ← next_word n input a2 i;
  Ok (cmd, a1, a2).

(** ** [str_contains] *)
(** the inner loop: all [needle_len] bytes agree *)
Fixpoint match_at (k : nat) (haystack needle : list Z) (i j : Z) : res bool :=
  match k with
  | O => Ok true
  | S k => a ← arr_get haystack (i + j); b ← arr_get needle j;
           if negb (a =? b) then Ok false else match_at k haystack needle i (j + 1)
  end.
Fixpoint contains_loop (k : nat) (haystack needle : list Z) (needle_len : nat) (i : Z) : res bool :=
  match k with
  | O => Ok false
  | S k => m ← match_at needle_len haystack needle i 0;
           if (m : bool) then Ok true else contains_loop k haystack needle needle_len (i + 1)
  end.
Definition str_contains (haystack needle : list Z) : res bool :=
  c ← arr_get needle 0;
  if c =? 0 then Ok true else
  needle_len ← strlen needle;
  haystack_len ← strlen haystack;
  if haystack_len <? needle_len then Ok false
  else contains_loop (Z.to_nat (u32 (haystack_len - needle_len) + 1)) haystack needle (Z.to_nat needle_len) 0.

(** ** [print_int]: the digits, in the order they are printed *)
(** [while (num > 0) { buf[i++] = '0' + (num % 10); num /= 10; }] on [char buf[12]] *)
Fixpoint digits_loop (n : nat) (buf : list Z) (i num : Z) : res (list Z * Z) :=
  match n with
  | O => NoFuel
  | S n => if 0 <? num then buf ← arr_set buf i (48 + num mod 10); digits_loop n buf (i + 1) (num / 10)
           else Ok (buf, i)
  end.
(** [while (i > 0) putchar(buf[--i], color);] *)
Fixpoint digits_back (i : nat) (buf : list Z) : res (list Z) :=
  match i with O => Ok [] | S i => c ← arr_get buf (Z.of_nat i); cs ← digits_back i buf; Ok (c :: cs) end.
Definition print_int_chars (num : Z) : res (list Z) :=
  if num =? 0 then Ok [48] else
  '(buf, i) ← digits_loop 33 (zeros 12) 0 num; digits_back (Z.to_nat i) buf.

(** ** What the pointers stand for *)
Fixpoint cstr (s : list Z) : list Z :=
  match s with [] => [] | c :: s => if c =? 0 then [] else c :: cstr s end.
Definition terminated (s : list Z) : Prop := 0 ∈ s.
(** a literal *)
Definition lit (s : list Z) : list Z := s ++ [0].

Lemma terminated_split s : terminated s -> exists rest, s = cstr s ++ 0 :: rest.
Proof.
  rw /terminated. induction s as [|c s IH]; [by intros ?%elem_of_nil|]. cbn [cstr]. destruct (Z.eqb_spec c 0) as [->|Hc].
  - intros _. by exists s.
  - intros [?|Hin]%elem_of_cons; [lia|]. destruct (IH Hin) as [rest E]. exists rest. cbn. by f_equal.
Qed.
Lemma cstr_nonzero s : Forall (fun c => c <> 0) (cstr s).
Proof. induction s as [|c s IH]; cbn; [done|]. destruct (Z.eqb_spec c 0); [done|by constructor]. Qed.
Lemma cstr_app a rest : Forall (fun c => c <> 0) a -> cstr (a ++ 0 :: rest) = a.
Proof. induction 1 as [|c a Hc Ha IH]; cbn; [done|]. by rw (proj2 (Z.eqb_neq _ _) Hc) IH. Qed.
Lemma terminated_app a rest : terminated (a ++ 0 :: rest).
Proof. rw /terminated elem_of_app. right. apply list_elem_of_here. Qed.
Lemma cstr_lit a : Forall (fun c => c <> 0) a -> cstr (lit a) = a.
Proof. apply cstr_app. Qed.
Lemma cstr_head s : terminated s -> exists c, arr_get s 0 = Ok c /\ (c = 0 <-> cstr s = []).
Proof.
  intros [rest ->]%terminated_split. have Hn := cstr_nonzero s. generalize dependent (cstr s) => a Hn.
  rw cstr_app //. destruct a as [|c a]; cbn; [by exists 0|]. exists c. inversion_clear Hn. by split.
Qed.

(** the byte at [i] of a string followed by anything *)
Lemma get_app (pre rest : list Z) c i : i = len pre -> arr_get (pre ++ c :: rest) i = Ok c.
Proof.
  intros ->. apply arr_get_ok; [lia|]. rewrite -> Nat2Z.id, lookup_app_r by lia. by rw Nat.sub_diag.
Qed.
Lemma set_app (pre rest : list Z) c x i : i = len pre -> arr_set (pre ++ c :: rest) i x = Ok (pre ++ x :: rest).
Proof.
  intros ->. rewrite -> arr_set_ok by (rw length_app /=; lia). by rewrite -> Nat2Z.id, insert_app_r_alt, Nat.sub_diag by lia.
Qed.

(** ** Length, comparison, copy *)
Lemma strlen_loop_spec (a : list Z) : forall pre rest n l, Forall (fun c => c <> 0) a -> (length a < n)%nat ->
  l = len pre -> len pre + len a < 2 ^ 32 -> strlen_loop n (pre ++ a ++ 0 :: rest) l = Ok (l + len a).
Proof.
  induction a as [|c a IH] => pre rest n l Ha Hn El Hw; (destruct n as [|n]; [lia|]); cbn [strlen_loop app].
  - rw get_app //= . f_equal. lia.
  - inversion_clear Ha as [|? ? Hc Ha']. rw get_app //=. rw (proj2 (Z.eqb_neq _ _) Hc).
    have -> : pre ++ c :: a ++ 0 :: rest = (pre ++ [c]) ++ a ++ 0 :: rest by rw -app_assoc.
    cbn in Hn, Hw. rewrite -> u32_id, IH; [f_equal; cbn; lia|done|lia| |..]; rw ?length_app /=; lia.
Qed.
Lemma strlen_spec s : terminated s -> len s < 2 ^ 32 -> strlen s = Ok (len (cstr s)).
Proof.
  intros [rest E]%terminated_split Hw. rw /strlen {2}E. rw E length_app /= in Hw.
  apply (strlen_loop_spec (cstr s) [] rest); [apply cstr_nonzero| |done|cbn; lia].
  rw {2}E length_app /=. lia.
Qed.

Lemma streq_loop_spec a : forall p1 p2 b r1 r2 n i, Forall (fun c => c <> 0) a -> Forall (fun c => c <> 0) b ->
  (length a < n)%nat -> i = len p1 -> i = len p2 ->
  streq_loop n (p1 ++ a ++ 0 :: r1) (p2 ++ b ++ 0 :: r2) i = Ok (bool_decide (a = b)).
Proof.
  induction a as [|x a IH] => p1 p2 b r1 r2 n i Ha Hb Hn E1 E2; (destruct n as [|n]; [lia|]); cbn [streq_loop app].
  - rw get_app //=. destruct b as [|y b]; cbn [app]; rw get_app //. cbn [mbind res_bind].
    inversion_clear Hb. rewrite -> bool_decide_false by done. by destruct y.
  - inversion_clear Ha as [|? ? Hx Ha']. rw get_app //=. rw (proj2 (Z.eqb_neq _ _) Hx).
    destruct b as [|y b]; cbn [app]; rw get_app //=.
    { by rw (proj2 (Z.eqb_neq _ _) Hx). }
    inversion_clear Hb as [|? ? Hy Hb']. destruct (Z.eqb_spec x y) as [->|Hne].
    + have -> : p1 ++ y :: a ++ 0 :: r1 = (p1 ++ [y]) ++ a ++ 0 :: r1 by rw -app_assoc.
      have -> : p2 ++ y :: b ++ 0 :: r2 = (p2 ++ [y]) ++ b ++ 0 :: r2 by rw -app_assoc.
      cbn in Hn. rewrite -> IH; [|done|done|lia|rw length_app /=; lia|rw length_app /=; lia].
      f_equal. apply bool_decide_ext. split; [by intros ->|by intros [=]].
    + rewrite -> bool_decide_false; [done|]. by intros [=].
Qed.
Lemma streq_spec s1 s2 : terminated s1 -> terminated s2 -> streq s1 s2 = Ok (bool_decide (cstr s1 = cstr s2)).
Proof.
  intros [r1 E1]%terminated_split [r2 E2]%terminated_split. rw /streq {2}E1 {1}E2.
  apply (streq_loop_spec _ [] []); [apply cstr_nonzero|apply cstr_nonzero| |done|done].
  rw {2}E1 length_app /=. lia.
Qed.

(** a string stored at the start of a buffer *)
Definition put (w buf : list Z) : list Z := w ++ 0 :: drop (S (length w)) buf.
Lemma cstr_put w buf : Forall (fun c => c <> 0) w -> cstr (put w buf) = w.
Proof. apply cstr_app. Qed.
Lemma put_length w buf : (length w < length buf)%nat -> length (put w buf) = length buf.
Proof. intros Hw. rw /put length_app /= length_drop. lia. Qed.
Lemma put_terminated w buf : terminated (put w buf).
Proof. apply terminated_app. Qed.

(** a loop that stores one byte after another at the end of a growing prefix *)
Lemma set_next (w dst : list Z) i c : i = len w -> (length w < length dst)%nat ->
  arr_set (w ++ drop (length w) dst) i c = Ok ((w ++ [c]) ++ drop (length (w ++ [c])) dst).
Proof.
  intros -> Hw. destruct (drop (length w) dst) as [|x l] eqn:E.
  { have := length_drop dst (length w). rw E /=. lia. }
  rewrite -> (set_app w l x c _ eq_refl), <- app_assoc. cbn. do 3 f_equal.
  have -> : length (w ++ [c]) = (length w + 1)%nat by rw length_app.
  by rw -drop_drop E.
Qed.
Lemma set_full (w dst : list Z) i c : i = len w -> (length dst <= length w)%nat ->
  arr_set (w ++ drop (length w) dst) i c = UB.
Proof.
  intros -> Hw. rewrite -> drop_ge, app_nil_r by lia. rw /arr_set.
  by rewrite -> (proj2 (Z.ltb_ge _ _)), andb_false_r by lia.
Qed.

Lemma strcpy_loop_spec a : forall pre rest w dst n i j, Forall (fun c => c <> 0) a -> (length a < n)%nat ->
  i = len w -> j = len pre ->
  strcpy_loop n (w ++ drop (length w) dst) (pre ++ a ++ 0 :: rest) i j =
    if (length (w ++ a) <? length dst)%nat then Ok (put (w ++ a) dst) else UB.
Proof.
  induction a as [|c a IH] => pre rest w dst n i j Ha Hn Ei Ej; (destruct n as [|n]; [lia|]); cbn [strcpy_loop app].
  - rw get_app //=. rw app_nil_r. destruct (Nat.ltb_spec (length w) (length dst)).
    + rewrite -> set_next by done. rw /put -app_assoc /=. do 3 f_equal. rw length_app /=. f_equal. lia.
    + by apply set_full.
  - inversion_clear Ha as [|? ? Hc Ha']. rw get_app //=. rw (proj2 (Z.eqb_neq _ _) Hc).
    have -> : pre ++ c :: a ++ 0 :: rest = (pre ++ [c]) ++ a ++ 0 :: rest by rw -app_assoc.
    cbn in Hn. destruct (Nat.ltb_spec (length w) (length dst)).
    + rewrite -> set_next by done. cbn [mbind res_bind].
      rewrite -> IH; [|done|lia|rw length_app /=; lia|rw length_app /=; lia]. by rw -app_assoc.
    + rewrite -> set_full by done. cbn [mbind res_bind]. destruct (Nat.ltb_spec (length (w ++ c :: a)) (length dst)) as [Hl|]; [|done].
      rw length_app /= in Hl. lia.
Qed.
Lemma strcpy_spec dst src : terminated src ->
  strcpy dst src = if (length (cstr src) <? length dst)%nat then Ok (put (cstr src) dst) else UB.
Proof.
  intros [rest E]%terminated_split. rw /strcpy {2}E.
  apply (strcpy_loop_spec _ [] rest [] dst); [apply cstr_nonzero| |done|done]. rw {2}E length_app /=. lia.
Qed.
Lemma strcat_spec dst src : terminated dst -> terminated src -> len dst < 2 ^ 32 ->
  strcat dst src = if (length (cstr dst ++ cstr src) <? length dst)%nat
                   then Ok (put (cstr dst ++ cstr src) dst) else UB.
Proof.
  intros Ht [rest E]%terminated_split Hw. rw /strcat -/(strlen dst) strlen_spec //. cbn [mbind res_bind].
  destruct (terminated_split dst Ht) as [r Ed]. rw {2}E {1}Ed.
  have -> : cstr dst ++ 0 :: r = cstr dst ++ drop (length (cstr dst)) dst.
  { f_equal. rw {2}Ed. by rw drop_app_length. }
  apply (strcpy_loop_spec _ [] rest); [apply cstr_nonzero| |done|done]. rw {2}E length_app /=. lia.
Qed.

(** ** Parsing *)
Fixpoint drop_spaces (s : list Z) : list Z :=
  match s with [] => [] | c :: t => if c =? 32 then drop_spaces t else s end.
(** the first word and what follows it *)
Fixpoint word (s : list Z) : list Z * list Z :=
  match s with [] => ([], []) | c :: t => if c =? 32 then ([], s) else let (w, r) := word t in (c :: w, r) end.
Definition three_words (s : list Z) : list Z * list Z * list Z :=
  let (w1, r1) := word (drop_spaces s) in
  let (w2, r2) := word (drop_spaces r1) in
  (w1, w2, (word (drop_spaces r2)).1).

Lemma drop_spaces_nonzero a : Forall (fun c => c <> 0) a -> Forall (fun c => c <> 0) (drop_spaces a).
Proof. induction 1 as [|c a Hc Ha IH]; cbn; [done|]. destruct (c =? 32); [done|by constructor]. Qed.
Lemma word_app a : (word a).1 ++ (word a).2 = a.
Proof. induction a as [|c a IH]; cbn; [done|]. destruct (c =? 32); [done|]. destruct (word a). cbn in *. by f_equal. Qed.
Lemma word_nonzero a : Forall (fun c => c <> 0) a -> Forall (fun c => c <> 0) (word a).1 /\ Forall (fun c => c <> 0) (word a).2.
Proof. intros Ha. apply Forall_app. by rw word_app. Qed.

Lemma skip_spaces_spec a : forall pre rest n i, Forall (fun c => c <> 0) a -> (length a < n)%nat -> i = len pre ->
  exists pre', pre ++ a = pre' ++ drop_spaces a /\ skip_spaces n (pre ++ a ++ 0 :: rest) i = Ok (len pre').
Proof.
  induction a as [|c a IH] => pre rest n i Ha Hn Ei; (destruct n as [|n]; [lia|]); cbn [skip_spaces drop_spaces app].
  - exists pre. split; [done|]. rw get_app //=. by rw Ei.
  - inversion_clear Ha as [|? ? Hc Ha']. rw get_app //. cbn [mbind res_bind]. cbn in Hn. destruct (c =? 32).
    + destruct (IH (pre ++ [c]) rest n (i + 1) Ha') as (pre' & E & Es); [lia|rw length_app /=; lia|].
      exists pre'. rw -!app_assoc /= in E Es. by split.
    + exists pre. split; [done|]. by rw Ei.
Qed.

Lemma take_word_spec a : forall pre rest w out n i j, Forall (fun c => c <> 0) a -> (length a < n)%nat ->
  i = len pre -> j = len w -> exists pre', pre ++ a = pre' ++ (word a).2 /\
    take_word n (pre ++ a ++ 0 :: rest) (w ++ drop (length w) out) i j =
      if (length (w ++ (word a).1) <? length out)%nat then Ok (put (w ++ (word a).1) out, len pre') else UB.
Proof.
  have Hend w out k : (r ← arr_set (w ++ drop (length w) out) (len w) 0; Ok (r, k)) =
    if (length (w ++ []) <? length out)%nat then Ok (put (w ++ []) out, k : Z) else UB.
  { rw app_nil_r. destruct (Nat.ltb_spec (length w) (length out)); [|by rewrite -> set_full].
    rewrite -> set_next by done. cbn. rw /put -app_assoc /=. do 4 f_equal. rw length_app /=. f_equal. lia. }
  induction a as [|c a IH] => pre rest w out n i j Ha Hn Ei Ej; (destruct n as [|n]; [lia|]); cbn [take_word word app].
  - exists pre. split; [done|]. rw get_app //=. rw Ei Ej. apply Hend.
  - inversion_clear Ha as [|? ? Hc Ha']. rw get_app //. cbn [mbind res_bind]. cbn in Hn.
    rw (proj2 (Z.eqb_neq _ _) Hc). cbn [orb]. destruct (c =? 32).
    { exists pre. split; [done|]. cbn [fst snd]. rw Ei Ej. apply Hend. }
    destruct (IH (pre ++ [c]) rest (w ++ [c]) out n (i + 1) (j + 1) Ha') as (pre' & E & Es);
      [lia|rw length_app /=; lia|rw length_app /=; lia|].
    destruct (word a) as [x r]. cbn [fst snd] in *. exists pre'. rw -!app_assoc /= in E Es. split; [done|].
    destruct (Nat.ltb_spec (length w) (length out)).
    + rewrite -> set_next by done. cbn [mbind res_bind]. rw -app_assoc. exact Es.
    + rewrite -> set_full by done. cbn [mbind res_bind].
      destruct (Nat.ltb_spec (length (w ++ c :: x)) (length out)) as [Hl|]; [|done]. rw length_app /= in Hl. lia.
Qed.

(** reading on from the part [a] of a line *)
Lemma next_word_spec a pre rest out n : Forall (fun c => c <> 0) a -> (length (pre ++ a) < n)%nat ->
  let (w, r) := word (drop_spaces a) in exists pre', pre ++ a = pre' ++ r /\ Forall (fun c => c <> 0) r /\
    next_word n (pre ++ a ++ 0 :: rest) out (len pre) =
      if (length w <? length out)%nat then Ok (put w out, len pre') else UB.
Proof.
  intros Ha Hn. rw length_app in Hn. destruct (skip_spaces_spec a pre rest n (len pre) Ha) as (p1 & E1 & S1); [lia|done|].
  have Ha1 := drop_spaces_nonzero a Ha. have L1 := f_equal length E1. rw !length_app in L1.
  destruct (take_word_spec (drop_spaces a) p1 rest [] out n (len p1) 0 Ha1) as (p2 & E2 & S2); [lia|done|done|].
  have A1 : pre ++ a ++ 0 :: rest = p1 ++ drop_spaces a ++ 0 :: rest by rw app_assoc E1 -app_assoc.
  destruct (word_nonzero _ Ha1) as [_ Hr]. rw /next_word S1. cbn [mbind res_bind]. rw A1.
  destruct (word (drop_spaces a)) as [w r]. exists p2. rw E1. done.
Qed.

(** the three words of a line and the room for them *)
Definition parsed (input cmd a1 a2 : list Z) : res (list Z * list Z * list Z) :=
  let '(w1, w2, w3) := three_words (cstr input) in
  if (length w1 <? length cmd)%nat && (length w2 <? length a1)%nat && (length w3 <? length a2)%nat
  then Ok (put w1 cmd, put w2 a1, put w3 a2) else UB.

Lemma parse_input_spec input cmd a1 a2 : terminated input -> parse_input input cmd a1 a2 = parsed input cmd a1 a2.
Proof.
  intros [rest E]%terminated_split. have Hn := cstr_nonzero input. rw /parse_input /parsed /three_words.
  have Hlen : (length (cstr input) < S (length input))%nat by rw {2}E length_app /=; lia.
  revert Hlen. generalize (S (length input)) => n Hlen. rw {1 2 3}E. generalize dependent (cstr input). intros a _ Ha Hlen.
  have N1 := next_word_spec a [] rest cmd n Ha Hlen. destruct (word (drop_spaces a)) as [w1 r1].
  destruct N1 as (p1 & E1 & Hr1 & N1). cbn [app length] in N1, E1. rw N1. clear N1.
  have A1 : a ++ 0 :: rest = p1 ++ r1 ++ 0 :: rest by rw E1 -app_assoc. rw A1.
  have N2 := next_word_spec r1 p1 rest a1 n Hr1. rw -E1 in N2. specialize (N2 Hlen).
  destruct (word (drop_spaces r1)) as [w2 r2]. destruct N2 as (p2 & E2 & Hr2 & N2).
  have A2 : p1 ++ r1 ++ 0 :: rest = p2 ++ r2 ++ 0 :: rest by rw app_assoc -E1 E2 -app_assoc.
  have N3 := next_word_spec r2 p2 rest a2 n Hr2. rw -E2 in N3. specialize (N3 Hlen).
  destruct (word (drop_spaces r2)) as [w3 r3]. destruct N3 as (p3 & _ & _ & N3).
  destruct (length w1 <? length cmd)%nat; [|done]. cbn [mbind res_bind andb]. rw N2.
  destruct (length w2 <? length a1)%nat; [|done]. cbn [mbind res_bind andb fst]. rw A2 N3.
  by destruct (length w3 <? length a2)%nat.
Qed.

(** ** Substrings *)
Definition occurs_at (h nd : list Z) (i : nat) : Prop := take (length nd) (drop i h) = nd.
Definition infix (nd h : list Z) : Prop := exists a b, h = a ++ nd ++ b.

Lemma match_at_spec (k : nat) h nd rh rn (i j : nat) : (j + k = length nd)%nat -> (i + length nd <= length h)%nat ->
  match_at k (h ++ 0 :: rh) (nd ++ 0 :: rn) (Z.of_nat i) (Z.of_nat j) =
    Ok (bool_decide (take k (drop (i + j) h) = drop j nd)).
Proof.
  revert j. induction k as [|k IH] => j Hj Hi; cbn [match_at].
  - rewrite -> (drop_ge nd) by lia. by rw take_0.
  - destruct (lookup_lt_is_Some_2 h (i + j)%nat) as [x Ex]; [lia|].
    destruct (lookup_lt_is_Some_2 nd j) as [y Ey]; [lia|].
    rewrite -> (arr_get_ok (h ++ 0 :: rh) (Z.of_nat i + Z.of_nat j) x); [|lia|]; last first.
    { have -> : Z.to_nat (Z.of_nat i + Z.of_nat j) = (i + j)%nat by lia. by rewrite -> lookup_app_l by lia. }
    rewrite -> (arr_get_ok (nd ++ 0 :: rn) (Z.of_nat j) y); [|lia|]; last by rewrite -> Nat2Z.id, lookup_app_l by lia.
    cbn [mbind res_bind]. rw (drop_S _ _ _ Ex) (drop_S _ _ _ Ey). cbn [take]. destruct (Z.eqb_spec x y) as [->|Hne]; cbn [negb].
    + have -> : Z.of_nat j + 1 = Z.of_nat (S j) by lia. rewrite -> IH by lia. rw Nat.add_succ_r.
      f_equal. apply bool_decide_ext. split; [by intros ->|by intros [=]].
    + rewrite -> bool_decide_false; [done|]. by intros [=].
Qed.

Lemma contains_loop_spec (k : nat) h nd rh rn (i : nat) : (i + k + length nd = S (length h))%nat ->
  exists b : bool, contains_loop k (h ++ 0 :: rh) (nd ++ 0 :: rn) (length nd) (Z.of_nat i) = Ok b /\
    (b = true <-> exists i', (i <= i' < i + k)%nat /\ occurs_at h nd i').
Proof.
  revert i. induction k as [|k IH] => i Hi; cbn [contains_loop].
  { exists false. split; [done|]. split; [done|]. intros (i' & ? & _). lia. }
  have M := match_at_spec (length nd) h nd rh rn i 0 ltac:(lia) ltac:(lia). rw Nat.add_0_r drop_0 in M.
  rw M. cbn [mbind res_bind]. case_bool_decide as Hm.
  { exists true. split; [done|]. split; [|done]. intros _. exists i. split; [lia|exact Hm]. }
  have -> : Z.of_nat i + 1 = Z.of_nat (S i) by lia. destruct (IH (S i)) as (b & -> & Hb); [lia|]. exists b. split; [done|].
  rw Hb. split; intros (i' & Hr & Ho).
  - exists i'. split; [lia|done].
  - exists i'. split; [|done]. destruct (decide (i' = i)) as [->|]; [done|lia].
Qed.

Lemma occurs_infix h nd : (length nd <= length h)%nat ->
  (exists i, (i < S (length h - length nd))%nat /\ occurs_at h nd i) <-> infix nd h.
Proof.
  intros Hl. split.
  - intros (i & Hi & Ho). exists (take i h), (drop (length nd) (drop i h)). rw /occurs_at in Ho.
    rewrite <- (take_drop i h) at 1. f_equal. rewrite <- (take_drop (length nd) (drop i h)) at 1. by rw Ho.
  - intros (a & b & ->). exists (length a). rw !length_app. split; [lia|]. rw /occurs_at drop_app_length.
    by rw take_app_length.
Qed.

Lemma str_contains_spec h nd : terminated h -> terminated nd -> len h < 2 ^ 32 -> len nd < 2 ^ 32 ->
  exists b : bool, str_contains h nd = Ok b /\ (b = true <-> infix (cstr nd) (cstr h)).
Proof.
  intros Hh Hn Wh Wn. rw /str_contains. destruct (cstr_head nd Hn) as (c & -> & Hc). cbn [mbind res_bind].
  destruct (Z.eqb_spec c 0) as [E|Hne].
  { rw (proj1 Hc E). exists true. split; [done|]. split; [|done]. intros _. by exists [], (cstr h). }
  rw strlen_spec // strlen_spec //. cbn [mbind res_bind].
  destruct (terminated_split h Hh) as [rh Eh], (terminated_split nd Hn) as [rn En].
  destruct (Z.ltb_spec (len (cstr h)) (len (cstr nd))) as [Hlt|Hge].
  { exists false. split; [done|]. split; [done|]. intros (a & b & E). rw E !length_app in Hlt. lia. }
  have L : (length (cstr h) < length h)%nat by rw {2}Eh length_app /=; lia.
  rewrite -> u32_id by lia. rw Nat2Z.id.
  have -> : Z.to_nat (len (cstr h) - len (cstr nd) + 1) = S (length (cstr h) - length (cstr nd)) by lia.
  destruct (contains_loop_spec (S (length (cstr h) - length (cstr nd))) (cstr h) (cstr nd) rh rn 0) as (b & Eb & Hb); [lia|].
  rw -Eh -En in Eb. exists b. split; [exact Eb|]. rw Hb -occurs_infix; [lia|]. split; intros (i & Hi & Ho); exists i; (split; [lia|done]).
Qed.

(** ** Decimal numbers *)
Definition dec_val (cs : list Z) : Z := foldl (fun v c => 10 * v + (c - 48)) 0 cs.


Lemma digits_loop_spec buf (k : nat) : forall num w n, 0 <= num < 10 ^ Z.of_nat k -> (length w + k <= length buf)%nat ->
  (k < n)%nat -> exists ds,
    digits_loop n (w ++ drop (length w) buf) (len w) num = Ok ((w ++ ds) ++ drop (length (w ++ ds)) buf, len (w ++ ds)) /\
    Forall (fun c => 48 <= c < 58) ds /\ dec_val (rev ds) = num /\ last ds <> Some 48 /\ (length ds <= k)%nat.
Proof.
  induction k as [|k IH] => num w n Hnum Hw Hn; (destruct n as [|n]; [lia|]); cbn [digits_loop].
  - destruct (Z.ltb_spec 0 num); [cbn in Hnum; lia|]. exists []. rw app_nil_r.
    split; [done|]. split; [done|]. split; [cbn in *; lia|]. by split.
  - destruct (Z.ltb_spec 0 num).
    + rewrite -> set_next by lia. cbn [mbind res_bind].
      have Hd := Z.div_mod num 10. have Hm := Z.mod_pos_bound num 10.
      have H10 : 10 ^ Z.of_nat (S k) = 10 * 10 ^ Z.of_nat k by rewrite -> Nat2Z.inj_succ, Z.pow_succ_r by lia.
      destruct (IH (num / 10) (w ++ [48 + num mod 10]) n) as (ds & E & Hds & Hv & Hl & Hk); [lia|rw length_app /=; lia|lia|].
      exists ((48 + num mod 10) :: ds). have -> : len w + 1 = len (w ++ [48 + num mod 10]) by rw length_app /=; lia.
      rw E -!app_assoc. split; [done|]. split; [constructor; [lia|done]|]. split; [|split; [|cbn; lia]].
      * cbn [rev]. rw /dec_val foldl_app -/(dec_val (rev ds)) Hv /=. lia.
      * destruct ds as [|d ds]; [|exact Hl]. cbn in Hv |- *. intros [= E0]. lia.
    + exists []. rw app_nil_r. split; [done|]. split; [done|]. split; [cbn; lia|]. split; [done|cbn; lia].
Qed.

Lemma digits_back_spec (l rest : list Z) : digits_back (length l) (l ++ rest) = Ok (rev l).
Proof.
  have H k : (k <= length l)%nat -> digits_back k (l ++ rest) = Ok (rev (take k l)).
  { induction k as [|k IH] => Hk; [done|]. cbn [digits_back]. destruct (lookup_lt_is_Some_2 l k) as [c Ec]; [lia|].
    rewrite -> (arr_get_ok _ _ c); [|lia|rewrite -> Nat2Z.id, lookup_app_l by lia; exact Ec].
    rewrite -> IH by lia. by rw (take_S_r _ _ _ Ec) rev_app_distr. }
  rw H //. by rw firstn_all.
Qed.

Lemma print_int_spec num : 0 <= num < 2 ^ 32 -> exists cs, print_int_chars num = Ok cs /\
  Forall (fun c => 48 <= c < 58) cs /\ dec_val cs = num /\ (num <> 0 -> hd 48 cs <> 48) /\ (1 <= length cs <= 10)%nat.
Proof.
  intros Hn. rw /print_int_chars. destruct (Z.eqb_spec num 0) as [->|Hne].
  { exists [48]. split; [done|]. split; [by repeat constructor|]. split; [done|]. split; [done|]. cbn. lia. }
  destruct (digits_loop_spec (zeros 12) 10 num [] 33) as (ds & E & Hd & Hv & Hl & Hk); [lia|cbn; lia|lia|].
  cbn [app length drop] in E. change (Z.of_nat 0) with 0 in E. rw E. cbn [mbind res_bind]. rw Nat2Z.id digits_back_spec.
  have Hne2 : ds <> [] by intros ->; cbn in Hv; lia.
  exists (rev ds). split; [done|]. split; [by apply Forall_rev|]. split; [done|]. split.
  - intros _. destruct ds as [|d ds _] using rev_ind; [done|]. rw rev_app_distr last_snoc in Hl |- *. cbn. congruence.
  - rw length_rev. destruct ds; [done|cbn in *; lia].
Qed.

(** ** Properties *)
(** C36: the three words of a line.  For every terminated line and any buffers, the parser
    stores the first three space-separated words, each with its zero, when each word
    and its zero fit; when one does not fit, it writes past the end of the buffer. *)
Theorem parse_input_words input cmd a1 a2 : terminated input ->
  let '(w1, w2, w3) := three_words (cstr input) in
  parse_input input cmd a1 a2 =
    if (length w1 <? length cmd)%nat && (length w2 <? length a1)%nat && (length w3 <? length a2)%nat
    then Ok (put w1 cmd, put w2 a1, put w3 a2) else UB.
Proof. intros Ht. have E := parse_input_spec input cmd a1 a2 Ht. rw /parsed in E. by destruct (three_words _) as [[] ?]. Qed.

(** C39: [str_contains] is the substring relation, for all terminated strings, the empty
    needle and needles longer than the haystack included, without an access outside the
    two strings. *)
Theorem str_contains_infix h nd : terminated h -> terminated nd -> len h < 2 ^ 32 -> len nd < 2 ^ 32 ->
  exists b : bool, str_contains h nd = Ok b /\ (b = true <-> exists a c, cstr h = a ++ cstr nd ++ c).
Proof. apply str_contains_spec. Qed.

(** [print_int] prints the decimal numeral of every 32-bit number: digits only,
    whose value is the number, without leading zeros, at most ten of them, so that the
    twelve bytes of the local buffer are enough. *)
Theorem print_int_decimal num : 0 <= num < 2 ^ 32 -> exists cs, print_int_chars num = Ok cs /\
  Forall (fun c => 48 <= c < 58) cs /\ dec_val cs = num /\ (num <> 0 -> hd 48 cs <> 48) /\ (1 <= length cs <= 10)%nat.
Proof. apply print_int_spec. Qed.

(** [cp a b] with two spaces, into the buffers of the shell *)
Lemma parse_input_words_witness :
  three_words (cstr (lit [99; 112; 32; 32; 97; 32; 98])) = ([99; 112], [97], [98]) /\
  parse_input (lit [99; 112; 32; 32; 97; 32; 98]) (zeros 64) (zeros 128) (zeros 128) =
    Ok (put [99; 112] (zeros 64), put [97] (zeros 128), put [98] (zeros 128)).
Proof.
  split; [reflexivity|].
  apply (parse_input_words (lit [99; 112; 32; 32; 97; 32; 98]) (zeros 64) (zeros 128) (zeros 128)). apply terminated_app.
Defined.

Lemma str_contains_infix_witness : exists b : bool,
  str_contains (lit [97; 98; 99]) (lit [98; 99]) = Ok b /\ (b = true <-> exists a c, [97; 98; 99] = a ++ [98; 99] ++ c).
Proof. apply (str_contains_infix (lit [97; 98; 99]) (lit [98; 99])); [apply terminated_app|apply terminated_app|done|done]. Defined.

Lemma print_int_decimal_witness : exists cs, print_int_chars 4294967295 = Ok cs /\
  Forall (fun c => 48 <= c < 58) cs /\ dec_val cs = 4294967295 /\ (4294967295 <> 0 -> hd 48 cs <> 48) /\ (1 <= length cs <= 10)%nat.
Proof. apply (print_int_decimal 4294967295). lia. Defined.
