(* ===== verification/Shell.v ===== *)
(** * The shell: input and output ([src/user/shell.c])

    The shell runs in user mode and reaches the kernel through system calls only.  [Os]
    is that interface: what each call takes and gives back, a buffer that is passed by its
    address as its bytes before and after the call.  The rest of the file is
    the shell's state and its input and output, with the pipe between two commands. *)

From S2P Require Import Prelude ShellStr.

(** ** The system calls.  Codes are what the shell reads from its [int8_t] *)
Class Os (S : Type) := {
  (** name, parent inode, the buffer: the code and the buffer afterwards *)
  os_read : list Z -> Z -> list Z -> M S (Z * list Z);
  os_read_dir : Z -> list Z -> M S (Z * list Z);
  (** name, parent inode, the bytes of the buffer, [is_directory] *)
  os_write : list Z -> Z -> list Z -> bool -> M S Z;
  os_delete : list Z -> Z -> bool -> M S Z;
  (** EAX, and the size and the kind when they were stored *)
  os_stat : list Z -> Z -> M S (Z * option (Z * bool));
  os_getchar : M S Z;
  os_putchar : Z -> Z -> M S unit;
  os_puts : list Z -> Z -> M S unit;
  os_activate_kbd : M S unit;
}.

(** ** State *)
Definition WHITE : Z := 0xF.
Definition GREEN : Z := 0xA.
Definition YELLOW : Z := 0xE.
Definition RED : Z := 0xC.
Definition CYAN : Z := 0xB.
Definition PIPE_BUFFER_SIZE : Z := 4096.
Definition FIND_MAX_DEPTH : Z := 32.

Record Pipe := mkPipe {
  pipe_output_buffer : list Z; pipe_output_len : Z;
  pipe_input_buffer : list Z; pipe_input_len : Z; pipe_input_pos : Z;
  pipe_mode_output : bool; pipe_mode_input : bool;
}.
Record Find := mkFind { find_stack : list Z; find_paths : list (list Z); find_sp : Z }.
Record Sh (S : Type) := mkSh {
  sh_os : S;
  sh_pipe : Pipe;
  sh_find : Find;
  current_dir_inode : Z;
  cwd : list Z;
  dir_buffer : list Z;
  file_buffer : list Z;
}.
Arguments mkSh {S}.
Arguments sh_os {S}.
Arguments sh_pipe {S}.
Arguments sh_find {S}.
Arguments current_dir_inode {S}.
Arguments cwd {S}.
Arguments dir_buffer {S}.
Arguments file_buffer {S}.

(** the static variables at the start *)
Definition initial_pipe : Pipe := mkPipe (zeros 4096) 0 (zeros 4096) 0 0 false false.
Definition initial_find : Find := mkFind (zeros 32) (replicate 32 (zeros 256)) 0.
Definition initial_shell {S} (os : S) : Sh S :=
  mkSh os initial_pipe initial_find 2 (47 :: zeros 255) (zeros 4096) (replicate (Z.to_nat 32768) 0).

Section Io.
Context {S : Type} `{Os S}.
Abbreviation SM := (M (Sh S)).

Definition sys {A} (m : M S A) : SM A := fun s =>
  match m (sh_os s) with
  | Ok (a, o) => Ok (a, mkSh o (sh_pipe s) (sh_find s) (current_dir_inode s) (cwd s) (dir_buffer s) (file_buffer s))
  | UB => UB | NoFuel => NoFuel end.
Definition set_pipe (p : Pipe) : SM unit := modify (fun s =>
  mkSh (sh_os s) p (sh_find s) (current_dir_inode s) (cwd s) (dir_buffer s) (file_buffer s)).
Definition set_find (f : Find) : SM unit := modify (fun s =>
  mkSh (sh_os s) (sh_pipe s) f (current_dir_inode s) (cwd s) (dir_buffer s) (file_buffer s)).
Definition set_dir (inode : Z) : SM unit := modify (fun s =>
  mkSh (sh_os s) (sh_pipe s) (sh_find s) inode (cwd s) (dir_buffer s) (file_buffer s)).
Definition set_cwd (w : list Z) : SM unit := modify (fun s =>
  mkSh (sh_os s) (sh_pipe s) (sh_find s) (current_dir_inode s) w (dir_buffer s) (file_buffer s)).
Definition set_dir_buffer (b : list Z) : SM unit := modify (fun s =>
  mkSh (sh_os s) (sh_pipe s) (sh_find s) (current_dir_inode s) (cwd s) b (file_buffer s)).
Definition set_file_buffer (b : list Z) : SM unit := modify (fun s =>
  mkSh (sh_os s) (sh_pipe s) (sh_find s) (current_dir_inode s) (cwd s) (dir_buffer s) b).

(** ** The pipe *)
Definition pipe_reset : SM unit :=
  p ← gets sh_pipe; set_pipe (mkPipe (pipe_output_buffer p) 0 (pipe_input_buffer p) 0 0 false false).
Definition pipe_set_output_mode (enable : bool) : SM unit :=
  p ← gets sh_pipe;
  if enable then
    b ← lift (shell_memset (pipe_output_buffer p) 0 (Z.to_nat PIPE_BUFFER_SIZE));
    set_pipe (mkPipe b 0 (pipe_input_buffer p) (pipe_input_len p) (pipe_input_pos p) true (pipe_mode_input p))
  else set_pipe (mkPipe (pipe_output_buffer p) (pipe_output_len p) (pipe_input_buffer p) (pipe_input_len p)
         (pipe_input_pos p) false (pipe_mode_input p)).
Definition pipe_transfer_output_to_input : SM unit :=
  p ← gets sh_pipe;
  b ← lift (shell_memcpy (pipe_input_buffer p) (pipe_output_buffer p) (Z.to_nat (pipe_output_len p)));
  set_pipe (mkPipe (pipe_output_buffer p) 0 b (pipe_output_len p) 0 (pipe_mode_output p) (pipe_mode_input p)).
Definition pipe_set_input_mode (enable : bool) : SM unit :=
  p ← gets sh_pipe;
  set_pipe (mkPipe (pipe_output_buffer p) (pipe_output_len p) (pipe_input_buffer p) (pipe_input_len p)
    (if enable then 0 else pipe_input_pos p) (pipe_mode_output p) enable).

(** [pipe_output_buffer[pipe_output_len++] = c;] while there is room *)
Definition pipe_put (c : Z) (p : Pipe) : res Pipe :=
  if pipe_output_len p <? PIPE_BUFFER_SIZE - 1 then
    b ← arr_set (pipe_output_buffer p) (pipe_output_len p) c;
    Ok (mkPipe b (pipe_output_len p + 1) (pipe_input_buffer p) (pipe_input_len p) (pipe_input_pos p)
          (pipe_mode_output p) (pipe_mode_input p))
  else Ok p.
Fixpoint pipe_puts (str : list Z) (p : Pipe) : res Pipe :=
  match str with [] => Ok p | c :: str => p ← pipe_put c p; pipe_puts str p end.

(** ** Output *)
Definition puts (str : list Z) (color : Z) : SM unit :=
  p ← gets sh_pipe;
  n ← lift (strlen str);
  if pipe_mode_output p then p ← lift (pipe_puts (take (Z.to_nat n) str) p); set_pipe p
  else sys (os_puts (take (Z.to_nat n) str) color).
Definition putchar (c color : Z) : SM unit :=
  p ← gets sh_pipe;
  if pipe_mode_output p then p ← lift (pipe_put c p); set_pipe p
  else sys (os_putchar c color).
Fixpoint putchars (cs : list Z) (color : Z) : SM unit :=
  match cs with [] => mret tt | c :: cs => putchar c color;; putchars cs color end.
Definition print_int (num color : Z) : SM unit := cs ← lift (print_int_chars num); putchars cs color.

(** ** Input *)
Definition set_pos (pos : Z) (p : Pipe) : Pipe :=
  mkPipe (pipe_output_buffer p) (pipe_output_len p) (pipe_input_buffer p) (pipe_input_len p) pos
    (pipe_mode_output p) (pipe_mode_input p).
Definition getchar : SM Z :=
  p ← gets sh_pipe;
  if pipe_mode_input p then
    if pipe_input_pos p <? pipe_input_len p then
      c ← lift (arr_get (pipe_input_buffer p) (pipe_input_pos p));
      set_pipe (set_pos (pipe_input_pos p + 1) p);; mret c
    else mret 0
  else sys os_getchar.

(** the loop of [pipe_getline]: [i] bytes are in [buf], at most [max_len - 1] fit *)
Fixpoint getline_loop (n : nat) (buf : list Z) (i max_len : Z) (p : Pipe) : res (list Z * Z * Pipe) :=
  match n with
  | O => NoFuel
  | Datatypes.S n =>
    if (pipe_input_pos p <? pipe_input_len p) && (i <? u32 (max_len - 1)) then
      c ← arr_get (pipe_input_buffer p) (pipe_input_pos p);
      let p := set_pos (pipe_input_pos p + 1) p in
      if c =? 10 then Ok (buf, i, p)
      else buf ← arr_set buf i c; getline_loop n buf (i + 1) max_len p
    else Ok (buf, i, p)
  end.
(** the answer and the buffer *)
Definition pipe_getline (buf : list Z) (max_len : Z) : SM (bool * list Z) :=
  p ← gets sh_pipe;
  if negb (pipe_mode_input p) || (pipe_input_len p <=? pipe_input_pos p) then mret (false, buf) else
  '(buf, i, p) ← lift (getline_loop (Z.to_nat max_len) buf 0 max_len p);
  set_pipe p;;
  buf ← lift (arr_set buf i 0);
  mret ((0 <? i) || (pipe_input_pos p <? pipe_input_len p), buf).

(** ** Requests to the file system.  [name_len] is one byte *)
Definition request_name (name : list Z) : res (list Z) := n ← strlen name; Ok (take (Z.to_nat (u8 n)) name).

(** conversion to [int32_t] *)
Definition s32 (z : Z) : Z := (z + 2 ^ 31) mod 2 ^ 32 - 2 ^ 31.
Definition get_file_size (filename : list Z) (parent_inode : Z) : SM Z :=
  name ← lift (request_name filename);
  '(ret, out) ← sys (os_stat name parent_inode);
  if negb (ret =? 0) then mret (-1) else mret (match out with Some (size, _) => s32 size | None => 0 end).

(** the calls that fill [dir_buffer] and [file_buffer] *)
Definition read_dir (inode : Z) : SM Z :=
  b ← gets dir_buffer;
  '(ret, b) ← sys (os_read_dir inode b);
  set_dir_buffer b;; mret ret.
(** a read into the first [size] bytes of [file_buffer] *)
Definition read_file (name : list Z) (inode size : Z) : SM Z :=
  name ← lift (request_name name);
  b ← gets file_buffer; bs ← lift (slice 0 size b);
  '(ret, bs) ← sys (os_read name inode bs);
  b ← lift (splice 0 bs b); set_file_buffer b;; mret ret.
(** a write of the first [size] bytes of [file_buffer] *)
Definition write_file (name : list Z) (inode size : Z) : SM Z :=
  name ← lift (request_name name);
  b ← gets file_buffer; bs ← lift (slice 0 size b);
  sys (os_write name inode bs false).
Definition delete_name (name : list Z) (inode : Z) (is_dir : bool) : SM Z :=
  name ← lift (request_name name); sys (os_delete name inode is_dir).
End Io.
