(* ===== verification/ShellCmd.v ===== *)
(** * The shell: commands and main loop ([src/user/shell.c])

    Each command as the code has it, over the state of [Shell.v].  Directory buffers are
    walked entry by entry through the fields of [struct EXT2DirectoryEntry], with the
    bounds of the 4096 bytes; every round moves on by a positive [rec_len], so 4096
    rounds are enough, except for the traversal of [find], whose fuel is a parameter. *)

From Stdlib Require Import String Ascii.
From S2P Require Import Prelude ShellStr Shell.

(** string literals *)
Fixpoint bytes_of (s : string) : list Z :=
  match s with EmptyString => [] | String a s => Z.of_N (N_of_ascii a) :: bytes_of s end.
Definition text (s : string) : list Z := lit (bytes_of s).
(** a literal that ends with a newline *)
Definition line (s : string) : list Z := lit (bytes_of s ++ [10]).
Definition newline : list Z := lit [10].

Section Commands.
Context {S : Type} `{Os S}.
Abbreviation SM := (M (Sh S)).
Open Scope string_scope.
Local Open Scope Z_scope.

(** fields of the entry at [off] of [dir_buffer]; the name follows at [off + 8] *)
Definition de_field (n : nat) (off : Z) : SM Z := b ← gets dir_buffer; lift (ld n b off).
Definition entry_inode (off : Z) : SM Z := de_field 4 off.
Definition entry_rec_len (off : Z) : SM Z := de_field 2 (off + 4).
Definition entry_name_len (off : Z) : SM Z := de_field 1 (off + 6).
Definition entry_file_type (off : Z) : SM Z := de_field 1 (off + 7).
Definition entry_char (off i : Z) : SM Z := b ← gets dir_buffer; lift (arr_get b (off + 8 + i)).

(** [for (i = 0; i < name_len; i++) if (name[i] != path[i]) { match = false; break; }] *)
Fixpoint same_name (k : nat) (off i : Z) (path : list Z) : SM bool :=
  match k with
  | O => mret true
  | Datatypes.S k =>
    a ← entry_char off i; b ← lift (arr_get path i);
    if negb (a =? b) then mret false else same_name k off (i + 1) path
  end.

Definition error_name (msg : string) (name : list Z) : SM unit :=
  puts (text msg) RED;; puts name RED;; puts newline WHITE.

(** ** [cd] *)
Fixpoint cd_parent_loop (n : nat) (off : Z) : SM unit :=
  match n with
  | O => lift NoFuel
  | Datatypes.S n =>
    if off <? 4096 then
      inode ← entry_inode off;
      if inode =? 0 then mret tt else
      rec_len ← entry_rec_len off;
      if rec_len =? 0 then mret tt else
      name_len ← entry_name_len off;
      is_parent ← (if negb (name_len =? 2) then mret false else
                   a ← entry_char off 0;
                   if negb (a =? 46) then mret false else b ← entry_char off 1; mret (b =? 46));
      if (is_parent : bool) then
        set_dir inode;;
        if inode =? 2 then w ← gets cwd; w ← lift (strcpy w (text "/")); set_cwd w else mret tt
      else cd_parent_loop n (off + rec_len)
    else mret tt
  end.
Fixpoint cd_loop (n : nat) (off : Z) (path : list Z) : SM unit :=
  match n with
  | O => lift NoFuel
  | Datatypes.S n =>
    if off <? 4096 then
      inode ← entry_inode off;
      if inode =? 0 then error_name "cd: No such directory: " path else
      rec_len ← entry_rec_len off;
      if rec_len =? 0 then error_name "cd: No such directory: " path else
      name_len ← entry_name_len off;
      path_len ← lift (strlen path);
      found ← (if name_len =? path_len then same_name (Z.to_nat name_len) off 0 path else mret false);
      if (found : bool) then
        file_type ← entry_file_type off;
        if file_type =? 2 then
          set_dir inode;;
          w ← gets cwd;
          root ← lift (streq w (text "/"));
          w ← lift (if (root : bool) then Ok w else strcat w (text "/"));
          w ← lift (strcat w path);
          set_cwd w
        else error_name "cd: Not a directory: " path
      else cd_loop n (off + rec_len) path
    else error_name "cd: No such directory: " path
  end.
Definition cd_root : SM unit := set_dir 2;; w ← gets cwd; w ← lift (strcpy w (text "/")); set_cwd w.
Definition cmd_cd (path : list Z) : SM unit :=
  c ← lift (arr_get path 0);
  if c =? 0 then cd_root else
  root ← lift (streq path (text "/"));
  if (root : bool) then cd_root else
  parent ← lift (streq path (text ".."));
  if (parent : bool) then
    cur ← gets current_dir_inode;
    if cur =? 2 then mret tt else
    ret ← read_dir cur;
    if ret =? 0 then cd_parent_loop 4097 0 else mret tt
  else
  cur ← gets current_dir_inode;
  ret ← read_dir cur;
  if negb (ret =? 0) then puts (line "cd: Cannot read directory") RED
  else cd_loop 4097 0 path.

(** ** [ls] *)
Fixpoint ls_name (k : nat) (off i : Z) : SM unit :=
  match k with
  | O => mret tt
  | Datatypes.S k =>
    c ← entry_char off i; file_type ← entry_file_type off;
    putchar c (if file_type =? 2 then CYAN else WHITE);; ls_name k off (i + 1)
  end.
Fixpoint ls_loop (n : nat) (off : Z) : SM unit :=
  match n with
  | O => lift NoFuel
  | Datatypes.S n =>
    if off <? 4096 then
      inode ← entry_inode off;
      if inode =? 0 then mret tt else
      rec_len ← entry_rec_len off;
      if rec_len =? 0 then mret tt else
      name_len ← entry_name_len off;
      ls_name (Z.to_nat name_len) off 0;;
      file_type ← entry_file_type off;
      (if file_type =? 2 then puts (text "/") CYAN else mret tt);;
      puts (text "  ") WHITE;;
      ls_loop n (off + rec_len)
    else mret tt
  end.
Definition cmd_ls : SM unit :=
  cur ← gets current_dir_inode;
  ret ← read_dir cur;
  if negb (ret =? 0) then puts (line "ls: Cannot read directory") RED
  else ls_loop 4097 0;; puts newline WHITE.

(** ** [mkdir], [cat], [cp], [rm] *)
Definition cmd_mkdir (name : list Z) : SM unit :=
  c ← lift (arr_get name 0);
  if c =? 0 then puts (line "mkdir: Missing operand") RED else
  nm ← lift (request_name name);
  cur ← gets current_dir_inode;
  ret ← sys (os_write nm cur [] true);
  if ret =? 0 then puts (text "Directory created: ") GREEN;; puts name GREEN;; puts newline WHITE
  else if ret =? 1 then puts (line "mkdir: Directory already exists") RED
  else puts (line "mkdir: Failed to create directory") RED.

(** the bytes of [file_buffer] without carriage returns *)
Fixpoint cat_loop (k : nat) (i : Z) : SM unit :=
  match k with
  | O => mret tt
  | Datatypes.S k =>
    b ← gets file_buffer; c ← lift (arr_get b i);
    (if c =? 13 then mret tt else putchar c WHITE);; cat_loop k (i + 1)
  end.
Definition cmd_cat (filename : list Z) : SM unit :=
  c ← lift (arr_get filename 0);
  if c =? 0 then puts (line "cat: Missing operand") RED else
  cur ← gets current_dir_inode;
  file_size ← get_file_size filename cur;
  if file_size <? 0 then error_name "cat: File not found: " filename else
  if 32768 <? file_size then puts (line "cat: File too large") RED else
  ret ← read_file filename cur file_size;
  if ret =? 0 then
    cat_loop (Z.to_nat file_size) 0;;
    if 0 <? file_size then
      b ← gets file_buffer; last ← lift (arr_get b (file_size - 1));
      if last =? 10 then mret tt else puts newline WHITE
    else mret tt
  else if ret =? 1 then puts (line "cat: Is a directory") RED
  else puts (line "cat: Error reading file") RED.

(** [write]; when the name exists, [delete] and [write] again *)
Definition overwrite (name : list Z) (inode size : Z) : SM Z :=
  ret ← write_file name inode size;
  if ret =? 1 then delete_name name inode false;; write_file name inode size else mret ret.

Definition cmd_cp (src dst : list Z) : SM unit :=
  a ← lift (arr_get src 0);
  missing ← (if a =? 0 then mret true else b ← lift (arr_get dst 0); mret (b =? 0));
  if (missing : bool) then
    puts (line "cp: Missing operand") RED;; puts (line "Usage: cp <source> <destination>") YELLOW
  else
  cur ← gets current_dir_inode;
  file_size ← get_file_size src cur;
  if file_size <? 0 then error_name "cp: Cannot find source: " src else
  if 32768 <? file_size then puts (line "cp: File too large") RED else
  ret ← read_file src cur file_size;
  if negb (ret =? 0) then error_name "cp: Cannot read source file: " src else
  ret ← overwrite dst cur file_size;
  if ret =? 0 then
    puts (text "Copied: ") GREEN;; puts src GREEN;; puts (text " -> ") WHITE;; puts dst GREEN;; puts newline WHITE
  else puts (line "cp: Failed to copy") RED.

Definition cmd_rm (name : list Z) : SM unit :=
  c ← lift (arr_get name 0);
  if c =? 0 then puts (line "rm: Missing operand") RED else
  cur ← gets current_dir_inode;
  ret ← delete_name name cur false;
  ret ← (if ret =? 1 then delete_name name cur true else mret ret);
  if ret =? 0 then puts (text "Removed: ") GREEN;; puts name GREEN;; puts newline WHITE
  else if ret =? 1 then error_name "rm: No such file or directory: " name
  else if ret =? 2 then puts (line "rm: Directory not empty") RED
  else puts (line "rm: Failed to remove") RED.

(** ** [mv] *)
Fixpoint is_directory_loop (n : nat) (off : Z) (name : list Z) : SM Z :=
  match n with
  | O => lift NoFuel
  | Datatypes.S n =>
    if off <? 4096 then
      rec_len ← entry_rec_len off;
      if rec_len =? 0 then mret 0 else
      inode ← entry_inode off;
      hit ← (if inode =? 0 then mret false else
             name_len ← lift (strlen name);
             entry_len ← entry_name_len off;
             if entry_len =? u8 name_len then
               same ← same_name (Z.to_nat (u8 name_len)) off 0 name;
               if (same : bool) then file_type ← entry_file_type off; mret (file_type =? 2) else mret false
             else mret false);
      if (hit : bool) then mret inode else is_directory_loop n (off + rec_len) name
    else mret 0
  end.
Definition is_directory (name : list Z) : SM Z :=
  nm ← lift (request_name name);
  cur ← gets current_dir_inode;
  '(ret, out) ← sys (os_stat nm cur);
  if (ret =? 0) && (match out with Some (_, is_dir) => is_dir | None => false end) then
    ret ← read_dir cur;
    if ret =? 0 then is_directory_loop 4097 0 name else mret 0
  else mret 0.

Definition cmd_mv (src dst : list Z) : SM unit :=
  a ← lift (arr_get src 0);
  missing ← (if a =? 0 then mret true else b ← lift (arr_get dst 0); mret (b =? 0));
  if (missing : bool) then
    puts (line "mv: Missing operand") RED;; puts (line "Usage: mv <source> <destination>") YELLOW
  else
  dst_dir_inode ← is_directory dst;
  cur ← gets current_dir_inode;
  (** [char target_name[128]] is not initialised before the copy *)
  target_name ← lift (strcpy (zeros 128) (if negb (dst_dir_inode =? 0) then src else dst));
  let target_parent := if negb (dst_dir_inode =? 0) then dst_dir_inode else cur in
  file_size ← get_file_size src cur;
  if file_size <? 0 then error_name "mv: Cannot find source: " src else
  if 32768 <? file_size then puts (line "mv: File too large") RED else
  ret ← read_file src cur file_size;
  if negb (ret =? 0) then error_name "mv: Cannot read source: " src else
  ret ← overwrite target_name target_parent file_size;
  if negb (ret =? 0) then
    puts (text "mv: Cannot write destination (error ") RED;; print_int (u32 ret) RED;; puts (line ")") RED
  else
  delete_name src cur false;;
  puts (text "Moved: ") GREEN;; puts src GREEN;; puts (text " -> ") WHITE;;
  (if negb (dst_dir_inode =? 0) then puts dst GREEN;; puts (text "/") GREEN;; puts target_name GREEN
   else puts dst GREEN);;
  puts newline WHITE.

Fixpoint newlines (k : nat) : SM unit :=
  match k with O => mret tt | Datatypes.S k => puts newline WHITE;; newlines k end.
Definition cmd_clear : SM unit := newlines 25.

(** ** [find] *)
(** [memcpy] and the terminating zero, with the length cut to the buffer *)
Definition safe_copy (dst src : list Z) (size : Z) : res (list Z) :=
  n ← strlen src;
  let n := if size <=? n then size - 1 else n in
  dst ← shell_memcpy dst src (Z.to_nat n); arr_set dst n 0.
Definition find_push (inode : Z) (path : list Z) : SM unit :=
  f ← gets sh_find;
  if find_sp f <? FIND_MAX_DEPTH then
    st ← lift (arr_set (find_stack f) (find_sp f) inode);
    row ← lift (arr_get (find_paths f) (find_sp f));
    row ← lift (safe_copy row path 256);
    ps ← lift (arr_set (find_paths f) (find_sp f) row);
    set_find (mkFind st ps (find_sp f + 1))
  else mret tt.
(** the inode and the path, when the stack is not empty *)
Definition find_pop (path : list Z) (path_size : Z) : SM (option (Z * list Z)) :=
  f ← gets sh_find;
  if 0 <? find_sp f then
    let sp := find_sp f - 1 in
    set_find (mkFind (find_stack f) (find_paths f) sp);;
    inode ← lift (arr_get (find_stack f) sp);
    row ← lift (arr_get (find_paths f) sp);
    path ← lift (safe_copy path row path_size);
    mret (Some (inode, path))
  else mret None.

(** [char name_buf[64]]: cleared, then [name_len] bytes of the entry *)
Definition find_name (off name_len : Z) : SM (list Z) :=
  b ← gets dir_buffer;
  lift (e ← slice (off + 8) name_len b; splice 0 e (zeros 64)).
(** [for (j = 0; j < strlen(name_buf) && path_len + j < 255; j++) full_path[path_len + j] = name_buf[j];] *)
Fixpoint append_name (k : nat) (full_path name_buf : list Z) (path_len j : Z) : res (list Z) :=
  match k with
  | O => Ok full_path
  | Datatypes.S k =>
    n ← strlen name_buf;
    if (j <? n) && (path_len + j <? 255) then
      c ← arr_get name_buf j; full_path ← arr_set full_path (path_len + j) c;
      append_name k full_path name_buf path_len (j + 1)
    else Ok full_path
  end.
Definition find_full_path (current_path name_buf : list Z) : res (list Z) :=
  path_len ← strlen current_path;
  if path_len <? 256 - 64 then
    full_path ← strcpy (zeros 256) current_path;
    last ← arr_get full_path (path_len - 1);
    '(full_path, path_len) ← (if last =? 47 then Ok (full_path, path_len)
                               else f ← arr_set full_path path_len 47; Ok (f, path_len + 1));
    append_name 64 full_path name_buf path_len 0
  else strcpy (zeros 256) (text "(path too long)").

(** the entries of one directory; the result is the number of matches *)
Fixpoint find_entries (n : nat) (off : Z) (search_name current_path : list Z) (found : Z) : SM Z :=
  match n with
  | O => lift NoFuel
  | Datatypes.S n =>
    if off <? 4096 then
      rec_len ← entry_rec_len off;
      if rec_len =? 0 then mret found else
      inode ← entry_inode off;
      if inode =? 0 then find_entries n (off + rec_len) search_name current_path found else
      name_len ← entry_name_len off;
      name_buf ← find_name off name_len;
      dot ← lift (streq name_buf (text "."));
      dots ← (if (dot : bool) then mret true else lift (streq name_buf (text "..")));
      if (dots : bool) then find_entries n (off + rec_len) search_name current_path found else
      full_path ← lift (find_full_path current_path name_buf);
      hit ← lift (streq name_buf search_name);
      (if (hit : bool) then
         puts (text "  Found: ") GREEN;; puts full_path YELLOW;;
         file_type ← entry_file_type off;
         (if file_type =? 2 then puts (text "/") CYAN else mret tt);;
         puts newline WHITE
       else mret tt);;
      file_type ← entry_file_type off;
      (if file_type =? 2 then find_push inode full_path else mret tt);;
      find_entries n (off + rec_len) search_name current_path (if (hit : bool) then found + 1 else found)
    else mret found
  end.
Fixpoint find_loop (fuel : nat) (search_name current_path : list Z) (found : Z) : SM Z :=
  match fuel with
  | O => lift NoFuel
  | Datatypes.S fuel =>
    top ← find_pop current_path 256;
    match top with
    | None => mret found
    | Some (inode, current_path) =>
      ret ← read_dir inode;
      found ← (if negb (ret =? 0) then mret found else find_entries 4097 0 search_name current_path found);
      find_loop fuel search_name current_path found
    end
  end.
Definition cmd_find (fuel : nat) (search_name : list Z) : SM unit :=
  c ← lift (arr_get search_name 0);
  if c =? 0 then puts (line "find: Missing search term") RED;; puts (line "Usage: find <filename>") YELLOW else
  puts (text "Searching for '") WHITE;; puts search_name YELLOW;; puts (line "' in entire filesystem...") WHITE;;
  f ← gets sh_find; set_find (mkFind (find_stack f) (find_paths f) 0);;
  find_push 2 (text "/");;
  found_count ← find_loop fuel search_name (zeros 256) 0;
  if found_count =? 0 then puts (line "No matches found.") YELLOW
  else puts (text "Found ") GREEN;; print_int found_count GREEN;; puts (line " match(es).") GREEN.

(** ** [grep] *)
Definition grep_line (ln pattern : list Z) : SM unit :=
  hit ← lift (str_contains ln pattern);
  if (hit : bool) then puts ln WHITE;; puts newline WHITE else mret tt.
Fixpoint grep_pipe (n : nat) (ln pattern : list Z) : SM unit :=
  match n with
  | O => lift NoFuel
  | Datatypes.S n =>
    '(more, ln) ← pipe_getline ln 256;
    if (more : bool) then grep_line ln pattern;; grep_pipe n ln pattern else mret tt
  end.
(** [for (i = 0; i <= file_size; i++)], [k] rounds left *)
Fixpoint grep_file (k : nat) (i file_size line_start line_len : Z) (ln pattern : list Z) : SM unit :=
  match k with
  | O => mret tt
  | Datatypes.S k =>
    b ← gets file_buffer;
    eol ← (if i =? file_size then mret true else c ← lift (arr_get b i); mret (c =? 10));
    if (eol : bool) then
      ln ← (if (0 <? line_len) && (line_len <? 256) then
              ln ← lift (bs ← slice line_start line_len b; l ← splice 0 bs ln; arr_set l line_len 0);
              grep_line ln pattern;; mret ln
            else mret ln);
      grep_file k (i + 1) file_size (i + 1) 0 ln pattern
    else grep_file k (i + 1) file_size line_start (line_len + 1) ln pattern
  end.
(** [char line[256]] is not initialised; 4097 lines are more than the pipe holds *)
Definition cmd_grep (pattern filename : list Z) : SM unit :=
  c ← lift (arr_get pattern 0);
  if c =? 0 then
    puts (line "grep: Missing pattern") RED;;
    puts (line "Usage: grep <pattern> [file] or cmd | grep <pattern>") YELLOW
  else
  p ← gets sh_pipe;
  if pipe_mode_input p then grep_pipe 4097 (zeros 256) pattern else
  f ← lift (arr_get filename 0);
  if f =? 0 then puts (line "grep: No input (use: grep <pattern> <file> or cmd | grep <pattern>)") RED else
  cur ← gets current_dir_inode;
  file_size ← get_file_size filename cur;
  if file_size <? 0 then error_name "grep: File not found: " filename else
  if 32768 <? file_size then puts (line "grep: File too large") RED else
  ret ← read_file filename cur file_size;
  if negb (ret =? 0) then puts (line "grep: Error reading file") RED
  else grep_file (Z.to_nat (file_size + 1)) 0 file_size 0 0 (zeros 256) pattern.

(** ** [echo] *)
Definition cmd_echo (txt filename : list Z) : SM unit :=
  c ← lift (arr_get txt 0);
  if c =? 0 then puts (line "echo: Missing text") RED;; puts (line "Usage: echo <text> <filename>") YELLOW else
  f ← lift (arr_get filename 0);
  if f =? 0 then puts txt WHITE;; puts newline WHITE else
  n ← lift (strlen txt);
  b ← gets file_buffer;
  b ← lift (b ← shell_memcpy b txt (Z.to_nat n); arr_set b n 10);
  set_file_buffer b;;
  cur ← gets current_dir_inode;
  ret ← write_file filename cur (n + 1);
  if ret =? 0 then puts (text "Created: ") GREEN;; puts filename GREEN;; puts newline WHITE
  else if ret =? 1 then puts (line "echo: File already exists") RED
  else puts (line "echo: Failed to create file") RED.

Definition cmd_quit_message : SM unit :=
  puts newline WHITE;; puts (line "Goodbye! Halting system...") CYAN;;
  puts (line "You can safely close QEMU now.") YELLOW;; puts newline WHITE.
Definition cmd_help : SM unit :=
  puts (line "RendangOS Shell Commands:") CYAN;;
  puts (line "  cd <dir>        - Change directory") WHITE;;
  puts (line "  ls              - List directory contents") WHITE;;
  puts (line "  mkdir <name>    - Create directory") WHITE;;
  puts (line "  cat <file>      - Display file contents") WHITE;;
  puts (line "  cp <src> <dst>  - Copy file") WHITE;;
  puts (line "  rm <name>       - Remove file/directory") WHITE;;
  puts (line "  mv <src> <dst>  - Move/rename file") WHITE;;
  puts (line "  echo <txt> <f>  - Create file with text") WHITE;;
  puts (line "  find <name>     - Search filesystem (DFS graph)") WHITE;;
  puts (line "  grep <p> [file] - Search pattern in file/pipe") WHITE;;
  puts (line "  clear           - Clear screen") WHITE;;
  puts (line "  exit/quit       - Exit shell") WHITE;;
  puts (line "  help            - Show this help") WHITE.
End Commands.
