(* ===== verification/ShellMain.v ===== *)
(** * The shell: main loop ([main] of [src/user/shell.c])

    The line editor, the splitting of a line at [|], the execution of a pipeline and the
    loop around them.  [cmd_wc] and [cmd_testuser] are called by the code and defined
    nowhere in it: they are parameters.  The two endless loops take fuel: [keys] rounds
    of waiting for a character, [lines] commands. *)

From Stdlib Require Import String.
From S2P Require Import Prelude ShellStr Shell ShellCmd.

Section Main.
Context {S : Type} `{Os S}.
Abbreviation SM := (M (Sh S)).
Variables (cmd_wc : list Z -> SM unit) (cmd_testuser : SM unit).
(** the fuel of the traversal of [find] *)
Variable find_fuel : nat.
Local Open Scope string_scope.
Local Open Scope Z_scope.

(** one round of the editor: [None] when the line is not finished yet *)
Definition edit_char (input_buf : list Z) (input_idx : Z) : SM (bool * list Z * Z) :=
  c ← getchar;
  if c =? 0 then mret (false, input_buf, input_idx)
  else if c =? 10 then
    puts newline WHITE;; b ← lift (arr_set input_buf input_idx 0); mret (true, b, input_idx)
  else if c =? 8 then
    if 0 <? input_idx then
      b ← lift (arr_set input_buf (input_idx - 1) 0); putchar 8 WHITE;; mret (false, b, input_idx - 1)
    else mret (false, input_buf, input_idx)
  else if input_idx <? 255 then
    b ← lift (arr_set input_buf input_idx c); putchar c WHITE;; mret (false, b, input_idx + 1)
  else mret (false, input_buf, input_idx).
Fixpoint read_line (keys : nat) (input_buf : list Z) (input_idx : Z) : SM (list Z) :=
  match keys with
  | O => lift NoFuel
  | Datatypes.S keys =>
    '(done, input_buf, input_idx) ← edit_char input_buf input_idx;
    if (done : bool) then mret input_buf else read_line keys input_buf input_idx
  end.
Definition prompt : SM unit :=
  puts (text "User@RendangOS:") GREEN;; w ← gets cwd; puts w YELLOW;; puts (text "$ ") WHITE.

(** the pipe characters become zeros; the starts of the commands, at most eight *)
Fixpoint split_pipes (n : nat) (b : list Z) (p : Z) (cmds : list Z) : res (list Z * list Z) :=
  match n with
  | O => NoFuel
  | Datatypes.S n =>
    c ← arr_get b p;
    if c =? 0 then Ok (b, cmds)
    else if c =? 124 then
      b ← arr_set b p 0;
      p ← skip_spaces (Datatypes.S (length b)) b (p + 1);
      c ← arr_get b p;
      split_pipes n b p (if negb (c =? 0) && (length cmds <? 8)%nat then (cmds ++ [p])%list else cmds)
    else split_pipes n b (p + 1) cmds
  end.

(** the chain of comparisons; [true] when the command halts the machine *)
Definition dispatch (cmd arg1 arg2 : list Z) : SM bool :=
  let named (name : string) : SM bool := lift (streq cmd (text name)) in
  b ← named "cd"; if (b : bool) then cmd_cd arg1;; mret false else
  b ← named "ls"; if (b : bool) then cmd_ls;; mret false else
  b ← named "mkdir"; if (b : bool) then cmd_mkdir arg1;; mret false else
  b ← named "cat"; if (b : bool) then cmd_cat arg1;; mret false else
  b ← named "cp"; if (b : bool) then cmd_cp arg1 arg2;; mret false else
  b ← named "rm"; if (b : bool) then cmd_rm arg1;; mret false else
  b ← named "mv"; if (b : bool) then cmd_mv arg1 arg2;; mret false else
  b ← named "find"; if (b : bool) then cmd_find find_fuel arg1;; mret false else
  b ← named "grep"; if (b : bool) then cmd_grep arg1 arg2;; mret false else
  b ← named "wc"; if (b : bool) then cmd_wc arg1;; mret false else
  b ← named "echo"; if (b : bool) then cmd_echo arg1 arg2;; mret false else
  b ← named "clear"; if (b : bool) then cmd_clear;; mret false else
  b ← named "help"; if (b : bool) then cmd_help;; mret false else
  b ← named "quit"; b ← (if (b : bool) then mret true else named "exit");
  if (b : bool) then cmd_quit_message;; mret true else
  b ← named "testuser"; if (b : bool) then cmd_testuser;; mret false else
  b ← named "pwd"; if (b : bool) then w ← gets cwd; puts w YELLOW;; puts newline WHITE;; mret false else
  c ← lift (arr_get cmd 0);
  if negb (c =? 0) then
    puts (text "Unknown command: ") RED;; puts cmd RED;; puts newline WHITE;;
    puts (line "Type 'help' for available commands.") YELLOW;; mret false
  else mret false.

(** the commands from [pipe_idx] on, of [pipe_count] *)
Fixpoint run_pipeline (input_buf : list Z) (cmds : list Z) (pipe_idx pipe_count : nat) : SM bool :=
  match cmds with
  | [] => mret false
  | p :: cmds =>
    '(cmd, arg1, arg2) ← lift (parse_input (drop (Z.to_nat p) input_buf) (zeros 64) (zeros 128) (zeros 128));
    (if (1 <? pipe_count)%nat then
       pipe_set_output_mode (pipe_idx <? pipe_count - 1)%nat;;
       (if (0 <? pipe_idx)%nat then pipe_set_input_mode true else mret tt)
     else mret tt);;
    halted ← dispatch cmd arg1 arg2;
    if (halted : bool) then mret true else
    (if (pipe_idx <? pipe_count - 1)%nat then pipe_transfer_output_to_input else mret tt);;
    run_pipeline input_buf cmds (Datatypes.S pipe_idx) pipe_count
  end.

(** a finished line *)
Definition execute (input_buf : list Z) : SM bool :=
  c ← lift (arr_get input_buf 0);
  if c =? 0 then mret false else
  pipe_reset;;
  '(input_buf, cmds) ← lift (split_pipes (Datatypes.S (length input_buf)) input_buf 0 [0]);
  halted ← run_pipeline input_buf cmds 0 (length cmds);
  if (halted : bool) then mret true else pipe_reset;; mret false.

Definition banner : SM unit :=
  puts newline WHITE;;
  puts (line "======================================") CYAN;;
  puts (line "     RendangOS Shell v1.0") GREEN;;
  puts (line "     Running in USER MODE (Ring 3)") YELLOW;;
  puts (line "     Type 'help' for commands") WHITE;;
  puts (line "======================================") CYAN;;
  puts newline WHITE.
(** [memset(input_buf, 0, sizeof(input_buf))] starts every line *)
Fixpoint shell_loop (lines keys : nat) : SM unit :=
  match lines with
  | O => mret tt
  | Datatypes.S lines =>
    prompt;;
    b ← read_line keys (zeros 256) 0;
    halted ← execute b;
    if (halted : bool) then mret tt else shell_loop lines keys
  end.
Definition main (lines keys : nat) : SM unit := sys os_activate_kbd;; banner;; shell_loop lines keys.
End Main.
