(* ===== verification/ShellSpec.v ===== *)
(** * Theorems about the shell

    [OsLaws] states what the shell relies on: files by directory and name, the room for
    one more file, the tree of the whole volume, the keys that are waiting and the screen.  The theorems are proved
    for every system that keeps these laws; [ShellKernel.v] shows that the modelled
    kernel does. *)

From Stdlib Require Import String.
From S2P Require Import Prelude Ext2Dir FileTree Ext2View Ext2Volume Console ShellStr Shell ShellCmd ShellMain.

(** names and contents a request can carry *)
Definition name_ok (nm : list Z) : Prop := nm <> [] /\ (length nm < 128)%nat /\ bytes_ok nm.
Definition content_ok (c : list Z) : Prop := len c <= 32768 /\ bytes_ok c.

Class OsLaws (S : Type) `{Os S} := {
  (** what the names of a directory stand for *)
  os_dir : S -> Z -> (list Z -> slot) -> Prop;
  (** the entries of a directory of at most eight blocks, block by block *)
  os_listing : S -> Z -> list (list dentry) -> Prop;
  (** an entry of that name and that many bytes can be added *)
  os_room : S -> Z -> list Z -> Z -> Prop;
  (** the whole volume, and the room for a directory or for a file of that many bytes *)
  os_tree : S -> tree -> Prop;
  os_place : S -> Z -> list Z -> bool -> Z -> Prop;
  (** the keys that are waiting, and the screen *)
  os_tty : S -> list Z -> Term -> Prop;
  os_same := fun s s' => (forall p m, os_dir s p m -> os_dir s' p m) /\
    (forall p nm n, os_room s p nm n -> os_room s' p nm n) /\
    (forall p ess, os_listing s p ess -> os_listing s' p ess) /\
    (forall t, os_tree s t -> os_tree s' t);
  law_stat s p m nm q t : os_dir s p m -> m nm <> Other -> name_ok nm -> os_tty s q t ->
    (forall c, m nm = File c -> content_ok c) ->
    wp (os_stat nm p) (fun r s' => r = match m nm with File c => (0, Some (len c, false)) | _ => (1, None) end /\
      os_same s s' /\ os_tty s' q t) s;
  law_read s p m nm c buf q t : os_dir s p m -> m nm = File c -> name_ok nm -> os_tty s q t ->
    content_ok c -> content_ok buf -> length buf = length c ->
    wp (os_read nm p buf) (fun r s' => r = (0, c) /\ os_same s s' /\ os_tty s' q t) s;
  law_write s p m nm c q t : os_dir s p m -> m nm = Absent -> os_room s p nm (len c) -> name_ok nm -> content_ok c ->
    os_tty s q t ->
    wp (os_write nm p c false) (fun r s' => r = 0 /\ os_dir s' p (put_slot nm (File c) m) /\ os_tty s' q t) s;
  law_write_exists s p m nm c q t : os_dir s p m -> m nm <> Absent -> name_ok nm -> content_ok c -> os_tty s q t ->
    wp (os_write nm p c false) (fun r s' => r = 1 /\ os_same s s' /\ os_tty s' q t) s;
  law_delete s p m nm c q t : os_dir s p m -> m nm = File c -> name_ok nm -> os_tty s q t ->
    wp (os_delete nm p false) (fun r s' => r = 0 /\ os_dir s' p (put_slot nm Absent m) /\ os_tty s' q t /\
      forall nm' n, os_room s p nm' n -> os_room s' p nm' n) s;
  law_listing s p ess : os_listing s p ess -> 0 <= p < 2 ^ 32 /\ (length ess <= 8)%nat /\
    Forall (fun es => len (dir_bytes es) = 512 /\ Forall dentry_ok es) ess;
  law_read_dir s p ess b q t : os_listing s p ess -> length b = Z.to_nat 4096 -> bytes_ok b -> os_tty s q t ->
    wp (os_read_dir p b) (fun r s' => r = (0, dir_bytes (List.concat ess) ++ drop (512 * length ess)%nat b) /\
      os_same s s' /\ os_tty s' q t) s;
  law_tree_ok s t : os_tree s t -> tree_ok t;
  law_tree_dir s t p m : os_tree s t -> t !! p = Some (Folder m) -> os_dir s p (slot_of t m);
  law_tree_write s t p m nm c dir q x : os_tree s t -> t !! p = Some (Folder m) -> name_ok nm -> content_ok c ->
    (m !! nm = None -> os_place s p nm dir (len c)) -> os_tty s q x ->
    wp (os_write nm p c dir) (fun r s' => os_tty s' q x /\ exists n t', os_tree s' t' /\
      tree_call CallWrite t p nm c dir n 0 = (r, None, t') /\ (m !! nm = None -> t !! n = None)) s;
  law_tree_delete s t p m nm dir q x : os_tree s t -> t !! p = Some (Folder m) -> name_ok nm ->
    (dir = true -> dots nm = false) -> os_tty s q x ->
    wp (os_delete nm p dir) (fun r s' => os_tty s' q x /\ exists t', os_tree s' t' /\
      tree_call CallDelete t p nm [] dir 0 0 = (r, None, t')) s;
  law_getchar s q t : os_tty s q t ->
    wp os_getchar (fun c s' => c = hd 0 q /\ os_same s s' /\ os_tty s' (tl q) t) s;
  law_putchar s q t c color : os_tty s q t -> 0 <= c < 256 -> 0 <= color < 256 ->
    wp (os_putchar c color) (fun _ s' => os_same s s' /\ os_tty s' q (t_one color c t)) s;
  law_puts s q t str color : os_tty s q t -> content_ok str -> 0 <= color < 256 ->
    wp (os_puts str color) (fun _ s' => os_same s s' /\ os_tty s' q (t_puts str color t)) s;
}.

Section Spec.
Context {S : Type} `{OsLaws S}.
Implicit Types s : Sh S.

Definition with_os (o : S) s : Sh S :=
  mkSh o (sh_pipe s) (sh_find s) (current_dir_inode s) (cwd s) (dir_buffer s) (file_buffer s).
Lemma wp_sys {A} (m : M S A) Q s : wp m (fun a o => Q a (with_os o s)) (sh_os s) -> wp (sys m) Q s.
Proof. rw /wp /sys. by destruct (m (sh_os s)) as [[a o]| |]. Qed.

Lemma os_same_refl (x : S) : os_same x x.
Proof. done. Qed.
Lemma os_same_trans (x y z : S) : os_same x y -> os_same y z -> os_same x z.
Proof. intros (A & B & L & T) (A' & B' & L' & T'). split; [auto|]. split; [auto|]. split; auto. Qed.

(** the shell between two commands, outside a pipeline: [q] are the waiting keys, [t] the
    screen, [m] the files of the current directory *)
Record ready s (q : list Z) (t : Term) (m : list Z -> slot) : Prop := {
  ready_tty : os_tty (sh_os s) q t;
  ready_out : pipe_mode_output (sh_pipe s) = false;
  ready_in : pipe_mode_input (sh_pipe s) = false;
  ready_dir : os_dir (sh_os s) (current_dir_inode s) m;
  ready_length : length (file_buffer s) = Z.to_nat 32768;
  ready_bytes : bytes_ok (file_buffer s);
}.
(** what no call changes for the worse *)
Record kept s s' : Prop := {
  kept_inode : current_dir_inode s' = current_dir_inode s;
  kept_room nm n : os_room (sh_os s) (current_dir_inode s) nm n -> os_room (sh_os s') (current_dir_inode s) nm n;
  kept_cwd : cwd s' = cwd s;
}.
Lemma kept_refl s : kept s s.
Proof. by split. Qed.
Lemma kept_trans s1 s2 s3 : kept s1 s2 -> kept s2 s3 -> kept s1 s3.
Proof. intros [E1 R1 W1] [E2 R2 W2]. split; [by rw E2| |by rw W2]. intros nm n Hr. rw -E1. by apply R2; rw E1; apply R1. Qed.
(** a call that changes no file *)
Lemma ready_same s o q t q' t' m : ready s q t m -> os_same (sh_os s) o -> os_tty o q' t' ->
  ready (with_os o s) q' t' m /\ kept s (with_os o s).
Proof. intros [] (Hd & Hr & _) Ht. split; [by split; [|..]; try done; apply Hd|by split; [|apply Hr|]]. Qed.

Definition string_ok (str : list Z) : Prop := terminated str /\ content_ok str.
Lemma string_ok_cstr str : string_ok str -> content_ok (cstr str).
Proof.
  intros (Ht & Hl & Hb). destruct (terminated_split str Ht) as [rest E]. rw /content_ok. rw E in Hl, Hb.
  apply bytes_ok_app in Hb as [Hb _]. rw length_app in Hl. split; [lia|done].
Qed.
Lemma cstr_strlen str : string_ok str -> strlen str = Ok (len (cstr str)) /\ take (length (cstr str)) str = cstr str.
Proof.
  intros (Ht & Hl & _). split; [apply strlen_spec; [done|lia]|].
  destruct (terminated_split str Ht) as [rest E]. rw {2}E. by rw take_app_length.
Qed.

(** ** Strings of the shell *)
Lemma cstr_bytes_of (m : string) : Forall (fun c => c <> 0) (bytes_of m) -> cstr (text m) = bytes_of m.
Proof. apply cstr_lit. Qed.
Lemma string_ok_lit l : bytes_ok l -> len l < 32768 -> string_ok (lit l).
Proof.
  intros Hb Hl. split; [apply terminated_app|]. split; [rw length_app /=; lia|].
  apply bytes_ok_app. split; [done|]. by repeat constructor.
Qed.
Lemma request_name_spec name : string_ok name -> name_ok (cstr name) -> request_name name = Ok (cstr name).
Proof.
  intros Hs (_ & Hl & _). rw /request_name. destruct (cstr_strlen name Hs) as [-> E]. cbn [mbind res_bind].
  rewrite -> u8_id by lia. by rw Nat2Z.id E.
Qed.
Lemma cstr_first str : string_ok str -> cstr str <> [] -> exists c, arr_get str 0 = Ok c /\ (c =? 0) = false.
Proof.
  intros [Ht _] Hne. destruct (cstr_head str Ht) as (c & E & Hc). exists c. split; [done|]. apply Z.eqb_neq. tauto.
Qed.

Lemma copy_loop_spec (d src : list Z) (k i : nat) : (i + k <= length src)%nat -> (i + k <= length d)%nat ->
  copy_loop k (take i src ++ drop i d) src (Z.of_nat i) = Ok (take (i + k) src ++ drop (i + k) d).
Proof.
  revert i. induction k as [|k IH] => i Hs Hd; cbn [copy_loop]; [by rw Nat.add_0_r|].
  destruct (lookup_lt_is_Some_2 src i) as [c Ec]; [lia|].
  rewrite -> (arr_get_ok src (Z.of_nat i) c); [|lia|by rw Nat2Z.id]. cbn [mbind res_bind].
  have Hl : length (take i src) = i by rw length_take; lia.
  have Hn := set_next (take i src) d (Z.of_nat i) c. rw Hl in Hn. rewrite -> Hn by lia. cbn [mbind res_bind].
  rw -(take_S_r _ _ _ Ec) length_take. have -> : (Datatypes.S i `min` length src = Datatypes.S i)%nat by lia.
  have -> : Z.of_nat i + 1 = Z.of_nat (Datatypes.S i) by lia. rewrite -> IH by lia. by rw -Nat.add_succ_comm.
Qed.
Lemma shell_memcpy_spec (d src : list Z) (n : nat) : (n <= length src)%nat -> (n <= length d)%nat ->
  shell_memcpy d src n = Ok (take n src ++ drop n d).
Proof. intros Hs Hd. exact (copy_loop_spec d src n 0 Hs Hd). Qed.

(** ** Output *)
(** a call of the kernel that leaves the files as they are *)
Definition called s q t s' : Prop := exists o, s' = with_os o s /\ os_same (sh_os s) o /\ os_tty o q t.
Lemma puts_called s q t str color : os_tty (sh_os s) q t -> pipe_mode_output (sh_pipe s) = false -> string_ok str -> 0 <= color < 256 ->
  wp (puts str color) (fun _ s' => called s q (t_puts (cstr str) color t) s') s.
Proof.
  intros Ht Hp Hs Hc. rw /puts. destruct (cstr_strlen str Hs) as [E1 E2].
  apply wp_bind, wp_gets, wp_bind. eapply wp_lift; [exact E1|]. rw Hp Nat2Z.id E2. apply wp_sys.
  eapply wp_mono; [apply (law_puts _ q t); [done|by apply string_ok_cstr|done]|].
  intros _ o (Hsm & Ht'). by exists o.
Qed.
Lemma putchar_called s q t c color : os_tty (sh_os s) q t -> pipe_mode_output (sh_pipe s) = false -> 0 <= c < 256 -> 0 <= color < 256 ->
  wp (putchar c color) (fun _ s' => called s q (t_one color c t) s') s.
Proof.
  intros Ht Hp Hc Hcol. rw /putchar. apply wp_bind, wp_gets. rw Hp. apply wp_sys.
  eapply wp_mono; [by apply (law_putchar _ q t)|]. intros _ o (Hsm & Ht'). by exists o.
Qed.
Definition quiet s q t m s' : Prop := ready s' q t m /\ kept s s' /\ file_buffer s' = file_buffer s.
Lemma called_quiet s q t t' m s' : ready s q t m -> called s q t' s' -> quiet s q t' m s'.
Proof. intros Hr (o & -> & Hsm & Ht'). destruct (ready_same _ _ _ _ _ _ _ Hr Hsm Ht'). by split. Qed.
Lemma puts_spec s q t m str color : ready s q t m -> string_ok str -> 0 <= color < 256 ->
  wp (puts str color) (fun _ s' => quiet s q (t_puts (cstr str) color t) m s') s.
Proof.
  intros Hr Hs Hc. eapply wp_mono; [apply (puts_called s q t); [apply Hr|apply Hr|done|done]|].
  intros a s1 Hc1. by eapply called_quiet.
Qed.
Lemma putchar_spec s q t m c color : ready s q t m -> 0 <= c < 256 -> 0 <= color < 256 ->
  wp (putchar c color) (fun _ s' => quiet s q (t_one color c t) m s') s.
Proof.
  intros Hr Hc Hcol. eapply wp_mono; [apply (putchar_called s q t); [apply Hr|apply Hr|done|done]|].
  intros a s1 Hc1. by eapply called_quiet.
Qed.

(** the strings that a command prints, in order *)
Definition says (msgs : list (list Z * Z)) (t : Term) : Term := foldl (fun t '(str, c) => t_puts (cstr str) c t) t msgs.
Fixpoint say (msgs : list (list Z * Z)) : M (Sh S) unit :=
  match msgs with [] => mret tt | (str, c) :: msgs => puts str c;; say msgs end.

(** a call and what follows it *)
Lemma wp_then {A B} (x : M (Sh S) A) (k : A -> M (Sh S) B) (P : A -> Sh S -> Prop) Q s :
  wp x P s -> (forall a s', P a s' -> wp (k a) Q s') -> wp (x ≫= k) Q s.
Proof. intros Hx Hk. apply wp_bind. by eapply wp_mono. Qed.

(** ** Files *)
Definition with_file (o : S) (b : list Z) s : Sh S :=
  mkSh o (sh_pipe s) (sh_find s) (current_dir_inode s) (cwd s) (dir_buffer s) b.
(** a string that is a name *)
Definition name_str (str : list Z) : Prop := string_ok str /\ name_ok (cstr str).
(** the first bytes of [file_buffer] *)
Definition file_prefix s (c : list Z) : Prop := exists rest, file_buffer s = c ++ rest.

Lemma get_file_size_spec s q t m name : ready s q t m -> name_str name -> m (cstr name) <> Other ->
  (forall c, m (cstr name) = File c -> content_ok c) ->
  wp (get_file_size name (current_dir_inode s)) (fun r s' =>
    r = match m (cstr name) with File c => len c | _ => -1 end /\ quiet s q t m s') s.
Proof.
  intros Hr [Hs Hn] Hm Hc. rw /get_file_size. apply wp_bind.
  eapply wp_lift; [by apply request_name_spec|]. apply wp_bind, wp_sys.
  eapply wp_mono; [apply (law_stat _ _ m _ q t); try done; apply Hr|]. intros r o (-> & Hsm & Ht').
  destruct (ready_same _ _ _ _ _ _ _ Hr Hsm Ht') as [Hr' Hk]. destruct (m (cstr name)) as [|c|] eqn:Em; [|..|done].
  - by apply wp_ret.
  - apply wp_ret. split; [|done]. destruct (Hc c eq_refl) as [Hl _]. rw /s32. rewrite -> Z.mod_small by lia. lia.
Qed.

Lemma read_buffer s q t m name c : ready s q t m -> name_str name -> m (cstr name) = File c -> content_ok c ->
  wp (read_file name (current_dir_inode s) (len c)) (fun r s' => r = 0 /\
    ready s' q t m /\ kept s s' /\ file_prefix s' c) s.
Proof.
  intros Hr [Hs Hn] Hm Hc. have [Ht Hp Hpi Hd Hl Hb] := Hr. rw /read_file. apply wp_bind.
  eapply wp_lift; [by apply request_name_spec|]. apply wp_bind, wp_gets, wp_bind.
  destruct (split_length (length c) (file_buffer s)) as (x & y & E & Lx); [destruct Hc; lia|].
  eapply wp_lift; [rw E; apply (slice_mid [] x y); [done|lia]|]. apply wp_bind, wp_sys.
  rw E in Hb. apply bytes_ok_app in Hb as [Hbx Hby].
  eapply wp_mono; [apply (law_read _ _ m _ c x q t); try done; split; [rw Lx; apply Hc|done]|].
  intros r o (-> & Hsm & Ht'). apply wp_bind. eapply wp_lift; [rw E; apply (splice_mid [] x y c); [done|lia]|].
  cbn [app]. apply wp_bind, wp_modify, wp_ret. split; [done|]. rw E length_app in Hl.
  split; [split; cbn; try done; [by apply Hsm|rw length_app; lia|apply bytes_ok_app; by split; [apply Hc|]]|].
  split; [by split; [|apply Hsm|]|by exists y].
Qed.

Lemma write_new s q t m name c : ready s q t m -> name_str name -> m (cstr name) = Absent -> content_ok c -> file_prefix s c ->
  os_room (sh_os s) (current_dir_inode s) (cstr name) (len c) ->
  wp (write_file name (current_dir_inode s) (len c)) (fun r s' => r = 0 /\
    ready s' q t (put_slot (cstr name) (File c) m) /\ current_dir_inode s' = current_dir_inode s /\
    file_buffer s' = file_buffer s) s.
Proof.
  intros [Ht Hp Hpi Hd Hl Hb] [Hs Hn] Hm Hc (rest & E) Hroom. rw /write_file. apply wp_bind.
  eapply wp_lift; [by apply request_name_spec|]. apply wp_bind, wp_gets, wp_bind.
  eapply wp_lift; [rw E; by apply (slice_mid [] c rest)|]. apply wp_sys.
  eapply wp_mono; [by apply (law_write _ _ m _ c q t)|]. intros r o (-> & Hd' & Ht'). done.
Qed.
Lemma write_existing s q t m name c : ready s q t m -> name_str name -> m (cstr name) <> Absent -> content_ok c -> file_prefix s c ->
  wp (write_file name (current_dir_inode s) (len c)) (fun r s' => r = 1 /\ quiet s q t m s') s.
Proof.
  intros Hr [Hs Hn] Hm Hc (rest & E). rw /write_file. apply wp_bind.
  eapply wp_lift; [by apply request_name_spec|]. apply wp_bind, wp_gets, wp_bind.
  eapply wp_lift; [rw E; by apply (slice_mid [] c rest)|]. apply wp_sys.
  eapply wp_mono; [apply (law_write_exists _ _ m _ c q t); try done; apply Hr|]. intros r o (-> & Hsm & Ht').
  split; [done|]. destruct (ready_same _ _ _ _ _ _ _ Hr Hsm Ht'). by split.
Qed.
Lemma delete_existing s q t m name c : ready s q t m -> name_str name -> m (cstr name) = File c ->
  wp (delete_name name (current_dir_inode s) false) (fun r s' => r = 0 /\
    ready s' q t (put_slot (cstr name) Absent m) /\ kept s s' /\ file_buffer s' = file_buffer s) s.
Proof.
  intros [Ht Hp Hpi Hd Hl Hb] [Hs Hn] Hm. rw /delete_name. apply wp_bind.
  eapply wp_lift; [by apply request_name_spec|]. apply wp_sys.
  eapply wp_mono; [by apply (law_delete _ _ m _ c q t)|]. intros r o (-> & Hd' & Ht' & Hroom). done.
Qed.

(** [write], and on an existing name [delete] and [write] again *)
Lemma overwrite_spec s q t m name c : ready s q t m -> name_str name -> m (cstr name) <> Other -> content_ok c -> file_prefix s c ->
  os_room (sh_os s) (current_dir_inode s) (cstr name) (len c) ->
  wp (overwrite name (current_dir_inode s) (len c)) (fun r s' => r = 0 /\
    (exists m', ready s' q t m' /\ forall nm, m' nm = put_slot (cstr name) (File c) m nm) /\
    current_dir_inode s' = current_dir_inode s) s.
Proof.
  intros Hr Hn Hm Hc Hf Hroom. rw /overwrite. destruct (m (cstr name)) as [|c'|] eqn:Em; [| |done].
  - eapply wp_then; [by apply (write_new s q t m name c)|]. intros r s1 (-> & Hr1 & E & _).
    apply wp_ret. split; [done|]. split; [by eexists|done].
  - eapply wp_then; [by apply (write_existing s q t m name c); rw ?Em|]. intros r s1 (-> & Hr1 & [Ei1 Hk1 Hw1] & Eb1).
    rw -Ei1. eapply wp_then; [by apply (delete_existing s1 q t m name c')|].
    intros r s2 (_ & Hr2 & [Ei2 Hk2 Hw2] & Eb2). rw -Ei2.
    eapply wp_mono; [apply (write_new s2 q t (put_slot (cstr name) Absent m) name c); try done|].
    + by rw /put_slot bool_decide_true.
    + by rw /file_prefix Eb2 Eb1.
    + rw Ei2. apply Hk2. rw Ei1. by apply Hk1.
    + intros r' s3 (-> & Hr3 & E3 & _). split; [done|]. split; [|by rw E3 Ei2 Ei1].
      eexists. split; [exact Hr3|]. intros nm. rw /put_slot. by case_bool_decide.
Qed.

(** ** Commands *)
Lemma name_str_first name : name_str name -> exists c, arr_get name 0 = Ok c /\ (c =? 0) = false.
Proof. intros [Hs (Hne & _)]. by apply cstr_first. Qed.
Lemma wp_first {B} name (k : Z -> M (Sh S) B) Q s : name_str name ->
  (forall c, (c =? 0) = false -> wp (k c) Q s) -> wp (c ← lift (arr_get name 0); k c) Q s.
Proof. intros Hn Hk. destruct (name_str_first name Hn) as (c & E & Hc). apply wp_bind. eapply wp_lift; [exact E|]. by apply Hk. Qed.
Lemma text_ok (str : string) : bool_decide (bytes_ok (bytes_of str) /\ len (bytes_of str) < 32767) = true -> string_ok (text str).
Proof. intros E%bool_decide_eq_true. apply string_ok_lit; [apply E|lia]. Qed.
Lemma line_ok (str : string) : bool_decide (bytes_ok (bytes_of str) /\ len (bytes_of str) < 32767) = true -> string_ok (line str).
Proof.
  intros [E1 E2]%bool_decide_eq_true. apply string_ok_lit; [|rw length_app /=; lia].
  apply bytes_ok_app. split; [done|]. by repeat constructor.
Qed.
Lemma newline_ok : string_ok newline.
Proof. apply string_ok_lit; [by repeat constructor|done]. Qed.

(** the next of several messages *)
Lemma wp_say {B} s0 s q t m str color msgs (k : M (Sh S) B) Q : ready s0 q t m ->
  quiet s0 q (says msgs t) m s -> string_ok str -> 0 <= color < 256 ->
  (forall s', quiet s0 q (says (msgs ++ [(str, color)]) t) m s' -> wp k Q s') -> wp (puts str color;; k) Q s.
Proof.
  intros Hr (Hr1 & K1 & B1) Hs Hc Hk. eapply wp_then; [by apply puts_spec|]. intros [] s' (Hr2 & K2 & B2). apply Hk.
  split; [by rw /says foldl_app|]. split; [by eapply kept_trans|by rw B2].
Qed.
Lemma wp_say_last s0 s q t m str color msgs (Q : unit -> Sh S -> Prop) : ready s0 q t m ->
  quiet s0 q (says msgs t) m s -> string_ok str -> 0 <= color < 256 ->
  (forall s', quiet s0 q (says (msgs ++ [(str, color)]) t) m s' -> Q tt s') -> wp (puts str color) Q s.
Proof.
  intros Hr (Hr1 & K1 & B1) Hs Hc Hk. eapply wp_mono; [by apply puts_spec|]. intros [] s' (Hr2 & K2 & B2). apply Hk.
  split; [by rw /says foldl_app|]. split; [by eapply kept_trans|by rw B2].
Qed.
Lemma quiet_refl s q t m : ready s q t m -> quiet s q t m s.
Proof. intros Hr. split; [done|]. split; [apply kept_refl|done]. Qed.

(** [cat]: the characters of a file but the carriage returns *)
Definition shown (c : list Z) (t : Term) : Term := foldl (fun t ch => if ch =? 13 then t else t_one WHITE ch t) t c.
Lemma cat_loop_spec c done rest s q t m : ready s q t m -> file_buffer s = done ++ c ++ rest -> bytes_ok c ->
  wp (cat_loop (length c) (len done)) (fun _ s' => quiet s q (shown c t) m s') s.
Proof.
  revert done s t. induction c as [|ch c IH] => done s t Hr Eb Hb; cbn [cat_loop length].
  { apply wp_ret. by apply quiet_refl. }
  apply Forall_cons in Hb as [Hch Hb]. apply wp_bind, wp_gets, wp_bind.
  eapply wp_lift; [rw Eb; by apply get_app|]. set (t1 := if ch =? 13 then t else t_one WHITE ch t).
  have Hstep : wp (if ch =? 13 then mret tt else putchar ch WHITE) (fun _ s' => quiet s q t1 m s') s.
  { rw /t1. destruct (ch =? 13); [apply wp_ret; by apply quiet_refl|by apply putchar_spec]. }
  eapply wp_then; [exact Hstep|]. intros [] s1 (Hr1 & K1 & B1).
  have -> : len done + 1 = len (done ++ [ch]) by rw length_app /=; lia.
  eapply wp_mono; [apply (IH (done ++ [ch]) s1 t1); [done|rw B1 Eb -app_assoc //|done]|].
  intros [] s2 (Hr2 & K2 & B2). split; [done|]. split; [by eapply kept_trans|by rw B2].
Qed.

Lemma cmd_cat_spec s q t m name c : ready s q t m -> name_str name -> m (cstr name) = File c -> content_ok c -> last c = Some 10 ->
  wp (cmd_cat name) (fun _ s' => ready s' q (shown c t) m /\ kept s s') s.
Proof.
  intros Hr Hn Hm Hc Hlast. rw /cmd_cat. apply wp_first; [done|]. intros a ->. apply wp_bind, wp_gets.
  eapply wp_then; [apply (get_file_size_spec s q t m); try done; [by rw Hm|by intros c'; rw Hm; intros [= <-]]|].
  intros r s1 (-> & Hr1 & [Ei1 Hk1 Hw1] & _). rw Hm. destruct (Hc) as [Hl Hb].
  rewrite -> (proj2 (Z.ltb_ge _ _)), (proj2 (Z.ltb_ge _ _)) by lia. rw -Ei1.
  eapply wp_then; [by apply (read_buffer s1 q t m name c)|]. intros r s2 (-> & Hr2 & K2 & (rest & Eb)). cbn [Z.eqb].
  rw Nat2Z.id. eapply wp_then; [apply (cat_loop_spec c [] rest); done|]. intros [] s3 (Hr3 & K3 & B3).
  have K : kept s s3 by eapply kept_trans; [by split|by eapply kept_trans].
  apply last_Some in Hlast as [c0 ->]. rewrite -> length_app in *. cbn [length] in *.
  rewrite -> (proj2 (Z.ltb_lt _ _)) by lia. apply wp_bind, wp_gets, wp_bind.
  have El : Z.of_nat (length c0 + 1) - 1 = len c0 by lia.
  eapply wp_lift; [rw B3 Eb -app_assoc El; by apply get_app|]. apply wp_ret. by split.
Qed.

(** [echo text file] *)
Definition echo_says (name : list Z) : list (list Z * Z) := [(text "Created: ", GREEN); (name, GREEN); (newline, WHITE)].
Lemma wp_set_file_buffer {B} b (k : M (Sh S) B) Q s : wp k Q (with_file (sh_os s) b s) -> wp (set_file_buffer b;; k) Q s.
Proof. done. Qed.
Lemma ready_buffer s q t m b : ready s q t m -> length b = Z.to_nat 32768 -> bytes_ok b ->
  ready (with_file (sh_os s) b s) q t m.
Proof. intros [] ??. by constructor. Qed.

Lemma cmd_echo_spec s q t m txt name : ready s q t m -> string_ok txt -> cstr txt <> [] -> len (cstr txt) < 32768 ->
  name_str name -> m (cstr name) = Absent ->
  os_room (sh_os s) (current_dir_inode s) (cstr name) (len (cstr txt) + 1) ->
  wp (cmd_echo txt name) (fun _ s' =>
    ready s' q (says (echo_says name) t) (put_slot (cstr name) (File (cstr txt ++ [10])) m) /\
    current_dir_inode s' = current_dir_inode s) s.
Proof.
  intros Hr Hs Hne Hl Hn Hm Hroom. destruct (cstr_first txt Hs Hne) as (a & Ea & Ha). destruct (cstr_strlen txt Hs) as [E1 E2].
  rw /cmd_echo. apply wp_bind. eapply wp_lift; [exact Ea|]. rw Ha. apply wp_first; [done|]. intros a' ->.
  apply wp_bind. eapply wp_lift; [exact E1|]. apply wp_bind, wp_gets, wp_bind.
  have Hlen := ready_length _ _ _ _ Hr. have Hlt : (length (cstr txt) <= length txt)%nat.
  { rw -E2 length_take. lia. }
  set (b := (cstr txt ++ [10]) ++ drop (length (cstr txt ++ [10])) (file_buffer s)).
  eapply (wp_lift _ b).
  { rw Nat2Z.id. rewrite -> shell_memcpy_spec by lia. cbn [mbind res_bind]. rw E2. apply set_next; lia. }
  apply wp_set_file_buffer. apply wp_bind, wp_gets.
  have Hbc : bytes_ok (cstr txt ++ [10]).
  { apply bytes_ok_app. split; [by apply string_ok_cstr|by repeat constructor]. }
  have Hr1 : ready (with_file (sh_os s) b s) q t m.
  { apply ready_buffer; [done|rw /b !length_app length_drop /=; rewrite -> ?length_app; cbn [length]; lia|].
    apply bytes_ok_app. split; [done|by apply bytes_ok_drop, Hr]. }
  have Elen : len (cstr txt) + 1 = len (cstr txt ++ [10]) by rw length_app /=; lia.
  cbn [current_dir_inode with_file]. rw Elen.
  eapply wp_then; [apply (write_new (with_file (sh_os s) b s) q t m name (cstr txt ++ [10])); try done|].
  - split; [lia|done].
  - by eexists.
  - by rw -Elen.
  - intros r s1 (-> & Hr2 & Ei & _). cbn [Z.eqb].
    eapply (wp_say s1 s1 q t _ _ _ []); [exact Hr2|by apply quiet_refl|by apply text_ok|done|]. intros s2 Q2.
    eapply (wp_say s1 s2 q t); [exact Hr2|exact Q2|apply Hn|done|]. intros s3 Q3.
    eapply (wp_say_last s1 s3 q t); [exact Hr2|exact Q3|apply newline_ok|done|]. intros s4 (Hr4 & K4 & _).
    split; [exact Hr4|]. rw (kept_inode _ _ K4). exact Ei.
Qed.

(** [is_directory] of a name that is a regular file or free *)
Lemma is_directory_spec s q t m name : ready s q t m -> name_str name -> m (cstr name) <> Other ->
  (forall c, m (cstr name) = File c -> content_ok c) ->
  wp (is_directory name) (fun r s' => r = 0 /\ quiet s q t m s') s.
Proof.
  intros Hr [Hs Hn] Hm Hc. rw /is_directory. apply wp_bind. eapply wp_lift; [by apply request_name_spec|].
  apply wp_bind, wp_gets, wp_bind, wp_sys.
  eapply wp_mono; [apply (law_stat _ _ m _ q t); try done; apply Hr|]. intros r o (-> & Hsm & Ht').
  destruct (ready_same _ _ _ _ _ _ _ Hr Hsm Ht') as [Hr' Hk]. by destruct (m (cstr name)); [apply wp_ret..|].
Qed.

(** the start of [cp] and [mv]: the source is in [file_buffer] *)
Lemma read_source s q t m src c {B} (k1 k2 k3 : M (Sh S) B) (k : Z -> M (Sh S) B) Q : ready s q t m -> name_str src ->
  m (cstr src) = File c -> content_ok c ->
  (forall s', ready s' q t m -> kept s s' -> file_prefix s' c -> wp (k (len c)) Q s') ->
  wp (file_size ← get_file_size src (current_dir_inode s);
      if file_size <? 0 then k1 else if 32768 <? file_size then k2 else
      ret ← read_file src (current_dir_inode s) file_size;
      if negb (ret =? 0) then k3 else k file_size) Q s.
Proof.
  intros Hr Hn Hm Hc HK. eapply wp_then.
  { apply (get_file_size_spec s q t m); try done; [by rw Hm|by intros c'; rw Hm; intros [= <-]]. }
  intros r s1 (-> & Hr1 & [Ei1 Hk1 Hw1] & _). rw Hm. destruct (Hc) as [Hl _].
  rewrite -> (proj2 (Z.ltb_ge _ _)), (proj2 (Z.ltb_ge _ _)) by lia. rw -Ei1.
  eapply wp_then; [by apply (read_buffer s1 q t m src c)|]. intros r s2 (-> & Hr2 & Hk2 & Hp). cbn [Z.eqb negb].
  apply HK; [done| |done]. by eapply kept_trans; [split|].
Qed.

(** [cp] and [mv] with both operands *)
Lemma wp_operands {B} src dst (k1 k2 : M (Sh S) B) Q s : name_str src -> name_str dst -> wp k2 Q s ->
  wp (a ← lift (arr_get src 0);
      missing ← (if a =? 0 then mret true else b ← lift (arr_get dst 0); mret (b =? 0));
      if (missing : bool) then k1 else k2) Q s.
Proof.
  intros Hs Hd Hk. apply wp_first; [done|]. intros a ->. apply wp_bind, wp_first; [done|]. intros b ->. by apply wp_ret.
Qed.

Definition cp_says (src dst : list Z) : list (list Z * Z) :=
  [(text "Copied: ", GREEN); (src, GREEN); (text " -> ", WHITE); (dst, GREEN); (newline, WHITE)].
Lemma cmd_cp_spec s q t m src dst c : ready s q t m -> name_str src -> name_str dst ->
  m (cstr src) = File c -> m (cstr dst) <> Other -> content_ok c ->
  os_room (sh_os s) (current_dir_inode s) (cstr dst) (len c) ->
  wp (cmd_cp src dst) (fun _ s' => exists m', ready s' q (says (cp_says src dst) t) m' /\
    current_dir_inode s' = current_dir_inode s /\ forall nm, m' nm = put_slot (cstr dst) (File c) m nm) s.
Proof.
  intros Hr Hs Hd Hm Hmd Hc Hroom. rw /cmd_cp. apply wp_operands; [done..|]. apply wp_bind, wp_gets.
  apply (read_source s q t m src c); try done. intros s1 Hr1 K1 Hp1. have Ei1 := kept_inode _ _ K1.
  rw -Ei1. eapply wp_then; [apply (overwrite_spec s1 q t m dst c); try done; rw Ei1; by apply K1|].
  intros r s2 (-> & (m' & Hr2 & Em) & Ei2). cbn [Z.eqb].
  eapply (wp_say s2 s2 q t m' _ _ []); [exact Hr2|by apply quiet_refl|by apply text_ok|done|]. intros s3 Q3.
  eapply (wp_say s2 s3 q t); [exact Hr2|exact Q3|apply Hs|done|]. intros s4 Q4.
  eapply (wp_say s2 s4 q t); [exact Hr2|exact Q4|by apply text_ok|done|]. intros s5 Q5.
  eapply (wp_say s2 s5 q t); [exact Hr2|exact Q5|apply Hd|done|]. intros s6 Q6.
  eapply (wp_say_last s2 s6 q t); [exact Hr2|exact Q6|apply newline_ok|done|]. intros s7 (Hr7 & K7 & _).
  exists m'. split; [exact Hr7|]. split; [by rw (kept_inode _ _ K7) Ei2|done].
Qed.

Definition mv_says (src dst : list Z) : list (list Z * Z) :=
  [(text "Moved: ", GREEN); (src, GREEN); (text " -> ", WHITE); (dst, GREEN); (newline, WHITE)].
Lemma cmd_mv_spec s q t m src dst c : ready s q t m -> name_str src -> name_str dst ->
  m (cstr src) = File c -> m (cstr dst) <> Other -> content_ok c -> (forall c', m (cstr dst) = File c' -> content_ok c') ->
  os_room (sh_os s) (current_dir_inode s) (cstr dst) (len c) ->
  wp (cmd_mv src dst) (fun _ s' => exists m', ready s' q (says (mv_says src dst) t) m' /\
    current_dir_inode s' = current_dir_inode s /\
    forall nm, m' nm = put_slot (cstr src) Absent (put_slot (cstr dst) (File c) m) nm) s.
Proof.
  intros Hr Hs Hd Hm Hmd Hc Hcd Hroom. rw /cmd_mv. apply wp_operands; [done..|].
  eapply wp_then; [by apply (is_directory_spec s q t m dst)|]. intros r s1 (-> & Hr1 & K1 & _). have Ei1 := kept_inode _ _ K1.
  apply wp_bind, wp_gets. cbn [Z.eqb negb]. apply wp_bind. destruct (Hd) as [[Htd Hcd'] (_ & Hnd & _)].
  eapply (wp_lift _ (put (cstr dst) (zeros 128))).
  { rw strcpy_spec // length_replicate. by rewrite -> (proj2 (Nat.ltb_lt _ _)) by lia. }
  set (target := put (cstr dst) (zeros 128)). have Et : cstr target = cstr dst by apply cstr_put, cstr_nonzero.
  have Htarget : name_str target.
  { rw /name_str Et. split; [|apply Hd]. split; [apply put_terminated|]. have Hcc := string_ok_cstr _ (proj1 Hd).
    split; [rw put_length length_replicate; lia|]. apply bytes_ok_app. split; [apply Hcc|].
    constructor; [lia|]. apply bytes_ok_drop, bytes_ok_zeros. }
  apply (read_source s1 q t m src c); try done. intros s2 Hr2 K2 Hp2. have Ei2 := kept_inode _ _ K2.
  have K12 := kept_trans _ _ _ K1 K2. rw -Ei2. eapply wp_then; [apply (overwrite_spec s2 q t m target c); try done; rw ?Et //; rw Ei2 Ei1; by apply K12|].
  intros r s3 (-> & (m1 & Hr3 & Em1) & Ei3). cbn [Z.eqb negb]. rw -Ei3 Et in Em1 |- *.
  have Hsrc : m1 (cstr src) = File c by rw Em1 /put_slot Hm; case_bool_decide.
  eapply wp_then; [by apply (delete_existing s3 q t m1 src c)|]. intros r s4 (_ & Hr4 & K4 & _). have Ei4 := kept_inode _ _ K4.
  eapply (wp_say s4 s4 q t _ _ _ []); [exact Hr4|by apply quiet_refl|by apply text_ok|done|]. intros s5 Q5.
  eapply (wp_say s4 s5 q t); [exact Hr4|exact Q5|apply Hs|done|]. intros s6 Q6.
  eapply (wp_say s4 s6 q t); [exact Hr4|exact Q6|by apply text_ok|done|]. intros s7 Q7.
  eapply (wp_say s4 s7 q t); [exact Hr4|exact Q7|apply Hd|done|]. intros s8 Q8.
  eapply (wp_say_last s4 s8 q t); [exact Hr4|exact Q8|apply newline_ok|done|]. intros s9 (Hr9 & K9 & _).
  eexists. split; [exact Hr9|]. split; [by rw (kept_inode _ _ K9) Ei4 Ei3 Ei2 Ei1|].
  intros nm. rw /put_slot Em1. by case_bool_decide.
Qed.

(** ** The line editor *)
(** what a key does to the line and the screen *)
Definition edit_key (x : list Z * Term) (c : Z) : list Z * Term :=
  let '(acc, t) := x in
  if c =? 0 then x
  else if c =? 8 then (if (length acc =? 0)%nat then x else (removelast acc, t_one WHITE 8 t))
  else if (length acc <? 255)%nat then (acc ++ [c], t_one WHITE c t) else x.
(** the line buffer that holds [acc] *)
Definition line_buf (acc : list Z) : list Z := acc ++ zeros (256 - length acc).
Definition typed_ok (acc : list Z) : Prop := (length acc <= 255)%nat /\ Forall (fun c => 0 < c < 256) acc.

Lemma getchar_spec s q t m : ready s q t m ->
  wp getchar (fun c s' => c = hd 0 q /\ quiet s (tl q) t m s') s.
Proof.
  intros Hr. rw /getchar. apply wp_bind, wp_gets. rw (ready_in _ _ _ _ Hr). apply wp_sys.
  eapply wp_mono; [apply (law_getchar _ q t), Hr|]. intros c o (-> & Hsm & Ht').
  destruct (ready_same _ _ _ _ _ _ _ Hr Hsm Ht'). by split.
Qed.
Lemma line_buf_set acc c : (length acc <= 255)%nat ->
  arr_set (line_buf acc) (len acc) c = Ok (acc ++ c :: zeros (255 - length acc)).
Proof.
  intros Hl. rw /line_buf. have -> : (256 - length acc = Datatypes.S (255 - length acc))%nat by lia.
  by apply set_app.
Qed.
Lemma edit_char_spec s c q t m acc : ready s (c :: q) t m -> 0 <= c < 256 -> c <> 10 -> typed_ok acc ->
  wp (edit_char (line_buf acc) (len acc)) (fun '(done, b, i) s' => let '(acc', t') := edit_key (acc, t) c in
    done = false /\ b = line_buf acc' /\ i = len acc' /\ typed_ok acc' /\ ready s' q t' m /\ kept s s') s.
Proof.
  intros Hr Hc Hnl [Hl Hacc]. rw /edit_char. eapply wp_then; [by apply getchar_spec|].
  intros c' s1 (-> & Hr1 & K1 & _). cbn [List.hd List.tl] in *. rw /edit_key. destruct (Z.eqb_spec c 0) as [|Hc0]; [by apply wp_ret|].
  rewrite -> (proj2 (Z.eqb_neq c 10)) by done. destruct (Z.eqb_spec c 8) as [->|Hc8].
  - destruct (Nat.eqb_spec (length acc) 0) as [E0|Hne].
    { rewrite -> (proj2 (Z.ltb_ge _ _)) by lia. by apply wp_ret. }
    rewrite -> (proj2 (Z.ltb_lt _ _)) by lia. destruct (exists_last (l := acc)) as (acc' & x & ->); [by intros ->|].
    rw length_app in Hl Hne |- *. cbn [length] in *. apply Forall_app in Hacc as [Hacc _].
    have -> : Z.of_nat (length acc' + 1) - 1 = len acc' by lia. apply wp_bind.
    eapply (wp_lift _ (line_buf acc')).
    { rw /line_buf -app_assoc. cbn [app]. rewrite -> (set_app acc') by lia. rw length_app. cbn [length].
      have -> : (256 - length acc' = Datatypes.S (256 - (length acc' + 1)))%nat by lia. done. }
    eapply wp_then; [by apply putchar_spec|]. intros [] s2 (Hr2 & K2 & _). apply wp_ret. rw removelast_last. have K := kept_trans _ _ _ K1 K2.
    split; [done|]. split; [done|]. split; [done|]. split; [split; [lia|done]|done].
  - destruct (Nat.ltb_spec (length acc) 255) as [Hlt|Hge].
    + rewrite -> (proj2 (Z.ltb_lt _ _)) by lia. apply wp_bind. eapply wp_lift; [by apply line_buf_set|].
      eapply wp_then; [by apply putchar_spec|]. intros [] s2 (Hr2 & K2 & _). apply wp_ret. have K := kept_trans _ _ _ K1 K2. rw /line_buf /typed_ok length_app. cbn [length].
      rw -app_assoc. have -> : (256 - (length acc + 1) = 255 - length acc)%nat by lia.
      split; [done|]. split; [done|]. split; [lia|]. split; [|done]. split; [lia|]. apply Forall_app. split; [done|].
      constructor; [lia|done].
    + rewrite -> (proj2 (Z.ltb_ge _ _)) by lia. by apply wp_ret.
Qed.

Lemma read_line_spec ks rest extra s t m acc : ready s (ks ++ 10 :: rest) t m -> Forall (fun c => 0 <= c < 256 /\ c <> 10) ks ->
  typed_ok acc ->
  wp (read_line (length ks + Datatypes.S extra) (line_buf acc) (len acc)) (fun b s' =>
    let '(acc', t') := foldl edit_key (acc, t) ks in
    b = line_buf acc' /\ typed_ok acc' /\ ready s' rest (t_puts [10] WHITE t') m /\ kept s s') s.
Proof.
  intros Hr Hks. revert s t acc Hr. induction Hks as [|c ks [Hc Hnl] Hks IH] => s t acc Hr Hacc; cbn [length Nat.add read_line foldl].
  - rw /edit_char. apply wp_bind. eapply wp_then; [by apply getchar_spec|]. intros c s1 (-> & Hr1 & K1 & _). cbn [List.hd List.tl app] in *.
    eapply wp_then; [apply puts_spec; [exact Hr1|apply newline_ok|done]|]. intros [] s2 (Hr2 & K2 & _).
    apply wp_bind. eapply wp_lift; [apply line_buf_set, Hacc|]. apply wp_ret, wp_ret.
    split; [|split; [done|split; [exact Hr2|by eapply kept_trans]]]. destruct Hacc as [Hl _]. rw /line_buf.
    by have -> : (256 - length acc = Datatypes.S (255 - length acc))%nat by lia.
  - eapply wp_then; [by apply edit_char_spec|]. intros [[done b] i] s1.
    destruct (edit_key (acc, t) c) as [acc' t'] eqn:E. intros (-> & -> & -> & Hacc' & Hr1 & K1).
    eapply wp_mono; [by apply IH|]. intros b s2. destruct (foldl edit_key (acc', t') ks) as [acc2 t2].
    intros (-> & Hacc2 & Hr2 & K2). split; [done|]. split; [done|]. split; [done|by eapply kept_trans].
Qed.
End Spec.
