(* ===== verification/ShellLine.v ===== *)
(** * A line of the shell, from the keys to the command

    The path of a line through [main] of [shell.c]: the prompt, the editor, the splitting at
    [|], the three words, the chain of comparisons and the command, for lines without a
    pipe. *)

From Stdlib Require Import String.
From S2P Require Import Prelude Ext2View Console ShellStr Shell ShellCmd ShellMain ShellSpec.

(** ** Words *)
Definition plain (c : Z) : Prop := 32 < c < 127 /\ c <> 124.
Lemma word_plain w r : Forall plain w -> (r = [] \/ hd_error r = Some 32) -> word (w ++ r) = (w, r).
Proof.
  intros Hw Hr. induction Hw as [|c w [Hc _] Hw IH]; cbn [app word].
  - destruct r as [|c r]; [done|]. destruct Hr as [|[= ->]]; [done|]. done.
  - rewrite -> (proj2 (Z.eqb_neq c 32)) by lia. by rw IH.
Qed.
Lemma drop_spaces_plain w r : Forall plain w -> w <> [] -> drop_spaces (w ++ r) = w ++ r.
Proof. intros Hw. destruct Hw as [|c w [Hc _] Hw]; [done|]. intros _. cbn. by rewrite -> (proj2 (Z.eqb_neq c 32)) by lia. Qed.
Definition command_line (cmd a b : list Z) : list Z := cmd ++ 32 :: a ++ 32 :: b.
Lemma three_words_line cmd a b : Forall plain cmd -> Forall plain a -> Forall plain b -> cmd <> [] -> a <> [] -> b <> [] ->
  three_words (command_line cmd a b) = (cmd, a, b).
Proof.
  intros Hc Ha Hb Nc Na Nb. have Eb : word (drop_spaces b) = (b, []).
  { have E := drop_spaces_plain b [] Hb Nb. have E2 := word_plain b [] Hb (or_introl eq_refl). rewrite -> app_nil_r in E, E2. by rw E. }
  rw /three_words /command_line. rewrite -> drop_spaces_plain, word_plain by auto.
  cbn [drop_spaces Z.eqb Pos.eqb]. rewrite -> drop_spaces_plain, word_plain by auto.
  cbn [drop_spaces Z.eqb Pos.eqb]. by rw Eb.
Qed.
Lemma line_plain cmd a b : Forall plain cmd -> Forall plain a -> Forall plain b ->
  Forall (fun c => 32 <= c < 127 /\ c <> 124) (command_line cmd a b).
Proof.
  have Hp l : Forall plain l -> Forall (fun c => 32 <= c < 127 /\ c <> 124) l by intros Hl; eapply Forall_impl; [exact Hl|]; rw /plain; intros; lia.
  intros Hc Ha Hb. apply Forall_app. split; [by apply Hp|]. constructor; [lia|]. apply Forall_app. split; [by apply Hp|].
  constructor; [lia|by apply Hp].
Qed.

(** ** The editor on ordinary characters *)
Lemma edit_plain ks acc t : Forall (fun c => 32 <= c < 127 /\ c <> 124) ks -> (length acc + length ks <= 255)%nat ->
  (foldl edit_key (acc, t) ks).1 = acc ++ ks.
Proof.
  intros Hks. revert acc t. induction Hks as [|c ks [Hc _] Hks IH] => acc t Hl; cbn [foldl]; [by rw app_nil_r|].
  cbn [length] in Hl. have E : edit_key (acc, t) c = (acc ++ [c], t_one WHITE c t).
  { rw /edit_key. rewrite -> !(proj2 (Z.eqb_neq _ _)), (proj2 (Nat.ltb_lt _ _)) by lia. done. }
  rw E. rewrite -> IH by (rw length_app /=; lia). by rw -app_assoc.
Qed.

(** ** Splitting at the pipe character *)
Lemma split_plain a pre rest cmds n : Forall (fun c => c <> 0 /\ c <> 124) a -> (length a < n)%nat ->
  split_pipes n (pre ++ a ++ 0 :: rest) (len pre) cmds = Ok (pre ++ a ++ 0 :: rest, cmds).
Proof.
  intros Ha. revert pre n. induction Ha as [|c a [Hc0 Hc] Ha IH] => pre n Hn; (destruct n as [|n]; [cbn in Hn; lia|]); cbn [split_pipes app].
  - rewrite -> get_app by done. done.
  - rewrite -> get_app by done. cbn [mbind res_bind]. rw (proj2 (Z.eqb_neq _ _) Hc0) (proj2 (Z.eqb_neq _ _) Hc).
    have -> : len pre + 1 = len (pre ++ [c]) by rw length_app /=; lia.
    have -> : pre ++ c :: a ++ 0 :: rest = (pre ++ [c]) ++ a ++ 0 :: rest by rw -app_assoc.
    apply IH. cbn in Hn. lia.
Qed.

(** the next comparison of the chain *)
Ltac next_command := apply wp_bind; eapply wp_lift; [reflexivity|]; cbv beta iota.

Section Line.
Context {S : Type} `{OsLaws S}.
Variables (cmd_wc : list Z -> M (Sh S) unit) (cmd_testuser : M (Sh S) unit) (find_fuel : nat).
Implicit Types s : Sh S.
Abbreviation dispatch := (dispatch cmd_wc cmd_testuser find_fuel).
Abbreviation execute := (execute cmd_wc cmd_testuser find_fuel).
Abbreviation shell_loop := (shell_loop cmd_wc cmd_testuser find_fuel).

(** a line without a pipe: the three words go to the chain of comparisons *)
Definition same_but_pipe s s' : Prop := sh_os s' = sh_os s /\ current_dir_inode s' = current_dir_inode s /\ cwd s' = cwd s /\
  dir_buffer s' = dir_buffer s /\ file_buffer s' = file_buffer s /\
  pipe_mode_output (sh_pipe s') = false /\ pipe_mode_input (sh_pipe s') = false.
Lemma execute_words s b w1 w2 w3 (P : Sh S -> Prop) : terminated b -> cstr b <> [] ->
  Forall (fun c => c <> 124) (cstr b) -> three_words (cstr b) = (w1, w2, w3) ->
  (length w1 < 64)%nat -> (length w2 < 128)%nat -> (length w3 < 128)%nat ->
  (forall s', P s' -> forall s'', same_but_pipe s' s'' -> P s'') ->
  (forall s1, same_but_pipe s s1 ->
     wp (dispatch (put w1 (zeros 64)) (put w2 (zeros 128)) (put w3 (zeros 128))) (fun h s' => h = false /\ P s') s1) ->
  wp (execute b) (fun h s' => h = false /\ P s') s.
Proof.
  intros Ht Hne H124 Ew L1 L2 L3 HP Hd. rw /ShellMain.execute. destruct (cstr_head b Ht) as (c & Ec & Hc).
  apply wp_bind. eapply wp_lift; [exact Ec|]. rewrite -> (proj2 (Z.eqb_neq c 0)) by tauto.
  apply wp_bind, wp_bind, wp_gets, wp_modify, wp_bind. set (s1 := mkSh _ _ _ _ _ _ _).
  destruct (terminated_split b Ht) as [rest E].
  have Hspl : split_pipes (Datatypes.S (length b)) b 0 [0] = Ok (b, [0]).
  { rw {2 3}E. have L := f_equal length E. rw length_app in L. apply (split_plain (cstr b) [] rest [0]); [|cbn in L; lia].
    have Hnz := cstr_nonzero b. apply Forall_and. by split. }
  eapply wp_lift; [exact Hspl|]. apply wp_bind. cbn [length run_pipeline].
  apply wp_bind. eapply wp_lift.
  { change (drop (Z.to_nat 0) b) with b. rw parse_input_spec // /parsed Ew !length_replicate.
    rewrite -> !(proj2 (Nat.ltb_lt _ _)) by lia. reflexivity. }
  change (1 <? 1)%nat with false. change (0 <? 1 - 1)%nat with false. cbv beta iota.
  apply wp_bind, wp_ret. eapply wp_then; [by apply Hd|]. intros h s2 [-> HP2]. cbv beta iota.
  apply wp_bind, wp_ret, wp_ret. cbv beta iota. apply wp_bind. apply wp_bind, wp_gets, wp_modify, wp_ret.
  split; [done|]. by eapply HP.
Qed.
Lemma execute_plain s q t m b w1 w2 w3 (P : Sh S -> Prop) : ready s q t m -> terminated b -> cstr b <> [] ->
  Forall (fun c => c <> 124) (cstr b) -> three_words (cstr b) = (w1, w2, w3) ->
  (length w1 < 64)%nat -> (length w2 < 128)%nat -> (length w3 < 128)%nat ->
  (forall s', P s' -> forall s'', sh_os s'' = sh_os s' -> current_dir_inode s'' = current_dir_inode s' ->
     file_buffer s'' = file_buffer s' -> pipe_mode_output (sh_pipe s'') = false -> pipe_mode_input (sh_pipe s'') = false -> P s'') ->
  (forall s1, ready s1 q t m -> kept s s1 ->
     wp (dispatch (put w1 (zeros 64)) (put w2 (zeros 128)) (put w3 (zeros 128))) (fun h s' => h = false /\ P s') s1) ->
  wp (execute b) (fun h s' => h = false /\ P s') s.
Proof.
  intros Hr Ht Hne H124 Ew L1 L2 L3 HP Hd. apply (execute_words s b w1 w2 w3); try done.
  - intros s' HP' s'' (? & ? & _ & _ & ? & ? & ?). by apply (HP s').
  - intros s1 (Eo & Ei & Ec & _ & Ef & Eout & Ein). apply Hd; [|split; [done|by rw Eo|done]].
    destruct Hr. constructor; by rw ?Eo ?Ei ?Ef.
Qed.

Lemma prompt_spec s q t m : ready s q t m -> string_ok (cwd s) ->
  wp prompt (fun _ s' => quiet s q (says [(text "User@RendangOS:", GREEN); (cwd s, YELLOW); (text "$ ", WHITE)] t) m s') s.
Proof.
  intros Hr Hw. rw /prompt. eapply (wp_say s s q t m _ _ []); [exact Hr|by apply quiet_refl|by apply text_ok|done|]. intros s1 Q1.
  apply wp_bind, wp_gets. have E1 : cwd s1 = cwd s by destruct Q1 as (_ & [] & _). rw E1.
  eapply (wp_say s s1 q t); [exact Hr|exact Q1|done|done|]. intros s2 Q2.
  by eapply (wp_say_last s s2 q t); [exact Hr|exact Q2|by apply text_ok|done|].
Qed.

Lemma banner_spec s q t m : ready s q t m -> wp banner (fun _ s' => exists t', ready s' q t' m /\ kept s s') s.
Proof.
  intros Hr. rw /banner. eapply (wp_say s s q t m _ _ []); [exact Hr|by apply quiet_refl|exact newline_ok|done|]. intros s1 Q1.
  eapply (wp_say s s1 q t); [exact Hr|exact Q1|by apply line_ok|done|]. intros s2 Q2.
  eapply (wp_say s s2 q t); [exact Hr|exact Q2|by apply line_ok|done|]. intros s3 Q3.
  eapply (wp_say s s3 q t); [exact Hr|exact Q3|by apply line_ok|done|]. intros s4 Q4.
  eapply (wp_say s s4 q t); [exact Hr|exact Q4|by apply line_ok|done|]. intros s5 Q5.
  eapply (wp_say s s5 q t); [exact Hr|exact Q5|by apply line_ok|done|]. intros s6 Q6.
  eapply (wp_say_last s s6 q t); [exact Hr|exact Q6|exact newline_ok|done|]. intros s7 (Hr7 & K7 & _). by eexists.
Qed.

(** the comparisons in front of [echo] fail *)
Lemma dispatch_echo s a b (P : Sh S -> Prop) : wp (cmd_echo a b) (fun _ s' => P s') s ->
  wp (dispatch (put (bytes_of "echo") (zeros 64)) a b) (fun h s' => h = false /\ P s') s.
Proof.
  intros He. rw /ShellMain.dispatch. cbv zeta. do 11 next_command.
  eapply wp_then; [exact He|]. intros [] s' HP. by apply wp_ret.
Qed.

(** a string the parser stored *)
Lemma put_name w n : Forall plain w -> w <> [] -> (length w < 128)%nat -> (length w < n)%nat -> (n <= 128)%nat ->
  name_str (put w (zeros n)) /\ cstr (put w (zeros n)) = w.
Proof.
  intros Hw Hne Hl Hn Hn2. have E : cstr (put w (zeros n)) = w by apply cstr_put; eapply Forall_impl; [exact Hw|]; rw /plain; intros; lia.
  have Hb : bytes_ok w by eapply Forall_impl; [exact Hw|]; rw /plain; cbn; intros; lia.
  split; [|done]. rw /name_str E. split; [|done]. split; [apply put_terminated|]. split.
  - rw put_length length_replicate; lia.
  - apply bytes_ok_app. split; [done|]. constructor; [lia|]. apply bytes_ok_drop, bytes_ok_zeros.
Qed.

(** the keys of [echo text file] and a newline, through one round of the loop *)
Lemma typed_echo_spec s rest t m txt name extra : Forall plain txt -> Forall plain name -> txt <> [] -> name <> [] ->
  (length txt < 128)%nat -> (length name < 128)%nat -> (length txt + length name <= 249)%nat ->
  ready s (command_line (bytes_of "echo") txt name ++ 10 :: rest) t m -> string_ok (cwd s) -> m name = Absent ->
  os_room (sh_os s) (current_dir_inode s) name (len txt + 1) ->
  wp (shell_loop 1 (length (command_line (bytes_of "echo") txt name) + Datatypes.S extra)) (fun _ s' =>
    exists t', ready s' rest t' (put_slot name (File (txt ++ [10])) m)) s.
Proof.
  intros Ht Hn Nt Nn Lt Ln Ll Hr Hcwd Hm Hroom. set (ks := command_line _ _ _) in *.
  have Hcmd : Forall plain (bytes_of "echo") by rw /plain; repeat constructor; try lia; intros [=].
  have Hks := line_plain _ _ _ Hcmd Ht Hn. fold ks in Hks.
  have Lks : length ks = (6 + length txt + length name)%nat by rw /ks /command_line !length_app /= length_app /=; lia.
  cbn [ShellMain.shell_loop]. eapply wp_then; [by apply prompt_spec|]. intros [] s1 (Hr1 & K1 & _).
  set (t1 := says _ _) in Hr1. eapply wp_then.
  { apply (read_line_spec ks rest extra s1 t1 m []); [exact Hr1| |by split; [cbn; lia|]].
    eapply Forall_impl; [exact Hks|]. cbn. intros; lia. }
  intros b s2. have H255 : (length (@nil Z) + length ks <= 255)%nat by (rw Lks; cbn [length]; lia).
  have E := edit_plain ks [] t1 Hks H255.
  destruct (foldl edit_key ([], t1) ks) as [acc t2]. cbn [fst app] in E. subst acc. intros (-> & _ & Hr2 & K2).
  have Eb : line_buf ks = ks ++ 0 :: zeros (255 - length ks).
  { rw /line_buf. by have -> : (256 - length ks = Datatypes.S (255 - length ks))%nat by lia. }
  have Ec : cstr (line_buf ks) = ks by rw Eb; apply cstr_app; eapply Forall_impl; [exact Hks|]; cbn; intros; lia.
  destruct (put_name txt 128) as [[Hts _] Et]; [done|done|done|done|done|].
  destruct (put_name name 128) as [Hns En]; [done|done|done|done|done|].
  have K12 := kept_trans _ _ _ K1 K2.
  eapply wp_then.
  { eapply (execute_plain s2 rest (t_puts [10] WHITE t2) m (line_buf ks) (bytes_of "echo") txt name
      (fun s' => exists t', ready s' rest t' (put_slot name (File (txt ++ [10])) m))); [exact Hr2|rw Eb; apply terminated_app| | | |cbn; lia|done|done| |].
    - rw Ec. by destruct txt.
    - rw Ec. eapply Forall_impl; [exact Hks|]. cbn. intros; lia.
    - rw Ec. by apply three_words_line.
    - intros s' (t' & []) s'' Eo Ei Ef Eout Ein. exists t'. constructor; try done; rw ?Eo ?Ei ?Ef //.
    - intros s3 Hr3 K3. have K := kept_trans _ _ _ K12 K3. apply dispatch_echo.
      eapply wp_mono; [apply (cmd_echo_spec s3 rest (t_puts [10] WHITE t2) m); [exact Hr3|exact Hts|by rw Et|rw Et; lia|exact Hns|by rw En|]|].
      + rw En Et (kept_inode _ _ K). by apply K.
      + intros [] s4 [Hr4 _]. rw En Et in Hr4. by eexists. }
  intros h s5 [-> HP]. cbv beta iota. by apply wp_ret.
Qed.
End Line.
