(* ===== verification/ShellKernel.v ===== *)
(** * The shell on the kernel

    The system calls of [Shell.v] made through [int 0x80] on the modelled kernel: a call
    puts its name, its data and its request into the caller's memory, where the layout
    says, raises the interrupt with the addresses in the registers and takes the answer
    out of memory, as the wrappers of [shell.c] do.  The kernel keeps the laws
    that the theorems about the shell rely on, so that a command is followed from the
    shell's buffers through the handlers and the file system to the blocks of the disk. *)

From Stdlib Require Import String.
From S2P Require Import Prelude StdString BlockDevice Ext2Layout Ext2Dir Ext2State Ext2 Ext2Inv Ext2Format Ext2Files Ext2Data Ext2Write Ext2Crud Inserter Ext2Theorems FileTree Ext2View Ext2Tree Ext2Volume Keyboard Console Pic Interrupt Syscalls ShellStr Shell ShellCmd ShellMain ShellSpec ShellLine.

(** ** The calls *)
(** where the objects of a call are: the name, the data, the request, the code, and
    the two answers of [stat] *)
Record Frame := mkFrame { a_name : Z; a_buf : Z; a_req : Z; a_ret : Z; a_size : Z; a_dir : Z }.

Section Calls.
Context {D : Type} `{BlockDevice D} `{StackJunk}.
Variable F : Frame.

(** the request and its strings are in memory when the call is made *)
Definition place (nm data : list Z) (parent : Z) (is_dir : bool) : M (Kernel D) unit :=
  store (a_name F) nm;; store (a_buf F) data;;
  store (a_req F) (request_bytes (mkRequest (a_buf F) (a_name F) (len nm) parent (len data) is_dir)).
(** a call with a request; [int8_t ret] *)
Definition request_call (nr : Z) (nm data : list Z) (parent : Z) (is_dir : bool) : M (Kernel D) Z :=
  place nm data parent is_dir;;
  syscall nr (a_req F) (a_ret F) 0;;
  gets (fun k => s8 (user_mem k (a_ret F))).
Definition with_data (n : nat) (call : M (Kernel D) Z) : M (Kernel D) (Z * list Z) :=
  code ← call; bs ← gets (fun k => mem_load (user_mem k) (a_buf F) n); mret (code, bs).
(** [struct StatRequest], [uint32_t size = 0] and [bool is_dir = false] *)
Definition stat_call (nm : list Z) (parent : Z) : M (Kernel D) (Z * option (Z * bool)) :=
  store (a_name F) nm;;
  store (a_req F) (le_bytes 4 (a_name F) ++ [len nm] ++ le_bytes 4 parent);;
  store (a_size F) (le_bytes 4 0);; store (a_dir F) [0];;
  code ← syscall SYSCALL_STAT (a_req F) (a_size F) (a_dir F);
  m ← gets user_mem;
  mret (code, if code =? 0 then Some (mem_field m (a_size F) 4, negb (m (a_dir F) =? 0)) else None).
#[local] Instance kernel_os : Os (Kernel D) := {
  os_read nm p buf := with_data (length buf) (request_call SYSCALL_READ nm buf p false);
  os_read_dir p buf := with_data (length buf) (request_call SYSCALL_READ_DIR [] buf p true);
  os_write nm p data is_dir := request_call SYSCALL_WRITE nm data p is_dir;
  os_delete nm p is_dir := request_call SYSCALL_DELETE nm [] p is_dir;
  os_stat := stat_call;
  os_getchar := syscall SYSCALL_GETCHAR (a_ret F) 0 0;; gets (fun k => user_mem k (a_ret F));
  os_putchar c color := syscall SYSCALL_PUTCHAR c color 0;; mret tt;
  os_puts str color := store (a_buf F) str;; syscall SYSCALL_PUTS (a_buf F) (len str) color;; mret tt;
  os_activate_kbd := syscall SYSCALL_ACTIVATE_KBD 0 0 0;; mret tt;
}.
End Calls.

(** ** Bytes in memory *)
Lemma load_inside m a bs off n : 0 <= a -> a + len bs <= 2 ^ 32 -> (off + n <= length bs)%nat ->
  mem_load (mem_store m a bs) (a + Z.of_nat off) n = take n (drop off bs).
Proof.
  intros Ha Hw Hn. pose proof (mem_load_sub (PW := kernel_ptr) (mem_store m a bs) a (length bs) off n Ha Hw Hn) as E.
  rw mem_load_store // in E. destruct n as [|n]; [by rw take_0|]. by rewrite -> ptr_id in E by lia.
Qed.
Lemma load_prefix m a n x : 0 <= a -> a + Z.of_nat n <= 2 ^ 32 -> (length x <= n)%nat ->
  mem_load (mem_store m a x) a n = (x ++ drop (length x) (mem_load m a n))%list.
Proof.
  intros Ha Hn Hx. apply list_eq => i. destruct (decide (i < n)%nat) as [Hi|Hi].
  2: { rewrite -> !lookup_ge_None_2; [done|rw length_app length_drop mem_load_length; lia|rw mem_load_length; lia]. }
  rewrite -> mem_load_lookup by done. rewrite -> ptr_id by lia. rewrite -> mem_store_lookup by lia.
  destruct (decide (i < length x)%nat) as [Hix|Hix].
  - rewrite -> bool_decide_true, lookup_app_l by lia. destruct (lookup_lt_is_Some_2 x i Hix) as [v E]. rw E. f_equal.
    apply nth_lookup_Some. rw -E. f_equal. lia.
  - rewrite -> bool_decide_false, lookup_app_r, lookup_drop by lia. rewrite -> mem_load_lookup by lia.
    do 2 f_equal. rewrite -> ptr_id by lia. lia.
Qed.
Lemma field_inside m a pre x post v : 0 <= a -> a + len (pre ++ x ++ post) <= 2 ^ 32 -> le_val x = v ->
  mem_field (mem_store m a (pre ++ x ++ post)) (a + len pre) (length x) = v.
Proof.
  intros Ha Hw <-. rw /mem_field load_inside //; [rw !length_app; lia|]. by rw drop_app_length take_app_length.
Qed.
Lemma request_stored m a r : 0 <= a -> a + 18 <= 2 ^ 32 -> 0 <= buf r < 2 ^ 32 -> 0 <= name r < 2 ^ 32 ->
  0 <= name_len r < 256 -> 0 <= parent_inode r < 2 ^ 32 -> 0 <= buffer_size r < 2 ^ 32 ->
  request_at (mem_store m a (request_bytes r)) a = r.
Proof.
  intros Ha Hw Hb Hn Hl Hp Hs. destruct r as [b n l p sz d]. cbn [buf name name_len parent_inode buffer_size] in *.
  rw /request_at /request_bytes. cbn [buf name name_len parent_inode buffer_size is_directory].
  set (B := le_bytes 4 b). set (N := le_bytes 4 n). set (P := le_bytes 4 p). set (Z4 := le_bytes 4 sz). set (dd := if d then 1 else 0).
  have LB : length B = 4%nat by apply le_bytes_length. have LN : length N = 4%nat by apply le_bytes_length.
  have LP : length P = 4%nat by apply le_bytes_length. have LS : length Z4 = 4%nat by apply le_bytes_length.
  set (m' := mem_store m a _).
  have G pre x post v off k : B ++ N ++ [l] ++ P ++ Z4 ++ [dd] = pre ++ x ++ post -> off = len pre -> k = length x ->
    le_val x = v -> mem_field m' (a + off) k = v.
  { intros E -> -> Hv. rw /m' E. apply field_inside; [done| |done]. rw -E !length_app LB LN LP LS. cbn [length]. lia. }
  have V x y : x = le_bytes 4 y -> 0 <= y < 2 ^ 32 -> le_val x = y by intros -> Hy; apply le_val_bytes_id.
  f_equal.
  - rw -(Z.add_0_r a). apply (G [] B (N ++ [l] ++ P ++ Z4 ++ [dd])); [done|done|done|by apply V].
  - apply (G B N ([l] ++ P ++ Z4 ++ [dd])); [done|lia|done|by apply V].
  - apply (G (B ++ N) [l] (P ++ Z4 ++ [dd])); [by rw -!app_assoc|rw length_app; lia|done|cbn; lia].
  - apply (G (B ++ N ++ [l]) P (Z4 ++ [dd])); [by rw -!app_assoc|rw !length_app LB LN; cbn; lia|done|by apply V].
  - apply (G (B ++ N ++ [l] ++ P) Z4 [dd]); [by rw -!app_assoc|rw !length_app LB LN LP; cbn; lia|done|by apply V].
  - have -> : mem_field m' (a + 17) 1 = dd; [|by rw /dd; destruct d].
    apply (G (B ++ N ++ [l] ++ P ++ Z4) [dd] []); [by rw -!app_assoc|rw !length_app LB LN LP LS; cbn; lia|done|cbn; lia].
Qed.
Lemma apart_sub a n b m n' m' : apart a n b m -> (n' <= n)%nat -> (m' <= m)%nat -> apart a n' b m'.
Proof. intros ([] & [] & Hd). split; [split; lia|]. split; [split; lia|lia]. Qed.
Lemma apart_sym a n b m : apart a n b m -> apart b m a n.
Proof. intros (? & ? & Hd). split; [done|]. split; [done|lia]. Qed.

(** the objects of a call lie apart; names have at most 127 bytes, data at most 32768 *)
Record frame_ok (F : Frame) : Prop := {
  fo_name_buf : apart (a_name F) 128 (a_buf F) (Z.to_nat 32768);
  fo_name_req : apart (a_name F) 128 (a_req F) 18;
  fo_buf_req : apart (a_buf F) (Z.to_nat 32768) (a_req F) 18;
  fo_ret_buf : apart (a_ret F) 1 (a_buf F) (Z.to_nat 32768);
  fo_size_name : apart (a_size F) 4 (a_name F) 128;
  fo_size_req : apart (a_size F) 4 (a_req F) 18;
  fo_dir_name : apart (a_dir F) 1 (a_name F) 128;
  fo_dir_req : apart (a_dir F) 1 (a_req F) 18;
  fo_dir_size : apart (a_dir F) 1 (a_size F) 4;
  fo_nonzero : a_name F <> 0 /\ a_size F <> 0 /\ a_dir F <> 0;
}.

Section Laws.
Context {D : Type} `{BlockDeviceLaws D} `{StackJunkLaws} `{Overrun D}.
Variable F : Frame.
Hypothesis HF : frame_ok F.
Implicit Types k : Kernel D.
#[local] Instance the_kernel : Os (Kernel D) := kernel_os F.

(** the devices of a program: the keyboard active with [q] keys waiting, the screen [t] *)
Definition tty_of k (q : list Z) (t : Term) : Tty := mkTty (mkKeys true false q) t (user_mem k).
Definition kernel_tty k (q : list Z) (t : Term) : Prop := dev_ok (fs_dev (k_fs k)) /\
  tty_rel k (tty_of k q t).
(** the entries of a directory that fits the buffer of the shell *)
Definition kernel_listing k (p : Z) (ess : list (list dentry)) : Prop :=
  fs_inv (k_fs k) /\ (length ess <= 8)%nat /\ exists bs, dir_at (k_fs k) p bs ess.
(** the same volume *)
Definition kernel_same k k' : Prop :=
  (forall p m, dir_view (k_fs k) p m -> dir_view (k_fs k') p m) /\
  (forall p nm n, dir_room (k_fs k) p nm n -> dir_room (k_fs k') p nm n) /\
  (forall p ess, kernel_listing k p ess -> kernel_listing k' p ess) /\
  (forall t, volume (k_fs k) t -> volume (k_fs k') t).
Lemma same_mem_only k k' : mem_only (k_fs k) (k_fs k') -> kernel_same k k'.
Proof.
  intros M. split; [intros p m; by apply mem_only_view|]. split; [intros p nm n; by apply mem_only_room|].
  split; [|intros t; by apply mem_only_volume].
  intros p ess (Hi & Hl & bs & Hd). split; [by eapply mem_only_fs_inv|]. split; [done|]. exists bs. by eapply mem_only_dir_at.
Qed.

Lemma kernel_listing_ok k p ess : kernel_listing k p ess -> 0 <= p < 2 ^ 32 /\ (length ess <= 8)%nat /\
  Forall (fun es => len (dir_bytes es) = 512 /\ Forall dentry_ok es) ess.
Proof.
  intros (Hi & Hl & bs & [Hp _ _ _ Hb]). split; [geometry; lia|]. split; [done|]. clear -Hb.
  induction Hb as [|b es bs ess (-> & Hl & He) _ IH]; constructor; [by split|exact IH].
Qed.

Lemma tty_fs k s q t : kernel_tty k q t -> dev_ok (fs_dev s) -> mem_ok (fs_mem s) ->
  kernel_tty (mkKernel s (k_keyboard k) (k_console k)) q t.
Proof. intros [_ []] Hd Hm. split; [done|]. by constructor. Qed.
Lemma tty_mem_ok k q t : kernel_tty k q t -> mem_ok (user_mem k).
Proof. by intros [_ []]. Qed.
Lemma stored_mem_only a bs k q t : kernel_tty k q t -> mem_only (k_fs k) (k_fs (stored a bs k)).
Proof. intros [Hd _]. by apply stored_fs. Qed.
Lemma tty_stored a bs k q t : kernel_tty k q t -> bytes_ok bs -> kernel_tty (stored a bs k) q t.
Proof.
  intros Ht Hb. apply (tty_fs k); [done|by destruct Ht|]. apply mem_store_ok; [by eapply tty_mem_ok|done].
Qed.
Lemma stored_mem a bs k : 0 <= a < 2 ^ 32 -> user_mem (stored a bs k) = mem_store (user_mem k) a bs.
Proof. intros Ha. change (user_mem (stored a bs k)) with (mem_store (user_mem k) (u32 a) bs). by rewrite -> u32_id by lia. Qed.

(** the caller's request is in memory *)
Record request_in k (r : EXT2DriverRequest) (nm data : list Z) : Prop := {
  ri_request : request_at (user_mem k) (a_req F) = r;
  ri_name : request_nm (k_fs k) r = nm;
  ri_data : request_data (k_fs k) r = data;
}.
Definition frame_request (nm data : list Z) (p : Z) (d : bool) : EXT2DriverRequest :=
  mkRequest (a_buf F) (a_name F) (len nm) p (len data) d.

Lemma request_bytes_ok nm data p d : len nm < 256 -> bytes_ok (request_bytes (frame_request nm data p d)).
Proof.
  intros Hn. rw /request_bytes !bytes_ok_app. cbn [name_len is_directory frame_request].
  split; [apply le_bytes_ok|]. split; [apply le_bytes_ok|]. split; [constructor; [lia|done]|].
  split; [apply le_bytes_ok|]. split; [apply le_bytes_ok|]. constructor; [by destruct d|done].
Qed.
Lemma place_spec k nm data p d q t : kernel_tty k q t -> (length nm < 128)%nat -> bytes_ok nm -> content_ok data -> 0 <= p < 2 ^ 32 ->
  wp (place F nm data p d) (fun _ k' => kernel_tty k' q t /\ mem_only (k_fs k) (k_fs k') /\
    request_in k' (frame_request nm data p d) nm data) k.
Proof.
  intros Ht Hn Hnb [Hl Hb] Hp. rw /place. apply wp_bind, wp_store, wp_bind, wp_store, wp_store.
  destruct HF as [A1 A2 A3 _ _ _ _ _ _ _]. have [[N1 N2] [[B1 B2] _]] := A1. have [_ [[R1 R2] _]] := A2.
  set (k1 := stored (a_name F) nm k). set (k2 := stored (a_buf F) data k1). set (k3 := stored _ _ k2).
  have T1 : kernel_tty k1 q t by apply tty_stored. have T2 : kernel_tty k2 q t by apply tty_stored.
  split; [apply tty_stored; [done|apply request_bytes_ok; lia]|].
  split; [do 2 (eapply mem_only_trans; [by eapply stored_mem_only|]); by eapply stored_mem_only|].
  set (r := frame_request nm data p d) in *.
  have Lr : length (request_bytes r) = 18%nat by rw /request_bytes !length_app !le_bytes_length.
  have E3 : user_mem k3 = mem_store (user_mem k2) (a_req F) (request_bytes r) by apply stored_mem; lia.
  have E2 : user_mem k2 = mem_store (user_mem k1) (a_buf F) data by apply stored_mem; lia.
  have E1 : user_mem k1 = mem_store (user_mem k) (a_name F) nm by apply stored_mem; lia.
  constructor.
  - rw E3. apply request_stored; rw /r /frame_request; cbn [buf name name_len parent_inode buffer_size]; lia.
  - change (mem_load (user_mem k3) (a_name F) (Z.to_nat (len nm)) = nm). rw Nat2Z.id E3.
    rewrite -> load_apart by (rw Lr; apply apart_sym; by eapply apart_sub; [apply A2|lia|]). rw E2.
    rewrite -> load_apart by (apply apart_sym; eapply apart_sub; [exact A1|lia|lia]). rw E1.
    apply mem_load_store; [split; lia|done].
  - change (mem_load (user_mem k3) (a_buf F) (Z.to_nat (len data)) = data). rw Nat2Z.id E3.
    rewrite -> load_apart by (rw Lr; apply apart_sym; eapply apart_sub; [exact A3|lia|lia]). rw E2.
    apply mem_load_store; [split; lia|done].
Qed.

(** the system call itself, and the code it leaves *)
Lemma u8_s8 c : -128 <= c < 128 -> s8 (u8 c) = c.
Proof. intros Hc. rw /s8 /u8. change (2 ^ 8) with 256. change (2 ^ 7) with 128. rewrite -> Z.add_mod_idemp_l, Z.mod_small by lia. lia. Qed.
Lemma request_call_spec nr (call : EXT2DriverRequest -> M (FS D) Z) nm data p d (P : Z -> FS D -> Prop) k q t :
  (forall regs, eax (general regs) = nr -> main_interrupt_handler (D := D) 0 regs 0x80 =
    (request ← gets (fun k => request_at (user_mem k) (ebx (general regs)));
     code ← on_fs (call request); store_code (ecx (general regs)) code;; mret regs)) ->
  kernel_tty k q t -> (length nm < 128)%nat -> bytes_ok nm -> content_ok data -> 0 <= p < 2 ^ 32 ->
  (forall k', mem_only (k_fs k) (k_fs k') -> mem_ok (fs_mem (k_fs k')) -> request_in k' (frame_request nm data p d) nm data ->
    wp (call (frame_request nm data p d)) (fun code s' => -128 <= code < 128 /\ dev_ok (fs_dev s') /\ mem_ok (fs_mem s') /\ P code s') (k_fs k')) ->
  wp (request_call F nr nm data p d) (fun code k' => exists s', P code s' /\ mem_only s' (k_fs k') /\
    kernel_tty k' q t /\ user_mem k' = mem_store (fs_mem s') (a_ret F) [u8 code]) k.
Proof.
  intros Eq Ht Hn Hnb Hd Hp Hcall. rw /request_call. apply wp_bind.
  eapply wp_mono; [by apply (place_spec k nm data p d q t)|]. intros [] k1 (T1 & M1 & R1).
  apply wp_bind, wp_bind. rw Eq //. apply code_syscall_spec.
  change (ebx (general (call_regs nr (a_req F) (a_ret F) 0))) with (a_req F).
  change (ecx (general (call_regs nr (a_req F) (a_ret F) 0))) with (a_ret F). rw (ri_request _ _ _ _ R1).
  eapply wp_mono; [apply Hcall; [done|by eapply tty_mem_ok|done]|]. intros code s' (Hc & Hdev & Hm & HP).
  apply wp_ret, wp_gets. set (k2 := mkKernel s' _ _). have T2 : kernel_tty k2 q t by apply tty_fs.
  have Hr : 0 <= a_ret F < 2 ^ 32 by destruct HF as [_ _ _ ([] & _) _ _ _ _ _ _]; lia.
  have Em : user_mem (stored (a_ret F) [u8 code] k2) = mem_store (fs_mem s') (a_ret F) [u8 code] by apply stored_mem.
  rw Em byte_stored // u8_s8 //. exists s'. split; [done|]. split; [by eapply (stored_mem_only _ _ k2)|].
  split; [|done]. apply tty_stored; [done|]. constructor; [apply u8_range|done].
Qed.

Lemma view_dev s p m : dir_view s p m -> dev_ok (fs_dev s) /\ 0 <= p < 2 ^ 32.
Proof.
  intros (bs & ess & [Hi Hdl _ _ _]). split; [exact (inv_dev _ (inv_core _ Hi))|].
  have Hp := da_num _ _ _ _ (proj1 Hdl). geometry. lia.
Qed.
Lemma frame_file_request k nm data p : mem_ok (fs_mem (k_fs k)) -> (length nm < 128)%nat -> content_ok data ->
  file_request (k_fs k) (frame_request nm data p false).
Proof.
  intros Hm Hn [Hl _]. destruct HF as [([_ _] & [B1 B2] & _) _ _ _ _ _ _ _ _ _]. split; [done|].
  cbn [buf buffer_size name_len frame_request]. repeat (split; [lia|]). exact Hm.
Qed.
Lemma kernel_write k p m nm c q t : dir_view (k_fs k) p m -> m nm = Absent -> dir_room (k_fs k) p nm (len c) -> name_ok nm ->
  content_ok c -> kernel_tty k q t ->
  wp (os_write nm p c false) (fun r k' => r = 0 /\ dir_view (k_fs k') p (put_slot nm (File c) m) /\ kernel_tty k' q t) k.
Proof.
  intros Hv Hm Hroom (Hne & Hn & Hb) Hc Ht. destruct (view_dev _ _ _ Hv) as [Hdev Hp].
  eapply wp_mono; [apply (request_call_spec SYSCALL_WRITE write nm c p false
    (fun code s' => code = 0 /\ dir_view s' p (put_slot nm (File c) m)) k q t); try done; [by intros; apply write_syscall_eq|]|].
  - intros k1 M1 Hm1 [_ En Ed]. set (r := frame_request nm c p false) in *.
    eapply wp_mono; [apply (write_new_view (k_fs k1) r p m); try done|].
    + by eapply mem_only_view.
    + by apply frame_file_request.
    + by rw En.
    + rw En. by eapply mem_only_room.
    + destruct Hc as [Hl _]. change (max_file_size) with 71680. cbn [buffer_size r frame_request]. lia.
    + intros code s' (-> & Em & Hv'). rw En Ed in Hv'. split; [lia|]. split; [by eapply view_dev|]. by rw Em.
  - intros code k' (s' & [-> Hv'] & M & T & _). split; [done|]. split; [by eapply mem_only_view|done].
Qed.

(** a call that leaves the volume alone *)
Lemma kernel_write_exists k p m nm c q t : dir_view (k_fs k) p m -> m nm <> Absent -> name_ok nm -> content_ok c -> kernel_tty k q t ->
  wp (os_write nm p c false) (fun r k' => r = 1 /\ kernel_same k k' /\ kernel_tty k' q t) k.
Proof.
  intros Hv Hm (Hne & Hn & Hb) Hc Ht. destruct (view_dev _ _ _ Hv) as [Hdev Hp].
  eapply wp_mono; [apply (request_call_spec SYSCALL_WRITE write nm c p false
    (fun code s' => code = 1 /\ mem_only (k_fs k) s') k q t); try done; [by intros; apply write_syscall_eq|]|].
  - intros k1 M1 Hm1 [_ En Ed].
    eapply wp_mono; [apply (write_exists_view (k_fs k1) _ p m); [by eapply mem_only_view|done|by rw En]|].
    intros code s' (-> & Hf). have M2 := feq_mem_only _ _ Hf. split; [lia|]. split; [apply M2|].
    split; [by destruct Hf as [[_ _ -> _] _]|]. split; [done|by eapply mem_only_trans].
  - intros code k' (s' & [-> M'] & M & T & _). split; [done|]. split; [|done]. apply same_mem_only. by eapply mem_only_trans.
Qed.

Lemma delete_syscall_eq regs : eax (general regs) = SYSCALL_DELETE ->
  main_interrupt_handler (D := D) 0 regs 0x80 =
    (request ← gets (fun k => request_at (user_mem k) (ebx (general regs)));
     code ← on_fs (delete request); store_code (ecx (general regs)) code;; mret regs).
Proof. intros E. change (main_interrupt_handler 0 regs 128) with (syscall_handler (D := D) regs). by rw /syscall_handler E. Qed.
Lemma read_dir_syscall_eq regs : eax (general regs) = SYSCALL_READ_DIR ->
  main_interrupt_handler (D := D) 0 regs 0x80 =
    (request ← gets (fun k => request_at (user_mem k) (ebx (general regs)));
     code ← on_fs (read_directory request); store_code (ecx (general regs)) code;; mret regs).
Proof. intros E. change (main_interrupt_handler 0 regs 128) with (syscall_handler (D := D) regs). by rw /syscall_handler E. Qed.
Lemma kernel_delete k p m nm c q t : dir_view (k_fs k) p m -> m nm = File c -> name_ok nm -> kernel_tty k q t ->
  wp (os_delete nm p false) (fun r k' => r = 0 /\ dir_view (k_fs k') p (put_slot nm Absent m) /\ kernel_tty k' q t /\
    forall nm' n, dir_room (k_fs k) p nm' n -> dir_room (k_fs k') p nm' n) k.
Proof.
  intros Hv Hm (Hne & Hn & Hb) Ht. destruct (view_dev _ _ _ Hv) as [Hdev Hp].
  have Hnn : a_name F <> 0 by destruct HF as [_ _ _ _ _ _ _ _ _ []].
  eapply wp_mono; [apply (request_call_spec SYSCALL_DELETE delete nm [] p false
    (fun code s' => code = 0 /\ dir_view s' p (put_slot nm Absent m) /\
       forall nm' n, dir_room (k_fs k) p nm' n -> dir_room s' p nm' n) k q t); try done; [by intros; apply delete_syscall_eq|split; [cbn; lia|constructor]|]|].
  - intros k1 M1 Hm1 [_ En Ed]. set (r := frame_request nm [] p false) in *.
    eapply wp_mono; [apply (delete_file_view (k_fs k1) r p m c); try done|].
    + by eapply mem_only_view.
    + cbn [name_len r frame_request]. destruct nm; [done|]. cbn [length]. lia.
    + by rw En.
    + intros code s' (-> & Em & Hv' & Hr'). rw En in Hv'. split; [lia|]. split; [by eapply view_dev|]. split; [by rw Em|].
      split; [done|]. split; [done|]. intros nm' n Hr. apply Hr'. by eapply mem_only_room.
  - intros code k' (s' & (-> & Hv' & Hr') & M & T & _). split; [done|]. split; [by eapply mem_only_view|]. split; [done|].
    intros nm' n Hr. eapply mem_only_room; [done|]. by apply Hr'.
Qed.

Lemma kernel_read k p m nm c buf q t : dir_view (k_fs k) p m -> m nm = File c -> name_ok nm -> kernel_tty k q t ->
  content_ok c -> content_ok buf -> length buf = length c ->
  wp (os_read nm p buf) (fun r k' => r = (0, c) /\ kernel_same k k' /\ kernel_tty k' q t) k.
Proof.
  intros Hv Hm (Hne & Hn & Hb) Ht Hc Hbuf Hlen. destruct (view_dev _ _ _ Hv) as [Hdev Hp]. destruct (Hc) as [Hl Hcb].
  destruct (HF) as [([_ _] & [B1 B2] & _) _ _ A4 _ _ _ _ _ _].
  apply wp_bind. eapply wp_mono; [apply (request_call_spec SYSCALL_READ read nm buf p false
    (fun code s' => code = 0 /\ mem_only (k_fs k) s' /\ mem_load (fs_mem s') (a_buf F) (length buf) = c) k q t); try done; [by intros; apply read_syscall_eq|]|].
  - intros k1 M1 Hm1 [_ En Ed].
    eapply wp_mono; [apply (read_file_view (k_fs k1) (frame_request nm buf p false) p m c); [by eapply mem_only_view|done|by rw En|..]|].
    + cbn [Ext2Layout.buf frame_request]. lia.
    + cbn [buffer_size frame_request]. lia.
    + cbn [Ext2Layout.buf buffer_size frame_request]. lia.
    + intros code s' (-> & M2 & E). cbn [Ext2Layout.buf buffer_size frame_request] in E.
      rewrite -> Nat2Z.id, take_ge in E by lia. have M12 := mem_only_trans _ _ _ M1 M2.
      split; [lia|]. split; [apply M2|]. split; [|split; [done|split; [exact M12|]]].
      * intros a Ha. rewrite -> (E a Ha). by apply mem_store_ok.
      * rewrite -> (mem_load_eq _ _ _ _ E). apply mem_load_store; [split; lia|lia].
  - intros code k' (s' & (-> & M' & El) & M & T & Em). apply wp_bind, wp_gets, wp_ret.
    rw Em load_apart; [eapply apart_sub; [exact A4|done|lia]|]. rw El. split; [done|]. split; [|done].
    apply same_mem_only. by eapply mem_only_trans.
Qed.

(** a directory into the whole of the buffer *)
Lemma kernel_read_dir k p ess b q t : kernel_listing k p ess -> length b = Z.to_nat 4096 -> bytes_ok b -> kernel_tty k q t ->
  wp (os_read_dir p b) (fun r k' => r = (0, (dir_bytes (concat ess) ++ drop (512 * length ess)%nat b)%list) /\
    kernel_same k k' /\ kernel_tty k' q t) k.
Proof.
  intros (Hi & Hl8 & bs & Hda) Lb Hb Ht. have [Hp _ _ _ Hblocks] := Hda. have Lbs := Forall2_length _ _ _ Hblocks.
  destruct (HF) as [([_ _] & [B1 B2] & _) _ _ A4 _ _ _ _ _ _].
  set (es := dir_bytes (concat ess)). have Les : length es = (512 * length ess)%nat.
  { apply Nat2Z.inj. rw /es -(data_of_dir _ _ _ Hblocks). destruct Hda as [_ _ (_ & _ & Hr) _ _].
    rw data_of_length //; [exact (inv_dev _ (inv_core _ Hi))|lia]. }
  apply wp_bind. eapply wp_mono; [apply (request_call_spec SYSCALL_READ_DIR read_directory [] b p true
    (fun code s' => code = 0 /\ mem_only (k_fs k) s' /\ mem_load (fs_mem s') (a_buf F) (length b) = es ++ drop (length es) b) k q t);
    try done; [by intros; apply read_dir_syscall_eq|cbn; lia|by apply Forall_nil|split; [lia|done]|geometry; lia|]|].
  - intros k1 M1 Hm1 [_ En Ed]. have M1' := M1.
    eapply wp_mono; [apply (read_directory_spec (k_fs k1) (frame_request [] b p true) p bs ess); [by eapply mem_only_fs_inv|by eapply mem_only_dir_at|done|..];
      cbn [buffer_size Ext2Layout.buf frame_request]; lia|].
    intros code s' (-> & M2 & E). cbn [Ext2Layout.buf frame_request] in E. have M12 := mem_only_trans _ _ _ M1 M2.
    split; [lia|]. split; [apply M2|]. split; [|split; [done|split; [exact M12|]]].
    + intros a Ha. rewrite -> (E a Ha). apply mem_store_ok; [done| |done]. apply dir_bytes_ok.
      destruct Hda as [_ _ _ _ Hbl]. clear -Hbl. induction Hbl as [|x y bs ess (_ & _ & Hy) _ IH]; [by apply Forall_nil|].
      cbn [concat]. by apply Forall_app.
    + rewrite -> (mem_load_eq _ _ _ _ E). change (request_data (k_fs k1) (frame_request [] b p true)) with
        (mem_load (fs_mem (k_fs k1)) (a_buf F) (Z.to_nat (len b))) in Ed. rw Nat2Z.id in Ed.
      fold es. rewrite -> load_prefix by lia. by rw Ed.
  - intros code k' (s' & (-> & M' & El) & M & T & Em). apply wp_bind, wp_gets, wp_ret.
    rw Em load_apart; [eapply apart_sub; [exact A4|done|lia]|]. rw El Les. split; [done|]. split; [|done].
    apply same_mem_only. by eapply mem_only_trans.
Qed.

(** a stat request, with its answers cleared *)
Definition stat_bytes (nm : list Z) (p : Z) : list Z := le_bytes 4 (a_name F) ++ [len nm] ++ le_bytes 4 p.
Lemma stat_place_spec k nm p q t (k4 := stored (a_dir F) [0] (stored (a_size F) (le_bytes 4 0)
    (stored (a_req F) (stat_bytes nm p) (stored (a_name F) nm k)))) :
  kernel_tty k q t -> (length nm < 128)%nat -> bytes_ok nm -> 0 <= p < 2 ^ 32 ->
  kernel_tty k4 q t /\ mem_only (k_fs k) (k_fs k4) /\
  mem_load (user_mem k4) (a_name F) (Z.to_nat (len nm)) = nm /\
  mem_field (user_mem k4) (a_req F) 4 = a_name F /\ mem_field (user_mem k4) (a_req F + 4) 1 = len nm /\
  mem_field (user_mem k4) (a_req F + 5) 4 = p.
Proof.
  intros Ht Hn Hb Hp. destruct (HF) as [_ A2 _ _ A5 A6 A7 A8 _ _]. have [[N1 N2] [[R1 R2] _]] := A2.
  have [[S1 S2] _] := A5. have [[D1 D2] _] := A7.
  set (k1 := stored (a_name F) nm k) in k4. set (k2 := stored (a_req F) _ k1) in k4. set (k3 := stored (a_size F) _ k2) in k4.
  have Hsb : bytes_ok (stat_bytes nm p).
  { rw /stat_bytes !bytes_ok_app. split; [apply le_bytes_ok|]. split; [constructor; [lia|done]|apply le_bytes_ok]. }
  have T1 : kernel_tty k1 q t by apply tty_stored. have T2 : kernel_tty k2 q t by apply tty_stored.
  have T3 : kernel_tty k3 q t by apply tty_stored; [|apply le_bytes_ok].
  have T4 : kernel_tty k4 q t by apply tty_stored; [|by repeat constructor].
  split; [done|]. split.
  { eapply mem_only_trans; [by eapply (stored_mem_only _ _ k)|]. eapply mem_only_trans; [by eapply (stored_mem_only _ _ k1)|].
    eapply mem_only_trans; [by eapply (stored_mem_only _ _ k2)|]. by eapply (stored_mem_only _ _ k3). }
  have Lsb : length (stat_bytes nm p) = 9%nat by rw /stat_bytes !length_app !le_bytes_length.
  have Lz : length (le_bytes 4 0) = 4%nat by apply le_bytes_length.
  have E : user_mem k4 = mem_store (mem_store (user_mem k2) (a_size F) (le_bytes 4 0)) (a_dir F) [0].
  { rw /k4 stored_mem; [lia|]. rw /k3 stored_mem //. lia. }
  have E2 : user_mem k2 = mem_store (user_mem k1) (a_req F) (stat_bytes nm p) by apply stored_mem; lia.
  have E1 : user_mem k1 = mem_store (user_mem k) (a_name F) nm by apply stored_mem; lia.
  split.
  { rw E Nat2Z.id. rewrite -> load_apart by (eapply apart_sub; [exact A7|done|lia]).
    rewrite -> load_apart by (rw Lz; eapply apart_sub; [exact A5|done|lia]). rw E2.
    rewrite -> load_apart by (rw Lsb; apply apart_sym; eapply apart_sub; [exact A2|lia|lia]). rw E1.
    apply mem_load_store; [split; lia|done]. }
  have G off sz : 0 <= off -> off + Z.of_nat sz <= 18 -> mem_field (user_mem k4) (a_req F + off) sz = mem_field (user_mem k2) (a_req F + off) sz.
  { intros Ho Hs. rw E. rewrite -> (field_apart _ _ _ _ 18) by (done || lia). apply (field_apart _ _ _ _ 18); [by rw Lz|done|done]. }
  have LN : length (le_bytes 4 (a_name F)) = 4%nat by apply le_bytes_length.
  have LP : length (le_bytes 4 p) = 4%nat by apply le_bytes_length.
  have G0 := G 0 4%nat. rw !Z.add_0_r in G0. rewrite -> G0, (G 4 1%nat), (G 5 4%nat) by lia. rw E2.
  have F1 := field_inside (user_mem k1) (a_req F) [] (le_bytes 4 (a_name F)) ([len nm] ++ le_bytes 4 p) (a_name F).
  have F2 := field_inside (user_mem k1) (a_req F) (le_bytes 4 (a_name F)) [len nm] (le_bytes 4 p) (len nm).
  have F3 := field_inside (user_mem k1) (a_req F) (le_bytes 4 (a_name F) ++ [len nm]) (le_bytes 4 p) [] p.
  rw app_nil_r -app_assoc -/(stat_bytes nm p) in F3. cbn [app] in F1, F2. rw -/(stat_bytes nm p) in F1, F2.
  rw Lsb in F1, F2, F3. rw Z.add_0_r LN in F1. rw LN in F2. rw length_app LN LP in F3. cbn [length Nat.add] in F1, F2, F3.
  split; [apply F1; [done|lia|apply le_val_bytes_id; change (256 ^ Z.of_nat 4) with (2 ^ 32); lia]|].
  split; [apply F2; [done|lia|cbn; lia]|apply F3; [done|lia|apply le_val_bytes_id; change (256 ^ Z.of_nat 4) with (2 ^ 32); lia]].
Qed.

(** the answer of the handler, with the outputs when they are stored *)
Lemma stat_answer_spec k (ans : Z * option (Z * bool)) q t :
  wp (stat (mem_field (user_mem k) (a_req F) 4) (mem_field (user_mem k) (a_req F + 4) 1) (mem_field (user_mem k) (a_req F + 5) 4))
    (fun r s' => r = ans /\ feq (k_fs k) s') (k_fs k) ->
  kernel_tty k q t -> match ans with (code, Some (size, d)) => code = 0 /\ 0 <= size < 2 ^ 32 | (code, None) => code = 1 end ->
  wp (code ← syscall SYSCALL_STAT (a_req F) (a_size F) (a_dir F);
      m ← gets user_mem;
      mret (code, if code =? 0 then Some (mem_field m (a_size F) 4, negb (m (a_dir F) =? 0)) else None))
    (fun r k' => r = ans /\ mem_only (k_fs k) (k_fs k') /\ kernel_tty k' q t) k.
Proof.
  intros Hstat Ht Ha. destruct (HF) as [_ _ _ _ [[S1 S2] _] _ [[D1 D2] _] _ A9 (_ & NS & ND)].
  apply wp_bind, wp_bind. rw stat_syscall_eq //. cbn [call_regs general ebx ecx edx].
  apply wp_bind, wp_gets, wp_bind, wp_on_fs. eapply wp_mono; [exact Hstat|]. intros r s' [-> Hf].
  have M1 := feq_mem_only _ _ Hf. set (k1 := mkKernel s' _ _).
  have T1 : kernel_tty k1 q t by apply tty_fs; [done|apply M1|destruct Hf as [[_ _ -> _] _]; by eapply tty_mem_ok].
  destruct ans as [code [[size d]|]].
  - destruct Ha as [-> Hs]. rw (proj2 (Z.eqb_neq _ _) NS) (proj2 (Z.eqb_neq _ _) ND).
    apply wp_bind, wp_bind, wp_store, wp_store, wp_ret, wp_ret, wp_bind, wp_gets, wp_ret. fold k1.
    set (k2 := stored (a_size F) (le_bytes 4 size) k1). set (k3 := stored (a_dir F) _ k2).
    have Lz : length (le_bytes 4 size) = 4%nat by apply le_bytes_length.
    have E3 : user_mem k3 = mem_store (mem_store (user_mem k1) (a_size F) (le_bytes 4 size)) (a_dir F) [if d then 1 else 0].
    { rw /k3 stored_mem; [lia|]. rw /k2 stored_mem //. lia. }
    have T2 : kernel_tty k2 q t by apply tty_stored; [|apply le_bytes_ok].
    split; [|split].
    + change (eax (general (set_eax (u32 0) (call_regs SYSCALL_STAT (a_req F) (a_size F) (a_dir F))))) with 0. cbn [Z.eqb].
      rw E3 byte_stored; [lia|]. rw /mem_field load_apart //. rw mem_load_store //.
      rewrite -> le_val_bytes_id by (change (256 ^ Z.of_nat 4) with (2 ^ 32); lia). by destruct d.
    + eapply mem_only_trans; [exact M1|]. eapply mem_only_trans; [by eapply (stored_mem_only _ _ k1)|by eapply (stored_mem_only _ _ k2)].
    + apply tty_stored; [done|]. constructor; [by destruct d|done].
  - rw Ha. apply wp_bind, wp_ret, wp_ret, wp_bind, wp_gets, wp_ret. by split.
Qed.

Lemma kernel_stat k p m nm q t : dir_view (k_fs k) p m -> m nm <> Other -> name_ok nm -> kernel_tty k q t ->
  (forall c, m nm = File c -> content_ok c) ->
  wp (os_stat nm p) (fun r k' => r = match m nm with File c => (0, Some (len c, false)) | _ => (1, None) end /\
    kernel_same k k' /\ kernel_tty k' q t) k.
Proof.
  intros Hv Hm (Hne & Hn & Hb) Ht Hc. destruct (view_dev _ _ _ Hv) as [Hdev Hp].
  destruct (stat_place_spec k nm p q t Ht Hn Hb Hp) as (T4 & M4 & En & F1 & F2 & F3).
  apply wp_bind, wp_store, wp_bind, wp_store, wp_bind, wp_store, wp_bind, wp_store. set (k4 := stored _ _ _) in *.
  destruct (mem_only_view _ _ _ _ M4 Hv) as (bs & ess & [Hi Hdl _ Hslot _]). have Hs := Hslot nm.
  have Hnn : a_name F <> 0 by destruct HF as [_ _ _ _ _ _ _ _ _ []].
  have Hln : len nm <> 0 by destruct nm; cbn; [done|lia].
  set (ans := match m nm with File c => (0, Some (len c, false)) | _ => (1, None) end).
  eapply wp_mono; [apply (stat_answer_spec k4 ans q t); [|done|]|].
  - rw F1 F2 F3. rw /ans. destruct (m nm) as [|c|]; [| |done].
    + apply (stat_missing_spec _ _ _ p bs ess); try done; [apply Hdl|by rw En].
    + destruct Hs as [(ds & ids & Hfa) _].
      apply (stat_spec _ _ _ p bs ess (dir_lookup (concat ess) nm) ds ids (len c) c); try done; [apply Hdl|by rw En].
  - rw /ans. destruct (m nm) as [|c|] eqn:Em; [done| |done]. split; [done|]. destruct (Hc c eq_refl). lia.
  - intros r k' (-> & M & T). split; [done|]. split; [|done]. apply same_mem_only. by eapply mem_only_trans.
Qed.

(** the calls of the terminal *)
Lemma tty_call_law k a b c d x t' : dev_ok (fs_dev (k_fs k)) -> tty_rel k x -> file_call (general (call_regs a b c d)) = false ->
  tty_call (general (call_regs a b c d)) x = t' ->
  wp (syscall a b c d) (fun _ k' => kernel_same k k' /\ dev_ok (fs_dev (k_fs k')) /\ tty_rel k' t') k.
Proof.
  intros Hd Hr Hf Et. apply wp_bind.
  change (wp (syscall_handler (D := D) (call_regs a b c d)) (fun regs k' => wp (mret (eax (general regs))) (fun _ k'0 =>
    kernel_same k k'0 /\ dev_ok (fs_dev (k_fs k'0)) /\ tty_rel k'0 t') k') k).
  eapply wp_mono; [by apply tty_call_spec|]. intros regs k' [Hr' Ef]. apply wp_ret. rw Et in Hr'.
  split; [apply same_mem_only; rw Ef; by apply set_mem_mem_only|]. by rw Ef.
Qed.
Lemma tty_rel_of k q t m : tty_rel k (mkTty (mkKeys true false q) t m) -> tty_rel k (tty_of k q t).
Proof. intros Hr. by rw /tty_of (tr_mem _ _ Hr). Qed.

Lemma kernel_getchar k q t : kernel_tty k q t ->
  wp os_getchar (fun c k' => c = hd 0 q /\ kernel_same k k' /\ kernel_tty k' (tl q) t) k.
Proof.
  intros Ht. destruct (Ht) as [Hd Hr]. have Hret : 0 <= a_ret F < 2 ^ 32.
  { destruct HF as [_ _ _ ([] & _) _ _ _ _ _ _]. lia. }
  apply wp_bind, wp_bind.
  change (wp (syscall_handler (D := D) (call_regs SYSCALL_GETCHAR (a_ret F) 0 0)) (fun regs k' => wp (mret (eax (general regs))) (fun _ k'0 =>
    wp (gets (fun k => user_mem k (a_ret F))) (fun c k'1 => c = hd 0 q /\ kernel_same k k'1 /\ kernel_tty k'1 (tl q) t) k'0) k') k).
  eapply wp_mono; [by apply (tty_call_spec _ _ (tty_of k q t))|]. intros regs k' [Hr' Ef]. apply wp_ret, wp_gets.
  have Em : user_mem k' = mem_store (user_mem k) (a_ret F) [hd 0 q].
  { rw (tr_mem _ _ Hr'). change (tty_mem _) with (mem_store (user_mem k) (u32 (a_ret F)) [hd 0 q]). by rewrite -> u32_id by lia. }
  rw Em byte_stored //. split; [done|]. split; [apply same_mem_only; rw Ef; by apply set_mem_mem_only|].
  split; [by rw Ef|]. exact (tty_rel_of _ _ _ _ Hr').
Qed.
Lemma kernel_putchar k q t c color : kernel_tty k q t -> 0 <= c < 256 -> 0 <= color < 256 ->
  wp (os_putchar c color) (fun _ k' => kernel_same k k' /\ kernel_tty k' q (t_one color c t)) k.
Proof.
  intros Ht Hc Hcol. apply wp_bind.
  eapply wp_mono; [apply (tty_call_law k _ _ _ _ (tty_of k q t) (tty_of k q (t_one color c t))); [apply Ht|apply Ht|done|]|].
  { change (tty_of k q (t_one (u8 color) (u8 c) t) = tty_of k q (t_one color c t)). by rewrite -> !u8_id by lia. }
  intros r k' (Hs & Hd & Hr). apply wp_ret. split; [done|]. split; [done|]. exact (tty_rel_of _ _ _ _ Hr).
Qed.
Lemma kernel_puts k q t str color : kernel_tty k q t -> content_ok str -> 0 <= color < 256 ->
  wp (os_puts str color) (fun _ k' => kernel_same k k' /\ kernel_tty k' q (t_puts str color t)) k.
Proof.
  intros Ht [Hl Hb] Hcol. apply wp_bind, wp_store, wp_bind. set (k1 := stored _ _ _).
  destruct (HF) as [(_ & [B1 B2] & _) _ _ _ _ _ _ _ _ _].
  have T1 : kernel_tty k1 q t by apply tty_stored.
  have E1 : user_mem k1 = mem_store (user_mem k) (a_buf F) str by apply stored_mem; lia.
  eapply wp_mono; [apply (tty_call_law k1 _ _ _ _ (tty_of k1 q t) (tty_of k1 q (t_puts str color t))); [apply T1|apply T1|done|]|].
  { change (tty_of k1 q (t_puts (mem_load (user_mem k1) (a_buf F) (Z.to_nat (len str))) (u8 color) t) =
      tty_of k1 q (t_puts str color t)). rewrite -> u8_id, Nat2Z.id, E1 by lia. rewrite -> mem_load_store; [done|split; lia|done]. }
  intros r k' ((Hs1 & Hs2 & Hs3 & Hs4) & Hd & Hr). apply wp_ret. have Hk1 : kernel_same k k1.
  { apply same_mem_only. by eapply stored_mem_only. }
  destruct Hk1 as (S1 & S2 & S3 & S4).
  split; [split; [auto|split; [auto|split; auto]]|]. split; [done|]. exact (tty_rel_of _ _ _ _ Hr).
Qed.

(** the first call of the shell *)
Lemma kernel_activate k on q t : dev_ok (fs_dev (k_fs k)) -> tty_rel k (mkTty (mkKeys on false q) t (user_mem k)) ->
  wp os_activate_kbd (fun _ k' => kernel_same k k' /\ kernel_tty k' q t) k.
Proof.
  intros Hd Hr. apply wp_bind. eapply wp_mono; [by apply (tty_call_law k _ _ _ _ (mkTty (mkKeys on false q) t (user_mem k)) (tty_of k q t))|].
  intros r k' (Hs & Hd' & Hr'). apply wp_ret. split; [done|]. split; [done|]. exact (tty_rel_of _ _ _ _ Hr').
Qed.

(** the calls on the whole volume; what is left in memory and of the registers' code *)
Lemma tree_code_ok call code t t' p nm data dir n : tree_call call t p nm data dir n 0 = (code, None, t') -> -128 <= code < 128.
Proof. intros E. have := tree_call_code _ _ _ _ _ _ _ _ _ _ _ E. lia. Qed.
Lemma mem_eq_ok m m' : mem_eq m' m -> mem_ok m -> mem_ok m'.
Proof. intros E Hm a Ha. rewrite -> (E a Ha). by apply Hm. Qed.
Lemma volume_dev s t : volume s t -> dev_ok (fs_dev s).
Proof. intros Hv. exact (inv_dev _ (inv_core _ (vo_inv _ _ Hv))). Qed.
(** a directory or a file of [n] bytes has room *)
Definition kernel_place k (p : Z) (nm : list Z) (dir : bool) (n : Z) : Prop :=
  room (k_fs k) p nm (blocks_asked (mkRequest 0 0 0 0 n dir)).
Lemma folder_number k t p m : volume (k_fs k) t -> t !! p = Some (Folder m) -> 0 <= p < 2 ^ 32.
Proof. intros Hv Hp. have := inode_in_num _ _ (proj1 (vo_node _ _ Hv p _ Hp)). geometry. lia. Qed.

Lemma kernel_tree_write k t p m nm c dir q x : volume (k_fs k) t -> t !! p = Some (Folder m) -> name_ok nm -> content_ok c ->
  (m !! nm = None -> kernel_place k p nm dir (len c)) -> kernel_tty k q x ->
  wp (os_write nm p c dir) (fun r k' => kernel_tty k' q x /\ exists n t', volume (k_fs k') t' /\
    tree_call CallWrite t p nm c dir n 0 = (r, None, t') /\ (m !! nm = None -> t !! n = None)) k.
Proof.
  intros Hv Hp (Hne & Hn & Hb) Hc Hroom Ht. have Hpn := folder_number _ _ _ _ Hv Hp. destruct (Hc) as [Hl Hcb].
  destruct (HF) as [([_ _] & [B1 B2] & _) _ _ _ _ _ _ _ _ (Hnn & _)].
  eapply wp_mono; [apply (request_call_spec SYSCALL_WRITE write nm c p dir
    (fun code s' => exists n t', volume s' t' /\ tree_call CallWrite t p nm c dir n 0 = (code, None, t') /\ (m !! nm = None -> t !! n = None)) k q x);
    try done; [by intros; apply write_syscall_eq|]|].
  - intros k1 M1 Hm1 [_ En Ed]. have Hv1 := mem_only_volume _ _ _ M1 Hv. set (r := frame_request nm c p dir) in *.
    eapply wp_mono; [apply (write_on_tree (k_fs k1) r t m Hv1); [done|done| |done| |]|].
    + cbn [name_len r frame_request]. destruct nm; [done|]. cbn [length] in *. lia.
    + intros Edir. split; [|change (len c <= 71680); lia].
      split; [exact Edir|]. cbn. split; [lia|]. split; [lia|]. split; [lia|]. split; [lia|]. split; [lia|done].
    + rw En. intros Hno. eapply mem_only_place; [exact M1|]. exact (Hroom Hno).
    + rw En Ed. intros code s' (n & t' & E & Hv' & Hf & Em). split; [by eapply tree_code_ok|]. split; [by eapply volume_dev|].
      split; [by eapply mem_eq_ok|]. by exists n, t'.
  - intros code k' (s' & (n & t' & Hv' & E & Hf) & M & T & _). split; [done|]. exists n, t'. split; [by eapply mem_only_volume|done].
Qed.
Lemma kernel_tree_delete k t p m nm dir q x : volume (k_fs k) t -> t !! p = Some (Folder m) -> name_ok nm ->
  (dir = true -> dots nm = false) -> kernel_tty k q x ->
  wp (os_delete nm p dir) (fun r k' => kernel_tty k' q x /\ exists t', volume (k_fs k') t' /\
    tree_call CallDelete t p nm [] dir 0 0 = (r, None, t')) k.
Proof.
  intros Hv Hp (Hne & Hn & Hb) Hd Ht. have Hpn := folder_number _ _ _ _ Hv Hp.
  destruct (HF) as [_ _ _ _ _ _ _ _ _ (Hnn & _)].
  eapply wp_mono; [apply (request_call_spec SYSCALL_DELETE delete nm [] p dir
    (fun code s' => exists t', volume s' t' /\ tree_call CallDelete t p nm [] dir 0 0 = (code, None, t')) k q x);
    try done; [by intros; apply delete_syscall_eq|split; [cbn; lia|constructor]|]|].
  - intros k1 M1 Hm1 [_ En Ed]. have Hv1 := mem_only_volume _ _ _ M1 Hv. set (r := frame_request nm [] p dir) in *.
    eapply wp_mono; [apply (delete_on_tree (k_fs k1) r t m Hv1); [done|done| |by rw En]|].
    + cbn [name_len r frame_request]. destruct nm; [done|]. cbn [length]. lia.
    + rw En. intros code s' (t' & E & Hv' & Em). split; [by eapply tree_code_ok|]. split; [by eapply volume_dev|].
      split; [by eapply mem_eq_ok|]. by exists t'.
  - intros code k' (s' & (t' & Hv' & E) & M & T & _). split; [done|]. exists t'. split; [by eapply mem_only_volume|done].
Qed.

(** the kernel keeps the laws *)
#[local] Instance kernel_laws : OsLaws (Kernel D) := {
  os_dir k p m := dir_view (k_fs k) p m;
  os_listing := kernel_listing;
  os_room k p nm n := dir_room (k_fs k) p nm n;
  os_tty := kernel_tty;
  os_tree k t := volume (k_fs k) t;
  os_place := kernel_place;
  law_tree_ok k t := vo_tree (k_fs k) t;
  law_tree_dir k t p m := volume_view (k_fs k) t p m;
  law_tree_write := kernel_tree_write;
  law_tree_delete := kernel_tree_delete;
  law_stat := kernel_stat;
  law_read := kernel_read;
  law_write := kernel_write;
  law_write_exists := kernel_write_exists;
  law_delete := kernel_delete;
  law_listing := kernel_listing_ok;
  law_read_dir := kernel_read_dir;
  law_getchar := kernel_getchar;
  law_putchar := kernel_putchar;
  law_puts := kernel_puts;
}.

(** ** Properties *)
(** C14: what [echo] writes, [cat] shows.  [echo text file] with a name that is free
    followed by [cat file], through the system calls, the file system and the console:
    the file holds the text and a newline, every other name stands for what it
    stood for, and the screen shows the message of [echo] and then the file without its
    carriage returns. *)
Theorem echo_then_cat s q t m txt name : ready s q t m -> string_ok txt -> cstr txt <> [] -> len (cstr txt) < 32768 ->
  name_str name -> m (cstr name) = Absent ->
  dir_room (k_fs (sh_os s)) (current_dir_inode s) (cstr name) (len (cstr txt) + 1) ->
  wp (cmd_echo txt name;; cmd_cat name) (fun _ s' =>
    ready s' q (shown (cstr txt ++ [10]) (says (echo_says name) t)) (put_slot (cstr name) (File (cstr txt ++ [10])) m)) s.
Proof.
  intros Hr Hs Hne Hl Hn Hm Hroom. eapply wp_then; [by apply (cmd_echo_spec s q t m)|]. intros [] s1 [Hr1 _].
  eapply wp_mono; [apply (cmd_cat_spec s1 q _ _ name (cstr txt ++ [10]) Hr1 Hn)|].
  - by rw /put_slot bool_decide_true.
  - split; [rw length_app /=; lia|]. apply bytes_ok_app. split; [by apply string_ok_cstr|by repeat constructor].
  - apply last_snoc.
  - by intros [] s2 [Hr2 _].
Qed.

(** C24: [cp] copies.  With a source that is a regular file of at most 32768 bytes and a
    target that is a regular file or free, afterwards the target holds the content of the
    source and every other name stands for what it stood for, whether the target existed
    or not and even when it is the source. *)
Theorem cp_copies s q t m src dst c : ready s q t m -> name_str src -> name_str dst ->
  m (cstr src) = File c -> m (cstr dst) <> Other -> content_ok c ->
  dir_room (k_fs (sh_os s)) (current_dir_inode s) (cstr dst) (len c) ->
  wp (cmd_cp src dst) (fun _ s' => exists m', ready s' q (says (cp_says src dst) t) m' /\
    forall nm, m' nm = put_slot (cstr dst) (File c) m nm) s.
Proof.
  intros Hr Hs Hd Hm Hmd Hc Hroom. eapply wp_mono; [by apply (cmd_cp_spec s q t m src dst c)|].
  intros [] s' (m' & Hr' & _ & E). by exists m'.
Qed.

(** C25: [mv] renames, and loses a file that is moved onto itself.  Afterwards the target
    holds the content of the source and the source is gone; when the two names are the
    same the name is free and the content is nowhere, although the screen says that the
    file was moved. *)
Theorem mv_renames s q t m src dst c : ready s q t m -> name_str src -> name_str dst ->
  m (cstr src) = File c -> m (cstr dst) <> Other -> content_ok c -> (forall c', m (cstr dst) = File c' -> content_ok c') ->
  dir_room (k_fs (sh_os s)) (current_dir_inode s) (cstr dst) (len c) ->
  wp (cmd_mv src dst) (fun _ s' => exists m', ready s' q (says (mv_says src dst) t) m' /\
    m' (cstr src) = Absent /\
    (cstr dst <> cstr src -> m' (cstr dst) = File c) /\
    forall nm, nm <> cstr src -> nm <> cstr dst -> m' nm = m nm) s.
Proof.
  intros Hr Hs Hd Hm Hmd Hc Hcd Hroom. eapply wp_mono; [by apply (cmd_mv_spec s q t m src dst c)|].
  intros [] s' (m' & Hr' & _ & E). exists m'. split; [done|]. rw !E /put_slot.
  split; [by rw bool_decide_true|]. split.
  - intros Hne. by rewrite -> bool_decide_false, bool_decide_true by done.
  - intros nm H1' H2'. rw E /put_slot. by rewrite -> !bool_decide_false by done.
Qed.

(** C35: the line editor.  The shell reads a line from the waiting keys: a key appends its
    character while there is room for 255, backspace takes the last one away, and the
    newline ends the line, which is in the buffer with its terminating zero; the keys
    behind the newline keep waiting, and each accepted key is echoed. *)
Theorem read_line_edits s ks rest extra t m : ready s (ks ++ 10 :: rest) t m -> Forall (fun c => 0 <= c < 256 /\ c <> 10) ks ->
  wp (read_line (length ks + S extra) (zeros 256) 0) (fun b s' =>
    let '(acc, t') := foldl edit_key ([], t) ks in
    cstr b = acc /\ (length acc <= 255)%nat /\ terminated b /\ ready s' rest (t_puts [10] WHITE t') m) s.
Proof.
  intros Hr Hks. eapply wp_mono; [apply (read_line_spec ks rest extra s t m []); [done|done|by split; [cbn; lia|]]|].
  intros b s'. destruct (foldl edit_key ([], t) ks) as [acc t']. intros (-> & [Hl Hacc] & Hr' & _). rw /line_buf.
  have -> : (256 - length acc = S (255 - length acc))%nat by lia.
  split; [|split; [done|split; [apply terminated_app|done]]].
  apply cstr_app. eapply Forall_impl; [exact Hacc|]. cbn. lia.
Qed.

(** typing at a shell that has read everything *)
Lemma typed_ready s keys t m : ready s [] t m ->
  Forall (fun c => typeable c = true) keys -> (length keys <= 255)%nat -> bytes_ok keys ->
  wp (sys (irqs (scancodes keys))) (fun _ s' => ready s' keys t m /\ kept s s') s.
Proof.
  intros Hr Ht Hl Hb. destruct (Hr) as [[Hdev Htty] _ _ Hd _ _]. destruct (Htty) as [Hi Ek _ Hc _ Hmo].
  apply wp_sys. eapply wp_mono; [by apply irqs_spec, scancodes_range|]. intros [] k (E1 & Hi' & E2 & E3).
  rw Ek /= (scans_text keys [] Ht) in E2; [cbn; lia|]. cbn [app] in E2. rewrite -> take_ge in E2 by lia.
  apply (ready_same s k [] t keys t m Hr).
  - split; [cbn; by rw E1|split; cbn; [by rw E1|split; [rw /kernel_listing E1; done|by rw E1]]].
  - split; [by rw E1|]. constructor; [done|by rw E2|done| |done|].
    + rw E3. generalize (length (scancodes keys)) => n. induction n as [|n IH]; [done|]. by apply pic_ack_inv.
    + change (mem_ok (fs_mem (k_fs k))). by rw E1.
Qed.

Lemma typed_line_spec cmd_wc cmd_testuser find_fuel s t m txt name extra (ks := command_line (bytes_of "echo") txt name) :
  ready s [] t m -> string_ok (cwd s) ->
  Forall plain txt -> Forall plain name -> txt <> [] -> name <> [] ->
  (length txt < 128)%nat -> (length name < 128)%nat -> (length txt + length name <= 248)%nat ->
  Forall (fun c => typeable c = true) ks ->
  m name = Absent -> dir_room (k_fs (sh_os s)) (current_dir_inode s) name (len txt + 1) ->
  wp (sys (irqs (scancodes (ks ++ [10])));; shell_loop cmd_wc cmd_testuser find_fuel 1 (length ks + S extra))
    (fun _ s' => exists t', ready s' [] t' (put_slot name (File (txt ++ [10])) m)) s.
Proof.
  intros Hr Hcwd Ht Hn Nt Nn Lt Ln Ll Hty Hm Hroom.
  have Hcmd : Forall plain (bytes_of "echo") by rw /plain; repeat constructor; try lia; intros [=].
  have Hks := line_plain _ _ _ Hcmd Ht Hn. fold ks in Hks.
  have Lks : length ks = (6 + length txt + length name)%nat by rw /ks /command_line !length_app /= length_app /=; lia.
  eapply wp_then.
  { apply (typed_ready s (ks ++ [10]) t m); try done.
    - apply Forall_app. split; [done|]. by repeat constructor.
    - rw length_app Lks. cbn [length]. lia.
    - apply bytes_ok_app. split; [|by repeat constructor]. eapply Forall_impl; [exact Hks|]. cbn. intros; lia. }
  intros [] s1 [Hr1 K1]. apply (typed_echo_spec cmd_wc cmd_testuser find_fuel s1 [] t m txt name extra); try done.
  - lia.
  - by rw (kept_cwd _ _ K1).
  - rw (kept_inode _ _ K1). by apply K1.
Qed.
(** C4: a line typed at the keyboard becomes a file on the disk.  When no key is waiting, the interrupts of typing [echo text file] and a newline and then
    one round of the shell's loop, prompt, editor, parser and command included, end with the
    file in the current directory: its content is the text and a newline, all other
    names stand for what they stood for, and no key is left. *)
Theorem typed_line_reaches_disk cmd_wc cmd_testuser find_fuel s t m txt name extra (ks := command_line (bytes_of "echo") txt name) :
  ready s [] t m -> string_ok (cwd s) ->
  Forall plain txt -> Forall plain name -> txt <> [] -> name <> [] ->
  (length txt < 128)%nat -> (length name < 128)%nat -> (length txt + length name <= 248)%nat ->
  Forall (fun c => typeable c = true) ks ->
  m name = Absent -> dir_room (k_fs (sh_os s)) (current_dir_inode s) name (len txt + 1) ->
  wp (sys (irqs (scancodes (ks ++ [10])));; shell_loop cmd_wc cmd_testuser find_fuel 1 (length ks + S extra))
    (fun _ s' => exists t', ready s' [] t' (put_slot name (File (txt ++ [10])) m)) s.
Proof. apply typed_line_spec. Qed.
End Laws.

(** ** A shell on the formatted volume *)
Definition demo_frame : Frame := mkFrame 0x10000 0x20000 0x30000 0x30020 0x30024 0x30028.
Lemma demo_frame_ok : frame_ok demo_frame.
Proof. split; [solve_apart..|done]. Qed.
Definition demo_shell : Sh (Kernel Image) := initial_shell active_program.
#[local] Existing Instance kernel_os.
#[local] Instance demo_os : Os (Kernel Image) := kernel_os demo_frame.
#[local] Instance demo_laws : OsLaws (Kernel Image) := kernel_laws demo_frame demo_frame_ok.
Lemma active_tty_rel : tty_rel active_program (mkTty (mkKeys true false []) demo_term program_mem).
Proof.
  constructor; [by split|by vm_compute|by constructor|exact demo_console_inv|exact eq_refl|exact program_mem_ok].
Qed.
Lemma demo_ready : ready demo_shell [] demo_term root_slots.
Proof.
  split; [|done|done| |apply length_replicate|].
  - split; [exact (inv_dev _ (inv_core _ program_inv))|]. exact active_tty_rel.
  - exact (mem_only_view _ _ _ _ program_mem_only demo_view).
  - apply Forall_replicate. lia.
Qed.
Lemma demo_shell_room nm n : dirs_room [root_entries] nm = true -> 0 <= n <= 2 ^ 20 ->
  dir_room (k_fs (sh_os demo_shell)) (current_dir_inode demo_shell) nm n.
Proof.
  intros Hr Hn. apply (mem_only_room demo_fs); [exact program_mem_only|].
  exists [ROOT_DIR_BLOCK_LBA], [root_entries]. split; [exact demo_root|]. split; [exact Hr|].
  split; [apply demo_free|]. exact (proj2 (proj2 demo_free) n Hn).
Qed.
Lemma demo_name_str (str : string) :
  bool_decide (bytes_of str <> [] /\ (length (bytes_of str) < 128)%nat /\ Forall (fun c => 0 < c < 256) (bytes_of str)) = true ->
  name_str (text str) /\ cstr (text str) = bytes_of str.
Proof.
  intros (Hne & Hl & Hb)%bool_decide_eq_true. have Hbb : bytes_ok (bytes_of str) by eapply Forall_impl; [exact Hb|]; cbn; lia.
  have E : cstr (text str) = bytes_of str by apply cstr_bytes_of; eapply Forall_impl; [exact Hb|]; cbn; lia.
  split; [|done]. rw /name_str E. split; [apply string_ok_lit; [done|lia]|done].
Qed.
Lemma echo_then_cat_witness :
  wp (cmd_echo (text "hi") (text "note");; cmd_cat (text "note")) (fun _ s' =>
    ready s' [] (shown [104; 105; 10] (says (echo_says (text "note")) demo_term))
      (put_slot (bytes_of "note") (File [104; 105; 10]) root_slots)) demo_shell.
Proof.
  destruct (demo_name_str "note" eq_refl) as [Hn En].
  apply (echo_then_cat demo_frame demo_frame_ok demo_shell [] demo_term root_slots (text "hi") (text "note") demo_ready);
    [by apply text_ok|discriminate|done|exact Hn|reflexivity|].
  apply demo_shell_room; [by vm_compute|split; vm_compute; discriminate].
Defined.

(** a shell on a volume, and on the volume with one file *)
Definition volume_kernel (v : FS Image) : Kernel Image := mkKernel (set_mem program_mem v) (set_input_on true keyboard_state) demo_console.
Lemma volume_ready v m : dir_view v ROOT_INODE_NO m -> ready (initial_shell (volume_kernel v)) [] demo_term m.
Proof.
  intros Hv. have Hd := proj1 (view_dev _ _ _ Hv).
  split; [|done|done| |apply length_replicate|apply Forall_replicate; lia].
  - split; [exact Hd|]. destruct active_tty_rel as [T1 T2 T3 T4 T5 T6]. by constructor.
  - exact (mem_only_view _ _ _ _ (set_mem_mem_only program_mem v Hd) Hv).
Qed.
Lemma file_shell : exists s c, ready s [] demo_term (put_slot demo_name (File c) root_slots) /\ content_ok c /\
  forall nm, (forall ino, dirs_room [one_file ino] nm = true) ->
    dir_room (k_fs (sh_os s)) (current_dir_inode s) nm (len c).
Proof.
  destruct one_file_volume as (v & Hv & Em & Hroom). set (c := request_data demo_fs (demo_request 10)) in *.
  have Hc : content_ok c.
  { split; [rw mem_load_length; done|]. apply mem_load_ok. exact demo_mem_ok. }
  have Hl : len c = 10 by rw mem_load_length.
  exists (initial_shell (volume_kernel v)), c. split; [by apply volume_ready|]. split; [done|].
  intros nm Hr. apply (mem_only_room v); [exact (set_mem_mem_only program_mem v (proj1 (view_dev _ _ _ Hv)))|]. apply Hroom; [exact Hr|lia].
Qed.
Lemma demo_name_str' : name_str (lit demo_name) /\ cstr (lit demo_name) = demo_name.
Proof.
  have Hb : Forall (fun c => 0 < c < 256) demo_name by apply (bool_decide_unpack (Forall _ _)); vm_compute.
  have Hbb : bytes_ok demo_name by eapply Forall_impl; [exact Hb|]; cbn; lia.
  have E : cstr (lit demo_name) = demo_name by apply cstr_lit; eapply Forall_impl; [exact Hb|]; cbn; lia.
  split; [|done]. rw /name_str E. split; [by apply string_ok_lit|]. split; [done|]. split; [|done]. apply Nat.ltb_lt. by vm_compute.
Qed.

Lemma cp_copies_witness : exists s m, wp (cmd_cp (lit demo_name) (text "copy")) (fun _ s' => exists m',
  ready s' [] (says (cp_says (lit demo_name) (text "copy")) demo_term) m' /\
    forall nm, m' nm = put_slot (bytes_of "copy") (m demo_name) m nm) s.
Proof.
  destruct file_shell as (s & c & Hr & Hc & Hroom). exists s, (put_slot demo_name (File c) root_slots).
  destruct demo_name_str' as [Hn En]. destruct (demo_name_str "copy" eq_refl) as [Hd Ed].
  apply (cp_copies demo_frame demo_frame_ok s [] demo_term (put_slot demo_name (File c) root_slots) (lit demo_name) (text "copy") c Hr Hn Hd).
  - by rw En /put_slot bool_decide_true.
  - done.
  - done.
  - rw Ed. apply Hroom. intros ino. by vm_compute.
Defined.

Lemma mv_renames_witness : exists s c m, ready s [] demo_term m /\ m demo_name = File c /\
  wp (cmd_mv (lit demo_name) (lit demo_name)) (fun _ s' => exists m',
    ready s' [] (says (mv_says (lit demo_name) (lit demo_name)) demo_term) m' /\ m' demo_name = Absent /\
    (demo_name <> demo_name -> m' demo_name = File c) /\
    forall nm, nm <> demo_name -> nm <> demo_name -> m' nm = m nm) s.
Proof.
  destruct file_shell as (s & c & Hr & Hc & Hroom). destruct demo_name_str' as [Hn En].
  set (m := put_slot demo_name (File c) root_slots) in *. exists s, c, m.
  have Em : m demo_name = File c by rw /m /put_slot bool_decide_true.
  split; [exact Hr|]. split; [exact Em|].
  have W := mv_renames demo_frame demo_frame_ok s [] demo_term m (lit demo_name) (lit demo_name) c Hr Hn Hn.
  rewrite -> En in W. apply W; [exact Em|by rw Em|exact Hc|by rw Em; intros c' [= <-]|].
  apply Hroom. intros ino. by vm_compute.
Defined.

(** keys typed before the shell reads them *)
Lemma typed_shell keys : Forall (fun c => typeable c = true) keys -> (length keys <= 255)%nat -> bytes_ok keys ->
  exists s, ready s keys demo_term root_slots.
Proof.
  intros Ht Hl Hb.
  destruct (wp_elim _ _ _ (irqs_spec (scancodes keys) active_program ltac:(by split) (scancodes_range _ Ht))) as (u & k & _ & E1 & Hi & E2 & E3).
  change (kbd_abs (k_keyboard active_program)) with (mkKeys true false []) in E2. rw (scans_text keys [] Ht) in E2; [cbn; lia|].
  cbn [app] in E2. rewrite -> take_ge in E2 by lia.
  have Hc : console_inv (k_console k) demo_term.
  { rw E3. generalize (length (scancodes keys)) => n. induction n as [|n IH]; [exact demo_console_inv|]. by apply pic_ack_inv. }
  exists (initial_shell k). split; [|done|done| |apply length_replicate|apply Forall_replicate; lia].
  - cbn [sh_os initial_shell]. split; [rw E1; exact (inv_dev _ (inv_core _ program_inv))|].
    constructor; [done|by rw E2|done|done|done|]. change (mem_ok (fs_mem (k_fs k))). rw E1. exact program_mem_ok.
  - cbn [sh_os current_dir_inode initial_shell]. change (dir_view (k_fs k) ROOT_INODE_NO root_slots). rw E1.
    exact (mem_only_view _ _ _ _ program_mem_only demo_view).
Qed.
(** [l], [x], backspace, [s], newline *)
Lemma read_line_edits_witness : exists s m, wp (read_line 6 (zeros 256) 0) (fun b s' =>
  cstr b = [108; 115] /\ terminated b /\ exists t', ready s' [] t' m) s.
Proof.
  destruct (typed_shell [108; 120; 8; 115; 10]) as [s Hs]; [by repeat constructor|cbn; lia|by repeat constructor|].
  exists s, root_slots.
  have W := read_line_edits demo_frame demo_frame_ok s [108; 120; 8; 115] [] 1 demo_term root_slots Hs ltac:(by repeat constructor).
  eapply wp_mono; [exact W|]. intros b s'.
  have -> : foldl edit_key ([], demo_term) [108; 120; 8; 115] =
    ([108; 115], foldl edit_key ([], demo_term) [108; 120; 8; 115]).2 by done.
  intros (-> & _ & Ht & Hr). split; [reflexivity|]. split; [exact Ht|]. by eexists.
Defined.

(** [echo hi note] and a newline *)
Lemma typed_line_reaches_disk_witness :
  wp (sys (irqs (scancodes (command_line (bytes_of "echo") [104; 105] (bytes_of "note") ++ [10])));;
      shell_loop (fun _ => mret tt) (mret tt) 0 1 13)
    (fun _ s' => exists t', ready s' [] t' (put_slot (bytes_of "note") (File [104; 105; 10]) root_slots)) demo_shell.
Proof.
  apply (typed_line_reaches_disk demo_frame demo_frame_ok (fun _ => mret tt) (mret tt) 0 demo_shell demo_term root_slots
    [104; 105] (bytes_of "note") 0); [exact demo_ready| | | |discriminate|discriminate|cbn; lia|cbn; lia|cbn; lia| |reflexivity|].
  - split; [apply (terminated_app [47])|]. split; [cbn; lia|]. by apply (bool_decide_unpack (Forall _ _)); vm_compute.
  - by repeat constructor.
  - by repeat constructor.
  - by repeat constructor.
  - apply (demo_shell_room (bytes_of "note") 3); [by vm_compute|lia].
Defined.
