(* ===== verification/ShellDir.v ===== *)
(** * Directories in the shell: [ls] and [cd]

    Both read the current directory into [dir_buffer] and walk its entries.  The buffer is
    not cleared between two commands, so what follows the blocks of the directory is what
    an earlier command left there. *)

From Stdlib Require Import String.
From S2P Require Import Prelude StdString BlockDevice Ext2Layout Ext2Dir Ext2State Ext2 Ext2Inv Ext2Format Ext2Files Ext2Data Ext2Crud Inserter Ext2Theorems Ext2View Keyboard Console Interrupt Syscalls ShellStr Shell ShellCmd ShellSpec ShellKernel.

#[local] Arguments dentry_bytes : simpl never.
#[local] Arguments dir_bytes : simpl never.

Section Dir.
Context {S : Type} `{OsLaws S}.
Implicit Types s : Sh S.

Lemma wp_known {A B} (x : M (Sh S) A) (k : A -> M (Sh S) B) Q s a : x s = Ok (a, s) -> wp (k a) Q s -> wp (x ≫= k) Q s.
Proof. intros E Hk. rw /wp /mbind /M_bind E. exact Hk. Qed.
Lemma called_refl s q t : os_tty (sh_os s) q t -> called s q t s.
Proof. intros Ht. exists (sh_os s). split; [by destruct s|]. split; [apply os_same_refl|done]. Qed.
Lemma called_trans s q t1 s1 t2 s2 : called s q t1 s1 -> called s1 q t2 s2 -> called s q t2 s2.
Proof.
  intros (o1 & -> & H1' & _) (o2 & -> & H2' & Ht). exists o2. split; [done|]. split; [|done]. by eapply os_same_trans.
Qed.
(** a command that only prints *)
Definition prints s q t s' : Prop := called s q t s' /\ pipe_mode_output (sh_pipe s') = false /\ dir_buffer s' = dir_buffer s.
Lemma called_prints s q t s' : called s q t s' -> pipe_mode_output (sh_pipe s) = false -> prints s q t s'.
Proof. by intros (o & -> & Hs & Ht) Hp; split; [exists o|]. Qed.
Lemma called_tty s q t s' : called s q t s' -> os_tty (sh_os s') q t.
Proof. by intros (o & -> & _ & Ht). Qed.
(** output and what follows it *)
Lemma wp_puts {B} s q t str color (k : M (Sh S) B) Q : os_tty (sh_os s) q t -> pipe_mode_output (sh_pipe s) = false ->
  string_ok str -> 0 <= color < 256 ->
  (forall s', prints s q (t_puts (cstr str) color t) s' -> wp k Q s') -> wp (puts str color;; k) Q s.
Proof.
  intros Ht Hp Hs Hc Hk. eapply wp_then; [by apply (puts_called s q t)|]. intros [] s' Hcall. by apply Hk, called_prints.
Qed.

(** ** The buffer as entries *)
(** the entry at the end of [pre] *)
Lemma entry_at pre e post s : dir_buffer s = pre ++ dentry_bytes e ++ post -> dentry_ok e -> de_rec_len e < 65536 ->
  entry_inode (len pre) s = Ok (de_inode e, s) /\ entry_rec_len (len pre) s = Ok (de_rec_len e, s) /\
  entry_name_len (len pre) s = Ok (len (de_name e), s) /\ entry_file_type (len pre) s = Ok (de_type e, s) /\
  forall (i : nat) c, de_name e !! i = Some c -> entry_char (len pre) (Z.of_nat i) s = Ok (c, s).
Proof.
  intros Eb He Hr. have Hrl := dentry_ok_rec_len e He. destruct (He) as (Hi & Hn & Hty & _). rw /dentry_bytes -app_assoc in Eb.
  destruct (header_fields pre (de_inode e) (de_rec_len e) (len (de_name e)) (de_type e) ((de_name e ++ de_pad e) ++ post) (len pre))
    as (F1 & F2 & F3 & F4); try lia. rewrite <- Eb in F1, F2, F3, F4.
  have G n off v : ld n (dir_buffer s) off = Ok v -> de_field n off s = Ok (v, s) by intros E; rw /de_field bind_gets /lift E.
  split; [by apply G|]. split; [by apply G|]. split; [by apply G|]. split; [by apply G|].
  intros i c Ec. have Li := lookup_lt_Some _ _ _ Ec. rw /entry_char bind_gets /lift. rewrite -> (arr_get_ok _ _ c); [done|lia|].
  rw Eb. have -> : Z.to_nat (len pre + 8 + Z.of_nat i) = (length pre + (8 + i))%nat by lia.
  rewrite -> lookup_app_r by lia. have -> : (length pre + (8 + i) - length pre = 8 + i)%nat by lia.
  rewrite -> lookup_app_r by (rw entry_header_length; lia). rw entry_header_length.
  have -> : (8 + i - 8 = i)%nat by lia. by rewrite -> !lookup_app_l by (rw ?length_app; lia).
Qed.
#[local] Opaque dentry_bytes dir_bytes.
(** the walk from the end of [pre] over the entries [es] to the rest *)
Record walks s (pre : list Z) (es : list dentry) (rest : list Z) : Prop := {
  wk_buffer : dir_buffer s = pre ++ dir_bytes es ++ rest;
  wk_length : length (dir_buffer s) = Z.to_nat 4096;
  wk_entries : Forall dentry_ok es;
}.
Lemma walks_entry s pre e es rest : walks s pre (e :: es) rest ->
  dir_buffer s = pre ++ dentry_bytes e ++ dir_bytes es ++ rest /\ dentry_ok e /\ de_rec_len e < 65536 /\
  (len pre <? 4096) = true /\ (de_rec_len e =? 0) = false /\ walks s (pre ++ dentry_bytes e) es rest /\
  len pre + de_rec_len e = len (pre ++ dentry_bytes e).
Proof.
  intros [Eb Hl Hes]. inversion_clear Hes as [|? ? He Hes']. have Hrl := dentry_ok_rec_len e He. have Hle := dentry_bytes_length e.
  rewrite -> dir_bytes_cons in Eb. rewrite <- !app_assoc in Eb. have L := Hl. rewrite -> Eb, !length_app in L.
  split; [done|]. split; [done|]. split; [lia|]. split; [apply Z.ltb_lt; lia|]. split; [apply Z.eqb_neq; lia|].
  split; [|rw length_app; lia]. split; [by rewrite -> Eb, <- !app_assoc|done|done].
Qed.
Lemma walks_prints s pre es rest q t s' : walks s pre es rest -> prints s q t s' -> walks s' pre es rest.
Proof. intros [] (_ & _ & E). by split; rw ?E. Qed.
(** where a walk stops: at the end of the buffer or at an entry whose inode is 0 *)
Definition stops (rest : list Z) : Prop := rest = [] \/ exists x, rest = zeros 4 ++ x.
Lemma walks_stop s pre rest : walks s pre [] rest -> stops rest ->
  (len pre <? 4096) = false \/ ((len pre <? 4096) = true /\ entry_inode (len pre) s = Ok (0, s)).
Proof.
  intros [Eb Hl _] Hst. change (dir_bytes []) with (@nil Z) in Eb. cbn [app] in Eb. destruct Hst as [->|[x ->]].
  - left. apply Z.ltb_ge. rw app_nil_r in Eb. rw Eb in Hl. lia.
  - right. split; [apply Z.ltb_lt; rw Eb !length_app length_replicate in Hl; lia|].
    rw /entry_inode /de_field bind_gets /lift. by rw Eb (ld_at 4 _ _ pre (zeros 4) x 0).
Qed.

(** ** [ls] *)
(** the entries in front of the first one whose inode is 0 *)
Fixpoint listed (es : list dentry) : list dentry :=
  match es with [] => [] | e :: es => if de_inode e =? 0 then [] else e :: listed es end.
Definition entry_color (e : dentry) : Z := if de_type e =? 2 then CYAN else WHITE.
Definition show_name (e : dentry) (cs : list Z) (t : Term) : Term := foldl (fun t c => t_one (entry_color e) c t) t cs.
Definition show_entry (t : Term) (e : dentry) : Term :=
  let t := show_name e (de_name e) t in
  t_puts (bytes_of "  ") WHITE (if de_type e =? 2 then t_puts (bytes_of "/") CYAN t else t).

Lemma ls_name_spec pre e post (k : nat) : forall (i : nat) s q t,
  dir_buffer s = pre ++ dentry_bytes e ++ post -> dentry_ok e -> de_rec_len e < 65536 ->
  os_tty (sh_os s) q t -> pipe_mode_output (sh_pipe s) = false -> (i + k = length (de_name e))%nat ->
  wp (ls_name k (len pre) (Z.of_nat i)) (fun _ s' => prints s q (show_name e (drop i (de_name e)) t) s') s.
Proof.
  induction k as [|k IH] => i s q t Eb He Hr Ht Hp Hi; cbn [ls_name].
  { apply wp_ret. rewrite -> drop_ge by lia. by apply called_prints; [apply called_refl|]. }
  destruct (entry_at pre e post s Eb He Hr) as (_ & _ & _ & Ety & Ech).
  destruct (lookup_lt_is_Some_2 (de_name e) i) as [c Ec]; [lia|].
  eapply wp_known; [by apply Ech|]. eapply wp_known; [exact Ety|]. rw -/(entry_color e).
  have Hc : 0 <= c < 256 by destruct He as (_ & _ & _ & Hb & _); apply (Forall_lookup_1 _ _ _ _ Hb Ec).
  have Hcol : 0 <= entry_color e < 256 by rw /entry_color; destruct (_ =? _); split.
  eapply wp_then; [by apply (putchar_called s q t)|]. intros [] s1 Hcall.
  destruct (called_prints _ _ _ _ Hcall Hp) as (C1 & P1 & D1).
  have -> : Z.of_nat i + 1 = Z.of_nat (Datatypes.S i) by lia.
  eapply wp_mono; [apply (IH (Datatypes.S i) s1 q); [by rw D1|done|done|by eapply called_tty|done|lia]|].
  intros [] s2 (C2 & P2 & D2). rw (drop_S _ _ _ Ec). split; [by eapply called_trans|]. by rw D2.
Qed.

Lemma prints_trans s q t1 s1 t2 s2 : prints s q t1 s1 -> prints s1 q t2 s2 -> prints s q t2 s2.
Proof. intros (C1 & _ & D1) (C2 & P2 & D2). split; [by eapply called_trans|]. by rw D2. Qed.
Lemma prints_refl s q t : os_tty (sh_os s) q t -> pipe_mode_output (sh_pipe s) = false -> prints s q t s.
Proof. intros Ht Hp. by apply called_prints; [apply called_refl|]. Qed.

(** one entry on the screen *)
Lemma ls_entry_spec {B} pre e post s q t (k : M (Sh S) B) Q :
  dir_buffer s = pre ++ dentry_bytes e ++ post -> dentry_ok e -> de_rec_len e < 65536 ->
  os_tty (sh_os s) q t -> pipe_mode_output (sh_pipe s) = false ->
  (forall s', prints s q (show_entry t e) s' -> wp k Q s') ->
  wp (ls_name (Z.to_nat (len (de_name e))) (len pre) 0;;
      file_type ← entry_file_type (len pre);
      (if file_type =? 2 then puts (text "/") CYAN else mret tt);; puts (text "  ") WHITE;; k) Q s.
Proof.
  intros Eb He Hr Ht Hp Hk. rw Nat2Z.id.
  eapply wp_then; [by apply (ls_name_spec pre e post (length (de_name e)) 0 s q t)|]. intros [] s1 P1. rw drop_0 in P1.
  have P1' := P1. destruct P1' as (C1 & M1 & D1).
  destruct (entry_at pre e post s1) as (_ & _ & _ & Ety & _); [by rw D1|done|done|].
  eapply wp_known; [exact Ety|]. set (t1 := show_name e (de_name e) t) in *.
  set (t2 := if de_type e =? 2 then t_puts (bytes_of "/") CYAN t1 else t1).
  have Hslash : wp (if de_type e =? 2 then puts (text "/") CYAN else mret tt) (fun _ s' => prints s q t2 s') s1.
  { rw /t2. destruct (de_type e =? 2); [|by apply wp_ret]. eapply wp_mono.
    - apply (puts_called s1 q t1); [by eapply called_tty|done|by apply text_ok|by split].
    - intros a s2 C2. eapply prints_trans; [exact P1|]. by apply called_prints. }
  eapply wp_then; [exact Hslash|]. intros [] s2 P2. have P2' := P2. destruct P2' as (C2 & M2 & D2).
  apply (wp_puts s2 q t2); [by eapply called_tty|done|by apply text_ok|by split|].
  intros s3 P3. apply Hk. by eapply prints_trans.
Qed.
Lemma ls_loop_spec es : forall n pre rest s q t, walks s pre es rest -> stops rest -> (length es < n)%nat ->
  os_tty (sh_os s) q t -> pipe_mode_output (sh_pipe s) = false ->
  wp (ls_loop n (len pre)) (fun _ s' => prints s q (foldl show_entry t (listed es)) s') s.
Proof.
  induction es as [|e es IH] => n pre rest s q t Hw Hst Hn Ht Hp; (destruct n as [|n]; [lia|]); cbn [ls_loop].
  { destruct (walks_stop s pre rest Hw Hst) as [->|[-> Ei]]; [by apply wp_ret, prints_refl|].
    eapply wp_known; [exact Ei|]. by apply wp_ret, prints_refl. }
  destruct (walks_entry _ _ _ _ _ Hw) as (Eb & He & Hr & -> & Hz & Hw' & El).
  destruct (entry_at pre e _ s Eb He Hr) as (Ei & Erl & Enl & _ & _).
  eapply wp_known; [exact Ei|]. cbn [listed]. destruct (de_inode e =? 0); [by apply wp_ret, prints_refl|].
  eapply wp_known; [exact Erl|]. rw Hz. eapply wp_known; [exact Enl|].
  eapply ls_entry_spec; [exact Eb|done|done|done|done|]. intros s1 P1. rw El.
  have P1' := P1. destruct P1' as (C1 & M1 & D1). cbn in Hn.
  eapply wp_mono; [apply (IH n _ rest s1 q (show_entry t e)); [by eapply walks_prints|done|lia|by eapply called_tty|done]|].
  intros a s2 P2. by eapply prints_trans.
Qed.

(** ** Reading the directory *)
Definition with_dir (o : S) (b : list Z) s : Sh S :=
  mkSh o (sh_pipe s) (sh_find s) (current_dir_inode s) (cwd s) b (file_buffer s).
(** the buffer is an array of 4096 bytes *)
Definition buffer_ok s : Prop := length (dir_buffer s) = Z.to_nat 4096 /\ bytes_ok (dir_buffer s).
(** what a directory of those blocks leaves in the buffer *)
Definition after_read (ess : list (list dentry)) (b : list Z) : list Z :=
  dir_bytes (List.concat ess) ++ drop (512 * length ess)%nat b.
Lemma blocks_length ess : Forall (fun es => len (dir_bytes es) = 512 /\ Forall dentry_ok es) ess ->
  length (dir_bytes (List.concat ess)) = (512 * length ess)%nat /\ Forall dentry_ok (List.concat ess).
Proof.
  induction 1 as [|es ess (Hl & He) _ IH]; [done|]. destruct IH as [IHl IHe]. cbn [List.concat].
  rewrite -> dir_bytes_app, length_app, IHl. cbn [length]. split; [lia|]. by apply Forall_app.
Qed.
Lemma after_read_ok ess b : Forall (fun es => len (dir_bytes es) = 512 /\ Forall dentry_ok es) ess -> (length ess <= 8)%nat ->
  length b = Z.to_nat 4096 -> bytes_ok b -> length (after_read ess b) = Z.to_nat 4096 /\ bytes_ok (after_read ess b).
Proof.
  intros He Hl Lb Hb. destruct (blocks_length ess He) as [L F]. rw /after_read. split.
  - rewrite -> length_app, L, length_drop. lia.
  - apply bytes_ok_app. split; [by apply dir_bytes_ok|by apply bytes_ok_drop].
Qed.
Lemma read_dir_spec s q t p ess : os_tty (sh_os s) q t -> os_listing (sh_os s) p ess -> buffer_ok s ->
  wp (read_dir p) (fun r s' => r = 0 /\ exists o, s' = with_dir o (after_read ess (dir_buffer s)) s /\
    os_same (sh_os s) o /\ os_tty o q t /\ buffer_ok s') s.
Proof.
  intros Ht Hl [Lb Hb]. destruct (law_listing _ _ _ Hl) as (_ & Hn & He). rw /read_dir. apply wp_bind, wp_gets, wp_bind, wp_sys.
  eapply wp_mono; [by apply (law_read_dir _ p ess _ q t)|]. intros r o (-> & Hsm & Ht').
  apply wp_bind, wp_modify, wp_ret. split; [done|]. exists o. split; [done|]. split; [done|]. split; [done|].
  by apply after_read_ok.
Qed.
(** the walk over a directory just read, and over the entries that the rest of the buffer holds *)
Lemma walks_read ess es' rest b s : dir_buffer s = after_read ess b -> length (dir_buffer s) = Z.to_nat 4096 ->
  Forall (fun es => len (dir_bytes es) = 512 /\ Forall dentry_ok es) ess -> Forall dentry_ok es' ->
  drop (512 * length ess)%nat b = dir_bytes es' ++ rest -> walks s [] (List.concat ess ++ es') rest.
Proof.
  intros E L He He' Ed. destruct (blocks_length ess He) as [_ F]. split; [|done|by apply Forall_app].
  rewrite -> E, dir_bytes_app. rw /after_read Ed. by rewrite <- app_assoc.
Qed.
Lemma walks_count s pre es rest : walks s pre es rest -> (length es <= 512)%nat.
Proof.
  intros [Eb Hl He]. have L : (8 * length es <= length (dir_bytes es))%nat.
  { clear -He. induction He as [|e es He _ IH]; [cbn; lia|]. have := dentry_ok_rec_len e He. have := dentry_bytes_length e.
    rewrite -> dir_bytes_cons, length_app. cbn [length]. lia. }
  rewrite -> Eb, !length_app in Hl. lia.
Qed.

(** [ls]: the listed entries, those of the directory and those that follow in the buffer *)
Lemma cmd_ls_spec s q t ess es' rest : os_tty (sh_os s) q t -> pipe_mode_output (sh_pipe s) = false ->
  os_listing (sh_os s) (current_dir_inode s) ess -> buffer_ok s ->
  Forall dentry_ok es' -> stops rest -> drop (512 * length ess)%nat (dir_buffer s) = dir_bytes es' ++ rest ->
  wp cmd_ls (fun _ s' => called (with_dir (sh_os s) (after_read ess (dir_buffer s)) s) q
    (t_puts [10] WHITE (foldl show_entry t (listed (List.concat ess ++ es')))) s') s.
Proof.
  intros Ht Hp Hl Hb He' Hst Ed. destruct (law_listing _ _ _ Hl) as (_ & _ & He). rw /cmd_ls. apply wp_bind, wp_gets.
  eapply wp_then; [by apply (read_dir_spec s q t _ ess)|]. intros r s1 (-> & o & -> & Hsm & Ht1 & [L1 B1]). cbn [negb Z.eqb].
  set (s1 := with_dir o _ s) in *. have Hw : walks s1 [] (List.concat ess ++ es') rest by eapply walks_read.
  have Hc := walks_count _ _ _ _ Hw.
  eapply wp_then; [apply (ls_loop_spec _ 4097 [] rest s1 q t Hw Hst); [lia|done|done]|]. intros [] s2 (C2 & P2 & _).
  eapply wp_mono; [apply (puts_called s2 q (foldl show_entry t (listed (List.concat ess ++ es'))) newline WHITE); [by eapply called_tty|done|exact newline_ok|by split]|].
  intros a s3 C3. destruct (called_trans _ _ _ _ _ _ C2 C3) as (o3 & -> & Hs3 & Ht3). exists o3. split; [done|].
  split; [by eapply os_same_trans|done].
Qed.

(** ** [cd] *)
(** the first entry of that name, in front of the first one whose inode is 0 *)
Fixpoint cd_find (es : list dentry) (nm : list Z) : option dentry :=
  match es with
  | [] => None
  | e :: es => if de_inode e =? 0 then None else if bool_decide (de_name e = nm) then Some e else cd_find es nm
  end.
(** the path that [cd] shows afterwards *)
Definition join (w nm : list Z) : list Z := if bool_decide (w = [47]) then w ++ nm else w ++ 47 :: nm.
Definition moved (inode : Z) (w : list Z) s : Sh S :=
  mkSh (sh_os s) (sh_pipe s) (sh_find s) inode w (dir_buffer s) (file_buffer s).

Lemma string_byte path nm (i : nat) c : string_ok path -> cstr path = nm -> nm !! i = Some c -> arr_get path (Z.of_nat i) = Ok c.
Proof.
  intros (Ht & _) <- Ec. destruct (terminated_split path Ht) as [rest E]. apply arr_get_ok; [lia|]. rw Nat2Z.id {1}E.
  by apply lookup_app_l_Some.
Qed.
Lemma same_name_spec pre e post path nm s (k : nat) : dir_buffer s = pre ++ dentry_bytes e ++ post -> dentry_ok e ->
  de_rec_len e < 65536 -> string_ok path -> cstr path = nm -> length (de_name e) = length nm ->
  forall i : nat, (i + k = length nm)%nat ->
  same_name k (len pre) (Z.of_nat i) path s = Ok (bool_decide (drop i (de_name e) = drop i nm), s).
Proof.
  intros Eb He Hr Hp En Hl. destruct (entry_at pre e post s Eb He Hr) as (_ & _ & _ & _ & Ech).
  induction k as [|k IH] => i Hi; cbn [same_name].
  { rewrite -> !drop_ge by lia. by rewrite bool_decide_true. }
  destruct (lookup_lt_is_Some_2 (de_name e) i) as [a Ea]; [lia|]. destruct (lookup_lt_is_Some_2 nm i) as [b Eb']; [lia|].
  rw {1}/mbind /M_bind (Ech i a Ea) /mbind /lift (string_byte path nm i b Hp En Eb').
  rw (drop_S _ _ _ Ea) (drop_S _ _ _ Eb'). destruct (Z.eqb_spec a b) as [->|Hne]; cbn [negb].
  - have -> : Z.of_nat i + 1 = Z.of_nat (Datatypes.S i) by lia. rewrite -> IH by lia. do 2 f_equal. apply bool_decide_ext. split; [by intros ->|by intros [= E]].
  - rewrite -> bool_decide_false; [done|]. by intros [= E _].
Qed.
Lemma name_found_spec pre e post path s : dir_buffer s = pre ++ dentry_bytes e ++ post -> dentry_ok e ->
  de_rec_len e < 65536 -> string_ok path ->
  (if len (de_name e) =? len (cstr path) then same_name (Z.to_nat (len (de_name e))) (len pre) 0 path else mret false) s =
    Ok (bool_decide (de_name e = cstr path), s).
Proof.
  intros Eb He Hr Hp. destruct (Z.eqb_spec (len (de_name e)) (len (cstr path))) as [El|El].
  - rw Nat2Z.id. have El' : length (de_name e) = length (cstr path) by lia.
    have E := same_name_spec pre e post path _ s (length (de_name e)) Eb He Hr Hp eq_refl El' 0%nat. rw !drop_0 in E. apply E. lia.
  - rewrite -> bool_decide_false; [done|]. intros E. apply El. by rw E.
Qed.

(** the string of the working directory, with room for one more name *)
Definition cwd_ok s (nm : list Z) : Prop := length (cwd s) = 256%nat /\ string_ok (cwd s) /\ (length (cstr (cwd s)) + length nm < 255)%nat.
Lemma cd_join_spec s path : cwd_ok s (cstr path) -> string_ok path -> exists w,
  (root ← streq (cwd s) (text "/"); w ← (if (root : bool) then Ok (cwd s) else strcat (cwd s) (text "/")); strcat w path) = Ok w /\
  cstr w = join (cstr (cwd s)) (cstr path) /\ length w = 256%nat.
Proof.
  intros (Lw & (Htw & _) & Hroom) (Htp & _). rewrite -> streq_spec by (try done; apply terminated_app). cbn [mbind res_bind].
  change (cstr (text "/")) with [47]. rw /join.
  have Hcat v : terminated v -> length v = 256%nat -> (length (cstr v) + length (cstr path) < 256)%nat ->
    exists w, strcat v path = Ok w /\ cstr w = cstr v ++ cstr path /\ length w = 256%nat.
  { intros Hv Lv Hf. exists (put (cstr v ++ cstr path) v). rewrite -> strcat_spec by (try done; lia).
    rewrite -> (proj2 (Nat.ltb_lt _ _)) by (rw length_app; lia). split; [done|].
    split; [apply cstr_put, Forall_app; split; apply cstr_nonzero|]. rewrite -> put_length by (rw length_app; lia). done. }
  case_bool_decide as Ew; [apply Hcat; [done|done|lia]|].
  rewrite -> strcat_spec by (first [done|apply terminated_app|lia]). change (cstr (text "/")) with [47].
  rewrite -> (proj2 (Nat.ltb_lt _ _)) by (rw length_app /=; lia). cbn [mbind res_bind].
  have Ec : cstr (put (cstr (cwd s) ++ [47]) (cwd s)) = cstr (cwd s) ++ [47].
  { apply cstr_put, Forall_app. split; [apply cstr_nonzero|by repeat constructor]. }
  destruct (Hcat (put (cstr (cwd s) ++ [47]) (cwd s))) as (w & E & Ecw & Lw').
  - apply put_terminated.
  - rewrite -> put_length by (rw length_app /=; lia). done.
  - rw Ec length_app /=. lia.
  - exists w. split; [done|]. rw Ecw Ec -app_assoc. by split.
Qed.

(** what [cd name] does once the directory is in the buffer *)
Definition cd_result s q t (nm path : list Z) (found : option dentry) s' : Prop :=
  match found with
  | Some e =>
    if de_type e =? 2 then exists w, s' = moved (de_inode e) w s /\ cstr w = join (cstr (cwd s)) nm /\ length w = 256%nat
    else called s q (says [(text "cd: Not a directory: ", RED); (path, RED); (newline, WHITE)] t) s'
  | None => called s q (says [(text "cd: No such directory: ", RED); (path, RED); (newline, WHITE)] t) s'
  end.
Lemma error_called s q t msg path : os_tty (sh_os s) q t -> pipe_mode_output (sh_pipe s) = false ->
  bool_decide (bytes_ok (bytes_of msg) /\ len (bytes_of msg) < 32767) = true -> string_ok path ->
  wp (error_name msg path) (fun _ s' => called s q (says [(text msg, RED); (path, RED); (newline, WHITE)] t) s') s.
Proof.
  intros Ht Hp Hm Hs. rw /error_name. apply (wp_puts s q t); [done|done|by apply text_ok|by split|]. intros s1 (C1 & P1 & _).
  eapply (wp_puts s1 q); [by eapply called_tty|done|done|by split|]. intros s2 (C2 & P2 & _).
  eapply wp_mono; [eapply (puts_called s2 q); [by eapply called_tty|done|exact newline_ok|by split]|].
  intros a s3 C3. do 2 (eapply called_trans; [eassumption|]). exact C3.
Qed.
Lemma cd_loop_spec path es : forall n pre rest s q t, walks s pre es rest -> (cd_find es (cstr path) <> None \/ stops rest) ->
  (length es < n)%nat -> string_ok path -> cwd_ok s (cstr path) -> os_tty (sh_os s) q t -> pipe_mode_output (sh_pipe s) = false ->
  wp (cd_loop n (len pre) path) (fun _ s' => cd_result s q t (cstr path) path (cd_find es (cstr path)) s') s.
Proof.
  induction es as [|e es IH] => n pre rest s q t Hw Hst Hn Hp Hcwd Ht Hpo; (destruct n as [|n]; [lia|]); cbn [cd_loop].
  { destruct Hst as [|Hst]; [done|]. destruct (walks_stop s pre rest Hw Hst) as [->|[-> Ei]]; [by apply error_called|].
    eapply wp_known; [exact Ei|]. by apply error_called. }
  destruct (walks_entry _ _ _ _ _ Hw) as (Eb & He & Hr & -> & Hz & Hw' & El).
  destruct (entry_at pre e _ s Eb He Hr) as (Ei & Erl & Enl & Ety & _).
  eapply wp_known; [exact Ei|]. cbn [cd_find] in Hst |- *. destruct (de_inode e =? 0); [by apply error_called|].
  eapply wp_known; [exact Erl|]. rw Hz. eapply wp_known; [exact Enl|].
  destruct (cstr_strlen path Hp) as [Esl _]. apply wp_bind. eapply wp_lift; [exact Esl|].
  eapply wp_known; [by eapply name_found_spec|]. case_bool_decide as Enm.
  - eapply wp_known; [exact Ety|]. cbn [cd_result]. destruct (de_type e =? 2); [|by apply error_called].
    destruct (cd_join_spec s path Hcwd Hp) as (w & E & Ew & Lw). cbn [wp]. apply wp_bind, wp_modify, wp_bind, wp_gets. cbn [cwd].
    destruct (streq (cwd s) (text "/")) as [root| |] eqn:E1; [|done|done]. cbn [mbind res_bind] in E.
    apply wp_bind. eapply wp_lift; [reflexivity|]. cbv beta.
    destruct (if root : bool then Ok (cwd s) else strcat (cwd s) (text "/")) as [w1| |] eqn:E2; [|done|done]. cbn [mbind res_bind] in E.
    apply wp_bind. eapply wp_lift; [first [exact E2|reflexivity]|]. apply wp_bind. eapply wp_lift; [exact E|]. apply wp_modify. by exists w.
  - rw El. cbn in Hn. eapply (IH n _ rest s q t); try done. lia.
Qed.
Definition cd_words (nm : list Z) : Prop := nm <> [] /\ nm <> [47] /\ nm <> [46; 46].
Lemma cmd_cd_spec s q t path ess es' rest : string_ok path -> cd_words (cstr path) -> cwd_ok s (cstr path) ->
  os_tty (sh_os s) q t -> pipe_mode_output (sh_pipe s) = false ->
  os_listing (sh_os s) (current_dir_inode s) ess -> buffer_ok s ->
  Forall dentry_ok es' -> drop (512 * length ess)%nat (dir_buffer s) = dir_bytes es' ++ rest ->
  (cd_find (List.concat ess ++ es') (cstr path) <> None \/ stops rest) ->
  wp (cmd_cd path) (fun _ s' => exists o, os_same (sh_os s) o /\ os_tty o q t /\
    cd_result (with_dir o (after_read ess (dir_buffer s)) s) q t (cstr path) path (cd_find (List.concat ess ++ es') (cstr path)) s') s.
Proof.
  intros Hs (W1 & W2 & W3) Hcwd Ht Hp Hl Hb He' Ed Hst. destruct (law_listing _ _ _ Hl) as (_ & _ & He). rw /cmd_cd.
  destruct (cstr_first path Hs W1) as (c & Ec & Hc). apply wp_bind. eapply wp_lift; [exact Ec|]. rw Hc.
  have Hne w : cstr (text w) <> cstr path -> streq path (text w) = Ok false.
  { intros Hw. rewrite -> streq_spec by (first [apply Hs|apply terminated_app]). by rewrite -> bool_decide_false by congruence. }
  apply wp_bind. eapply wp_lift; [apply (Hne "/"%string); by intros E; apply W2|].
  apply wp_bind. eapply wp_lift; [apply (Hne ".."%string); by intros E; apply W3|]. apply wp_bind, wp_gets.
  eapply wp_then; [by apply (read_dir_spec s q t _ ess)|]. intros r s1 (-> & o & -> & Hsm & Ht1 & [L1 B1]). cbn [negb Z.eqb].
  set (s1 := with_dir o _ s) in *. have Hw : walks s1 [] (List.concat ess ++ es') rest by eapply walks_read.
  have Hcnt := walks_count _ _ _ _ Hw.
  eapply wp_mono; [apply (cd_loop_spec path _ 4097 [] rest s1 q t Hw Hst); [lia|done|done|done|done]|].
  intros a s2 Hres. by exists o.
Qed.

(** ** [cd ..] *)
Lemma is_parent_spec pre e post s : dir_buffer s = pre ++ dentry_bytes e ++ post -> dentry_ok e -> de_rec_len e < 65536 ->
  (if negb (len (de_name e) =? 2) then mret false else
   a ← entry_char (len pre) 0; if negb (a =? 46) then mret false else b ← entry_char (len pre) 1; mret (b =? 46)) s =
    Ok (bool_decide (de_name e = [46; 46]), s).
Proof.
  intros Eb He Hr. destruct (entry_at pre e post s Eb He Hr) as (_ & _ & _ & _ & Ech).
  destruct (Z.eqb_spec (len (de_name e)) 2) as [El|El]; cbn [negb].
  2: { rewrite -> bool_decide_false; [done|]. intros E. by rw E in El. }
  destruct (de_name e) as [|a [|b [|c l]]] eqn:En; cbn in El; try lia.
  rw {1}/mbind /M_bind (Ech 0%nat a eq_refl). destruct (Z.eqb_spec a 46) as [->|Ha]; cbn [negb].
  - rw /mbind /M_bind (Ech 1%nat b eq_refl). cbn. do 2 f_equal. destruct (Z.eqb_spec b 46) as [->|Hb].
    + by rewrite -> bool_decide_true.
    + rewrite -> bool_decide_false; [done|]. by intros [= E].
  - rewrite -> bool_decide_false; [done|]. by intros [= E _].
Qed.
Lemma cd_parent_spec es e : forall n pre rest s, walks s pre es rest -> cd_find es [46; 46] = Some e -> (length es < n)%nat ->
  length (cwd s) = 256%nat ->
  wp (cd_parent_loop n (len pre)) (fun _ s' => exists w, s' = moved (de_inode e) w s /\ length w = 256%nat /\
    cstr w = if de_inode e =? 2 then [47] else cstr (cwd s)) s.
Proof.
  induction es as [|e1 es IH] => n pre rest s Hw Hf Hn Lw; (destruct n as [|n]; [lia|]); cbn [cd_parent_loop]; [done|].
  destruct (walks_entry _ _ _ _ _ Hw) as (Eb & He & Hr & -> & Hz & Hw' & El).
  destruct (entry_at pre e1 _ s Eb He Hr) as (Ei & Erl & Enl & _ & _).
  eapply wp_known; [exact Ei|]. cbn [cd_find] in Hf. destruct (de_inode e1 =? 0); [done|].
  eapply wp_known; [exact Erl|]. rw Hz. eapply wp_known; [exact Enl|].
  eapply wp_known; [by eapply is_parent_spec|]. case_bool_decide as Enm.
  - injection Hf as ->. apply wp_bind, wp_modify. destruct (de_inode e =? 2); [|apply wp_ret; by exists (cwd s)].
    apply wp_bind, wp_gets, wp_bind. cbn [cwd]. eapply wp_lift; [rewrite -> strcpy_spec by apply terminated_app|].
    { change (cstr (text "/")) with [47]. by rewrite -> Lw. }
    apply wp_modify. eexists. split; [reflexivity|]. split; [by rewrite -> put_length by (rw Lw; cbn; lia)|].
    apply cstr_put. by repeat constructor.
  - rw El. cbn in Hn. eapply IH; [done|done|lia|done].
Qed.

Lemma cmd_cd_up s q t ess e : os_tty (sh_os s) q t -> pipe_mode_output (sh_pipe s) = false ->
  current_dir_inode s <> 2 -> os_listing (sh_os s) (current_dir_inode s) ess -> buffer_ok s -> length (cwd s) = 256%nat ->
  cd_find (List.concat ess) [46; 46] = Some e ->
  wp (cmd_cd (text "..")) (fun _ s' => exists o w, os_same (sh_os s) o /\ os_tty o q t /\
    s' = moved (de_inode e) w (with_dir o (after_read ess (dir_buffer s)) s) /\ length w = 256%nat /\
    cstr w = if de_inode e =? 2 then [47] else cstr (cwd s)) s.
Proof.
  intros Ht Hp Hcur Hl Hb Lw Hf. destruct (law_listing _ _ _ Hl) as (_ & _ & He). rw /cmd_cd.
  apply wp_bind. eapply wp_lift; [reflexivity|]. cbn [Z.eqb]. apply wp_bind. eapply wp_lift; [reflexivity|]. cbv iota beta.
  apply wp_bind. eapply wp_lift; [reflexivity|]. cbv iota beta. apply wp_bind, wp_gets.
  rewrite -> (proj2 (Z.eqb_neq _ _)) by done.
  eapply wp_then; [by apply (read_dir_spec s q t _ ess)|]. intros r s1 (-> & o & -> & Hsm & Ht1 & [L1 B1]). cbn [Z.eqb].
  set (s1 := with_dir o _ s) in *.
  have Hw : walks s1 [] (List.concat ess ++ []) (drop (512 * length ess)%nat (dir_buffer s)) by eapply walks_read; [reflexivity|..].
  rw app_nil_r in Hw. have Hcnt := walks_count _ _ _ _ Hw.
  eapply wp_mono; [apply (cd_parent_spec _ e 4097 [] _ s1 Hw Hf); [lia|exact Lw]|].
  intros a s2 (w & -> & Hlw & Ew). by exists o, w.
Qed.
(** a command that reads the directory and prints *)
Lemma ready_called s q t m b t' s' : ready s q t m -> called (with_dir (sh_os s) b s) q t' s' ->
  ready s' q t' m /\ current_dir_inode s' = current_dir_inode s /\ os_same (sh_os s) (sh_os s').
Proof. intros [] (o & -> & (Hd & Hr & Hls) & Ht). split; [split; try done; by apply Hd|]. by split. Qed.
End Dir.

(** ** Properties *)
Section Properties.
Context {D : Type} `{BlockDeviceLaws D} `{StackJunkLaws} `{Overrun D}.
Variable F : Frame.
Hypothesis HF : frame_ok F.
#[local] Existing Instance kernel_os.
#[local] Instance dir_os : Os (Kernel D) := kernel_os F.
#[local] Instance dir_laws : OsLaws (Kernel D) := kernel_laws F HF.

(** C28: [ls] lists the directory, and what an earlier directory left in the buffer.  The
    screen gets the names of the entries in their order up to the first one whose inode is
    0, directories in cyan with a slash, then a newline; when the buffer behind the blocks
    of the directory still holds entries of a larger one that was read before, they are
    listed as well.  The files are as they were. *)
Theorem ls_lists s q t m ess es' rest : ready s q t m ->
  kernel_listing (sh_os s) (current_dir_inode s) ess -> buffer_ok s ->
  Forall dentry_ok es' -> stops rest -> drop (512 * length ess) (dir_buffer s) = dir_bytes es' ++ rest ->
  wp cmd_ls (fun _ s' => ready s' q (t_puts [10] WHITE (foldl show_entry t (listed (List.concat ess ++ es')))) m /\
    current_dir_inode s' = current_dir_inode s /\ kernel_listing (sh_os s') (current_dir_inode s') ess) s.
Proof.
  intros Hr Hl Hb He Hst Ed. eapply wp_mono; [apply (cmd_ls_spec s q t ess es' rest); try done; apply Hr|].
  intros a s' Hc. destruct (ready_called _ _ _ _ _ _ _ Hr Hc) as (Hr' & Ei & (_ & _ & Hls)).
  split; [done|]. split; [done|]. rw Ei. by apply Hls.
Qed.

(** C29: [cd name] enters the directory of that name and [cd ..] leaves it again.  From a
    directory [p] with a live entry [e] of kind directory, whose own [..] is [p], the two
    commands end in [p] with nothing printed; in between the current directory is the inode
    of the entry and the path shown is the old one with the name.  Back in [p] the path is
    the root's when [p] is the root; otherwise it still is the path of the directory that
    was left. *)
Theorem cd_there_and_back s q t m nm ess ess' e up : ready s q t m -> string_ok nm -> cd_words (cstr nm) -> cwd_ok s (cstr nm) ->
  buffer_ok s -> kernel_listing (sh_os s) (current_dir_inode s) ess -> cd_find (List.concat ess) (cstr nm) = Some e ->
  de_type e = 2 -> de_inode e <> 2 -> kernel_listing (sh_os s) (de_inode e) ess' ->
  cd_find (List.concat ess') [46; 46] = Some up -> de_inode up = current_dir_inode s ->
  wp (cmd_cd nm) (fun _ s1 => current_dir_inode s1 = de_inode e /\ cstr (cwd s1) = join (cstr (cwd s)) (cstr nm) /\
    wp (cmd_cd (text "..")) (fun _ s2 => ready s2 q t m /\ current_dir_inode s2 = current_dir_inode s /\
      cstr (cwd s2) = if current_dir_inode s =? 2 then [47] else join (cstr (cwd s)) (cstr nm)) s1) s.
Proof.
  intros Hr Hs Hw Hcwd Hb Hl Hf Hty H2' Hl' Hup Eup. have [Htty Hout Hin Hdir Hfl Hfb] := Hr.
  eapply wp_mono; [apply (cmd_cd_spec s q t nm ess [] (drop (512 * length ess) (dir_buffer s))); try done|].
  { rw app_nil_r Hf. by left. }
  intros a s1 (o & Hsm & Ht1 & Hres). rw app_nil_r Hf /cd_result Hty in Hres. cbn [Z.eqb Pos.eqb] in Hres.
  destruct Hres as (w & -> & Ew & Lw). split; [done|]. split; [exact Ew|].
  destruct (kernel_listing_ok _ _ _ Hl) as (_ & Hn & He). destruct Hb as [Lb Hbb].
  eapply wp_mono; [apply (cmd_cd_up _ q t ess' up); try done; [by apply Hsm|by apply after_read_ok]|].
  intros b s2 (o2 & w2 & Hsm2 & Ht2 & -> & Lw2 & Ew2). rw Eup in Ew2. cbn [cwd with_dir moved] in Ew, Ew2. rw Ew in Ew2.
  rw /moved. cbn [current_dir_inode cwd with_dir]. split; [|split; [exact Eup|exact Ew2]]. split; try done. cbn [sh_os current_dir_inode]. rw Eup. apply Hsm2. cbn [sh_os moved with_dir]. by apply Hsm.
Qed.
End Properties.

(** ** The formatted volume, and the same with one directory *)
#[local] Existing Instance kernel_os.
#[local] Instance demo_dir_os : Os (Kernel Image) := kernel_os demo_frame.
#[local] Instance demo_dir_laws : OsLaws (Kernel Image) := kernel_laws demo_frame demo_frame_ok.

Lemma demo_listing : kernel_listing active_program ROOT_INODE_NO [root_entries].
Proof.
  split; [exact program_inv|]. split; [by cbn; lia|]. exists [ROOT_DIR_BLOCK_LBA].
  exact (mem_only_dir_at _ _ _ _ _ program_mem_only (proj1 demo_root)).
Qed.
Lemma ls_lists_witness :
  wp cmd_ls (fun _ s' => ready s' [] (t_puts [10] WHITE (foldl show_entry demo_term (listed root_entries))) root_slots /\
    current_dir_inode s' = current_dir_inode demo_shell /\
    kernel_listing (sh_os s') (current_dir_inode s') [root_entries]) demo_shell.
Proof.
  have E : drop (512 * length [root_entries]) (dir_buffer demo_shell) = dir_bytes [] ++ zeros 3584.
  { change (dir_buffer demo_shell) with (zeros 4096). exact (drop_replicate 512 4096 0). }
  have Hst : stops (zeros 3584) by right; exists (zeros 3580); exact (replicate_add 4 3580 0).
  have Hb : buffer_ok demo_shell by split; [apply length_replicate|apply bytes_ok_zeros].
  have W := ls_lists demo_frame demo_frame_ok demo_shell [] demo_term root_slots [root_entries] [] (zeros 3584)
    demo_ready demo_listing Hb ltac:(constructor) Hst E.
  cbn [List.concat] in W. rewrite -> !app_nil_r in W. exact W.
Defined.

Definition one_dir (ino : Z) : list dentry :=
  [ mkDentry 2 [46] EXT2_FT_DIR (zeros 3); mkDentry 2 [46; 46] EXT2_FT_DIR (zeros 2);
    mkDentry ino demo_name EXT2_FT_DIR (zeros 475) ].
Lemma one_dir_eq ino : dirs_insert [root_entries] ino demo_name EXT2_FT_DIR = Some [one_dir ino].
Proof. reflexivity. Qed.
Definition dir_slots : list Z -> slot := put_slot demo_name Other root_slots.

Lemma one_dir_volume : exists s ino b, fs_mem s = demo_mem /\ ino <> 0 /\ ino <> 2 /\
  view s ROOT_INODE_NO [ROOT_DIR_BLOCK_LBA] [one_dir ino] dir_slots /\ dir_at s ino [b] [dot_entries ino ROOT_INODE_NO].
Proof.
  destruct (wp_elim _ _ _ (write_dir_spec demo_fs mkdir_request _ _ _ demo_inv demo_root eq_refl eq_refl
    ltac:(cbn; lia) demo_mem_ok (demo_absent mkdir_request eq_refl eq_refl) (demo_room mkdir_request eq_refl eq_refl)
    (proj1 demo_free) (proj1 (proj2 demo_free)))) as (c & s & _ & _ & ino & b & Hec & Hd & _).
  destruct Hec as (Hi & Em & Hino & _ & _ & _ & (ess' & Hins & Hdl) & _).
  rw demo_nm in Hins. change (mem_load demo_mem _ _) with demo_name in Hins. rw one_dir_eq in Hins. injection Hins as <-.
  have H0 : ino <> 0 by geometry; lia. have H2 : ino <> 2 by geometry; lia.
  exists s, ino, b. split; [by rw Em (proj2 demo_formatted)|]. split; [done|]. split; [done|]. split; [|apply Hd].
  constructor; [done|done| | |].
  - apply (dirs_insert_unique [root_entries] ino demo_name EXT2_FT_DIR); [done|exact demo_unique|by vm_compute|apply one_dir_eq].
  - intros nm. have El := dirs_insert_lookup [root_entries] ino demo_name EXT2_FT_DIR _ nm H0 (one_dir_eq ino) ltac:(by vm_compute).
    have Hs := v_slot _ _ _ _ _ demo_root_view nm. rw El /dir_slots /put_slot. case_bool_decide; [done|].
    destruct (root_slots nm) eqn:Er; [exact Hs| |exact Hs]. exfalso. revert Er. rw /root_slots. by destruct (_ || _).
  - intros nm nm' f f'. rw /dir_slots /put_slot /root_slots. case_bool_decide; [done|]. by destruct (_ || _).
Qed.

Lemma volume_listing v p bs ess : fs_inv v -> (length ess <= 8)%nat -> dir_at v p bs ess -> kernel_listing (volume_kernel v) p ess.
Proof.
  intros Hi Hl Hd. have M := set_mem_mem_only program_mem v (inv_dev _ (inv_core _ Hi)).
  split; [exact (mem_only_fs_inv _ _ Hi M)|]. split; [done|]. exists bs. exact (mem_only_dir_at _ _ _ _ _ M Hd).
Qed.
Lemma cd_there_and_back_witness : exists s ino, ready s [] demo_term dir_slots /\
  wp (cmd_cd (lit demo_name)) (fun _ s1 => current_dir_inode s1 = ino /\ cstr (cwd s1) = join (cstr (cwd s)) (cstr (lit demo_name)) /\
    wp (cmd_cd (text "..")) (fun _ s2 => ready s2 [] demo_term dir_slots /\ current_dir_inode s2 = current_dir_inode s /\
      cstr (cwd s2) = if current_dir_inode s =? 2 then [47] else join (cstr (cwd s)) (cstr (lit demo_name))) s1) s.
Proof.
  destruct one_dir_volume as (v & ino & b & Em & H0 & H2 & Hv & Hd). set (s := initial_shell (volume_kernel v)).
  have Hr : ready s [] demo_term dir_slots by apply volume_ready; eexists _, _.
  exists s, ino. split; [exact Hr|]. destruct demo_name_str' as [[Hn Hne] En].
  apply (cd_there_and_back demo_frame demo_frame_ok s [] demo_term dir_slots (lit demo_name) [one_dir ino] [dot_entries ino ROOT_INODE_NO]
    (mkDentry ino demo_name EXT2_FT_DIR (zeros 475)) (mkDentry ROOT_INODE_NO [46; 46] EXT2_FT_DIR (zeros 490))).
  - exact Hr.
  - exact Hn.
  - rw En. by split.
  - rw En. split; [done|]. split; [|by vm_compute; lia].
    split; [right; left|]. split; [by vm_compute|constructor; [lia|apply bytes_ok_zeros]].
  - split; [apply length_replicate|apply bytes_ok_zeros].
  - apply (volume_listing v ROOT_INODE_NO [ROOT_DIR_BLOCK_LBA]); [apply Hv|by cbn; lia|apply Hv].
  - rw En. cbn. by rewrite -> (proj2 (Z.eqb_neq ino 0)).
  - done.
  - exact H2.
  - apply (volume_listing v ino [b]); [apply Hv|by cbn; lia|exact Hd].
  - cbn. by rewrite -> (proj2 (Z.eqb_neq ino 0)).
  - done.
Defined.
