(* ===== verification/Install.v ===== *)
(** * From the inserter to the running shell

    The inserter stores an image; the kernel finds the blocks of that image on its disk,
    behind whatever driver, and starts the program that was inserted; the shell then
    works on the same volume. *)

From Stdlib Require Import String.
From S2P Require Import Prelude StdString BlockDevice Ext2Layout Ext2Dir Ext2State Ext2Inv Ext2 Ext2Format Ext2Files Ext2Data Ext2Write Ext2Crud Inserter Ext2Theorems Ext2View InserterSpec Ata Keyboard Console Paging Gdt Idt Pic Interrupt Syscalls Kernel Boot ShellStr Shell ShellCmd ShellMain ShellSpec ShellLine ShellKernel.

#[local] Opaque IMAGE_SIZE.

(** ** A volume seen through another device *)
Section Transfer.
Context {D : Type} `{BlockDeviceLaws D}.
Implicit Types (d : D) (t : FS Image).

(** the sectors of a storage file *)
Definition file_sector (disk : list Z) (l : Z) : list Z := take 512 (drop (Z.to_nat (512 * l)) disk).
(** the device holds the file *)
Definition holds_file d (disk : list Z) : Prop := dev_ok d /\ forall l, 0 <= l < 8192 -> dev_block d l = file_sector disk l.

Lemma file_sector_image t l : 0 <= l < 8192 -> file_sector (image_bytes (fs_dev t)) l = blk t l.
Proof.
  intros Hl. rewrite -> blk_in by done. cbn [dev_block image_device]. have HS := image_size. apply list_eq => i. rw /file_sector.
  destruct (decide (i < 512)%nat) as [Hi|Hi].
  - rewrite -> lookup_take_lt, lookup_drop by done. rw /image_bytes. rewrite -> !list_lookup_fmap, !lookup_seqZ_lt by (rw ?/BLOCK_SIZE; lia).
    cbn [fmap option_fmap option_map]. do 2 f_equal. rw /BLOCK_SIZE. lia.
  - rewrite -> !lookup_ge_None_2; [done| |]; [rw length_map length_seqZ /BLOCK_SIZE; lia|rw length_take; lia].
Qed.
(** the volume with [d] in the place of the image *)
Definition volume_on d t : FS D :=
  mkFS d (_ext2_superblock_state t) (_ext2_bgdt_state t) (g_filesystem_initialized t) (fs_tick t) (fs_mem t).
Context d t (Hd : holds_file d (image_bytes (fs_dev t))).

Lemma volume_on_blk l : blk (volume_on d t) l = blk t l.
Proof.
  destruct (decide (0 <= l < 8192)) as [Hl|Hl].
  - rewrite -> (blk_in (volume_on d t) l) by done. cbn [fs_dev volume_on]. rewrite -> (proj2 Hd l Hl). by apply file_sector_image.
  - rw /blk. destruct (Z.leb_spec 0 l); [|done]. destruct (Z.ltb_spec l 8192); [lia|done].
Qed.
Lemma volume_on_reads n : inode_at (volume_on d t) n = inode_at t n /\ block_bitmap (volume_on d t) = block_bitmap t /\
  inode_bitmap (volume_on d t) = inode_bitmap t /\ node_blocks (volume_on d t) (inode_at t n) = node_blocks t (inode_at t n).
Proof. by rw /inode_at /inode_raw /block_bitmap /inode_bitmap /node_blocks !volume_on_blk. Qed.
Lemma volume_on_inv : fs_inv t -> fs_inv (volume_on d t).
Proof.
  intros [Hc Hs1 Hs2]. destruct (volume_on_reads 0) as (_ & Eb & Ei & _).
  destruct Hc. split; [split; rw ?Eb ?Ei ?volume_on_blk; try done; apply Hd|by rw volume_on_blk|by rw volume_on_blk].
Qed.
Lemma volume_on_dir p bs ess : dir_live_at t p bs ess -> dir_live_at (volume_on d t) p bs ess.
Proof.
  intros ([Hn Hm Hp Hnd Hb] & Hbits & Hi). destruct (volume_on_reads p) as (E & Eb & Ei & _). split; [|by rw Eb Ei].
  split; rw ?E; try done. eapply Forall2_impl; [exact Hb|]. intros b es. by rw volume_on_blk.
Qed.
Lemma volume_on_file n ds ids sz c : file_at t n ds ids sz c -> file_at (volume_on d t) n ds ids sz c.
Proof.
  intros []. destruct (volume_on_reads n) as (E & _). split; rw ?E ?volume_on_blk; try done.
  rw fa_data. f_equal. rw /data_of. f_equal. apply map_ext. intros b. by rw volume_on_blk.
Qed.
Lemma volume_on_files n : file_blocks (volume_on d t) n = file_blocks t n.
Proof. rw /file_blocks. by destruct (volume_on_reads n) as (-> & _ & _ & ->). Qed.
Lemma volume_on_view p m : dir_view t p m -> dir_view (volume_on d t) p m.
Proof.
  intros (bs & ess & [Hi Hdl Hu Hslot Hap]). exists bs, ess.
  constructor; [by apply volume_on_inv|by apply volume_on_dir|done| |].
  - intros nm. have Hs := Hslot nm. destruct (m nm); [done| |done]. set (n := dir_lookup _ _) in *.
    destruct (volume_on_reads n) as (E & Eb & Ei & En). destruct Hs as [(ds & ids & Hfa) (Hn & Hbit & Hal & Hdis)].
    split; [exists ds, ids; by apply volume_on_file|]. rw /file_live_at Ei E En. split; [done|]. split; [done|]. split; [|done].
    by rw /allocated Eb.
  - intros x y cx cy Hx Hy Hne. cbv zeta. rw !volume_on_files. by eapply Hap.
Qed.
Lemma volume_on_room p nm n : dir_room t p nm n -> dir_room (volume_on d t) p nm n.
Proof.
  intros (bs & ess & Hdl & Hr & Hfi & Hfb). exists bs, ess. split; [by apply volume_on_dir|]. by split.
Qed.
End Transfer.

(** ** The kernel on the stored image *)
Section Start.
Context {D : Type} `{BlockDeviceLaws D} `{StackJunkLaws} `{Overrun D}.
Variables (L : Image_layout) (ps : Pic * Pic).
Abbreviation mask1 := (fun s => pic_mask (pics ps s).1).
Implicit Types s : Machine D.

(** a machine that is switched on, with the storage file as its disk and the literal ["shell"] *)
Record switched_on s (disk : list Z) : Prop := {
  so_power : power_on s;
  so_disk : holds_file (fs_dev (k_fs (m_kernel s))) disk;
  so_name : mem_load (fs_mem (k_fs (m_kernel s))) (addr_shell_name L) 5 = shell_name;
}.
(** the machine at the jump: the program in memory, the tables, the directory *)
Record running s c (m : list Z -> slot) : Prop := {
  ru_program : mem_load (user_mem (m_kernel s)) 0x400000 (length c) = c;
  ru_tables : tables_ready L ps s;
  ru_dir : dir_view (k_fs (m_kernel s)) ROOT_INODE_NO m;
  ru_tty : mem_ok (user_mem (m_kernel s)) -> exists screen, tty_rel (m_kernel s) (mkTty (mkKeys false false []) screen (user_mem (m_kernel s)));
}.
Lemma view_starts s (t : FS Image) m c : layout_ok L -> overrun_harmless (D:=D) -> switched_on s (image_bytes (fs_dev t)) ->
  dir_view t ROOT_INODE_NO m -> m shell_name = File c -> len c <= 0x100000 ->
  wp (kernel_setup L mask1) (fun r s' => r = EnterUserMode /\ running s' c m /\
    (forall nm n, dir_room t ROOT_INODE_NO nm n -> dir_room (k_fs (m_kernel s')) ROOT_INODE_NO nm n) /\
    mem_eq (user_mem (m_kernel s')) (mem_store (user_mem (m_kernel s)) 0x400000 c)) s.
Proof.
  intros HL Ho [Hon Hd Hn] Hv Hm Hc. set (d := fs_dev (k_fs (m_kernel s))) in *.
  have Hv' := volume_on_view d t Hd _ _ Hv. destruct (Hv') as (bs & ess & [Hi Hdl _ Hslot _]).
  have Hs := Hslot shell_name. rw Hm in Hs. destruct Hs as [(ds & ids & Hfa) _].
  have Hhv : has_volume L s (volume_on d t).
  { split; [apply Hd|exact Hi| |exact Hn]. intros l. by rw /blk. }
  eapply wp_mono; [apply (setup_starts L ps s (volume_on d t) bs ess (dir_lookup (List.concat ess) shell_name) ds ids (len c) c);
    [exact HL|exact Hon|exact Hhv|exact Ho|apply Hdl|done|exact Hfa|exact Hc]|].
  intros r s' (-> & [Ht Hp Hi' Hb Eg Em [Hmo Hcell] Hk [Hrow Hcol]]). split; [done|]. destruct (group0_free _ _ Eg) as [E1 E2].
  split; [|split; [|exact Em]].
  - split; [rewrite -> (mem_load_eq _ _ _ _ Em); apply mem_load_store; [split; lia|done]|exact Ht|by apply (blk_view (volume_on d t))|].
    intros Hmem. exists (mkTerm (cell (k_console (m_kernel s'))) 0 0).
    split; [by rw Hk|by rw Hk|by constructor| |done|done]. split; [done|by split; [|split]|by split].
  - intros nm n Hroom. by apply (blk_room (volume_on d t)), volume_on_room.
Qed.

(** the shell's first session: it activates the keyboard and greets, a line is typed, and one
    round of its loop *)
Variable F : Frame.
Hypothesis HF : frame_ok F.
#[local] Instance session_os : Os (Kernel D) := kernel_os F.
#[local] Instance session_laws : OsLaws (Kernel D) := kernel_laws F HF.
Definition session cmd_wc cmd_testuser find_fuel (line : list Z) (extra : nat) : M (Sh (Kernel D)) unit :=
  sys os_activate_kbd;; banner;; sys (irqs (scancodes (line ++ [10])));;
  shell_loop cmd_wc cmd_testuser find_fuel 1 (length line + Datatypes.S extra).
Lemma session_spec cmd_wc cmd_testuser find_fuel s c m txt name extra : running s c m -> mem_ok (user_mem (m_kernel s)) ->
  Forall plain txt -> Forall plain name -> txt <> [] -> name <> [] ->
  (length txt < 128)%nat -> (length name < 128)%nat -> (length txt + length name <= 248)%nat ->
  Forall (fun c => typeable c = true) (ShellLine.command_line (bytes_of "echo") txt name) -> m name = Absent ->
  dir_room (k_fs (m_kernel s)) ROOT_INODE_NO name (len txt + 1) ->
  wp (session cmd_wc cmd_testuser find_fuel (ShellLine.command_line (bytes_of "echo") txt name) extra)
    (fun _ sh => exists t, ready sh [] t (put_slot name (File (txt ++ [10])) m)) (initial_shell (m_kernel s)).
Proof.
  intros [_ _ Hv Htty] Hmem Ht Hn Nt Nn Lt Ln Ll Hty Hm Hroom. destruct (Htty Hmem) as [t Hrel].
  set (sh := initial_shell (m_kernel s)). rw /session. apply wp_bind, wp_sys.
  eapply wp_mono; [apply (kernel_activate F _ false [] t); [exact (proj1 (view_dev _ _ _ Hv))|exact Hrel]|]. intros [] k (Hsm & Hk).
  have Hr : ready (with_os k sh) [] t m.
  { split; [done|done|done|exact (proj1 Hsm _ _ Hv)|apply length_replicate|apply Forall_replicate; lia]. }
  eapply wp_then; [exact (banner_spec _ _ _ _ Hr)|]. intros [] sh2 (t2 & Hr2 & K2).
  have Hcwd : string_ok (cwd sh2).
  { rw (kept_cwd _ _ K2). split; [by right; left|]. split; [by vm_compute|]. constructor; [lia|apply bytes_ok_zeros]. }
  apply (typed_line_spec F HF cmd_wc cmd_testuser find_fuel sh2 t2 m txt name extra); try done.
  rw (kept_inode _ _ K2). apply (kept_room _ _ K2). exact (proj1 (proj2 Hsm) _ _ _ Hroom).
Qed.
End Start.

(** ** Properties *)
Section Properties.
Context {D : Type} `{BlockDeviceLaws D} `{StackJunkLaws} `{Overrun D} `{Overrun Image}.
Variables (L : Image_layout) (ps : Pic * Pic).
Abbreviation mask1 := (fun s => pic_mask (pics ps s).1).
(** the pointers of the host the inserter runs on; those of the kernel have 32 bits *)
Variables (host_size : Z) (host_min : 2 ^ 32 <= host_size).
Abbreviation host := {| ptr_size := host_size; ptr_size_min := host_min |}.

(** C7: the kernel boots what the inserter stored.  When the inserter is run, on a host with
    pointers of 32 bits or more, with a host file of at most 71680 bytes, the name [shell] and
    the root directory on a storage file that holds a volume with room for it or none at all,
    it ends with status 0 and the storage file has 4 MiB; and every machine
    that is switched on with that storage file as its disk, behind any driver that keeps the
    laws of a block device, reaches the jump to user mode with the host file's bytes at
    0x400000, the tables and interrupts in place, and the root directory as the inserter
    left it.  Provided the two loads of [initialize_filesystem_ext2] that overrun their
    structures (ext2.c, lines 404 and 405) hit nothing the kernel uses, and nothing the
    inserter uses when the storage file is formatted already. *)
Theorem inserted_shell_boots p argv src dest storage image c vm ip fb rb :
  InserterSpec.command_line (PW := host) (fs_mem (volume p)) argv src dest shell_name ROOT_INODE_NO storage -> host_ok (PW := host) p src storage image c ->
  storage_holds image ROOT_INODE_NO shell_name (len c) vm -> loads_harmless image -> vm shell_name <> Other ->
  buffers_ok (PW := host) dest shell_name c fb rb ->
  ip <> 0 -> fb <> 0 -> rb <> 0 -> layout_ok L -> overrun_harmless (D:=D) ->
  wp (Inserter.main (PW := host) argv ip fb rb) (fun status p' => status = 0 /\ exists disk, files p' !! storage = Some disk /\
    len disk = IMAGE_SIZE /\ bytes_ok disk /\ forall s : Machine D, switched_on L s disk ->
      wp (kernel_setup L mask1) (fun r s' => r = EnterUserMode /\ running L ps s' c (put_slot shell_name (File c) vm)) s) p.
Proof.
  intros Hcl Hh Hs Hov Hvm Hb Hip Hfb Hrb HL Ho.
  eapply wp_mono; [by apply (main_spec (PW := host) p argv src dest shell_name ROOT_INODE_NO storage image c vm)|].
  intros status p' (-> & v & Hv & ->). split; [done|]. exists (image_bytes (fs_dev v)). split; [by rw lookup_insert_eq|].
  split; [apply image_bytes_length|]. split; [apply image_bytes_ok; exact (inv_dev _ (inv_core _ (view_inv _ _ _ Hv)))|]. intros s Hso. have Hsz := ok_size (PW := host) _ _ _ _ _ Hb. change max_file_size with 71680 in Hsz.
  eapply wp_mono; [apply (view_starts L ps s v (put_slot shell_name (File c) vm) c HL Ho Hso Hv)|].
  - by rw /put_slot bool_decide_true.
  - lia.
  - intros r s' (-> & Hr & _). by split.
Qed.

(** C5: from power-on to a saved file.  A machine whose disk holds a volume with a shell of at
    most 1 MiB boots, provided the two loads of [initialize_filesystem_ext2] that overrun their
    structures (ext2.c, lines 404 and 405) hit nothing the file system uses;
    when the shell then activates the keyboard and greets, and [echo text file] is typed,
    one round of its loop leaves the text in the file, in the root directory that was on the
    disk at the start and is otherwise unchanged.  Kernel, interrupts, system calls, file
    system and driver take part through their models. *)
Theorem power_on_to_saved_file F cmd_wc cmd_testuser find_fuel s (t : FS Image) m c txt name extra : frame_ok F -> layout_ok L ->
  overrun_harmless (D:=D) -> switched_on L s (image_bytes (fs_dev t)) -> mem_ok (user_mem (m_kernel s)) ->
  dir_view t ROOT_INODE_NO m -> m shell_name = File c -> len c <= 0x100000 -> bytes_ok c ->
  Forall plain txt -> Forall plain name -> txt <> [] -> name <> [] ->
  (length txt < 128)%nat -> (length name < 128)%nat -> (length txt + length name <= 248)%nat ->
  Forall (fun c => typeable c = true) (ShellLine.command_line (bytes_of "echo") txt name) ->
  m name = Absent -> dir_room t ROOT_INODE_NO name (len txt + 1) ->
  wp (kernel_setup L mask1) (fun r s' => r = EnterUserMode /\
    wp (session F cmd_wc cmd_testuser find_fuel (ShellLine.command_line (bytes_of "echo") txt name) extra)
      (fun _ sh => dir_view (k_fs (sh_os sh)) (current_dir_inode sh) (put_slot name (File (txt ++ [10])) m))
      (initial_shell (m_kernel s'))) s.
Proof.
  intros HF HL Ho Hso Hmem Hv Hm Hc Hcb Ht Hn Nt Nn Lt Ln Ll Hty Hab Hroom.
  eapply wp_mono; [by apply (view_starts L ps s t m c)|]. intros r s' (-> & Hr & Hrooms & Em). split; [done|].
  eapply wp_mono; [apply (session_spec L ps F HF cmd_wc cmd_testuser find_fuel s' c m txt name extra Hr); try done|].
  - intros a Ha. rewrite -> (Em a Ha). by apply mem_store_ok.
  - by apply Hrooms.
  - intros [] sh (t' & Hready). apply Hready.
Qed.
End Properties.

(** ** The reference drive on the stored image *)
#[local] Instance drive_overrun : Overrun AtaView := {| overrun_superblock _ s := Ok s; overrun_bgdt _ s := Ok s |}.
Lemma drive_overrun_harmless : overrun_harmless (D:=AtaView).
Proof. split; intros b s; by exists s. Qed.
Definition drive_with (disk : list Z) : AtaView := mkAta (file_sector disk) Idle 0 0 0 0 0 1.
Lemma drive_holds disk : len disk = IMAGE_SIZE -> bytes_ok disk -> holds_file (drive_with disk) disk.
Proof.
  rw image_size. intros Hl Hb. split; [|done]. split; [done|]. split; [cbn; lia|]. intros l Hr. change (0 <= l < 8192) in Hr.
  split; [|by apply bytes_ok_take, bytes_ok_drop]. change (len (file_sector disk l) = 512).
  rw /file_sector length_take length_drop. lia.
Qed.
Lemma drive_on disk : len disk = IMAGE_SIZE -> bytes_ok disk -> switched_on demo_layout (demo_machine (drive_with disk)) disk.
Proof.
  intros Hl Hb. split; [apply demo_power_on|by apply drive_holds|]. change (mem_load shell_mem 256 5 = shell_name). by vm_compute.
Qed.
Lemma inserted_shell_boots_witness :
  wp (Inserter.main (PW := host64_ptr) host_argv 1 BUFFERS (BUFFERS + 0x100000)) (fun status p' => status = 0 /\ exists (s : Machine AtaView) disk,
    files p' !! storage_path = Some disk /\ switched_on demo_layout s disk /\
    wp (kernel_setup demo_layout (fun s => pic_mask (pics demo_pics s).1)) (fun r s' => r = EnterUserMode /\
      running demo_layout demo_pics s' shell_file (put_slot shell_name (File shell_file) root_slots)) s) host_process.
Proof.
  eapply wp_mono; [apply (inserted_shell_boots (D:=AtaView) demo_layout demo_pics (2 ^ 64) (@ptr_size_min host64_ptr) host_process host_argv shell_path (ARGUMENTS + 6) storage_path blank_file
    shell_file root_slots 1 BUFFERS (BUFFERS + 0x100000) host_command_line host_files (blank_storage _ _) blank_loads); try done|].
  - exact host_buffers.
  - exact demo_layout_ok.
  - exact drive_overrun_harmless.
  - intros status p' (-> & disk & Ef & Hl & Hb & Hboot). split; [done|]. exists (demo_machine (drive_with disk)), disk.
    have Hso := drive_on disk Hl Hb. split; [exact Ef|]. split; [exact Hso|]. by apply Hboot.
Defined.

(** the formatted volume with a shell of 1000 bytes *)
Definition shell_entries (ino : Z) : list dentry :=
  [ mkDentry 2 [46] EXT2_FT_DIR (zeros 3); mkDentry 2 [46; 46] EXT2_FT_DIR (zeros 2);
    mkDentry ino shell_name EXT2_FT_REG_FILE (zeros 475) ].
Lemma shell_entries_eq ino : dirs_insert [root_entries] ino shell_name EXT2_FT_REG_FILE = Some [shell_entries ino].
Proof. reflexivity. Qed.
Lemma shell_volume : exists (t : FS Image) c, dir_view t ROOT_INODE_NO (put_slot shell_name (File c) root_slots) /\
  length c = 1000%nat /\ bytes_ok c /\ dir_room t ROOT_INODE_NO (bytes_of "note") 3.
Proof.
  have Hv : view blank_volume ROOT_INODE_NO [ROOT_DIR_BLOCK_LBA] [root_entries] root_slots.
  { apply (view_blk demo_fs); [|exact (mo_blk _ _ blank_volume_only)|exact demo_root_view]. exact (mem_only_fs_inv _ _ demo_inv blank_volume_only). }
  destruct (wp_elim _ _ _ (write_view blank_volume (demo_request 1000) _ _ _ _ shell_name Hv eq_refl
    shell_file_request shell_nm eq_refl eq_refl (proj1 demo_free) ltac:(discriminate)
    (proj2 (proj2 demo_free) 1000 ltac:(lia)))) as (code & t & _ & _ & Em & Hfi & Hfb & ess' & ino & Hins & Hv').
  rw shell_entries_eq in Hins. injection Hins as <-. exists t, (request_data blank_volume (demo_request 1000)).
  split; [by eexists _, _|]. split; [apply mem_load_length|]. split; [apply mem_load_ok, shell_mem_ok|].
  exists [ROOT_DIR_BLOCK_LBA], [shell_entries ino]. split; [apply Hv'|]. split; [by vm_compute|].
  destruct demo_counts as [Eb Ei]. change (free_inodes blank_volume) with (free_inodes demo_fs) in Hfi.
  change (free_blocks blank_volume) with (free_blocks demo_fs) in Hfb. rw Ei in Hfi. rw Eb in Hfb. split; [lia|].
  rw /blocks_taken /blocks_needed. cbn [buffer_size]. change (12 <? _) with false. change (Z.min _ 140) with 1. cbv iota. lia.
Qed.
Lemma power_on_to_saved_file_witness : exists (s : Machine AtaView) (t : FS Image) m, switched_on demo_layout s (image_bytes (fs_dev t)) /\
  dir_view t ROOT_INODE_NO m /\
  wp (kernel_setup demo_layout (fun s => pic_mask (pics demo_pics s).1)) (fun r s' => r = EnterUserMode /\
    wp (session demo_frame (fun _ => mret tt) (mret tt) 0 (ShellLine.command_line (bytes_of "echo") [104; 105] (bytes_of "note")) 0)
      (fun _ sh => dir_view (k_fs (sh_os sh)) (current_dir_inode sh) (put_slot (bytes_of "note") (File [104; 105; 10]) m))
      (initial_shell (m_kernel s'))) s.
Proof.
  destruct shell_volume as (t & c & Hv & Hl & Hb & Hroom). set (m := put_slot shell_name (File c) root_slots) in *.
  have Hd := inv_dev _ (inv_core _ (view_inv _ _ _ Hv)).
  have Hso := drive_on (image_bytes (fs_dev t)) (image_bytes_length _) (image_bytes_ok _ Hd).
  exists (demo_machine (drive_with (image_bytes (fs_dev t)))), t, m. split; [exact Hso|]. split; [exact Hv|].
  apply (power_on_to_saved_file (D:=AtaView) demo_layout demo_pics demo_frame (fun _ => mret tt) (mret tt) 0 _ t m c
    [104; 105] (bytes_of "note") 0 demo_frame_ok demo_layout_ok drive_overrun_harmless); try done.
  - exact shell_mem_ok.
  - rw Hl. lia.
  - by repeat constructor.
  - by repeat constructor.
  - cbn. lia.
  - cbn. lia.
  - cbn. lia.
  - by repeat constructor.
Defined.
