(* ===== verification/ShellPipe.v ===== *)
(** * A pipeline of the shell: [cat file | grep word]

    The output of the first command goes to the buffer of the pipe, at most 4095 bytes of it;
    the second reads the buffer line by line and prints the lines that contain the word. *)

From Stdlib Require Import String.
From S2P Require Import Prelude StdString BlockDevice Ext2Layout Ext2Dir Ext2State Ext2 Ext2Inv Ext2Format Ext2Files Ext2Data Ext2Crud Inserter Ext2Theorems Ext2View Keyboard Console Interrupt Syscalls ShellStr Shell ShellCmd ShellMain ShellSpec ShellLine ShellKernel.

(** ** The pipe buffer *)
(** [out] was written to the pipe *)
Record pipe_holds (p : Pipe) (out : list Z) : Prop := {
  ph_out : exists rest, pipe_output_buffer p = out ++ rest /\ (length out + length rest = 4096)%nat;
  ph_len : pipe_output_len p = len out;
  ph_room : (length out <= 4095)%nat;
  ph_in : length (pipe_input_buffer p) = 4096%nat;
  ph_mode : pipe_mode_output p = true;
}.
Lemma take_take_app {A} (n : nat) (x y : list A) : take n (take n x ++ y) = take n (x ++ y).
Proof.
  destruct (decide (length x < n)%nat).
  - by rewrite -> (take_ge x) by lia.
  - rewrite -> !take_app_le, take_take by (rw ?length_take; lia). by rw Nat.min_id.
Qed.
Lemma pipe_put_spec p out c : pipe_holds p out -> exists p', pipe_put c p = Ok p' /\ pipe_holds p' (take 4095 (out ++ [c])) /\
  pipe_mode_input p' = pipe_mode_input p.
Proof.
  intros [(rest & Eb & Hl) En Hr Hi Hm]. rw /pipe_put En. change (PIPE_BUFFER_SIZE - 1) with 4095.
  destruct (Z.ltb_spec (len out) 4095) as [Hlt|Hge].
  - destruct rest as [|x rest]; [cbn in Hl; lia|]. rw Eb. rewrite -> (set_app out rest x c) by done. cbn [mbind res_bind].
    eexists. split; [reflexivity|]. split; [|done]. rewrite -> take_ge by (rw length_app /=; lia). cbn [length] in Hl.
    split; cbn [pipe_output_buffer pipe_output_len pipe_input_buffer pipe_mode_output]; try done.
    + exists rest. rw -app_assoc length_app /=. split; [done|lia].
    + rw length_app /=. lia.
    + rw length_app /=. lia.
  - exists p. split; [done|]. split; [|done]. rewrite -> take_app_le, take_ge by lia. split; try done. by exists rest.
Qed.
Lemma pipe_puts_spec str : forall p out, pipe_holds p out -> exists p', pipe_puts str p = Ok p' /\ pipe_holds p' (take 4095 (out ++ str)) /\
  pipe_mode_input p' = pipe_mode_input p.
Proof.
  induction str as [|c str IH] => p out Hp; cbn [pipe_puts].
  - exists p. split; [done|]. rewrite -> app_nil_r, take_ge by apply (ph_room _ _ Hp). done.
  - destruct (pipe_put_spec p out c Hp) as (p1 & -> & H1 & M1). cbn [mbind res_bind]. destruct (IH p1 _ H1) as (p2 & -> & H2 & M2).
    exists p2. split; [done|]. rewrite -> take_take_app, <- app_assoc in H2. split; [exact H2|congruence].
Qed.

(** ** Lines *)
(** the lines of a text; the last one may lack its newline *)
Fixpoint lines_from (cur : list Z) (l : list Z) : list (list Z) :=
  match l with
  | [] => match cur with [] => [] | _ => [cur] end
  | c :: l => if c =? 10 then cur :: lines_from [] l else lines_from (cur ++ [c]) l
  end.
Definition text_lines (l : list Z) : list (list Z) := lines_from [] l.
Lemma lines_cut a : forall cur r, Forall (fun c => c <> 10) a -> lines_from cur (a ++ r) = lines_from (cur ++ a) r.
Proof.
  induction a as [|c a IH] => cur r Ha; [by rw app_nil_r|]. inversion_clear Ha as [|? ? Hc Ha']. cbn [lines_from app].
  rewrite -> (proj2 (Z.eqb_neq c 10)) by done. rw IH //. by rw -app_assoc.
Qed.
(** a text is empty, or a line and the rest behind its newline *)
Lemma line_cases l : exists a r, l = a ++ r /\ Forall (fun c => c <> 10) a /\ (r = [] \/ exists r', r = 10 :: r').
Proof.
  induction l as [|c l (a & r & -> & Ha & Hr)]; [exists [], []; by split; [|split; [|left]]|].
  destruct (Z.eqb_spec c 10) as [->|Hc]; [exists [], (10 :: a ++ r); split; [done|]; split; [done|right; by eexists]|].
  exists (c :: a), r. split; [done|]. split; [by constructor|done].
Qed.
Lemma text_lines_cut a r : Forall (fun c => c <> 10) a -> (r = [] \/ exists r', r = 10 :: r') -> a ++ r <> [] ->
  text_lines (a ++ r) = a :: text_lines (tl r).
Proof.
  intros Ha Hr Hne. rw /text_lines lines_cut //. cbn [app]. destruct Hr as [->|[r' ->]]; [|done].
  cbn [lines_from tl]. by destruct a.
Qed.

(** ** Substrings, decided *)
#[global] Instance occurs_at_dec h nd i : Decision (occurs_at h nd i).
Proof. rw /occurs_at. apply _. Defined.
Definition contains (nd h : list Z) : bool :=
  (length nd <=? length h)%nat && existsb (fun i => bool_decide (occurs_at h nd i)) (seq 0 (Datatypes.S (length h - length nd))).
Lemma contains_spec nd h : contains nd h = true <-> infix nd h.
Proof.
  rw /contains. rewrite -> andb_true_iff, Nat.leb_le, existsb_exists. split.
  - intros (Hl & i & Hi%in_seq & Ho%bool_decide_eq_true). apply occurs_infix; [done|]. exists i. split; [lia|done].
  - intros Hx. have Hl : (length nd <= length h)%nat by destruct Hx as (a & b & ->); rw !length_app; lia.
    split; [done|]. apply occurs_infix in Hx as (i & Hi & Ho); [|done]. exists i. split; [apply in_seq; lia|by apply bool_decide_eq_true].
Qed.
#[global] Instance infix_dec nd h : Decision (infix nd h).
Proof. destruct (contains nd h) eqn:E; [left|right]; rw -contains_spec E; done. Defined.

(** ** The line and its two commands *)
Definition pipe_line (name w : list Z) : list Z := bytes_of "cat " ++ name ++ 32 :: 124 :: 32 :: bytes_of "grep " ++ w.
Definition wordy (c : Z) : Prop := c <> 0 /\ c <> 124.
Lemma split_skip a x cmds : forall pre n, Forall wordy a -> (length a < n)%nat ->
  split_pipes n (pre ++ a ++ x) (len pre) cmds = split_pipes (n - length a) (pre ++ a ++ x) (len (pre ++ a)) cmds.
Proof.
  induction a as [|c a IH] => pre n Ha Hn; [by rw app_nil_r Nat.sub_0_r|]. cbn [length] in Hn. destruct n as [|n]; [lia|].
  inversion_clear Ha as [|? ? [H0 H124] Ha']. cbn [split_pipes app length Nat.sub]. rewrite -> get_app by done. cbn [mbind res_bind].
  rw (proj2 (Z.eqb_neq _ _) H0) (proj2 (Z.eqb_neq _ _) H124). have -> : len pre + 1 = len (pre ++ [c]) by rw length_app /=; lia.
  have -> : pre ++ c :: a ++ x = (pre ++ [c]) ++ a ++ x by rw -app_assoc. rewrite -> IH by (done || lia). by rw -!app_assoc.
Qed.
Lemma split_two a g c rest n : Forall wordy a -> Forall wordy (c :: g) -> c <> 32 -> (length a + length g + 3 < n)%nat ->
  split_pipes n (a ++ 124 :: 32 :: c :: g ++ 0 :: rest) 0 [0] = Ok (a ++ 0 :: 32 :: c :: g ++ 0 :: rest, [0; len a + 2]).
Proof.
  intros Ha Hg Hc Hn. have E := split_skip a (124 :: 32 :: c :: g ++ 0 :: rest) [0] [] n Ha. cbn [app length] in E. change (Z.of_nat 0) with 0 in E. rewrite -> E by lia. clear E.
  destruct (n - length a)%nat as [|n'] eqn:En; [lia|]. cbn [split_pipes]. rewrite -> get_app by done. cbn [mbind res_bind Z.eqb Pos.eqb].
  rewrite -> set_app by done. cbn [mbind res_bind]. set (b := a ++ 0 :: 32 :: c :: g ++ 0 :: rest).
  have Eb : b = (a ++ [0]) ++ (32 :: c :: g) ++ 0 :: rest by rw -app_assoc.
  have Hz : Forall (fun c => c <> 0) (32 :: c :: g).
  { constructor; [done|]. eapply Forall_impl; [exact Hg|]. intros x Hx. apply Hx. }
  destruct (skip_spaces_spec (32 :: c :: g) (a ++ [0]) rest (Datatypes.S (length b)) (len a + 1) Hz) as (pre' & E1 & E2);
    [rw Eb !length_app /=; lia|rw length_app /=; lia|].
  rw -Eb in E2. rw E2. cbn [mbind res_bind]. cbn [drop_spaces Z.eqb Pos.eqb] in E1. rewrite -> (proj2 (Z.eqb_neq c 32)) in E1 by done.
  have Hpre : pre' = (a ++ [0]) ++ [32].
  { have E : (a ++ [0]) ++ [32] ++ c :: g = pre' ++ c :: g by exact E1. rw app_assoc in E. by apply app_inv_tail in E. }
  subst pre'. have Ek : len ((a ++ [0]) ++ [32]) = len a + 2 by rw !length_app /=; lia. rw Ek.
  have Eb2 : b = ((a ++ [0]) ++ [32]) ++ (c :: g) ++ 0 :: rest by rw -!app_assoc.
  have Eg : arr_get b (len a + 2) = Ok c by rw Eb2; apply (get_app _ (g ++ 0 :: rest)); by rw Ek.
  rw Eg. cbn [mbind res_bind]. rw Eb2. inversion_clear Hg as [|? ? [H0 H124] Hg'].
  rewrite -> (proj2 (Z.eqb_neq c 0)) by done. change (1 <? 8)%nat with true. cbn [negb andb length].
  have Hp := split_plain (c :: g) ((a ++ [0]) ++ [32]) rest ([0] ++ [len a + 2]) n'. rw Ek in Hp. apply Hp; [by constructor|cbn; lia].
Qed.
Lemma words_pair cmd a post : Forall plain cmd -> Forall plain a -> cmd <> [] -> a <> [] -> (post = [] \/ post = [32]) ->
  three_words (cmd ++ 32 :: a ++ post) = (cmd, a, []).
Proof.
  intros Hc Ha Nc Na Hp. rw /three_words. rewrite -> drop_spaces_plain, word_plain by auto. cbn [drop_spaces Z.eqb Pos.eqb].
  rewrite -> drop_spaces_plain, word_plain by (try done; destruct Hp as [-> | -> ]; auto). by destruct Hp as [-> | -> ].
Qed.
Lemma fill_loop_spec (v : Z) (d : list Z) (k : nat) : 0 <= v < 256 -> forall i : nat, (i + k <= length d)%nat ->
  fill_loop k (replicate i v ++ drop i d) (Z.of_nat i) v = Ok (replicate (i + k) v ++ drop (i + k) d).
Proof.
  intros Hv. induction k as [|k IH] => i Hi; cbn [fill_loop]; [by rw Nat.add_0_r|]. rewrite -> (u8_id v) by lia.
  have Hn := set_next (replicate i v) d (Z.of_nat i) v. rw length_replicate in Hn. rewrite -> Hn by lia. cbn [mbind res_bind].
  have -> : replicate i v ++ [v] = replicate (Datatypes.S i) v by rw -replicate_S_end. rw length_replicate.
  have -> : Z.of_nat i + 1 = Z.of_nat (Datatypes.S i) by lia. rewrite -> IH by lia. by rw -Nat.add_succ_comm.
Qed.

(** ** Commands that do not look at the pipe *)
Section Pipe.
Context {S : Type} `{OsLaws S}.
Variables (cmd_wc : list Z -> M (Sh S) unit) (cmd_testuser : M (Sh S) unit) (find_fuel : nat).
Implicit Types s : Sh S.
Definition with_pipe (p : Pipe) s : Sh S :=
  mkSh (sh_os s) p (sh_find s) (current_dir_inode s) (cwd s) (dir_buffer s) (file_buffer s).
Definition blind {A} (x : M (Sh S) A) : Prop := forall p s,
  x (with_pipe p s) = match x s with Ok (a, s') => Ok (a, with_pipe p s') | UB => UB | NoFuel => NoFuel end.
Lemma wp_blind {A} (x : M (Sh S) A) p s Q : blind x -> wp x (fun a s' => Q a (with_pipe p s')) s -> wp x Q (with_pipe p s).
Proof. intros Hx. rw /wp (Hx p s). by destruct (x s) as [[a s']| |]. Qed.
Lemma blind_bind {A B} (x : M (Sh S) A) (f : A -> M (Sh S) B) : blind x -> (forall a, blind (f a)) -> blind (x ≫= f).
Proof. intros Hx Hf p s. rw /mbind /M_bind (Hx p s). destruct (x s) as [[a s']| |]; [apply Hf|done|done]. Qed.
Lemma blind_lift {A} (r : res A) : blind (lift r).
Proof. intros p s. by destruct r. Qed.
Lemma blind_sys {A} (x : M S A) : blind (sys x).
Proof. intros p s. rw /sys. cbn [sh_os with_pipe]. by destruct (x (sh_os s)) as [[a o]| |]. Qed.
Lemma blind_ret {A} (a : A) : blind (mret a).
Proof. done. Qed.
Lemma get_file_size_blind name i : blind (get_file_size name i).
Proof.
  apply blind_bind; [apply blind_lift|]. intros nm. apply blind_bind; [apply blind_sys|]. intros [ret out].
  destruct (negb _); apply blind_ret.
Qed.
Lemma read_file_blind name i n : blind (read_file name i n).
Proof.
  apply blind_bind; [apply blind_lift|]. intros nm. apply blind_bind; [done|]. intros b. apply blind_bind; [apply blind_lift|].
  intros bs. apply blind_bind; [apply blind_sys|]. intros [ret bs']. apply blind_bind; [apply blind_lift|]. intros b'.
  by apply blind_bind.
Qed.

(** ** [cat] into the pipe *)
Definition keep_cr (c : list Z) : list Z := List.filter (fun ch => negb (ch =? 13)) c.
Lemma keep_cr_all (P : Z -> Prop) c : Forall P c -> Forall P (keep_cr c).
Proof. rewrite !List.Forall_forall. intros Hc x [Hx _]%filter_In. by apply Hc. Qed.
Definition in_pipe s out s' : Prop := exists p, s' = with_pipe p s /\ pipe_holds p out /\ pipe_mode_input p = false.
Lemma putchar_piped s p out c color : pipe_holds p out -> pipe_mode_input p = false ->
  wp (putchar c color) (fun _ s' => in_pipe s (take 4095 (out ++ [c])) s') (with_pipe p s).
Proof.
  intros Hp Hi. apply wp_bind, wp_gets. cbn [sh_pipe with_pipe]. rw (ph_mode _ _ Hp).
  destruct (pipe_put_spec p out c Hp) as (p' & E & Hp' & Hi'). apply wp_bind. eapply wp_lift; [exact E|]. apply wp_modify.
  exists p'. split; [done|]. split; [done|congruence].
Qed.
Lemma puts_piped s p out str color : pipe_holds p out -> pipe_mode_input p = false -> string_ok str ->
  wp (puts str color) (fun _ s' => in_pipe s (take 4095 (out ++ cstr str)) s') (with_pipe p s).
Proof.
  intros Hp Hi Hs. destruct (cstr_strlen str Hs) as [E1 E2]. apply wp_bind, wp_gets, wp_bind. eapply wp_lift; [exact E1|].
  cbn [sh_pipe with_pipe]. rw (ph_mode _ _ Hp) Nat2Z.id E2. destruct (pipe_puts_spec (cstr str) p out Hp) as (p' & E & Hp' & Hi').
  apply wp_bind. eapply wp_lift; [exact E|]. apply wp_modify. exists p'. split; [done|]. split; [done|congruence].
Qed.
Lemma cat_loop_piped s rest c : forall done p out, file_buffer s = done ++ c ++ rest -> pipe_holds p out -> pipe_mode_input p = false ->
  wp (cat_loop (length c) (len done)) (fun _ s' => in_pipe s (take 4095 (out ++ keep_cr c)) s') (with_pipe p s).
Proof.
  induction c as [|ch c IH] => done p out Eb Hp Hi; cbn [cat_loop length].
  { apply wp_ret. exists p. rewrite -> app_nil_r, take_ge by apply (ph_room _ _ Hp). done. }
  apply wp_bind, wp_gets, wp_bind. eapply wp_lift; [cbn [file_buffer with_pipe]; rw Eb; by apply get_app|].
  have En : len done + 1 = len (done ++ [ch]) by rw length_app /=; lia.
  have Eb' : file_buffer s = (done ++ [ch]) ++ c ++ rest by rw Eb -app_assoc.
  cbn [keep_cr List.filter]. destruct (ch =? 13); cbn [negb].
  - apply wp_bind, wp_ret. rw En. by apply IH.
  - eapply wp_then; [by apply (putchar_piped s p out)|]. intros [] s1 (p1 & -> & Hp1 & Hi1). rw En.
    eapply wp_mono; [by apply (IH (done ++ [ch]) p1)|]. intros [] s2 Hs2. by rewrite -> take_take_app, <- app_assoc in Hs2.
Qed.
(** what [cat] shows: the file without its carriage returns, ended by a newline *)
Definition cat_text (c : list Z) : list Z := keep_cr c ++ match last c with Some 10 | None => [] | _ => [10] end.
Lemma cmd_cat_piped s q t m name c p : ready s q t m -> name_str name -> m (cstr name) = File c -> content_ok c ->
  pipe_holds p [] -> pipe_mode_input p = false ->
  wp (cmd_cat name) (fun _ s' => exists s1, ready s1 q t m /\ kept s s1 /\ in_pipe s1 (take 4095 (cat_text c)) s') (with_pipe p s).
Proof.
  intros Hr Hn Hm Hc Hp Hi. rw /cmd_cat. apply wp_first; [done|]. intros a ->. apply wp_bind, wp_gets.
  apply wp_bind, wp_blind; [apply get_file_size_blind|]. cbn [current_dir_inode with_pipe].
  eapply wp_mono; [apply (get_file_size_spec s q t m); try done; [by rw Hm|by intros c'; rw Hm; intros [= <-]]|].
  intros r s1 (-> & Hr1 & [Ei1 Hk1 Hw1] & _). rw Hm. destruct (Hc) as [Hl Hb].
  rewrite -> (proj2 (Z.ltb_ge _ _)), (proj2 (Z.ltb_ge _ _)) by lia. rw -Ei1. apply wp_bind, wp_blind; [apply read_file_blind|].
  eapply wp_mono; [by apply (read_buffer s1 q t m name c)|]. intros r s2 (-> & Hr2 & K2 & (rest & Eb)). cbn [Z.eqb].
  have K : kept s s2 by eapply kept_trans; [by split|exact K2].
  rw Nat2Z.id. eapply wp_then; [by apply (cat_loop_piped s2 rest c [] p [])|]. cbn [app]. intros [] s3 (p3 & -> & Hp3 & Hi3).
  rw /cat_text. destruct (last c) as [x|] eqn:Elast.
  - apply last_Some in Elast as [c0 ->]. rewrite -> length_app in *. cbn [length] in *.
    rewrite -> (proj2 (Z.ltb_lt _ _)) by lia. apply wp_bind, wp_gets, wp_bind.
    have El : Z.of_nat (length c0 + 1) - 1 = len c0 by lia.
    eapply wp_lift; [cbn [file_buffer with_pipe]; rw Eb -app_assoc El; by apply get_app|].
    have Edec : (x =? 10) = true \/ (x =? 10) = false /\ match x with 10 => [] | _ => [10] end = [10].
    { destruct (Z.eqb_spec x 10); [by left|right]. split; [done|]. repeat (case_match; try done). }
    destruct Edec as [E10|[-> ->]].
    + rw E10. apply Z.eqb_eq in E10. subst x. rw app_nil_r. apply wp_ret. exists s2. split; [done|]. split; [done|]. by exists p3.
    + eapply wp_mono; [by apply (puts_piped s2 p3 _ newline WHITE Hp3 Hi3 newline_ok)|]. change (cstr newline) with [10].
      intros [] s4 Hs4. exists s2. split; [done|]. split; [done|]. by rewrite -> take_take_app in Hs4.
  - apply last_None in Elast. subst c. cbn [length]. apply wp_ret. exists s2. split; [done|]. split; [done|]. by exists p3.
Qed.

(** ** Lines from the pipe *)
(** the rest [l] of a text is waiting in the pipe *)
Record pipe_waits (p : Pipe) (l : list Z) : Prop := {
  pw_in : exists pre rest, pipe_input_buffer p = pre ++ l ++ rest /\ pipe_input_pos p = len pre /\ pipe_input_len p = len pre + len l;
  pw_mode_in : pipe_mode_input p = true;
  pw_mode_out : pipe_mode_output p = false;
}.
Lemma pipe_waits_next p c l : pipe_waits p (c :: l) ->
  ((pipe_input_pos p <? pipe_input_len p) = true) /\ arr_get (pipe_input_buffer p) (pipe_input_pos p) = Ok c /\
  pipe_waits (set_pos (pipe_input_pos p + 1) p) l.
Proof.
  intros [(pre & rest & Eb & Ep & El) Hi Ho]. cbn [length] in El. split; [apply Z.ltb_lt; lia|]. split; [rw Eb; by apply get_app|].
  split; [|done|done]. exists (pre ++ [c]), rest. cbn [pipe_input_buffer pipe_input_pos pipe_input_len set_pos].
  rw Eb -app_assoc length_app /=. split; [done|]. split; lia.
Qed.
Lemma pipe_waits_nil p : pipe_waits p [] -> (pipe_input_pos p <? pipe_input_len p) = false.
Proof. intros [(pre & rest & Eb & Ep & El) _ _]. cbn [length] in El. apply Z.ltb_ge. lia. Qed.
Lemma getline_loop_spec buf r a : length buf = 256%nat -> (r = [] \/ exists r', r = 10 :: r') ->
  forall n cur p, pipe_waits p (a ++ r) -> Forall (fun c => c <> 10) a -> (length cur + length a < 255)%nat -> (length a < n)%nat ->
  exists p', getline_loop n (cur ++ drop (length cur) buf) (len cur) 256 p =
      Ok ((cur ++ a) ++ drop (length (cur ++ a)) buf, len (cur ++ a), p') /\ pipe_waits p' (tl r).
Proof.
  intros Hb Hr. change (u32 (256 - 1)) with 255. induction a as [|c a IH] => n cur p Hp Ha Hl Hn; (destruct n as [|n]; [lia|]);
    cbn [getline_loop length] in Hl, Hn |- *; change (u32 (256 - 1)) with 255; (rewrite -> (proj2 (Z.ltb_lt (len cur) 255)) by lia).
  - rw app_nil_r. destruct Hr as [->|[r' ->]]; cbn [app] in Hp.
    + rewrite -> (pipe_waits_nil _ Hp). cbn [andb]. by exists p.
    + destruct (pipe_waits_next _ _ _ Hp) as (-> & -> & Hp'). cbn [andb mbind res_bind Z.eqb Pos.eqb]. by eexists.
  - inversion_clear Ha as [|? ? Hc Ha']. cbn [app] in Hp. destruct (pipe_waits_next _ _ _ Hp) as (-> & -> & Hp'). cbn [andb mbind res_bind].
    rewrite -> (proj2 (Z.eqb_neq c 10)) by done. rewrite -> set_next by lia. cbn [mbind res_bind].
    have -> : len cur + 1 = len (cur ++ [c]) by rw length_app /=; lia.
    destruct (IH n (cur ++ [c]) _ Hp' Ha') as (p' & E & Hw); [rw length_app /=; lia|lia|]. exists p'. rw E -!app_assoc. by split.
Qed.
(** one line into the buffer; there is more unless the text ends here *)
Lemma pipe_getline_spec s p buf a r Q : length buf = 256%nat -> pipe_waits p (a ++ r) -> (r = [] \/ exists r', r = 10 :: r') ->
  Forall (fun c => c <> 10) a -> (length a < 255)%nat -> a ++ r <> [] ->
  (forall p', pipe_waits p' (tl r) -> Q (bool_decide (a <> [] \/ tl r <> []), put a buf) (with_pipe p' s)) ->
  wp (pipe_getline buf 256) Q (with_pipe p s).
Proof.
  intros Hb Hp Hr Ha Hl Hne HQ. apply wp_bind, wp_gets. cbn [sh_pipe with_pipe]. rw (pw_mode_in _ _ Hp). cbn [negb orb].
  have Hlt : pipe_input_pos p < pipe_input_len p.
  { destruct (a ++ r) as [|c l] eqn:E; [done|]. by destruct (pipe_waits_next _ _ _ Hp) as (?%Z.ltb_lt & _). }
  rewrite -> (proj2 (Z.leb_gt _ _)) by done. change (Z.to_nat 256) with 256%nat.
  destruct (getline_loop_spec buf r a Hb Hr 256%nat [] p Hp Ha) as (p' & E & Hw); [cbn; lia|lia|]. cbn [app length drop] in E.
  apply wp_bind. eapply wp_lift; [exact E|]. apply wp_bind, wp_modify, wp_bind.
  eapply wp_lift; [apply set_next; [done|lia]|]. apply wp_ret.
  have -> : (a ++ [0]) ++ drop (length (a ++ [0])) buf = put a buf.
  { rw /put -app_assoc length_app /=. do 3 f_equal. lia. }
  have -> : (0 <? len a) || (pipe_input_pos p' <? pipe_input_len p') = bool_decide (a <> [] \/ tl r <> []); [|by apply HQ].
  destruct (tl r) as [|c l] eqn:Er.
  - rewrite -> (pipe_waits_nil _ Hw), orb_false_r. apply eq_true_iff_eq. rewrite -> Z.ltb_lt, bool_decide_eq_true. destruct a; cbn [length]; (split; [intros; try lia; by left|intros [?|?]; [lia || done|done]]).
  - destruct (pipe_waits_next _ _ _ Hw) as (-> & _). rw orb_true_r. symmetry. apply bool_decide_eq_true. by right.
Qed.
Lemma pipe_getline_end s p buf Q : pipe_waits p [] -> Q (false, buf) (with_pipe p s) -> wp (pipe_getline buf 256) Q (with_pipe p s).
Proof.
  intros Hp HQ. apply wp_bind, wp_gets. cbn [sh_pipe with_pipe]. rw (pw_mode_in _ _ Hp).
  have Hge := pipe_waits_nil _ Hp. apply Z.ltb_ge in Hge. rewrite -> (proj2 (Z.leb_le _ _)) by done. by apply wp_ret.
Qed.

(** ** [grep] on the pipe *)
Definition print_line (t : Term) (ln : list Z) : Term := t_puts [10] WHITE (t_puts ln WHITE t).
(** the lines that contain the word, one after another *)
Definition print_matches (w l : list Z) (t : Term) : Term := foldl print_line t (List.filter (contains w) (text_lines l)).
Definition grepped s q t l s' : Prop := exists p o, s' = with_pipe p (with_os o s) /\ os_same (sh_os s) o /\ os_tty o q t /\ pipe_waits p l.
Lemma grep_line_spec s q t ln w p l : pipe_waits p l -> os_tty (sh_os s) q t -> string_ok ln -> string_ok w ->
  wp (grep_line ln w) (fun _ s' => grepped s q (if contains (cstr w) (cstr ln) then print_line t (cstr ln) else t) l s') (with_pipe p s).
Proof.
  intros Hp Ht Hln Hw. have Ho := pw_mode_out _ _ Hp.
  destruct (str_contains_spec ln w) as (b & E & Hb); [apply Hln|apply Hw|destruct Hln as (_ & ? & _); lia|destruct Hw as (_ & ? & _); lia|].
  have -> : contains (cstr w) (cstr ln) = b by apply eq_true_iff_eq; rewrite -> contains_spec, <- Hb.
  apply wp_bind. eapply wp_lift; [exact E|]. destruct b.
  - eapply wp_then; [by apply (puts_called (with_pipe p s) q t)|]. intros [] s1 C1.
    have C1' := C1. destruct C1' as (o1 & -> & Hs1 & Ht1).
    eapply wp_mono; [by apply (puts_called _ q (t_puts (cstr ln) WHITE t) newline WHITE); try exact newline_ok|].
    intros [] s2 (o2 & -> & Hs2 & Ht2). exists p, o2. split; [done|]. split; [by eapply os_same_trans|]. by split.
  - apply wp_ret. exists p, (sh_os s). split; [by destruct s|]. split; [apply os_same_refl|by split].
Qed.
Lemma grepped_trans s q t2 l2 p o s2 : os_same (sh_os s) o -> grepped (with_pipe p (with_os o s)) q t2 l2 s2 -> grepped s q t2 l2 s2.
Proof. intros Hs (p2 & o2 & -> & Hs2 & Ht2 & Hp2). exists p2, o2. split; [done|]. split; [by eapply os_same_trans|]. by split. Qed.
Lemma grep_pipe_spec w : string_ok w -> cstr w <> [] -> forall n l s p q t buf, pipe_waits p l -> os_tty (sh_os s) q t ->
  length buf = 256%nat -> bytes_ok buf -> Forall (fun c => 0 < c < 256) l ->
  Forall (fun ln => (length ln < 255)%nat) (text_lines l) -> (length l < n)%nat ->
  wp (grep_pipe n buf w) (fun _ s' => grepped s q (print_matches (cstr w) l t) [] s') (with_pipe p s).
Proof.
  intros Hw Hwne. induction n as [|n IH] => l s p q t buf Hp Ht Hb Hbb Hl Hf Hn; [lia|]. cbn [grep_pipe].
  destruct (line_cases l) as (a & r & -> & Ha & Hr). destruct (decide (a ++ r = [])) as [E0|Hne].
  { rw E0 in Hp |- *. apply wp_bind, (pipe_getline_end s p); [done|]. cbv beta iota. apply wp_ret. exists p, (sh_os s).
    split; [by destruct s|]. split; [apply os_same_refl|by split]. }
  have El := text_lines_cut a r Ha Hr Hne. rw El in Hf. apply Forall_cons in Hf as [Hla Hf]. apply Forall_app in Hl as [Hab Hrb].
  have Hanz : Forall (fun c => c <> 0) a by eapply Forall_impl; [exact Hab|]; cbn; lia.
  have Hput : string_ok (put a buf) /\ bytes_ok (put a buf) /\ length (put a buf) = 256%nat.
  { have L : length (put a buf) = 256%nat by rw put_length; lia.
    have B : bytes_ok (put a buf).
    { apply bytes_ok_app. split; [eapply Forall_impl; [exact Hab|]; cbn; lia|]. constructor; [lia|by apply bytes_ok_drop]. }
    split; [split; [apply put_terminated|split; [rw L; lia|exact B]]|by split]. }
  destruct Hput as (Hs & Hbb' & Hb'). have Ec : cstr (put a buf) = a by apply cstr_put.
  have Hrest : (length (tl r) <= length r)%nat /\ Forall (fun c => 0 < c < 256) (tl r) /\ (r = [] -> tl r = []) /\ (r <> [] -> (length (tl r) < length r)%nat).
  { destruct Hr as [->|[r' ->]]; cbn [tl length]; [done|]. inversion_clear Hrb. split; [lia|]. split; [done|]. split; [done|lia]. }
  destruct Hrest as (Hlr & Hrb' & Hr0 & Hr1).
  apply wp_bind. eapply (pipe_getline_spec s p buf a r); try done. intros p1 Hp1. cbv beta iota.
  rw /print_matches El. cbn [List.filter]. case_bool_decide as Hmore.
  - apply wp_bind. eapply wp_mono; [by apply (grep_line_spec s q t (put a buf) w p1 (tl r))|]. rw Ec.
    intros [] s2 (p2 & o2 & -> & Hs2 & Ht2 & Hp2).
    have Hlen : (length (tl r) < n)%nat.
    { rw length_app in Hn. destruct Hmore as [Hne'|Hne']; [destruct a; [done|cbn in Hn; lia]|]. have : r <> [] by intros E; auto. intros Hr2. specialize (Hr1 Hr2). lia. }
    eapply wp_mono; [by apply (IH (tl r) (with_os o2 s) p2 q (if contains (cstr w) a then print_line t a else t) (put a buf))|]. intros [] s3 Hg.
    have Hg' : grepped (with_pipe p2 (with_os o2 s)) q (print_matches (cstr w) (tl r) (if contains (cstr w) a then print_line t a else t)) [] s3 by exact Hg.
    apply grepped_trans in Hg'; [|done]. rw /print_matches in Hg'. by destruct (contains (cstr w) a).
  - have Ea : a = [] by destruct a; [done|]; exfalso; apply Hmore; by left.
    have Er : tl r = [] by destruct (tl r); [done|]; exfalso; apply Hmore; by right.
    apply wp_ret. exists p1, (sh_os s). split; [by destruct s|]. split; [apply os_same_refl|].
    have -> : contains (cstr w) a = false.
    { rw Ea. destruct (contains (cstr w) []) eqn:E; [|done]. apply contains_spec in E as (x & y & E). destruct x, (cstr w); done. }
    rw Er. rw Er in Hp1. by split.
Qed.

(** ** The two ends of the pipe *)
Abbreviation dispatch := (dispatch cmd_wc cmd_testuser find_fuel).
Abbreviation execute := (execute cmd_wc cmd_testuser find_fuel).
Record pipe_room (p : Pipe) : Prop := {
  pr_out : length (pipe_output_buffer p) = 4096%nat;
  pr_in : length (pipe_input_buffer p) = 4096%nat;
}.
Lemma set_output_spec s p : pipe_room p -> pipe_mode_input p = false ->
  wp (pipe_set_output_mode true) (fun _ s' => in_pipe s [] s') (with_pipe p s).
Proof.
  intros [Ho Hi] Hm. apply wp_bind, wp_gets, wp_bind. cbn [sh_pipe with_pipe].
  have E := fill_loop_spec 0 (pipe_output_buffer p) 4096 ltac:(lia) 0 ltac:(lia). cbn [replicate drop app] in E.
  change (Z.to_nat PIPE_BUFFER_SIZE) with 4096%nat. eapply wp_lift; [exact E|]. apply wp_modify.
  eexists. split; [reflexivity|]. split; [|exact Hm]. split; cbn [pipe_output_buffer pipe_output_len pipe_input_buffer pipe_mode_output]; try done.
  - exists (replicate (0 + 4096) 0 ++ drop (0 + 4096) (pipe_output_buffer p)). split; [done|].
    rw length_app length_replicate length_drop Ho. done.
  - cbn [length]. lia.
Qed.
(** the text is in the input buffer *)
Definition pipe_given (p : Pipe) (l : list Z) : Prop := exists rest, pipe_input_buffer p = l ++ rest /\ pipe_input_len p = len l.
Lemma transfer_spec s p out : pipe_holds p out ->
  wp pipe_transfer_output_to_input (fun _ s' => exists p', s' = with_pipe p' s /\ pipe_given p' out) (with_pipe p s).
Proof.
  intros [(rest & Eb & Hl) En Hr Hi Hm]. apply wp_bind, wp_gets, wp_bind. cbn [sh_pipe with_pipe].
  eapply wp_lift; [apply shell_memcpy_spec; rw En ?Eb ?length_app; lia|]. apply wp_modify. eexists. split; [reflexivity|].
  exists (drop (length out) (pipe_input_buffer p)). cbn [pipe_input_buffer pipe_input_len]. by rw En Eb Nat2Z.id take_app_length.
Qed.
Lemma set_input_spec s p l : pipe_given p l ->
  wp (pipe_set_output_mode false;; pipe_set_input_mode true) (fun _ s' => exists p', s' = with_pipe p' s /\ pipe_waits p' l) (with_pipe p s).
Proof.
  intros (rest & Eb & El). apply wp_bind, wp_bind, wp_gets, wp_modify. apply wp_bind, wp_gets, wp_modify. eexists. split; [reflexivity|].
  split; [|done|done]. exists [], rest. cbn [pipe_input_buffer pipe_input_len pipe_input_pos sh_pipe with_pipe length app]. by split; [|split].
Qed.
Lemma cmd_grep_piped s q t m p w l : ready s q t m -> pipe_waits p l -> string_ok w -> cstr w <> [] ->
  Forall (fun c => 0 < c < 256) l -> Forall (fun ln => (length ln < 255)%nat) (text_lines l) -> (length l < 4097)%nat ->
  wp (cmd_grep w (put [] (zeros 128))) (fun _ s' => grepped s q (print_matches (cstr w) l t) [] s') (with_pipe p s).
Proof.
  intros Hr Hp Hw Hne Hl Hf Hn. rw /cmd_grep. destruct (cstr_first w Hw Hne) as (c & E & Hc).
  apply wp_bind. eapply wp_lift; [exact E|]. rw Hc. apply wp_bind, wp_gets. cbn [sh_pipe with_pipe]. rw (pw_mode_in _ _ Hp).
  apply grep_pipe_spec; try done; [apply Hr|by apply bytes_ok_zeros].
Qed.

(** ** The pipeline *)
Lemma dispatch_cat s a b (P : Sh S -> Prop) : wp (cmd_cat a) (fun _ s' => P s') s ->
  wp (dispatch (put (bytes_of "cat") (zeros 64)) a b) (fun h s' => h = false /\ P s') s.
Proof. intros He. rw /ShellMain.dispatch. cbv zeta. do 4 next_command. eapply wp_then; [exact He|]. intros [] s' HP. by apply wp_ret. Qed.
Lemma dispatch_grep s a b (P : Sh S -> Prop) : wp (cmd_grep a b) (fun _ s' => P s') s ->
  wp (dispatch (put (bytes_of "grep") (zeros 64)) a b) (fun h s' => h = false /\ P s') s.
Proof. intros He. rw /ShellMain.dispatch. cbv zeta. do 9 next_command. eapply wp_then; [exact He|]. intros [] s' HP. by apply wp_ret. Qed.

Lemma ready_with_pipe s q t m p : ready s q t m -> pipe_mode_output p = false -> pipe_mode_input p = false -> ready (with_pipe p s) q t m.
Proof. intros [] Ho Hi. by split. Qed.
Lemma plain_wordy w : Forall plain w -> Forall wordy w.
Proof. intros Hw. eapply Forall_impl; [exact Hw|]. rw /plain /wordy. intros; lia. Qed.
Lemma pipe_split b name w : Forall plain name -> Forall plain w -> terminated b -> cstr b = pipe_line name w ->
  exists b1 rest, split_pipes (Datatypes.S (length b)) b 0 [0] = Ok (b1, [0; len (bytes_of "cat" ++ 32 :: name ++ [32]) + 2]) /\
    b1 = (bytes_of "cat" ++ 32 :: name ++ [32]) ++ 0 :: 32 :: (bytes_of "grep" ++ 32 :: w) ++ 0 :: rest.
Proof.
  intros Hn Hw Ht Ec. destruct (terminated_split b Ht) as [rest E]. rw Ec in E.
  set (a := bytes_of "cat" ++ 32 :: name ++ [32]). set (g := bytes_of "grep" ++ 32 :: w).
  have Eb : b = a ++ 124 :: 32 :: 103 :: tl g ++ 0 :: rest.
  { rw E /pipe_line /a /g. change (bytes_of "cat ") with (bytes_of "cat" ++ [32]). change (bytes_of "grep ") with (bytes_of "grep" ++ [32]).
    rewrite <- !app_assoc. cbn [app]. by rewrite <- !app_assoc. }
  exists (a ++ 0 :: 32 :: g ++ 0 :: rest), rest. split; [|done].
  have L := f_equal length Eb. rewrite -> length_app in L. cbn [length] in L. rewrite -> length_app in L. cbn [length] in L.
  rw {2}Eb. apply (split_two a (tl g) 103 rest); [| |done|lia].
  - rw /a. apply Forall_app. split; [repeat constructor; by cbn|]. constructor; [done|]. apply Forall_app. split; [by apply plain_wordy|by constructor].
  - change (103 :: tl g) with g. rw /g. apply Forall_app. split; [repeat constructor; by cbn|]. constructor; [done|by apply plain_wordy].
Qed.

(** the three words of one of the two commands *)
Lemma parse_pair cmd a post x : Forall plain cmd -> Forall plain a -> cmd <> [] -> a <> [] -> (post = [] \/ post = [32]) ->
  (length cmd < 64)%nat -> (length a < 128)%nat ->
  parse_input ((cmd ++ 32 :: a ++ post) ++ 0 :: x) (zeros 64) (zeros 128) (zeros 128) =
    Ok (put cmd (zeros 64), put a (zeros 128), put [] (zeros 128)).
Proof.
  intros Hc Ha Nc Na Hp Lc La. rewrite -> parse_input_spec by apply terminated_app. rw /parsed. rewrite -> cstr_app.
  {  rw words_pair // !length_replicate. by rewrite -> !(proj2 (Nat.ltb_lt _ _)) by (cbn [length]; lia). }
  have Hnz l : Forall plain l -> Forall (fun c => c <> 0) l by intros Hl; eapply Forall_impl; [exact Hl|]; rw /plain; intros; lia.
  apply Forall_app. split; [by apply Hnz|]. constructor; [done|]. apply Forall_app. split; [by apply Hnz|].
  destruct Hp as [-> | -> ]; by repeat constructor.
Qed.
Lemma with_pipe_id s : with_pipe (sh_pipe s) s = s.
Proof. by destruct s. Qed.
Lemma execute_pipe s q t m b name w c : ready s q t m -> pipe_room (sh_pipe s) -> terminated b -> cstr b = pipe_line name w ->
  Forall plain name -> Forall plain w -> name <> [] -> w <> [] -> (length name < 128)%nat -> (length w < 128)%nat ->
  m name = File c -> content_ok c -> Forall (fun ch => 0 < ch < 256) c ->
  Forall (fun ln => (length ln < 255)%nat) (text_lines (take 4095 (cat_text c))) ->
  wp (execute b) (fun h s' => h = false /\ ready s' q (print_matches w (take 4095 (cat_text c)) t) m /\ kept s s') s.
Proof.
  intros Hr Hroom Htb Ec Hn Hw Nn Nw Ln Lw Hm Hc Hcn Hlines. rw /ShellMain.execute.
  destruct (cstr_head b Htb) as (ch & Ech & Hch). apply wp_bind. eapply wp_lift; [exact Ech|].
  have Hne : (ch =? 0) = false by apply Z.eqb_neq; rw Hch Ec. rw Hne.
  apply wp_bind, wp_bind, wp_gets, wp_modify. set (p0 := mkPipe _ _ _ _ _ _ _). change (mkSh _ p0 _ _ _ _ _) with (with_pipe p0 s).
  destruct (pipe_split b name w) as (b1 & rest & Es & Eb1); [done..|]. set (a := bytes_of "cat" ++ 32 :: name ++ [32]) in *.
  apply wp_bind. eapply wp_lift; [exact Es|]. cbv beta iota. apply wp_bind. cbn [length run_pipeline].
  (* cat *)
  have Hcat : Forall plain (bytes_of "cat") by rw /plain; repeat constructor; try lia; intros [=].
  have Hgrep : Forall plain (bytes_of "grep") by rw /plain; repeat constructor; try lia; intros [=].
  apply wp_bind. eapply wp_lift.
  { change (drop (Z.to_nat 0) b1) with b1. rw Eb1. by apply parse_pair; auto; cbn; lia. }
  cbv beta iota. change (1 <? 2)%nat with true. change (0 <? 2 - 1)%nat with true. change (0 <? 0)%nat with false. cbv iota.
  destruct (put_name name 128) as [Hns En]; [done..|]. destruct (put_name w 128) as [[Hws _] Ew]; [done..|].
  apply wp_bind, wp_bind. eapply wp_mono; [apply (set_output_spec s p0); [by destruct Hroom; split|done]|].
  intros [] s1 (p1 & -> & Hp1 & Hi1). apply wp_ret. eapply wp_then.
  { apply dispatch_cat. apply (cmd_cat_piped s q t m (put name (zeros 128)) c p1); [done|done|by rw En|done|done|done]. }
  intros h s2 [-> (s3 & Hr3 & K3 & (p2 & -> & Hp2 & _))]. cbv iota.
  (* the text from one end to the other *)
  set (out := take 4095 _) in *. change (1 <? 2 - 1)%nat with false.
  have Hdrop : drop (Z.to_nat (len a + 2)) b1 = ((bytes_of "grep" ++ 32 :: w ++ []) ++ 0 :: rest).
  { rw Eb1 app_nil_r. have -> : Z.to_nat (len a + 2) = (length a + 2)%nat by lia. by rw -drop_drop drop_app_length. }
  eapply wp_then; [by apply (transfer_spec s3 p2 out)|]. intros [] s4 (p4 & -> & Hg4).
  (* grep *)
  apply wp_bind. eapply wp_lift; [rw Hdrop; by apply parse_pair; auto; cbn; lia|]. cbv beta iota.
  change (1 <? 2)%nat with true. change (0 <? 1)%nat with true. cbv iota.
  eapply wp_then; [by apply (set_input_spec s3 p4 out)|]. intros [] s5 (p5 & -> & Hp5).
  have Hout : Forall (fun ch => 0 < ch < 256) out.
  { rw /out. apply Forall_take. rw /cat_text. apply Forall_app. split; [by apply keep_cr_all|].
    destruct (last c) as [x|]; [|done]. repeat (case_match; try done); by repeat constructor. }
  eapply wp_then.
  { apply dispatch_grep. apply (cmd_grep_piped s3 q t m p5 (put w (zeros 128)) out); try done; [by rw Ew|].
    rw /out length_take. lia. }
  intros h s6 [-> (p6 & o & -> & Hsm & Htty & _)]. cbv iota. rw Ew in Htty. apply wp_bind, wp_ret, wp_ret. cbv beta iota.
  apply wp_bind, wp_bind, wp_gets, wp_modify, wp_ret. split; [done|].
  destruct (ready_same _ _ _ _ _ _ _ Hr3 Hsm Htty) as [Hr6 K6]. split; [|by eapply kept_trans; [exact K3|destruct K6; split]].
  destruct Hr6. by split.
Qed.
End Pipe.

(** ** Properties *)
Section Properties.
Context {D : Type} `{BlockDeviceLaws D} `{StackJunkLaws} `{Overrun D}.
Variable F : Frame.
Hypothesis HF : frame_ok F.
#[local] Existing Instance kernel_os.
#[local] Instance pipe_os : Os (Kernel D) := kernel_os F.
#[local] Instance pipe_laws : OsLaws (Kernel D) := kernel_laws F HF.

(** C15: [cat file | grep word] prints the lines of the file that contain the word.  The
    line runs to its end without an access outside the buffers of the shell; the screen
    gets, each with a newline, those lines of the first 4095 bytes of what [cat] prints
    (the file without its carriage returns, ended by a newline) in which the word occurs,
    in their order; the files are as they were and the shell is outside the pipeline
    again.  Lines of 255 characters and more are the exception: [pipe_getline] cuts them. *)
Theorem cat_grep_pipeline cmd_wc cmd_testuser find_fuel s q t m b name w c : ready s q t m -> pipe_room (sh_pipe s) ->
  terminated b -> cstr b = pipe_line name w -> Forall plain name -> Forall plain w -> name <> [] -> w <> [] ->
  (length name < 128)%nat -> (length w < 128)%nat -> m name = File c -> content_ok c -> Forall (fun ch => 0 < ch < 256) c ->
  Forall (fun ln => (length ln < 255)%nat) (text_lines (take 4095 (cat_text c))) ->
  wp (execute cmd_wc cmd_testuser find_fuel b) (fun halted s' => halted = false /\
    ready s' q (print_matches w (take 4095 (cat_text c)) t) m /\ current_dir_inode s' = current_dir_inode s) s.
Proof.
  intros. eapply wp_mono; [by apply (execute_pipe cmd_wc cmd_testuser find_fuel s q t m b name w c)|].
  intros h s' (-> & Hr & []). by split.
Qed.
End Properties.

(** ** [cat note | grep h] after [echo hi note] *)
#[local] Existing Instance kernel_os.
#[local] Instance demo_pipe_os : Os (Kernel Image) := kernel_os demo_frame.
#[local] Instance demo_pipe_laws : OsLaws (Kernel Image) := kernel_laws demo_frame demo_frame_ok.
Definition note_slots : list Z -> slot := put_slot (bytes_of "note") (File [104; 105; 10]) root_slots.
Lemma note_shell : exists k t, ready (initial_shell k) [] t note_slots.
Proof.
  destruct (demo_name_str "note" eq_refl) as [Hn En].
  destruct (wp_elim _ _ _ (cmd_echo_spec demo_shell [] demo_term root_slots (text "hi") (text "note") demo_ready
    ltac:(by apply text_ok) ltac:(discriminate) ltac:(done) Hn ltac:(reflexivity)
    (demo_shell_room (bytes_of "note") 3 ltac:(by vm_compute) ltac:(lia)))) as (u & s & _ & [] & Ei).
  exists (sh_os s), (says (echo_says (text "note")) demo_term).
  split; [done|done|done| |apply length_replicate|apply Forall_replicate; lia]. by rw Ei in ready_dir.
Qed.
Lemma cat_grep_pipeline_witness : exists s t, pipe_mode_output (sh_pipe s) = false /\
  wp (execute (fun _ => mret tt) (mret tt) 0 (text "cat note | grep h")) (fun halted s' => halted = false /\
    ready s' [] (print_line t [104; 105]) note_slots /\ current_dir_inode s' = current_dir_inode s) s.
Proof.
  destruct note_shell as (k & t & Hr). exists (initial_shell k), t. split; [done|].
  have W := cat_grep_pipeline demo_frame demo_frame_ok (fun _ => mret tt) (mret tt) 0 (initial_shell k) [] t note_slots
    (text "cat note | grep h") (bytes_of "note") (bytes_of "h") [104; 105; 10] Hr.
  apply W; clear W Hr.
  - split; apply length_replicate.
  - apply terminated_app.
  - reflexivity.
  - by repeat constructor.
  - by repeat constructor.
  - discriminate.
  - discriminate.
  - cbn; lia.
  - cbn; lia.
  - reflexivity.
  - split; [cbn; lia|by repeat constructor].
  - by repeat constructor.
  - vm_compute. repeat constructor.
Defined.
