(* ===== verification/ShellGrep.v ===== *)
(** * [grep] on a file, and the same through a pipe

    [grep word file] cuts the file at its newlines and prints the lines that contain the
    word; on a text without long lines and carriage returns it is the pipeline
    [cat file | grep word]. *)

From Stdlib Require Import String.
From S2P Require Import Prelude StdString BlockDevice Ext2Layout Ext2Dir Ext2State Ext2 Ext2Inv Ext2Format Ext2Files Ext2Data Ext2Crud Inserter Ext2Theorems Ext2View Keyboard Console Interrupt Syscalls ShellStr Shell ShellCmd ShellMain ShellSpec ShellLine ShellKernel ShellPipe.

(** the lines of [l] that [grep] on a file prints behind the characters [cur] of the line it
    is in: lines of 256 characters and more do not fit its buffer *)
Definition fits (ln : list Z) : bool := (length ln <? 256)%nat.
Definition grep_lines (w : list Z) (lns : list (list Z)) (t : Term) : Term :=
  foldl print_line t (List.filter (fun ln => fits ln && contains w ln) lns).
Lemma grep_lines_cons w ln lns t :
  grep_lines w (ln :: lns) t = grep_lines w lns (if fits ln && contains w ln then print_line t ln else t).
Proof. rw /grep_lines. cbn [List.filter]. by destruct (fits ln && contains w ln). Qed.
Lemma contains_nil w : w <> [] -> contains w [] = false.
Proof.
  intros Hw. destruct (contains w []) eqn:E; [|done]. apply contains_spec in E as (x & y & E). by destruct x, w.
Qed.

Section Grep.
Context {S : Type} `{OsLaws S}.
Variables (cmd_wc : list Z -> M (Sh S) unit) (cmd_testuser : M (Sh S) unit) (find_fuel : nat).
Implicit Types s : Sh S.

Lemma quiet_trans s q t t1 m s1 t2 s2 : quiet s q t m s1 -> quiet s1 q t1 m s2 -> t2 = t1 -> quiet s q t2 m s2.
Proof.
  intros (R1 & K1 & B1) (R2 & K2 & B2) ->. split; [done|]. split; [by eapply kept_trans|by rw B2].
Qed.
(** one line outside a pipe *)
Lemma grep_line_quiet s q t m ln w : ready s q t m -> string_ok ln -> string_ok w ->
  wp (grep_line ln w) (fun _ s' => quiet s q (if contains (cstr w) (cstr ln) then print_line t (cstr ln) else t) m s') s.
Proof.
  intros Hr Hln Hw. destruct (str_contains_spec ln w) as (b & E & Hb);
    [apply Hln|apply Hw|destruct Hln as (_ & ? & _); lia|destruct Hw as (_ & ? & _); lia|].
  have -> : contains (cstr w) (cstr ln) = b by apply eq_true_iff_eq; rewrite -> contains_spec, <- Hb.
  apply wp_bind. eapply wp_lift; [exact E|]. destruct b; [|apply wp_ret; by apply quiet_refl].
  eapply wp_then; [by apply (puts_spec s q t m)|]. intros [] s1 Q1.
  eapply wp_mono; [apply (puts_spec s1 q (t_puts (cstr ln) WHITE t) m newline WHITE); [apply Q1|exact newline_ok|done]|]. intros [] s2 Q2.
  by eapply quiet_trans.
Qed.
(** a line of the file in the buffer [line] *)
Lemma stored_line (pre cur rest buf : list Z) : length buf = 256%nat -> (length cur < 256)%nat ->
  (bs ← slice (len pre) (len cur) (pre ++ cur ++ rest); l ← splice 0 bs buf; arr_set l (len cur) 0) = Ok (put cur buf).
Proof.
  intros Hb Hc. rewrite -> slice_mid by done. cbn [mbind res_bind].
  destruct (split_length (length cur) buf) as (x & y & -> & Lx); [lia|]. rewrite -> length_app in Hb.
  have E := splice_mid [] x y cur 0 eq_refl ltac:(lia). cbn [app] in E. rw E. cbn [mbind res_bind].
  destruct y as [|z y]; [cbn in Hb; lia|]. rewrite -> set_app by done. rw /put -Lx. do 2 f_equal.
  by rw -Nat.add_1_r -drop_drop drop_app_length.
Qed.
Lemma put_line (cur buf : list Z) : length buf = 256%nat -> bytes_ok buf -> (length cur < 256)%nat -> Forall (fun c => 0 < c < 256) cur ->
  string_ok (put cur buf) /\ cstr (put cur buf) = cur /\ length (put cur buf) = 256%nat /\ bytes_ok (put cur buf).
Proof.
  intros Hb Hbb Hl Hc. have L : length (put cur buf) = 256%nat by rw put_length; lia.
  have B : bytes_ok (put cur buf).
  { apply bytes_ok_app. split; [eapply Forall_impl; [exact Hc|]; cbn; lia|]. constructor; [lia|by apply bytes_ok_drop]. }
  split; [split; [apply put_terminated|split; [rw L; lia|exact B]]|]. split; [|by split].
  apply cstr_put. eapply Forall_impl; [exact Hc|]. cbn. lia.
Qed.

(** the end of a line: what fits is looked at, the buffer is kept for the next line *)
Lemma flush_spec w q m pre cur rest buf s t (k : list Z -> M (Sh S) unit) Q : string_ok w -> cstr w <> [] -> ready s q t m ->
  file_buffer s = pre ++ cur ++ rest -> Forall (fun c => 0 < c < 256) cur -> length buf = 256%nat -> bytes_ok buf ->
  (forall buf' s', quiet s q (grep_lines (cstr w) [cur] t) m s' -> length buf' = 256%nat -> bytes_ok buf' -> wp (k buf') Q s') ->
  wp (ln ← (if (0 <? len cur) && (len cur <? 256) then
       ln ← lift (bs ← slice (len pre) (len cur) (file_buffer s); l ← splice 0 bs buf; arr_set l (len cur) 0);
       grep_line ln w;; mret ln
     else mret buf); k ln) Q s.
Proof.
  intros Hw Hne Hr Eb Hc Hb Hbb Hk. have Hskip : fits cur && contains (cstr w) cur = false -> wp (k buf) Q s.
  { intros E. apply Hk; [rw grep_lines_cons E; by apply quiet_refl|done|done]. }
  apply wp_bind. destruct (Z.ltb_spec 0 (len cur)) as [H0'|H0']; cbn [andb].
  2: { apply wp_ret, Hskip. destruct cur; [by rw contains_nil // andb_false_r|cbn in H0'; lia]. }
  destruct (Z.ltb_spec (len cur) 256) as [H1|H1].
  2: { apply wp_ret, Hskip. rw /fits. by rewrite -> (proj2 (Nat.ltb_ge _ _)) by lia. }
  rw Eb. apply wp_bind. eapply wp_lift; [apply stored_line; [done|lia]|].
  destruct (put_line cur buf) as (Hs & Ec & L & B); [done|done|lia|done|].
  eapply wp_then; [by apply (grep_line_quiet s q t m (put cur buf) w)|]. intros [] s' Q'. apply wp_ret, Hk; [|done|done].
  rw Ec in Q'. rw grep_lines_cons /fits. by rewrite -> (proj2 (Nat.ltb_lt _ _)) by lia.
Qed.
Lemma grep_file_spec w q m : string_ok w -> cstr w <> [] -> forall l pre cur rest buf s t, ready s q t m ->
  file_buffer s = pre ++ cur ++ l ++ rest -> Forall (fun c => 0 < c < 256) (cur ++ l) -> length buf = 256%nat -> bytes_ok buf ->
  wp (grep_file (Datatypes.S (length l)) (len pre + len cur) (len pre + len cur + len l) (len pre) (len cur) buf w)
    (fun _ s' => quiet s q (grep_lines (cstr w) (lines_from cur l) t) m s') s.
Proof.
  intros Hw Hne. induction l as [|c l IH] => pre cur rest buf s t Hr Eb Hcl Hb Hbb; apply Forall_app in Hcl as [Hc Hl];
    cbn [grep_file]; apply wp_bind, wp_gets, wp_bind.
  - rewrite -> (proj2 (Z.eqb_eq _ _)) by (cbn; lia). apply wp_ret. eapply flush_spec; try done. intros buf' s' Q' _ _. apply wp_ret.
    destruct cur; [|exact Q']. cbn [lines_from]. rw grep_lines_cons contains_nil // andb_false_r in Q'.
  - cbn [length] in *. rewrite -> (proj2 (Z.eqb_neq _ _)) by lia.
    have Eg : arr_get (file_buffer s) (len pre + len cur) = Ok c.
    { rw Eb app_assoc. apply (get_app (pre ++ cur) (l ++ rest)). rw length_app. lia. }
    apply wp_bind. eapply wp_lift; [exact Eg|]. apply wp_ret. cbn [lines_from]. inversion_clear Hl as [|? ? Hcc Hl'].
    destruct (Z.eqb_spec c 10) as [->|Hn].
    + eapply flush_spec; try done. intros buf' s' Q' Hb' Hbb'. rw grep_lines_cons. rw grep_lines_cons in Q'. cbn [grep_lines] in Q'.
      have Q2 := IH (pre ++ cur ++ [10]) [] rest buf' s' _ ltac:(apply Q') ltac:(by destruct Q' as (_ & _ & ->); rw Eb -!app_assoc) Hl' Hb' Hbb'.
      rewrite -> !length_app in Q2. cbn [length] in Q2.
      have E1 : Z.of_nat (length pre + (length cur + 1)) + Z.of_nat 0 = len pre + len cur + 1 by lia.
      have E2 : Z.of_nat (length pre + (length cur + 1)) = len pre + len cur + 1 by lia.
      have E3 : len pre + len cur + 1 + len l = len pre + len cur + Z.of_nat (Datatypes.S (length l)) by lia.
      rw E1 E2 E3 in Q2. eapply wp_mono; [exact Q2|]. intros [] s2 Q3. by eapply quiet_trans.
    + have Q2 := IH pre (cur ++ [c]) rest buf s t Hr ltac:(by rw Eb -!app_assoc) ltac:(apply Forall_app; split; [apply Forall_app; split; [done|by constructor]|done]) Hb Hbb.
      rewrite -> !length_app in Q2. cbn [length] in Q2.
      have E1 : len pre + Z.of_nat (length cur + 1) = len pre + len cur + 1 by lia.
      have E2 : Z.of_nat (length cur + 1) = len cur + 1 by lia.
      have E3 : len pre + len cur + 1 + len l = len pre + len cur + Z.of_nat (Datatypes.S (length l)) by lia.
      rw E1 E2 E3 in Q2. exact Q2.
Qed.
Lemma cmd_grep_file s q t m w name c : ready s q t m -> string_ok w -> cstr w <> [] -> name_str name -> m (cstr name) = File c ->
  content_ok c -> Forall (fun ch => 0 < ch < 256) c ->
  wp (cmd_grep w name) (fun _ s' => ready s' q (grep_lines (cstr w) (text_lines c) t) m /\ kept s s') s.
Proof.
  intros Hr Hw Hne Hn Hm Hc Hcn. rw /cmd_grep. destruct (cstr_first w Hw Hne) as (a & Ea & Ha).
  apply wp_bind. eapply wp_lift; [exact Ea|]. rw Ha. apply wp_bind, wp_gets. rw (ready_in _ _ _ _ Hr).
  apply wp_first; [done|]. intros f ->. apply wp_bind, wp_gets.
  eapply wp_then; [apply (get_file_size_spec s q t m); try done; [by rw Hm|by intros c'; rw Hm; intros [= <-]]|].
  intros r s1 (-> & Hr1 & K1 & _). rw Hm. destruct (Hc) as [Hl Hb].
  rewrite -> (proj2 (Z.ltb_ge _ _)), (proj2 (Z.ltb_ge _ _)) by lia. rw -(kept_inode _ _ K1).
  eapply wp_then; [by apply (read_buffer s1 q t m name c)|]. intros r s2 (-> & Hr2 & K2 & (rest & Eb)). cbn [negb Z.eqb].
  have G := grep_file_spec w q m Hw Hne c [] [] rest (zeros 256) s2 t Hr2 Eb Hcn ltac:(apply length_replicate) (bytes_ok_zeros _).
  cbn [length] in G. have E0 : Z.of_nat 0 + Z.of_nat 0 = 0 by lia. have El : 0 + len c = len c by lia.
  have Ek : Z.to_nat (len c + 1) = Datatypes.S (length c) by lia. rw E0 El in G. rw Ek.
  eapply wp_mono; [exact G|]. intros [] s3 (Hr3 & K3 & _). split; [done|].
  eapply kept_trans; [exact K1|]. by eapply kept_trans.
Qed.

(** ** The two command lines *)
Abbreviation execute := (execute cmd_wc cmd_testuser find_fuel).
Definition grep_command (w name : list Z) : list Z := command_line (bytes_of "grep") w name.
Lemma execute_grep s q t m b name w c : ready s q t m -> terminated b -> cstr b = grep_command w name ->
  Forall plain name -> Forall plain w -> name <> [] -> w <> [] -> (length name < 128)%nat -> (length w < 128)%nat ->
  m name = File c -> content_ok c -> Forall (fun ch => 0 < ch < 256) c ->
  wp (execute b) (fun h s' => h = false /\ ready s' q (grep_lines w (text_lines c) t) m) s.
Proof.
  intros Hr Ht Ec Hn Hw Nn Nw Ln Lw Hm Hc Hcn.
  have Hgrep : Forall plain (bytes_of "grep") by rw /plain; repeat constructor; try lia; intros [=].
  destruct (put_name name 128) as [Hns En]; [done..|]. destruct (put_name w 128) as [[Hws _] Ew]; [done..|].
  eapply (execute_plain cmd_wc cmd_testuser find_fuel s q t m b (bytes_of "grep") w name
    (fun s' => ready s' q (grep_lines w (text_lines c) t) m)); [exact Hr|exact Ht| | | |cbn; lia|done|done| |].
  - by rw Ec.
  - rw Ec. eapply Forall_impl; [by apply line_plain|]. cbn. tauto.
  - rw Ec. by apply three_words_line.
  - intros s' [] s'' Eo Ei Ef Eout Ein. constructor; try done; rw ?Eo ?Ei ?Ef //.
  - intros s1 Hr1 K1. apply dispatch_grep.
    eapply wp_mono; [apply (cmd_grep_file s1 q t m (put w (zeros 128)) (put name (zeros 128)) c); try done; rw ?En ?Ew //|].
    intros [] s2 (Hr2 & _). by rw Ew in Hr2.
Qed.
End Grep.

(** ** The lines of what [cat] prints *)
Lemma keep_cr_none c : Forall (fun ch => ch <> 13) c -> keep_cr c = c.
Proof.
  induction 1 as [|ch c Hch Hc IH]; [done|]. cbn [keep_cr List.filter]. rewrite -> (proj2 (Z.eqb_neq ch 13)) by done.
  cbn [negb]. f_equal. exact IH.
Qed.
Lemma lines_newline c : forall cur, last c <> Some 10 -> (c = [] -> cur <> []) -> lines_from cur (c ++ [10]) = lines_from cur c.
Proof.
  induction c as [|x c IH] => cur Hl Hne; cbn [lines_from app].
  - destruct cur; [by destruct (Hne eq_refl)|done].
  - have Hl' : last c <> Some 10 by intros E; apply Hl; destruct c; [done|]; rewrite -> last_cons, E.
    destruct (Z.eqb_spec x 10) as [->|Hx]; [|by apply IH; [|destruct cur]]. f_equal. apply IH; [done|].
    intros ->. by destruct Hl.
Qed.
Lemma cat_lines c : Forall (fun ch => ch <> 13) c -> text_lines (cat_text c) = text_lines c.
Proof.
  intros Hc. rw /cat_text keep_cr_none //. destruct (decide (last c = Some 10)) as [E|E]; [by rw E app_nil_r|].
  destruct c as [|x c]; [done|]. have El : match last (x :: c) with Some 10 | None => [] | _ => [10] end = [10].
  { destruct (last (x :: c)) as [y|] eqn:Ey; [|by apply last_None in Ey]. have Hy : y <> 10 by intros ->.
    repeat (case_match; try done). }
  rw El. by apply lines_newline.
Qed.
Lemma print_short w c t : Forall (fun ln => (length ln < 255)%nat) (text_lines c) ->
  grep_lines w (text_lines c) t = print_matches w c t.
Proof.
  rw /grep_lines /print_matches. intros Hl. f_equal. induction Hl as [|ln l Hln Hl IH]; [done|]. cbn [List.filter].
  rw IH /fits. by rewrite -> (proj2 (Nat.ltb_lt _ _)) by lia.
Qed.

(** ** Properties *)
Section Properties.
Context {D : Type} `{BlockDeviceLaws D} `{StackJunkLaws} `{Overrun D}.
Variable F : Frame.
Hypothesis HF : frame_ok F.
#[local] Existing Instance kernel_os.
#[local] Instance grep_os : Os (Kernel D) := kernel_os F.
#[local] Instance grep_laws : OsLaws (Kernel D) := kernel_laws F HF.

(** C17: [grep word file] and [cat file | grep word] do the same, for a word and a name of
    fewer than 128 plain characters and a file without zero bytes and carriage returns, whose lines have less than 255 characters and which has at most 4095
    bytes with the newline that [cat] adds: both lines are worked off, leave the same screen, on which
    the lines with the word were printed in their order, and change no file. *)
Theorem grep_equals_pipe cmd_wc cmd_testuser find_fuel s q t m b b' name w c : ready s q t m -> pipe_room (sh_pipe s) ->
  terminated b -> cstr b = grep_command w name -> terminated b' -> cstr b' = pipe_line name w ->
  Forall plain name -> Forall plain w -> name <> [] -> w <> [] -> (length name < 128)%nat -> (length w < 128)%nat ->
  m name = File c -> content_ok c -> Forall (fun ch => 0 < ch < 256 /\ ch <> 13) c -> len (cat_text c) <= 4095 ->
  Forall (fun ln => (length ln < 255)%nat) (text_lines c) ->
  wp (execute cmd_wc cmd_testuser find_fuel b) (fun h s' => h = false /\ ready s' q (print_matches w c t) m) s /\
  wp (execute cmd_wc cmd_testuser find_fuel b') (fun h s' => h = false /\ ready s' q (print_matches w c t) m) s.
Proof.
  intros Hr Hp Hb Eb Hb' Eb' Hn Hw Nn Nw Ln Lw Hm Hc Hcn Hl Hs. apply Forall_and in Hcn as [Hcn H13].
  have El : text_lines (take 4095 (cat_text c)) = text_lines c by rewrite -> take_ge, cat_lines by (done || lia).
  split.
  - eapply wp_mono; [by apply (execute_grep cmd_wc cmd_testuser find_fuel s q t m b name w c)|].
    intros h s' (-> & Hr'). by rewrite -> print_short in Hr'.
  - eapply wp_mono; [apply (execute_pipe cmd_wc cmd_testuser find_fuel s q t m b' name w c); try done; by rw El|].
    intros h s' (-> & Hr' & _). split; [done|]. rw /print_matches El in Hr'. exact Hr'.
Qed.
End Properties.

#[local] Existing Instance kernel_os.
#[local] Instance demo_grep_os : Os (Kernel Image) := kernel_os demo_frame.
#[local] Instance demo_grep_laws : OsLaws (Kernel Image) := kernel_laws demo_frame demo_frame_ok.
Lemma grep_equals_pipe_witness : exists s t,
  wp (execute (fun _ => mret tt) (mret tt) 0 (text "grep h note")) (fun h s' => h = false /\
    ready s' [] (print_line t [104; 105]) note_slots) s /\
  wp (execute (fun _ => mret tt) (mret tt) 0 (text "cat note | grep h")) (fun h s' => h = false /\
    ready s' [] (print_line t [104; 105]) note_slots) s.
Proof.
  destruct note_shell as (k & t & Hr). exists (initial_shell k), t.
  have W := grep_equals_pipe demo_frame demo_frame_ok (fun _ => mret tt) (mret tt) 0 (initial_shell k) [] t note_slots
    (text "grep h note") (text "cat note | grep h") (bytes_of "note") (bytes_of "h") [104; 105; 10] Hr.
  apply W; clear W Hr.
  - split; apply length_replicate.
  - apply terminated_app.
  - reflexivity.
  - apply terminated_app.
  - reflexivity.
  - by repeat constructor.
  - by repeat constructor.
  - discriminate.
  - discriminate.
  - cbn; lia.
  - cbn; lia.
  - reflexivity.
  - split; [cbn; lia|by repeat constructor].
  - by repeat constructor.
  - cbn; lia.
  - vm_compute. repeat constructor.
Defined.
