(* ===== verification/ShellFind.v ===== *)
(** * [find]: the traversal of the directories

    [find] keeps the directories it still has to visit on a stack of 32 entries and visits
    the one on top.  When the directories below the root form a finite tree, this is the
    recursive traversal of the tree: a directory's own entries in their order, then its
    subdirectories, the last one first. *)

From Stdlib Require Import String.
From S2P Require Import Prelude StdString BlockDevice Ext2Layout Ext2Dir Ext2State Ext2 Ext2Inv Ext2Format Ext2Files Ext2Data Ext2Crud Inserter Ext2Theorems FileTree Ext2View Keyboard Console Interrupt Syscalls ShellStr Shell ShellCmd ShellMain ShellSpec ShellLine ShellKernel ShellDir.

#[local] Arguments dentry_bytes : simpl never.
#[local] Arguments dir_bytes : simpl never.

(** ** Trees of directories *)
(** the entries of a directory in their order; a live subdirectory with its own *)
Inductive forest : Type :=
| FNil
| FLeaf (e : dentry) (r : forest)
| FDir (e : dentry) (c r : forest).
Fixpoint entries (f : forest) : list dentry :=
  match f with FNil => [] | FLeaf e r => e :: entries r | FDir e _ r => e :: entries r end.
(** the directories below, and those directly below *)
Fixpoint dirs (f : forest) : nat :=
  match f with FNil => 0 | FLeaf _ r => dirs r | FDir _ c r => S (dirs c + dirs r) end.
Definition is_sub (e : dentry) : bool := negb (de_inode e =? 0) && negb (dots (de_name e)) && (de_type e =? 2).
(** an entry as [find] can handle it: a name of less than 64 characters *)
Definition entry_fine (e : dentry) : Prop := de_inode e <> 0 -> (length (de_name e) < 64)%nat /\ Forall (fun c => c <> 0) (de_name e).
Fixpoint well_formed (f : forest) : Prop :=
  match f with
  | FNil => True
  | FLeaf e r => entry_fine e /\ is_sub e = false /\ well_formed r
  | FDir e c r => entry_fine e /\ is_sub e = true /\ well_formed c /\ well_formed r
  end.

(** ** The recursive search *)
Definition show_path (path nm : list Z) : list Z :=
  if (length path <? 192)%nat then
    if bool_decide (last path = Some 47) then path ++ nm else path ++ 47 :: nm
  else bytes_of "(path too long)".
Definition hit (w path : list Z) (e : dentry) : list (list Z * bool) :=
  if negb (de_inode e =? 0) && negb (dots (de_name e)) && bool_decide (de_name e = w)
  then [(show_path path (de_name e), de_type e =? 2)] else [].
(** the matches among the entries of one directory *)
Definition own (w path : list Z) (f : forest) : list (list Z * bool) := concat (map (hit w path) (entries f)).
(** the matches in the directories below *)
Fixpoint deep (w path : list Z) (f : forest) : list (list Z * bool) :=
  match f with
  | FNil => []
  | FLeaf _ r => deep w path r
  | FDir e c r => let p := show_path path (de_name e) in deep w path r ++ own w p c ++ deep w p c
  end.
Definition search (w path : list Z) (f : forest) : list (list Z * bool) := own w path f ++ deep w path f.
(** the subdirectories in their order *)
Fixpoint subs (path : list Z) (f : forest) : list (Z * list Z * forest) :=
  match f with
  | FNil => []
  | FLeaf _ r => subs path r
  | FDir e c r => (de_inode e, show_path path (de_name e), c) :: subs path r
  end.
Definition visit (w : list Z) (x : Z * list Z * forest) : list (list Z * bool) := search w x.1.2 x.2.
Lemma deep_subs w path f : deep w path f = concat (map (visit w) (rev (subs path f))).
Proof.
  induction f as [|e r IH|e c _ r IH]; cbn [deep subs]; [done|done|]. cbn [rev]. rw map_app concat_app -IH.
  cbn [map concat]. rw app_nil_r. done.
Qed.
Fixpoint weight (st : list (Z * list Z * forest)) : nat :=
  match st with [] => 0 | x :: st => S (dirs x.2) + weight st end.
Lemma weight_app st st' : weight (st ++ st') = (weight st + weight st')%nat.
Proof. induction st as [|x st IH]; [done|]. cbn. rw IH. lia. Qed.
Lemma weight_subs path f : weight (rev (subs path f)) = dirs f.
Proof.
  induction f as [|e r IH|e c _ r IH]; cbn [subs dirs]; [done|done|]. cbn [rev]. rw weight_app IH. cbn. lia.
Qed.
Lemma weight_length st : (length st <= weight st)%nat.
Proof. induction st as [|x st IH]; cbn; lia. Qed.

(** ** Paths *)
Definition path_ok (p : list Z) : Prop := p <> [] /\ (length p < 256)%nat /\ Forall (fun c => 0 < c < 256) p.
Lemma show_path_ok p nm : path_ok p -> (length nm < 64)%nat -> Forall (fun c => 0 < c < 256) nm -> path_ok (show_path p nm).
Proof.
  intros (Hne & Hl & Hp) Ln Hn. rw /show_path. destruct (Nat.ltb_spec (length p) 192); [|split; [done|]; split; [cbn; lia|by repeat constructor]].
  case_bool_decide.
  - split; [by destruct p|]. split; [rw length_app; lia|by apply Forall_app].
  - split; [by destruct p|]. split; [rw length_app /=; lia|]. apply Forall_app. split; [done|]. by constructor.
Qed.
Lemma path_nonzero p : path_ok p -> Forall (fun c => c <> 0) p.
Proof. intros (_ & _ & Hp). eapply Forall_impl; [exact Hp|]. cbn. lia. Qed.

Lemma get_at {A} (pre rest : list A) x i : i = len pre -> arr_get (pre ++ x :: rest) i = Ok x.
Proof. intros ->. apply arr_get_ok; [lia|]. rewrite -> Nat2Z.id, lookup_app_r by lia. by rw Nat.sub_diag. Qed.
Lemma set_at {A} (pre rest : list A) x y i : i = len pre -> arr_set (pre ++ x :: rest) i y = Ok (pre ++ y :: rest).
Proof. intros ->. rewrite -> arr_set_ok by (rw length_app /=; lia). by rewrite -> Nat2Z.id, insert_app_r_alt, Nat.sub_diag by lia. Qed.

(** the copy of a path into a row *)
Lemma safe_copy_spec dst src p : terminated src -> len src < 2 ^ 32 -> cstr src = p -> (length p < 256)%nat -> length dst = 256%nat ->
  safe_copy dst src 256 = Ok (put p dst).
Proof.
  intros Ht Hs Ep Hl Ld. rw /safe_copy. rewrite -> strlen_spec by done. cbn [mbind res_bind]. rw Ep.
  rewrite -> (proj2 (Z.leb_gt 256 (len p))) by lia. destruct (terminated_split src Ht) as [rest E]. rw Ep in E.
  rw Nat2Z.id. rewrite -> shell_memcpy_spec by (rw ?E ?length_app /=; lia). cbn [mbind res_bind]. rw E take_app_length.
  destruct (drop (length p) dst) as [|x l] eqn:Ed; [have := length_drop dst (length p); rw Ed /=; lia|].
  rewrite -> set_app by done. rw /put. do 3 f_equal. have -> : S (length p) = (length p + 1)%nat by lia.
  by rw -drop_drop Ed.
Qed.

(** ** The full path of an entry *)
Lemma zeros_S k : (0 < k)%nat -> zeros k = 0 :: zeros (k - 1).
Proof. intros Hk. destruct k as [|k]; [lia|]. by rw Nat.sub_succ Nat.sub_0_r. Qed.
Lemma put_zeros w k : (length w < k)%nat -> put w (zeros k) = w ++ zeros (k - length w).
Proof. intros Hw. rewrite -> (zeros_S (k - length w)) by lia. rw /put /zeros drop_replicate. do 3 f_equal. lia. Qed.
Lemma append_name_spec p nm : forall (k j : nat), (length p + length nm < 256)%nat -> (length nm < 64)%nat -> Forall (fun c => c <> 0) nm ->
  (j <= length nm)%nat -> (length nm - j <= k)%nat ->
  append_name k (p ++ take j nm ++ zeros (256 - length p - j)) (put nm (zeros 64)) (len p) (Z.of_nat j) =
    Ok (p ++ nm ++ zeros (256 - length p - length nm)).
Proof.
  induction k as [|k IH] => j Hl Hn Hnz Hj Hk; cbn [append_name].
  { have -> : j = length nm by lia. by rw firstn_all. }
  have Hp : strlen (put nm (zeros 64)) = Ok (len nm).
  { rewrite -> strlen_spec; [by rw cstr_put|apply put_terminated|]. rw put_length length_replicate; lia. }
  rw Hp. cbn [mbind res_bind]. destruct (Z.ltb_spec (Z.of_nat j) (len nm)) as [Hlt|Hge]; cbn [andb].
  2: { have -> : j = length nm by lia. by rw firstn_all. }
  rewrite -> (proj2 (Z.ltb_lt _ _)) by lia. destruct (lookup_lt_is_Some_2 nm j) as [c Ec]; [lia|].
  have Eg : arr_get (put nm (zeros 64)) (Z.of_nat j) = Ok c.
  { apply arr_get_ok; [lia|]. rw Nat2Z.id /put. by apply lookup_app_l_Some. }
  rw Eg. cbn [mbind res_bind]. have -> : (256 - length p - j = S (256 - length p - S j))%nat by lia. cbn [zeros replicate].
  rewrite -> app_assoc, set_app by (rw length_app length_take; lia). cbn [mbind res_bind].
  have -> : Z.of_nat j + 1 = Z.of_nat (S j) by lia.
  have -> : (p ++ take j nm) ++ c :: zeros (256 - length p - S j) = p ++ take (S j) nm ++ zeros (256 - length p - S j).
  { rw (take_S_r _ _ _ Ec). by rewrite <- !app_assoc. }
  apply IH; try done; lia.
Qed.
Lemma full_path_spec cur p nm : terminated cur -> len cur < 2 ^ 32 -> cstr cur = p -> path_ok p ->
  (length nm < 64)%nat -> Forall (fun c => 0 < c < 256) nm ->
  exists b, find_full_path cur (put nm (zeros 64)) = Ok b /\ terminated b /\ cstr b = show_path p nm /\ length b = 256%nat /\ bytes_ok b.
Proof.
  intros Ht Hw Ep Hp Ln Hn. destruct (Hp) as (Hne & Lp & Hpb). have Hnz : Forall (fun c => c <> 0) nm by eapply Forall_impl; [exact Hn|]; cbn; lia.
  have Hok := show_path_ok p nm Hp Ln Hn. have Hshow := path_nonzero _ Hok.
  have Hbytes q : Forall (fun c => 0 < c < 256) q -> bytes_ok q by intros Hq; eapply Forall_impl; [exact Hq|]; cbn; lia.
  rw /find_full_path. rewrite -> strlen_spec by done. cbn [mbind res_bind]. rw Ep. change (256 - 64) with 192. rw /show_path in Hok Hshow |- *.
  destruct (Nat.ltb_spec (length p) 192) as [Hs|Hs].
  2: { rewrite -> (proj2 (Z.ltb_ge _ _)) by lia. exists (put (bytes_of "(path too long)") (zeros 256)). split; [reflexivity|].
       split; [apply put_terminated|]. split; [by apply cstr_put|]. split; [reflexivity|]. apply bytes_ok_app. split; [by apply Hbytes, Hok|].
       constructor; [lia|]. apply bytes_ok_drop, bytes_ok_zeros. }
  rewrite -> (proj2 (Z.ltb_lt _ _)), strcpy_spec by (done || lia). rw Ep length_replicate. rewrite -> (proj2 (Nat.ltb_lt _ _)) by lia.
  cbn [mbind res_bind]. rewrite -> (put_zeros p 256) by lia. destruct (exists_last Hne) as (p0 & c & E). have Ec : last p = Some c by rw E last_snoc.
  have Eg : arr_get (p ++ zeros (256 - length p)) (len p - 1) = Ok c.
  { rw {1}E -app_assoc. apply get_app. rw E length_app /=. lia. }
  rw Eg Ec. cbn [mbind res_bind].
  have Hend q : (length q <= 192)%nat -> Forall (fun c => 0 < c < 256) q -> q ++ nm = (if bool_decide (Some c = Some 47) then p ++ nm else p ++ 47 :: nm) ->
    exists b, append_name 64 (q ++ zeros (256 - length q)) (put nm (zeros 64)) (len q) 0 = Ok b /\ terminated b /\
      cstr b = (if bool_decide (Some c = Some 47) then p ++ nm else p ++ 47 :: nm) /\ length b = 256%nat /\ bytes_ok b.
  { intros Hq Hqb <-. have A := append_name_spec q nm 64 0 ltac:(lia) Ln Hnz ltac:(lia) ltac:(lia).
    rw Nat.sub_0_r in A. cbn [take app] in A. eexists. split; [exact A|]. rewrite -> app_assoc.
    rewrite -> (zeros_S (256 - length q - length nm)) by lia.
    split; [apply terminated_app|]. split; [apply cstr_app, Forall_app; split; [eapply Forall_impl; [exact Hqb|]; cbn; lia|done]|].
    split; [rw !length_app /= length_replicate; lia|]. apply bytes_ok_app. split; [by apply Hbytes, Forall_app|].
    constructor; [lia|apply bytes_ok_zeros]. }
  destruct (Z.eqb_spec c 47) as [->|Hc].
  - cbn [mbind res_bind]. apply Hend; [lia|done|]. by rw bool_decide_true.
  - rewrite -> (zeros_S (256 - length p)) by lia. rewrite -> set_app by done. cbn [mbind res_bind].
    have Eq : p ++ 47 :: zeros (256 - length p - 1) = (p ++ [47]) ++ zeros (256 - length (p ++ [47])).
    { rewrite <- app_assoc. rw length_app. cbn. do 3 f_equal. lia. }
    have El : len p + 1 = len (p ++ [47]) by rw length_app /=; lia. rw Eq El. apply Hend; [rw length_app /=; lia|apply Forall_app; by split; [|repeat constructor]|].
    rw bool_decide_false; [by intros [= ->]|]. by rw -app_assoc.
Qed.

(** ** The stack *)
Definition row_of (row : list Z) (x : Z * list Z * forest) : Prop := length row = 256%nat /\ terminated row /\ cstr row = x.1.2.
(** the stack holds [st], the top first *)
Record stacked (F : Find) (st : list (Z * list Z * forest)) : Prop := {
  sk_sp : find_sp F = len st;
  sk_inodes : exists rest, find_stack F = map (fun x => x.1.1) (rev st) ++ rest /\ (length st + length rest = 32)%nat;
  sk_paths : exists rows rest, find_paths F = rows ++ rest /\ Forall2 row_of rows (rev st) /\
    (length st + length rest = 32)%nat /\ Forall (fun row => length row = 256%nat) rest;
}.
Definition show_match (t : Term) (x : list Z * bool) : Term :=
  let t := t_puts x.1 YELLOW (t_puts (bytes_of "  Found: ") GREEN t) in
  t_puts [10] WHITE (if x.2 then t_puts (bytes_of "/") CYAN t else t).

Section Find.
Context {S : Type} `{OsLaws S}.
Implicit Types s : Sh S.

Lemma wp_with {A B} (x : M (Sh S) A) (k : A -> M (Sh S) B) Q s a s' : x s = Ok (a, s') -> wp (k a) Q s' -> wp (x ≫= k) Q s.
Proof. intros E Hk. rw /wp /mbind /M_bind E. exact Hk. Qed.
Definition with_find (F : Find) s : Sh S :=
  mkSh (sh_os s) (sh_pipe s) F (current_dir_inode s) (cwd s) (dir_buffer s) (file_buffer s).

Lemma find_push_spec s st i p c path : stacked (sh_find s) st -> (length st < 32)%nat -> terminated p -> len p < 2 ^ 32 ->
  cstr p = path -> (length path < 256)%nat -> exists F, find_push i p s = Ok (tt, with_find F s) /\ stacked F ((i, path, c) :: st).
Proof.
  intros [Esp (irest & Ei & Hi) (rows & rest & Er & Hrows & Hrest & Hall)] Hl Ht Hw Ep Lp.
  rw /find_push bind_gets Esp. change FIND_MAX_DEPTH with 32. rewrite -> (proj2 (Z.ltb_lt _ _)) by lia.
  destruct irest as [|x irest]; [cbn in Hi; lia|]. destruct rest as [|row rest]; [cbn in Hrest; lia|].
  have L1 : len st = len (map (fun x => x.1.1) (rev st)) by rw length_map length_rev.
  have L2 : len st = len rows by rw (Forall2_length _ _ _ Hrows) length_rev.
  inversion_clear Hall as [|? ? Hrow Hall']. rw Ei Er. rewrite -> (set_at _ irest x i _ L1).
  rewrite -> (get_at rows rest row _ L2). cbn [mbind M_bind lift]. rw /mbind /M_bind /lift.
  rewrite -> (safe_copy_spec row p path) by done. rewrite -> (set_at _ rest row _ _ L2).
  eexists. split; [reflexivity|]. split; cbn [find_sp find_stack find_paths length rev] in *.
  - lia.
  - exists irest. rw map_app -app_assoc. split; [done|]. lia.
  - exists (rows ++ [put path row]), rest. rw -app_assoc. split; [done|]. split; [|split; [lia|done]].
    apply Forall2_app; [done|]. constructor; [|done]. split; [rw put_length; lia|]. split; [apply put_terminated|].
    apply cstr_put. rw -Ep. apply cstr_nonzero.
Qed.
Lemma find_pop_spec s st i path c cur : stacked (sh_find s) ((i, path, c) :: st) -> length cur = 256%nat -> (length path < 256)%nat ->
  exists F, find_pop cur 256 s = Ok (Some (i, put path cur), with_find F s) /\ stacked F st.
Proof.
  intros [Esp (irest & Ei & Hi) (rows & rest & Er & Hrows & Hrest & Hall)] Lc Lp. rw /find_pop bind_gets Esp.
  cbn [length rev] in *. rewrite -> (proj2 (Z.ltb_lt _ _)) by lia.
  apply Forall2_app_inv_r in Hrows as (rows0 & rows1 & Hr0 & Hr1 & ->). inversion Hr1 as [|row ? ? ? (Lr & Htr & Ecr) Hr2]; subst.
  inversion Hr2; subst. cbn in Ecr. rw map_app -app_assoc in Ei. rw -app_assoc in Er. cbn [map app fst snd] in Ei, Er.
  have E1 : Z.of_nat (Datatypes.S (length st)) - 1 = len st by lia.
  have L1 : len st = len (map (fun x => x.1.1) (rev st)) by rw length_map length_rev.
  have L2 : len st = len rows0 by rw (Forall2_length _ _ _ Hr0) length_rev.
  rw /mbind /M_bind /set_find /modify. cbn [sh_find]. rw E1 Ei Er /lift. rewrite -> (get_at _ irest i _ L1), (get_at rows0 rest row _ L2).
  rewrite -> (safe_copy_spec cur row path) by (try done; rw Lr; lia). eexists. split; [reflexivity|].
  split; cbn [find_sp find_stack find_paths].
  - done.
  - exists (i :: irest). split; [done|]. cbn. lia.
  - exists rows0, (row :: rest). split; [done|]. split; [done|]. split; [cbn; lia|by constructor].
Qed.
Lemma find_pop_end s cur : stacked (sh_find s) [] -> find_pop cur 256 s = Ok (None, s).
Proof. intros [Esp _ _]. by rw /find_pop bind_gets Esp. Qed.

(** ** The entries of one directory *)
(** what the search keeps of the state it started in *)
Record searching s0 (q : list Z) (t : Term) s : Prop := {
  se_same : os_same (sh_os s0) (sh_os s);
  se_tty : os_tty (sh_os s) q t;
  se_pipe : sh_pipe s = sh_pipe s0;
  se_inode : current_dir_inode s = current_dir_inode s0;
  se_cwd : cwd s = cwd s0;
  se_file : file_buffer s = file_buffer s0;
}.
Lemma searching_called s0 q t s t' s' : searching s0 q t s -> called s q t' s' ->
  searching s0 q t' s' /\ sh_find s' = sh_find s /\ dir_buffer s' = dir_buffer s.
Proof. intros [] (o & -> & Hs & Ht). split; [split; try done; by eapply os_same_trans|done]. Qed.
Lemma wp_print {B} s0 q t s str color (k : M (Sh S) B) Q : searching s0 q t s -> pipe_mode_output (sh_pipe s0) = false ->
  string_ok str -> 0 <= color < 256 ->
  (forall s', searching s0 q (t_puts (cstr str) color t) s' -> sh_find s' = sh_find s -> dir_buffer s' = dir_buffer s -> wp k Q s') ->
  wp (puts str color;; k) Q s.
Proof.
  intros Hs Hp Hst Hc Hk. eapply wp_then; [apply (puts_called s q t); [apply Hs|by rw (se_pipe _ _ _ _ Hs)|done|done]|].
  intros [] s' Hcall. destruct (searching_called _ _ _ _ _ _ Hs Hcall) as (? & ? & ?). by apply Hk.
Qed.
Lemma with_find_searching s0 q t s F : searching s0 q t s -> searching s0 q t (with_find F s).
Proof. by intros []. Qed.

Lemma find_name_spec pre e post s : dir_buffer s = pre ++ dentry_bytes e ++ post -> dentry_ok e -> (length (de_name e) < 64)%nat ->
  find_name (len pre) (len (de_name e)) s = Ok (put (de_name e) (zeros 64), s).
Proof.
  intros Eb He Hl. rw /find_name bind_gets /lift.
  have Es : slice (len pre + 8) (len (de_name e)) (dir_buffer s) = Ok (de_name e).
  { rw Eb /dentry_bytes. rewrite <- !app_assoc. rewrite -> app_assoc. apply slice_mid; [|done].
    by rw length_app entry_header_length Nat2Z.inj_add. }
  rw Es. cbn [mbind res_bind]. rewrite -> put_zeros by done.
  have Ez : zeros 64 = zeros (length (de_name e)) ++ zeros (64 - length (de_name e)).
  { rw /zeros -replicate_add. f_equal. lia. }
  have Esp := splice_mid [] (zeros (length (de_name e))) (zeros (64 - length (de_name e))) (de_name e) 0 eq_refl ltac:(by rw length_replicate).
  cbn [app] in Esp. rw Ez Esp. done.
Qed.

Section Entries.
Variables (s0 : Sh S) (q : list Z) (w cur path : list Z).
Hypotheses (Hpipe : pipe_mode_output (sh_pipe s0) = false) (Hw : string_ok w)
  (Hcur : terminated cur) (Lcur : len cur < 2 ^ 32) (Ecur : cstr cur = path) (Hpath : path_ok path).

(** the lines of a match *)
Lemma find_match_spec {B} pre e post s t full (k : M (Sh S) B) Q : searching s0 q t s ->
  dir_buffer s = pre ++ dentry_bytes e ++ post -> dentry_ok e -> de_rec_len e < 65536 -> string_ok full ->
  (forall s', searching s0 q (show_match t (cstr full, de_type e =? 2)) s' -> sh_find s' = sh_find s -> dir_buffer s' = dir_buffer s -> wp k Q s') ->
  wp ((puts (text "  Found: ") GREEN;; puts full YELLOW;; file_type ← entry_file_type (len pre);
       (if file_type =? 2 then puts (text "/") CYAN else mret tt);; puts newline WHITE);; k) Q s.
Proof.
  intros Hs Eb He Hr Hfull Hk. apply wp_bind.
  eapply wp_print; [exact Hs|done|by apply text_ok|by split|]. intros s1 S1 F1 D1.
  eapply wp_print; [exact S1|done|exact Hfull|by split|]. intros s2 S2 F2 D2.
  destruct (entry_at pre e post s2) as (_ & _ & _ & Ety & _); [by rw D2 D1|done|done|].
  eapply wp_known; [exact Ety|]. have Hend s3 t3 : searching s0 q t3 s3 -> sh_find s3 = sh_find s -> dir_buffer s3 = dir_buffer s ->
    t_puts [10] WHITE t3 = show_match t (cstr full, de_type e =? 2) -> wp (puts newline WHITE) (fun _ s' => wp k Q s') s3.
  { intros S3 F3 D3 Et. eapply wp_mono; [apply (puts_called s3 q t3); [apply S3|by rw (se_pipe _ _ _ _ S3)|exact newline_ok|by split]|].
    intros [] s4 C4. destruct (searching_called _ _ _ _ _ _ S3 C4) as (S4 & F4 & D4). rw Et in S4. apply Hk; [done|congruence|congruence]. }
  destruct (de_type e =? 2) eqn:Ed.
  - eapply wp_print; [exact S2|done|by apply text_ok|by split|]. intros s3 S3 F3 D3. by eapply Hend; [exact S3|congruence|congruence|].
  - apply wp_bind, wp_ret. by eapply Hend; [exact S2|congruence|congruence|].
Qed.
(** one entry: what it prints, and the directory it puts on the stack *)
Lemma find_entry_spec n pre e es rest s t st c found Q : walks s pre (e :: es) rest -> entry_fine e -> searching s0 q t s ->
  stacked (sh_find s) st -> (is_sub e = true -> (length st < 32)%nat) ->
  (forall s', let hs := hit (cstr w) path e in searching s0 q (foldl show_match t hs) s' -> dir_buffer s' = dir_buffer s ->
     stacked (sh_find s') (if is_sub e then (de_inode e, show_path path (de_name e), c) :: st else st) ->
     wp (find_entries n (len (pre ++ dentry_bytes e)) w cur (found + len hs)) Q s') ->
  wp (find_entries (Datatypes.S n) (len pre) w cur found) Q s.
Proof.
  intros Hwk Hf Hs Hst Hroom Hk. cbn [find_entries].
  destruct (walks_entry _ _ _ _ _ Hwk) as (Eb & He & Hr & -> & Hz & _ & El).
  destruct (entry_at pre e _ s Eb He Hr) as (Ei & Erl & Enl & Ety & _). eapply wp_known; [exact Erl|]. rw Hz El.
  eapply wp_known; [exact Ei|]. have Hskip : hit (cstr w) path e = [] -> is_sub e = false ->
    wp (find_entries n (len (pre ++ dentry_bytes e)) w cur found) Q s.
  { intros E1 E2. have K := Hk s. rw E1 E2 in K. cbn [foldl length] in K. have -> : found = found + Z.of_nat 0 by lia. by apply K. }
  destruct (de_inode e =? 0) eqn:Ez; [apply Hskip; by rw ?/hit ?/is_sub Ez|].
  destruct (Hf (proj1 (Z.eqb_neq _ _) Ez)) as [Ln Hnz].
  have Hn : Forall (fun c => 0 < c < 256) (de_name e).
  { destruct He as (_ & _ & _ & Hb & _). apply Forall_forall. intros x Hx.
    have A := proj1 (Forall_forall _ _) Hnz x Hx. have B := proj1 (Forall_forall _ _) Hb x Hx. cbn in A, B. lia. }
  eapply wp_known; [exact Enl|]. eapply wp_known; [by eapply find_name_spec|].
  have Ename : cstr (put (de_name e) (zeros 64)) = de_name e by apply cstr_put.
  have Estreq v : terminated v -> streq (put (de_name e) (zeros 64)) v = Ok (bool_decide (de_name e = cstr v)).
  { intros Hv. rewrite -> streq_spec; [by rw Ename|apply put_terminated|done]. }
  apply wp_bind. eapply wp_lift; [apply Estreq, terminated_app|]. change (cstr (text ".")) with [46].
  have Hdots : wp (if bool_decide (de_name e = [46]) then mret true else lift (streq (put (de_name e) (zeros 64)) (text "..")))
    (fun b s' => b = dots (de_name e) /\ s' = s) s.
  { rw /dots /dot /dotdot. case_bool_decide; [by apply wp_ret|]. eapply wp_lift; [apply Estreq, terminated_app|]. by split. }
  eapply wp_then; [exact Hdots|]. intros b s' [-> ->]. destruct (dots (de_name e)) eqn:Ed; [apply Hskip; by rw ?/hit ?/is_sub Ez Ed|].
  destruct (full_path_spec cur path (de_name e)) as (full & Efull & Ht & Ec & Lf & Hfb); [done..|].
  have Hfull : string_ok full by split; [done|split; [rw Lf; lia|done]].
  apply wp_bind. eapply wp_lift; [exact Efull|]. apply wp_bind. eapply wp_lift; [apply Estreq, Hw|].
  have Hpush s1 t1 h : searching s0 q t1 s1 -> sh_find s1 = sh_find s -> dir_buffer s1 = dir_buffer s ->
    t1 = foldl show_match t (hit (cstr w) path e) -> h = found + len (hit (cstr w) path e) ->
    wp (file_type ← entry_file_type (len pre); (if file_type =? 2 then find_push (de_inode e) full else mret tt);;
        find_entries n (len (pre ++ dentry_bytes e)) w cur h) Q s1.
  { intros S1 F1 D1 Et -> . destruct (entry_at pre e (dir_bytes es ++ rest) s1) as (_ & _ & _ & Ety1 & _); [by rw D1|done|done|].
    eapply wp_known; [exact Ety1|]. have Esub : is_sub e = (de_type e =? 2) by rw /is_sub Ez Ed. rw Esub in Hroom Hk.
    destruct (de_type e =? 2).
    - destruct (find_push_spec s1 st (de_inode e) full c (show_path path (de_name e))) as (F & EF & HF); [by rw F1|by apply Hroom|done|rw Lf; lia|done| |].
      { by apply show_path_ok. }
      eapply wp_with; [exact EF|]. apply Hk; [rw -Et; by apply with_find_searching|exact D1|exact HF].
    - apply wp_bind, wp_ret. apply Hk; [by rw -Et|exact D1|by rw F1]. }
  rw /hit Ez Ed in Hpush |- *. cbn [negb andb] in Hpush. case_bool_decide as Ehit.
  - eapply find_match_spec; [exact Hs|exact Eb|done|done|exact Hfull|]. intros s1 S1 F1 D1. rw Ec in S1.
    by apply (Hpush s1 (show_match t (show_path path (de_name e), de_type e =? 2)) (found + 1)).
  - apply wp_bind, wp_ret. apply (Hpush s t found); try done. cbn [length]. lia.
Qed.

(** what follows the entries *)
Definition quits (rest : list Z) : Prop := exists k, rest = zeros k /\ (k = 0%nat \/ 6 <= k)%nat.
Lemma find_entries_end n pre rest s found : walks s pre [] rest -> quits rest -> (0 < n)%nat ->
  find_entries n (len pre) w cur found s = Ok (found, s).
Proof.
  intros [Eb Hl _] (k & -> & Hk) Hn. destruct n as [|n]; [lia|]. cbn [find_entries].
  change (dir_bytes []) with (@nil Z) in Eb. cbn [app] in Eb. rw Eb length_app length_replicate in Hl. destruct Hk as [->|Hk].
  - by rewrite -> (proj2 (Z.ltb_ge _ _)) by lia.
  - rewrite -> (proj2 (Z.ltb_lt _ _)) by lia. have Ez : zeros k = zeros 4 ++ zeros 2 ++ zeros (k - 6).
    { rw /zeros -!replicate_add. f_equal. lia. }
    have E : entry_rec_len (len pre) s = Ok (0, s).
    { rw /entry_rec_len /de_field bind_gets /lift. have -> : ld 2 (dir_buffer s) (len pre + 4) = Ok 0; [|done].
      rw Eb Ez app_assoc. apply (ld_mid 2 (pre ++ zeros 4) (zeros 2)); [rw length_app length_replicate; lia|done]. }
    by rw /mbind /M_bind E.
Qed.
Lemma find_entries_spec f : forall n pre rest s t st found, walks s pre (entries f) rest -> quits rest -> well_formed f ->
  searching s0 q t s -> stacked (sh_find s) st -> (length st + length (subs path f) <= 32)%nat -> (length (entries f) < n)%nat ->
  wp (find_entries n (len pre) w cur found) (fun r s' => r = found + len (own (cstr w) path f) /\
    searching s0 q (foldl show_match t (own (cstr w) path f)) s' /\ dir_buffer s' = dir_buffer s /\
    stacked (sh_find s') (rev (subs path f) ++ st)) s.
Proof.
  induction f as [|e r IH|e c _ r IH] => n pre rest s t st found Hwk Hq Hf Hs Hst Hroom Hn.
  - rw /wp. rewrite -> (find_entries_end n pre rest s found Hwk Hq) by (cbn in Hn; lia). split; [cbn; lia|]. by split.
  - destruct n as [|n]; [cbn in Hn; lia|]. destruct Hf as (Hfine & Hsub & Hf). cbn [entries subs length] in *.
    destruct (walks_entry _ _ _ _ _ Hwk) as (_ & _ & _ & _ & _ & [Ebuf Lbuf Hes] & _).
    eapply (find_entry_spec n pre e _ rest s t st FNil); [exact Hwk|done|done|done|by rw Hsub|]. rw Hsub. intros s1 hs S1 D1 F1.
    eapply wp_mono; [apply (IH n (pre ++ dentry_bytes e) rest s1 (foldl show_match t hs) st); [by split; rw ?D1|done|done|exact S1|exact F1|lia|lia]|].
    intros a s2 (-> & S2 & D2 & F2). rw /own. cbn [entries map concat]. rw -/(own (cstr w) path r) foldl_app length_app -/hs.
    split; [lia|]. split; [done|]. split; [congruence|done].
  - destruct n as [|n]; [cbn in Hn; lia|]. destruct Hf as (Hfine & Hsub & Hc & Hf). cbn [entries subs length] in *.
    destruct (walks_entry _ _ _ _ _ Hwk) as (_ & _ & _ & _ & _ & [Ebuf Lbuf Hes] & _).
    eapply (find_entry_spec n pre e _ rest s t st c); [exact Hwk|done|done|done|intros _; lia|]. rw Hsub. intros s1 hs S1 D1 F1.
    eapply wp_mono; [apply (IH n (pre ++ dentry_bytes e) rest s1 (foldl show_match t hs) ((de_inode e, show_path path (de_name e), c) :: st)); [by split; rw ?D1|done|done|exact S1|exact F1|cbn; lia|lia]|].
    intros a s2 (-> & S2 & D2 & F2). rw /own. cbn [entries map concat rev]. rw -/(own (cstr w) path r) foldl_app length_app -/hs.
    split; [lia|]. split; [done|]. split; [congruence|]. rw -app_assoc. exact F2.
Qed.
End Entries.

(** ** The traversal *)
(** every directory of the forest is on the volume, in one block *)
Fixpoint on_volume (o : S) (f : forest) : Prop :=
  match f with
  | FNil => True
  | FLeaf _ r => on_volume o r
  | FDir e c r => os_listing o (de_inode e) [entries c] /\ on_volume o c /\ on_volume o r
  end.
Definition visitable (o : S) (x : Z * list Z * forest) : Prop :=
  os_listing o x.1.1 [entries x.2] /\ on_volume o x.2 /\ well_formed x.2 /\ path_ok x.1.2.
Lemma on_volume_same o o' f : os_same o o' -> on_volume o f -> on_volume o' f.
Proof. intros (_ & _ & Hl & _). induction f as [|e r IH|e c IHc r IHr]; cbn [on_volume]; [done|auto|]. intros (A & B & C). auto. Qed.
Lemma subs_visitable o path f : path_ok path -> on_volume o f -> well_formed f -> Forall dentry_ok (entries f) ->
  Forall (visitable o) (subs path f).
Proof.
  intros Hp. induction f as [|e r IH|e c _ r IH]; cbn [subs on_volume well_formed entries]; [done| |].
  - intros Ho (_ & _ & Hf) He. inversion_clear He. by apply IH.
  - intros (Hl & Hc & Ho) (Hfine & Hsub & Hwc & Hf) He. inversion_clear He as [|? ? He' Hes]. constructor; [|by apply IH].
    split; [done|]. split; [done|]. split; [done|]. apply andb_true_iff in Hsub as [[Hz _]%andb_true_iff _].
    apply negb_true_iff, Z.eqb_neq in Hz. destruct (Hfine Hz) as [Ln Hnz]. apply show_path_ok; [done|done|].
    destruct He' as (_ & _ & _ & Hb & _). apply Forall_forall. intros x Hx.
    have A := proj1 (Forall_forall _ _) Hnz x Hx. have B := proj1 (Forall_forall _ _) Hb x Hx. cbn in A, B. lia.
Qed.
Lemma weight_split path f st : weight (rev (subs path f) ++ st) = (dirs f + weight st)%nat.
Proof. by rw weight_app weight_subs. Qed.

Lemma find_loop_spec s0 q w : pipe_mode_output (sh_pipe s0) = false -> string_ok w ->
  forall fuel st s t cur found, searching s0 q t s -> stacked (sh_find s) st -> Forall (visitable (sh_os s0)) st ->
  (weight st <= 32)%nat -> (weight st < fuel)%nat -> length cur = 256%nat -> buffer_ok s -> drop 512 (dir_buffer s) = zeros 3584 ->
  wp (find_loop fuel w cur found) (fun r s' => let ms := concat (map (visit (cstr w)) st) in
    r = found + len ms /\ searching s0 q (foldl show_match t ms) s') s.
Proof.
  intros Hpipe Hw. induction fuel as [|fuel IH] => st s t cur found Hs Hst Hv Hwt Hfuel Lc Hb Hd; [lia|]. cbn [find_loop].
  destruct st as [|[[i path] f] st].
  { eapply wp_with; [by apply find_pop_end|]. apply wp_ret. cbn. split; [lia|done]. }
  apply Forall_cons in Hv as [(Hl & Hvol & Hwf & Hpath) Hv']. cbn [fst snd weight] in *. destruct (Hpath) as (_ & Lp & _).
  destruct (find_pop_spec s st i path f cur) as (F & EF & HF); [done|done|done|]. eapply wp_with; [exact EF|].
  set (s1 := with_find F s). have S1 : searching s0 q t s1 by apply with_find_searching.
  have Hl1 : os_listing (sh_os s1) i [entries f] by apply (se_same _ _ _ _ S1).
  eapply wp_then; [apply (read_dir_spec s1 q t i [entries f]); [apply S1|exact Hl1|exact Hb]|].
  intros r s2 (-> & o & -> & Hsm & Htty & [L2 B2]). cbn [negb Z.eqb]. set (s2 := with_dir o _ s1) in *.
  destruct (law_listing _ _ _ Hl1) as (_ & _ & Hblk). destruct (blocks_length _ Hblk) as [Llen Hok]. cbn [List.concat length] in Llen, Hok.
  rewrite -> app_nil_r in Llen, Hok. have Eb : dir_buffer s2 = dir_bytes (entries f) ++ zeros 3584.
  { change (dir_buffer s2) with (after_read [entries f] (dir_buffer s)). rw /after_read. cbn [List.concat length]. by rw app_nil_r Hd. }
  have Hwk : walks s2 [] (entries f) (zeros 3584) by split.
  have Hcnt := walks_count _ _ _ _ Hwk.
  have S2 : searching s0 q t s2 by destruct S1; split; try done; eapply os_same_trans; [|exact Hsm].
  have Lput : length (put path cur) = 256%nat by rw put_length; lia.
  have Ecur : cstr (put path cur) = path by apply cstr_put, path_nonzero.
  have Hwl := weight_subs path f. have Hlen := weight_length (rev (subs path f)). rw length_rev Hwl in Hlen. have Hlen2 := weight_length st.
  eapply wp_then; [apply (find_entries_spec s0 q w (put path cur) path Hpipe Hw (put_terminated _ _) ltac:(by rw Lput) Ecur Hpath
    f 4097 [] (zeros 3584) s2 t st found Hwk); [by exists 3584%nat; split; [|right; lia]|done|exact S2|exact HF|lia|lia]|].
  intros a s3 (-> & S3 & D3 & F3).
  have Hv3 : Forall (visitable (sh_os s0)) (rev (subs path f) ++ st).
  { apply Forall_app. split; [|done]. apply Forall_rev. by apply subs_visitable. }
  have Hd3 : drop 512 (dir_buffer s3) = zeros 3584 by rewrite -> D3, Eb, drop_app_length' by lia.
  eapply wp_mono; [apply (IH (rev (subs path f) ++ st) s3 (foldl show_match t (own (cstr w) path f)) (put path cur)
    (found + len (own (cstr w) path f)) S3 F3 Hv3)|]; [rw weight_split; lia|rw weight_split; lia|done|split; [by rw D3|by rw D3]|done|].
  intros n s4. cbv zeta. rw map_app concat_app -deep_subs. cbn [map concat]. rw /visit /search. cbn [fst snd].
  intros (-> & S4). rw -!foldl_app in S4. rewrite <- app_assoc. split; [rw !length_app; lia|exact S4].
Qed.

(** ** The command *)
(** no more matches than entries: 64 of them fill a block *)
Lemma own_count o i w path f : os_listing o i [entries f] -> (length (own w path f) <= 64)%nat.
Proof.
  intros (_ & _ & He)%law_listing. apply Forall_cons in He as [[Hl Hes] _].
  have L : (8 * length (entries f) <= length (dir_bytes (entries f)))%nat.
  { clear Hl. induction Hes as [|e es He _ IH]; [cbn; lia|]. have A := dentry_ok_rec_len e He. have B := dentry_bytes_length e.
    rewrite -> dir_bytes_cons, length_app. cbn [length]. lia. }
  have Hle es : (length (concat (map (hit w path) es)) <= length es)%nat.
  { induction es as [|e es IH]; [done|]. cbn [map concat]. rw length_app. have : (length (hit w path e) <= 1)%nat by rw /hit; case_match; cbn; lia.
    cbn [length]. lia. }
  rw /own. specialize (Hle (entries f)). lia.
Qed.
Lemma deep_count o w f : forall path, on_volume o f -> (length (deep w path f) <= 64 * dirs f)%nat.
Proof.
  induction f as [|e r IH|e c IHc r IHr] => path; cbn [on_volume deep dirs]; [cbn; lia|by apply IH|]. intros (Hl & Hc & Hr).
  rw !length_app. have := own_count o _ w (show_path path (de_name e)) c Hl. have := IHc (show_path path (de_name e)) Hc. have := IHr path Hr. lia.
Qed.
Definition find_room (F : Find) : Prop := length (find_stack F) = 32%nat /\ length (find_paths F) = 32%nat /\
  Forall (fun row => length row = 256%nat) (find_paths F).
Definition chars (color : Z) (cs : list Z) (t : Term) : Term := foldl (fun t c => t_one color c t) t cs.
(** the last line: that there is no match, or their number *)
Definition find_report (n : Z) (t t' : Term) : Prop :=
  if n =? 0 then t' = says [(line "No matches found.", YELLOW)] t
  else exists cs, Forall (fun c => 48 <= c < 58) cs /\ dec_val cs = n /\ hd 48 cs <> 48 /\
    t' = says [(line " match(es).", GREEN)] (chars GREEN cs (says [(text "Found ", GREEN)] t)).
Definition find_says (w : list Z) : list (list Z * Z) :=
  [(text "Searching for '", WHITE); (w, YELLOW); (line "' in entire filesystem...", WHITE)].

Lemma says_one str color t : t_puts (cstr str) color t = says [(str, color)] t.
Proof. done. Qed.
Lemma putchars_spec s0 q cs : pipe_mode_output (sh_pipe s0) = false -> Forall (fun c => 48 <= c < 58) cs ->
  forall s t, searching s0 q t s -> wp (putchars cs GREEN) (fun _ s' => searching s0 q (chars GREEN cs t) s') s.
Proof.
  intros Hp. induction 1 as [|c cs Hc Hcs IH] => s t Hs; cbn [putchars]; [by apply wp_ret|].
  eapply wp_then; [apply (putchar_called s q t c GREEN); [apply Hs|by rw (se_pipe _ _ _ _ Hs)|lia|by split]|].
  intros [] s1 C1. by apply IH, (searching_called s0 q t s).
Qed.
Lemma searching_ready s0 s q t m t' : ready s0 q t m -> searching s0 q t' s -> ready s q t' m /\ kept s0 s.
Proof.
  intros [] [[Hd [Hr _]] ? Ep Ei Ew Ef]. split; [split; rw ?Ep ?Ei ?Ef; try done; by apply Hd|]. split; [done| |done]. intros nm n. apply Hr.
Qed.

Lemma cmd_find_spec s q t m w f fuel : ready s q t m -> string_ok w -> cstr w <> [] -> buffer_ok s ->
  drop 512 (dir_buffer s) = zeros 3584 -> find_room (sh_find s) -> os_listing (sh_os s) 2 [entries f] ->
  on_volume (sh_os s) f -> well_formed f -> (dirs f < 32)%nat -> (dirs f + 1 < fuel)%nat ->
  wp (cmd_find fuel w) (fun _ s' => exists t', ready s' q t' m /\ kept s s' /\
    let ms := search (cstr w) [47] f in find_report (len ms) (foldl show_match (says (find_says w) t) ms) t') s.
Proof.
  intros Hr Hw Hne Hb Hd (R1 & R2 & R3) Hl Hvol Hwf Hn Hfuel. rw /cmd_find. have Hp := ready_out _ _ _ _ Hr.
  destruct (cstr_first w Hw Hne) as (c & Ec & Hc). apply wp_bind. eapply wp_lift; [exact Ec|]. rw Hc.
  have S0 : searching s q t s by split; [apply os_same_refl|apply Hr|done..].
  eapply wp_print; [exact S0|done|by apply text_ok|by split|]. intros s1 S1 F1 D1.
  eapply wp_print; [exact S1|done|exact Hw|by split|]. intros s2 S2 F2 D2.
  eapply wp_print; [exact S2|done|by apply line_ok|by split|]. intros s3 S3 F3 D3. have F3' : sh_find s3 = sh_find s by congruence.
  apply wp_bind, wp_gets, wp_bind, wp_modify. set (G := mkFind (find_stack (sh_find s3)) (find_paths (sh_find s3)) 0).
  change (mkSh _ _ G _ _ _ _) with (with_find G s3). set (s4 := with_find G s3).
  have S4 : searching s q (says (find_says w) t) s4 by apply with_find_searching.
  have K4 : stacked (sh_find s4) [].
  { rw /s4 /G F3'. split; cbn [sh_find with_find find_sp find_stack find_paths length rev]; [done|by exists (find_stack (sh_find s))|].
    exists [], (find_paths (sh_find s)). by split. }
  destruct (find_push_spec s4 [] 2 (text "/") f [47]) as (F & EF & HF); [exact K4|cbn; lia|apply terminated_app|done|done|cbn; lia|].
  eapply wp_with; [exact EF|].
  have Hroot : visitable (sh_os s) (2, [47], f) by split; [done|split; [done|split; [done|split; [done|split; [cbn; lia|by repeat constructor]]]]].
  eapply wp_then; [apply (find_loop_spec s q w Hp Hw fuel [(2, [47], f)] (with_find F s4) (says (find_says w) t) (zeros 256) 0);
    [by apply with_find_searching|exact HF|by constructor|cbn; lia|cbn; lia|done|by rw /buffer_ok /= D3 D2 D1|by rw /= D3 D2 D1]|].
  intros n s5. cbn [map concat]. rw app_nil_r /visit. cbn [fst snd]. intros (-> & S5). rw Z.add_0_l. set (ms := search (cstr w) [47] f) in *.
  have Hcount : (length ms <= 64 * 32)%nat.
  { rw /ms /search length_app. have := own_count _ _ (cstr w) [47] f Hl. have := deep_count _ (cstr w) f [47] Hvol. lia. }
  have Hfin s' t' : searching s q t' s' -> find_report (len ms) (foldl show_match (says (find_says w) t) ms) t' ->
    exists t', ready s' q t' m /\ kept s s' /\ find_report (len ms) (foldl show_match (says (find_says w) t) ms) t'.
  { intros S' Rp. exists t'. by destruct (searching_ready _ _ _ _ _ _ Hr S'). }
  destruct (Z.eqb_spec (len ms) 0) as [Ez|Ez].
  - eapply wp_mono; [apply (puts_called s5 q (foldl show_match (says (find_says w) t) ms)); [apply S5|by rw (se_pipe _ _ _ _ S5)|by apply line_ok|by split]|].
    intros [] s6 C6. destruct (searching_called _ _ _ _ _ _ S5 C6) as (S6 & _). rw says_one in S6. eapply Hfin; [exact S6|].
    rewrite -> Ez. exact eq_refl.
  - eapply wp_print; [exact S5|done|by apply text_ok|by split|]. intros s6 S6 _ _. rw says_one in S6.
    destruct (print_int_spec (len ms)) as (cs & Ecs & Hcs & Hv & Hlead & _); [lia|]. rw /print_int. apply wp_bind, wp_bind. eapply wp_lift; [exact Ecs|].
    eapply wp_mono; [by apply (putchars_spec s q cs Hp Hcs s6 _ S6)|]. intros [] s7 S7.
    eapply wp_mono; [apply (puts_called s7 q (chars GREEN cs (says [(text "Found ", GREEN)] (foldl show_match (says (find_says w) t) ms))));
      [apply S7|by rw (se_pipe _ _ _ _ S7)|by apply line_ok|by split]|].
    intros [] s8 C8. destruct (searching_called _ _ _ _ _ _ S7 C8) as (S8 & _). rw says_one in S8. eapply Hfin; [exact S8|]. rewrite /find_report (proj2 (Z.eqb_neq _ _) Ez).
    exists cs. split; [exact Hcs|]. split; [exact Hv|]. split; [exact (Hlead Ez)|exact eq_refl].
Qed.
End Find.

(** ** What the search finds *)
(** [e] is an entry of the directory at the path [p] of the tree below [path] *)
Inductive lies : list Z -> forest -> list Z -> dentry -> Prop :=
| lies_here path f e : In e (entries f) -> lies path f path e
| lies_leaf path e r p e' : lies path r p e' -> lies path (FLeaf e r) p e'
| lies_next path e c r p e' : lies path r p e' -> lies path (FDir e c r) p e'
| lies_below path e c r p e' : lies (show_path path (de_name e)) c p e' -> lies path (FDir e c r) p e'.
Lemma hit_spec w p e x : In x (hit w p e) <->
  de_inode e <> 0 /\ dots (de_name e) = false /\ de_name e = w /\ x = (show_path p w, de_type e =? 2).
Proof.
  rw /hit. destruct (Z.eqb_spec (de_inode e) 0) as [E|E]; cbn [negb andb In]; [tauto|].
  destruct (dots (de_name e)) eqn:Ed; cbn [negb andb In]; [naive_solver|].
  case_bool_decide as Ew; cbn [In]; [|tauto]. subst w. naive_solver.
Qed.
Lemma own_spec w path f x : In x (own w path f) <-> exists e, In e (entries f) /\ In x (hit w path e).
Proof.
  rw /own in_concat. split.
  - intros (l & Hl & Hx). apply in_map_iff in Hl as (e & <- & He). by exists e.
  - intros (e & He & Hx). exists (hit w path e). split; [by apply in_map|done].
Qed.
(** the matches are the live entries of that name, in whatever directory of the tree *)
Lemma search_spec w f : forall path x, In x (search w path f) <-> exists p e, lies path f p e /\ In x (hit w p e).
Proof.
  have Hdeep : forall g path x, In x (deep w path g) -> exists p e, lies path g p e /\ In x (hit w p e).
  { induction g as [|e r IH|e c IHc r IHr] => path x; cbn [deep]; [done| |].
    - intros (p & e' & Hl & Hx)%IH. exists p, e'. by split; [constructor|].
    - rw !in_app_iff. intros [(p & e' & Hl & Hx)%IHr|[(e' & He & Hx)%own_spec|(p & e' & Hl & Hx)%IHc]].
      + exists p, e'. by split; [apply lies_next|].
      + exists (show_path path (de_name e)), e'. by split; [apply lies_below, lies_here|].
      + exists p, e'. by split; [apply lies_below|]. }
  intros path x. rw /search in_app_iff. split.
  - intros [(e & He & Hx)%own_spec|Hx]; [|by apply Hdeep]. exists path, e. by split; [constructor|].
  - intros (p & e & Hl & Hx). induction Hl as [path f e He|path e r p e' Hl IH|path e c r p e' Hl IH|path e c r p e' Hl IH].
    + left. apply own_spec. by exists e.
    + destruct (IH Hx) as [Ho|Hd]; [left|by right]. apply own_spec in Ho as (e0 & He0 & Hx0). apply own_spec. exists e0. by split; [right|].
    + destruct (IH Hx) as [Ho|Hd]; [left|right]; [|cbn [deep]; rw !in_app_iff; by left].
      apply own_spec in Ho as (e0 & He0 & Hx0). apply own_spec. exists e0. by split; [right|].
    + right. cbn [deep]. rw !in_app_iff. destruct (IH Hx); tauto.
Qed.

(** ** Properties *)
Section Properties.
Context {D : Type} `{BlockDeviceLaws D} `{StackJunkLaws} `{Overrun D}.
Variable F : Frame.
Hypothesis HF : frame_ok F.
#[local] Existing Instance kernel_os.
#[local] Instance find_os : Os (Kernel D) := kernel_os F.
#[local] Instance find_laws : OsLaws (Kernel D) := kernel_laws F HF.

(** C16: [find] searches the whole tree and ends.  The volume's directories form a finite
    tree below the root, with fewer than 32 directories in it besides the root, each of one
    block, the names of its entries shorter than 64 bytes; and no larger directory was read
    before, so that [dir_buffer] is zero behind its first 512 bytes.  Then the traversal with
    its stack needs no more rounds than there are directories and prints what the
    recursive search of the tree lists, in that order: each live entry of the name, in
    whatever directory, with its path (a text in place of a path that got too long) and a
    slash for a directory; then their number in decimal, or that there is none. *)
Theorem find_searches_tree s q t m w f fuel : ready s q t m -> string_ok w -> cstr w <> [] -> buffer_ok s ->
  drop 512 (dir_buffer s) = zeros 3584 -> find_room (sh_find s) -> kernel_listing (sh_os s) ROOT_INODE_NO [entries f] ->
  on_volume (sh_os s) f -> well_formed f -> (dirs f < 32)%nat -> (dirs f + 1 < fuel)%nat ->
  let ms := search (cstr w) [47] f in
  wp (cmd_find fuel w) (fun _ s' => exists t', ready s' q t' m /\ current_dir_inode s' = current_dir_inode s /\
    find_report (len ms) (foldl show_match (says (find_says w) t) ms) t') s /\
  forall x, In x ms <-> exists p e, lies [47] f p e /\ de_inode e <> 0 /\ dots (de_name e) = false /\ de_name e = cstr w /\
    x = (show_path p (cstr w), de_type e =? 2).
Proof.
  intros Hr Hw Hne Hb Hd HR Hl Hv Hwf Hn Hf ms. split.
  - eapply wp_mono; [by apply (cmd_find_spec s q t m w f fuel)|]. intros [] s' (t' & Hr' & [Ei _ _] & Hrep). by exists t'.
  - intros x. rw /ms search_spec. split; intros (p & e & Hp & Hx); exists p, e; (split; [done|]); by apply hit_spec.
Qed.
End Properties.

(** the formatted volume with one directory *)
#[local] Existing Instance kernel_os.
#[local] Instance demo_find_os : Os (Kernel Image) := kernel_os demo_frame.
#[local] Instance demo_find_laws : OsLaws (Kernel Image) := kernel_laws demo_frame demo_frame_ok.
Fixpoint leaves (es : list dentry) (f : forest) : forest := match es with [] => f | e :: es => FLeaf e (leaves es f) end.
Definition demo_forest (ino : Z) : forest :=
  leaves (take 2 (one_dir ino)) (FDir (mkDentry ino demo_name EXT2_FT_DIR (zeros 475)) (leaves (dot_entries ino ROOT_INODE_NO) FNil) FNil).
Lemma report_one x t t' : find_report (len [x]) (foldl show_match t [x]) t' -> find_report 1 (show_match t x) t'.
Proof. done. Qed.
Lemma find_searches_tree_witness : exists s, wp (cmd_find 3 (lit demo_name)) (fun _ s' => exists t', ready s' [] t' dir_slots /\
  find_report 1 (show_match (says (find_says (lit demo_name)) demo_term) (47 :: demo_name, true)) t') s.
Proof.
  destruct one_dir_volume as (v & ino & b & Em & H0 & H2 & Hv & Hd). set (s := initial_shell (volume_kernel v)).
  have Hr : ready s [] demo_term dir_slots by apply volume_ready; eexists _, _.
  destruct demo_name_str' as [[Hn Hne] En].
  have Hsub : is_sub (mkDentry ino demo_name EXT2_FT_DIR (zeros 475)) = true by rw /is_sub /= (proj2 (Z.eqb_neq ino 0)).
  have Hms : search (cstr (lit demo_name)) [47] (demo_forest ino) = [(47 :: demo_name, true)].
  { rw En /search /demo_forest. cbn [leaves take one_dir dot_entries entries deep]. rw /own. cbn [entries map concat app]. rw /hit.
    cbn [de_inode de_name de_type]. rewrite -> (proj2 (Z.eqb_neq ino 0)) by done. vm_compute. reflexivity. }
  have Hdot : Forall (fun e => (length (de_name e) < 64)%nat /\ Forall (fun c => c <> 0) (de_name e)) (one_dir ino ++ dot_entries ino ROOT_INODE_NO).
  { rw /one_dir /dot_entries. cbn [app]. repeat (apply Forall_cons; split; [split; [apply Nat.ltb_lt; by vm_compute|vm_compute; repeat constructor; discriminate]|]). constructor. }
  have W := find_searches_tree demo_frame demo_frame_ok s [] demo_term dir_slots (lit demo_name) (demo_forest ino) 3 Hr Hn.
  rw Hms in W. exists s. eapply wp_mono; [apply W; clear W|].
  - by destruct Hne as [? _].
  - split; [apply length_replicate|apply bytes_ok_zeros].
  - exact (drop_replicate 512 4096 0).
  - split; [reflexivity|]. split; [reflexivity|]. apply Forall_replicate, length_replicate.
  - apply (volume_listing v ROOT_INODE_NO [ROOT_DIR_BLOCK_LBA]); [apply Hv|by cbn; lia|apply Hv].
  - split; [|done]. apply (volume_listing v ino [b]); [apply Hv|by cbn; lia|exact Hd].
  - rw /one_dir /dot_entries in Hdot. cbn [app] in Hdot. rewrite -> !Forall_cons in Hdot. destruct Hdot as (F1 & F2 & F3 & F4 & F5 & _).
    split; [intros _; exact F1|]. split; [reflexivity|]. split; [intros _; exact F2|]. split; [reflexivity|].
    split; [intros _; exact F3|]. split; [exact Hsub|]. split; [|exact I]. split; [intros _; exact F4|].
    split; [by rw /is_sub andb_false_r|]. split; [intros _; exact F5|]. split; [reflexivity|exact I].
  - cbn. lia.
  - cbn. lia.
  - intros [] s' (t' & Hr' & _ & Hrep). exists t'. split; [exact Hr'|]. apply report_one. exact Hrep.
Defined.
