(* ===== verification/ShellTree.v ===== *)
(** * The shell on the tree of files

    [mkdir] and [rm] of [shell.c] on the whole volume: with the laws of [OsLaws] about the
    tree, every outcome of the two commands, what it prints and the tree it leaves. *)

From Stdlib Require Import String.
From S2P Require Import Prelude StdString BlockDevice Ext2Layout Ext2Dir Ext2State Ext2 Ext2Inv Ext2Format Ext2Files Ext2Data Ext2Crud Inserter Ext2Theorems FileTree Ext2View Ext2Tree Ext2Volume Keyboard Console Interrupt Syscalls ShellStr Shell ShellCmd ShellMain ShellSpec ShellLine ShellKernel.

Section Tree.
Context {S : Type} `{OsLaws S}.
Implicit Types s : Sh S.

(** the shell outside a pipeline: the waiting keys, the screen and the tree *)
Record at_tree s (q : list Z) (x : Term) (t : tree) : Prop := {
  at_tty : os_tty (sh_os s) q x;
  at_out : pipe_mode_output (sh_pipe s) = false;
  at_os : os_tree (sh_os s) t;
}.
(** what a command leaves *)
Definition leaves s q x t s' : Prop := at_tree s' q x t /\ current_dir_inode s' = current_dir_inode s.
Lemma leaves_refl s q x t : at_tree s q x t -> leaves s q x t s.
Proof. done. Qed.

(** the next message, and the last one *)
Lemma puts_leaves s0 s q x t str color : leaves s0 q x t s -> string_ok str -> 0 <= color < 256 ->
  wp (puts str color) (fun _ s' => leaves s0 q (t_puts (cstr str) color x) t s') s.
Proof.
  intros [[Ht Ho Hos] Ei] Hs Hc. eapply wp_mono; [by apply (puts_called s q x)|].
  intros [] s' (o & -> & (_ & _ & _ & Hsm) & Ht'). split; [|done]. split; [done|done|by apply Hsm].
Qed.
Lemma next_puts {B} s0 s q x t str color msgs (k : M (Sh S) B) Q : leaves s0 q (says msgs x) t s -> string_ok str -> 0 <= color < 256 ->
  (forall s', leaves s0 q (says (msgs ++ [(str, color)]) x) t s' -> wp k Q s') -> wp (puts str color;; k) Q s.
Proof.
  intros Hl Hs Hc Hk. eapply wp_then; [by apply (puts_leaves s0 s q (says msgs x) t)|]. intros [] s' Hl'. apply Hk.
  by rw /says foldl_app.
Qed.
Lemma last_puts s0 s q x t str color msgs (Q : unit -> Sh S -> Prop) : leaves s0 q (says msgs x) t s -> string_ok str -> 0 <= color < 256 ->
  (forall s', leaves s0 q (says (msgs ++ [(str, color)]) x) t s' -> Q tt s') -> wp (puts str color) Q s.
Proof.
  intros Hl Hs Hc Hk. eapply wp_mono; [by apply (puts_leaves s0 s q (says msgs x) t)|]. intros [] s' Hl'. apply Hk.
  by rw /says foldl_app.
Qed.

(** ** [mkdir] *)
Definition mkdir_says (made : bool) (name : list Z) : list (list Z * Z) :=
  if made then [(text "Directory created: ", GREEN); (name, GREEN); (newline, WHITE)]
  else [(line "mkdir: Directory already exists", RED)].
Lemma cmd_mkdir_spec s q x t m name : at_tree s q x t -> t !! current_dir_inode s = Some (Folder m) -> name_str name ->
  (m !! cstr name = None -> os_place (sh_os s) (current_dir_inode s) (cstr name) true 0) ->
  let p := current_dir_inode s in
  wp (cmd_mkdir name) (fun _ s' => match look t p (cstr name) with
    | None => exists n : Z, t !! n = None /\
        leaves s q (says (mkdir_says true name) x) (add_node t p (cstr name) n (empty_folder p n)) s'
    | Some _ => leaves s q (says (mkdir_says false name) x) t s'
    end) s.
Proof.
  intros [Ht Ho Hos] Hp Hn Hpl p. destruct (Hn) as [Hs Hnm]. rw /cmd_mkdir. apply wp_first; [done|]. intros c ->.
  apply wp_bind. eapply wp_lift; [by apply request_name_spec|]. apply wp_bind, wp_gets, wp_bind, wp_sys.
  eapply wp_mono; [apply (law_tree_write _ t p m (cstr name) [] true q x); try done; by repeat constructor|].
  intros r o (Ht' & n & t' & Hos' & E & Hfr). rw /tree_call in E.
  have Hl : at_tree (with_os o s) q x t' by split.
  destruct (look t p (cstr name)) as [[i on]|] eqn:El; injection E as <- <-; cbn [Z.eqb].
  - eapply (last_puts s _ q x _ _ _ []); [by split|by apply line_ok|done|done].
  - have Hno : m !! cstr name = None.
    { destruct (m !! cstr name) as [[i ft]|] eqn:Em; [|done].
      destruct (look_some t p m (cstr name) i ft (law_tree_ok _ _ Hos) Hp Em) as (on & _ & E'). by rw El in E'. }
    eapply (next_puts s _ q x _ _ _ []); [by split|by apply text_ok|done|]. intros s1 L1.
    eapply (next_puts s); [exact L1|done|done|]. intros s2 L2.
    eapply (last_puts s); [exact L2|exact newline_ok|done|]. intros s3 L3. exists n. split; [by apply Hfr|exact L3].
Qed.

(** ** [rm] *)
Definition removed_says (name : list Z) : list (list Z * Z) := [(text "Removed: ", GREEN); (name, GREEN); (newline, WHITE)].
Definition rm_says (o : option node) (name : list Z) : list (list Z * Z) :=
  match o with
  | None => [(text "rm: No such file or directory: ", RED); (name, RED); (newline, WHITE)]
  | Some (Folder m) => if childless m then removed_says name else [(line "rm: Directory not empty", RED)]
  | Some (Regular _) => removed_says name
  end.
Definition rm_tree (t : tree) (p : Z) (nm : list Z) : tree :=
  match look t p nm with
  | None => t
  | Some (i, Folder m) => if childless m then remove_node t p nm i else t
  | Some (i, Regular _) => remove_node t p nm i
  end.
Lemma rm_empty t p nm n q : look t p nm = Some (n, empty_folder q n) ->
  (forall name, rm_says (snd <$> look t p nm) name = removed_says name) /\ rm_tree t p nm = remove_node t p nm n.
Proof.
  intros E. rw /rm_tree E. cbn [fmap option_fmap option_map snd]. rw /rm_says.
  have Ec := empty_folder_childless q n. destruct (empty_folder q n) as [m|c]; [by rewrite -> (Ec m eq_refl)|done].
Qed.
(** the two requests of [rm], a file first *)
Lemma two_deletes s q x t m name : at_tree s q x t -> t !! current_dir_inode s = Some (Folder m) -> name_str name ->
  dots (cstr name) = false -> let p := current_dir_inode s in
  wp (ret ← delete_name name p false; if ret =? 1 then delete_name name p true else mret ret) (fun r s' =>
    r = match look t p (cstr name) with
        | None => 1 | Some (_, Regular _) => 0 | Some (_, Folder mi) => if childless mi then 0 else 2 end /\
    leaves s q x (rm_tree t p (cstr name)) s') s.
Proof.
  intros [Ht Ho Hos] Hp [Hs Hnm] Hd p. rw /delete_name. apply wp_bind, wp_bind. eapply wp_lift; [by apply request_name_spec|].
  apply wp_sys. eapply wp_mono; [by apply (law_tree_delete _ t p m (cstr name) false q x)|].
  intros r o (Ht' & t' & Hos' & E). rw /tree_call in E. rw /rm_tree.
  destruct (look t p (cstr name)) as [[i [mi|c]]|] eqn:El; injection E as <- <-; cbn [Z.eqb].
  2: { apply wp_ret. split; [done|]. by split; [split|]. }
  all: apply wp_bind; eapply wp_lift; [by apply request_name_spec|]; apply wp_sys;
    (eapply wp_mono; [by apply (law_tree_delete _ t p m (cstr name) true q x)|]);
    intros r o2 (Ht2 & t2 & Hos2 & E); rw /tree_call El in E.
  - destruct (childless mi); injection E as <- <-; (split; [done|]; by split; [split|]).
  - injection E as <- <-. split; [done|]. by split; [split|].
Qed.
Lemma cmd_rm_spec s q x t m name : at_tree s q x t -> t !! current_dir_inode s = Some (Folder m) -> name_str name ->
  dots (cstr name) = false -> let p := current_dir_inode s in
  wp (cmd_rm name) (fun _ s' => leaves s q (says (rm_says (snd <$> look t p (cstr name)) name) x) (rm_tree t p (cstr name)) s') s.
Proof.
  intros Ha Hp Hn Hd p. destruct (Hn) as [Hs _]. rw /cmd_rm. apply wp_first; [done|]. intros c ->.
  apply wp_bind, wp_gets, wp_assoc. eapply wp_then; [by apply (two_deletes s q x t m name)|].
  intros r s1 (Er & L1). fold p in Er, L1. change (says [] x) with x in L1. set (t' := rm_tree _ _ _) in *.
  have Hremoved : r = 0 -> wp (puts (text "Removed: ") GREEN;; puts name GREEN;; puts newline WHITE)
    (fun _ s' => leaves s q (says (removed_says name) x) t' s') s1.
  { intros _. eapply (next_puts s _ q x _ _ _ []); [exact L1|by apply text_ok|done|]. intros s2 L2.
    eapply (next_puts s); [exact L2|done|done|]. intros s3 L3. by eapply (last_puts s); [exact L3|exact newline_ok|done|]. }
  rw /rm_says. destruct (look t p (cstr name)) as [[i [mi|c']]|]; cbn [fmap option_fmap option_map snd].
  - destruct (childless mi); subst r; cbn [Z.eqb Pos.eqb]; [exact (Hremoved eq_refl)|]. by eapply (last_puts s _ q x _ _ _ []); [exact L1|by apply line_ok|done|].
  - subst r; cbn [Z.eqb Pos.eqb]. exact (Hremoved eq_refl).
  - subst r; cbn [Z.eqb Pos.eqb]. eapply (next_puts s _ q x _ _ _ []); [exact L1|by apply text_ok|done|]. intros s2 L2.
    eapply (next_puts s); [exact L2|done|done|]. intros s3 L3. by eapply (last_puts s); [exact L3|exact newline_ok|done|].
Qed.

(** ** The two lines *)
Variables (cmd_wc : list Z -> M (Sh S) unit) (cmd_testuser : M (Sh S) unit) (find_fuel : nat).
Abbreviation dispatch := (dispatch cmd_wc cmd_testuser find_fuel).
Abbreviation execute := (execute cmd_wc cmd_testuser find_fuel).
Lemma dispatch_mkdir s a b (P : Sh S -> Prop) : wp (cmd_mkdir a) (fun _ s' => P s') s ->
  wp (dispatch (put (bytes_of "mkdir") (zeros 64)) a b) (fun h s' => h = false /\ P s') s.
Proof.
  intros He. rw /ShellMain.dispatch. cbv zeta. do 3 next_command.
  eapply wp_then; [exact He|]. intros [] s' HP. by apply wp_ret.
Qed.
Lemma dispatch_rm s a b (P : Sh S -> Prop) : wp (cmd_rm a) (fun _ s' => P s') s ->
  wp (dispatch (put (bytes_of "rm") (zeros 64)) a b) (fun h s' => h = false /\ P s') s.
Proof.
  intros He. rw /ShellMain.dispatch. cbv zeta. do 6 next_command.
  eapply wp_then; [exact He|]. intros [] s' HP. by apply wp_ret.
Qed.

(** a command with one word *)
Definition word_line (cmd a : list Z) : list Z := cmd ++ 32 :: a.
Lemma three_words_word cmd a : Forall plain cmd -> Forall plain a -> cmd <> [] -> a <> [] ->
  three_words (word_line cmd a) = (cmd, a, []).
Proof.
  intros Hc Ha Nc Na. have Ea : word (drop_spaces a) = (a, []).
  { have E := drop_spaces_plain a [] Ha Na. have E2 := word_plain a [] Ha (or_introl eq_refl). rewrite -> app_nil_r in E, E2. by rw E. }
  rw /three_words /word_line. rewrite -> drop_spaces_plain, word_plain by auto. cbn [drop_spaces Z.eqb Pos.eqb]. by rw Ea.
Qed.
Lemma leaves_trans s0 s q x t s1 q' x' t' : leaves s0 q x t s -> leaves s q' x' t' s1 -> leaves s0 q' x' t' s1.
Proof. intros [_ E] [H' E']. split; [done|by rw E']. Qed.
Lemma at_tree_pipe s q x t s' : same_but_pipe s s' -> at_tree s q x t -> leaves s q x t s'.
Proof. intros (Eo & Ei & _ & _ & _ & Eout & _) [Ht _ Hos]. split; [|done]. by split; rw ?Eo. Qed.
(** a line of one word goes to its command *)
Lemma execute_word s q x t b cmd name (P : Sh S -> Prop) : at_tree s q x t -> terminated b -> cstr b = word_line cmd name ->
  Forall plain cmd -> cmd <> [] -> (length cmd < 64)%nat -> Forall plain name -> name <> [] -> (length name < 128)%nat ->
  (forall s', P s' -> forall s'', same_but_pipe s' s'' -> P s'') ->
  (forall s1, leaves s q x t s1 -> (forall nm n, os_place (sh_os s) (current_dir_inode s) nm true n -> os_place (sh_os s1) (current_dir_inode s) nm true n) ->
    wp (dispatch (put cmd (zeros 64)) (put name (zeros 128)) (put [] (zeros 128))) (fun h s' => h = false /\ P s') s1) ->
  wp (execute b) (fun h s' => h = false /\ P s') s.
Proof.
  intros Ha Ht Ec Hc Nc Lc Hn Nn Ln HP Hd. apply (execute_words cmd_wc cmd_testuser find_fuel s b cmd name []); try done.
  - rw Ec. by destruct cmd.
  - rw Ec. apply Forall_app. split; [|constructor; [done|]]; (eapply Forall_impl; [eassumption|]); rw /plain; cbn; tauto.
  - rw Ec. by apply three_words_word.
  - cbn. lia.
  - intros s1 E1. apply Hd; [by eapply at_tree_pipe|]. intros nm n Hpl. destruct E1 as (Eo & _). by rw Eo.
Qed.
Lemma leaves_pipe s q x t s' s'' : leaves s q x t s' -> same_but_pipe s' s'' -> leaves s q x t s''.
Proof. intros Hl E. eapply leaves_trans; [exact Hl|]. eapply at_tree_pipe; [exact E|apply Hl]. Qed.

Lemma says_mkdir made a b x : cstr a = cstr b -> says (mkdir_says made a) x = says (mkdir_says made b) x.
Proof. intros E. destruct made; [|done]. by rw /says /= E. Qed.
Lemma says_rm o a b x : cstr a = cstr b -> says (rm_says o a) x = says (rm_says o b) x.
Proof. intros E. destruct o as [[m|c]|]; [|by rw /says /= E..]. rw /rm_says. destruct (childless m); [|done]. by rw /says /= E. Qed.

Lemma mkdir_line s q x t m b name : at_tree s q x t -> t !! current_dir_inode s = Some (Folder m) ->
  terminated b -> cstr b = word_line (bytes_of "mkdir") name -> Forall plain name -> name <> [] -> (length name < 128)%nat ->
  (m !! name = None -> os_place (sh_os s) (current_dir_inode s) name true 0) -> let p := current_dir_inode s in
  wp (execute b) (fun h s' => h = false /\ match look t p name with
    | None => exists n, t !! n = None /\
        leaves s q (says (mkdir_says true (lit name)) x) (add_node t p name n (empty_folder p n)) s'
    | Some _ => leaves s q (says (mkdir_says false (lit name)) x) t s'
    end) s.
Proof.
  intros Ha Hp Ht Ec Hn Nn Ln Hpl p. destruct (put_name name 128) as [Hns En]; [done..|].
  have El : cstr (lit name) = name by apply cstr_lit; eapply Forall_impl; [exact Hn|]; rw /plain; cbn; lia.
  have Hcmd : Forall plain (bytes_of "mkdir") by rw /plain; repeat constructor; try lia; intros [=].
  eapply (execute_word s q x t b (bytes_of "mkdir") name); try done; [cbn; lia| |].
  - intros s' HP s'' E. cbv beta in HP |- *. destruct (look t p name); [by eapply leaves_pipe|].
    destruct HP as (n & Hfr & HP). exists n. split; [done|]. by eapply leaves_pipe.
  - intros s1 [Ha1 Ei] Hpl1. apply dispatch_mkdir. have M := cmd_mkdir_spec s1 q x t m (put name (zeros 128)) Ha1.
    rw En Ei in M. eapply wp_mono; [by apply M; auto|]. intros [] s2 HP. cbv zeta in HP. fold p in HP.
    have Hl0 : leaves s q x t s1 by split.
    destruct (look t p name) as [?|]; [|destruct HP as (n & Hfr & HP); exists n; split; [done|]];
      rewrite -> (says_mkdir _ (lit name) (put name (zeros 128))) by (by rw El); by eapply leaves_trans.
Qed.
Lemma rm_line s q x t m b name : at_tree s q x t -> t !! current_dir_inode s = Some (Folder m) ->
  terminated b -> cstr b = word_line (bytes_of "rm") name -> Forall plain name -> name <> [] -> (length name < 128)%nat ->
  dots name = false -> let p := current_dir_inode s in
  wp (execute b) (fun h s' => h = false /\
    leaves s q (says (rm_says (snd <$> look t p name) (lit name)) x) (rm_tree t p name) s') s.
Proof.
  intros Ha Hp Ht Ec Hn Nn Ln Hd p. destruct (put_name name 128) as [Hns En]; [done..|].
  have El : cstr (lit name) = name by apply cstr_lit; eapply Forall_impl; [exact Hn|]; rw /plain; cbn; lia.
  have Hcmd : Forall plain (bytes_of "rm") by rw /plain; repeat constructor; try lia; intros [=].
  eapply (execute_word s q x t b (bytes_of "rm") name); try done; [cbn; lia|intros; by eapply leaves_pipe|].
  intros s1 [Ha1 Ei] _. apply dispatch_rm. have M := cmd_rm_spec s1 q x t m (put name (zeros 128)) Ha1.
  rw En Ei in M. eapply wp_mono; [by apply M|]. intros [] s2 HP. cbv zeta in HP. fold p in HP.
  rewrite -> (says_rm _ (lit name) (put name (zeros 128))) by (by rw El). eapply leaves_trans; [|exact HP]. by split.
Qed.
(** a directory made and removed *)
Lemma mkdir_rm_lines s q x t m b b' name : at_tree s q x t -> t !! current_dir_inode s = Some (Folder m) ->
  m !! name = None -> os_place (sh_os s) (current_dir_inode s) name true 0 ->
  terminated b -> cstr b = word_line (bytes_of "mkdir") name -> terminated b' -> cstr b' = word_line (bytes_of "rm") name ->
  Forall plain name -> name <> [] -> (length name < 128)%nat ->
  wp (execute b;; execute b') (fun h s' => h = false /\
    leaves s q (says (mkdir_says true (lit name) ++ removed_says (lit name)) x) t s') s.
Proof.
  intros Ha Hp Hno Hpl Hb Eb Hb' Eb' Hn Nn Ln. set (p := current_dir_inode s).
  have Ht := law_tree_ok _ _ (at_os _ _ _ _ Ha).
  eapply wp_then; [by apply (mkdir_line s q x t m b name)|]. intros h s1 [-> HP]. cbv zeta in HP.
  fold p in HP. rewrite -> (look_none t p m name Hp Hno) in HP. destruct HP as (n & Hfr & L1).
  have Had : addable t p m name n (empty_folder p n) by split; [done|done|done|done|by right].
  have Hd := add_dots _ _ _ _ _ _ Had. have Hne := add_apart _ _ _ _ _ _ Had. destruct (L1) as [Ha1 Ei].
  destruct (add_folder t p m name n _ p m Had Hp) as (m' & Hp' & _).
  eapply wp_mono; [apply (rm_line s1 q _ _ m' b' name Ha1); try done; by rw Ei|].
  intros h s2 [-> L2]. split; [done|]. cbv zeta in L2. rw Ei in L2. fold p in L2.
  destruct (rm_empty _ _ _ _ _ (look_add _ _ _ _ _ _ Had)) as [Es Et]. rewrite -> Es, Et, (remove_add _ _ _ _ _ _ Had) in L2.
  rw /says foldl_app. eapply leaves_trans; [exact L1|exact L2].
Qed.
End Tree.

Section Properties.
Context {D : Type} `{BlockDeviceLaws D} `{StackJunkLaws} `{Overrun D}.
Variable F : Frame.
Hypothesis HF : frame_ok F.
#[local] Existing Instance kernel_os.
#[local] Instance tree_os : Os (Kernel D) := kernel_os F.
#[local] Instance tree_laws : OsLaws (Kernel D) := kernel_laws F HF.

(** C27: [rm] removes exactly what it names.  On a volume that holds a tree, the line [rm name]
    in a directory, for a name other than [.] and [..], takes a regular file or an empty
    directory out of the tree and says so, refuses a directory that is not empty, and reports a
    name that is missing; in these two cases the tree stays as it was, and in no case does
    anything else change in it. *)
Theorem rm_removes cmd_wc cmd_testuser find_fuel s q x t m b name : at_tree s q x t ->
  t !! current_dir_inode s = Some (Folder m) -> terminated b -> cstr b = word_line (bytes_of "rm") name ->
  Forall plain name -> name <> [] -> (length name < 128)%nat -> dots name = false ->
  let p := current_dir_inode s in
  wp (execute cmd_wc cmd_testuser find_fuel b) (fun h s' => h = false /\ current_dir_inode s' = p /\
    match look t p name with
    | None => at_tree s' q (says [(text "rm: No such file or directory: ", RED); (lit name, RED); (newline, WHITE)] x) t
    | Some (i, Folder mi) =>
      if childless mi then at_tree s' q (says (removed_says (lit name)) x) (remove_node t p name i)
      else at_tree s' q (says [(line "rm: Directory not empty", RED)] x) t
    | Some (i, Regular _) => at_tree s' q (says (removed_says (lit name)) x) (remove_node t p name i)
    end) s.
Proof.
  intros Ha Hp Ht Ec Hn Nn Ln Hd p.
  eapply wp_mono; [by apply (rm_line cmd_wc cmd_testuser find_fuel s q x t m b name)|].
  intros h s' (-> & L & Ei). split; [done|]. split; [done|]. fold p in L. rw /rm_tree in L.
  destruct (look t p name) as [[i [mi|c]]|]; cbn [fmap option_fmap option_map snd rm_says] in L; [|done|done].
  by destruct (childless mi).
Qed.
(** C26: a directory that is made and removed leaves no trace.  When the name is free and there is room, the
    lines [mkdir name] and [rm name] are worked off with their messages, and the
    volume holds the tree it held before, the new inode and the new blocks included. *)
Theorem mkdir_then_rm cmd_wc cmd_testuser find_fuel s q x t m b b' name : at_tree s q x t ->
  t !! current_dir_inode s = Some (Folder m) -> m !! name = None ->
  kernel_place (sh_os s) (current_dir_inode s) name true 0 ->
  terminated b -> cstr b = word_line (bytes_of "mkdir") name -> terminated b' -> cstr b' = word_line (bytes_of "rm") name ->
  Forall plain name -> name <> [] -> (length name < 128)%nat ->
  wp (execute cmd_wc cmd_testuser find_fuel b;; execute cmd_wc cmd_testuser find_fuel b') (fun h s' => h = false /\
    current_dir_inode s' = current_dir_inode s /\
    at_tree s' q (says (mkdir_says true (lit name) ++ removed_says (lit name)) x) t) s.
Proof.
  intros. eapply wp_mono; [by apply (mkdir_rm_lines cmd_wc cmd_testuser find_fuel s q x t m b b' name)|].
  intros h s' (? & ? & ?). done.
Qed.
End Properties.

#[local] Existing Instance kernel_os.
#[local] Instance demo_tree_os : Os (Kernel Image) := kernel_os demo_frame.
#[local] Instance demo_tree_laws : OsLaws (Kernel Image) := kernel_laws demo_frame demo_frame_ok.
Lemma demo_at_tree : at_tree demo_shell [] demo_term root_tree.
Proof.
  split; [exact (ready_tty _ _ _ _ demo_ready)|exact eq_refl|].
  exact (mem_only_volume _ _ _ program_mem_only demo_volume).
Qed.
Lemma demo_place : kernel_place (sh_os demo_shell) ROOT_INODE_NO (bytes_of "d") true 0.
Proof. eapply mem_only_place; [exact program_mem_only|]. apply formatted_place; [exact (proj1 demo_formatted)|exact eq_refl]. Qed.
Definition root_names : gmap (list Z) (Z * Z) :=
  <[dot := (ROOT_INODE_NO, EXT2_FT_DIR)]> {[dotdot := (ROOT_INODE_NO, EXT2_FT_DIR)]}.
Lemma mkdir_then_rm_witness :
  wp (execute (fun _ => mret tt) (mret tt) 0 (text "mkdir d");; execute (fun _ => mret tt) (mret tt) 0 (text "rm d"))
    (fun h s' => h = false /\ exists x, at_tree s' [] x root_tree) demo_shell.
Proof.
  eapply wp_mono; [apply (mkdir_then_rm demo_frame demo_frame_ok (fun _ => mret tt) (mret tt) 0 demo_shell [] demo_term root_tree
    root_names (text "mkdir d") (text "rm d") (bytes_of "d") demo_at_tree eq_refl eq_refl demo_place)|].
  - apply terminated_app.
  - reflexivity.
  - apply terminated_app.
  - reflexivity.
  - by repeat constructor.
  - discriminate.
  - cbn; lia.
  - intros h s' (Eh & _ & Ha). split; [exact Eh|]. eexists. exact Ha.
Defined.
(** the demonstration shell with one empty directory [d] *)
Lemma made_shell : exists s n x, at_tree s [] x (add_node root_tree ROOT_INODE_NO (bytes_of "d") n (empty_folder ROOT_INODE_NO n)) /\
  current_dir_inode s = ROOT_INODE_NO /\
  addable root_tree ROOT_INODE_NO root_names (bytes_of "d") n (empty_folder ROOT_INODE_NO n).
Proof.
  destruct (wp_elim _ _ _ (mkdir_line (fun _ => mret tt) (mret tt) 0 demo_shell [] demo_term root_tree root_names
    (text "mkdir d") (bytes_of "d") demo_at_tree eq_refl (terminated_app _ _) eq_refl ltac:(by repeat constructor)
    ltac:(discriminate) ltac:(cbn; lia) (fun _ => demo_place))) as (h & s & _ & _ & HP).
  cbv zeta in HP. change (current_dir_inode demo_shell) with ROOT_INODE_NO in HP.
  rewrite -> (look_none root_tree ROOT_INODE_NO root_names (bytes_of "d") eq_refl eq_refl) in HP.
  destruct HP as (n & Hn & Ha & Ei). eexists s, n, _. split; [exact Ha|]. split; [exact Ei|].
  split; [exact root_tree_ok|exact eq_refl|exact eq_refl|exact Hn|by right].
Qed.
Lemma rm_removes_witness : exists s x n, current_dir_inode s = ROOT_INODE_NO /\
  at_tree s [] x (add_node root_tree ROOT_INODE_NO (bytes_of "d") n (empty_folder ROOT_INODE_NO n)) /\
  wp (execute (fun _ => mret tt) (mret tt) 0 (text "rm d")) (fun h s' => h = false /\
    at_tree s' [] (says (removed_says (text "d")) x) root_tree) s.
Proof.
  destruct made_shell as (s & n & x & Ha & Ei & Had). exists s, x, n. split; [exact Ei|]. split; [exact Ha|].
  destruct (add_folder _ _ _ _ _ _ ROOT_INODE_NO root_names Had eq_refl) as (m & Hm & _).
  eapply wp_mono; [apply (rm_removes demo_frame demo_frame_ok (fun _ => mret tt) (mret tt) 0 s [] x
    (add_node root_tree ROOT_INODE_NO (bytes_of "d") n (empty_folder ROOT_INODE_NO n)) m (text "rm d") (bytes_of "d") Ha)|].
  - rewrite -> Ei. exact Hm.
  - apply terminated_app.
  - reflexivity.
  - by repeat constructor.
  - discriminate.
  - cbn; lia.
  - reflexivity.
  - intros h s' (Eh & _ & HP). rewrite -> Ei, (look_add _ _ _ _ _ _ Had) in HP. split; [exact Eh|].
    unfold empty_folder in HP at 1. rewrite -> (empty_folder_childless ROOT_INODE_NO n _ eq_refl), (remove_add _ _ _ _ _ _ Had) in HP.
    exact HP.
Defined.
