(* ===== verification/ShellAny.v ===== *)
(** * The shell on arbitrary data

    Whatever a directory, a file, a line of text or an answer of the kernel holds, each
    command but [find] ends: every walk over a directory moves on by a positive
    [rec_len] or stops, every scan of a string meets its end or leaves the object.  [find]
    follows the directories of the disk, which may contain each other. *)

From Stdlib Require Import String Ascii.
From S2P Require Import Prelude Lasts ShellStr Shell ShellCmd ShellMain.

(** ** Strings *)
(** an object of bytes that a 32-bit length can count *)
Definition object (b : list Z) : Prop := bytes_ok b /\ len b < 2 ^ 32.
Lemma array_object n b : array n b -> Z.of_nat n < 2 ^ 32 -> object b.
Proof. by intros [<- Hb] Hn. Qed.
Lemma object_get b i : bytes_ok b -> ends (arr_get b i) (fun c => byte c /\ 0 <= i < len b).
Proof. apply (ends_arr_get byte). Qed.
Lemma object_byte b i : object b -> ends (arr_get b i) byte.
Proof. intros [Hb _]. eapply ends_mono; [by apply object_get|]. by intros c []. Qed.

(** the loops that read index after index: [n] rounds are enough from index [i] *)
Definition enough (n : nat) (b : list Z) (i : Z) : Prop := 0 <= i <= len b /\ len b - i < Z.of_nat n.
Lemma enough_start b : enough (Datatypes.S (length b)) b 0.
Proof. rw /enough. lia. Qed.
Lemma enough_next n b i : enough (Datatypes.S n) b i -> 0 <= i < len b -> enough n b (i + 1).
Proof. rw /enough. lia. Qed.
Lemma enough_O b i : ~ enough 0 b i.
Proof. rw /enough. lia. Qed.
Lemma enough_from b i : 0 <= i <= len b -> enough (Datatypes.S (length b)) b i.
Proof. rw /enough. lia. Qed.

Lemma strlen_loop_any n b l : object b -> enough n b l -> ends (strlen_loop n b l) (fun k => 0 <= k < len b).
Proof.
  intros [Hb Hl]. revert l. induction n as [|n IH] => l Hn; cbn [strlen_loop]; [by apply enough_O in Hn|].
  eapply ends_bind; [by apply object_get|]. intros c [_ Hi]. destruct (c =? 0); [done|].
  rewrite -> u32_id by lia. by apply IH, enough_next.
Qed.
Lemma strlen_any b : object b -> ends (strlen b) (fun k => 0 <= k < len b).
Proof. intros Hb. apply strlen_loop_any; [done|apply enough_start]. Qed.
Lemma streq_any a b : bytes_ok a -> bytes_ok b -> ends (streq a b) (fun _ => True).
Proof.
  intros Ha Hb. rw /streq. generalize (enough_start a). generalize (Datatypes.S (length a)), 0. intros n.
  induction n as [|n IH] => i Hn; cbn [streq_loop]; [by apply enough_O in Hn|].
  eapply ends_bind; [by apply object_get|]. intros c [_ Hi]. destruct (c =? 0).
  - by eapply ends_bind; [by apply object_get|].
  - eapply ends_bind; [by apply object_get|]. intros d _. destruct (c =? d); [|done]. by apply IH, enough_next.
Qed.
Lemma strcpy_loop_any n k dst src i j : array k dst -> bytes_ok src -> enough n src j ->
  ends (strcpy_loop n dst src i j) (array k).
Proof.
  intros Hd Hs. revert dst i j Hd. induction n as [|n IH] => dst i j Hd Hn; cbn [strcpy_loop]; [by apply enough_O in Hn|].
  eapply ends_bind; [by apply object_get|]. intros c [Hc Hj]. destruct (c =? 0); [by apply array_set|].
  eapply ends_bind; [by apply array_set|]. intros d' Hd'. by apply IH; [|apply enough_next].
Qed.
Lemma strcpy_any k dst src : array k dst -> bytes_ok src -> ends (strcpy dst src) (array k).
Proof. intros Hd Hs. apply strcpy_loop_any; [done|done|apply enough_start]. Qed.
Lemma strcat_any k dst src : array k dst -> Z.of_nat k < 2 ^ 32 -> bytes_ok src -> ends (strcat dst src) (array k).
Proof.
  intros Hd Hk Hs. rw /strcat. eapply ends_bind; [apply strlen_loop_any; [by eapply array_object|apply enough_start]|].
  intros e _. apply strcpy_loop_any; [done|done|apply enough_start].
Qed.
Lemma fill_loop_any m n p i v : array n p -> ends (fill_loop m p i v) (array n).
Proof.
  revert p i. induction m as [|m IH] => p i Hp; cbn [fill_loop]; [done|].
  eapply ends_bind; [apply array_set; [done|apply u8_range]|]. intros p' Hp'. by apply IH.
Qed.
Lemma copy_loop_any m n d s i : array n d -> bytes_ok s -> ends (copy_loop m d s i) (array n).
Proof.
  intros Hd Hs. revert d i Hd. induction m as [|m IH] => d i Hd; cbn [copy_loop]; [done|].
  eapply ends_bind; [by apply object_get|]. intros c [Hc _]. eapply ends_bind; [by apply array_set|].
  intros d' Hd'. by apply IH.
Qed.
Lemma shell_memset_any n p v k : array n p -> ends (shell_memset p v k) (array n).
Proof. apply fill_loop_any. Qed.
Lemma shell_memcpy_any n d s k : array n d -> bytes_ok s -> ends (shell_memcpy d s k) (array n).
Proof. apply copy_loop_any. Qed.

Lemma skip_spaces_any n b i : bytes_ok b -> enough n b i -> ends (skip_spaces n b i) (fun j => i <= j < len b).
Proof.
  intros Hb. revert i. induction n as [|n IH] => i Hn; cbn [skip_spaces]; [by apply enough_O in Hn|].
  eapply ends_bind; [by apply object_get|]. intros c [_ Hi]. destruct (c =? 32); [|split; lia].
  eapply ends_mono; [by apply IH, enough_next|]. intros j. cbv beta. lia.
Qed.
Lemma take_word_any n k b out i j : bytes_ok b -> array k out -> enough n b i ->
  ends (take_word n b out i j) (fun r => array k r.1 /\ 0 <= r.2 <= len b).
Proof.
  intros Hb. revert out i j. induction n as [|n IH] => out i j Ho Hn; cbn [take_word]; [by apply enough_O in Hn|].
  eapply ends_bind; [by apply object_get|]. intros c [Hc Hi]. destruct (_ || _).
  - eapply ends_bind; [by apply array_set|]. intros out' Ho'. split; [done|cbn; lia].
  - eapply ends_bind; [by apply array_set|]. intros out' Ho'. by apply IH; [|apply enough_next].
Qed.
Lemma next_word_any k b out i : bytes_ok b -> array k out -> 0 <= i <= len b ->
  ends (next_word (Datatypes.S (length b)) b out i) (fun r => array k r.1 /\ 0 <= r.2 <= len b).
Proof.
  intros Hb Ho Hi. rw /next_word. eapply ends_bind; [apply skip_spaces_any; [done|apply enough_from; lia]|].
  intros j Hj. cbv beta in Hj. apply take_word_any; [done|done|apply enough_from; lia].
Qed.
Lemma parse_input_any b c a1 a2 : bytes_ok b -> array 64 c -> array 128 a1 -> array 128 a2 ->
  ends (parse_input b c a1 a2) (fun r => array 64 r.1.1 /\ array 128 r.1.2 /\ array 128 r.2).
Proof.
  intros Hb Hc H1 H2. rw /parse_input. cbv zeta. eapply ends_bind; [apply (next_word_any 64); [done|done|lia]|].
  intros [c' i] [Hc' Hi]. eapply ends_bind; [apply (next_word_any 128); done|]. intros [a1' i1] [H1' Hi1].
  eapply ends_bind; [apply (next_word_any 128); done|]. by intros [a2' i2] [H2' _].
Qed.

Lemma match_at_any k h n i j : bytes_ok h -> bytes_ok n -> ends (match_at k h n i j) (fun _ => True).
Proof.
  intros Hh Hn. revert j. induction k as [|k IH] => j; cbn [match_at]; [done|].
  eapply ends_bind; [by apply object_get|]. intros a _. eapply ends_bind; [by apply object_get|]. intros b _.
  by destruct (negb _).
Qed.
Lemma str_contains_any h n : object h -> object n -> ends (str_contains h n) (fun _ => True).
Proof.
  intros Hh Hn. rw /str_contains. eapply ends_bind; [by apply object_byte|]. intros c _. destruct (c =? 0); [done|].
  eapply ends_bind; [by apply strlen_any|]. intros nl _. eapply ends_bind; [by apply strlen_any|]. intros hl _.
  destruct (_ <? _); [done|]. generalize (Z.to_nat (u32 (hl - nl) + 1)), 0. intros k. induction k as [|k IH] => i; cbn [contains_loop]; [done|].
  eapply ends_bind; [apply match_at_any; [apply Hh|apply Hn]|]. intros m _. by destruct m.
Qed.
Lemma arr_set_inside {A} (l : list A) i x l' : arr_set l i x = Ok l' -> 0 <= i < len l.
Proof. rw /arr_set. destruct (Z.leb_spec 0 i), (Z.ltb_spec i (len l)); cbn; try done. Qed.
Lemma digits_loop_any n b i num : array 12 b -> 0 <= i <= 12 -> 12 - i < Z.of_nat n -> ends (digits_loop n b i num) (fun r => array 12 r.1).
Proof.
  revert b i num. induction n as [|n IH] => b i num Hb Hi Hn; [lia|]. cbn [digits_loop].
  destruct (0 <? num); [|done]. have Hc : byte (48 + num mod 10) by rw /byte; have := Z.mod_pos_bound num 10; lia.
  have Hset := array_set 12 b i _ Hb Hc. destruct (arr_set b i _) as [b'| |] eqn:E; [|done|done].
  apply arr_set_inside in E. destruct Hb as [Hl _]. apply IH; [exact Hset|lia|lia].
Qed.
Lemma digits_back_any i b : bytes_ok b -> ends (digits_back i b) bytes_ok.
Proof.
  intros Hb. induction i as [|i IH]; cbn [digits_back]; [by apply Forall_nil|].
  eapply ends_bind; [by apply object_get|]. intros c [Hc _]. eapply ends_bind; [exact IH|]. intros cs Hcs. by constructor.
Qed.
Lemma print_int_chars_any num : ends (print_int_chars num) bytes_ok.
Proof.
  rw /print_int_chars. destruct (num =? 0); [by repeat constructor|].
  eapply ends_bind; [apply digits_loop_any; [apply array_zeros|done|done]|]. intros [b i] [_ Hb]. by apply digits_back_any.
Qed.

(** ** Literals *)
Lemma bytes_of_ok s : bytes_ok (bytes_of s).
Proof. induction s as [|a s IH]; [by apply Forall_nil|]. constructor; [|exact IH]. have := N_ascii_bounded a. lia. Qed.
Lemma bytes_of_length s : length (bytes_of s) = String.length s.
Proof. induction s as [|a s IH]; [done|]. cbn. by rw IH. Qed.
Lemma lit_object b : bytes_ok b -> len b < 2 ^ 31 -> object (lit b).
Proof. intros Hb Hl. split; [by apply bytes_ok_app; split; [|repeat constructor]|rw length_app /=; lia]. Qed.
Lemma text_object s : bool_decide (Z.of_nat (String.length s) < 1000) = true -> object (text s).
Proof. intros E%bool_decide_eq_true. apply lit_object; [apply bytes_of_ok|rw bytes_of_length; lia]. Qed.
Lemma line_object s : bool_decide (Z.of_nat (String.length s) < 1000) = true -> object (line s).
Proof.
  intros E%bool_decide_eq_true. apply lit_object; [apply bytes_ok_app; split; [apply bytes_of_ok|by repeat constructor]|].
  rw length_app bytes_of_length /=. lia.
Qed.
Lemma newline_object : object newline.
Proof. apply lit_object; [by repeat constructor|done]. Qed.

(** ** The interface: calls that end, with answers of the right shape *)
Class OsAnswers (S : Type) `{Os S} := {
  os_ok : S -> Prop;
  any_os_read nm p b : bytes_ok nm -> len nm < 256 -> bytes_ok b -> lasts os_ok (os_read nm p b) (fun r => array (length b) r.2);
  any_os_read_dir p b : bytes_ok b -> lasts os_ok (os_read_dir p b) (fun r => array (length b) r.2);
  any_os_write nm p b d : bytes_ok nm -> len nm < 256 -> bytes_ok b -> lasts os_ok (os_write nm p b d) (fun _ => True);
  any_os_delete nm p d : bytes_ok nm -> len nm < 256 -> lasts os_ok (os_delete nm p d) (fun _ => True);
  any_os_stat nm p : bytes_ok nm -> len nm < 256 -> lasts os_ok (os_stat nm p) (fun _ => True);
  any_os_getchar : lasts os_ok os_getchar byte;
  any_os_putchar c color : lasts os_ok (os_putchar c color) (fun _ => True);
  any_os_puts str color : bytes_ok str -> lasts os_ok (os_puts str color) (fun _ => True);
  any_os_activate_kbd : lasts os_ok os_activate_kbd (fun _ => True);
}.

(** [r] bounds what is left to read *)
Record pipe_typed (r : Z) (p : Pipe) : Prop := {
  pt_out : array 4096 (pipe_output_buffer p);
  pt_in : array 4096 (pipe_input_buffer p);
  pt_out_len : 0 <= pipe_output_len p < 4096;
  pt_in_len : 0 <= pipe_input_len p < 4096;
  pt_pos : 0 <= pipe_input_pos p;
  pt_left : pipe_input_len p - pipe_input_pos p <= r;
}.

Section Shell.
Context {S : Type} `{OsAnswers S}.
Abbreviation SM := (M (Sh S)).
Variable r : Z.

Record sh_typed (s : Sh S) : Prop := {
  sh_os_ok : os_ok (sh_os s);
  sh_pipe_ok : pipe_typed r (sh_pipe s);
  sh_cwd_ok : array 256 (cwd s);
  sh_dir_ok : array 4096 (dir_buffer s);
  sh_file_ok : array (Z.to_nat 32768) (file_buffer s);
}.
Abbreviation sh_lasts := (lasts sh_typed).

Lemma sys_any {A} (m : M S A) R : lasts os_ok m R -> sh_lasts (sys m) R.
Proof.
  intros Hm. change (sys m) with (zoom sh_os (fun o (s : Sh S) =>
    mkSh o (sh_pipe s) (sh_find s) (current_dir_inode s) (cwd s) (dir_buffer s) (file_buffer s)) m).
  eapply lasts_zoom; [apply sh_os_ok| |exact Hm]. intros s o [] Ho. by constructor.
Qed.
Lemma gets_pipe_any : sh_lasts (gets sh_pipe) (pipe_typed r).
Proof. apply lasts_gets. by intros s []. Qed.
Lemma gets_cwd_any : sh_lasts (gets cwd) (array 256).
Proof. apply lasts_gets. by intros s []. Qed.
Lemma gets_dir_any : sh_lasts (gets dir_buffer) (array 4096).
Proof. apply lasts_gets. by intros s []. Qed.
Lemma gets_file_any : sh_lasts (gets file_buffer) (array (Z.to_nat 32768)).
Proof. apply lasts_gets. by intros s []. Qed.
Lemma gets_inode_any : sh_lasts (gets current_dir_inode) (fun _ => True).
Proof. by apply lasts_gets. Qed.
Lemma set_pipe_any p : pipe_typed r p -> sh_lasts (set_pipe p) (fun _ => True).
Proof. intros Hp. apply lasts_modify. intros s []. by constructor. Qed.
Lemma set_dir_any n : sh_lasts (set_dir n) (fun _ => True).
Proof. apply lasts_modify. intros s []. by constructor. Qed.
Lemma set_cwd_any w : array 256 w -> sh_lasts (set_cwd w) (fun _ => True).
Proof. intros Hw. apply lasts_modify. intros s []. by constructor. Qed.
Lemma set_dir_buffer_any b : array 4096 b -> sh_lasts (set_dir_buffer b) (fun _ => True).
Proof. intros Hb. apply lasts_modify. intros s []. by constructor. Qed.
Lemma set_file_buffer_any b : array (Z.to_nat 32768) b -> sh_lasts (set_file_buffer b) (fun _ => True).
Proof. intros Hb. apply lasts_modify. intros s []. by constructor. Qed.

(** ** The pipe, output and input *)
Lemma pipe_reset_any : 0 <= r -> sh_lasts pipe_reset (fun _ => True).
Proof. intros Hr. eapply lasts_bind; [apply gets_pipe_any|]. intros p []. apply set_pipe_any. by constructor. Qed.
Lemma pipe_output_any e : sh_lasts (pipe_set_output_mode e) (fun _ => True).
Proof.
  eapply lasts_bind; [apply gets_pipe_any|]. intros p []. destruct e; [|by apply set_pipe_any; constructor].
  eapply lasts_bind; [by apply lasts_lift, shell_memset_any|]. intros b Hb. apply set_pipe_any. by constructor.
Qed.
Lemma pipe_transfer_any : 4096 <= r -> sh_lasts pipe_transfer_output_to_input (fun _ => True).
Proof.
  intros Hr. eapply lasts_bind; [apply gets_pipe_any|]. intros p [[Ho1 Ho2] Hi ? ? ? ?].
  eapply lasts_bind; [by apply lasts_lift, shell_memcpy_any|]. intros b Hb. apply set_pipe_any. constructor; cbn; try done; lia.
Qed.
Lemma pipe_input_any e : 4096 <= r -> sh_lasts (pipe_set_input_mode e) (fun _ => True).
Proof. intros Hr. eapply lasts_bind; [apply gets_pipe_any|]. intros p []. apply set_pipe_any. constructor; cbn; try done; destruct e; lia. Qed.
Lemma pipe_put_any c p : byte c -> pipe_typed r p -> ends (pipe_put c p) (pipe_typed r).
Proof.
  intros Hc [? ? ? ? ? ?]. rw /pipe_put. destruct (Z.ltb_spec (pipe_output_len p) (PIPE_BUFFER_SIZE - 1)) as [Hl|]; [|by constructor].
  eapply ends_bind; [by apply array_set|]. intros b Hb. rw /PIPE_BUFFER_SIZE in Hl. constructor; cbn; try done; lia.
Qed.
Lemma pipe_puts_any str p : bytes_ok str -> pipe_typed r p -> ends (pipe_puts str p) (pipe_typed r).
Proof.
  intros Hs. revert p. induction Hs as [|c str Hc Hs IH] => p Hp; cbn [pipe_puts]; [done|].
  eapply ends_bind; [by apply pipe_put_any|]. intros p' Hp'. by apply IH.
Qed.
Lemma puts_any str color : object str -> sh_lasts (puts str color) (fun _ => True).
Proof.
  intros Hs. eapply lasts_bind; [apply gets_pipe_any|]. intros p Hp. eapply lasts_bind; [by apply lasts_lift, strlen_any|].
  intros n _. have Ht : bytes_ok (take (Z.to_nat n) str) by apply bytes_ok_take, Hs. destruct (pipe_mode_output p).
  - eapply lasts_bind; [by apply lasts_lift, pipe_puts_any|]. intros p' Hp'. by apply set_pipe_any.
  - by apply sys_any, any_os_puts.
Qed.
Lemma putchar_any c color : byte c -> sh_lasts (putchar c color) (fun _ => True).
Proof.
  intros Hc. eapply lasts_bind; [apply gets_pipe_any|]. intros p Hp. destruct (pipe_mode_output p).
  - eapply lasts_bind; [by apply lasts_lift, pipe_put_any|]. intros p' Hp'. by apply set_pipe_any.
  - apply sys_any, any_os_putchar.
Qed.
Lemma print_int_any num color : sh_lasts (print_int num color) (fun _ => True).
Proof.
  eapply lasts_bind; [apply lasts_lift, print_int_chars_any|]. intros cs Hcs.
  induction Hcs as [|c cs Hc Hcs IH]; cbn [putchars]; [by apply lasts_ret|]. by eapply lasts_seq; [apply putchar_any|].
Qed.
Lemma getchar_any : sh_lasts getchar byte.
Proof.
  eapply lasts_bind; [apply gets_pipe_any|]. intros p [? Hi ? ? ? ?]. destruct (pipe_mode_input p); [|apply sys_any, any_os_getchar].
  destruct (_ <? _); [|by apply lasts_ret]. eapply lasts_bind; [apply lasts_lift; by eapply array_get|]. intros c [Hc _].
  eapply lasts_seq; [apply set_pipe_any; constructor; cbn; try done; lia|by apply lasts_ret].
Qed.

(** ** Requests *)
Lemma request_name_any name : object name -> ends (request_name name) (fun nm => bytes_ok nm /\ len nm < 256).
Proof.
  intros Hn. rw /request_name. eapply ends_bind; [by apply strlen_any|]. intros n _. split; [by apply bytes_ok_take, Hn|].
  have := u8_range n. rw length_take. lia.
Qed.
Lemma get_file_size_any name p : object name -> sh_lasts (get_file_size name p) (fun _ => True).
Proof.
  intros Hn. eapply lasts_bind; [by apply lasts_lift, request_name_any|]. intros nm [Hb Hl].
  eapply lasts_bind; [by apply sys_any, any_os_stat|]. intros [ret out] _. by destruct (negb _); apply lasts_ret.
Qed.
Lemma read_dir_any n : sh_lasts (read_dir n) (fun _ => True).
Proof.
  eapply lasts_bind; [apply gets_dir_any|]. intros b [Hl Hb]. eapply lasts_bind; [by apply sys_any, any_os_read_dir|].
  intros [ret b'] Hb'. rw Hl in Hb'. eapply lasts_seq; [by apply set_dir_buffer_any|by apply lasts_ret].
Qed.
Lemma read_file_any name p size : object name -> sh_lasts (read_file name p size) (fun _ => True).
Proof.
  intros Hn. eapply lasts_bind; [by apply lasts_lift, request_name_any|]. intros nm [Hb Hl].
  eapply lasts_bind; [apply gets_file_any|]. intros b Hb'. eapply lasts_bind; [apply lasts_lift, array_slice, Hb'|].
  intros bs [_ Hbs]. eapply lasts_bind; [by apply sys_any, any_os_read|]. intros [ret bs'] [_ Hbs'].
  eapply lasts_bind; [by apply lasts_lift, array_splice|]. intros b2 Hb2.
  eapply lasts_seq; [by apply set_file_buffer_any|by apply lasts_ret].
Qed.
Lemma write_file_any name p size : object name -> sh_lasts (write_file name p size) (fun _ => True).
Proof.
  intros Hn. eapply lasts_bind; [by apply lasts_lift, request_name_any|]. intros nm [Hb Hl].
  eapply lasts_bind; [apply gets_file_any|]. intros b Hb'. eapply lasts_bind; [apply lasts_lift, array_slice, Hb'|].
  intros bs [_ Hbs]. by apply sys_any, any_os_write.
Qed.
Lemma delete_name_any name p d : object name -> sh_lasts (delete_name name p d) (fun _ => True).
Proof.
  intros Hn. eapply lasts_bind; [by apply lasts_lift, request_name_any|]. intros nm [Hb Hl]. by apply sys_any, any_os_delete.
Qed.
Lemma overwrite_any name p size : object name -> sh_lasts (overwrite name p size) (fun _ => True).
Proof.
  intros Hn. eapply lasts_bind; [by apply write_file_any|]. intros ret _. destruct (ret =? 1); [|by apply lasts_ret].
  eapply lasts_seq; [by apply delete_name_any|by apply write_file_any].
Qed.

(** ** Fields of directory entries *)
Lemma de_field_any n off : sh_lasts (de_field n off) (fun v => 0 <= v < 256 ^ Z.of_nat n).
Proof. eapply lasts_bind; [apply gets_dir_any|]. intros b [_ Hb]. by apply lasts_lift, ends_ld. Qed.
Lemma entry_inode_any off : sh_lasts (entry_inode off) (fun _ => True).
Proof. eapply lasts_any, de_field_any. Qed.
Lemma entry_rec_len_any off : sh_lasts (entry_rec_len off) (fun v => 0 <= v).
Proof. eapply lasts_mono; [apply de_field_any|]. by intros v []. Qed.
Lemma entry_name_len_any off : sh_lasts (entry_name_len off) byte.
Proof. apply de_field_any. Qed.
Lemma entry_file_type_any off : sh_lasts (entry_file_type off) (fun _ => True).
Proof. eapply lasts_any, de_field_any. Qed.
Lemma entry_char_any off i : sh_lasts (entry_char off i) byte.
Proof.
  eapply lasts_bind; [apply gets_dir_any|]. intros b Hb. eapply lasts_mono; [by apply lasts_lift, (array_get 4096)|].
  by intros c [].
Qed.
Lemma same_name_any k off i path : bytes_ok path -> sh_lasts (same_name k off i path) (fun _ => True).
Proof.
  intros Hp. revert i. induction k as [|k IH] => i; cbn [same_name]; [by apply lasts_ret|].
  eapply lasts_bind; [apply entry_char_any|]. intros a _. eapply lasts_bind; [by apply lasts_lift, object_get|]. intros b _.
  destruct (negb _); [by apply lasts_ret|apply IH].
Qed.
Lemma error_name_any msg name : bool_decide (Z.of_nat (String.length msg) < 1000) = true -> object name ->
  sh_lasts (error_name msg name) (fun _ => True).
Proof.
  intros Hm Hn. eapply lasts_seq; [by apply puts_any, text_object|]. eapply lasts_seq; [by apply puts_any|].
  apply puts_any, newline_object.
Qed.
End Shell.

(** ** The hints *)
#[export] Hint Extern 1 (object (text _)) => apply text_object; reflexivity : lasts.
#[export] Hint Extern 1 (object (line _)) => apply line_object; reflexivity : lasts.
#[export] Hint Extern 1 (_ = true) => reflexivity : lasts.
#[export] Hint Resolve newline_object object_byte streq_any puts_any putchar_any print_int_any getchar_any get_file_size_any
  read_dir_any read_file_any write_file_any delete_name_any overwrite_any entry_inode_any entry_rec_len_any
  entry_name_len_any entry_file_type_any entry_char_any same_name_any error_name_any strlen_any
  gets_pipe_any gets_cwd_any gets_dir_any gets_file_any gets_inode_any set_dir_any set_cwd_any : lasts.

Section Commands.
Context {S : Type} `{OsAnswers S}.
Variable r : Z.
Abbreviation sh_lasts := (lasts (sh_typed r)).

Lemma object_bytes b : object b -> bytes_ok b.
Proof. by intros []. Qed.
Lemma cwd_object w : array 256 w -> object w.
Proof. intros Hw. by eapply array_object. Qed.
Lemma strcpy_cwd w b : array 256 w -> bytes_ok b -> sh_lasts (lift (strcpy w b)) (array 256).
Proof. intros Hw Hb. by apply lasts_lift, strcpy_any. Qed.
Lemma strcat_cwd w b : array 256 w -> bytes_ok b -> sh_lasts (lift (strcat w b)) (array 256).
Proof. intros Hw Hb. by apply lasts_lift, strcat_any. Qed.
#[local] Hint Resolve object_bytes cwd_object strcpy_cwd strcat_cwd : lasts.

(** [n] rounds are enough to walk the directory buffer from [off] *)
Definition walk (n : nat) (off : Z) : Prop := 0 <= off /\ (0 < n)%nat /\ 4096 - off < Z.of_nat n.
Lemma walk_start : walk 4097 0.
Proof. rw /walk. lia. Qed.
Lemma walk_next n off rl : walk (Datatypes.S n) off -> off < 4096 -> 0 <= rl -> rl <> 0 -> walk n (off + rl).
Proof. rw /walk. lia. Qed.
Lemma walk_O off : ~ walk 0 off.
Proof. rw /walk. lia. Qed.
Ltac walk_ind n IH := let Hn := fresh "Hn" in
  induction n as [|n IH]; intros off Hn; [by apply walk_O in Hn|].
Ltac walk_rec := eapply walk_next; [eassumption|by apply Z.ltb_lt|eassumption|by apply Z.eqb_neq].

(** ** [cd] *)
Lemma cd_root_any : sh_lasts cd_root (fun _ => True).
Proof. rw /cd_root. lasts_auto. Qed.
Lemma cd_parent_any n off : walk n off -> sh_lasts (cd_parent_loop n off) (fun _ => True).
Proof.
  revert off. walk_ind n IH. cbn [cd_parent_loop]. destruct (off <? 4096) eqn:Eo; [|by apply lasts_ret].
  eapply lasts_bind; [apply entry_inode_any|]. intros i _. destruct (i =? 0); [by apply lasts_ret|].
  eapply lasts_bind; [apply entry_rec_len_any|]. intros rl Hrl. destruct (rl =? 0) eqn:Er; [by apply lasts_ret|].
  eapply lasts_bind; [apply entry_name_len_any|]. intros nl _. eapply (lasts_bind _ _ _ (fun _ => True)); [lasts_auto|].
  intros [] _; [lasts_auto|]. apply IH. walk_rec.
Qed.
Lemma cd_loop_any n off path : object path -> walk n off -> sh_lasts (cd_loop n off path) (fun _ => True).
Proof.
  intros Hp. revert off. walk_ind n IH. cbn [cd_loop]. destruct (off <? 4096) eqn:Eo; [|lasts_auto].
  eapply lasts_bind; [apply entry_inode_any|]. intros i _. destruct (i =? 0); [lasts_auto|].
  eapply lasts_bind; [apply entry_rec_len_any|]. intros rl Hrl. destruct (rl =? 0) eqn:Er; [lasts_auto|].
  eapply lasts_bind; [apply entry_name_len_any|]. intros nl _. eapply lasts_bind; [by apply lasts_lift, strlen_any|]. intros pl _.
  eapply (lasts_bind _ _ _ (fun _ => True)); [lasts_auto|]. intros [] _; [|apply IH; walk_rec].
  eapply lasts_bind; [apply entry_file_type_any|]. intros ft _. destruct (ft =? 2); [|lasts_auto].
  eapply lasts_seq; [apply set_dir_any|]. eapply lasts_bind; [apply gets_cwd_any|]. intros w Hw.
  eapply lasts_bind; [apply lasts_lift, streq_any; [apply Hw|apply bytes_ok_app; split; [apply bytes_of_ok|by repeat constructor]]|].
  intros root _. eapply (lasts_bind _ _ _ (array 256)).
  { apply lasts_lift. destruct root; [done|]. apply strcat_any; [done|done|]. apply bytes_ok_app; split; [apply bytes_of_ok|by repeat constructor]. }
  intros w1 Hw1. lasts_auto.
Qed.
Lemma cmd_cd_any path : object path -> sh_lasts (cmd_cd path) (fun _ => True).
Proof.
  intros Hp. rw /cmd_cd. eapply lasts_bind; [by apply lasts_lift, object_byte|]. intros c _.
  destruct (c =? 0); [apply cd_root_any|]. eapply (lasts_bind _ _ _ (fun _ => True)); [by eauto 6 with lasts|]. intros [] _; [apply cd_root_any|].
  eapply (lasts_bind _ _ _ (fun _ => True)); [by eauto 6 with lasts|]. intros [] _.
  - eapply lasts_bind; [apply gets_inode_any|]. intros cur _. destruct (cur =? 2); [by apply lasts_ret|].
    eapply lasts_bind; [apply read_dir_any|]. intros ret _. destruct (ret =? 0); [apply cd_parent_any, walk_start|by apply lasts_ret].
  - eapply lasts_bind; [apply gets_inode_any|]. intros cur _. eapply lasts_bind; [apply read_dir_any|]. intros ret _.
    destruct (negb _); [lasts_auto|]. by apply cd_loop_any; [|apply walk_start].
Qed.

(** ** [ls] *)
Lemma ls_name_any k off i : sh_lasts (ls_name k off i) (fun _ => True).
Proof.
  revert i. induction k as [|k IH] => i; cbn [ls_name]; [by apply lasts_ret|].
  eapply lasts_bind; [apply entry_char_any|]. intros c Hc. eapply lasts_bind; [apply entry_file_type_any|]. intros ft _.
  eapply lasts_seq; [by apply putchar_any|apply IH].
Qed.
Lemma ls_loop_any n off : walk n off -> sh_lasts (ls_loop n off) (fun _ => True).
Proof.
  revert off. walk_ind n IH. cbn [ls_loop]. destruct (off <? 4096) eqn:Eo; [|by apply lasts_ret].
  eapply lasts_bind; [apply entry_inode_any|]. intros i _. destruct (i =? 0); [by apply lasts_ret|].
  eapply lasts_bind; [apply entry_rec_len_any|]. intros rl Hrl. destruct (rl =? 0) eqn:Er; [by apply lasts_ret|].
  eapply lasts_bind; [apply entry_name_len_any|]. intros nl _. eapply lasts_seq; [apply ls_name_any|].
  eapply lasts_bind; [apply entry_file_type_any|]. intros ft _. eapply (lasts_seq _ _ _ (fun _ => True)); [lasts_auto|].
  eapply lasts_seq; [by eauto with lasts|]. apply IH. walk_rec.
Qed.
Lemma cmd_ls_any : sh_lasts cmd_ls (fun _ => True).
Proof.
  rw /cmd_ls. eapply lasts_bind; [apply gets_inode_any|]. intros cur _. eapply lasts_bind; [apply read_dir_any|]. intros ret _.
  destruct (negb _); [lasts_auto|]. eapply lasts_seq; [apply ls_loop_any, walk_start|lasts_auto].
Qed.

(** ** Files *)
Lemma write_dir_any nm p b d : bytes_ok nm /\ len nm < 256 -> bytes_ok b -> sh_lasts (sys (os_write nm p b d)) (fun _ => True).
Proof. intros [Hn Hl] Hb. by apply sys_any, any_os_write. Qed.
Lemma stat_name_any nm p : bytes_ok nm /\ len nm < 256 -> sh_lasts (sys (os_stat nm p)) (fun _ => True).
Proof. intros [Hn Hl]. by apply sys_any, any_os_stat. Qed.
Lemma nil_bytes : bytes_ok [].
Proof. by apply Forall_nil. Qed.
Lemma object_first b : object b -> sh_lasts (lift (arr_get b 0)) (fun _ => True).
Proof. intros Hb. apply lasts_lift. eapply ends_mono; [by apply object_byte|done]. Qed.
Lemma missing_any a dst : object dst -> sh_lasts (if a =? 0 then mret true else b ← lift (arr_get dst 0); mret (b =? 0)) (fun _ => True).
Proof. intros Hd. destruct (a =? 0); [by apply lasts_ret|]. eapply lasts_bind; [by apply object_first|]. intros b _. by apply lasts_ret. Qed.
#[local] Hint Resolve request_name_any write_dir_any stat_name_any nil_bytes object_first missing_any : lasts.

Lemma cmd_mkdir_any name : object name -> sh_lasts (cmd_mkdir name) (fun _ => True).
Proof. intros Hn. rw /cmd_mkdir. lasts_auto. Qed.
Lemma cat_loop_any k i : sh_lasts (cat_loop k i) (fun _ => True).
Proof.
  revert i. induction k as [|k IH] => i; cbn [cat_loop]; [by apply lasts_ret|]. eapply lasts_bind; [apply gets_file_any|].
  intros b [_ Hb]. eapply lasts_bind; [by apply lasts_lift, object_get|]. intros c [Hc _].
  eapply (lasts_seq _ _ _ (fun _ => True)); [lasts_auto|apply IH].
Qed.
Lemma file_object b : array (Z.to_nat 32768) b -> object b.
Proof. intros Hb. by eapply array_object. Qed.
#[local] Hint Resolve cat_loop_any file_object : lasts.
Lemma cmd_cat_any name : object name -> sh_lasts (cmd_cat name) (fun _ => True).
Proof. intros Hn. rw /cmd_cat. lasts_auto. Qed.
Lemma cmd_cp_any src dst : object src -> object dst -> sh_lasts (cmd_cp src dst) (fun _ => True).
Proof. intros Hs Hd. rw /cmd_cp. lasts_auto. Qed.
Lemma cmd_rm_any name : object name -> sh_lasts (cmd_rm name) (fun _ => True).
Proof.
  intros Hn. rw /cmd_rm. eapply lasts_bind; [by apply object_first|]. intros c _. destruct (c =? 0); [lasts_auto|].
  eapply lasts_bind; [apply gets_inode_any|]. intros cur _. eapply lasts_bind; [by apply delete_name_any|]. intros ret _.
  eapply (lasts_bind _ _ _ (fun _ => True)); [lasts_auto|]. intros ret' _. lasts_auto.
Qed.

(** ** [mv] *)
Lemma is_directory_loop_any n off name : object name -> walk n off -> sh_lasts (is_directory_loop n off name) (fun _ => True).
Proof.
  intros Hp. revert off. walk_ind n IH. cbn [is_directory_loop]. destruct (off <? 4096) eqn:Eo; [|by apply lasts_ret].
  eapply lasts_bind; [apply entry_rec_len_any|]. intros rl Hrl. destruct (rl =? 0) eqn:Er; [by apply lasts_ret|].
  eapply lasts_bind; [apply entry_inode_any|]. intros i _. eapply (lasts_bind _ _ _ (fun _ => True)).
  { destruct (i =? 0); [by apply lasts_ret|]. eapply lasts_bind; [by apply lasts_lift, strlen_any|]. intros nl _.
    eapply lasts_bind; [apply entry_name_len_any|]. intros el _. lasts_auto. }
  intros [] _; [by apply lasts_ret|]. apply IH. walk_rec.
Qed.
Lemma is_directory_any name : object name -> sh_lasts (is_directory name) (fun _ => True).
Proof.
  intros Hn. rw /is_directory. eapply lasts_bind; [by apply lasts_lift, request_name_any|]. intros nm Hnm.
  eapply lasts_bind; [apply gets_inode_any|]. intros cur _. eapply lasts_bind; [by apply stat_name_any|]. intros [ret out] _.
  destruct (_ && _); [|by apply lasts_ret]. eapply lasts_bind; [apply read_dir_any|]. intros ret' _.
  destruct (_ =? 0); [|by apply lasts_ret]. by apply is_directory_loop_any; [|apply walk_start].
Qed.
Lemma array128_object b : array 128 b -> object b.
Proof. intros Hb. by eapply array_object. Qed.
#[local] Hint Resolve array128_object : lasts.
Lemma cmd_mv_any src dst : object src -> object dst -> sh_lasts (cmd_mv src dst) (fun _ => True).
Proof.
  intros Hs Hd. rw /cmd_mv. eapply lasts_bind; [by apply object_first|]. intros a _. eapply lasts_bind; [by apply missing_any|].
  intros [] _; [lasts_auto|]. eapply lasts_bind; [by apply is_directory_any|]. intros dir _.
  eapply lasts_bind; [apply gets_inode_any|]. intros cur _. eapply (lasts_bind _ _ _ (array 128)).
  { apply lasts_lift, strcpy_any; [apply array_zeros|]. destruct (negb _); [apply Hs|apply Hd]. }
  intros target Ht. lasts_auto. eapply (lasts_seq _ _ _ (fun _ => True)); lasts_auto.
Qed.

Lemma newlines_any k : sh_lasts (newlines k) (fun _ => True).
Proof. induction k as [|k IH]; cbn [newlines]; lasts_auto. Qed.
Lemma cmd_echo_any txt name : object txt -> object name -> sh_lasts (cmd_echo txt name) (fun _ => True).
Proof.
  intros Ht Hn. rw /cmd_echo. eapply lasts_bind; [by apply object_first|]. intros c _. destruct (c =? 0); [lasts_auto|].
  eapply lasts_bind; [by apply object_first|]. intros f _. destruct (f =? 0); [lasts_auto|].
  eapply lasts_bind; [by apply lasts_lift, strlen_any|]. intros n _. eapply lasts_bind; [apply gets_file_any|]. intros b Hb.
  eapply (lasts_bind _ _ _ (array (Z.to_nat 32768))).
  { apply lasts_lift. eapply ends_bind; [apply shell_memcpy_any; [done|apply Ht]|]. intros b1 Hb1. by apply array_set. }
  intros b2 Hb2. eapply lasts_seq; [by apply set_file_buffer_any|]. lasts_auto.
Qed.
Lemma cmd_help_any : sh_lasts cmd_help (fun _ => True).
Proof. rw /cmd_help. lasts_auto. Qed.
Lemma cmd_quit_any : sh_lasts cmd_quit_message (fun _ => True).
Proof. rw /cmd_quit_message. lasts_auto. Qed.

(** ** [grep] *)
Lemma array256_object b : array 256 b -> object b.
Proof. intros Hb. by eapply array_object. Qed.
Lemma grep_line_any ln pattern : array 256 ln -> object pattern -> sh_lasts (grep_line ln pattern) (fun _ => True).
Proof.
  intros Hl Hp. rw /grep_line. eapply lasts_bind; [apply lasts_lift, str_contains_any; [by apply array256_object|done]|].
  intros [] _; [|by apply lasts_ret]. eapply lasts_seq; [by apply puts_any, array256_object|]. apply puts_any, newline_object.
Qed.
Lemma grep_file_any k i size start n ln pattern : array 256 ln -> object pattern ->
  sh_lasts (grep_file k i size start n ln pattern) (fun _ => True).
Proof.
  intros Hl Hp. revert i start n ln Hl. induction k as [|k IH] => i start n ln Hl; cbn [grep_file]; [by apply lasts_ret|].
  eapply lasts_bind; [apply gets_file_any|]. intros b [_ Hb]. eapply (lasts_bind _ _ _ (fun _ => True)).
  { destruct (i =? size); [by apply lasts_ret|]. eapply lasts_bind; [by apply lasts_lift, object_get|]. intros c _. by apply lasts_ret. }
  intros [] _; [|by apply IH]. eapply (lasts_bind _ _ _ (array 256)); [|intros ln' Hl'; by apply IH].
  destruct (_ && _); [|by apply lasts_ret]. eapply (lasts_bind _ _ _ (array 256)).
  { apply lasts_lift. eapply ends_bind; [by apply array_slice|]. intros bs [_ Hbs].
    eapply ends_bind; [by apply array_splice|]. intros l Hl2. by apply array_set. }
  intros ln' Hl'. eapply lasts_seq; [by apply grep_line_any|by apply lasts_ret].
Qed.
End Commands.

(** every line taken from the pipe uses up at least one byte of it *)
Section Pipeline.
Context {S : Type} `{OsAnswers S}.

Lemma getline_loop_any r n b i p : array 256 b -> 0 <= i <= 255 -> 255 - i < Z.of_nat n -> pipe_typed r p ->
  ends (getline_loop n b i 256 p) (fun x => array 256 x.1.1 /\ pipe_typed r x.2 /\
    pipe_input_len x.2 = pipe_input_len p /\ pipe_input_pos p <= pipe_input_pos x.2 /\
    (pipe_input_pos p < pipe_input_len p -> i < 255 -> pipe_input_pos p < pipe_input_pos x.2)).
Proof.
  revert b i p. induction n as [|n IH] => b i p Hb Hi Hn Hp; [lia|]. cbn [getline_loop].
  change (u32 (256 - 1)) with 255. destruct (Z.ltb_spec (pipe_input_pos p) (pipe_input_len p)) as [Hl|Hl], (Z.ltb_spec i 255) as [Hi'|Hi'];
    try (split; [done|]; split; [done|]; split; [done|]; split; cbn; lia).
  cbn [andb]. eapply ends_bind; [apply (array_get 4096), Hp|]. intros c [Hc _]. cbv zeta.
  have Hp' : pipe_typed r (set_pos (pipe_input_pos p + 1) p) by destruct Hp; constructor; cbn; try done; lia.
  destruct (c =? 10); [split; [done|]; split; [done|]; split; [done|]; split; cbn; lia|].
  eapply ends_bind; [by apply array_set|]. intros b' Hb'. eapply ends_mono; [apply IH; [done|lia|lia|done]|].
  intros x (H1 & H2 & H3 & H4 & _). cbn in H3, H4. split; [done|]. split; [done|]. split; [done|]. lia.
Qed.
Lemma pipe_typed_mono r r' p : pipe_input_len p - pipe_input_pos p <= r' -> pipe_typed r p -> pipe_typed r' p.
Proof. intros Hr []. by constructor. Qed.
Lemma sh_typed_mono r r' s : r <= r' -> sh_typed r s -> sh_typed r' s.
Proof. intros Hr [? Hp]. constructor; try done. eapply pipe_typed_mono; [|done]. destruct Hp. lia. Qed.
Lemma getline_any r ln s : array 256 ln -> sh_typed r s ->
  match pipe_getline ln 256 s with
  | Ok ((more, ln'), s') => array 256 ln' /\ sh_typed r s' /\ ((more : bool) = true -> 0 < r /\ sh_typed (r - 1) s')
  | UB => True | NoFuel => False
  end.
Proof.
  intros Hl Hs. rw /pipe_getline bind_gets. have Hp := sh_pipe_ok _ _ Hs. set (p := sh_pipe s) in *.
  destruct (pipe_mode_input p); cbn [negb orb]; [|done].
  destruct (Z.leb_spec (pipe_input_len p) (pipe_input_pos p)) as [Hle|Hlt]; [done|]. rw /mbind /M_bind.
  have Hg := getline_loop_any r (Z.to_nat 256) ln 0 p Hl. specialize (Hg ltac:(lia) ltac:(lia) Hp).
  rw /lift. destruct (getline_loop _ _ _ _ _) as [[[b i] p']| |]; [|done|done]. destruct Hg as (Hb & Hp' & El & _ & Hpos).
  cbn in Hb, Hp', El, Hpos. specialize (Hpos Hlt ltac:(lia)). rw /set_pipe /modify. cbn beta iota.
  have Hset := array_set 256 b i 0 Hb. specialize (Hset ltac:(rw /byte; lia)).
  destruct (arr_set b i 0) as [b'| |]; [|done|done]. split; [done|]. destruct Hs as [Ho _ Hc Hd Hf].
  split; [by constructor|]. intros _. have Hleft := pt_left _ _ Hp. split; [lia|]. constructor; cbn; try done.
  eapply pipe_typed_mono; [|exact Hp']. lia.
Qed.
Lemma grep_pipe_any n ln pattern r : array 256 ln -> object pattern -> r < Z.of_nat n -> (0 < n)%nat ->
  lasts (sh_typed r) (grep_pipe n ln pattern) (fun _ => True).
Proof.
  intros Hl Hp. revert ln r Hl. induction n as [|n IH] => ln r Hl Hr Hn s Hs; [lia|]. cbn [grep_pipe]. rw {1}/mbind /M_bind.
  have Hg := getline_any r ln s Hl Hs. destruct (pipe_getline ln 256 s) as [[[more ln'] s']| |]; [|done|done].
  destruct Hg as (Hl' & Hs' & Hm). destruct more; [|done]. destruct (Hm eq_refl) as [Hr0 Hs2].
  have Hk : lasts (sh_typed (r - 1)) (grep_line ln' pattern;; grep_pipe n ln' pattern) (fun _ => True).
  { eapply lasts_seq; [by apply grep_line_any|]. apply IH; [done|lia|lia]. }
  have Hx := Hk s' Hs2. destruct ((grep_line ln' pattern;; grep_pipe n ln' pattern) s') as [[x s2]| |]; [|done|done].
  destruct Hx as [_ Hs3]. split; [done|]. eapply sh_typed_mono; [|exact Hs3]. lia.
Qed.
Lemma cmd_grep_any r pattern name : r <= 4096 -> object pattern -> object name ->
  lasts (sh_typed r) (cmd_grep pattern name) (fun _ => True).
Proof.
  intros Hr Hp Hn. rw /cmd_grep. eapply lasts_bind; [by apply object_first|]. intros c _. destruct (c =? 0); [lasts_auto|].
  eapply lasts_bind; [apply gets_pipe_any|]. intros p _. destruct (pipe_mode_input p).
  { apply grep_pipe_any; [apply array_zeros|done|lia|lia]. }
  eapply lasts_bind; [by apply object_first|]. intros f _. destruct (f =? 0); [lasts_auto|].
  eapply lasts_bind; [apply gets_inode_any|]. intros cur _. eapply lasts_bind; [by apply get_file_size_any|]. intros size _.
  destruct (size <? 0); [lasts_auto|]. destruct (32768 <? size); [lasts_auto|].
  eapply lasts_bind; [by apply read_file_any|]. intros ret _. destruct (negb _); [lasts_auto|].
  apply grep_file_any; [apply array_zeros|done].
Qed.
End Pipeline.

(** ** Lines *)
Section Lines.
Context {S : Type} `{OsAnswers S}.
Variables (cmd_wc : list Z -> M (Sh S) unit) (cmd_testuser : M (Sh S) unit) (find_fuel : nat).
Abbreviation sh_lasts := (lasts (sh_typed 4096)).
(** the two commands that the code calls and does not define *)
Hypothesis wc_ends : forall a, array 128 a -> sh_lasts (cmd_wc a) (fun _ => True).
Hypothesis testuser_ends : sh_lasts cmd_testuser (fun _ => True).
Abbreviation execute := (execute cmd_wc cmd_testuser find_fuel).

Lemma named_any {B} (a : list Z) (w : string) (x y : M (Sh S) B) R : bytes_ok a ->
  (streq a (text w) = Ok true -> sh_lasts x R) -> sh_lasts y R ->
  sh_lasts (b ← lift (streq a (text w)); if (b : bool) then x else y) R.
Proof.
  intros Ha Hx Hy. eapply (lasts_bind _ _ _ (fun b => streq a (text w) = Ok b)).
  - apply lasts_lift. have Hs := streq_any a (text w) Ha. apply ends_elim; [|done].
    intros E. rw E in Hs. apply Hs. apply bytes_ok_app; split; [apply bytes_of_ok|by repeat constructor].
  - intros [] E; [by apply Hx|exact Hy].
Qed.
Lemma then_false (x : M (Sh S) unit) : sh_lasts x (fun _ => True) -> sh_lasts (x;; mret false) (fun _ => True).
Proof. intros Hx. by eapply lasts_seq; [exact Hx|apply lasts_ret]. Qed.

#[local] Hint Resolve cwd_object object_first : lasts.
Lemma dispatch_any c a1 a2 : array 64 c -> array 128 a1 -> array 128 a2 -> streq c (text "find") <> Ok true ->
  sh_lasts (dispatch cmd_wc cmd_testuser find_fuel c a1 a2) (fun _ => True).
Proof.
  intros Hc H1 H2 Hf. have Hcb : bytes_ok c by apply Hc. have O1 := array128_object a1 H1. have O2 := array128_object a2 H2.
  have Oc : object c by eapply array_object.
  rw /dispatch. cbv zeta.
  apply named_any; [done|intros _; by apply then_false, cmd_cd_any|].
  apply named_any; [done|intros _; by apply then_false, cmd_ls_any|].
  apply named_any; [done|intros _; by apply then_false, cmd_mkdir_any|].
  apply named_any; [done|intros _; by apply then_false, cmd_cat_any|].
  apply named_any; [done|intros _; by apply then_false, cmd_cp_any|].
  apply named_any; [done|intros _; by apply then_false, cmd_rm_any|].
  apply named_any; [done|intros _; by apply then_false, cmd_mv_any|].
  apply named_any; [done|intros E; by destruct (Hf E)|].
  apply named_any; [done|intros _; by apply then_false, cmd_grep_any|].
  apply named_any; [done|intros _; by apply then_false, wc_ends|].
  apply named_any; [done|intros _; by apply then_false, cmd_echo_any|].
  apply named_any; [done|intros _; by apply then_false, newlines_any|].
  apply named_any; [done|intros _; by apply then_false, cmd_help_any|].
  eapply lasts_bind; [apply lasts_lift, streq_any; [done|apply (object_bytes _ (text_object "quit" eq_refl))]|]. intros q _.
  eapply (lasts_bind _ _ _ (fun _ => True)).
  { destruct q; [by apply lasts_ret|]. apply lasts_lift, streq_any; [done|apply (object_bytes _ (text_object "exit" eq_refl))]. }
  intros [] _; [eapply lasts_seq; [apply cmd_quit_any|by apply lasts_ret]|].
  apply named_any; [done|intros _; by apply then_false|].
  apply named_any; [done|intros _; lasts_auto|]. lasts_auto.
Qed.

Lemma split_pipes_any n b p cmds : array 256 b -> enough n b p ->
  ends (split_pipes n b p cmds) (fun x => array 256 x.1).
Proof.
  revert b p cmds. induction n as [|n IH] => b p cmds Hb Hn; cbn [split_pipes]; [by apply enough_O in Hn|].
  eapply ends_bind; [apply object_get, Hb|]. intros c [_ Hp]. destruct (c =? 0); [done|]. destruct (c =? 124).
  - eapply ends_bind; [by apply (array_set 256)|]. intros b' Hb'.
    have Hl : len b' = len b by destruct Hb as [-> _], Hb' as [-> _].
    have Hn' := enough_next _ _ _ Hn Hp. rw /enough -Hl in Hn'.
    eapply ends_bind; [apply skip_spaces_any; [apply Hb'|apply enough_from; lia]|]. intros q Hq. cbv beta in Hq.
    eapply ends_bind; [apply object_get, Hb'|]. intros c' _. apply IH; [done|]. rw /enough. lia.
  - by apply IH, enough_next.
Qed.

(** the line runs [find], at its start or behind a [|] *)
Definition names_find (b : list Z) (p : Z) : bool :=
  match parse_input (drop (Z.to_nat p) b) (zeros 64) (zeros 128) (zeros 128) with
  | Ok (c, _, _) => match streq c (text "find") with Ok found => found | _ => false end
  | _ => false
  end.
Definition runs_find (b : list Z) : bool :=
  match split_pipes (Datatypes.S (length b)) b 0 [0] with Ok (b', cmds) => existsb (names_find b') cmds | _ => false end.

Lemma run_pipeline_any b cmds i n : bytes_ok b -> existsb (names_find b) cmds = false ->
  sh_lasts (run_pipeline cmd_wc cmd_testuser find_fuel b cmds i n) (fun _ => True).
Proof.
  intros Hb. revert i. induction cmds as [|p cmds IH] => i Hf; cbn [run_pipeline]; [by apply lasts_ret|].
  cbn [existsb] in Hf. apply orb_false_iff in Hf as [Hf Hfs].
  eapply (lasts_bind _ _ _ (fun x => (array 64 x.1.1 /\ array 128 x.1.2 /\ array 128 x.2) /\ streq x.1.1 (text "find") <> Ok true)).
  { apply lasts_lift. have Hp := parse_input_any (drop (Z.to_nat p) b) _ _ _ (bytes_ok_drop _ _ Hb) (array_zeros 64) (array_zeros 128) (array_zeros 128).
    rw /names_find in Hf. destruct (parse_input _ _ _ _) as [[[c a1] a2]| |]; [|done|done]. split; [exact Hp|].
    intros E. change (streq c (text "find") = Ok true) in E. by rw E in Hf. }
  intros [[c a1] a2] [(Hc & H1 & H2) Hnf]. eapply (lasts_seq _ _ _ (fun _ => True)).
  { destruct (1 <? n)%nat; [|by apply lasts_ret]. eapply lasts_seq; [apply pipe_output_any|].
    destruct (0 <? i)%nat; [by apply pipe_input_any|by apply lasts_ret]. }
  eapply lasts_bind; [by apply dispatch_any|]. intros [] _; [by apply lasts_ret|].
  eapply (lasts_seq _ _ _ (fun _ => True)); [|by apply IH].
  destruct (i <? n - 1)%nat; [by apply pipe_transfer_any|by apply lasts_ret].
Qed.
Lemma execute_any b : array 256 b -> runs_find b = false -> sh_lasts (execute b) (fun _ => True).
Proof.
  intros Hb Hf. rw /execute. eapply lasts_bind; [apply lasts_lift, object_get, Hb|]. intros c _.
  destruct (c =? 0); [by apply lasts_ret|]. eapply lasts_seq; [by apply pipe_reset_any|].
  eapply (lasts_bind _ _ _ (fun x => array 256 x.1 /\ existsb (names_find x.1) x.2 = false)).
  { apply lasts_lift. have Hs := split_pipes_any _ b 0 [0] Hb (enough_start b). rw /runs_find in Hf.
    destruct (split_pipes _ _ _ _) as [[b' cmds]| |]; [|done|done]. by split. }
  intros [b' cmds] [[_ Hb'] Hf']. eapply lasts_bind; [by apply run_pipeline_any|]. intros [] _; [by apply lasts_ret|].
  eapply lasts_seq; [by apply pipe_reset_any|by apply lasts_ret].
Qed.
End Lines.
