(* ===== verification/ShellEnds.v ===== *)
(** * The shell on the kernel, on arbitrary data

    The calls of the modelled kernel end and keep its state well typed, so every command
    line but one that runs [find] is worked off in finitely many steps, whatever the disk holds. *)

From Stdlib Require Import String.
From S2P Require Import Prelude Lasts StdString BlockDevice Ext2Layout Ext2State Ext2 Ext2Format Ext2Write Inserter Ext2Any Ext2Theorems Keyboard Console Interrupt Syscalls KernelAny ShellStr Shell ShellCmd ShellMain ShellKernel ShellAny.

Section Kernel.
Context {D : Type} `{DeviceAnswers D} `{StackJunkLaws}.
Variable F : Frame.
Hypothesis HF : frame_ok F.
#[local] Instance the_kernel_os : Os (Kernel D) := kernel_os F.
Abbreviation kernel_lasts := (lasts (kernel_typed (D := D))).

Lemma syscall_any a b c d : kernel_lasts (syscall a b c d) (fun _ => True).
Proof. eapply lasts_bind; [apply handler_any|]. intros regs _. by apply lasts_ret. Qed.
Lemma request_bytes_any (nm data : list Z) p d : len nm < 256 ->
  bytes_ok (request_bytes (mkRequest (a_buf F) (a_name F) (len nm) p (len data) d)).
Proof.
  intros Hn. rw /request_bytes !bytes_ok_app. cbn [name_len is_directory].
  split; [apply le_bytes_ok|]. split; [apply le_bytes_ok|]. split; [constructor; [lia|done]|].
  split; [apply le_bytes_ok|]. split; [apply le_bytes_ok|]. constructor; [by destruct d|done].
Qed.
Lemma place_any nm data p d : bytes_ok nm -> len nm < 256 -> bytes_ok data -> kernel_lasts (place F nm data p d) (fun _ => True).
Proof.
  intros Hn Hl Hd. eapply lasts_seq; [by apply store_any|]. eapply lasts_seq; [by apply store_any|].
  by apply store_any, request_bytes_any.
Qed.
Lemma request_call_ends nr nm data p d : bytes_ok nm -> len nm < 256 -> bytes_ok data ->
  kernel_lasts (request_call F nr nm data p d) (fun _ => True).
Proof.
  intros Hn Hl Hd. eapply lasts_seq; [by apply place_any|]. eapply lasts_seq; [apply syscall_any|]. by apply lasts_gets.
Qed.
Lemma with_data_ends n (call : M (Kernel D) Z) : kernel_lasts call (fun _ => True) ->
  kernel_lasts (with_data F n call) (fun r => array n r.2).
Proof.
  intros Hc. eapply lasts_bind; [exact Hc|]. intros code _. eapply (lasts_bind _ _ _ (array n)).
  - apply lasts_gets. intros k [[] _ _]. split; [apply mem_load_length|by apply mem_load_ok].
  - intros bs Hbs. by apply lasts_ret.
Qed.
Lemma stat_call_ends nm p : bytes_ok nm -> len nm < 256 -> kernel_lasts (stat_call F nm p) (fun _ => True).
Proof.
  intros Hn Hl. eapply lasts_seq; [by apply store_any|]. eapply lasts_seq.
  { apply store_any, bytes_ok_app. split; [apply le_bytes_ok|]. apply bytes_ok_app.
    split; [constructor; [lia|done]|apply le_bytes_ok]. }
  eapply lasts_seq; [apply store_any, le_bytes_ok|]. eapply lasts_seq; [by apply store_any; repeat constructor|].
  eapply lasts_bind; [apply syscall_any|]. intros code _. eapply (lasts_bind _ _ _ (fun _ => True)); [by apply lasts_gets|].
  intros m _. by apply lasts_ret.
Qed.
#[local] Instance kernel_answers : OsAnswers (Kernel D).
Proof.
  unshelve econstructor; [exact kernel_typed|..]; cbn [os_read os_read_dir os_write os_delete os_stat os_getchar os_putchar os_puts os_activate_kbd the_kernel_os kernel_os].
  - intros nm p b Hn Hl Hb. by apply with_data_ends, request_call_ends.
  - intros p b Hb. apply with_data_ends, request_call_ends; [by apply Forall_nil|done|done].
  - intros nm p b d Hn Hl Hb. by apply request_call_ends.
  - intros nm p d Hn Hl. apply request_call_ends; [done|done|by apply Forall_nil].
  - intros nm p Hn Hl. by apply stat_call_ends.
  - eapply lasts_seq; [apply syscall_any|]. apply lasts_gets. intros k [[] _ _].
    destruct HF as [_ _ _ ([] & _) _ _ _ _ _ _]. apply ft_mem. lia.
  - intros c color. eapply lasts_seq; [apply syscall_any|by apply lasts_ret].
  - intros str color Hs. eapply lasts_seq; [by apply store_any|]. eapply lasts_seq; [apply syscall_any|by apply lasts_ret].
  - eapply lasts_seq; [apply syscall_any|by apply lasts_ret].
Defined.
End Kernel.

(** ** Property *)
Section Property.
Context {D : Type} `{DeviceAnswers D} `{StackJunkLaws}.
Variable F : Frame.
#[local] Existing Instance kernel_os.

(** C9: no command line runs on.  From any well-typed state of shell and kernel, whatever
    the blocks of the disk, the files and the pipe hold, and whatever the 256 bytes of the
    line are, as long as it does not run [find], working it off, pipelines and errors
    included, does not go on for ever: it either ends and leaves shell and kernel well typed,
    or reaches undefined behaviour.  The latter happens: a word of 64 or more characters
    overflows a buffer of the parser ([ShellStr.parse_input_words]), and a corrupt directory can name an
    inode beyond the table.  The two commands that the repository does not define are assumed
    to end. *)
Theorem every_line_ends cmd_wc cmd_testuser find_fuel b (s : Sh (Kernel D)) (HF : frame_ok F) :
  let typed := sh_typed (H0 := kernel_answers F HF) 4096 in
  (forall a, array 128 a -> lasts typed (cmd_wc a) (fun _ => True)) ->
  lasts typed cmd_testuser (fun _ => True) ->
  array 256 b -> typed s -> runs_find b = false ->
  execute (H := kernel_os F) cmd_wc cmd_testuser find_fuel b s <> NoFuel /\
  forall halted s', execute (H := kernel_os F) cmd_wc cmd_testuser find_fuel b s = Ok (halted, s') -> typed s'.
Proof.
  intros typed Hwc Htu Hb Hs Hf.
  pose proof (execute_any (H0 := kernel_answers F HF) cmd_wc cmd_testuser find_fuel Hwc Htu b Hb Hf s Hs) as Hx.
  destruct (execute _ _ _ _ _) as [[halted s']| |]; [|by split|done].
  destruct Hx as [_ Hs']. split; [done|]. by intros h s'' [= <- <-].
Qed.
End Property.

(** *** [ls | grep a] on the volume of nonsense *)
Definition nonsense_line : list Z := (bytes_of "ls | grep a" ++ zeros 245)%list.
Lemma nonsense_shell_typed : sh_typed (H0 := kernel_answers demo_frame demo_frame_ok) 4096 (initial_shell nonsense_kernel).
Proof.
  constructor; [exact nonsense_typed| |split; [done|by constructor; [|apply bytes_ok_zeros]]|apply array_zeros|apply array_zeros].
  constructor; cbn; try apply array_zeros; lia.
Qed.
Lemma every_line_ends_witness :
  runs_find nonsense_line = false /\
  execute (H := kernel_os demo_frame) (fun _ => mret tt) (mret tt) 0 nonsense_line (initial_shell nonsense_kernel) <> NoFuel.
Proof.
  split; [vm_compute; reflexivity|].
  refine (proj1 (every_line_ends demo_frame (fun _ => mret tt) (mret tt) 0 nonsense_line (initial_shell nonsense_kernel)
    demo_frame_ok _ _ _ nonsense_shell_typed _)).
  - intros a _. by apply lasts_ret.
  - by apply lasts_ret.
  - split; [done|]. apply bytes_ok_app. split; [apply bytes_of_ok|apply bytes_ok_zeros].
  - vm_compute. reflexivity.
Defined.
